(* ===== verification/_CoqProject ===== *)
-Q . S2P
Prelude.v
Proto.v
OMap.v
Floats.v
Crc.v
Segment.v
Pack.v
ZdsInstance.v
Channel.v
Selector.v
Links.v
DataStream.v
Testbed.v
StreamFacts.v
Framing.v
StreamWf.v
Reassembly.v
Completeness.v
Sending.v
EndToEnd.v
Traffic.v
Racing.v
Hazards.v
Relay.v
Socks.v
RelayLife.v
AppInv.v
Outport.v
OutportWf.v
Serve.v
Tunnel.v
Inport.v
InportWf.v
Uplink.v
Stray.v
NetInv.v
Manager.v
ManagerWf.v
ManagerProps.v
Node.v
Utp.v
Transit.v
TransitWf.v
TransitProps.v
ThroughTransit.v
Passage.v
Hops.v
Config.v
Machine.v
Gateway.v
MachineProps.v
Hosting.v
Duplex.v
Termination.v
