(* ===== verification/Prelude.v ===== *)
(** * libfgw: a multipath gateway, verified

    libfgw tunnels the TCP connections of local SOCKS5 clients over several links at
    once.  An _inport_ accepts clients and opens a session of its data stream for each; the
    stream cuts a session's bytes into numbered segments and writes each segment to the
    links a selector picks; an optional _transit_ passes segments on by the routing keys of
    their headers; the _outport_'s data stream drops duplicates, puts the segments back in
    order and hands the bytes to a relay session, which terminates SOCKS5 and connects to
    the target.  A machine hosts one of the three roles.

    ** Files, and the code they model

    - [Prelude]: machine words, buffers, generic lemmas.  [Proto]: [src/zfgw.h] and
      [src/zfgw_proto.h].  [OMap]: [std::map] with unsigned keys.  [Floats]: the doubles
      links are ranked by.
    - [Crc], [Segment]: [src/zfgw_segment.{h,cpp}], the wire format.  [Pack]:
      [src/zfgw_pack.cpp], the message codecs, over the class [ZdsRuntime] of the zce
      primitives; [ZdsInstance], a runtime that has the laws.
    - [Channel]: [src/zfgw_channel.{h,cpp}].  [Selector], [Links], [Manager]:
      [src/zfgw_channel_manager.{h,cpp}]; [ManagerWf] and [ManagerProps], its invariant and
      properties; [Utp], the UTP transport of the two files.
    - [DataStream]: [src/zfgw_datastream.{h,cpp}].  About it: [StreamFacts] (frame
      conditions), [Framing] (links as sequences of frames), [StreamWf] (the invariant),
      [Reassembly], [Completeness] and [Sending] (the two halves of the receive contract,
      and the send path), [EndToEnd], [Traffic] (what is said for one session among all
      that a stream writes), [Racing], [Hazards]; [Testbed], a concrete setting.
    - [Relay], [Outport]: [src/zfgw_outport.{h,cpp}]; [Socks], [RelayLife], [OutportWf],
      [Serve], [Tunnel] about them.  [Inport]: [src/zfgw_inport.{h,cpp}]; [InportWf],
      [Uplink], [Stray].  [AppInv] is what their invariants share, [NetInv] what preserves
      invariants of the links.  [Node]: a service and the manager of its links in turn;
      [Gateway], the nodes of the two services; [Hosting], a running machine is such a
      node; [Duplex] joins the nodes.
    - [Transit]: [src/zfgw_transit.{h,cpp}]; [TransitWf], [TransitProps], [ThroughTransit],
      [Passage] (what a whole run passes on), [Hops] (any number of transits in a row).
    - [Config]: the configuration file, [src/zfgw.cpp].  [Machine]: [src/zfgw_vm.{h,cpp}]
      and the dispatch macros of [src/zfgw_inc.h]; [MachineProps].
    - [Termination]: the loops and their fuel.

    ** How the model reads

    Definitions carry the names of the code.  Objects are records, methods functions on
    them; what a method does to its surroundings is part of its result.  A data stream, the
    links below it and the state of its session handlers form a [world]; the handlers are
    the class [SessionHandler], whose instances are the inport's, the outport's and two for
    tests, and a callback returns the calls it makes back into the stream, which run on the
    spot, as they do under the code's recursive locks.  Objects that several pointers reach
    (channels, relays, client sessions) live in heaps and are referred to by address; the
    use of an object after it was freed is recorded, not assumed away.  Timers are entries
    of the state that fire in any order.  What the program does is an event of a step type
    ([net_step], [outport_step], [inport_step], [transit_step], [machine_event]), and
    invariants are proved over all sequences of events, so over every interleaving of the
    handlers; each handler runs to completion, as the code's mutexes make it.

    Unsigned integers are [Z] in their range, every wrap-around is written out, and [int]
    error codes are the negative numbers the conversion of the enum values gives.  Doubles
    are IEEE binary64.  [std::sort] is any function that permutes and sorts ([StdSort]),
    as the order of equal weights is unspecified.

    The surroundings are classes: [Transport] (buffer pool, writes and connects of
    sockets), [Host] (allocator, process generation, UDP), [Disk] (files), [ZdsRuntime] with
    [ZdsLaws] and [ZdsExact] (the codec primitives), [Libutp].  Nothing is assumed of them but the laws of
    the codecs and the freshness of allocated addresses; where a theorem needs buffers not to
    run out it says so.  The buffer pool answers by the length asked for, not by what it has
    handed out before, and the wire of the links records what the program gives to
    [zce::Tcp::write], whatever that returns.

    ** Theorems

    - The session contract.  [Reassembly] and [Completeness]: a handler is given the
      segments of its sender in order and each once, and every segment that arrives in its
      window is given.  [Sending]: what is written, chunk by chunk and copy by copy.
      [EndToEnd]: the two together, through the byte streams of the links: a prefix always,
      all of it if one link in ALL mode brings everything.  [ThroughTransit]: the same with a
      transit between.  None of them assumes anything of the handlers or of the surroundings
      of the stream: they speak of what is handed over until [closeSession] takes the session
      away, which the world's log records next to the callbacks, and completeness of a
      session that was not entered without a handler ([kept]).
    - Both ways through the real services.  [Traffic] follows what one session says among
      the frames of all sessions, feedback included; [Uplink] does it for a client of the
      inport, [Tunnel] for a relay of the outport, each as an invariant over all runs of its
      service ([stream_invariant]); [Node] and [Gateway] carry these through the runs of a
      service and its manager together, started from a configuration, whose links come and
      go, greet and beat; [Passage] follows what a transit passes on through a
      whole run of it, with links that come and go, traffic both ways and of strangers;
      [Duplex] joins them, over links and any number of transits each way: what a client
      writes its destination is written, what the destination
      writes the client is written, and nothing else ever.
    - Robustness.  [StreamWf]: bounds against any peer; [Segment] and [Crc]: round trip,
      burst detection, the table against the polynomial; [Termination].
    - The services.  [Socks] and [RelayLife]: the negotiation is a function of the bytes, a
      relay is a transparent pipe and closes once, its socket with it.  [OutportWf], [InportWf], [TransitWf],
      [ManagerWf], [MachineProps]: state invariants over all events.  [TransitProps],
      [ManagerProps], [Config], [Pack]: forwarding, link keeping, persistence, codecs.
    - Link choice.  [Selector], [Racing], [Channel]: selection, racing feedback and its loop,
      stall detection.
    - Where the code fails.  [Hazards], [Serve], [Stray], [ManagerProps], [MachineProps],
      [Sending] state what goes wrong and exactly when, on what arrives: segments pass the
      guards of the receive path, and the use of a freed relay is read off the heap.

    ** Fuel

    The loops over bytes run with fuel one above the number of bytes, the parser of a relay
    with fuel for its four states; [Termination] shows that no input needs more.

    ** Not modelled

    The zce runtime (reactor, sockets, buffers, mutexes), libutp and the codecs'
    primitives, which are not in the repository; logging; data races between threads beyond
    the interleaving of whole handlers; the registration of the machine's factory and
    [zfgw_init], which only logs; the unset callbacks [on_opened_] and [on_closed_] of the
    manager. *)

From Stdlib Require Export ZArith Lia.
From stdpp Require Export base tactics list gmap sorting.

#[global] Open Scope Z_scope.

(** ** Machine words

    Every C++ unsigned integer is a [Z] in its range; a conversion to a type of
    width [w] is a reduction modulo [2^w], a conversion to [int] picks the
    two's complement representative. *)
Definition u8 (z : Z) : Z := z mod 2 ^ 8.
Definition u16 (z : Z) : Z := z mod 2 ^ 16.
Definition u32 (z : Z) : Z := z mod 2 ^ 32.
Definition u64 (z : Z) : Z := z mod 2 ^ 64.
Definition i32 (z : Z) : Z := (z + 2 ^ 31) mod 2 ^ 32 - 2 ^ 31.

Declare Scope fgw_scope.
Delimit Scope fgw_scope with fgw.
Notation "x +u32 y" := (u32 (x + y)) (at level 50, left associativity) : fgw_scope.
Notation "x -u32 y" := (u32 (x - y)) (at level 50, left associativity) : fgw_scope.
#[global] Open Scope fgw_scope.

(** ** Bytes and buffers *)
Definition is_byte (b : Z) : Prop := 0 <= b < 256.
Definition is_u32 (z : Z) : Prop := 0 <= z < 2 ^ 32.
Abbreviation bytes := (list Z).
Definition zlen {A} (l : list A) : Z := Z.of_nat (length l).

(** [at_ l i] is [l[i]]; reads outside the buffer are undefined behaviour in the
    source and read 0 here, every use below is guarded by a length check. *)
Definition at_ (l : bytes) (i : Z) : Z := nth (Z.to_nat i) l 0.

Ltac at_lit :=
  unfold at_;
  change (Z.to_nat 0) with 0%nat; change (Z.to_nat 1) with 1%nat;
  change (Z.to_nat 2) with 2%nat; change (Z.to_nat 3) with 3%nat; cbn [nth].

(** [write_at off bs l] overwrites [l[off..off+|bs|)] with [bs]. *)
Definition write_at (off : Z) (bs l : bytes) : bytes :=
  take (Z.to_nat off) l ++ bs ++ drop (Z.to_nat off + length bs) l.

(** ** Automation *)
Create HintDb fgw discriminated.
Create Rewrite HintDb words.

Ltac unfold_words := unfold u8, u16, u32, u64, i32, is_byte, is_u32 in *.

(** [word] solves linear goals about words, opening the modulo operations. *)
Ltac word := unfold_words; Z.div_mod_to_equations; lia.

Lemma u32_small z : is_u32 z -> u32 z = z.
Proof. unfold is_u32, u32. intros. by rewrite Z.mod_small. Qed.
Lemma u32_range z : is_u32 (u32 z).
Proof. unfold is_u32, u32. apply Z.mod_pos_bound. lia. Qed.
Lemma u32_idemp z : u32 (u32 z) = u32 z.
Proof. apply u32_small, u32_range. Qed.
Lemma u8_small z : is_byte z -> u8 z = z.
Proof. unfold is_byte, u8. intros. rewrite Z.mod_small; lia. Qed.
Lemma u8_range z : is_byte (u8 z).
Proof. unfold is_byte, u8. pose proof (Z.mod_pos_bound z (2 ^ 8)). lia. Qed.
Lemma u16_small z : 0 <= z < 2 ^ 16 -> u16 z = z.
Proof. unfold u16. intros. by rewrite Z.mod_small. Qed.
Lemma u16_range z : 0 <= u16 z < 2 ^ 16.
Proof. unfold u16. apply Z.mod_pos_bound. lia. Qed.
Lemma i32_small z : - 2 ^ 31 <= z < 2 ^ 31 -> i32 z = z.
Proof. unfold i32. intros. rewrite Z.mod_small; lia. Qed.

#[export] Hint Resolve u32_range u8_range u16_range : fgw.
#[export] Hint Rewrite u32_idemp : words.

(** ** Lengths in [Z] *)
Lemma zlen_nil {A} : zlen (@nil A) = 0.
Proof. reflexivity. Qed.
Lemma zlen_cons {A} (x : A) l : zlen (x :: l) = 1 + zlen l.
Proof. unfold zlen. rewrite length_cons. lia. Qed.
Lemma zlen_app {A} (l k : list A) : zlen (l ++ k) = zlen l + zlen k.
Proof. unfold zlen. rewrite length_app. lia. Qed.
Lemma zlen_nonneg {A} (l : list A) : 0 <= zlen l.
Proof. unfold zlen. lia. Qed.
Lemma zlen_take {A} n (l : list A) : 0 <= n <= zlen l -> zlen (take (Z.to_nat n) l) = n.
Proof. unfold zlen. intros. rewrite length_take. lia. Qed.
Lemma zlen_drop {A} n (l : list A) : 0 <= n <= zlen l -> zlen (drop (Z.to_nat n) l) = zlen l - n.
Proof. unfold zlen. intros. rewrite length_drop. lia. Qed.
#[export] Hint Rewrite @zlen_nil @zlen_cons @zlen_app : words.
#[export] Hint Resolve zlen_nonneg : fgw.

Lemma to_nat_zlen {A} (l : list A) : Z.to_nat (zlen l) = length l.
Proof. unfold zlen. lia. Qed.
Lemma take_zlen_app {A} (l k : list A) : take (Z.to_nat (zlen l)) (l ++ k) = l.
Proof. by rewrite to_nat_zlen, take_app_length. Qed.
Lemma drop_zlen_app {A} (l k : list A) : drop (Z.to_nat (zlen l)) (l ++ k) = k.
Proof. by rewrite to_nat_zlen, drop_app_length. Qed.

Lemma at_app_l l k i : 0 <= i < zlen l -> at_ (l ++ k) i = at_ l i.
Proof. unfold at_, zlen. intros. rewrite app_nth1; [done | lia]. Qed.
Lemma at_app_r l k i : zlen l <= i -> at_ (l ++ k) i = at_ k (i - zlen l).
Proof.
  unfold at_, zlen. intros. rewrite app_nth2 by lia. f_equal. lia.
Qed.
Lemma at_byte l i : Forall is_byte l -> is_byte (at_ l i).
Proof.
  intros Hl. unfold at_. destruct (nth_in_or_default (Z.to_nat i) l 0) as [Hin | ->].
  - rewrite List.Forall_forall in Hl. by apply Hl.
  - unfold is_byte. lia.
Qed.

Lemma write_at_app pre mid bs post :
  length mid = length bs ->
  write_at (zlen pre) bs (pre ++ mid ++ post) = pre ++ bs ++ post.
Proof.
  intros Hlen. unfold write_at, zlen. rewrite Nat2Z.id, take_app_length.
  f_equal. f_equal. rewrite drop_app_add', <- Hlen by done. by rewrite drop_app_length.
Qed.

Lemma write_at_length off bs l :
  0 <= off -> off + zlen bs <= zlen l -> zlen (write_at off bs l) = zlen l.
Proof.
  unfold write_at, zlen. intros. rewrite !length_app, length_take, length_drop. lia.
Qed.

(** A property of all bytes can be checked by running it on the 256 of them. *)
Lemma byte_forall (P : Z -> bool) :
  forallb P (map Z.of_nat (seq 0 256)) = true -> forall b, is_byte b -> P b = true.
Proof.
  rewrite forallb_forall. intros H b Hb. apply H, in_map_iff. unfold is_byte in Hb.
  exists (Z.to_nat b). split; [lia|]. apply in_seq. lia.
Qed.

Lemma NoDup_map_inj {A B} (f : A -> B) (l : list A) :
  List.NoDup l -> (forall x y, In x l -> In y l -> f x = f y -> x = y) -> List.NoDup (map f l).
Proof.
  induction l as [|a l IH]; simpl; [constructor|].
  intros [Hnin Hnd]%List.NoDup_cons_iff Hinj. constructor; [|apply IH; auto].
  intros (x & Heq & Hx)%in_map_iff. apply Hnin. apply Hinj in Heq; subst; auto.
Qed.

(** Consecutive numbers have distinct remainders, up to the modulus. *)
Lemma mod_run_inj (rot n a b : Z) : 0 <= a < n -> 0 <= b < n ->
  (rot + a) mod n = (rot + b) mod n -> a = b.
Proof.
  intros Ha Hb He. pose proof (Z.div_mod (rot + a) n). pose proof (Z.div_mod (rot + b) n).
  assert (a - b = n * ((rot + a) / n - (rot + b) / n)) by lia.
  destruct (Z.lt_trichotomy ((rot + a) / n) ((rot + b) / n)) as [|[|]]; nia.
Qed.
