(* ===== verification/Proto.v ===== *)
(** * Proto: error codes, enumerations and message records

    The public constants of [src/zfgw.h] and the message structures of
    [src/zfgw_proto.h], each structure a record with the member initialisers of
    the source as its default value and the member-wise [operator==] as a
    boolean function.  Strings ([zce_astring], [std::string]) are lists of
    bytes.  [double] members are IEEE binary64 values, [Double.double]. *)
From Stdlib Require Import SpecFloat.
From S2P Require Import Prelude.

Abbreviation astring := (list Z).

(** ** IEEE binary64 *)
Module Double.
Abbreviation double := spec_float.
Definition prec : Z := 53.
Definition emax : Z := 1024.
(** Conversion of an integer, rounded to nearest even. *)
Definition of_Z (z : Z) : double := binary_normalize prec emax z 0 false.
Definition add : double -> double -> double := SFadd prec emax.
Definition mul : double -> double -> double := SFmul prec emax.
Definition div : double -> double -> double := SFdiv prec emax.
Definition opp : double -> double := SFopp.
Definition ltb : double -> double -> bool := SFltb.
Definition gtb (x y : double) : bool := SFltb y x.
Definition eqb : double -> double -> bool := SFeqb.
Definition zero : double := S754_zero false.
End Double.
Abbreviation double := spec_float.

(** ** [enum ZFGW_ERRCODE] *)
Inductive ZFGW_ERRCODE :=
| ZFGW_ERRCODE_OK
| ZFGW_ERRCODE_BASE
| ZFGW_ERRCODE_EXCEPTION
| ZFGW_ERRCODE_MEMORY
| ZFGW_ERRCODE_BUSY
| ZFGW_ERRCODE_NOTRUNNING
| ZFGW_ERRCODE_INVALIDCONFIG
| ZFGW_ERRCODE_INVALIDROLE
| ZFGW_ERRCODE_LISTENFAIL
| ZFGW_ERRCODE_NOCHANNEL
| ZFGW_ERRCODE_CHANNELFAIL
| ZFGW_ERRCODE_BADSEGMENT
| ZFGW_ERRCODE_WINDOWFULL
| ZFGW_ERRCODE_SOCKS5REJECT
| ZFGW_ERRCODE_SOCKS5BADVERSION
| ZFGW_ERRCODE_SOCKS5BADCMD
| ZFGW_ERRCODE_SOCKS5AUTHFAIL
| ZFGW_ERRCODE_TARGETUNREACH
| ZFGW_ERRCODE_PATHFILEWRITE
| ZFGW_ERRCODE_PATHFILEREAD
| ZFGW_ERRCODE_CHANNELEXISTS
| ZFGW_ERRCODE_CHANNELNOTFOUND.

#[export] Instance ZFGW_ERRCODE_eq_dec : EqDecision ZFGW_ERRCODE.
Proof. solve_decision. Defined.

(** The enumerators' values. *)
Definition errval (e : ZFGW_ERRCODE) : Z :=
  match e with
  | ZFGW_ERRCODE_OK => 0x03040000
  | ZFGW_ERRCODE_BASE => 0x83040000
  | ZFGW_ERRCODE_EXCEPTION => 0x83040001
  | ZFGW_ERRCODE_MEMORY => 0x83040002
  | ZFGW_ERRCODE_BUSY => 0x83040003
  | ZFGW_ERRCODE_NOTRUNNING => 0x83040004
  | ZFGW_ERRCODE_INVALIDCONFIG => 0x83040005
  | ZFGW_ERRCODE_INVALIDROLE => 0x83040006
  | ZFGW_ERRCODE_LISTENFAIL => 0x83040007
  | ZFGW_ERRCODE_NOCHANNEL => 0x83040008
  | ZFGW_ERRCODE_CHANNELFAIL => 0x83040009
  | ZFGW_ERRCODE_BADSEGMENT => 0x8304000A
  | ZFGW_ERRCODE_WINDOWFULL => 0x8304000B
  | ZFGW_ERRCODE_SOCKS5REJECT => 0x8304000C
  | ZFGW_ERRCODE_SOCKS5BADVERSION => 0x8304000D
  | ZFGW_ERRCODE_SOCKS5BADCMD => 0x8304000E
  | ZFGW_ERRCODE_SOCKS5AUTHFAIL => 0x8304000F
  | ZFGW_ERRCODE_TARGETUNREACH => 0x83040010
  | ZFGW_ERRCODE_PATHFILEWRITE => 0x83040011
  | ZFGW_ERRCODE_PATHFILEREAD => 0x83040012
  | ZFGW_ERRCODE_CHANNELEXISTS => 0x83040013
  | ZFGW_ERRCODE_CHANNELNOTFOUND => 0x83040014
  end.

(** [return ZFGW_ERRCODE_x;] from a function returning [int]. *)
Definition err (e : ZFGW_ERRCODE) : Z := i32 (errval e).

(** [r == ZFGW_ERRCODE_x] with [int r]: the comparison is made on unsigned. *)
Definition is_err (r : Z) (e : ZFGW_ERRCODE) : bool := u32 r =? errval e.

(** ** Role, channel kind, multipath mode *)
Definition ZFGW_ROLE_INPORT : Z := 0.
Definition ZFGW_ROLE_OUTPORT : Z := 1.
Definition ZFGW_ROLE_TRANSIT : Z := 2.

Definition ZFGW_CHANNEL_TCP : Z := 0.
Definition ZFGW_CHANNEL_UTP : Z := 1.

Definition ZFGW_MULTIPATH_BEST : Z := 0.
Definition ZFGW_MULTIPATH_ALL : Z := 1.
Definition ZFGW_MULTIPATH_WEIGHTED : Z := 2.

Definition kFgwWireIngressUseLocal : Z := 0xFFFFFFFF.
Definition kFgwProtoVersion : Z := 2.
Definition kFgwConfigVersion : Z := 0xF6C00003.
Definition fgwConfigVersionOk (v : Z) : bool := v =? kFgwConfigVersion.

Definition astring_eqb (a b : astring) : bool := bool_decide (a = b).

(** ** Messages *)
Record FgwEndpoint := mkFgwEndpoint { ep_host : astring; ep_port : Z }.
Definition FgwEndpoint_empty := mkFgwEndpoint [] 0.
Definition FgwEndpoint_eqb (a b : FgwEndpoint) : bool :=
  if negb (astring_eqb (ep_host a) (ep_host b)) then false else
  if negb (ep_port a =? ep_port b) then false else true.

Record FgwChannelConfig := mkFgwChannelConfig {
  cc_channel_id : Z; cc_kind : Z; cc_remote : FgwEndpoint; cc_priority : Z }.
Definition FgwChannelConfig_empty := mkFgwChannelConfig 0 0 FgwEndpoint_empty 100.
Definition FgwChannelConfig_eqb (a b : FgwChannelConfig) : bool :=
  if negb (cc_channel_id a =? cc_channel_id b) then false else
  if negb (cc_kind a =? cc_kind b) then false else
  if negb (FgwEndpoint_eqb (cc_remote a) (cc_remote b)) then false else
  if negb (cc_priority a =? cc_priority b) then false else true.

(** [std::vector::operator==]. *)
Fixpoint vector_eqb {A} (eqb : A -> A -> bool) (l k : list A) : bool :=
  match l, k with
  | [], [] => true
  | x :: l', y :: k' => eqb x y && vector_eqb eqb l' k'
  | _, _ => false
  end.

Record FgwConfig := mkFgwConfig {
  cfg_role : Z; cfg_ingress_id : Z; cfg_inport_listen_port : Z;
  cfg_outport_listen_host : astring; cfg_outport_listen_port : Z;
  cfg_channels : list FgwChannelConfig; cfg_segment_size : Z;
  cfg_recv_window : Z; cfg_heartbeat_interval : Z; cfg_link_timeout : Z;
  cfg_reconnect_max : Z; cfg_multipath_mode : Z; cfg_enable_crc : Z;
  cfg_route_outport_id : Z; cfg_config_version : Z }.
Definition FgwConfig_empty :=
  mkFgwConfig 0 0 1080 [] 0 [] 1200 1024 5 15 60 2 1 0 0.
Definition FgwConfig_eqb (a b : FgwConfig) : bool :=
  if negb (cfg_role a =? cfg_role b) then false else
  if negb (cfg_ingress_id a =? cfg_ingress_id b) then false else
  if negb (cfg_inport_listen_port a =? cfg_inport_listen_port b) then false else
  if negb (astring_eqb (cfg_outport_listen_host a) (cfg_outport_listen_host b)) then false else
  if negb (cfg_outport_listen_port a =? cfg_outport_listen_port b) then false else
  if negb (vector_eqb FgwChannelConfig_eqb (cfg_channels a) (cfg_channels b)) then false else
  if negb (cfg_segment_size a =? cfg_segment_size b) then false else
  if negb (cfg_recv_window a =? cfg_recv_window b) then false else
  if negb (cfg_heartbeat_interval a =? cfg_heartbeat_interval b) then false else
  if negb (cfg_link_timeout a =? cfg_link_timeout b) then false else
  if negb (cfg_reconnect_max a =? cfg_reconnect_max b) then false else
  if negb (cfg_multipath_mode a =? cfg_multipath_mode b) then false else
  if negb (cfg_enable_crc a =? cfg_enable_crc b) then false else
  if negb (cfg_route_outport_id a =? cfg_route_outport_id b) then false else
  if negb (cfg_config_version a =? cfg_config_version b) then false else true.

Definition cfg_set_channels (cs : list FgwChannelConfig) (c : FgwConfig) : FgwConfig :=
  mkFgwConfig (cfg_role c) (cfg_ingress_id c) (cfg_inport_listen_port c)
    (cfg_outport_listen_host c) (cfg_outport_listen_port c) cs
    (cfg_segment_size c) (cfg_recv_window c) (cfg_heartbeat_interval c)
    (cfg_link_timeout c) (cfg_reconnect_max c) (cfg_multipath_mode c)
    (cfg_enable_crc c) (cfg_route_outport_id c) (cfg_config_version c).
Definition cfg_set_version (v : Z) (c : FgwConfig) : FgwConfig :=
  mkFgwConfig (cfg_role c) (cfg_ingress_id c) (cfg_inport_listen_port c)
    (cfg_outport_listen_host c) (cfg_outport_listen_port c) (cfg_channels c)
    (cfg_segment_size c) (cfg_recv_window c) (cfg_heartbeat_interval c)
    (cfg_link_timeout c) (cfg_reconnect_max c) (cfg_multipath_mode c)
    (cfg_enable_crc c) (cfg_route_outport_id c) v.

Record FgwLinkQuality := mkFgwLinkQuality {
  flq_channel_id : Z; flq_connected : Z; flq_rtt_ms : Z; flq_loss_rate : double;
  flq_bytes_sent : Z; flq_bytes_recv : Z; flq_send_segments : Z;
  flq_recv_segments : Z; flq_rexmit_segments : Z }.
Definition FgwLinkQuality_empty := mkFgwLinkQuality 0 0 0 Double.zero 0 0 0 0 0.
Definition FgwLinkQuality_eqb (a b : FgwLinkQuality) : bool :=
  if negb (flq_channel_id a =? flq_channel_id b) then false else
  if negb (flq_connected a =? flq_connected b) then false else
  if negb (flq_rtt_ms a =? flq_rtt_ms b) then false else
  if negb (Double.eqb (flq_loss_rate a) (flq_loss_rate b)) then false else
  if negb (flq_bytes_sent a =? flq_bytes_sent b) then false else
  if negb (flq_bytes_recv a =? flq_bytes_recv b) then false else
  if negb (flq_send_segments a =? flq_send_segments b) then false else
  if negb (flq_recv_segments a =? flq_recv_segments b) then false else
  if negb (flq_rexmit_segments a =? flq_rexmit_segments b) then false else true.

Record FgwSessionStat := mkFgwSessionStat {
  ss_session_id : Z; ss_ingress_id : Z; ss_client_addr : astring;
  ss_target_addr : astring; ss_bytes_sent : Z; ss_bytes_recv : Z;
  ss_open_timestamp : Z }.
Definition FgwSessionStat_empty := mkFgwSessionStat 0 0 [] [] 0 0 0.
Definition FgwSessionStat_eqb (a b : FgwSessionStat) : bool :=
  if negb (ss_session_id a =? ss_session_id b) then false else
  if negb (ss_ingress_id a =? ss_ingress_id b) then false else
  if negb (astring_eqb (ss_client_addr a) (ss_client_addr b)) then false else
  if negb (astring_eqb (ss_target_addr a) (ss_target_addr b)) then false else
  if negb (ss_bytes_sent a =? ss_bytes_sent b) then false else
  if negb (ss_bytes_recv a =? ss_bytes_recv b) then false else
  if negb (ss_open_timestamp a =? ss_open_timestamp b) then false else true.

Record FgwStatus := mkFgwStatus {
  st_running : Z; st_role : Z; st_session_count : Z;
  st_links : list FgwLinkQuality; st_sessions : list FgwSessionStat }.
Definition FgwStatus_empty := mkFgwStatus 0 0 0 [] [].
Definition FgwStatus_eqb (a b : FgwStatus) : bool :=
  if negb (st_running a =? st_running b) then false else
  if negb (st_role a =? st_role b) then false else
  if negb (st_session_count a =? st_session_count b) then false else
  if negb (vector_eqb FgwLinkQuality_eqb (st_links a) (st_links b)) then false else
  if negb (vector_eqb FgwSessionStat_eqb (st_sessions a) (st_sessions b)) then false else true.

Record FgwEmpty := mkFgwEmpty { fe_placeholder : Z }.
Definition FgwEmpty_empty := mkFgwEmpty 0.
Record FgwStartRequest := mkFgwStartRequest { sr_force_restart : Z }.
Definition FgwStartRequest_empty := mkFgwStartRequest 0.
Record FgwStartResult := mkFgwStartResult { res_errcode : Z; res_message : astring }.
Definition FgwStartResult_empty := mkFgwStartResult 0 [].
Record FgwAddChannelRequest := mkFgwAddChannelRequest { ac_channel : FgwChannelConfig }.
Definition FgwAddChannelRequest_empty := mkFgwAddChannelRequest FgwChannelConfig_empty.
Record FgwRemoveChannelRequest := mkFgwRemoveChannelRequest { rc_channel_id : Z }.
Definition FgwRemoveChannelRequest_empty := mkFgwRemoveChannelRequest 0.
Record FgwSetConfigRequest := mkFgwSetConfigRequest { sc_config : FgwConfig }.
Definition FgwSetConfigRequest_empty := mkFgwSetConfigRequest FgwConfig_empty.

Record FgwHello := mkFgwHello {
  hello_proto_version : Z; hello_role : Z; hello_ingress_id : Z;
  hello_outport_id : Z; hello_channel_id : Z; hello_generation : Z }.
Definition FgwHello_empty := mkFgwHello 2 0 0 0 0 0.
Definition FgwHello_eqb (a b : FgwHello) : bool :=
  if negb (hello_proto_version a =? hello_proto_version b) then false else
  if negb (hello_role a =? hello_role b) then false else
  if negb (hello_ingress_id a =? hello_ingress_id b) then false else
  if negb (hello_outport_id a =? hello_outport_id b) then false else
  if negb (hello_channel_id a =? hello_channel_id b) then false else
  if negb (hello_generation a =? hello_generation b) then false else true.

Record FgwLinkFeedback := mkFgwLinkFeedback {
  fb_decision_epoch : Z; fb_recommended_primary : Z;
  fb_alive_bitmap : Z; fb_highest_seq : Z }.
Definition FgwLinkFeedback_empty := mkFgwLinkFeedback 0 0 0 0.
Definition FgwLinkFeedback_eqb (a b : FgwLinkFeedback) : bool :=
  if negb (fb_decision_epoch a =? fb_decision_epoch b) then false else
  if negb (fb_recommended_primary a =? fb_recommended_primary b) then false else
  if negb (fb_alive_bitmap a =? fb_alive_bitmap b) then false else
  if negb (fb_highest_seq a =? fb_highest_seq b) then false else true.

(** ** Facts *)

(** Every error enumerator is a negative [int]; comparing an [int] with an
    enumerator identifies exactly the value that was returned for it. *)
Lemma err_neg e : e <> ZFGW_ERRCODE_OK -> err e < 0.
Proof. destruct e; vm_compute; done. Qed.

Lemma is_err_err e e' : is_err (err e) e' = bool_decide (e = e').
Proof. destruct e, e'; vm_compute; done. Qed.

Lemma is_err_nonneg r e : 0 <= r < 2 ^ 31 -> e <> ZFGW_ERRCODE_OK -> is_err r e = false.
Proof.
  intros Hr He. unfold is_err. rewrite u32_small by (unfold is_u32; lia).
  apply Z.eqb_neq. destruct e; try done; simpl; lia.
Qed.
#[export] Hint Resolve err_neg : fgw.

(** *** [operator==] decides equality of the records without [double] members *)
Lemma if_negb_true (b c : bool) : (if negb b then false else c) = true <-> b = true /\ c = true.
Proof. destruct b, c; simpl; intuition congruence. Qed.

Lemma astring_eqb_eq a b : astring_eqb a b = true <-> a = b.
Proof. apply bool_decide_eq_true. Qed.

Lemma vector_eqb_eq {A} (eqb : A -> A -> bool) (l k : list A) :
  (forall x y, eqb x y = true <-> x = y) -> vector_eqb eqb l k = true <-> l = k.
Proof.
  intros Heq. revert k. induction l as [|x l IH]; intros [|y k]; simpl; [done..|].
  rewrite andb_true_iff, IH, Heq. split; [by intros [-> ->] | by intros [= -> ->]].
Qed.

Ltac eqb_simpl :=
  intros [] []; cbn; rewrite ?if_negb_true, ?Z.eqb_eq, ?astring_eqb_eq.
Ltac eqb_done :=
  let H := fresh in
  split; intros H; [decompose [and] H | injection H; intros]; clear H; subst; repeat split.

Lemma FgwEndpoint_eqb_eq : forall a b, FgwEndpoint_eqb a b = true <-> a = b.
Proof. unfold FgwEndpoint_eqb. eqb_simpl. eqb_done. Qed.
Lemma FgwChannelConfig_eqb_eq : forall a b, FgwChannelConfig_eqb a b = true <-> a = b.
Proof. unfold FgwChannelConfig_eqb. eqb_simpl. rewrite FgwEndpoint_eqb_eq. eqb_done. Qed.
Lemma FgwConfig_eqb_eq : forall a b, FgwConfig_eqb a b = true <-> a = b.
Proof.
  unfold FgwConfig_eqb. eqb_simpl. rewrite (vector_eqb_eq _ _ _ FgwChannelConfig_eqb_eq).
  eqb_done.
Qed.
Lemma FgwSessionStat_eqb_eq : forall a b, FgwSessionStat_eqb a b = true <-> a = b.
Proof. unfold FgwSessionStat_eqb. eqb_simpl. eqb_done. Qed.
Lemma FgwHello_eqb_eq : forall a b, FgwHello_eqb a b = true <-> a = b.
Proof. unfold FgwHello_eqb. eqb_simpl. eqb_done. Qed.
Lemma FgwLinkFeedback_eqb_eq : forall a b, FgwLinkFeedback_eqb a b = true <-> a = b.
Proof. unfold FgwLinkFeedback_eqb. eqb_simpl. eqb_done. Qed.
