(* ===== verification/OMap.v ===== *)
(** * OMap: [std::map] with unsigned keys

    The iteration order of [std::map] is visible in the program ([begin()] of a
    receive buffer, the order channels are listed in), so an ordered map is the
    list of its entries by increasing key, with the operations of [std::map]. *)
From S2P Require Import Prelude.

Abbreviation omap V := (list (Z * V)).

Section omap.
Context {V : Type}.
Implicit Types (m : list (Z * V)) (k : Z) (v : V).

(** [find]. *)
Fixpoint om_find k m : option V :=
  match m with
  | [] => None
  | (k', v') :: m' => if k =? k' then Some v' else om_find k m'
  end.

(** [m[k] = v]. *)
Fixpoint om_insert k v m : list (Z * V) :=
  match m with
  | [] => [(k, v)]
  | (k', v') :: m' =>
    if k <? k' then (k, v) :: m
    else if k =? k' then (k, v) :: m'
    else (k', v') :: om_insert k v m'
  end.

(** [m.emplace(k, v)]: keeps an existing entry. *)
Definition om_emplace k v m : list (Z * V) :=
  match om_find k m with Some _ => m | None => om_insert k v m end.

(** [m.erase(k)]. *)
Definition om_erase k m : list (Z * V) := List.filter (fun kv => negb (fst kv =? k)) m.

(** [m.count(k)]. *)
Definition om_mem k m : bool := match om_find k m with Some _ => true | None => false end.

Definition om_keys m : list Z := map fst m.

(** The invariant of the representation. *)
Definition om_ok m : Prop := StronglySorted Z.lt (om_keys m).

(** ** Lookups *)
Lemma om_find_insert_eq k v m : om_find k (om_insert k v m) = Some v.
Proof.
  induction m as [|[k' v'] m IH]; simpl; [by rewrite Z.eqb_refl|].
  destruct (k <? k') eqn:Hlt; simpl; [by rewrite Z.eqb_refl|].
  destruct (k =? k') eqn:He; simpl; [by rewrite Z.eqb_refl|]. by rewrite He.
Qed.

Lemma om_find_insert_ne k k' v m : k <> k' -> om_find k (om_insert k' v m) = om_find k m.
Proof.
  intros Hne. induction m as [|[j w] m IH]; simpl.
  - by destruct (Z.eqb_spec k k').
  - destruct (k' <? j); simpl; [by destruct (Z.eqb_spec k k')|].
    destruct (Z.eqb_spec k' j) as [<-|]; simpl.
    + by destruct (Z.eqb_spec k k').
    + by destruct (k =? j).
Qed.

Lemma om_find_erase_eq k m : om_find k (om_erase k m) = None.
Proof.
  induction m as [|[j w] m IH]; simpl; [done|].
  destruct (Z.eqb_spec j k); simpl; [done|]. by destruct (Z.eqb_spec k j).
Qed.

Lemma om_find_erase_ne k k' m : k <> k' -> om_find k (om_erase k' m) = om_find k m.
Proof.
  intros Hne. induction m as [|[j w] m IH]; simpl; [done|].
  destruct (Z.eqb_spec j k'); simpl.
  - subst. by destruct (Z.eqb_spec k k').
  - by destruct (k =? j).
Qed.

Lemma om_find_emplace k k' v m :
  om_find k (om_emplace k' v m) =
  if k =? k' then Some (default v (om_find k' m)) else om_find k m.
Proof.
  unfold om_emplace. destruct (om_find k' m) as [w|] eqn:Hf.
  - by destruct (Z.eqb_spec k k') as [->|].
  - destruct (Z.eqb_spec k k') as [->|]; simpl;
      [apply om_find_insert_eq | by apply om_find_insert_ne].
Qed.

(** ** Membership *)
Lemma om_find_In k v m : om_find k m = Some v -> In (k, v) m.
Proof.
  induction m as [|[j w] m IH]; simpl; [done|].
  destruct (Z.eqb_spec k j); intros; simplify_eq; auto.
Qed.

Lemma om_find_None k m : om_find k m = None <-> ~ In k (om_keys m).
Proof.
  induction m as [|[j w] m IH]; simpl; [tauto|].
  destruct (Z.eqb_spec k j) as [->|]; [split; [done | tauto]|]. rewrite IH. intuition congruence.
Qed.

Lemma om_keys_insert k v m j : In j (om_keys (om_insert k v m)) <-> j = k \/ In j (om_keys m).
Proof.
  induction m as [|[i w] m IH]; simpl; [intuition congruence|].
  destruct (k <? i); simpl; [intuition congruence|].
  destruct (Z.eqb_spec k i) as [<-|]; simpl; [intuition congruence|]. rewrite IH. tauto.
Qed.

Lemma om_keys_erase k m j : In j (om_keys (om_erase k m)) -> In j (om_keys m) /\ j <> k.
Proof.
  unfold om_keys, om_erase. rewrite in_map_iff. intros ([a b] & <- & [Hin Hne]%filter_In).
  simpl in *. split; [by apply (in_map fst) in Hin|]. lia.
Qed.

Lemma om_ok_cons k v m : om_ok ((k, v) :: m) <-> om_ok m /\ Forall (Z.lt k) (om_keys m).
Proof.
  unfold om_ok. simpl. split; [intros H; by inversion H | intros [??]; by constructor].
Qed.

Lemma om_find_ok_In k v m : om_ok m -> In (k, v) m -> om_find k m = Some v.
Proof.
  induction m as [|[j w] m IH]; simpl; [done|].
  intros [Hok Hall]%om_ok_cons [Heq|Hin]; [simplify_eq; by rewrite Z.eqb_refl|].
  destruct (Z.eqb_spec k j) as [->|]; [|by apply IH].
  rewrite List.Forall_forall in Hall. apply (in_map fst), Hall in Hin. simpl in Hin. lia.
Qed.

(** ** The invariant is preserved *)
Lemma om_ok_nil : om_ok [].
Proof. constructor. Qed.

Lemma om_ok_insert k v m : om_ok m -> om_ok (om_insert k v m).
Proof.
  induction m as [|[j w] m IH]; intros Hok; simpl; [repeat constructor|].
  pose proof (proj1 (om_ok_cons j w m) Hok) as [Hm Hall].
  destruct (Z.ltb_spec k j) as [Hlt|Hge].
  - apply om_ok_cons. split; [done|]. constructor; [done|].
    eapply List.Forall_impl; [|exact Hall]. intros; simpl in *; lia.
  - destruct (Z.eqb_spec k j) as [<-|Hne]; apply om_ok_cons; split; auto.
    apply List.Forall_forall. intros i Hi. apply om_keys_insert in Hi as [->|Hi]; [lia|].
    rewrite List.Forall_forall in Hall. by apply Hall.
Qed.

Lemma om_ok_emplace k v m : om_ok m -> om_ok (om_emplace k v m).
Proof. unfold om_emplace. destruct (om_find k m); auto using om_ok_insert. Qed.

Lemma om_ok_erase k m : om_ok m -> om_ok (om_erase k m).
Proof.
  induction m as [|[j w] m IH]; intros Hok; simpl; [done|].
  apply om_ok_cons in Hok as [Hm Hall]. destruct (j =? k); simpl; [auto|].
  apply om_ok_cons. split; [auto|]. apply List.Forall_forall. intros i Hi.
  apply om_keys_erase in Hi as [Hi _]. rewrite List.Forall_forall in Hall. by apply Hall.
Qed.

Lemma om_ok_tail k v m : om_ok ((k, v) :: m) -> om_ok m.
Proof. intros H. exact (proj1 (proj1 (om_ok_cons k v m) H)). Qed.

(** The first entry carries the least key. *)
Lemma om_head_least k v m j : om_ok ((k, v) :: m) -> In j (om_keys m) -> k < j.
Proof. intros [_ Hall]%om_ok_cons Hin. rewrite List.Forall_forall in Hall. by apply Hall. Qed.

Lemma om_find_tail k v m j : om_ok ((k, v) :: m) -> j <> k ->
  om_find j ((k, v) :: m) = om_find j m.
Proof. intros _ Hne. simpl. by destruct (Z.eqb_spec j k). Qed.

Lemma om_find_head_None k v m : om_ok ((k, v) :: m) -> om_find k m = None.
Proof. intros H. apply om_find_None. intros Hin. pose proof (om_head_least _ _ _ _ H Hin). lia. Qed.

Lemma om_NoDup m : om_ok m -> List.NoDup (om_keys m).
Proof.
  induction m as [|[j w] m IH]; intros Hok; simpl; [constructor|].
  apply om_ok_cons in Hok as [Hm Hall]. constructor; [|by apply IH].
  rewrite List.Forall_forall in Hall. intros Hin%Hall. lia.
Qed.

(** Keys from an interval: at most as many entries as the interval is long. *)
Lemma om_length_bound m lo n :
  om_ok m -> 0 <= n -> (forall k, In k (om_keys m) -> lo <= k < lo + n) -> zlen m <= n.
Proof.
  intros Hok Hn Hin. unfold zlen.
  assert (Hle : (length (om_keys m) <= length (map (fun i : nat => (lo + Z.of_nat i)%Z) (seq 0 (Z.to_nat n))))%nat).
  { apply NoDup_incl_length; [by apply om_NoDup|]. intros k Hk. apply Hin in Hk.
    apply in_map_iff. exists (Z.to_nat (k - lo)). split; [lia|]. apply in_seq. lia. }
  unfold om_keys in Hle. rewrite !length_map, length_seq in Hle. lia.
Qed.

(** Two ordered maps with the same lookups are equal. *)
Lemma om_ext m m' : om_ok m -> om_ok m' -> (forall k, om_find k m = om_find k m') -> m = m'.
Proof.
  revert m'. induction m as [|[k v] m IH]; intros [|[k' v'] m'] Hok Hok' Heq; [done|..].
  - specialize (Heq k'). simpl in Heq. by rewrite Z.eqb_refl in Heq.
  - specialize (Heq k). simpl in Heq. by rewrite Z.eqb_refl in Heq.
  - assert (k = k') as <-.
    { destruct (Z.lt_trichotomy k k') as [Hlt|[?|Hgt]]; [|done|]; exfalso.
      - pose proof (Heq k) as Hk. simpl in Hk. rewrite Z.eqb_refl in Hk.
        destruct (Z.eqb_spec k k'); [lia|].
        symmetry in Hk. apply om_find_In, (in_map fst), (om_head_least k' v') in Hk; simpl in *; [lia | done].
      - pose proof (Heq k') as Hk. simpl in Hk. rewrite Z.eqb_refl in Hk.
        destruct (Z.eqb_spec k' k); [lia|].
        apply om_find_In, (in_map fst), (om_head_least k v) in Hk; simpl in *; [lia | done]. }
    pose proof (Heq k) as Hk. simpl in Hk. rewrite Z.eqb_refl in Hk. injection Hk as ->.
    f_equal. apply IH; [by eapply om_ok_tail | by eapply om_ok_tail |].
    intros j. destruct (decide (j = k)) as [->|Hne].
    + by rewrite (om_find_head_None k v'), (om_find_head_None k v').
    + specialize (Heq j). simpl in Heq. by destruct (Z.eqb_spec j k).
Qed.
End omap.

#[export] Hint Resolve om_ok_nil om_ok_insert om_ok_emplace om_ok_erase : fgw.
