(* ===== verification/Floats.v ===== *)
(** * Floats: the order and the range of the doubles the program compares

    Link weights and win rates are IEEE doubles ([Proto.Double], computed by the
    Standard Library's [SpecFloat]).  The order the program sorts by is strict and
    weak as long as no NaN occurs, and the quotients it forms are never NaN. *)
From Stdlib Require Import SpecFloat.
From S2P Require Import Prelude Proto.
Import Double.

(** ** Predicates *)
Definition is_nan (x : double) : bool := match x with S754_nan => true | _ => false end.
(** Zero or positive, possibly infinite: the results of the program's quotients. *)
Definition nonneg (x : double) : bool :=
  match x with
  | S754_zero false | S754_infinity false | S754_finite false _ _ => true
  | _ => false
  end.

(** Doubles are ordered like their [(class, exponent, mantissa)]. *)
Definition key (x : double) : Z * Z * Z :=
  match x with
  | S754_infinity true => (-2, 0, 0)
  | S754_finite true m e => (-1, - e, - Zpos m)
  | S754_zero _ | S754_nan => (0, 0, 0)
  | S754_finite false m e => (1, e, Zpos m)
  | S754_infinity false => (2, 0, 0)
  end.
Definition key_lt (a b : Z * Z * Z) : Prop :=
  let '(c, e, m) := a in let '(c', e', m') := b in
  c < c' \/ c = c' /\ (e < e' \/ e = e' /\ m < m').

(** The size of a finite double: it lies in [[2 ^ (mag - 1), 2 ^ mag)]. *)
Definition mag (m : positive) (e : Z) : Z := Zpos (digits2_pos m) + e.

(** ** The order *)
Lemma key_lt_irrefl a : ~ key_lt a a.
Proof. destruct a as [[? ?] ?]. simpl. lia. Qed.
Lemma key_lt_trans a b c : key_lt a b -> key_lt b c -> key_lt a c.
Proof. destruct a as [[? ?] ?], b as [[? ?] ?], c as [[? ?] ?]. simpl. lia. Qed.
Lemma key_lt_total a b : key_lt a b \/ a = b \/ key_lt b a.
Proof.
  destruct a as [[c e] m], b as [[c' e'] m']. simpl.
  destruct (Z.lt_trichotomy c c') as [|[|]]; [lia | | lia].
  destruct (Z.lt_trichotomy e e') as [|[|]]; [lia | | lia].
  destruct (Z.lt_trichotomy m m') as [|[|]]; [lia | subst; auto | lia].
Qed.

Lemma SFcompare_key x y : is_nan x = false -> is_nan y = false ->
  match SFcompare x y with
  | Some Lt => key_lt (key x) (key y)
  | Some Eq => key x = key y
  | Some Gt => key_lt (key y) (key x)
  | None => False
  end.
Proof.
  destruct x as [sx|sx| |sx mx ex], y as [sy|sy| |sy my ey]; try done; intros _ _;
    try (destruct sx, sy; simpl; lia || done); try (destruct sx; simpl; lia);
    try (destruct sy; simpl; lia).
  destruct sx, sy; simpl; try lia;
    change (Pos.compare_cont Eq mx my) with (Pos.compare mx my);
    destruct (Z.compare_spec ex ey); try lia;
    destruct (Pos.compare_spec mx my); simpl; try lia; subst; try done.
Qed.

Lemma ltb_key x y : is_nan x = false -> is_nan y = false ->
  ltb x y = true <-> key_lt (key x) (key y).
Proof.
  intros Hx Hy. pose proof (SFcompare_key x y Hx Hy) as H. unfold ltb, SFltb.
  destruct (SFcompare x y) as [[]|]; [| done | | done]; split; try done; intros Hk; exfalso.
  - rewrite H in Hk. by apply key_lt_irrefl in Hk.
  - exact (key_lt_irrefl _ (key_lt_trans _ _ _ H Hk)).
Qed.

Lemma gtb_asym x y : is_nan x = false -> is_nan y = false -> gtb x y = true -> gtb y x = false.
Proof.
  unfold gtb. fold (ltb y x) (ltb x y). intros Hx Hy H%ltb_key; [|done..].
  destruct (ltb x y) eqn:E; [|done]. apply ltb_key in E; [|done..].
  exfalso. exact (key_lt_irrefl _ (key_lt_trans _ _ _ H E)).
Qed.
(** "Not greater" is transitive: the comparison is a strict weak order. *)
Lemma gtb_false_trans x y z : is_nan x = false -> is_nan y = false -> is_nan z = false ->
  gtb y x = false -> gtb z y = false -> gtb z x = false.
Proof.
  unfold gtb. fold (ltb x y) (ltb y z) (ltb x z). intros Hx Hy Hz Hxy Hyz.
  destruct (ltb x z) eqn:E; [exfalso | done].
  apply ltb_key in E; [|done..].
  destruct (key_lt_total (key x) (key y)) as [H|[H|H]].
  - apply ltb_key in H; [congruence | done..].
  - rewrite H in E. apply ltb_key in E; [congruence | done..].
  - pose proof (key_lt_trans _ _ _ H E) as H'. apply ltb_key in H'; [congruence | done..].
Qed.

(** ** Rounding *)
Lemma nonneg_not_nan x : nonneg x = true -> is_nan x = false.
Proof. by destruct x as [[]|[]| |[]]. Qed.
#[export] Hint Resolve nonneg_not_nan : fgw.

Lemma minus_one_lt x : nonneg x = true -> gtb x (opp (of_Z 1)) = true.
Proof. by destruct x as [[]|[]| |[]]. Qed.

(** [shr_1] halves the mantissa. *)
Lemma shr_1_m r : 0 <= shr_m r -> shr_m (shr_1 r) = shr_m r / 2.
Proof.
  destruct r as [m b s]. simpl. destruct m as [|[p|p|]|]; try done; intros _; simpl;
    Z.div_mod_to_equations; lia.
Qed.

Lemma pow_twice_pos p : 2 ^ Zpos (xO p) = 2 ^ Zpos p * 2 ^ Zpos p.
Proof. rewrite <- Z.pow_add_r by lia. f_equal. lia. Qed.

Lemma iter_shr p : forall r, 0 <= shr_m r ->
  shr_m (SpecFloat.iter_pos shr_1 p r) = shr_m r / 2 ^ Zpos p.
Proof.
  assert (Hnn : forall a n, 0 <= a -> 0 <= a / 2 ^ Zpos n)
    by (intros; apply Z.div_pos; [lia | by apply Z.pow_pos_nonneg]).
  induction p as [p IH|p IH|]; intros r Hr; cbn [SpecFloat.iter_pos].
  - assert (Hh : 0 <= shr_m (shr_1 r)) by (rewrite shr_1_m by done; apply Z.div_pos; lia).
    rewrite IH, IH, shr_1_m, !Z.div_div by (try rewrite IH; auto; lia).
    f_equal. replace (Zpos p~1) with (Zpos p~0 + 1) by lia.
    rewrite Z.pow_add_r, pow_twice_pos by lia. lia.
  - rewrite IH, IH, Z.div_div by (try rewrite IH; auto; lia). by rewrite pow_twice_pos.
  - rewrite shr_1_m by done. f_equal.
Qed.

Lemma digits_bound p : 2 ^ (Zpos (digits2_pos p) - 1) <= Zpos p < 2 ^ Zpos (digits2_pos p).
Proof.
  assert (H : forall d, 2 ^ (Zpos (Pos.succ d) - 1) = 2 * 2 ^ (Zpos d - 1) /\
                        2 ^ Zpos (Pos.succ d) = 2 * 2 ^ Zpos d).
  { intros d. rewrite Pos2Z.inj_succ. split; [|by rewrite Z.pow_succ_r by lia].
    rewrite <- Z.pow_succ_r by lia. f_equal. lia. }
  induction p as [p IH|p IH|]; cbn [digits2_pos]; [..| simpl; lia];
    destruct (H (digits2_pos p)) as [-> ->]; lia.
Qed.

Lemma digits_of p d : 2 ^ (d - 1) <= Zpos p < 2 ^ d -> 0 < d -> Zpos (digits2_pos p) = d.
Proof.
  intros Hp Hd. pose proof (digits_bound p) as Hb.
  destruct (Z.lt_trichotomy (Zpos (digits2_pos p)) d) as [Hlt|[?|Hgt]]; [|done|]; exfalso.
  - pose proof (Z.pow_le_mono_r 2 (Zpos (digits2_pos p)) (d - 1)). lia.
  - pose proof (Z.pow_le_mono_r 2 d (Zpos (digits2_pos p) - 1)). lia.
Qed.

Abbreviation rnd := (binary_round_aux prec emax).
Abbreviation Fexp := (fexp prec emax).

Lemma shr_fexp_m m e l : 0 <= m ->
  shr_m (fst (shr_fexp prec emax m e l)) = m / 2 ^ Z.max 0 (Fexp (Zdigits2 m + e) - e) /\
  snd (shr_fexp prec emax m e l) = e + Z.max 0 (Fexp (Zdigits2 m + e) - e).
Proof.
  intros Hm. unfold shr_fexp, shr.
  assert (Hr : shr_m (shr_record_of_loc m l) = m) by by destruct l as [|[]].
  destruct (Fexp (Zdigits2 m + e) - e) as [|p|p]; cbn [fst snd].
  - rewrite Hr, Z.max_id, Z.pow_0_r, Z.div_1_r. lia.
  - rewrite iter_shr by (by rewrite Hr). rewrite Hr, Z.max_r by lia. done.
  - rewrite Hr, Z.max_l, Z.pow_0_r, Z.div_1_r by lia. lia.
Qed.

Lemma round_even_cases m l : round_nearest_even m l = m \/ round_nearest_even m l = m + 1.
Proof. unfold round_nearest_even. destruct l as [|[]]; auto. destruct (Z.even m); auto. Qed.

Lemma rnd_nonneg m e l : 0 <= m -> nonneg (rnd false m e l) = true.
Proof.
  intros Hm. unfold binary_round_aux.
  pose proof (shr_fexp_m m e l Hm) as [H1 _].
  destruct (shr_fexp prec emax m e l) as [r1 e1]. cbn [fst] in H1.
  assert (0 <= shr_m r1) by (rewrite H1; apply Z.div_pos; [lia | apply Z.pow_pos_nonneg; lia]).
  set (m' := round_nearest_even _ _).
  assert (Hm' : 0 <= m') by (unfold m'; destruct (round_even_cases (shr_m r1) (loc_of_shr_record r1)) as [-> | ->]; lia).
  pose proof (shr_fexp_m m' e1 loc_Exact Hm') as [H2 _].
  destruct (shr_fexp prec emax m' e1 loc_Exact) as [r2 e2]. cbn [fst] in H2.
  assert (0 <= shr_m r2) by (rewrite H2; apply Z.div_pos; [lia | apply Z.pow_pos_nonneg; lia]).
  destruct (shr_m r2); [done | by destruct (_ <=? _) | lia].
Qed.

(** Dropping [n] of the digits of a mantissa that has more of them. *)
Lemma digits_shift p n : 0 <= n < Zpos (digits2_pos p) ->
  exists q, Zpos p / 2 ^ n = Zpos q /\ Zpos (digits2_pos q) = Zpos (digits2_pos p) - n.
Proof.
  intros Hn. pose proof (digits_bound p) as [Hlo Hhi]. set (d := Zpos (digits2_pos p)) in *.
  assert (Hq : 2 ^ (d - n - 1) <= Zpos p / 2 ^ n < 2 ^ (d - n)).
  { split; [apply Z.div_le_lower_bound | apply Z.div_lt_upper_bound];
      try (apply Z.pow_pos_nonneg; lia); rewrite <- Z.pow_add_r by lia.
    - by replace (n + (d - n - 1)) with (d - 1) by lia.
    - by replace (n + (d - n)) with d by lia. }
  assert (0 < 2 ^ (d - n - 1)) by (apply Z.pow_pos_nonneg; lia).
  destruct (Zpos p / 2 ^ n) as [|q|q] eqn:Hd; [lia | | lia].
  exists q. split; [done|]. apply digits_of; lia.
Qed.

Lemma digits_succ p : exists q, Zpos p + 1 = Zpos q /\
  Zpos (digits2_pos p) <= Zpos (digits2_pos q) <= Zpos (digits2_pos p) + 1.
Proof.
  exists (Pos.succ p). split; [lia|].
  induction p as [p IH|p IH|]; simpl; rewrite ?Pos2Z.inj_succ; lia.
Qed.

Lemma round_even_digits p l : exists q, round_nearest_even (Zpos p) l = Zpos q /\
  Zpos (digits2_pos p) <= Zpos (digits2_pos q) <= Zpos (digits2_pos p) + 1.
Proof.
  destruct (round_even_cases (Zpos p) l) as [-> | ->]; [|apply digits_succ].
  exists p. lia.
Qed.

Lemma rnd_finite p e l :
  emin prec emax < mag p e < emax -> e <= emax - prec ->
  exists q e', rnd false (Zpos p) e l = S754_finite false q e' /\
    mag p e <= mag q e' <= mag p e + 1.
Proof.
  unfold mag, binary_round_aux. intros HD He.
  pose proof (shr_fexp_m (Zpos p) e l ltac:(lia)) as [H1 E1].
  destruct (shr_fexp prec emax (Zpos p) e l) as [r1 e1]. cbn [fst snd Zdigits2] in H1, E1.
  set (n := Z.max _ _) in H1, E1.
  destruct (digits_shift p n) as (p1 & Hp1 & Hd1).
  { unfold n, fexp in *. change (emin prec emax) with (-1074) in *.
    change emax with 1024 in *. change prec with 53 in *. lia. }
  rewrite Hp1 in H1. rewrite H1.
  destruct (round_even_digits p1 (loc_of_shr_record r1)) as (p2 & -> & Hd2).
  pose proof (shr_fexp_m (Zpos p2) e1 loc_Exact ltac:(lia)) as [H2 E2].
  destruct (shr_fexp prec emax (Zpos p2) e1 loc_Exact) as [r2 e2]. cbn [fst snd Zdigits2] in H2, E2.
  set (n2 := Z.max _ _) in H2, E2.
  subst n n2. unfold fexp in *. change (emin prec emax) with (-1074) in *.
  change emax with 1024 in *. change prec with 53 in *.
  destruct (digits_shift p2 (Z.max 0 (Z.max (Z.pos (digits2_pos p2) + e1 - 53) (-1074) - e1))) as (q & Hq & Hdq); [lia|].
  rewrite H2, Hq. exists q, e2. destruct (Z.leb_spec e2 (1024 - 53)); [split; [done | lia] | lia].
Qed.

(** ** The operations the program uses *)
Lemma digits_gt p a : 0 <= a -> 2 ^ a <= Zpos p -> a < Zpos (digits2_pos p).
Proof.
  intros Ha Hp. pose proof (digits_bound p) as [_ Hb].
  apply (Z.pow_lt_mono_r_iff 2); lia.
Qed.
Lemma digits_le p b : 0 <= b -> Zpos p < 2 ^ b -> Zpos (digits2_pos p) <= b.
Proof.
  intros Hb Hp. pose proof (digits_bound p) as [Hl _].
  apply Z.lt_pred_le, (Z.pow_lt_mono_r_iff 2); [lia..|]. rewrite <- Z.sub_1_r. lia.
Qed.

Lemma digits_mul p q :
  Zpos (digits2_pos p) + Zpos (digits2_pos q) - 1 <= Zpos (digits2_pos (p * q))
  <= Zpos (digits2_pos p) + Zpos (digits2_pos q).
Proof.
  pose proof (digits_bound p) as [Hp Hp']. pose proof (digits_bound q) as [Hq Hq'].
  set (a := Zpos (digits2_pos p)) in *. set (b := Zpos (digits2_pos q)) in *.
  assert (0 < a /\ 0 < b) as [Ha Hb] by (unfold a, b; lia).
  assert (0 < 2 ^ (a - 1) /\ 0 < 2 ^ (b - 1)) by (split; apply Z.pow_pos_nonneg; lia).
  split.
  - assert (a - 1 + (b - 1) < Zpos (digits2_pos (p * q))); [|lia].
    apply digits_gt; [lia|]. rewrite Z.pow_add_r, Pos2Z.inj_mul by lia. apply Z.mul_le_mono_nonneg; lia.
  - apply digits_le; [lia|]. rewrite Z.pow_add_r, Pos2Z.inj_mul by lia.
    apply Z.mul_lt_mono_nonneg; lia.
Qed.

Lemma mul_finite m e m' e' :
  -1000 < mag m e + mag m' e' < 1000 -> e + e' <= 900 ->
  exists q f, mul (S754_finite false m e) (S754_finite false m' e') = S754_finite false q f /\
    mag m e + mag m' e' - 1 <= mag q f <= mag m e + mag m' e' + 1.
Proof.
  unfold mag. intros Hm He. pose proof (digits_mul m m').
  destruct (rnd_finite (m * m') (e + e') loc_Exact) as (q & f & Hq & Hmag).
  - unfold mag. change (emin prec emax) with (-1074). change emax with 1024. lia.
  - change emax with 1024. change prec with 53. lia.
  - exists q, f. split; [exact Hq|]. unfold mag in Hmag. lia.
Qed.

Lemma of_Z_finite z : 0 < z < 2 ^ 32 ->
  exists q e, of_Z z = S754_finite false q e /\ 1 <= mag q e <= 33 /\ e <= 900.
Proof.
  intros Hz. destruct z as [|p|p]; [lia | | lia].
  assert (Hd : 1 <= Zpos (digits2_pos p) <= 32).
  { split; [lia|]. apply digits_le; lia. }
  unfold of_Z, binary_normalize, binary_round, shl_align.
  assert (Hf : Fexp (Zpos (digits2_pos p) + 0) - 0 = Zpos (digits2_pos p) - 53).
  { unfold fexp. change (emin prec emax) with (-1074). change prec with 53. lia. }
  rewrite Hf. destruct (Zpos (digits2_pos p) - 53) as [|k|k] eqn:Hk; [lia.. |].
  replace (Fexp (Zpos (digits2_pos p) + 0)) with (Zneg k) by lia.
  assert (Hs : Zpos (Pos.iter xO p k) = Zpos p * 2 ^ Zpos k).
  { rewrite <- Z.shiftl_mul_pow2 by lia. unfold Z.shiftl.
    apply (Pos.iter_swap_gen _ _ Zpos xO (Z.mul 2)). done. }
  assert (Hds : Zpos (digits2_pos (Pos.iter xO p k)) = 53).
  { pose proof (digits_bound p) as [Hl Hu].
    apply digits_of; [|lia]. rewrite Hs.
    replace 53 with (Zpos (digits2_pos p) + Zpos k) by lia.
    replace (Zpos (digits2_pos p) + Zpos k - 1) with (Zpos (digits2_pos p) - 1 + Zpos k) by lia.
    rewrite !Z.pow_add_r by lia. assert (0 < 2 ^ Zpos k) by (apply Z.pow_pos_nonneg; lia).
    split; [apply Z.mul_le_mono_nonneg_r | apply Z.mul_lt_mono_pos_r]; lia. }
  destruct (rnd_finite (Pos.iter xO p k) (Zneg k) loc_Exact) as (q & e & Hq & Hmag).
  - unfold mag. change (emin prec emax) with (-1074). change emax with 1024. lia.
  - change emax with 1024. change prec with 53. lia.
  - exists q, e. split; [exact Hq|]. unfold mag in *. lia.
Qed.

Lemma of_Z_nonneg z : 0 <= z < 2 ^ 32 ->
  of_Z z = zero \/ exists q e, of_Z z = S754_finite false q e.
Proof.
  intros Hz. destruct (decide (z = 0)) as [->|]; [by left|].
  destruct (of_Z_finite z) as (q & e & Hq & _); [lia|]. right. eauto.
Qed.

Lemma div_core_nonneg m1 e1 m2 e2 :
  0 <= fst (fst (SFdiv_core_binary prec emax (Zpos m1) e1 (Zpos m2) e2)).
Proof.
  unfold SFdiv_core_binary.
  set (m' := match _ with Z0 => _ | Zpos _ => _ | Zneg _ => _ end).
  assert (Hm : 0 <= m').
  { unfold m'. destruct (_ - _) as [|s|s]; [lia | | lia].
    rewrite Z.shiftl_mul_pow2 by lia. apply Z.mul_nonneg_nonneg; [lia|]. apply Z.pow_nonneg. lia. }
  clearbody m'. pose proof (Z.div_eucl_eq m' (Zpos m2) ltac:(done)) as Heq.
  pose proof (Z.div_pos m' (Zpos m2) Hm ltac:(lia)) as Hq. unfold Z.div in Hq.
  destruct (Z.div_eucl m' (Zpos m2)) as [q r]. exact Hq.
Qed.

(** A zero or positive finite double over a positive finite one is no NaN. *)
Lemma div_nonneg x q e :
  x = zero \/ (exists m f, x = S754_finite false m f) ->
  nonneg (div x (S754_finite false q e)) = true.
Proof.
  intros [-> | (m & f & ->)]; [done|]. cbn [div SFdiv].
  unfold div, SFdiv. pose proof (div_core_nonneg m f q e) as Hnn.
  destruct (SFdiv_core_binary prec emax (Zpos m) f (Zpos q) e) as [[mz ez] lz].
  apply rnd_nonneg. exact Hnn.
Qed.
#[export] Hint Resolve div_nonneg of_Z_nonneg : fgw.
