(* ===== verification/Crc.v ===== *)
(** * Crc: the CRC-32 of [src/zfgw_segment.cpp]

    The 256-entry table, the table-driven checksum [fgwCrc32] and [crc_ok]; the
    bit-serial register of the reflected polynomial as the reference the table
    implements; linearity and injectivity of the byte step, from which the
    detection of every burst of at most four consecutive bytes follows. *)
From S2P Require Import Prelude.

Definition kCrc32Poly : Z := 0xEDB88320.

(** One iteration of the inner loop of [Crc32Table()]. *)
Definition crc_bit (c : Z) : Z :=
  if Z.land c 1 =? 0 then Z.shiftr c 1 else Z.lxor kCrc32Poly (Z.shiftr c 1).

(** [table[i]]: eight iterations starting from [i]. *)
Definition crc_table_entry (i : Z) : Z := Nat.iter 8 crc_bit i.
Definition kCrc32Tbl : list Z := map crc_table_entry (map Z.of_nat (seq 0 256)).
Definition tbl (i : Z) : Z := nth (Z.to_nat i) kCrc32Tbl 0.

(** The loop body [c = table[(c ^ b) & 0xFF] ^ (c >> 8)]. *)
Definition crc_step (c b : Z) : Z :=
  Z.lxor (tbl (Z.land (Z.lxor c b) 0xFF)) (Z.shiftr c 8).
Definition crc_run (c : Z) (l : bytes) : Z := fold_left crc_step l c.

(** [fgwCrc32(data, len, seed)]. *)
Definition fgwCrc32 (data : bytes) (len seed : Z) : Z :=
  let c := Z.lxor seed 0xFFFFFFFF in
  let c := crc_run c (take (Z.to_nat len) data) in
  Z.lxor c 0xFFFFFFFF.

(** [crc_ok(in, header_wire, payload_len, expect_crc)]: the same register run
    over the header with four zero bytes in place of its CRC field, then over
    the payload. *)
Definition crc_ok (inb : bytes) (header_wire payload_len expect_crc : Z) : bool :=
  let total := header_wire + payload_len in
  let crc_off := header_wire - 4 in
  let crc := 0xFFFFFFFF in
  let crc := crc_run crc (take (Z.to_nat crc_off) inb) in
  let crc := crc_run crc [0; 0; 0; 0] in
  let crc := crc_run crc (take (Z.to_nat payload_len) (drop (Z.to_nat header_wire) inb)) in
  let crc := Z.lxor crc 0xFFFFFFFF in
  crc =? expect_crc.

(** The reference: the bit-serial shift register, least significant bit first. *)
Definition crc_step_ref (c b : Z) : Z := Nat.iter 8 crc_bit (Z.lxor c b).
Definition crc_ref (l : bytes) (seed : Z) : Z :=
  Z.lxor (fold_left crc_step_ref l (Z.lxor seed 0xFFFFFFFF)) 0xFFFFFFFF.

(** The check value of CRC-32/ISO-HDLC, over the ASCII digits 1 to 9. *)
Example crc_check_value : fgwCrc32 [49;50;51;52;53;54;55;56;57] 9 0 = 0xCBF43926.
Proof. vm_compute. reflexivity. Qed.

(** ** The table step *)

Ltac case_bits :=
  repeat match goal with |- context [Z.testbit ?x ?n] => destruct (Z.testbit x n) end; done.

Lemma crc_bit_lxor a b : crc_bit (Z.lxor a b) = Z.lxor (crc_bit a) (crc_bit b).
Proof.
  assert (Hbit : forall c, Z.land c 1 = Z.b2z (Z.testbit c 0)).
  { intros c. rewrite Z.bit0_odd. change 1 with (Z.ones 1) at 1.
    rewrite Z.land_ones by lia. change (2 ^ 1) with 2. rewrite Zmod_odd.
    by destruct (Z.odd c). }
  unfold crc_bit. rewrite !Hbit, Z.lxor_spec, Z.shiftr_lxor.
  destruct (Z.testbit a 0), (Z.testbit b 0); cbn [xorb Z.b2z Z.eqb]; Z.bitwise; case_bits.
Qed.

Lemma crc_bits_lxor n a b :
  Nat.iter n crc_bit (Z.lxor a b) = Z.lxor (Nat.iter n crc_bit a) (Nat.iter n crc_bit b).
Proof. induction n as [|n IH]; simpl; [done|]. by rewrite IH, crc_bit_lxor. Qed.

Lemma crc_bit_even a : crc_bit (Z.shiftl a 1) = a.
Proof.
  unfold crc_bit. change 1 with (Z.ones 1) at 2. rewrite Z.land_ones, Z.shiftl_mul_pow2 by lia.
  rewrite Z.mod_mul by lia. simpl. rewrite <- Z.shiftl_mul_pow2 by lia.
  rewrite Z.shiftr_shiftl_l by lia. apply Z.shiftl_0_r.
Qed.

Lemma crc_bits_shl n a : Nat.iter n crc_bit (Z.shiftl a (Z.of_nat n)) = a.
Proof.
  revert a. induction n as [|n IH]; intros a; [apply Z.shiftl_0_r|].
  rewrite Nat.iter_succ_r, Nat2Z.inj_succ, <- Z.add_1_r, <- Z.shiftl_shiftl by lia.
  by rewrite crc_bit_even.
Qed.

Lemma tbl_entry i : is_byte i -> tbl i = Nat.iter 8 crc_bit i.
Proof.
  intros Hi. unfold tbl, kCrc32Tbl, is_byte in *.
  change 0 with (crc_table_entry (Z.of_nat 0)) at 1. rewrite map_nth, map_nth, seq_nth by lia.
  unfold crc_table_entry. f_equal. lia.
Qed.

Lemma land_255 x : Z.land x 255 = x mod 2 ^ 8.
Proof. change 255 with (Z.ones 8). by rewrite Z.land_ones. Qed.

Lemma split_low_byte x : Z.lxor (Z.land x 255) (Z.shiftl (Z.shiftr x 8) 8) = x.
Proof.
  rewrite land_255. Z.bitwise. destruct (Z.lt_ge_cases m 8).
  - rewrite Z.mod_pow2_bits_low, Z.shiftl_spec_low, xorb_false_r by lia. done.
  - rewrite Z.mod_pow2_bits_high, Z.shiftl_spec_high, Z.shiftr_spec, xorb_false_l by lia.
    f_equal. lia.
Qed.

Lemma shiftr_byte b : is_byte b -> Z.shiftr b 8 = 0.
Proof. intros Hb. rewrite Z.shiftr_div_pow2 by lia. apply Z.div_small. apply Hb. Qed.

Lemma land_255_byte x : is_byte (Z.land x 255).
Proof. rewrite land_255. apply u8_range. Qed.
#[export] Hint Resolve land_255_byte : fgw.

(** The table step is the eight-fold bit step. *)
Lemma crc_step_ref_eq c b : is_byte b -> crc_step c b = crc_step_ref c b.
Proof.
  intros Hb. unfold crc_step, crc_step_ref. rewrite tbl_entry by auto with fgw.
  rewrite <- (split_low_byte (Z.lxor c b)) at 2. rewrite crc_bits_lxor. f_equal.
  change 8 with (Z.of_nat 8) at 3. rewrite crc_bits_shl.
  by rewrite Z.shiftr_lxor, (shiftr_byte b), Z.lxor_0_r.
Qed.

Lemma crc_run_ref c l : Forall is_byte l -> crc_run c l = fold_left crc_step_ref l c.
Proof.
  unfold crc_run. intros Hl. revert c. induction Hl as [|b l Hb _ IH]; intros c; [done|].
  simpl. by rewrite IH, crc_step_ref_eq.
Qed.

(** ** Injectivity of the step *)
Definition tops : list Z := map (fun i => Z.shiftr (tbl i) 24) (map Z.of_nat (seq 0 256)).

Lemma tops_NoDup : NoDup tops.
Proof. apply (bool_decide_eq_true_1 (NoDup tops)). vm_compute. reflexivity. Qed.

Lemma tbl_top_inj i j :
  is_byte i -> is_byte j -> Z.shiftr (tbl i) 24 = Z.shiftr (tbl j) 24 -> i = j.
Proof.
  intros Hi Hj Heq. unfold is_byte in *.
  assert (Hlook : forall k, 0 <= k < 256 -> tops !! Z.to_nat k = Some (Z.shiftr (tbl k) 24)).
  { intros k Hk. unfold tops. rewrite !list_lookup_fmap, lookup_seq_lt by lia. simpl.
    by rewrite Z2Nat.id by lia. }
  pose proof (proj1 (NoDup_alt tops) tops_NoDup (Z.to_nat i) (Z.to_nat j)
    (Z.shiftr (tbl i) 24)) as Hinj.
  rewrite Heq in Hinj at 2. specialize (Hinj (Hlook i Hi) (Hlook j Hj)). lia.
Qed.

Lemma tbl_range i : is_byte i -> is_u32 (tbl i).
Proof.
  intros Hi.
  assert (Hall : forallb (fun z => (0 <=? z) && (z <? 2 ^ 32)) kCrc32Tbl = true)
    by (vm_compute; reflexivity).
  rewrite forallb_forall in Hall. unfold tbl, is_u32, is_byte in *.
  assert (Hin : In (nth (Z.to_nat i) kCrc32Tbl 0) kCrc32Tbl).
  { apply nth_In. change (length kCrc32Tbl) with 256%nat. lia. }
  apply Hall in Hin. lia.
Qed.

Lemma lxor_u32 a b : is_u32 a -> is_u32 b -> is_u32 (Z.lxor a b).
Proof.
  unfold is_u32. intros Ha Hb. split; [apply Z.lxor_nonneg; lia|].
  destruct (Z.eq_dec (Z.lxor a b) 0) as [->|Hne]; [lia|].
  assert (0 <= Z.lxor a b) by (apply Z.lxor_nonneg; lia).
  apply Z.log2_lt_pow2; [lia|]. eapply Z.le_lt_trans; [apply Z.log2_lxor; lia|].
  assert (Hl : forall x, 0 <= x < 2 ^ 32 -> Z.log2 x < 32).
  { intros x Hx. destruct (Z.eq_dec x 0) as [->|]; [reflexivity|]. apply Z.log2_lt_pow2; lia. }
  apply Z.max_lub_lt; auto.
Qed.

Lemma shiftr_u32 a n : 0 <= n -> is_u32 a -> is_u32 (Z.shiftr a n).
Proof.
  unfold is_u32. intros Hn Ha. rewrite Z.shiftr_div_pow2 by lia. split.
  - apply Z.div_pos; lia.
  - eapply Z.le_lt_trans; [apply Z.div_le_upper_bound with (q := a)|]; nia.
Qed.

Lemma crc_step_u32 c b : is_u32 c -> is_u32 (crc_step c b).
Proof.
  intros Hc. apply lxor_u32; [apply tbl_range; auto with fgw | apply shiftr_u32; [lia | done]].
Qed.
#[export] Hint Resolve crc_step_u32 lxor_u32 : fgw.

Lemma crc_run_u32 l c : is_u32 c -> is_u32 (crc_run c l).
Proof. revert c. induction l as [|b l IH]; intros c Hc; [done|]. apply IH; auto with fgw. Qed.

Lemma lxor_cancel_l a b c : Z.lxor a b = Z.lxor a c -> b = c.
Proof.
  intros H. apply (f_equal (Z.lxor a)) in H.
  by rewrite <- !Z.lxor_assoc, !Z.lxor_nilpotent, !Z.lxor_0_l in H.
Qed.

(** Knowing the register above bit [8j] after a step determines the table index
    and the register above bit [8(j+1)] before it. *)
Lemma crc_step_inv c c' b b' j :
  is_u32 c -> is_u32 c' -> 0 <= j <= 3 ->
  Z.shiftr (crc_step c b) (8 * j) = Z.shiftr (crc_step c' b') (8 * j) ->
  Z.land (Z.lxor c b) 255 = Z.land (Z.lxor c' b') 255 /\
  Z.shiftr c (8 * (j + 1)) = Z.shiftr c' (8 * (j + 1)).
Proof.
  intros Hc Hc' Hj Heq.
  assert (Htop : forall x y, is_u32 x ->
    Z.shiftr (Z.shiftr (crc_step x y) (8 * j)) (24 - 8 * j) =
    Z.shiftr (tbl (Z.land (Z.lxor x y) 255)) 24).
  { intros x y Hx. rewrite Z.shiftr_shiftr by lia. replace (8 * j + (24 - 8 * j)) with 24 by lia.
    unfold crc_step. rewrite Z.shiftr_lxor, Z.shiftr_shiftr by lia.
    rewrite (Z.shiftr_div_pow2 x) by lia. rewrite (Z.div_small x) by apply Hx.
    apply Z.lxor_0_r. }
  assert (Hidx : Z.land (Z.lxor c b) 255 = Z.land (Z.lxor c' b') 255).
  { apply tbl_top_inj; auto with fgw. rewrite <- !Htop by done. by rewrite Heq. }
  split; [done|]. unfold crc_step in Heq. rewrite Hidx, !Z.shiftr_lxor in Heq.
  apply lxor_cancel_l in Heq. rewrite !Z.shiftr_shiftr in Heq by lia.
  by replace (8 * (j + 1)) with (8 + 8 * j) by lia.
Qed.

Lemma low_byte_inj c b b' :
  is_byte b -> is_byte b' ->
  Z.land (Z.lxor c b) 255 = Z.land (Z.lxor c b') 255 -> b = b'.
Proof.
  intros Hb Hb' Heq. apply (lxor_cancel_l c).
  rewrite <- (split_low_byte (Z.lxor c b)), <- (split_low_byte (Z.lxor c b')), Heq.
  by rewrite !Z.shiftr_lxor, (shiftr_byte b), (shiftr_byte b').
Qed.

Lemma crc_step_inj c c' b : is_u32 c -> is_u32 c' -> is_byte b ->
  crc_step c b = crc_step c' b -> c = c'.
Proof.
  intros Hc Hc' Hb Heq. destruct (crc_step_inv c c' b b 0) as [Hlow Hhigh]; [done | done | lia | by rewrite Heq |].
  assert (Hx : Z.lxor c b = Z.lxor c' b).
  { rewrite <- (split_low_byte (Z.lxor c b)), <- (split_low_byte (Z.lxor c' b)), Hlow.
    rewrite !Z.shiftr_lxor. change (8 * (0 + 1)) with 8 in Hhigh. by rewrite Hhigh. }
  rewrite (Z.lxor_comm c), (Z.lxor_comm c') in Hx. by apply lxor_cancel_l in Hx.
Qed.

Lemma crc_run_inj l c c' : Forall is_byte l -> is_u32 c -> is_u32 c' ->
  crc_run c l = crc_run c' l -> c = c'.
Proof.
  intros Hl. revert c c'. induction Hl as [|b l Hb _ IH]; intros c c' Hc Hc' Heq; [done|].
  apply IH in Heq; auto with fgw. by apply crc_step_inj in Heq.
Qed.

(** Two different bursts of the same length, at most four bytes, never lead
    from the same register to the same register. *)
Lemma crc_run_burst l l' c c' j :
  length l = length l' -> 0 <= j -> j + zlen l <= 4 ->
  Forall is_byte l -> Forall is_byte l' -> is_u32 c -> is_u32 c' ->
  Z.shiftr (crc_run c l) (8 * j) = Z.shiftr (crc_run c' l') (8 * j) ->
  Z.shiftr c (8 * (j + zlen l)) = Z.shiftr c' (8 * (j + zlen l)) /\ (c = c' -> l = l').
Proof.
  revert l' c c'. induction l as [|b l IH]; intros [|b' l'] c c' Hlen Hj Hle Hl Hl' Hc Hc' Heq;
    try done.
  { rewrite zlen_nil, Z.add_0_r. done. }
  rewrite zlen_cons in *. injection Hlen as Hlen.
  apply Forall_cons in Hl as [Hb Hl]. apply Forall_cons in Hl' as [Hb' Hl'].
  pose proof (zlen_nonneg l).
  destruct (IH l' (crc_step c b) (crc_step c' b')) as [Hsh Heql]; auto with fgw; [lia|].
  destruct (crc_step_inv c c' b b' (j + zlen l)) as [Hidx Hup]; auto; [lia|].
  split; [by replace (j + (1 + zlen l)) with (j + zlen l + 1) by lia|].
  intros <-. assert (b = b') as <- by eauto using low_byte_inj. f_equal. by apply Heql.
Qed.

Lemma crc_run_app c l k : crc_run c (l ++ k) = crc_run (crc_run c l) k.
Proof. apply fold_left_app. Qed.

Lemma crc_run_burst_neq c pre mid mid' post :
  is_u32 c -> Forall is_byte mid -> Forall is_byte mid' -> Forall is_byte post ->
  length mid = length mid' -> zlen mid <= 4 -> mid <> mid' ->
  crc_run c (pre ++ mid ++ post) <> crc_run c (pre ++ mid' ++ post).
Proof.
  intros Hc Hm Hm' Hp Hlen Hle Hne Heq. rewrite !crc_run_app in Heq.
  apply crc_run_inj in Heq; auto using crc_run_u32. apply Hne.
  destruct (crc_run_burst mid mid' (crc_run c pre) (crc_run c pre) 0) as [_ Hinj];
    auto using crc_run_u32, f_equal. lia.
Qed.

(** The whole checksum. *)
Lemma fgwCrc32_run data seed :
  fgwCrc32 data (zlen data) seed =
  Z.lxor (crc_run (Z.lxor seed 0xFFFFFFFF) data) 0xFFFFFFFF.
Proof. unfold fgwCrc32, zlen. by rewrite Nat2Z.id, firstn_all. Qed.

Lemma fgwCrc32_u32 data len seed : is_u32 seed -> is_u32 (fgwCrc32 data len seed).
Proof.
  intros Hs. unfold fgwCrc32. cbv zeta. apply lxor_u32; [|unfold is_u32; lia].
  apply crc_run_u32, lxor_u32; [done | unfold is_u32; lia].
Qed.
#[export] Hint Resolve fgwCrc32_u32 : fgw.

Lemma lxor_cancel_r a b c : Z.lxor b a = Z.lxor c a -> b = c.
Proof. rewrite !(Z.lxor_comm _ a). apply lxor_cancel_l. Qed.

(** C27: the table-driven [fgwCrc32] computes the bit-serial CRC-32 of its input,
    for every seed and every byte sequence. *)
Theorem crc_table_refines_bitwise (data : bytes) (seed : Z) (Hd : Forall is_byte data) :
  fgwCrc32 data (zlen data) seed = crc_ref data seed.
Proof. unfold crc_ref. by rewrite fgwCrc32_run, crc_run_ref. Qed.

Lemma crc_table_refines_bitwise_witness :
  Forall is_byte [49; 50; 51] /\ fgwCrc32 [49; 50; 51] 3 0 = crc_ref [49; 50; 51] 0.
Proof.
  assert (H : Forall is_byte [49; 50; 51])
    by (apply (bool_decide_eq_true_1 (Forall (fun b => 0 <= b < 256) _)); vm_compute; reflexivity).
  split; [exact H | exact (crc_table_refines_bitwise [49; 50; 51] 0 H)].
Defined.
