(* ===== verification/Segment.v ===== *)
(** * Segment: the wire framing of [src/zfgw_segment.{h,cpp}]

    The segment header, the encoder, the header decoder and the CRC check.
    Buffers are lists of bytes; a pointer argument that may be null is an
    [option].  The abstract view of a frame is [frame]; the encoder is proved to
    produce it and the decoder to read it back. *)
From S2P Require Import Prelude Proto Crc.

(** ** [struct FgwSegmentHeader] *)
Record FgwSegmentHeader := mkHdr {
  h_magic : Z; h_flags : Z; h_payload_len : Z; h_session_id : Z;
  h_seq_num : Z; h_ingress_id : Z; h_outport_id : Z; h_crc32 : Z }.

Definition MAGIC : Z := 0xF6.
Definition MAX_PAYLOAD : Z := 65519.
Definition HEADER_SIZE : Z := 20.
Definition LEGACY_HEADER_SIZE : Z := 16.
Definition ROUTED_HEADER_SIZE : Z := 24.

Definition FLAG_SYN : Z := 0x01.
Definition FLAG_FIN : Z := 0x02.
Definition FLAG_DATA : Z := 0x04.
Definition FLAG_ACK : Z := 0x08.
Definition FLAG_HEARTBEAT : Z := 0x10.
Definition FLAG_HELLO : Z := 0x20.
Definition FLAG_HDR_ROUTE : Z := 0x40.
Definition FLAG_HDR_EXT : Z := 0x80.

Definition FgwSegmentHeader_default : FgwSegmentHeader := mkHdr MAGIC 0 0 0 0 0 0 0.

Definition has_flag (flags f : Z) : bool := negb (Z.land flags f =? 0).
Definition isData (h : FgwSegmentHeader) : bool := has_flag (h_flags h) FLAG_DATA.
Definition isHello (h : FgwSegmentHeader) : bool := has_flag (h_flags h) FLAG_HELLO.
Definition isHeartbeat (h : FgwSegmentHeader) : bool := has_flag (h_flags h) FLAG_HEARTBEAT.
Definition isFin (h : FgwSegmentHeader) : bool := has_flag (h_flags h) FLAG_FIN.
Definition isSyn (h : FgwSegmentHeader) : bool := has_flag (h_flags h) FLAG_SYN.
Definition isAck (h : FgwSegmentHeader) : bool := has_flag (h_flags h) FLAG_ACK.
Definition isHdrExt (h : FgwSegmentHeader) : bool := has_flag (h_flags h) FLAG_HDR_EXT.
Definition isHdrRoute (h : FgwSegmentHeader) : bool := has_flag (h_flags h) FLAG_HDR_ROUTE.

(** ** Big-endian integers *)
Definition pack_be16 (v : Z) : bytes :=
  [Z.land (Z.shiftr v 8) 0xFF; Z.land v 0xFF].
Definition pack_be32 (v : Z) : bytes :=
  [Z.land (Z.shiftr v 24) 0xFF; Z.land (Z.shiftr v 16) 0xFF;
   Z.land (Z.shiftr v 8) 0xFF; Z.land v 0xFF].
Definition unpack_be16 (p : bytes) : Z :=
  u16 (Z.lor (Z.shiftl (at_ p 0) 8) (at_ p 1)).
Definition unpack_be32 (p : bytes) : Z :=
  Z.lor (Z.lor (Z.lor (Z.shiftl (at_ p 0) 24) (Z.shiftl (at_ p 1) 16))
               (Z.shiftl (at_ p 2) 8)) (at_ p 3).

(** ** [fgwSegmentEncode] *)
Definition fgwSegmentEncode (out : option bytes) (out_size : Z) (hdr : FgwSegmentHeader)
    (payload : option bytes) (payload_len : Z) : Z * option bytes :=
  match out with
  | None => (err ZFGW_ERRCODE_MEMORY, None)
  | Some out =>
    if (payload_len <? 0) || (MAX_PAYLOAD <? payload_len)
    then (err ZFGW_ERRCODE_BADSEGMENT, Some out)
    else
    let routed := negb (Z.land (h_flags hdr) FLAG_HDR_ROUTE =? 0) in
    let hdr_sz := if routed then ROUTED_HEADER_SIZE else HEADER_SIZE in
    let total := hdr_sz + payload_len in
    if out_size <? total then (err ZFGW_ERRCODE_MEMORY, Some out)
    else
    let flags := u8 (Z.lor (h_flags hdr) FLAG_HDR_EXT) in
    let out := write_at 0 [MAGIC] out in
    let out := write_at 1 [flags] out in
    let out := write_at 2 (pack_be16 (u16 payload_len)) out in
    let out := write_at 4 (pack_be32 (h_session_id hdr)) out in
    let out := write_at 8 (pack_be32 (h_seq_num hdr)) out in
    let out := write_at 12 (pack_be32 (h_ingress_id hdr)) out in
    let '(out, crc_off) :=
      if routed
      then (write_at 20 (pack_be32 0) (write_at 16 (pack_be32 (h_outport_id hdr)) out), 20)
      else (write_at 16 (pack_be32 0) out, 16) in
    let out :=
      match payload with
      | Some p => if 0 <? payload_len
                  then write_at hdr_sz (take (Z.to_nat payload_len) p) out else out
      | None => out
      end in
    let crc := fgwCrc32 out total 0 in
    let out := write_at crc_off (pack_be32 crc) out in
    (total, Some out)
  end.

(** ** [fgwSegmentPeekHeader] *)
Definition fgwSegmentPeekHeader (inb : bytes) (in_size : Z) (hdr : FgwSegmentHeader)
    : Z * FgwSegmentHeader :=
  if in_size <? LEGACY_HEADER_SIZE then (0, hdr)
  else if negb (at_ inb 0 =? MAGIC) then (err ZFGW_ERRCODE_BADSEGMENT, hdr)
  else
  let hdr := mkHdr (at_ inb 0) (at_ inb 1) (unpack_be16 (drop 2 inb))
    (unpack_be32 (drop 4 inb)) (unpack_be32 (drop 8 inb))
    (h_ingress_id hdr) (h_outport_id hdr) (h_crc32 hdr) in
  let route (ing out crc : Z) :=
    mkHdr (h_magic hdr) (h_flags hdr) (h_payload_len hdr) (h_session_id hdr)
      (h_seq_num hdr) ing out crc in
  if MAX_PAYLOAD <? h_payload_len hdr then (err ZFGW_ERRCODE_BADSEGMENT, hdr)
  else if isHdrRoute hdr then
    if in_size <? ROUTED_HEADER_SIZE then (0, hdr)
    else (ROUTED_HEADER_SIZE,
          route (unpack_be32 (drop 12 inb)) (unpack_be32 (drop 16 inb))
                (unpack_be32 (drop 20 inb)))
  else if isHdrExt hdr then
    if in_size <? HEADER_SIZE then (0, hdr)
    else (HEADER_SIZE,
          route (unpack_be32 (drop 12 inb)) 0 (unpack_be32 (drop 16 inb)))
  else (LEGACY_HEADER_SIZE, route 0 0 (unpack_be32 (drop 12 inb))).

(** ** [fgwSegmentVerifyCrc] *)
Definition fgwSegmentVerifyCrc (inb : bytes) (hdr : FgwSegmentHeader)
    (header_wire_bytes : Z) : bool :=
  if negb (header_wire_bytes =? LEGACY_HEADER_SIZE) &&
     negb (header_wire_bytes =? HEADER_SIZE) &&
     negb (header_wire_bytes =? ROUTED_HEADER_SIZE)
  then false
  else crc_ok inb header_wire_bytes (h_payload_len hdr) (h_crc32 hdr).

(** ** The abstract frame *)

(** A header a caller may pass: every field in the range of its type. *)
Record wf_hdr (h : FgwSegmentHeader) : Prop := {
  wf_flags : is_byte (h_flags h);
  wf_session : is_u32 (h_session_id h);
  wf_seq : is_u32 (h_seq_num h);
  wf_ingress : is_u32 (h_ingress_id h);
  wf_outport : is_u32 (h_outport_id h) }.

Definition hdr_sz (h : FgwSegmentHeader) : Z :=
  if isHdrRoute h then ROUTED_HEADER_SIZE else HEADER_SIZE.

(** The header bytes up to the CRC field, then the CRC over the frame with a
    zero CRC field, then the payload. *)
Definition frame_prefix (h : FgwSegmentHeader) (plen : Z) : bytes :=
  [MAGIC; u8 (Z.lor (h_flags h) FLAG_HDR_EXT)] ++ pack_be16 (u16 plen) ++
  pack_be32 (h_session_id h) ++ pack_be32 (h_seq_num h) ++ pack_be32 (h_ingress_id h) ++
  (if isHdrRoute h then pack_be32 (h_outport_id h) else []).
Definition frame_crc (h : FgwSegmentHeader) (p : bytes) : Z :=
  let l := frame_prefix h (zlen p) ++ [0; 0; 0; 0] ++ p in fgwCrc32 l (zlen l) 0.
Definition frame (h : FgwSegmentHeader) (p : bytes) : bytes :=
  frame_prefix h (zlen p) ++ pack_be32 (frame_crc h p) ++ p.

(** What the decoder reports for a frame. *)
Definition frame_hdr (h : FgwSegmentHeader) (p : bytes) : FgwSegmentHeader :=
  mkHdr MAGIC (u8 (Z.lor (h_flags h) FLAG_HDR_EXT)) (zlen p) (h_session_id h)
    (h_seq_num h) (h_ingress_id h) (if isHdrRoute h then h_outport_id h else 0)
    (frame_crc h p).

(** The bytes the CRC of a received frame is computed over. *)
Definition crc_input (f : bytes) (hw plen : Z) : bytes :=
  take (Z.to_nat (hw - 4)) f ++ [0; 0; 0; 0] ++
  take (Z.to_nat plen) (drop (Z.to_nat hw) f).

(** ** Big-endian round trips *)
Lemma pack_be16_bytes v : Forall is_byte (pack_be16 v).
Proof. repeat constructor; apply land_255_byte. Qed.
Lemma pack_be32_bytes v : Forall is_byte (pack_be32 v).
Proof. repeat constructor; apply land_255_byte. Qed.
#[export] Hint Resolve pack_be16_bytes pack_be32_bytes : fgw.

Lemma land_high_low a b n : 0 <= n -> 0 <= b < 2 ^ n -> Z.land (a * 2 ^ n) b = 0.
Proof.
  intros Hn Hb. Z.bitwise. destruct (Z.lt_ge_cases m n) as [Hlt|Hge].
  - by rewrite Z.mul_pow2_bits_low.
  - rewrite <- (Z.mod_small b (2 ^ n)), Z.mod_pow2_bits_high, andb_false_r by lia. done.
Qed.

Lemma lor_low a b n : 0 <= n -> 0 <= b < 2 ^ n -> Z.lor (a * 2 ^ n) b = a * 2 ^ n + b.
Proof.
  intros Hn Hb. rewrite <- Z.lxor_lor, Z.add_nocarry_lxor by auto using land_high_low. done.
Qed.

Lemma at_byte_0 b l : at_ (b :: l) 0 = b. Proof. done. Qed.

Lemma unpack_be32_val b0 b1 b2 b3 l :
  is_byte b0 -> is_byte b1 -> is_byte b2 -> is_byte b3 ->
  unpack_be32 (b0 :: b1 :: b2 :: b3 :: l) = b0 * 2 ^ 24 + b1 * 2 ^ 16 + b2 * 2 ^ 8 + b3.
Proof.
  unfold is_byte, unpack_be32, at_. intros. at_lit.
  rewrite !Z.shiftl_mul_pow2 by lia.
  rewrite (lor_low b0 (b1 * 2 ^ 16) 24) by lia.
  replace (b0 * 2 ^ 24 + b1 * 2 ^ 16) with ((b0 * 2 ^ 8 + b1) * 2 ^ 16) by lia.
  rewrite (lor_low _ (b2 * 2 ^ 8) 16) by lia.
  replace ((b0 * 2 ^ 8 + b1) * 2 ^ 16 + b2 * 2 ^ 8)
    with ((b0 * 2 ^ 16 + b1 * 2 ^ 8 + b2) * 2 ^ 8) by lia.
  rewrite (lor_low _ b3 8) by lia. lia.
Qed.

Lemma unpack_be16_val b0 b1 l :
  is_byte b0 -> is_byte b1 -> unpack_be16 (b0 :: b1 :: l) = b0 * 2 ^ 8 + b1.
Proof.
  unfold is_byte, unpack_be16, at_. intros. at_lit.
  rewrite Z.shiftl_mul_pow2, (lor_low b0 b1 8) by lia. apply u16_small. lia.
Qed.

Lemma land_shift_255 v n : 0 <= n -> Z.land (Z.shiftr v n) 255 = v / 2 ^ n mod 2 ^ 8.
Proof. intros. by rewrite land_255, Z.shiftr_div_pow2. Qed.

Lemma unpack_pack_be32 v l : is_u32 v -> unpack_be32 (pack_be32 v ++ l) = v.
Proof.
  intros Hv. unfold pack_be32. cbn [app].
  rewrite unpack_be32_val by auto with fgw.
  rewrite !land_shift_255, land_255 by lia. word.
Qed.

Lemma unpack_pack_be16 v l : 0 <= v < 2 ^ 16 -> unpack_be16 (pack_be16 v ++ l) = v.
Proof.
  intros Hv. unfold pack_be16. cbn [app].
  rewrite unpack_be16_val by auto with fgw.
  rewrite !land_shift_255, land_255 by lia. word.
Qed.

Lemma pack_unpack_be32 b0 b1 b2 b3 :
  is_byte b0 -> is_byte b1 -> is_byte b2 -> is_byte b3 ->
  pack_be32 (unpack_be32 [b0; b1; b2; b3]) = [b0; b1; b2; b3].
Proof.
  intros. rewrite unpack_be32_val by done. unfold pack_be32.
  rewrite !land_shift_255, land_255 by lia. repeat f_equal; word.
Qed.

Lemma unpack_be32_u32 l : Forall is_byte l -> is_u32 (unpack_be32 l).
Proof.
  intros Hl. pose proof (at_byte l 0 Hl). pose proof (at_byte l 1 Hl).
  pose proof (at_byte l 2 Hl). pose proof (at_byte l 3 Hl).
  replace (unpack_be32 l) with (unpack_be32 [at_ l 0; at_ l 1; at_ l 2; at_ l 3]) by done.
  rewrite unpack_be32_val by done. unfold is_u32, is_byte in *. lia.
Qed.

Lemma unpack_be16_range l : 0 <= unpack_be16 l < 2 ^ 16.
Proof. apply u16_range. Qed.

(** ** The encoder produces the abstract frame *)
Lemma write_at_ext pre bs r off :
  zlen pre = off -> write_at off bs (pre ++ r) = (pre ++ bs) ++ drop (length bs) r.
Proof.
  intros <-. unfold write_at, zlen. rewrite Nat2Z.id, take_app_length, <- app_assoc.
  by rewrite drop_app_add.
Qed.

Lemma frame_prefix_len h plen :
  zlen (frame_prefix h plen) = hdr_sz h - 4.
Proof. unfold frame_prefix, hdr_sz. destruct (isHdrRoute h); reflexivity. Qed.
#[export] Hint Rewrite frame_prefix_len : words.

Lemma frame_len h p : zlen (frame h p) = hdr_sz h + zlen p.
Proof.
  unfold frame. rewrite !zlen_app, frame_prefix_len. change (zlen (pack_be32 _)) with 4. lia.
Qed.

Lemma hdr_sz_cases h : hdr_sz h = 20 \/ hdr_sz h = 24.
Proof. unfold hdr_sz. destruct (isHdrRoute h); auto. Qed.

Lemma frame_crc_u32 h p : is_u32 (frame_crc h p).
Proof. apply fgwCrc32_u32. unfold is_u32. lia. Qed.
#[export] Hint Resolve frame_crc_u32 : fgw.

#[local] Opaque write_at.

Ltac write_ext := repeat (rewrite write_at_ext by reflexivity); rewrite <- ?app_assoc; cbn [app].

(** The header writes, CRC placeholder included, fill the first [hdr_sz] bytes. *)
Lemma encode_header_ext h plen o :
  (let o := write_at 0 [MAGIC] o in
   let o := write_at 1 [u8 (Z.lor (h_flags h) FLAG_HDR_EXT)] o in
   let o := write_at 2 (pack_be16 (u16 plen)) o in
   let o := write_at 4 (pack_be32 (h_session_id h)) o in
   let o := write_at 8 (pack_be32 (h_seq_num h)) o in
   let o := write_at 12 (pack_be32 (h_ingress_id h)) o in
   if isHdrRoute h
   then (write_at 20 (pack_be32 0) (write_at 16 (pack_be32 (h_outport_id h)) o), 20)
   else (write_at 16 (pack_be32 0) o, 16)) =
  ((frame_prefix h plen ++ [0; 0; 0; 0]) ++ drop (Z.to_nat (hdr_sz h)) o, hdr_sz h - 4).
Proof.
  cbv zeta. change (write_at 0 [MAGIC] o) with (write_at 0 [MAGIC] ([] ++ o)).
  unfold frame_prefix, hdr_sz. destruct (isHdrRoute h); f_equal; write_ext;
    rewrite !drop_drop; reflexivity.
Qed.

(** The payload write and the CRC over the result. *)
Lemma encode_crc_ext h p r :
  let out := (frame_prefix h (zlen p) ++ [0; 0; 0; 0] ++ p) ++ r in
  fgwCrc32 out (hdr_sz h + zlen p) 0 = frame_crc h p.
Proof.
  cbv zeta. unfold frame_crc. cbv zeta. unfold fgwCrc32.
  set (l := frame_prefix h (zlen p) ++ [0; 0; 0; 0] ++ p).
  assert (Hl : zlen l = hdr_sz h + zlen p).
  { unfold l. rewrite !zlen_app, frame_prefix_len. change (zlen [0; 0; 0; 0]) with 4. lia. }
  rewrite <- Hl. unfold zlen. rewrite Nat2Z.id, take_app_length. by rewrite firstn_all.
Qed.

(** The buffer after a successful call: the frame, then the untouched rest. *)
Lemma encode_frame h p o out_size :
  zlen p <= MAX_PAYLOAD -> hdr_sz h + zlen p <= out_size -> out_size <= zlen o ->
  fgwSegmentEncode (Some o) out_size h (Some p) (zlen p) =
  (zlen (frame h p), Some (frame h p ++ drop (length (frame h p)) o)).
Proof.
  intros Hp Hsz Ho. pose proof (zlen_nonneg p). unfold fgwSegmentEncode.
  replace ((zlen p <? 0) || (MAX_PAYLOAD <? zlen p)) with false by lia.
  change (negb (Z.land (h_flags h) FLAG_HDR_ROUTE =? 0)) with (isHdrRoute h).
  change (if isHdrRoute h then ROUTED_HEADER_SIZE else HEADER_SIZE) with (hdr_sz h).
  replace (out_size <? hdr_sz h + zlen p) with false by lia.
  pose proof (encode_header_ext h (zlen p) o) as Hh. cbv zeta in Hh. cbv zeta. rewrite Hh. clear Hh.
  assert (Hpay : (if 0 <? zlen p
      then write_at (hdr_sz h) (take (Z.to_nat (zlen p)) p)
             ((frame_prefix h (zlen p) ++ [0; 0; 0; 0]) ++ drop (Z.to_nat (hdr_sz h)) o)
      else (frame_prefix h (zlen p) ++ [0; 0; 0; 0]) ++ drop (Z.to_nat (hdr_sz h)) o) =
    (frame_prefix h (zlen p) ++ [0; 0; 0; 0] ++ p) ++ drop (length (frame h p)) o).
  { assert (Hlen : length (frame h p) = (Z.to_nat (hdr_sz h) + length p)%nat).
    { pose proof (frame_len h p) as Hf. unfold zlen in Hf. pose proof (hdr_sz_cases h). lia. }
    rewrite Hlen. destruct (0 <? zlen p) eqn:Hpos.
    - rewrite write_at_ext; cycle 1.
      { rewrite zlen_app, frame_prefix_len. change (zlen [0; 0; 0; 0]) with 4. lia. }
      unfold zlen. rewrite Nat2Z.id, firstn_all, drop_drop, <- !app_assoc. done.
    - assert (p = []) as -> by (destruct p; [done | rewrite zlen_cons in Hpos; pose proof (zlen_nonneg p); lia]).
      by rewrite Nat.add_0_r, app_nil_r. }
  rewrite Hpay, encode_crc_ext. f_equal; [by rewrite frame_len|].
  f_equal. rewrite <- !app_assoc. rewrite <- frame_prefix_len with (plen := zlen p).
  by rewrite write_at_app; unfold frame; rewrite <- ?app_assoc.
Qed.

(** ** The decoder reads the frame back *)
Lemma unpack_at pre v post :
  is_u32 v -> unpack_be32 (drop (length pre) (pre ++ pack_be32 v ++ post)) = v.
Proof. intros Hv. rewrite drop_app_length. by apply unpack_pack_be32. Qed.

Lemma ext_flags f : is_byte f ->
  let f' := u8 (Z.lor f FLAG_HDR_EXT) in
  is_byte f' /\ has_flag f' FLAG_HDR_ROUTE = has_flag f FLAG_HDR_ROUTE /\
  has_flag f' FLAG_HDR_EXT = true.
Proof.
  intros Hf.
  pose proof (byte_forall (fun f => let f' := u8 (Z.lor f FLAG_HDR_EXT) in
    eqb (has_flag f' FLAG_HDR_ROUTE) (has_flag f FLAG_HDR_ROUTE) && has_flag f' FLAG_HDR_EXT)
    ltac:(vm_compute; reflexivity) f Hf) as H.
  cbv zeta in *. apply andb_prop in H as [H1 H2]. apply eqb_prop in H1.
  split; [apply u8_range | done].
Qed.

(** The first sixteen bytes of any segment. *)
Definition head_bytes (fl n s q : Z) : bytes :=
  [MAGIC; fl] ++ pack_be16 n ++ pack_be32 s ++ pack_be32 q.

Lemma peek_head fl n s q t in_size h0 :
  0 <= n <= MAX_PAYLOAD -> is_u32 s -> is_u32 q -> 16 <= in_size ->
  fgwSegmentPeekHeader (head_bytes fl n s q ++ t) in_size h0 =
  let mk := mkHdr MAGIC fl n s q in
  if has_flag fl FLAG_HDR_ROUTE then
    if in_size <? 24 then (0, mk (h_ingress_id h0) (h_outport_id h0) (h_crc32 h0))
    else (24, mk (unpack_be32 t) (unpack_be32 (drop 4 t)) (unpack_be32 (drop 8 t)))
  else if has_flag fl FLAG_HDR_EXT then
    if in_size <? 20 then (0, mk (h_ingress_id h0) (h_outport_id h0) (h_crc32 h0))
    else (20, mk (unpack_be32 t) 0 (unpack_be32 (drop 4 t)))
  else (16, mk 0 0 (unpack_be32 t)).
Proof.
  intros Hn Hs Hq Hsz. unfold fgwSegmentPeekHeader, LEGACY_HEADER_SIZE.
  replace (in_size <? 16) with false by lia.
  change (at_ (head_bytes fl n s q ++ t) 0) with MAGIC.
  change (at_ (head_bytes fl n s q ++ t) 1) with fl. rewrite Z.eqb_refl. cbn [negb].
  assert (unpack_be16 (drop 2 (head_bytes fl n s q ++ t)) = n) as ->.
  { apply (unpack_pack_be16 n (pack_be32 s ++ pack_be32 q ++ t)). unfold MAX_PAYLOAD in Hn. lia. }
  assert (unpack_be32 (drop 4 (head_bytes fl n s q ++ t)) = s) as ->
    by apply (unpack_pack_be32 s (pack_be32 q ++ t)), Hs.
  assert (unpack_be32 (drop 8 (head_bytes fl n s q ++ t)) = q) as ->
    by apply (unpack_pack_be32 q t), Hq.
  cbv zeta. cbn [h_magic h_flags h_payload_len h_session_id h_seq_num].
  replace (MAX_PAYLOAD <? n) with false by lia. unfold isHdrRoute, isHdrExt. cbn [h_flags].
  unfold ROUTED_HEADER_SIZE, HEADER_SIZE.
  destruct (has_flag fl FLAG_HDR_ROUTE); [by destruct (in_size <? 24)|].
  destruct (has_flag fl FLAG_HDR_EXT); [by destruct (in_size <? 20) | done].
Qed.

Lemma peek_frame h p rest in_size h0 :
  wf_hdr h -> zlen p <= MAX_PAYLOAD -> hdr_sz h <= in_size ->
  fgwSegmentPeekHeader (frame h p ++ rest) in_size h0 = (hdr_sz h, frame_hdr h p).
Proof.
  intros [Hf Hs Hq Hi Ho] Hp Hsz. pose proof (zlen_nonneg p).
  destruct (ext_flags _ Hf) as (Hfb & Hr & He).
  assert (Hn : u16 (zlen p) = zlen p) by (apply u16_small; unfold MAX_PAYLOAD in Hp; lia).
  set (fl := u8 (Z.lor (h_flags h) FLAG_HDR_EXT)) in *.
  assert (Hframe : frame h p ++ rest = head_bytes fl (zlen p) (h_session_id h) (h_seq_num h) ++
    pack_be32 (h_ingress_id h) ++ (if isHdrRoute h then pack_be32 (h_outport_id h) else []) ++
    pack_be32 (frame_crc h p) ++ p ++ rest).
  { unfold frame, frame_prefix, head_bytes. rewrite Hn. by rewrite <- !app_assoc. }
  rewrite Hframe, peek_head; [|lia|done|done|destruct (hdr_sz_cases h); lia].
  cbv zeta. rewrite Hr, He. unfold frame_hdr, hdr_sz, isHdrRoute in *. fold fl.
  rewrite unpack_pack_be32 by done.
  destruct (has_flag (h_flags h) FLAG_HDR_ROUTE).
  - replace (in_size <? 24) with false by (unfold ROUTED_HEADER_SIZE in Hsz; lia).
    rewrite (unpack_at (pack_be32 (h_ingress_id h)) (h_outport_id h)) by done.
    rewrite app_assoc, (unpack_at (pack_be32 _ ++ pack_be32 _) (frame_crc h p)) by auto with fgw.
    done.
  - replace (in_size <? 20) with false by (unfold HEADER_SIZE in Hsz; lia).
    rewrite app_nil_l, (unpack_at (pack_be32 (h_ingress_id h)) (frame_crc h p)) by auto with fgw.
    done.
Qed.

(** ** The CRC check *)
Lemma crc_ok_input f hw plen e :
  crc_ok f hw plen e = (Z.lxor (crc_run 0xFFFFFFFF (crc_input f hw plen)) 0xFFFFFFFF =? e).
Proof. unfold crc_ok, crc_input. cbv zeta. by rewrite !crc_run_app. Qed.

Lemma frame_payload h p rest :
  drop (Z.to_nat (hdr_sz h)) (frame h p ++ rest) = p ++ rest.
Proof.
  unfold frame. rewrite <- !app_assoc.
  replace (Z.to_nat (hdr_sz h)) with (length (frame_prefix h (zlen p)) + 4)%nat.
  - by rewrite drop_app_add.
  - pose proof (frame_prefix_len h (zlen p)) as Hl. unfold zlen in *. lia.
Qed.

Lemma crc_input_frame h p rest :
  crc_input (frame h p ++ rest) (hdr_sz h) (zlen p) =
  frame_prefix h (zlen p) ++ [0; 0; 0; 0] ++ p.
Proof.
  unfold crc_input. rewrite frame_payload, take_zlen_app. f_equal.
  rewrite <- (frame_prefix_len h (zlen p)). unfold frame. rewrite <- !app_assoc.
  apply take_zlen_app.
Qed.

Lemma verify_frame h p rest :
  fgwSegmentVerifyCrc (frame h p ++ rest) (frame_hdr h p) (hdr_sz h) = true.
Proof.
  unfold fgwSegmentVerifyCrc.
  assert (negb (hdr_sz h =? LEGACY_HEADER_SIZE) && negb (hdr_sz h =? HEADER_SIZE) &&
    negb (hdr_sz h =? ROUTED_HEADER_SIZE) = false) as ->
    by (unfold hdr_sz; by destruct (isHdrRoute h)).
  rewrite crc_ok_input. cbn [frame_hdr h_payload_len h_crc32]. rewrite crc_input_frame.
  unfold frame_crc. rewrite fgwCrc32_run. apply Z.eqb_refl.
Qed.

(** ** What a successful decode says *)
Record peek_spec (l : bytes) (size hr : Z) (h : FgwSegmentHeader) : Prop := {
  pk_size : hr <= size;
  pk_hr : hr = if has_flag (at_ l 1) FLAG_HDR_ROUTE then 24
               else if has_flag (at_ l 1) FLAG_HDR_EXT then 20 else 16;
  pk_magic : at_ l 0 = MAGIC;
  pk_flags : h_flags h = at_ l 1;
  pk_len : h_payload_len h = unpack_be16 (drop 2 l);
  pk_max : h_payload_len h <= MAX_PAYLOAD;
  pk_sid : h_session_id h = unpack_be32 (drop 4 l);
  pk_seq : h_seq_num h = unpack_be32 (drop 8 l);
  pk_crc : h_crc32 h = unpack_be32 (drop (Z.to_nat (hr - 4)) l);
  pk_ing : h_ingress_id h = 0 \/ h_ingress_id h = unpack_be32 (drop 12 l) }.

Lemma peek_pos l size h0 hr h :
  fgwSegmentPeekHeader l size h0 = (hr, h) -> 0 < hr -> peek_spec l size hr h.
Proof.
  assert (Hbad : err ZFGW_ERRCODE_BADSEGMENT < 0) by by apply err_neg.
  unfold fgwSegmentPeekHeader, LEGACY_HEADER_SIZE, HEADER_SIZE, ROUTED_HEADER_SIZE,
    isHdrRoute, isHdrExt. cbv zeta. cbn [h_magic h_flags h_payload_len h_session_id h_seq_num].
  intros Heq Hpos.
  destruct (size <? 16) eqn:H16; [simplify_eq; lia|].
  destruct (negb (at_ l 0 =? MAGIC)) eqn:Hm; [simplify_eq; lia|].
  apply negb_false_iff, Z.eqb_eq in Hm.
  destruct (MAX_PAYLOAD <? unpack_be16 (drop 2 l)) eqn:Hmax; [simplify_eq; lia|].
  destruct (has_flag (at_ l 1) FLAG_HDR_ROUTE) eqn:Hr.
  - destruct (size <? 24) eqn:H24; simplify_eq; [lia|].
    constructor; cbn; rewrite ?Hr; try done; auto; lia.
  - destruct (has_flag (at_ l 1) FLAG_HDR_EXT) eqn:He.
    + destruct (size <? 20) eqn:H20; simplify_eq; [lia|].
      constructor; cbn; rewrite ?Hr, ?He; try done; auto; lia.
    + simplify_eq. constructor; cbn; rewrite ?Hr, ?He; try done; auto; lia.
Qed.

Lemma peek_hr_cases l size hr h : peek_spec l size hr h -> hr = 16 \/ hr = 20 \/ hr = 24.
Proof. intros []. repeat case_match; auto. Qed.

(** The decoder only looks at the first [hr] bytes. *)
Lemma peek_ext l size l' size' h0 h0' hr h :
  fgwSegmentPeekHeader l size h0 = (hr, h) -> 0 < hr -> hr <= size' ->
  at_ l' 0 = MAGIC -> at_ l' 1 = at_ l 1 -> unpack_be16 (drop 2 l') = unpack_be16 (drop 2 l) ->
  exists h', fgwSegmentPeekHeader l' size' h0' = (hr, h') /\ peek_spec l' size' hr h' /\
    h_payload_len h' = h_payload_len h.
Proof.
  intros Heq Hpos Hs' Hm Hf Hl. destruct (peek_pos _ _ _ _ _ Heq Hpos) as [].
  assert (Hex : exists h', fgwSegmentPeekHeader l' size' h0' = (hr, h')).
  { unfold fgwSegmentPeekHeader, LEGACY_HEADER_SIZE, HEADER_SIZE, ROUTED_HEADER_SIZE,
      isHdrRoute, isHdrExt. cbv zeta.
    cbn [h_magic h_flags h_payload_len h_session_id h_seq_num].
    rewrite Hm, Hf, Hl, Z.eqb_refl. cbn [negb]. rewrite <- pk_len0.
    replace (MAX_PAYLOAD <? h_payload_len h) with false by lia.
    destruct (has_flag (at_ l 1) FLAG_HDR_ROUTE), (has_flag (at_ l 1) FLAG_HDR_EXT); subst hr;
      repeat match goal with |- context [?a <? ?b] => replace (a <? b) with false by lia end;
      eauto. }
  destruct Hex as [h' Hh']. exists h'.
  pose proof (peek_pos _ _ _ _ _ Hh' Hpos) as Hsp. split_and!; [done | done |].
  destruct Hsp. congruence.
Qed.

Lemma unpack_be32_app n l k :
  (n + 4 <= length l)%nat -> unpack_be32 (drop n (l ++ k)) = unpack_be32 (drop n l).
Proof.
  intros Hn. rewrite skipn_app. unfold unpack_be32.
  assert (Hl : zlen (drop n l) >= 4) by (unfold zlen; rewrite length_drop; lia).
  by rewrite !at_app_l by lia.
Qed.

Lemma unpack_be16_app n l k :
  (n + 2 <= length l)%nat -> unpack_be16 (drop n (l ++ k)) = unpack_be16 (drop n l).
Proof.
  intros Hn. rewrite skipn_app. unfold unpack_be16.
  assert (Hl : zlen (drop n l) >= 2) by (unfold zlen; rewrite length_drop; lia).
  by rewrite !at_app_l by lia.
Qed.

(** More input does not change a decision the decoder has taken. *)
Lemma peek_app l k h0 :
  fst (fgwSegmentPeekHeader l (zlen l) h0) <> 0 ->
  fgwSegmentPeekHeader (l ++ k) (zlen (l ++ k)) h0 = fgwSegmentPeekHeader l (zlen l) h0.
Proof.
  unfold fgwSegmentPeekHeader, LEGACY_HEADER_SIZE, HEADER_SIZE, ROUTED_HEADER_SIZE,
    isHdrRoute, isHdrExt. cbv zeta. cbn [h_magic h_flags h_payload_len h_session_id h_seq_num].
  destruct (zlen l <? 16) eqn:H16; [done|]. pose proof (zlen_nonneg k).
  rewrite zlen_app. replace (zlen l + zlen k <? 16) with false by lia.
  assert (Hlen : (16 <= length l)%nat) by (unfold zlen in H16; lia).
  rewrite !at_app_l by lia.
  rewrite unpack_be16_app, (unpack_be32_app 4), (unpack_be32_app 8), (unpack_be32_app 12) by lia.
  destruct (negb (at_ l 0 =? MAGIC)); [done|].
  destruct (MAX_PAYLOAD <? unpack_be16 (drop 2 l)); [done|].
  destruct (has_flag (at_ l 1) FLAG_HDR_ROUTE).
  - destruct (zlen l <? 24) eqn:H24; [done|]. intros _.
    replace (zlen l + zlen k <? 24) with false by lia. unfold zlen in H24.
    by rewrite (unpack_be32_app 16), (unpack_be32_app 20) by lia.
  - destruct (has_flag (at_ l 1) FLAG_HDR_EXT); [|done].
    destruct (zlen l <? 20) eqn:H20; [done|]. intros _.
    replace (zlen l + zlen k <? 20) with false by lia. unfold zlen in H20.
    by rewrite (unpack_be32_app 16) by lia.
Qed.

(** ** Bursts *)
Lemma burst_take (n : Z) (pre m post : bytes) : zlen pre + zlen m <= n ->
  take (Z.to_nat n) (pre ++ m ++ post) =
  pre ++ m ++ take (Z.to_nat n - length pre - length m) post.
Proof.
  intros Hn. unfold zlen in Hn. rewrite !firstn_app.
  rewrite (take_ge pre), (take_ge m) by lia. done.
Qed.

Lemma burst_drop_after (n : Z) (pre m post : bytes) : zlen pre + zlen m <= n ->
  drop (Z.to_nat n) (pre ++ m ++ post) = drop (Z.to_nat n - length pre - length m) post.
Proof.
  intros Hn. unfold zlen in Hn. rewrite !skipn_app.
  rewrite (drop_ge pre), (drop_ge m) by lia. done.
Qed.

Lemma burst_drop_before (n : Z) (pre m post : bytes) : n <= zlen pre ->
  drop (Z.to_nat n) (pre ++ m ++ post) = drop (Z.to_nat n) pre ++ m ++ post.
Proof.
  intros Hn. unfold zlen in Hn. rewrite skipn_app.
  replace (Z.to_nat n - length pre)%nat with 0%nat by lia. by rewrite drop_0.
Qed.

Lemma burst_take_before (n : Z) (pre m post : bytes) : n <= zlen pre ->
  take (Z.to_nat n) (pre ++ m ++ post) = take (Z.to_nat n) pre.
Proof.
  intros Hn. unfold zlen in Hn. rewrite firstn_app.
  replace (Z.to_nat n - length pre)%nat with 0%nat by lia. by rewrite take_0, app_nil_r.
Qed.

Section burst.
Context (pre mid mid' post : bytes).
Context (Hlen : length mid = length mid') (H4 : zlen mid <= 4) (Hne : mid <> mid').
Context (Hb : Forall is_byte mid) (Hb' : Forall is_byte mid') (Hbp : Forall is_byte post).
Context (Hbpre : Forall is_byte pre).

Let f := pre ++ mid ++ post.
Let f' := pre ++ mid' ++ post.

Lemma zlen_mid : zlen mid' = zlen mid.
Proof. unfold zlen. by rewrite Hlen. Qed.

(** A burst in the header before its CRC field. *)
Lemma burst_header hw plen : 4 < hw -> zlen pre + zlen mid <= hw - 4 ->
  crc_run 0xFFFFFFFF (crc_input f hw plen) <> crc_run 0xFFFFFFFF (crc_input f' hw plen).
Proof.
  intros Hhw Hin. unfold crc_input, f, f'.
  rewrite !burst_take, !burst_drop_after by (rewrite ?zlen_mid; lia).
  rewrite <- Hlen, <- !app_assoc.
  apply crc_run_burst_neq; try done.
  repeat apply Forall_app_2; [by apply Forall_take | |].
  - by repeat (apply Forall_cons; split; [unfold is_byte; lia|]).
  - by apply Forall_take, Forall_drop.
Qed.

(** A burst in the payload. *)
Lemma burst_payload hw plen : 4 < hw -> hw <= zlen pre -> zlen pre + zlen mid <= hw + plen ->
  crc_run 0xFFFFFFFF (crc_input f hw plen) <> crc_run 0xFFFFFFFF (crc_input f' hw plen).
Proof.
  intros Hhw Hlo Hhi. unfold crc_input, f, f'.
  rewrite !(burst_take_before (hw - 4)), !(burst_drop_before hw) by lia.
  assert (Htk : forall m, length m = length mid ->
    take (Z.to_nat plen) (drop (Z.to_nat hw) pre ++ m ++ post) =
    drop (Z.to_nat hw) pre ++ m ++
    take (Z.to_nat plen - length (drop (Z.to_nat hw) pre) - length mid) post).
  { intros m Hm. unfold zlen in *. rewrite !firstn_app, Hm.
    rewrite (take_ge (drop (Z.to_nat hw) pre)), (take_ge m) by (rewrite ?length_drop; lia).
    done. }
  rewrite !Htk by done.
  assert (Hsh : forall a z d m t : bytes, a ++ z ++ d ++ m ++ t = (a ++ z ++ d) ++ m ++ t)
    by (intros; by rewrite <- !app_assoc).
  rewrite !Hsh.
  apply crc_run_burst_neq; try done. by apply Forall_take.
Qed.

(** A burst inside the CRC field. *)
Lemma burst_crc_field off : 0 <= off -> off <= zlen pre -> zlen pre + zlen mid <= off + 4 ->
  off + 4 <= zlen f ->
  unpack_be32 (drop (Z.to_nat off) f) <> unpack_be32 (drop (Z.to_nat off) f').
Proof.
  intros H0 Hlo Hhi Hend Heq. unfold f, f' in *.
  rewrite !(burst_drop_before off) in Heq by done.
  set (a := drop (Z.to_nat off) pre) in *.
  assert (Hex : forall m, Forall is_byte m -> length m = length mid ->
    exists k, length k = 4%nat /\ Forall is_byte k /\
      take 4 (a ++ m ++ post) = k /\ unpack_be32 (a ++ m ++ post) = unpack_be32 k).
  { intros m Hbm Hm. exists (take 4 (a ++ m ++ post)).
    assert (Hl4 : (4 <= length (a ++ m ++ post))%nat).
    { unfold zlen, a in *. rewrite !length_app, length_drop in *. lia. }
    split_and!; [rewrite length_take; lia | | done |].
    - apply Forall_take, Forall_app_2; [by apply Forall_drop | by apply Forall_app_2].
    - rewrite <- (take_drop 4 (a ++ m ++ post)) at 1.
      apply (unpack_be32_app 0). rewrite length_take. lia. }
  destruct (Hex mid Hb eq_refl) as (k & Hk & Hkb & Htk & Hu).
  destruct (Hex mid' Hb' (eq_sym Hlen)) as (k' & Hk' & Hkb' & Htk' & Hu').
  rewrite Hu, Hu' in Heq.
  assert (Hkk : k = k').
  { destruct k as [|b0 [|b1 [|b2 [|b3 [|]]]]], k' as [|c0 [|c1 [|c2 [|c3 [|]]]]]; try done.
    rewrite !Forall_cons in Hkb, Hkb'. destruct Hkb as (? & ? & ? & ? & _), Hkb' as (? & ? & ? & ? & _).
    rewrite <- (pack_unpack_be32 b0 b1 b2 b3), <- (pack_unpack_be32 c0 c1 c2 c3), Heq by done.
    done. }
  apply Hne. subst k k'.
  assert (Hta : forall m, length m = length mid ->
    take 4 (a ++ m ++ post) = a ++ m ++ take (4 - length a - length mid) post).
  { intros m Hm. unfold zlen, a in *. rewrite !firstn_app, Hm, length_drop.
    rewrite (take_ge (drop _ pre)), (take_ge m) by (rewrite ?length_drop; lia). done. }
  rewrite !Hta in Hkk by done. apply app_inv_head in Hkk. by apply app_inv_tail in Hkk.
Qed.
End burst.

(** ** Theorems *)

Lemma ext_flags_lor f : is_byte f -> u8 (Z.lor f FLAG_HDR_EXT) = Z.lor f FLAG_HDR_EXT.
Proof.
  intros Hf. apply Z.eqb_eq. revert f Hf.
  apply (byte_forall (fun f => u8 (Z.lor f FLAG_HDR_EXT) =? Z.lor f FLAG_HDR_EXT)).
  vm_compute. reflexivity.
Qed.

(** C10: a segment written by [fgwSegmentEncode] into any large enough buffer is
    read back by [fgwSegmentPeekHeader] from the start of any byte stream that
    begins with it: same flags (with FLAG_HDR_EXT set), identifiers, sequence
    number and payload length, outport id exactly when the header is routed,
    CRC accepted, payload bytes intact. *)
Theorem segment_roundtrip (h h0 : FgwSegmentHeader) (p o rest : bytes) (out_size : Z)
    (Hwf : wf_hdr h) (Hp : zlen p <= MAX_PAYLOAD)
    (Hroom : hdr_sz h + zlen p <= out_size) (Hout : out_size <= zlen o) :
  exists f h',
    fgwSegmentEncode (Some o) out_size h (Some p) (zlen p) =
      (zlen f, Some (f ++ drop (length f) o)) /\
    zlen f = hdr_sz h + zlen p /\
    fgwSegmentPeekHeader (f ++ rest) (zlen (f ++ rest)) h0 = (hdr_sz h, h') /\
    h_flags h' = Z.lor (h_flags h) FLAG_HDR_EXT /\ h_payload_len h' = zlen p /\
    h_session_id h' = h_session_id h /\ h_seq_num h' = h_seq_num h /\
    h_ingress_id h' = h_ingress_id h /\
    h_outport_id h' = (if isHdrRoute h then h_outport_id h else 0) /\
    fgwSegmentVerifyCrc (f ++ rest) h' (hdr_sz h) = true /\
    take (Z.to_nat (zlen p)) (drop (Z.to_nat (hdr_sz h)) (f ++ rest)) = p.
Proof.
  exists (frame h p), (frame_hdr h p). pose proof (zlen_nonneg p). pose proof (zlen_nonneg rest).
  split_and!; try done.
  - by apply encode_frame.
  - apply frame_len.
  - apply peek_frame; [done | done | rewrite zlen_app, frame_len; lia].
  - apply ext_flags_lor, Hwf.
  - apply verify_frame.
  - by rewrite frame_payload, take_zlen_app.
Qed.

Definition example_hdr : FgwSegmentHeader :=
  mkHdr MAGIC (Z.lor FLAG_DATA FLAG_HDR_ROUTE) 3 0x0BADF00D 7 0x11112222 0x33334444 0.

Lemma segment_roundtrip_witness :
  wf_hdr example_hdr /\ exists f h',
    fgwSegmentEncode (Some (repeat 0 64)) 64 example_hdr (Some [170; 187; 204]) 3 =
      (27, Some (f ++ drop 27 (repeat 0 64))) /\
    fgwSegmentPeekHeader (f ++ [1]) 28 FgwSegmentHeader_default = (24, h') /\
    h_outport_id h' = 0x33334444.
Proof.
  assert (Hwf : wf_hdr example_hdr) by (constructor; vm_compute; intuition congruence).
  split; [exact Hwf|].
  destruct (segment_roundtrip example_hdr FgwSegmentHeader_default [170; 187; 204]
    (repeat 0 64) [1] 64 Hwf) as (f & h' & He & Hl & Hp & _ & _ & _ & _ & _ & Ho & _);
    [vm_compute; congruence .. |].
  exists f, h'. assert (Hn : length f = 27%nat) by (unfold zlen in Hl; change (Z.of_nat (length f) = 27) in Hl; lia).
  rewrite zlen_app, Hl in Hp. rewrite Hl, Hn in He. split; [exact He | split; [exact Hp | exact Ho]].
Defined.

(** C24: every error burst of at most four consecutive bytes behind the length
    field (in the rest of the header, in the CRC field or in the payload) is
    detected: the corrupted frame still decodes to the same extent and
    [fgwSegmentVerifyCrc] rejects it. *)
Theorem segment_burst_detected (pre mid mid' post : bytes) (hr : Z) (h h0 h0' : FgwSegmentHeader)
    (Hbytes : Forall is_byte (pre ++ mid ++ post)) (Hbytes' : Forall is_byte mid')
    (Hlen : length mid = length mid') (H4 : zlen mid <= 4) (Hne : mid <> mid')
    (Hpeek : fgwSegmentPeekHeader (pre ++ mid ++ post) (zlen (pre ++ mid ++ post)) h0 = (hr, h))
    (Hpos : 0 < hr) (Hfull : hr + h_payload_len h <= zlen (pre ++ mid ++ post))
    (Hok : fgwSegmentVerifyCrc (pre ++ mid ++ post) h hr = true)
    (Hpre : 4 <= zlen pre)
    (Hwhere : zlen pre + zlen mid <= hr - 4 \/
              (hr - 4 <= zlen pre /\ zlen pre + zlen mid <= hr) \/
              (hr <= zlen pre /\ zlen pre + zlen mid <= hr + h_payload_len h)) :
  exists h',
    fgwSegmentPeekHeader (pre ++ mid' ++ post) (zlen (pre ++ mid' ++ post)) h0' = (hr, h') /\
    h_payload_len h' = h_payload_len h /\
    fgwSegmentVerifyCrc (pre ++ mid' ++ post) h' hr = false.
Proof.
  apply Forall_app in Hbytes as [Hb Hbytes]. apply Forall_app in Hbytes as [Hbm Hbp].
  assert (Hz : zlen (pre ++ mid' ++ post) = zlen (pre ++ mid ++ post)).
  { rewrite !zlen_app. unfold zlen. rewrite Hlen. lia. }
  pose proof (peek_pos _ _ _ _ _ Hpeek Hpos) as Hsp.
  assert (Hl4 : (4 <= length pre)%nat) by (unfold zlen in Hpre; lia).
  destruct (peek_ext _ _ (pre ++ mid' ++ post) (zlen (pre ++ mid' ++ post)) h0 h0' hr h Hpeek Hpos)
    as (h' & Hpk' & Hsp' & Hpl).
  { rewrite Hz. apply Hsp. }
  { rewrite at_app_l by lia. rewrite <- (at_app_l pre (mid ++ post) 0) by lia. apply Hsp. }
  { by rewrite !at_app_l by lia. }
  { by rewrite !unpack_be16_app by lia. }
  exists h'. split; [done|]. split; [done|].
  pose proof (peek_hr_cases _ _ _ _ Hsp) as Hhr.
  unfold fgwSegmentVerifyCrc in *.
  destruct (negb (hr =? LEGACY_HEADER_SIZE) && negb (hr =? HEADER_SIZE) &&
    negb (hr =? ROUTED_HEADER_SIZE)) eqn:Hc; [done|].
  rewrite crc_ok_input in Hok |- *. rewrite Hpl. apply Z.eqb_eq in Hok. apply Z.eqb_neq.
  pose proof (pk_crc _ _ _ _ Hsp) as Hcrc. pose proof (pk_crc _ _ _ _ Hsp') as Hcrc'.
  pose proof (zlen_nonneg mid). pose proof (zlen_nonneg post).
  assert (Hsame : forall m, length m = length mid -> zlen pre + zlen mid <= hr - 4 \/ hr <= zlen pre ->
    unpack_be32 (drop (Z.to_nat (hr - 4)) (pre ++ m ++ post)) = h_crc32 h).
  { intros m Hm [Hin|Hin]; rewrite Hcrc.
    - rewrite !burst_drop_after by (unfold zlen in *; lia). by rewrite Hm.
    - unfold zlen in *. by rewrite !unpack_be32_app by lia. }
  destruct Hwhere as [Hw|[[Hw1 Hw2]|[Hw1 Hw2]]].
  - rewrite Hcrc', Hsame by auto. rewrite <- Hok. intros Heq. apply lxor_cancel_r in Heq.
    revert Heq. apply not_eq_sym, burst_header; auto; lia.
  - assert (Hin : crc_input (pre ++ mid' ++ post) hr (h_payload_len h) =
      crc_input (pre ++ mid ++ post) hr (h_payload_len h)).
    { unfold crc_input. rewrite !burst_take_before, !burst_drop_after by (unfold zlen in *; lia).
      by rewrite Hlen. }
    rewrite Hin, Hok, Hcrc, Hcrc'.
    apply burst_crc_field; auto; try lia. destruct Hsp. lia.
  - rewrite Hcrc', Hsame by auto. rewrite <- Hok. intros Heq. apply lxor_cancel_r in Heq.
    revert Heq. apply not_eq_sym, burst_payload; auto; lia.
Qed.

Definition example_frame : bytes := Eval vm_compute in frame example_hdr [170; 187; 204].

Lemma segment_burst_detected_witness :
  exists h',
    fgwSegmentPeekHeader (take 24 example_frame ++ [170; 255] ++ [204]) 27
      FgwSegmentHeader_default = (24, h') /\
    fgwSegmentVerifyCrc (take 24 example_frame ++ [170; 255] ++ [204]) h' 24 = false.
Proof.
  destruct (segment_burst_detected (take 24 example_frame) [170; 187] [170; 255] [204] 24
    (frame_hdr example_hdr [170; 187; 204]) FgwSegmentHeader_default FgwSegmentHeader_default)
    as (h' & Hp & _ & Hv).
  - apply (bool_decide_eq_true_1 (Forall (fun b => 0 <= b < 256) _)). vm_compute. reflexivity.
  - apply (bool_decide_eq_true_1 (Forall (fun b => 0 <= b < 256) _)). vm_compute. reflexivity.
  - reflexivity.
  - vm_compute. congruence.
  - congruence.
  - vm_compute. reflexivity.
  - lia.
  - vm_compute. congruence.
  - vm_compute. reflexivity.
  - vm_compute. congruence.
  - right. right. vm_compute. split; congruence.
  - exists h'. split; [exact Hp | exact Hv].
Defined.

(** The size a frame for these arguments takes on the wire. *)
Definition encoded_size (h : FgwSegmentHeader) (plen : Z) : Z := hdr_sz h + plen.

Lemma write_at_drop off bs (l : bytes) n :
  0 <= off -> off + zlen bs <= n -> n <= zlen l ->
  drop (Z.to_nat n) (write_at off bs l) = drop (Z.to_nat n) l.
Proof.
  Transparent write_at.
  intros. unfold write_at. unfold zlen in *. rewrite app_assoc, skipn_app.
  rewrite drop_ge by (rewrite length_app, length_take; lia).
  rewrite length_app, length_take, drop_drop, app_nil_l. f_equal. lia.
Qed.
#[local] Opaque write_at.

(** What a write sequence must keep: the length, and everything from [n] on. *)
Definition keeps (n : Z) (l l' : bytes) : Prop :=
  zlen l' = zlen l /\ drop (Z.to_nat n) l' = drop (Z.to_nat n) l.

Lemma keeps_write n off bs l l' :
  keeps n l l' -> 0 <= off -> off + zlen bs <= n -> n <= zlen l ->
  keeps n l (write_at off bs l').
Proof.
  intros [Hl Hd] H0 Hin Hn. split.
  - rewrite write_at_length by lia. done.
  - rewrite write_at_drop by lia. done.
Qed.

Lemma zlen_be16 v : zlen (pack_be16 v) = 2. Proof. done. Qed.
Lemma zlen_be32 v : zlen (pack_be32 v) = 4. Proof. done. Qed.
Lemma zlen_1 (b : Z) : zlen [b] = 1. Proof. done. Qed.
Ltac keeps_tac :=
  repeat (apply keeps_write; [| lia | rewrite ?zlen_be16, ?zlen_be32, ?zlen_1;
    try match goal with H : _ |- context [zlen (take _ _)] => rewrite H by done end; lia | lia ]);
  try done.

(** C36: [fgwSegmentEncode] is total and memory safe.  It fails with
    ZFGW_ERRCODE_MEMORY exactly on a null or too small buffer, with
    ZFGW_ERRCODE_BADSEGMENT exactly on a payload length outside
    [0, MAX_PAYLOAD], and then leaves the buffer alone; otherwise it returns the
    wire size, which fits the buffer, and writes nothing outside it. *)
Theorem encode_contract (o : bytes) (out_size plen : Z) (h : FgwSegmentHeader)
    (payload : option bytes) (Hout : out_size <= zlen o)
    (Hpay : forall p, payload = Some p -> plen <= zlen p) :
  fgwSegmentEncode None out_size h payload plen = (err ZFGW_ERRCODE_MEMORY, None) /\
  let '(ret, o') := fgwSegmentEncode (Some o) out_size h payload plen in
  if (plen <? 0) || (MAX_PAYLOAD <? plen)
  then ret = err ZFGW_ERRCODE_BADSEGMENT /\ o' = Some o
  else if out_size <? encoded_size h plen
  then ret = err ZFGW_ERRCODE_MEMORY /\ o' = Some o
  else ret = encoded_size h plen /\ 0 < ret <= out_size /\
       exists b, o' = Some b /\ keeps ret o b.
Proof.
  split; [done|]. unfold fgwSegmentEncode, encoded_size.
  destruct ((plen <? 0) || (MAX_PAYLOAD <? plen)) eqn:Hlen; [done|].
  change (negb (Z.land (h_flags h) FLAG_HDR_ROUTE =? 0)) with (isHdrRoute h).
  change (if isHdrRoute h then ROUTED_HEADER_SIZE else HEADER_SIZE) with (hdr_sz h).
  destruct (out_size <? hdr_sz h + plen) eqn:Hroom; [done|].
  assert (Hp : forall p, payload = Some p -> (0 <? plen) = true ->
    zlen (take (Z.to_nat plen) p) = plen).
  { intros p -> Hpos. apply zlen_take. specialize (Hpay p eq_refl). lia. }
  unfold hdr_sz, ROUTED_HEADER_SIZE, HEADER_SIZE in *.
  destruct (isHdrRoute h); (split; [done|]); (split; [lia|]); eexists; (split; [reflexivity|]);
    destruct payload as [p|]; [destruct (0 <? plen) eqn:Hpos| |destruct (0 <? plen) eqn:Hpos|];
    keeps_tac.
Qed.

Lemma encode_contract_witness :
  (20 <= zlen (repeat 0 20)) /\
  fst (fgwSegmentEncode (Some (repeat 0 20)) 20 FgwSegmentHeader_default (Some [1]) 1) =
    err ZFGW_ERRCODE_MEMORY.
Proof.
  assert (H : 20 <= zlen (repeat 0 20)) by (vm_compute; congruence). split; [exact H|].
  destruct (encode_contract (repeat 0 20) 20 1 FgwSegmentHeader_default (Some [1]) H) as [_ Hc].
  - intros p [= <-]. vm_compute. congruence.
  - destruct (fgwSegmentEncode (Some (repeat 0 20)) 20 _ _ _) as [r o'].
    destruct Hc as [Hr _]. exact Hr.
Defined.

(** [fgwSegmentPeekHeader] asks for more input, rejects, or accepts a header
    that lies within the input and announces at most MAX_PAYLOAD bytes; it
    never asks for more once 24 bytes are there, and bytes that arrive later
    never change an acceptance or a rejection. *)
Lemma peek_decides (l k : bytes) (h0 : FgwSegmentHeader) :
  let '(hr, h) := fgwSegmentPeekHeader l (zlen l) h0 in
  ((hr = 0 /\ zlen l < 24) \/ hr = err ZFGW_ERRCODE_BADSEGMENT \/
   (hr = 16 \/ hr = 20 \/ hr = 24) /\ hr <= zlen l /\ 0 <= h_payload_len h <= MAX_PAYLOAD) /\
  (hr <> 0 -> fgwSegmentPeekHeader (l ++ k) (zlen (l ++ k)) h0 = (hr, h)).
Proof.
  destruct (fgwSegmentPeekHeader l (zlen l) h0) as [hr h] eqn:Hpk. split.
  - destruct (decide (0 < hr)) as [Hpos|Hn].
    + pose proof (peek_pos _ _ _ _ _ Hpk Hpos) as Hsp. right. right.
      split; [by eapply peek_hr_cases|]. destruct Hsp. split; [done|]. split; [|done].
      rewrite pk_len0. apply u16_range.
    + revert Hpk. unfold fgwSegmentPeekHeader, LEGACY_HEADER_SIZE, HEADER_SIZE, ROUTED_HEADER_SIZE.
      repeat case_match; intros [= <- <-]; auto; left; split; lia.
  - intros Hne. rewrite peek_app; rewrite Hpk; done.
Qed.
