(* ===== verification/Pack.v ===== *)
(** * Pack: the ZDS codecs of [src/zfgw_pack.cpp]

    Each message structure is written as a prefix word, with one bit per member
    that is not empty, followed by the non-empty members in declaration order;
    the reader fills the absent members with their empty value and skips the
    members it does not know.  The primitive encoders, [is_empty_member] and the
    macro CHECKLEN_MOVEBUF_ADDRET_DECSIZE belong to the zce runtime, whose
    sources are elsewhere: they are the class [ZdsRuntime], and what the codecs
    rely on is the class [ZdsLaws]. *)
From Stdlib Require Import SpecFloat.
From S2P Require Import Prelude Proto.

(** ** The runtime *)

(** The C++ types the overloads of [zds_pack_builtin] are used at. *)
Inductive builtin := B_byte | B_u16 | B_u32 | B_u64 | B_i32 | B_double | B_astring.
Definition builtin_ty (b : builtin) : Type :=
  match b with B_double => double | B_astring => astring | _ => Z end.
Definition builtin_zero (b : builtin) : builtin_ty b :=
  match b with
  | B_double => Double.zero | B_astring => []
  | B_byte | B_u16 | B_u32 | B_u64 | B_i32 => 0
  end.
(** The values of the type (the double -0.0 equals 0.0 and is not kept apart). *)
Definition builtin_range (b : builtin) : builtin_ty b -> Prop :=
  match b with
  | B_byte => fun v => 0 <= v < 2 ^ 8
  | B_u16 => fun v => 0 <= v < 2 ^ 16
  | B_u32 => fun v => 0 <= v < 2 ^ 32
  | B_u64 => fun v => 0 <= v < 2 ^ 64
  | B_i32 => fun v => - 2 ^ 31 <= v < 2 ^ 31
  | B_double => fun v => valid_binary Double.prec Double.emax v = true /\ v <> S754_zero true
  | B_astring => fun v => Forall is_byte v
  end.

(** [(buf, size)] of a writer: [None] is a null [buf], which only measures. *)
Abbreviation sink := (option Z).

(** The writer's locals: destination, bytes accounted in [ret], bytes written. *)
Record wr := mkWr { wr_sink : sink; wr_ret : Z; wr_out : bytes }.
(** The reader's locals: remaining input and [ret]. *)
Record rd := mkRd { rd_buf : bytes; rd_ret : Z }.

Class ZdsRuntime := {
  zds_pack_struct_header : sink -> Z -> bool -> Z * bytes;
  zds_unpack_struct_header : bytes -> bool -> Z * Z;
  zds_pack_builtin : forall b : builtin, sink -> builtin_ty b -> Z * bytes;
  zds_unpack_builtin : forall b : builtin, bytes -> Z * builtin_ty b;
  zds_pack_array : forall A : Type, (sink -> A -> bool -> Z * bytes) -> sink -> list A -> Z * bytes;
  zds_unpack_array : forall A : Type, (bytes -> bool -> Z * A) -> bytes -> Z * list A;
  zds_unpack_skip : bytes -> Z;
  is_empty_member : forall b : builtin, builtin_ty b -> bool;
  struct_empty : forall A : Type, (A -> A -> bool) -> A -> A -> bool;
  checklen_wr : wr -> Z * bytes -> Z + wr;
  checklen_rd : rd -> Z -> Z + rd }.
Arguments zds_pack_array {_ _} _ _ _.
Arguments zds_unpack_array {_ _} _ _.
Arguments struct_empty {_ _} _ _ _.

Definition sink_move (s : sink) (len : Z) : sink :=
  match s with Some size => Some (size - len) | None => None end.

(** A writer and a reader agree on [a]: what is written successfully is read back
    from the start of any longer input, and the returned lengths are exact. *)
Definition agrees {A} (pack : sink -> Z * bytes) (unpack : bytes -> Z * A) (a : A) : Prop :=
  forall s len bs, pack s = (len, bs) -> 0 <= len ->
    len = zlen bs /\ forall rest, unpack (bs ++ rest) = (len, a).

Class ZdsLaws (rt : ZdsRuntime) : Prop := {
  law_checklen_wr_err : forall w len bs, len < 0 -> checklen_wr w (len, bs) = inl len;
  law_checklen_wr_ok : forall w len bs, 0 <= len ->
    checklen_wr w (len, bs) =
    inr (mkWr (sink_move (wr_sink w) len) (wr_ret w + len) (wr_out w ++ bs));
  law_checklen_rd_err : forall r len, len < 0 -> checklen_rd r len = inl len;
  law_checklen_rd_ok : forall r len, 0 <= len ->
    checklen_rd r len = inr (mkRd (drop (Z.to_nat len) (rd_buf r)) (rd_ret r + len));
  law_header : forall pf hp, 0 <= pf < 2 ^ 64 ->
    agrees (fun s => zds_pack_struct_header s pf hp)
           (fun b => zds_unpack_struct_header b hp) pf;
  law_builtin : forall b v, builtin_range b v ->
    agrees (fun s => zds_pack_builtin b s v) (zds_unpack_builtin b) v;
  law_array : forall A (pk : sink -> A -> bool -> Z * bytes) (up : bytes -> bool -> Z * A) l,
    Forall (fun a => agrees (fun s => pk s a true) (fun b => up b true) a) l ->
    agrees (fun s => zds_pack_array pk s l) (zds_unpack_array up) l;
  law_skip : forall b v s len bs rest, builtin_range b v ->
    zds_pack_builtin b s v = (len, bs) -> 0 <= len -> zds_unpack_skip (bs ++ rest) = len;
  law_empty : forall b v, builtin_range b v -> is_empty_member b v = true -> v = builtin_zero b;
  law_struct_empty : forall A (eqb : A -> A -> bool) (e v : A),
    struct_empty eqb e v = true -> eqb v e = true }.

(** ** The generated code's idioms *)
Section codecs.
Context {rt : ZdsRuntime}.

(** [!v.empty()] of a vector member. *)
Definition vector_empty {A} (l : list A) : bool := match l with [] => true | _ => false end.

(** [if (!empty_i) _struct_prefix |= 1ull << i], from bit [i] on. *)
Fixpoint struct_prefix_from (i : Z) (l : list bool) : Z :=
  match l with
  | [] => 0
  | e :: l' => Z.lor (if e then 0 else Z.shiftl 1 i) (struct_prefix_from (i + 1) l')
  end.
Definition struct_prefix (l : list bool) : Z := struct_prefix_from 0 l.

Definition bit_set (pf i : Z) : bool := negb (Z.land pf (Z.shiftl 1 i) =? 0).

Definition pack_struct (s : sink) (pf : Z) (has_prefix : bool) (k : wr -> Z * bytes) : Z * bytes :=
  match checklen_wr (mkWr s 0 []) (zds_pack_struct_header s pf has_prefix) with
  | inl e => (e, [])
  | inr w => k w
  end.
Definition pack_member (pf i : Z) (prim : sink -> Z * bytes) (k : wr -> Z * bytes) (w : wr) : Z * bytes :=
  if bit_set pf i
  then match checklen_wr w (prim (wr_sink w)) with inl e => (e, []) | inr w' => k w' end
  else k w.
Definition pack_return (w : wr) : Z * bytes := (wr_ret w, wr_out w).

(** The members of the result, or the error length that ended the reading. *)
Abbreviation rdm A := (rd -> Z + (Z * A)).

Definition unpack_struct {A} (b : bytes) (has_prefix : bool) (bad : A) (k : Z -> rdm A) : Z * A :=
  let '(len, pf) := zds_unpack_struct_header b has_prefix in
  match checklen_rd (mkRd b 0) len with
  | inl e => (e, bad)
  | inr r => match k pf r with inl e => (e, bad) | inr (ret, a) => (ret, a) end
  end.
Definition unpack_member {A B} (pf i : Z) (prim : bytes -> Z * B) (dflt : B) (k : B -> rdm A) : rdm A :=
  fun r =>
  if bit_set pf i
  then let '(len, v) := prim (rd_buf r) in
       match checklen_rd r len with inl e => inl e | inr r' => k v r' end
  else k dflt r.

(** [while (_struct_prefix != 0) { if (_struct_prefix & 1) skip; _struct_prefix >>= 1; }]:
    the binary digits of the prefix, least significant first. *)
Fixpoint skip_loop (pf : positive) (r : rd) : Z + rd :=
  match pf with
  | xH => checklen_rd r (zds_unpack_skip (rd_buf r))
  | xO pf' => skip_loop pf' r
  | xI pf' => match checklen_rd r (zds_unpack_skip (rd_buf r)) with
              | inl e => inl e
              | inr r' => skip_loop pf' r'
              end
  end.
Definition unpack_return {A} (pf n : Z) (a : A) : rdm A :=
  fun r =>
  match Z.shiftr pf n with
  | Zpos p => match skip_loop p r with inl e => inl e | inr r' => inr (rd_ret r', a) end
  | _ => inr (rd_ret r, a)
  end.

(** ** The structures *)

(** *** FgwEndpoint *)
Definition prefix_FgwEndpoint (t : FgwEndpoint) : Z :=
  struct_prefix [is_empty_member B_astring (ep_host t);
    is_empty_member B_u16 (ep_port t)].
Definition zds_pack_FgwEndpoint (s : sink) (t : FgwEndpoint) (has_prefix : bool) : Z * bytes :=
  let pf := prefix_FgwEndpoint t in
  pack_struct s pf has_prefix (
    pack_member pf 0 (fun s => zds_pack_builtin B_astring s (ep_host t)) (
    pack_member pf 1 (fun s => zds_pack_builtin B_u16 s (ep_port t)) (
    pack_return))).
Definition zds_unpack_FgwEndpoint (b : bytes) (has_prefix : bool) : Z * FgwEndpoint :=
  unpack_struct b has_prefix FgwEndpoint_empty (fun pf =>
    unpack_member pf 0 (zds_unpack_builtin B_astring) (builtin_zero B_astring) (fun v0 =>
    unpack_member pf 1 (zds_unpack_builtin B_u16) (builtin_zero B_u16) (fun v1 =>
    unpack_return pf 2 (mkFgwEndpoint v0 v1)))).
Definition wf_FgwEndpoint (t : FgwEndpoint) : Prop :=
  builtin_range B_astring (ep_host t) /\
  builtin_range B_u16 (ep_port t).

(** *** FgwChannelConfig *)
Definition prefix_FgwChannelConfig (t : FgwChannelConfig) : Z :=
  struct_prefix [is_empty_member B_u32 (cc_channel_id t);
    is_empty_member B_byte (cc_kind t);
    struct_empty FgwEndpoint_eqb FgwEndpoint_empty (cc_remote t);
    is_empty_member B_u32 (cc_priority t)].
Definition zds_pack_FgwChannelConfig (s : sink) (t : FgwChannelConfig) (has_prefix : bool) : Z * bytes :=
  let pf := prefix_FgwChannelConfig t in
  pack_struct s pf has_prefix (
    pack_member pf 0 (fun s => zds_pack_builtin B_u32 s (cc_channel_id t)) (
    pack_member pf 1 (fun s => zds_pack_builtin B_byte s (cc_kind t)) (
    pack_member pf 2 (fun s => zds_pack_FgwEndpoint s (cc_remote t) true) (
    pack_member pf 3 (fun s => zds_pack_builtin B_u32 s (cc_priority t)) (
    pack_return))))).
Definition zds_unpack_FgwChannelConfig (b : bytes) (has_prefix : bool) : Z * FgwChannelConfig :=
  unpack_struct b has_prefix FgwChannelConfig_empty (fun pf =>
    unpack_member pf 0 (zds_unpack_builtin B_u32) (builtin_zero B_u32) (fun v0 =>
    unpack_member pf 1 (zds_unpack_builtin B_byte) (builtin_zero B_byte) (fun v1 =>
    unpack_member pf 2 (fun b => zds_unpack_FgwEndpoint b true) FgwEndpoint_empty (fun v2 =>
    unpack_member pf 3 (zds_unpack_builtin B_u32) (builtin_zero B_u32) (fun v3 =>
    unpack_return pf 4 (mkFgwChannelConfig v0 v1 v2 v3)))))).
Definition wf_FgwChannelConfig (t : FgwChannelConfig) : Prop :=
  builtin_range B_u32 (cc_channel_id t) /\
  builtin_range B_byte (cc_kind t) /\
  wf_FgwEndpoint (cc_remote t) /\
  builtin_range B_u32 (cc_priority t).

(** *** FgwConfig *)
Definition prefix_FgwConfig (t : FgwConfig) : Z :=
  struct_prefix [is_empty_member B_byte (cfg_role t);
    is_empty_member B_u32 (cfg_ingress_id t);
    is_empty_member B_u16 (cfg_inport_listen_port t);
    is_empty_member B_astring (cfg_outport_listen_host t);
    is_empty_member B_u16 (cfg_outport_listen_port t);
    vector_empty (cfg_channels t);
    is_empty_member B_u16 (cfg_segment_size t);
    is_empty_member B_u16 (cfg_recv_window t);
    is_empty_member B_u16 (cfg_heartbeat_interval t);
    is_empty_member B_u16 (cfg_link_timeout t);
    is_empty_member B_u16 (cfg_reconnect_max t);
    is_empty_member B_byte (cfg_multipath_mode t);
    is_empty_member B_byte (cfg_enable_crc t);
    is_empty_member B_u32 (cfg_route_outport_id t);
    is_empty_member B_u32 (cfg_config_version t)].
Definition zds_pack_FgwConfig (s : sink) (t : FgwConfig) (has_prefix : bool) : Z * bytes :=
  let pf := prefix_FgwConfig t in
  pack_struct s pf has_prefix (
    pack_member pf 0 (fun s => zds_pack_builtin B_byte s (cfg_role t)) (
    pack_member pf 1 (fun s => zds_pack_builtin B_u32 s (cfg_ingress_id t)) (
    pack_member pf 2 (fun s => zds_pack_builtin B_u16 s (cfg_inport_listen_port t)) (
    pack_member pf 3 (fun s => zds_pack_builtin B_astring s (cfg_outport_listen_host t)) (
    pack_member pf 4 (fun s => zds_pack_builtin B_u16 s (cfg_outport_listen_port t)) (
    pack_member pf 5 (fun s => zds_pack_array zds_pack_FgwChannelConfig s (cfg_channels t)) (
    pack_member pf 6 (fun s => zds_pack_builtin B_u16 s (cfg_segment_size t)) (
    pack_member pf 7 (fun s => zds_pack_builtin B_u16 s (cfg_recv_window t)) (
    pack_member pf 8 (fun s => zds_pack_builtin B_u16 s (cfg_heartbeat_interval t)) (
    pack_member pf 9 (fun s => zds_pack_builtin B_u16 s (cfg_link_timeout t)) (
    pack_member pf 10 (fun s => zds_pack_builtin B_u16 s (cfg_reconnect_max t)) (
    pack_member pf 11 (fun s => zds_pack_builtin B_byte s (cfg_multipath_mode t)) (
    pack_member pf 12 (fun s => zds_pack_builtin B_byte s (cfg_enable_crc t)) (
    pack_member pf 13 (fun s => zds_pack_builtin B_u32 s (cfg_route_outport_id t)) (
    pack_member pf 14 (fun s => zds_pack_builtin B_u32 s (cfg_config_version t)) (
    pack_return)))))))))))))))).
Definition zds_unpack_FgwConfig (b : bytes) (has_prefix : bool) : Z * FgwConfig :=
  unpack_struct b has_prefix FgwConfig_empty (fun pf =>
    unpack_member pf 0 (zds_unpack_builtin B_byte) (builtin_zero B_byte) (fun v0 =>
    unpack_member pf 1 (zds_unpack_builtin B_u32) (builtin_zero B_u32) (fun v1 =>
    unpack_member pf 2 (zds_unpack_builtin B_u16) (builtin_zero B_u16) (fun v2 =>
    unpack_member pf 3 (zds_unpack_builtin B_astring) (builtin_zero B_astring) (fun v3 =>
    unpack_member pf 4 (zds_unpack_builtin B_u16) (builtin_zero B_u16) (fun v4 =>
    unpack_member pf 5 (zds_unpack_array zds_unpack_FgwChannelConfig) [] (fun v5 =>
    unpack_member pf 6 (zds_unpack_builtin B_u16) (builtin_zero B_u16) (fun v6 =>
    unpack_member pf 7 (zds_unpack_builtin B_u16) (builtin_zero B_u16) (fun v7 =>
    unpack_member pf 8 (zds_unpack_builtin B_u16) (builtin_zero B_u16) (fun v8 =>
    unpack_member pf 9 (zds_unpack_builtin B_u16) (builtin_zero B_u16) (fun v9 =>
    unpack_member pf 10 (zds_unpack_builtin B_u16) (builtin_zero B_u16) (fun v10 =>
    unpack_member pf 11 (zds_unpack_builtin B_byte) (builtin_zero B_byte) (fun v11 =>
    unpack_member pf 12 (zds_unpack_builtin B_byte) (builtin_zero B_byte) (fun v12 =>
    unpack_member pf 13 (zds_unpack_builtin B_u32) (builtin_zero B_u32) (fun v13 =>
    unpack_member pf 14 (zds_unpack_builtin B_u32) (builtin_zero B_u32) (fun v14 =>
    unpack_return pf 15 (mkFgwConfig v0 v1 v2 v3 v4 v5 v6 v7 v8 v9 v10 v11 v12 v13 v14))))))))))))))))).
Definition wf_FgwConfig (t : FgwConfig) : Prop :=
  builtin_range B_byte (cfg_role t) /\
  builtin_range B_u32 (cfg_ingress_id t) /\
  builtin_range B_u16 (cfg_inport_listen_port t) /\
  builtin_range B_astring (cfg_outport_listen_host t) /\
  builtin_range B_u16 (cfg_outport_listen_port t) /\
  Forall wf_FgwChannelConfig (cfg_channels t) /\
  builtin_range B_u16 (cfg_segment_size t) /\
  builtin_range B_u16 (cfg_recv_window t) /\
  builtin_range B_u16 (cfg_heartbeat_interval t) /\
  builtin_range B_u16 (cfg_link_timeout t) /\
  builtin_range B_u16 (cfg_reconnect_max t) /\
  builtin_range B_byte (cfg_multipath_mode t) /\
  builtin_range B_byte (cfg_enable_crc t) /\
  builtin_range B_u32 (cfg_route_outport_id t) /\
  builtin_range B_u32 (cfg_config_version t).

(** *** FgwLinkQuality *)
Definition prefix_FgwLinkQuality (t : FgwLinkQuality) : Z :=
  struct_prefix [is_empty_member B_u32 (flq_channel_id t);
    is_empty_member B_byte (flq_connected t);
    is_empty_member B_u32 (flq_rtt_ms t);
    is_empty_member B_double (flq_loss_rate t);
    is_empty_member B_u64 (flq_bytes_sent t);
    is_empty_member B_u64 (flq_bytes_recv t);
    is_empty_member B_u32 (flq_send_segments t);
    is_empty_member B_u32 (flq_recv_segments t);
    is_empty_member B_u32 (flq_rexmit_segments t)].
Definition zds_pack_FgwLinkQuality (s : sink) (t : FgwLinkQuality) (has_prefix : bool) : Z * bytes :=
  let pf := prefix_FgwLinkQuality t in
  pack_struct s pf has_prefix (
    pack_member pf 0 (fun s => zds_pack_builtin B_u32 s (flq_channel_id t)) (
    pack_member pf 1 (fun s => zds_pack_builtin B_byte s (flq_connected t)) (
    pack_member pf 2 (fun s => zds_pack_builtin B_u32 s (flq_rtt_ms t)) (
    pack_member pf 3 (fun s => zds_pack_builtin B_double s (flq_loss_rate t)) (
    pack_member pf 4 (fun s => zds_pack_builtin B_u64 s (flq_bytes_sent t)) (
    pack_member pf 5 (fun s => zds_pack_builtin B_u64 s (flq_bytes_recv t)) (
    pack_member pf 6 (fun s => zds_pack_builtin B_u32 s (flq_send_segments t)) (
    pack_member pf 7 (fun s => zds_pack_builtin B_u32 s (flq_recv_segments t)) (
    pack_member pf 8 (fun s => zds_pack_builtin B_u32 s (flq_rexmit_segments t)) (
    pack_return)))))))))).
Definition zds_unpack_FgwLinkQuality (b : bytes) (has_prefix : bool) : Z * FgwLinkQuality :=
  unpack_struct b has_prefix FgwLinkQuality_empty (fun pf =>
    unpack_member pf 0 (zds_unpack_builtin B_u32) (builtin_zero B_u32) (fun v0 =>
    unpack_member pf 1 (zds_unpack_builtin B_byte) (builtin_zero B_byte) (fun v1 =>
    unpack_member pf 2 (zds_unpack_builtin B_u32) (builtin_zero B_u32) (fun v2 =>
    unpack_member pf 3 (zds_unpack_builtin B_double) (builtin_zero B_double) (fun v3 =>
    unpack_member pf 4 (zds_unpack_builtin B_u64) (builtin_zero B_u64) (fun v4 =>
    unpack_member pf 5 (zds_unpack_builtin B_u64) (builtin_zero B_u64) (fun v5 =>
    unpack_member pf 6 (zds_unpack_builtin B_u32) (builtin_zero B_u32) (fun v6 =>
    unpack_member pf 7 (zds_unpack_builtin B_u32) (builtin_zero B_u32) (fun v7 =>
    unpack_member pf 8 (zds_unpack_builtin B_u32) (builtin_zero B_u32) (fun v8 =>
    unpack_return pf 9 (mkFgwLinkQuality v0 v1 v2 v3 v4 v5 v6 v7 v8))))))))))).
Definition wf_FgwLinkQuality (t : FgwLinkQuality) : Prop :=
  builtin_range B_u32 (flq_channel_id t) /\
  builtin_range B_byte (flq_connected t) /\
  builtin_range B_u32 (flq_rtt_ms t) /\
  builtin_range B_double (flq_loss_rate t) /\
  builtin_range B_u64 (flq_bytes_sent t) /\
  builtin_range B_u64 (flq_bytes_recv t) /\
  builtin_range B_u32 (flq_send_segments t) /\
  builtin_range B_u32 (flq_recv_segments t) /\
  builtin_range B_u32 (flq_rexmit_segments t).

(** *** FgwSessionStat *)
Definition prefix_FgwSessionStat (t : FgwSessionStat) : Z :=
  struct_prefix [is_empty_member B_u32 (ss_session_id t);
    is_empty_member B_u32 (ss_ingress_id t);
    is_empty_member B_astring (ss_client_addr t);
    is_empty_member B_astring (ss_target_addr t);
    is_empty_member B_u64 (ss_bytes_sent t);
    is_empty_member B_u64 (ss_bytes_recv t);
    is_empty_member B_u32 (ss_open_timestamp t)].
Definition zds_pack_FgwSessionStat (s : sink) (t : FgwSessionStat) (has_prefix : bool) : Z * bytes :=
  let pf := prefix_FgwSessionStat t in
  pack_struct s pf has_prefix (
    pack_member pf 0 (fun s => zds_pack_builtin B_u32 s (ss_session_id t)) (
    pack_member pf 1 (fun s => zds_pack_builtin B_u32 s (ss_ingress_id t)) (
    pack_member pf 2 (fun s => zds_pack_builtin B_astring s (ss_client_addr t)) (
    pack_member pf 3 (fun s => zds_pack_builtin B_astring s (ss_target_addr t)) (
    pack_member pf 4 (fun s => zds_pack_builtin B_u64 s (ss_bytes_sent t)) (
    pack_member pf 5 (fun s => zds_pack_builtin B_u64 s (ss_bytes_recv t)) (
    pack_member pf 6 (fun s => zds_pack_builtin B_u32 s (ss_open_timestamp t)) (
    pack_return)))))))).
Definition zds_unpack_FgwSessionStat (b : bytes) (has_prefix : bool) : Z * FgwSessionStat :=
  unpack_struct b has_prefix FgwSessionStat_empty (fun pf =>
    unpack_member pf 0 (zds_unpack_builtin B_u32) (builtin_zero B_u32) (fun v0 =>
    unpack_member pf 1 (zds_unpack_builtin B_u32) (builtin_zero B_u32) (fun v1 =>
    unpack_member pf 2 (zds_unpack_builtin B_astring) (builtin_zero B_astring) (fun v2 =>
    unpack_member pf 3 (zds_unpack_builtin B_astring) (builtin_zero B_astring) (fun v3 =>
    unpack_member pf 4 (zds_unpack_builtin B_u64) (builtin_zero B_u64) (fun v4 =>
    unpack_member pf 5 (zds_unpack_builtin B_u64) (builtin_zero B_u64) (fun v5 =>
    unpack_member pf 6 (zds_unpack_builtin B_u32) (builtin_zero B_u32) (fun v6 =>
    unpack_return pf 7 (mkFgwSessionStat v0 v1 v2 v3 v4 v5 v6))))))))).
Definition wf_FgwSessionStat (t : FgwSessionStat) : Prop :=
  builtin_range B_u32 (ss_session_id t) /\
  builtin_range B_u32 (ss_ingress_id t) /\
  builtin_range B_astring (ss_client_addr t) /\
  builtin_range B_astring (ss_target_addr t) /\
  builtin_range B_u64 (ss_bytes_sent t) /\
  builtin_range B_u64 (ss_bytes_recv t) /\
  builtin_range B_u32 (ss_open_timestamp t).

(** *** FgwStatus *)
Definition prefix_FgwStatus (t : FgwStatus) : Z :=
  struct_prefix [is_empty_member B_byte (st_running t);
    is_empty_member B_byte (st_role t);
    is_empty_member B_u32 (st_session_count t);
    vector_empty (st_links t);
    vector_empty (st_sessions t)].
Definition zds_pack_FgwStatus (s : sink) (t : FgwStatus) (has_prefix : bool) : Z * bytes :=
  let pf := prefix_FgwStatus t in
  pack_struct s pf has_prefix (
    pack_member pf 0 (fun s => zds_pack_builtin B_byte s (st_running t)) (
    pack_member pf 1 (fun s => zds_pack_builtin B_byte s (st_role t)) (
    pack_member pf 2 (fun s => zds_pack_builtin B_u32 s (st_session_count t)) (
    pack_member pf 3 (fun s => zds_pack_array zds_pack_FgwLinkQuality s (st_links t)) (
    pack_member pf 4 (fun s => zds_pack_array zds_pack_FgwSessionStat s (st_sessions t)) (
    pack_return)))))).
Definition zds_unpack_FgwStatus (b : bytes) (has_prefix : bool) : Z * FgwStatus :=
  unpack_struct b has_prefix FgwStatus_empty (fun pf =>
    unpack_member pf 0 (zds_unpack_builtin B_byte) (builtin_zero B_byte) (fun v0 =>
    unpack_member pf 1 (zds_unpack_builtin B_byte) (builtin_zero B_byte) (fun v1 =>
    unpack_member pf 2 (zds_unpack_builtin B_u32) (builtin_zero B_u32) (fun v2 =>
    unpack_member pf 3 (zds_unpack_array zds_unpack_FgwLinkQuality) [] (fun v3 =>
    unpack_member pf 4 (zds_unpack_array zds_unpack_FgwSessionStat) [] (fun v4 =>
    unpack_return pf 5 (mkFgwStatus v0 v1 v2 v3 v4))))))).
Definition wf_FgwStatus (t : FgwStatus) : Prop :=
  builtin_range B_byte (st_running t) /\
  builtin_range B_byte (st_role t) /\
  builtin_range B_u32 (st_session_count t) /\
  Forall wf_FgwLinkQuality (st_links t) /\
  Forall wf_FgwSessionStat (st_sessions t).

(** *** FgwEmpty *)
Definition prefix_FgwEmpty (t : FgwEmpty) : Z :=
  struct_prefix [is_empty_member B_byte (fe_placeholder t)].
Definition zds_pack_FgwEmpty (s : sink) (t : FgwEmpty) (has_prefix : bool) : Z * bytes :=
  let pf := prefix_FgwEmpty t in
  pack_struct s pf has_prefix (
    pack_member pf 0 (fun s => zds_pack_builtin B_byte s (fe_placeholder t)) (
    pack_return)).
Definition zds_unpack_FgwEmpty (b : bytes) (has_prefix : bool) : Z * FgwEmpty :=
  unpack_struct b has_prefix FgwEmpty_empty (fun pf =>
    unpack_member pf 0 (zds_unpack_builtin B_byte) (builtin_zero B_byte) (fun v0 =>
    unpack_return pf 1 (mkFgwEmpty v0))).
Definition wf_FgwEmpty (t : FgwEmpty) : Prop :=
  builtin_range B_byte (fe_placeholder t).

(** *** FgwStartRequest *)
Definition prefix_FgwStartRequest (t : FgwStartRequest) : Z :=
  struct_prefix [is_empty_member B_byte (sr_force_restart t)].
Definition zds_pack_FgwStartRequest (s : sink) (t : FgwStartRequest) (has_prefix : bool) : Z * bytes :=
  let pf := prefix_FgwStartRequest t in
  pack_struct s pf has_prefix (
    pack_member pf 0 (fun s => zds_pack_builtin B_byte s (sr_force_restart t)) (
    pack_return)).
Definition zds_unpack_FgwStartRequest (b : bytes) (has_prefix : bool) : Z * FgwStartRequest :=
  unpack_struct b has_prefix FgwStartRequest_empty (fun pf =>
    unpack_member pf 0 (zds_unpack_builtin B_byte) (builtin_zero B_byte) (fun v0 =>
    unpack_return pf 1 (mkFgwStartRequest v0))).
Definition wf_FgwStartRequest (t : FgwStartRequest) : Prop :=
  builtin_range B_byte (sr_force_restart t).

(** *** FgwStartResult *)
Definition prefix_FgwStartResult (t : FgwStartResult) : Z :=
  struct_prefix [is_empty_member B_i32 (res_errcode t);
    is_empty_member B_astring (res_message t)].
Definition zds_pack_FgwStartResult (s : sink) (t : FgwStartResult) (has_prefix : bool) : Z * bytes :=
  let pf := prefix_FgwStartResult t in
  pack_struct s pf has_prefix (
    pack_member pf 0 (fun s => zds_pack_builtin B_i32 s (res_errcode t)) (
    pack_member pf 1 (fun s => zds_pack_builtin B_astring s (res_message t)) (
    pack_return))).
Definition zds_unpack_FgwStartResult (b : bytes) (has_prefix : bool) : Z * FgwStartResult :=
  unpack_struct b has_prefix FgwStartResult_empty (fun pf =>
    unpack_member pf 0 (zds_unpack_builtin B_i32) (builtin_zero B_i32) (fun v0 =>
    unpack_member pf 1 (zds_unpack_builtin B_astring) (builtin_zero B_astring) (fun v1 =>
    unpack_return pf 2 (mkFgwStartResult v0 v1)))).
Definition wf_FgwStartResult (t : FgwStartResult) : Prop :=
  builtin_range B_i32 (res_errcode t) /\
  builtin_range B_astring (res_message t).

(** *** FgwAddChannelRequest *)
Definition prefix_FgwAddChannelRequest (t : FgwAddChannelRequest) : Z :=
  struct_prefix [struct_empty FgwChannelConfig_eqb FgwChannelConfig_empty (ac_channel t)].
Definition zds_pack_FgwAddChannelRequest (s : sink) (t : FgwAddChannelRequest) (has_prefix : bool) : Z * bytes :=
  let pf := prefix_FgwAddChannelRequest t in
  pack_struct s pf has_prefix (
    pack_member pf 0 (fun s => zds_pack_FgwChannelConfig s (ac_channel t) true) (
    pack_return)).
Definition zds_unpack_FgwAddChannelRequest (b : bytes) (has_prefix : bool) : Z * FgwAddChannelRequest :=
  unpack_struct b has_prefix FgwAddChannelRequest_empty (fun pf =>
    unpack_member pf 0 (fun b => zds_unpack_FgwChannelConfig b true) FgwChannelConfig_empty (fun v0 =>
    unpack_return pf 1 (mkFgwAddChannelRequest v0))).
Definition wf_FgwAddChannelRequest (t : FgwAddChannelRequest) : Prop :=
  wf_FgwChannelConfig (ac_channel t).

(** *** FgwRemoveChannelRequest *)
Definition prefix_FgwRemoveChannelRequest (t : FgwRemoveChannelRequest) : Z :=
  struct_prefix [is_empty_member B_u32 (rc_channel_id t)].
Definition zds_pack_FgwRemoveChannelRequest (s : sink) (t : FgwRemoveChannelRequest) (has_prefix : bool) : Z * bytes :=
  let pf := prefix_FgwRemoveChannelRequest t in
  pack_struct s pf has_prefix (
    pack_member pf 0 (fun s => zds_pack_builtin B_u32 s (rc_channel_id t)) (
    pack_return)).
Definition zds_unpack_FgwRemoveChannelRequest (b : bytes) (has_prefix : bool) : Z * FgwRemoveChannelRequest :=
  unpack_struct b has_prefix FgwRemoveChannelRequest_empty (fun pf =>
    unpack_member pf 0 (zds_unpack_builtin B_u32) (builtin_zero B_u32) (fun v0 =>
    unpack_return pf 1 (mkFgwRemoveChannelRequest v0))).
Definition wf_FgwRemoveChannelRequest (t : FgwRemoveChannelRequest) : Prop :=
  builtin_range B_u32 (rc_channel_id t).

(** *** FgwSetConfigRequest *)
Definition prefix_FgwSetConfigRequest (t : FgwSetConfigRequest) : Z :=
  struct_prefix [struct_empty FgwConfig_eqb FgwConfig_empty (sc_config t)].
Definition zds_pack_FgwSetConfigRequest (s : sink) (t : FgwSetConfigRequest) (has_prefix : bool) : Z * bytes :=
  let pf := prefix_FgwSetConfigRequest t in
  pack_struct s pf has_prefix (
    pack_member pf 0 (fun s => zds_pack_FgwConfig s (sc_config t) true) (
    pack_return)).
Definition zds_unpack_FgwSetConfigRequest (b : bytes) (has_prefix : bool) : Z * FgwSetConfigRequest :=
  unpack_struct b has_prefix FgwSetConfigRequest_empty (fun pf =>
    unpack_member pf 0 (fun b => zds_unpack_FgwConfig b true) FgwConfig_empty (fun v0 =>
    unpack_return pf 1 (mkFgwSetConfigRequest v0))).
Definition wf_FgwSetConfigRequest (t : FgwSetConfigRequest) : Prop :=
  wf_FgwConfig (sc_config t).

(** *** FgwHello *)
Definition prefix_FgwHello (t : FgwHello) : Z :=
  struct_prefix [is_empty_member B_u16 (hello_proto_version t);
    is_empty_member B_byte (hello_role t);
    is_empty_member B_u32 (hello_ingress_id t);
    is_empty_member B_u32 (hello_outport_id t);
    is_empty_member B_u32 (hello_channel_id t);
    is_empty_member B_u32 (hello_generation t)].
Definition zds_pack_FgwHello (s : sink) (t : FgwHello) (has_prefix : bool) : Z * bytes :=
  let pf := prefix_FgwHello t in
  pack_struct s pf has_prefix (
    pack_member pf 0 (fun s => zds_pack_builtin B_u16 s (hello_proto_version t)) (
    pack_member pf 1 (fun s => zds_pack_builtin B_byte s (hello_role t)) (
    pack_member pf 2 (fun s => zds_pack_builtin B_u32 s (hello_ingress_id t)) (
    pack_member pf 3 (fun s => zds_pack_builtin B_u32 s (hello_outport_id t)) (
    pack_member pf 4 (fun s => zds_pack_builtin B_u32 s (hello_channel_id t)) (
    pack_member pf 5 (fun s => zds_pack_builtin B_u32 s (hello_generation t)) (
    pack_return))))))).
Definition zds_unpack_FgwHello (b : bytes) (has_prefix : bool) : Z * FgwHello :=
  unpack_struct b has_prefix FgwHello_empty (fun pf =>
    unpack_member pf 0 (zds_unpack_builtin B_u16) (builtin_zero B_u16) (fun v0 =>
    unpack_member pf 1 (zds_unpack_builtin B_byte) (builtin_zero B_byte) (fun v1 =>
    unpack_member pf 2 (zds_unpack_builtin B_u32) (builtin_zero B_u32) (fun v2 =>
    unpack_member pf 3 (zds_unpack_builtin B_u32) (builtin_zero B_u32) (fun v3 =>
    unpack_member pf 4 (zds_unpack_builtin B_u32) (builtin_zero B_u32) (fun v4 =>
    unpack_member pf 5 (zds_unpack_builtin B_u32) (builtin_zero B_u32) (fun v5 =>
    unpack_return pf 6 (mkFgwHello v0 v1 v2 v3 v4 v5)))))))).
Definition wf_FgwHello (t : FgwHello) : Prop :=
  builtin_range B_u16 (hello_proto_version t) /\
  builtin_range B_byte (hello_role t) /\
  builtin_range B_u32 (hello_ingress_id t) /\
  builtin_range B_u32 (hello_outport_id t) /\
  builtin_range B_u32 (hello_channel_id t) /\
  builtin_range B_u32 (hello_generation t).

(** *** FgwLinkFeedback *)
Definition prefix_FgwLinkFeedback (t : FgwLinkFeedback) : Z :=
  struct_prefix [is_empty_member B_u32 (fb_decision_epoch t);
    is_empty_member B_u32 (fb_recommended_primary t);
    is_empty_member B_u32 (fb_alive_bitmap t);
    is_empty_member B_u32 (fb_highest_seq t)].
Definition zds_pack_FgwLinkFeedback (s : sink) (t : FgwLinkFeedback) (has_prefix : bool) : Z * bytes :=
  let pf := prefix_FgwLinkFeedback t in
  pack_struct s pf has_prefix (
    pack_member pf 0 (fun s => zds_pack_builtin B_u32 s (fb_decision_epoch t)) (
    pack_member pf 1 (fun s => zds_pack_builtin B_u32 s (fb_recommended_primary t)) (
    pack_member pf 2 (fun s => zds_pack_builtin B_u32 s (fb_alive_bitmap t)) (
    pack_member pf 3 (fun s => zds_pack_builtin B_u32 s (fb_highest_seq t)) (
    pack_return))))).
Definition zds_unpack_FgwLinkFeedback (b : bytes) (has_prefix : bool) : Z * FgwLinkFeedback :=
  unpack_struct b has_prefix FgwLinkFeedback_empty (fun pf =>
    unpack_member pf 0 (zds_unpack_builtin B_u32) (builtin_zero B_u32) (fun v0 =>
    unpack_member pf 1 (zds_unpack_builtin B_u32) (builtin_zero B_u32) (fun v1 =>
    unpack_member pf 2 (zds_unpack_builtin B_u32) (builtin_zero B_u32) (fun v2 =>
    unpack_member pf 3 (zds_unpack_builtin B_u32) (builtin_zero B_u32) (fun v3 =>
    unpack_return pf 4 (mkFgwLinkFeedback v0 v1 v2 v3)))))).
Definition wf_FgwLinkFeedback (t : FgwLinkFeedback) : Prop :=
  builtin_range B_u32 (fb_decision_epoch t) /\
  builtin_range B_u32 (fb_recommended_primary t) /\
  builtin_range B_u32 (fb_alive_bitmap t) /\
  builtin_range B_u32 (fb_highest_seq t).

End codecs.

(** ** Reading back what was written *)
Section roundtrip.
Context {rt : ZdsRuntime} {laws : ZdsLaws rt}.

(** A continuation of the writer and one of the reader agree on the result. *)
Definition chain {A} (k : wr -> Z * bytes) (K : rd -> Z + (Z * A)) (a : A) : Prop :=
  forall w n out, k w = (n, out) -> 0 <= n ->
    exists tl, out = wr_out w ++ tl /\ n = wr_ret w + zlen tl /\
      forall rest ret, K (mkRd (tl ++ rest) ret) = inr (ret + zlen tl, a).

Lemma bit_set_testbit pf i : 0 <= i -> bit_set pf i = Z.testbit pf i.
Proof.
  intros Hi. unfold bit_set. rewrite Z.shiftl_1_l.
  destruct (Z.testbit pf i) eqn:Hb.
  - apply negb_true_iff, Z.eqb_neq. intros H0.
    apply (f_equal (fun z => Z.testbit z i)) in H0.
    by rewrite Z.land_spec, Hb, Z.pow2_bits_true, Z.bits_0 in H0.
  - apply negb_false_iff, Z.eqb_eq. Z.bitwise. rewrite Z.pow2_bits_eqb by done.
    destruct (Z.eqb_spec i m) as [<-|]; [by rewrite Hb | apply andb_false_r].
Qed.

Lemma chain_return {A} pf n (a t : A) : 0 <= n -> 0 <= pf < 2 ^ n -> a = t ->
  chain pack_return (unpack_return pf n a) t.
Proof.
  intros Hn Hpf <- w m out [= <- <-] _. exists []. rewrite app_nil_r, zlen_nil, Z.add_0_r.
  split; [done|]. split; [done|]. intros rest ret. unfold unpack_return. cbn.
  rewrite Z.shiftr_div_pow2, Z.div_small by lia. by rewrite Z.add_0_r.
Qed.

Lemma chain_member {A B} pf i (prim : sink -> Z * bytes) (up : bytes -> Z * B) dflt v
    (k : wr -> Z * bytes) (K : B -> rd -> Z + (Z * A)) a :
  (bit_set pf i = true -> agrees prim up v) ->
  (bit_set pf i = false -> v = dflt) ->
  chain k (K v) a -> chain (pack_member pf i prim k) (unpack_member pf i up dflt K) a.
Proof.
  intros Hag Hd Hch w n out Hk Hn. unfold pack_member, unpack_member in *.
  destruct (bit_set pf i); [|rewrite <- Hd by done; by eapply Hch].
  destruct (prim (wr_sink w)) as [len bs] eqn:Hp.
  destruct (decide (len < 0)) as [Hneg|Hpos].
  { rewrite law_checklen_wr_err in Hk by done. simplify_eq. lia. }
  rewrite law_checklen_wr_ok in Hk by lia.
  destruct (Hag eq_refl _ _ _ Hp ltac:(lia)) as [-> Hup].
  destruct (Hch _ _ _ Hk Hn) as (tl & -> & -> & HK). cbn in *.
  exists (bs ++ tl). rewrite zlen_app, <- app_assoc. split; [done|]. split; [lia|].
  intros rest ret. rewrite <- app_assoc, Hup, law_checklen_rd_ok by apply zlen_nonneg.
  cbn. unfold zlen at 1. rewrite Nat2Z.id, drop_app_length, HK. do 2 f_equal. lia.
Qed.

Lemma chain_struct {A} pf hp (bad : A) (k : wr -> Z * bytes) (K : Z -> rd -> Z + (Z * A)) a :
  0 <= pf < 2 ^ 64 -> chain k (K pf) a ->
  agrees (fun s => pack_struct s pf hp k) (fun b => unpack_struct b hp bad K) a.
Proof.
  intros Hpf Hch s n out Hk Hn. unfold pack_struct, unpack_struct in *.
  destruct (zds_pack_struct_header s pf hp) as [len bs] eqn:Hp.
  destruct (decide (len < 0)) as [Hneg|Hpos].
  { rewrite law_checklen_wr_err in Hk by done. simplify_eq. lia. }
  rewrite law_checklen_wr_ok in Hk by lia.
  destruct (law_header pf hp Hpf _ _ _ Hp ltac:(lia)) as [-> Hup].
  destruct (Hch _ _ _ Hk Hn) as (tl & -> & -> & HK). cbn in *.
  split; [rewrite zlen_app; lia|]. intros rest.
  rewrite <- app_assoc, Hup, law_checklen_rd_ok by apply zlen_nonneg.
  cbn. unfold zlen at 1. rewrite Nat2Z.id, drop_app_length, HK. done.
Qed.

(** *** Presence bits *)
Lemma struct_prefix_from_bits i l j :
  0 <= i -> 0 <= j ->
  Z.testbit (struct_prefix_from i l) j =
  (i <=? j) && (j <? i + zlen l) && negb (nth (Z.to_nat (j - i)) l false).
Proof.
  revert i. induction l as [|e l IH]; intros i Hi Hj; simpl.
  { rewrite Z.bits_0, zlen_nil.
    destruct (Z.leb_spec i j), (Z.ltb_spec j (i + 0)); simpl; try done; lia. }
  rewrite Z.lor_spec, IH, zlen_cons by lia. pose proof (zlen_nonneg l).
  assert (Hbit : Z.testbit (if e then 0 else Z.shiftl 1 i) j = (i =? j) && negb e).
  { destruct e; [by rewrite Z.bits_0, andb_false_r|].
    rewrite Z.shiftl_1_l, Z.pow2_bits_eqb, andb_true_r by lia. done. }
  rewrite Hbit. destruct (Z.eqb_spec i j) as [<-|Hne].
  - rewrite Z.sub_diag. simpl. replace (i + 1 <=? i) with false by lia.
    replace (i <=? i) with true by lia. replace (i <? i + (1 + zlen l)) with true by lia.
    simpl. by rewrite orb_false_r.
  - simpl. destruct (Z.leb_spec i j).
    + replace (i + 1 <=? j) with true by lia. simpl.
      replace (i + 1 + zlen l) with (i + (1 + zlen l)) by lia. f_equal. f_equal.
      replace (Z.to_nat (j - i)) with (S (Z.to_nat (j - (i + 1)))) by lia. done.
    + replace (i + 1 <=? j) with false by lia. done.
Qed.

Lemma struct_prefix_bit l i : 0 <= i < zlen l ->
  bit_set (struct_prefix l) i = negb (nth (Z.to_nat i) l false).
Proof.
  intros Hi. rewrite bit_set_testbit by lia. unfold struct_prefix.
  rewrite struct_prefix_from_bits, Z.sub_0_r, Z.add_0_l by lia.
  replace (0 <=? i) with true by lia. replace (i <? zlen l) with true by lia. done.
Qed.

Lemma struct_prefix_range l : 0 <= struct_prefix l < 2 ^ zlen l.
Proof.
  unfold struct_prefix.
  assert (H0 : forall i l, 0 <= i -> 0 <= struct_prefix_from i l < 2 ^ (i + zlen l)).
  { clear. intros i l. revert i. induction l as [|e l IH]; intros i Hi; simpl.
    - split; [done|]. change (zlen (@nil bool)) with 0. apply Z.pow_pos_nonneg; lia.
    - rewrite zlen_cons. specialize (IH (i + 1) ltac:(lia)).
      rewrite Z.add_assoc. pose proof (zlen_nonneg l).
      assert (Hb : 0 <= (if e then 0 else Z.shiftl 1 i) < 2 ^ (i + 1 + zlen l)).
      { destruct e; [split; [done | apply Z.pow_pos_nonneg; lia]|].
        rewrite Z.shiftl_1_l. split; [apply Z.pow_nonneg; lia | apply Z.pow_lt_mono_r; lia]. }
      split; [apply Z.lor_nonneg; lia|].
      set (x := if e then 0 else Z.shiftl 1 i) in *. set (y := struct_prefix_from (i + 1) l) in *.
      destruct (Z.eq_dec (Z.lor x y) 0) as [->|Hne]; [lia|].
      assert (0 <= Z.lor x y) by (apply Z.lor_nonneg; lia).
      apply Z.log2_lt_pow2; [lia|]. rewrite Z.log2_lor by lia.
      assert (Hlog : forall z, 0 <= z < 2 ^ (i + 1 + zlen l) -> Z.log2 z < i + 1 + zlen l).
      { intros z Hz. destruct (Z.eq_dec z 0) as [->|]; [simpl; lia | apply Z.log2_lt_pow2; lia]. }
      apply Z.max_lub_lt; auto. }
  apply (H0 0 l). done.
Qed.

(** *** One member at a time *)
Lemma agree_builtin b v : builtin_range b v ->
  agrees (fun s => zds_pack_builtin b s v) (zds_unpack_builtin b) v.
Proof. apply law_builtin. Qed.

Lemma empty_builtin b v : builtin_range b v ->
  negb (is_empty_member b v) = false -> v = builtin_zero b.
Proof. intros Hr H. apply law_empty; [done | by destruct (is_empty_member b v)]. Qed.

Lemma empty_struct {A} (eqb : A -> A -> bool) e v :
  (forall a b, eqb a b = true <-> a = b) -> negb (struct_empty eqb e v) = false -> v = e.
Proof. intros Heq H. apply Heq, law_struct_empty. by destruct (struct_empty eqb e v). Qed.

Lemma empty_vector {A} (l : list A) : negb (vector_empty l) = false -> l = [].
Proof. by destruct l. Qed.
End roundtrip.

Create HintDb codec discriminated.
#[export] Hint Resolve agree_builtin empty_builtin empty_struct empty_vector : codec.
#[export] Hint Resolve FgwEndpoint_eqb_eq FgwChannelConfig_eqb_eq FgwConfig_eqb_eq : codec.

Ltac to_nat_lit :=
  match goal with
  | |- context [Z.to_nat ?k] =>
    let n := eval vm_compute in (Z.to_nat k) in change (Z.to_nat k) with n
  end.

(** [codec_tac] proves that a generated writer and its reader agree: one
    [chain_member] per member, its presence bit given by [struct_prefix_bit]. *)
Ltac codec_range l :=
  let H := fresh in pose proof (struct_prefix_range l) as H;
  let n := eval vm_compute in (zlen l) in change (zlen l) with n in H;
  split; [apply H | first [apply H | eapply Z.lt_le_trans; [apply H | by vm_compute]]].
Ltac codec_tac :=
  apply chain_struct; [match goal with |- 0 <= struct_prefix ?l < _ => codec_range l end|];
  repeat (eapply chain_member;
    [intros _; solve [eauto with codec]
    |rewrite struct_prefix_bit by (vm_compute; split; congruence);
     to_nat_lit; cbn [nth]; intros; solve [eauto with codec]
    |]);
  apply chain_return; [lia | match goal with |- 0 <= struct_prefix ?l < _ => codec_range l end |].

Section messages.
Context {rt : ZdsRuntime} {laws : ZdsLaws rt}.

Lemma codec_array {A} (wf : A -> Prop) (pk : sink -> A -> bool -> Z * bytes)
    (up : bytes -> bool -> Z * A) l :
  (forall a, wf a -> agrees (fun s => pk s a true) (fun b => up b true) a) -> Forall wf l ->
  agrees (fun s => zds_pack_array pk s l) (zds_unpack_array up) l.
Proof. intros Hwf Hl. apply law_array. eapply List.Forall_impl; [|exact Hl]. exact Hwf. Qed.
Hint Resolve codec_array : codec.

Lemma codec_FgwEndpoint t : wf_FgwEndpoint t ->
  agrees (fun s => zds_pack_FgwEndpoint s t true) (fun b => zds_unpack_FgwEndpoint b true) t.
Proof.
  unfold wf_FgwEndpoint, zds_pack_FgwEndpoint, zds_unpack_FgwEndpoint, prefix_FgwEndpoint. cbv zeta.
  intros Hwf. decompose [and] Hwf. codec_tac. by destruct t.
Qed.
Hint Resolve codec_FgwEndpoint : codec.

Lemma codec_FgwChannelConfig t : wf_FgwChannelConfig t ->
  agrees (fun s => zds_pack_FgwChannelConfig s t true) (fun b => zds_unpack_FgwChannelConfig b true) t.
Proof.
  unfold wf_FgwChannelConfig, zds_pack_FgwChannelConfig, zds_unpack_FgwChannelConfig, prefix_FgwChannelConfig. cbv zeta.
  intros Hwf. decompose [and] Hwf. codec_tac. by destruct t.
Qed.
Hint Resolve codec_FgwChannelConfig : codec.

Lemma codec_FgwConfig t : wf_FgwConfig t ->
  agrees (fun s => zds_pack_FgwConfig s t true) (fun b => zds_unpack_FgwConfig b true) t.
Proof.
  unfold wf_FgwConfig, zds_pack_FgwConfig, zds_unpack_FgwConfig, prefix_FgwConfig. cbv zeta.
  intros Hwf. decompose [and] Hwf. codec_tac. by destruct t.
Qed.
Hint Resolve codec_FgwConfig : codec.

Lemma codec_FgwLinkQuality t : wf_FgwLinkQuality t ->
  agrees (fun s => zds_pack_FgwLinkQuality s t true) (fun b => zds_unpack_FgwLinkQuality b true) t.
Proof.
  unfold wf_FgwLinkQuality, zds_pack_FgwLinkQuality, zds_unpack_FgwLinkQuality, prefix_FgwLinkQuality. cbv zeta.
  intros Hwf. decompose [and] Hwf. codec_tac. by destruct t.
Qed.
Hint Resolve codec_FgwLinkQuality : codec.

Lemma codec_FgwSessionStat t : wf_FgwSessionStat t ->
  agrees (fun s => zds_pack_FgwSessionStat s t true) (fun b => zds_unpack_FgwSessionStat b true) t.
Proof.
  unfold wf_FgwSessionStat, zds_pack_FgwSessionStat, zds_unpack_FgwSessionStat, prefix_FgwSessionStat. cbv zeta.
  intros Hwf. decompose [and] Hwf. codec_tac. by destruct t.
Qed.
Hint Resolve codec_FgwSessionStat : codec.

Lemma codec_FgwStatus t : wf_FgwStatus t ->
  agrees (fun s => zds_pack_FgwStatus s t true) (fun b => zds_unpack_FgwStatus b true) t.
Proof.
  unfold wf_FgwStatus, zds_pack_FgwStatus, zds_unpack_FgwStatus, prefix_FgwStatus. cbv zeta.
  intros Hwf. decompose [and] Hwf. codec_tac. by destruct t.
Qed.
Hint Resolve codec_FgwStatus : codec.

Lemma codec_FgwEmpty t : wf_FgwEmpty t ->
  agrees (fun s => zds_pack_FgwEmpty s t true) (fun b => zds_unpack_FgwEmpty b true) t.
Proof.
  unfold wf_FgwEmpty, zds_pack_FgwEmpty, zds_unpack_FgwEmpty, prefix_FgwEmpty. cbv zeta.
  intros Hwf. decompose [and] Hwf. codec_tac. by destruct t.
Qed.
Hint Resolve codec_FgwEmpty : codec.

Lemma codec_FgwStartRequest t : wf_FgwStartRequest t ->
  agrees (fun s => zds_pack_FgwStartRequest s t true) (fun b => zds_unpack_FgwStartRequest b true) t.
Proof.
  unfold wf_FgwStartRequest, zds_pack_FgwStartRequest, zds_unpack_FgwStartRequest, prefix_FgwStartRequest. cbv zeta.
  intros Hwf. decompose [and] Hwf. codec_tac. by destruct t.
Qed.
Hint Resolve codec_FgwStartRequest : codec.

Lemma codec_FgwStartResult t : wf_FgwStartResult t ->
  agrees (fun s => zds_pack_FgwStartResult s t true) (fun b => zds_unpack_FgwStartResult b true) t.
Proof.
  unfold wf_FgwStartResult, zds_pack_FgwStartResult, zds_unpack_FgwStartResult, prefix_FgwStartResult. cbv zeta.
  intros Hwf. decompose [and] Hwf. codec_tac. by destruct t.
Qed.
Hint Resolve codec_FgwStartResult : codec.

Lemma codec_FgwAddChannelRequest t : wf_FgwAddChannelRequest t ->
  agrees (fun s => zds_pack_FgwAddChannelRequest s t true) (fun b => zds_unpack_FgwAddChannelRequest b true) t.
Proof.
  unfold wf_FgwAddChannelRequest, zds_pack_FgwAddChannelRequest, zds_unpack_FgwAddChannelRequest, prefix_FgwAddChannelRequest. cbv zeta.
  intros Hwf. decompose [and] Hwf. codec_tac. by destruct t.
Qed.
Hint Resolve codec_FgwAddChannelRequest : codec.

Lemma codec_FgwRemoveChannelRequest t : wf_FgwRemoveChannelRequest t ->
  agrees (fun s => zds_pack_FgwRemoveChannelRequest s t true) (fun b => zds_unpack_FgwRemoveChannelRequest b true) t.
Proof.
  unfold wf_FgwRemoveChannelRequest, zds_pack_FgwRemoveChannelRequest, zds_unpack_FgwRemoveChannelRequest, prefix_FgwRemoveChannelRequest. cbv zeta.
  intros Hwf. decompose [and] Hwf. codec_tac. by destruct t.
Qed.
Hint Resolve codec_FgwRemoveChannelRequest : codec.

Lemma codec_FgwSetConfigRequest t : wf_FgwSetConfigRequest t ->
  agrees (fun s => zds_pack_FgwSetConfigRequest s t true) (fun b => zds_unpack_FgwSetConfigRequest b true) t.
Proof.
  unfold wf_FgwSetConfigRequest, zds_pack_FgwSetConfigRequest, zds_unpack_FgwSetConfigRequest, prefix_FgwSetConfigRequest. cbv zeta.
  intros Hwf. decompose [and] Hwf. codec_tac. by destruct t.
Qed.
Hint Resolve codec_FgwSetConfigRequest : codec.

Lemma codec_FgwHello t : wf_FgwHello t ->
  agrees (fun s => zds_pack_FgwHello s t true) (fun b => zds_unpack_FgwHello b true) t.
Proof.
  unfold wf_FgwHello, zds_pack_FgwHello, zds_unpack_FgwHello, prefix_FgwHello. cbv zeta.
  intros Hwf. decompose [and] Hwf. codec_tac. by destruct t.
Qed.
Hint Resolve codec_FgwHello : codec.

Lemma codec_FgwLinkFeedback t : wf_FgwLinkFeedback t ->
  agrees (fun s => zds_pack_FgwLinkFeedback s t true) (fun b => zds_unpack_FgwLinkFeedback b true) t.
Proof.
  unfold wf_FgwLinkFeedback, zds_pack_FgwLinkFeedback, zds_unpack_FgwLinkFeedback, prefix_FgwLinkFeedback. cbv zeta.
  intros Hwf. decompose [and] Hwf. codec_tac. by destruct t.
Qed.
Hint Resolve codec_FgwLinkFeedback : codec.

End messages.

(** ** Properties *)

(** C26. Every message of the protocol and the stored configuration survive the trip:
    whenever the generated packer succeeds on a message whose members are in the range
    of their types, the returned length is the number of bytes written, and the
    generated unpacker, on those bytes followed by anything, consumes exactly them and
    returns the message. *)
Theorem messages_roundtrip {rt : ZdsRuntime} {laws : ZdsLaws rt} :
  (forall t : FgwEndpoint, wf_FgwEndpoint t ->
     agrees (fun s => zds_pack_FgwEndpoint s t true) (fun b => zds_unpack_FgwEndpoint b true) t) /\
  (forall t : FgwChannelConfig, wf_FgwChannelConfig t ->
     agrees (fun s => zds_pack_FgwChannelConfig s t true) (fun b => zds_unpack_FgwChannelConfig b true) t) /\
  (forall t : FgwConfig, wf_FgwConfig t ->
     agrees (fun s => zds_pack_FgwConfig s t true) (fun b => zds_unpack_FgwConfig b true) t) /\
  (forall t : FgwLinkQuality, wf_FgwLinkQuality t ->
     agrees (fun s => zds_pack_FgwLinkQuality s t true) (fun b => zds_unpack_FgwLinkQuality b true) t) /\
  (forall t : FgwSessionStat, wf_FgwSessionStat t ->
     agrees (fun s => zds_pack_FgwSessionStat s t true) (fun b => zds_unpack_FgwSessionStat b true) t) /\
  (forall t : FgwStatus, wf_FgwStatus t ->
     agrees (fun s => zds_pack_FgwStatus s t true) (fun b => zds_unpack_FgwStatus b true) t) /\
  (forall t : FgwEmpty, wf_FgwEmpty t ->
     agrees (fun s => zds_pack_FgwEmpty s t true) (fun b => zds_unpack_FgwEmpty b true) t) /\
  (forall t : FgwStartRequest, wf_FgwStartRequest t ->
     agrees (fun s => zds_pack_FgwStartRequest s t true) (fun b => zds_unpack_FgwStartRequest b true) t) /\
  (forall t : FgwStartResult, wf_FgwStartResult t ->
     agrees (fun s => zds_pack_FgwStartResult s t true) (fun b => zds_unpack_FgwStartResult b true) t) /\
  (forall t : FgwAddChannelRequest, wf_FgwAddChannelRequest t ->
     agrees (fun s => zds_pack_FgwAddChannelRequest s t true) (fun b => zds_unpack_FgwAddChannelRequest b true) t) /\
  (forall t : FgwRemoveChannelRequest, wf_FgwRemoveChannelRequest t ->
     agrees (fun s => zds_pack_FgwRemoveChannelRequest s t true) (fun b => zds_unpack_FgwRemoveChannelRequest b true) t) /\
  (forall t : FgwSetConfigRequest, wf_FgwSetConfigRequest t ->
     agrees (fun s => zds_pack_FgwSetConfigRequest s t true) (fun b => zds_unpack_FgwSetConfigRequest b true) t) /\
  (forall t : FgwHello, wf_FgwHello t ->
     agrees (fun s => zds_pack_FgwHello s t true) (fun b => zds_unpack_FgwHello b true) t) /\
  (forall t : FgwLinkFeedback, wf_FgwLinkFeedback t ->
     agrees (fun s => zds_pack_FgwLinkFeedback s t true) (fun b => zds_unpack_FgwLinkFeedback b true) t).
Proof.
  split_and!; first [exact codec_FgwEndpoint |
    exact codec_FgwChannelConfig |
    exact codec_FgwConfig |
    exact codec_FgwLinkQuality |
    exact codec_FgwSessionStat |
    exact codec_FgwStatus |
    exact codec_FgwEmpty |
    exact codec_FgwStartRequest |
    exact codec_FgwStartResult |
    exact codec_FgwAddChannelRequest |
    exact codec_FgwRemoveChannelRequest |
    exact codec_FgwSetConfigRequest |
    exact codec_FgwHello |
    exact codec_FgwLinkFeedback].
Qed.
