(* ===== verification/ZdsInstance.v ===== *)
(** * ZdsInstance: a concrete ZDS runtime

    The laws of [ZdsLaws] are satisfiable: a runtime that writes every primitive
    as its length followed by its contents obeys them.  The witnesses of the
    theorems about the codecs and about the components that exchange messages
    evaluate on this instance. *)
From Stdlib Require Import SpecFloat.
From S2P Require Import Prelude Proto Pack.

Definition contents (b : builtin) : builtin_ty b -> list Z :=
  match b with
  | B_double => fun v => match v with
      | S754_zero s => [0; Z.b2z s]
      | S754_infinity s => [1; Z.b2z s]
      | S754_nan => [2]
      | S754_finite s m e => [3; Z.b2z s; Zpos m; e]
      end
  | B_astring => fun v => v
  | B_byte | B_u16 | B_u32 | B_u64 | B_i32 => fun v => [v]
  end.
Definition of_contents (b : builtin) : list Z -> builtin_ty b :=
  match b with
  | B_double => fun l => match l with
      | [0; s] => S754_zero (Z.odd s)
      | [1; s] => S754_infinity (Z.odd s)
      | [3; s; Zpos m; e] => S754_finite (Z.odd s) m e
      | _ => S754_nan
      end
  | B_astring => fun l => l
  | B_byte | B_u16 | B_u32 | B_u64 | B_i32 => fun l => hd 0 l
  end.

Definition emit (s : sink) (l : list Z) : Z * bytes :=
  match s with
  | Some size => if size <? zlen l then (-1, []) else (zlen l, l)
  | None => (zlen l, l)
  end.
Definition tlv (l : list Z) : list Z := zlen l :: l.
Definition tlv_read (b : bytes) : option (list Z * Z) :=
  match b with
  | n :: b' => if (n <? 0) || (zlen b' <? n) then None else Some (take (Z.to_nat n) b', 1 + n)
  | [] => None
  end.

Fixpoint emit_all {A} (pk : sink -> A -> bool -> Z * bytes) (s : sink) (l : list A) : Z * bytes :=
  match l with
  | [] => (0, [])
  | a :: l' =>
    let '(len, bs) := pk s a true in
    if len <? 0 then (len, []) else
    let '(len', bs') := emit_all pk (sink_move s len) l' in
    if len' <? 0 then (len', []) else (len + len', bs ++ bs')
  end.
Fixpoint read_all {A} (up : bytes -> bool -> Z * A) (n : nat) (b : bytes) : Z * list A :=
  match n with
  | O => (0, [])
  | S n' =>
    let '(len, a) := up b true in
    if len <? 0 then (len, []) else
    let '(len', l) := read_all up n' (drop (Z.to_nat len) b) in
    if len' <? 0 then (len', []) else (len + len', a :: l)
  end.

Definition is_empty_builtin (b : builtin) : builtin_ty b -> bool :=
  match b with
  | B_double => fun v => match v with S754_zero _ => true | _ => false end
  | B_astring => fun v => bool_decide (v = [])
  | B_byte | B_u16 | B_u32 | B_u64 | B_i32 => fun v => v =? 0
  end.

#[export] Instance tlv_runtime : ZdsRuntime := {
  zds_pack_struct_header s pf _ := emit s (tlv [pf]);
  zds_unpack_struct_header b _ :=
    match tlv_read b with Some (l, n) => (n, hd 0 l) | None => (-1, 0) end;
  zds_pack_builtin b s v := emit s (tlv (contents b v));
  zds_unpack_builtin b bs :=
    match tlv_read bs with Some (l, n) => (n, of_contents b l) | None => (-1, builtin_zero b) end;
  zds_pack_array A pk s l :=
    let '(len, bs) := emit s (tlv [zlen l]) in
    if len <? 0 then (len, []) else
    let '(len', bs') := emit_all pk (sink_move s len) l in
    if len' <? 0 then (len', []) else (len + len', bs ++ bs');
  zds_unpack_array A up b :=
    match tlv_read b with
    | Some (h, n) =>
      let '(len', l) := read_all up (Z.to_nat (hd 0 h)) (drop (Z.to_nat n) b) in
      if len' <? 0 then (len', []) else (n + len', l)
    | None => (-1, [])
    end;
  zds_unpack_skip b := match tlv_read b with Some (_, n) => n | None => -1 end;
  is_empty_member := is_empty_builtin;
  struct_empty A eqb e v := eqb v e;
  checklen_wr w '(len, bs) :=
    if len <? 0 then inl len
    else inr (mkWr (sink_move (wr_sink w) len) (wr_ret w + len) (wr_out w ++ bs));
  checklen_rd r len :=
    if len <? 0 then inl len
    else inr (mkRd (drop (Z.to_nat len) (rd_buf r)) (rd_ret r + len)) }.

Lemma emit_ok s l len bs : emit s l = (len, bs) -> 0 <= len -> len = zlen l /\ bs = l.
Proof.
  unfold emit. destruct s as [size|]; [destruct (size <? zlen l)|]; intros [= <- <-]; [lia | auto ..].
Qed.

Lemma tlv_read_app l rest : tlv_read (tlv l ++ rest) = Some (l, zlen (tlv l)).
Proof.
  unfold tlv. cbn. rewrite zlen_app, zlen_cons. pose proof (zlen_nonneg l). pose proof (zlen_nonneg rest).
  replace ((zlen l <? 0) || (zlen l + zlen rest <? zlen l)) with false by lia.
  unfold zlen at 1. by rewrite Nat2Z.id, take_app_length.
Qed.

Lemma of_contents_contents b v : of_contents b (contents b v) = v.
Proof. destruct b; try done. destruct v as [[]|[]| |[]]; done. Qed.

Lemma emit_all_agrees {A} (pk : sink -> A -> bool -> Z * bytes) (up : bytes -> bool -> Z * A) l :
  Forall (fun a => agrees (fun s => pk s a true) (fun b => up b true) a) l ->
  agrees (fun s => emit_all pk s l) (read_all up (length l)) l.
Proof.
  intros Hl. induction Hl as [|a l Ha _ IH]; intros s len bs Hp Hlen; simpl in *.
  { by injection Hp as <- <-. }
  destruct (pk s a true) as [n x] eqn:Hpk. destruct (Z.ltb_spec n 0); [simplify_eq; lia|].
  destruct (emit_all pk (sink_move s n) l) as [n' x'] eqn:He.
  destruct (Z.ltb_spec n' 0); [simplify_eq; lia|]. injection Hp as <- <-.
  destruct (Ha _ _ _ Hpk) as [-> Hup]; [lia|]. destruct (IH _ _ _ He) as [-> Hall]; [lia|].
  split; [by rewrite zlen_app|]. intros rest. rewrite <- app_assoc, Hup.
  pose proof (zlen_nonneg x). pose proof (zlen_nonneg x').
  replace (zlen x <? 0) with false by lia. rewrite drop_zlen_app, Hall.
  by replace (zlen x' <? 0) with false by lia.
Qed.

#[export] Instance tlv_laws : ZdsLaws tlv_runtime.
Proof.
  constructor; cbn.
  - intros w len bs Hn. by replace (len <? 0) with true by lia.
  - intros w len bs Hn. by replace (len <? 0) with false by lia.
  - intros r len Hn. by replace (len <? 0) with true by lia.
  - intros r len Hn. by replace (len <? 0) with false by lia.
  - intros pf hp _ s len bs He Hlen. apply emit_ok in He as [-> ->]; [|done]. split; [done|].
    intros rest. by rewrite tlv_read_app.
  - intros b v _ s len bs He Hlen. apply emit_ok in He as [-> ->]; [|done]. split; [done|].
    intros rest. by rewrite tlv_read_app, of_contents_contents.
  - intros A pk up l Hl s len bs He Hlen.
    destruct (emit s (tlv [zlen l])) as [n h] eqn:Hh. destruct (Z.ltb_spec n 0); [simplify_eq; lia|].
    destruct (emit_all pk (sink_move s n) l) as [n' x] eqn:Hx.
    destruct (Z.ltb_spec n' 0); [simplify_eq; lia|]. injection He as <- <-.
    apply emit_ok in Hh as [-> ->]; [|lia].
    destruct (emit_all_agrees pk up l Hl _ _ _ Hx) as [-> Hall]; [lia|].
    split; [by rewrite zlen_app|]. intros rest. rewrite <- app_assoc, tlv_read_app. cbn [hd].
    rewrite drop_zlen_app, to_nat_zlen, Hall.
    pose proof (zlen_nonneg x). by replace (zlen x <? 0) with false by lia.
  - intros b v s len bs rest _ He Hlen. apply emit_ok in He as [-> ->]; [|done].
    by rewrite tlv_read_app.
  - intros b v Hr He. destruct b; cbn in *; try (by apply Z.eqb_eq in He).
    + destruct v as [[]| | |]; try done. by destruct Hr.
    + by apply bool_decide_eq_true in He.
  - done.
Qed.

(** *** A handshake and a configuration, there and back *)
Definition example_config : FgwConfig :=
  cfg_set_version kFgwConfigVersion (cfg_set_channels
    [mkFgwChannelConfig 1 ZFGW_CHANNEL_TCP (mkFgwEndpoint [49; 46; 50] 8000) 10]
    FgwConfig_empty).
Definition example_packed : Z * bytes := zds_pack_FgwConfig (Some 500) example_config true.

Lemma example_config_wf : wf_FgwConfig example_config.
Proof.
  unfold wf_FgwConfig, wf_FgwChannelConfig, wf_FgwEndpoint. cbn.
  unfold is_byte, ZFGW_CHANNEL_TCP, kFgwConfigVersion.
  repeat first [lia | apply List.Forall_nil | apply List.Forall_cons | progress cbn | split].
Qed.
Lemma messages_roundtrip_witness : 0 < fst example_packed /\
  zds_unpack_FgwConfig (snd example_packed ++ [7]) true = (fst example_packed, example_config).
Proof.
  destruct (messages_roundtrip (rt := tlv_runtime)) as (_ & _ & Hc & _).
  split; [by vm_compute|].
  refine (proj2 (Hc example_config _ (Some 500) (fst example_packed) (snd example_packed) _ _) [7]).
  - apply example_config_wf.
  - exact (surjective_pairing example_packed).
  - by vm_compute.
Defined.
