(* ===== verification/Channel.v ===== *)
(** * Channel: link channels of [src/zfgw_channel.{h,cpp}]

    The state of an [IFgwChannel] with the members of its [FgwTcpChannel] and
    [FgwUtpChannel] subclasses, and its operations as functions on that state.
    The clock [zce_tick()], the buffer pool and the return codes of the zce
    sockets are arguments.  The build without libutp is modelled (the default of
    the project): a UTP channel refuses to connect and to send. *)
From Stdlib Require Import SpecFloat.
From S2P Require Import Prelude Proto.

(** ** State *)
Record LinkQuality := mkLQ {
  q_rtt_ms : Z; q_loss_rate : double; q_bytes_sent : Z; q_bytes_recv : Z;
  q_send_segments : Z; q_recv_segments : Z; q_rexmit_segments : Z; q_last_rx_tick : Z }.
Definition LinkQuality_default : LinkQuality := mkLQ 0 Double.zero 0 0 0 0 0 0.

Record IFgwChannel := mkChan {
  channel_id_ : Z; kind_ : Z; priority_ : Z;
  connected_ : bool; accepted_ : bool; stalled_ : bool;
  peer_channel_id_ : Z; peer_ingress_id_ : Z; peer_outport_id_ : Z;
  quality_ : LinkQuality;
  (** [tcp_ptr_], the identity of the zce::Tcp it points to, if any *)
  tcp_ptr_ : option Z;
  remote_ : FgwEndpoint }.

(** [FgwTcpChannel(reactor, id, priority)] and [FgwUtpChannel(ctx, id, priority)]. *)
Definition new_channel (kind id priority : Z) : IFgwChannel :=
  mkChan id kind priority false false false 0 0 0 LinkQuality_default None FgwEndpoint_empty.

Definition set_quality (q : LinkQuality) (c : IFgwChannel) : IFgwChannel :=
  mkChan (channel_id_ c) (kind_ c) (priority_ c) (connected_ c) (accepted_ c) (stalled_ c)
    (peer_channel_id_ c) (peer_ingress_id_ c) (peer_outport_id_ c) q (tcp_ptr_ c) (remote_ c).
Definition set_connected (v : bool) (c : IFgwChannel) : IFgwChannel :=
  mkChan (channel_id_ c) (kind_ c) (priority_ c) v (accepted_ c) (stalled_ c)
    (peer_channel_id_ c) (peer_ingress_id_ c) (peer_outport_id_ c) (quality_ c) (tcp_ptr_ c) (remote_ c).
Definition markStalled (v : bool) (c : IFgwChannel) : IFgwChannel :=
  mkChan (channel_id_ c) (kind_ c) (priority_ c) (connected_ c) (accepted_ c) v
    (peer_channel_id_ c) (peer_ingress_id_ c) (peer_outport_id_ c) (quality_ c) (tcp_ptr_ c) (remote_ c).
Definition markAccepted (c : IFgwChannel) : IFgwChannel :=
  mkChan (channel_id_ c) (kind_ c) (priority_ c) (connected_ c) true (stalled_ c)
    (peer_channel_id_ c) (peer_ingress_id_ c) (peer_outport_id_ c) (quality_ c) (tcp_ptr_ c) (remote_ c).
Definition setPeerIdentity (pc pi po : Z) (c : IFgwChannel) : IFgwChannel :=
  mkChan (channel_id_ c) (kind_ c) (priority_ c) (connected_ c) (accepted_ c) (stalled_ c)
    pc pi po (quality_ c) (tcp_ptr_ c) (remote_ c).
Definition set_tcp (p : option Z) (c : IFgwChannel) : IFgwChannel :=
  mkChan (channel_id_ c) (kind_ c) (priority_ c) (connected_ c) (accepted_ c) (stalled_ c)
    (peer_channel_id_ c) (peer_ingress_id_ c) (peer_outport_id_ c) (quality_ c) p (remote_ c).
Definition set_remote (r : FgwEndpoint) (c : IFgwChannel) : IFgwChannel :=
  mkChan (channel_id_ c) (kind_ c) (priority_ c) (connected_ c) (accepted_ c) (stalled_ c)
    (peer_channel_id_ c) (peer_ingress_id_ c) (peer_outport_id_ c) (quality_ c) (tcp_ptr_ c) r.

(** ** Liveness *)

(** [(now_tick - last_rx_tick) > timeout_ms] on 32-bit unsigned integers. *)
Definition fgwLinkStalled (now_tick last_rx_tick timeout_ms : Z) : bool :=
  timeout_ms <? (now_tick -u32 last_rx_tick).

Definition isLive (c : IFgwChannel) : bool := connected_ c && negb (stalled_ c).
Definition lastRxTick (c : IFgwChannel) : Z := q_last_rx_tick (quality_ c).

(** [now] is the clock sampled under the lock. *)
Definition evaluateStall (now timeout_ms : Z) (c : IFgwChannel) : IFgwChannel :=
  markStalled (fgwLinkStalled (u32 now) (lastRxTick c) timeout_ms) c.

(** ** Counters *)
Definition q_upd (f : LinkQuality -> LinkQuality) (c : IFgwChannel) : IFgwChannel :=
  set_quality (f (quality_ c)) c.
Definition addSentBytes (n : Z) : IFgwChannel -> IFgwChannel :=
  q_upd (fun q => mkLQ (q_rtt_ms q) (q_loss_rate q) (u64 (q_bytes_sent q + n)) (q_bytes_recv q)
    (q_send_segments q) (q_recv_segments q) (q_rexmit_segments q) (q_last_rx_tick q)).
Definition addRecvBytes (n now : Z) (c : IFgwChannel) : IFgwChannel :=
  markStalled false
    (q_upd (fun q => mkLQ (q_rtt_ms q) (q_loss_rate q) (q_bytes_sent q) (u64 (q_bytes_recv q + n))
      (q_send_segments q) (q_recv_segments q) (q_rexmit_segments q) (u32 now)) c).
Definition noteSegmentSent : IFgwChannel -> IFgwChannel :=
  q_upd (fun q => mkLQ (q_rtt_ms q) (q_loss_rate q) (q_bytes_sent q) (q_bytes_recv q)
    (q_send_segments q +u32 1) (q_recv_segments q) (q_rexmit_segments q) (q_last_rx_tick q)).
Definition noteSegmentRecv : IFgwChannel -> IFgwChannel :=
  q_upd (fun q => mkLQ (q_rtt_ms q) (q_loss_rate q) (q_bytes_sent q) (q_bytes_recv q)
    (q_send_segments q) (q_recv_segments q +u32 1) (q_rexmit_segments q) (q_last_rx_tick q)).
Definition noteSegmentRexmit : IFgwChannel -> IFgwChannel :=
  q_upd (fun q => mkLQ (q_rtt_ms q) (q_loss_rate q) (q_bytes_sent q) (q_bytes_recv q)
    (q_send_segments q) (q_recv_segments q) (q_rexmit_segments q +u32 1) (q_last_rx_tick q)).
Definition setRttMs (v : Z) : IFgwChannel -> IFgwChannel :=
  q_upd (fun q => mkLQ v (q_loss_rate q) (q_bytes_sent q) (q_bytes_recv q)
    (q_send_segments q) (q_recv_segments q) (q_rexmit_segments q) (q_last_rx_tick q)).

(** [markConnected(v)]: the new state and the error code handed to the connected
    callback; [markClosed()] calls the closed callback with the new state. *)
Definition markConnected (v : bool) (now : Z) (c : IFgwChannel) : IFgwChannel * Z :=
  let c := set_connected v c in
  let c := if v
    then q_upd (fun q => mkLQ (q_rtt_ms q) (q_loss_rate q) (q_bytes_sent q) (q_bytes_recv q)
           (q_send_segments q) (q_recv_segments q) (q_rexmit_segments q) (u32 now)) c
    else c in
  (c, if v then 0 else err ZFGW_ERRCODE_CHANNELFAIL).
Definition markClosed (c : IFgwChannel) : IFgwChannel := set_connected false c.

(** ** The transport below: buffer pool, sockets *)
Class Transport := {
  (** ZCE_MBACQUIRE(block, n) delivers a block with at least [n] bytes of space; the answer
      depends on [n] alone *)
  mb_acquire : Z -> bool;
  (** return code of [zce::Tcp::write] on socket [p], after the writes already made *)
  tcp_write : list (Z * bytes) -> Z -> bytes -> Z;
  (** return code of [zce::Connector::start_connect] *)
  start_connect : FgwEndpoint -> Z }.

Section transport.
Context {T : Transport}.

(** ** [FgwTcpChannel] *)
Definition tcp_close (c : IFgwChannel) : IFgwChannel :=
  set_connected false (set_tcp None c).

(** [fresh] identifies the new handler. *)
Definition tcp_connect (fresh : Z) (remote : FgwEndpoint) (c : IFgwChannel) : IFgwChannel * Z :=
  let c := tcp_close c in
  let c := set_remote remote c in
  let c := set_tcp (Some fresh) c in
  (c, start_connect remote).

(** Reserved, and refused. *)
Definition adoptAcceptedTcp (_ : Z) (c : IFgwChannel) : Z * IFgwChannel := (err ZFGW_ERRCODE_INVALIDCONFIG, c).
Definition createAcceptedHandler (fresh : Z) (c : IFgwChannel) : IFgwChannel :=
  set_tcp (Some fresh) (markAccepted c).

(** The return code, the channel, and the calls of [write] so far extended by this one,
    whatever it returns. *)
Definition tcp_sendBytes (buf : bytes) (sent : list (Z * bytes)) (c : IFgwChannel)
    : Z * IFgwChannel * list (Z * bytes) :=
  match tcp_ptr_ c with
  | None => (err ZFGW_ERRCODE_NOTRUNNING, c, sent)
  | Some p =>
    if negb (connected_ c) then (err ZFGW_ERRCODE_NOCHANNEL, c, sent)
    else if zlen buf =? 0 then (0, c, sent)
    else if negb (mb_acquire (zlen buf)) then (err ZFGW_ERRCODE_MEMORY, c, sent)
    else
      let ret := tcp_write sent p buf in
      let sent := sent ++ [(p, buf)] in
      let c := if 0 <=? ret then addSentBytes (zlen buf) c else c in
      (if ret <? 0 then ret else zlen buf, c, sent)
  end.

(** ** [FgwUtpChannel], built without libutp *)
Definition utp_connect (remote : FgwEndpoint) (c : IFgwChannel) : IFgwChannel * Z :=
  (set_remote remote c, err ZFGW_ERRCODE_INVALIDCONFIG).
Definition utp_close (c : IFgwChannel) : IFgwChannel := set_connected false c.
Definition utp_sendBytes (sent : list (Z * bytes)) (c : IFgwChannel)
    : Z * IFgwChannel * list (Z * bytes) :=
  (err ZFGW_ERRCODE_INVALIDCONFIG, c, sent).

(** ** Virtual dispatch *)
Definition is_tcp (c : IFgwChannel) : bool := kind_ c =? ZFGW_CHANNEL_TCP.
Definition connect (fresh : Z) (remote : FgwEndpoint) (c : IFgwChannel) : IFgwChannel * Z :=
  if is_tcp c then tcp_connect fresh remote c else utp_connect remote c.
Definition close (c : IFgwChannel) : IFgwChannel :=
  if is_tcp c then tcp_close c else utp_close c.
Definition sendBytes (buf : bytes) (sent : list (Z * bytes)) (c : IFgwChannel)
    : Z * IFgwChannel * list (Z * bytes) :=
  if is_tcp c then tcp_sendBytes buf sent c else utp_sendBytes sent c.

End transport.

(** ** Stall detection as a timed transition system

    The events that touch the receive clock, each atomic under [quality_lock_]
    and stamped with the value of a monotone clock [zce_tick()]. *)
Inductive rx_event := RxConnect | RxBytes (n : Z) | RxHeartbeat.
Definition rx_step (timeout_ms : Z) (e : rx_event) (now : Z) (c : IFgwChannel) : IFgwChannel :=
  match e with
  | RxConnect => fst (markConnected true now c)
  | RxBytes n => addRecvBytes n now c
  | RxHeartbeat => evaluateStall now timeout_ms c
  end.
Fixpoint rx_run (timeout_ms : Z) (evs : list (Z * rx_event)) (c : IFgwChannel) : IFgwChannel :=
  match evs with
  | [] => c
  | (now, e) :: evs' => rx_run timeout_ms evs' (rx_step timeout_ms e now c)
  end.

(** The last time at or before the end of [evs] something refreshed the clock. *)
Fixpoint last_refresh (evs : list (Z * rx_event)) (t0 : Z) : Z :=
  match evs with
  | [] => t0
  | (now, RxHeartbeat) :: evs' => last_refresh evs' t0
  | (now, _) :: evs' => last_refresh evs' now
  end.

(** ** Facts *)
Lemma stalled_exact now last timeout :
  last <= now < last + 2 ^ 32 ->
  fgwLinkStalled (u32 now) (u32 last) timeout = (timeout <? now - last).
Proof.
  intros H. unfold fgwLinkStalled, u32. f_equal.
  rewrite <- Zminus_mod. apply Z.mod_small. lia.
Qed.

Lemma rx_run_clock timeout evs c t0 :
  lastRxTick c = u32 t0 -> lastRxTick (rx_run timeout evs c) = u32 (last_refresh evs t0).
Proof.
  revert c t0. induction evs as [|[now []] evs IH]; intros c t0 Hc; simpl; [done | ..];
    apply IH; done.
Qed.

Lemma rx_run_app timeout evs evs' c :
  rx_run timeout (evs ++ evs') c = rx_run timeout evs' (rx_run timeout evs c).
Proof. revert c. induction evs as [|[now e] evs IH]; intros c; [done|]. apply IH. Qed.

Lemma sendBytes_ret_pos {T : Transport} buf sent c r c' sent' :
  sendBytes buf sent c = (r, c', sent') -> 0 < r ->
  r = zlen buf /\ exists p, sent' = sent ++ [(p, buf)].
Proof.
  unfold sendBytes, tcp_sendBytes, utp_sendBytes.
  assert (Hneg : forall e, e <> ZFGW_ERRCODE_OK -> err e < 0) by apply err_neg.
  pose proof (Hneg ZFGW_ERRCODE_NOTRUNNING ltac:(done)).
  pose proof (Hneg ZFGW_ERRCODE_NOCHANNEL ltac:(done)).
  pose proof (Hneg ZFGW_ERRCODE_MEMORY ltac:(done)).
  pose proof (Hneg ZFGW_ERRCODE_INVALIDCONFIG ltac:(done)).
  repeat case_match; intros; simplify_eq; try lia. eauto.
Qed.

(** A send never changes what selection and racing look at. *)
Lemma sendBytes_frame {T : Transport} buf sent c r c' sent' :
  sendBytes buf sent c = (r, c', sent') ->
  channel_id_ c' = channel_id_ c /\ isLive c' = isLive c /\
  peer_channel_id_ c' = peer_channel_id_ c /\ priority_ c' = priority_ c /\
  (exists l, sent' = sent ++ l /\ Forall (fun w => snd w = buf) l).
Proof.
  unfold sendBytes, tcp_sendBytes, utp_sendBytes. intros H.
  repeat case_match; simplify_eq; (split_and!; try done);
    solve [exists []; rewrite app_nil_r; auto | eexists; split; [done|]; by constructor].
Qed.

(** ** Properties *)

(** C31. Stall detection is exact.  After any events on a connected link, a heartbeat at
    time [now] marks the link stalled exactly when more than [timeout] milliseconds
    have passed since the connection or the last bytes, and so it is live exactly when
    not; the 32-bit tick may wrap in between, provided less than a full turn of it lies
    between.  Bytes arriving revive a stalled link at once. *)
Theorem stall_detection_exact (timeout t0 now : Z) (evs : list (Z * rx_event)) (c : IFgwChannel)
    (last := last_refresh evs t0) (Hclock : lastRxTick c = u32 t0)
    (Hnow : last <= now < last + 2 ^ 32) (n later : Z) :
  let c1 := rx_step timeout RxHeartbeat now (rx_run timeout evs c) in
  stalled_ c1 = (timeout <? now - last) /\
  (connected_ (rx_run timeout evs c) = true -> isLive c1 = (now - last <=? timeout)) /\
  stalled_ (rx_step timeout (RxBytes n) later c1) = false.
Proof.
  intros c1. assert (Hs : stalled_ c1 = (timeout <? now - last)).
  { unfold c1. simpl. unfold evaluateStall. simpl. rewrite (rx_run_clock timeout evs c t0 Hclock).
    by apply stalled_exact. }
  split_and!; [done | | done]. intros Hc. unfold isLive. rewrite Hs.
  change (connected_ c1) with (connected_ (rx_run timeout evs c)). rewrite Hc.
  destruct (Z.ltb_spec timeout (now - last)), (Z.leb_spec (now - last) timeout); simpl; lia || done.
Qed.

(** A clock about to wrap: connected at [2^32 - 100], bytes 50 ticks later, then
    nothing for 15 seconds. *)
Lemma stall_detection_exact_witness :
  let c := new_channel ZFGW_CHANNEL_TCP 1 10 in
  let evs := [(2 ^ 32 - 100, RxConnect); (2 ^ 32 - 50, RxBytes 7)] in
  stalled_ (rx_step 15000 RxHeartbeat (2 ^ 32 + 14951) (rx_run 15000 evs c)) = true.
Proof.
  intros c evs.
  destruct (stall_detection_exact 15000 0 (2 ^ 32 + 14951) evs c eq_refl) with (n := 1) (later := 0)
    as (Hs & _); [by vm_compute|]. rewrite Hs. reflexivity.
Defined.
