(* ===== verification/Selector.v ===== *)
(** * Selector: [LinkSelector] of [src/zfgw_channel_manager.{h,cpp}]

    Which links carry the next segment.  The weights are doubles, the order among
    equal weights is what [std::sort] makes of it: any permutation of the entries
    that is sorted for the comparison. *)
From Stdlib Require Import SpecFloat Sorting.Permutation Sorting.Sorted.
From S2P Require Import Prelude Proto Floats Channel.

(** ** [std::sort] *)

(** What the standard promises for a comparison that is a strict weak order on
    the elements. *)
Definition strict_weak {A} (cmp : A -> A -> bool) (l : list A) : Prop :=
  (forall x y, In x l -> In y l -> cmp x y = true -> cmp y x = false) /\
  (forall x y z, In x l -> In y l -> In z l ->
     cmp y x = false -> cmp z y = false -> cmp z x = false).
Definition not_before {A} (cmp : A -> A -> bool) (x y : A) : Prop := cmp y x = false.

Class StdSort := {
  std_sort : forall A : Type, (A -> A -> bool) -> list A -> list A;
  std_sort_perm : forall A (cmp : A -> A -> bool) l, Permutation (std_sort A cmp l) l;
  std_sort_sorted : forall A (cmp : A -> A -> bool) l, strict_weak cmp l ->
    StronglySorted (not_before cmp) (std_sort A cmp l) }.
Arguments std_sort {_ _} _ _.

(** ** State *)
Record LinkSelector := mkSelector {
  mode_ : Z; primary_channel_id_ : Z;
  (** a 64-bit [size_t] *)
  probe_rotation_ : Z }.
Definition LinkSelector_init : LinkSelector := mkSelector ZFGW_MULTIPATH_WEIGHTED 0 0.
Definition setMode (m : Z) (s : LinkSelector) : LinkSelector :=
  mkSelector m (primary_channel_id_ s) (probe_rotation_ s).
Definition setPrimaryChannel (id : Z) (s : LinkSelector) : LinkSelector :=
  mkSelector (mode_ s) id (probe_rotation_ s).

(** ** Selection *)
Record Entry := mkEntry { e_id : Z; e_weight : double }.

Definition link_weight (c : IFgwChannel) : double :=
  let q := quality_ c in
  let rtt := if q_rtt_ms q =? 0 then Double.of_Z 50 else Double.of_Z (q_rtt_ms q) in
  let loss := q_loss_rate q in
  let loss := if Double.ltb loss Double.zero then Double.zero else loss in
  let max_loss := Double.div (Double.of_Z 99) (Double.of_Z 100) in
  let loss := if Double.gtb loss max_loss then max_loss else loss in
  Double.div (Double.of_Z (priority_ c))
    (Double.mul rtt (Double.add (Double.of_Z 1) (Double.mul (Double.of_Z 10) loss))).

Definition by_weight (a b : Entry) : bool := Double.gtb (e_weight a) (e_weight b).

Definition entry_of (c : IFgwChannel) : Entry := mkEntry (channel_id_ c) (link_weight c).

(** The index of the first entry with identifier [want]. *)
Fixpoint index_of (want : Z) (l : list Entry) : option nat :=
  match l with
  | [] => None
  | e :: l' => if e_id e =? want then Some O else option_map S (index_of want l')
  end.

Section select.
Context {sort : StdSort}.

Definition rank (pool : list IFgwChannel) : list Entry :=
  std_sort by_weight (map entry_of (List.filter isLive pool)).

Definition id_at (ranked : list Entry) (i : nat) : Z := e_id (nth i ranked (mkEntry 0 Double.zero)).

(** [select(pool)]: the identifiers, and the selector with its probe counter moved. *)
Definition select (pool : list IFgwChannel) (s : LinkSelector) : list Z * LinkSelector :=
  match pool with
  | [] => ([], s)
  | _ =>
    let ranked := rank pool in
    if mode_ s =? ZFGW_MULTIPATH_BEST then
      (match ranked with [] => [] | e :: _ => [e_id e] end, s)
    else if mode_ s =? ZFGW_MULTIPATH_ALL then (map e_id ranked, s)
    else
      match ranked with
      | [] => ([], s)
      | _ =>
        let want := primary_channel_id_ s in
        let primary_idx :=
          if want =? 0 then O else default O (index_of want ranked) in
        let out := [id_at ranked primary_idx] in
        if (1 <? length ranked)%nat then
          let others := zlen ranked - 1 in
          let r := Z.to_nat (probe_rotation_ s mod others) in
          let idx := if (r <? primary_idx)%nat then r else S r in
          (out ++ [id_at ranked idx],
           mkSelector (mode_ s) (primary_channel_id_ s) (u64 (probe_rotation_ s + 1)))
        else (out, s)
      end
  end.
End select.

(** ** A sort: [StdSort] can be implemented *)
Section insertion.
Context {A : Type} (cmp : A -> A -> bool).
Fixpoint insert_sorted (x : A) (l : list A) : list A :=
  match l with
  | [] => [x]
  | y :: l' => if cmp y x then y :: insert_sorted x l' else x :: l
  end.
Definition insertion_sort (l : list A) : list A := fold_right insert_sorted [] l.

Lemma insert_sorted_perm x l : Permutation (insert_sorted x l) (x :: l).
Proof.
  induction l as [|y l IH]; simpl; [done|]. destruct (cmp y x); [|done].
  rewrite IH. apply perm_swap.
Qed.
Lemma insertion_sort_perm l : Permutation (insertion_sort l) l.
Proof. induction l as [|x l IH]; simpl; [done|]. by rewrite insert_sorted_perm, IH. Qed.

Lemma strict_weak_tail x l : strict_weak cmp (x :: l) -> strict_weak cmp l.
Proof. intros [Ha Ht]. split; intros; [eapply Ha | eapply (Ht _ y)]; simpl; eauto. Qed.

Lemma strict_weak_perm l k : Permutation l k -> strict_weak cmp l -> strict_weak cmp k.
Proof.
  intros Hp [Ha Ht]. assert (Hin : forall x, In x k -> In x l)
    by (intros x; apply Permutation_in; by symmetry).
  split; intros; [eapply Ha | eapply (Ht _ y)]; auto.
Qed.

Lemma insert_sorted_sorted x l : strict_weak cmp (x :: l) ->
  StronglySorted (not_before cmp) l -> StronglySorted (not_before cmp) (insert_sorted x l).
Proof.
  intros Hw Hs. induction Hs as [|y l Hs IH Hall]; simpl; [repeat constructor|].
  destruct (cmp y x) eqn:Hyx.
  - constructor.
    + apply IH. eapply strict_weak_perm in Hw; [|apply perm_swap]. by eapply strict_weak_tail.
    + apply List.Forall_forall. intros z Hz.
      apply (Permutation_in _ (insert_sorted_perm x l)) in Hz as [->|Hz].
      * apply (proj1 Hw); simpl; auto.
      * rewrite List.Forall_forall in Hall. auto.
  - constructor; [by constructor|]. constructor; [done|].
    rewrite List.Forall_forall in Hall |- *. intros z Hz. unfold not_before in *.
    eapply (proj2 Hw x y z); simpl; auto.
Qed.
Lemma insertion_sort_sorted l : strict_weak cmp l ->
  StronglySorted (not_before cmp) (insertion_sort l).
Proof.
  induction l as [|x l IH]; intros Hw; simpl; [constructor|].
  apply insert_sorted_sorted; [|by eapply IH, strict_weak_tail].
  eapply strict_weak_perm; [|exact Hw]. by rewrite insertion_sort_perm.
Qed.
End insertion.

Definition insertion_std_sort : StdSort := {|
  std_sort A := insertion_sort;
  std_sort_perm A := insertion_sort_perm;
  std_sort_sorted A := insertion_sort_sorted |}.

(** ** Specification vocabulary *)

(** Consecutive selections, one per pool. *)
Fixpoint selects {sort : StdSort} (pools : list (list IFgwChannel)) (s : LinkSelector)
    : list (list Z) * LinkSelector :=
  match pools with
  | [] => ([], s)
  | p :: ps => let '(out, s) := select p s in
               let '(outs, s) := selects ps s in (out :: outs, s)
  end.

(** The measurements of a channel are in range; nothing in the program writes
    [loss_rate], which stays at its initial 0.0. *)
Record weighable (c : IFgwChannel) : Prop := {
  w_priority : 0 <= priority_ c < 2 ^ 32;
  w_rtt : 0 <= q_rtt_ms (quality_ c) < 2 ^ 32;
  w_loss : q_loss_rate (quality_ c) = Double.zero }.

Definition live_ids (pool : list IFgwChannel) : list Z := map channel_id_ (List.filter isLive pool).

(** The link the peer recommended can lead: some mode but BEST, and it is live. *)
Definition usable_primary (pool : list IFgwChannel) (s : LinkSelector) : bool :=
  negb (mode_ s =? ZFGW_MULTIPATH_BEST) && negb (primary_channel_id_ s =? 0) &&
  existsb (Z.eqb (primary_channel_id_ s)) (live_ids pool).

(** ** Weights *)
Lemma link_weight_nonneg c : weighable c -> nonneg (link_weight c) = true.
Proof.
  intros [Hp Hr Hl]. unfold link_weight. rewrite Hl.
  change (Double.ltb Double.zero Double.zero) with false. cbv iota.
  replace (Double.gtb Double.zero (Double.div (Double.of_Z 99) (Double.of_Z 100))) with false
    by reflexivity. cbv iota.
  replace (Double.add (Double.of_Z 1) (Double.mul (Double.of_Z 10) Double.zero))
    with (Double.of_Z 1) by reflexivity.
  set (rtt := if q_rtt_ms _ =? 0 then _ else _).
  assert (Hrtt : exists q e, rtt = S754_finite false q e /\ 1 <= mag q e <= 33 /\ e <= 900).
  { unfold rtt. destruct (Z.eqb_spec (q_rtt_ms (quality_ c)) 0); apply of_Z_finite; lia. }
  destruct Hrtt as (q & e & -> & Hmag & He).
  destruct (of_Z_finite 1) as (q1 & e1 & -> & Hmag1 & He1); [lia|].
  destruct (mul_finite q e q1 e1) as (q2 & e2 & -> & _); [lia | | ].
  { unfold mag in *. lia. }
  apply div_nonneg. by apply of_Z_nonneg.
Qed.

Lemma by_weight_strict_weak (cs : list IFgwChannel) :
  Forall weighable cs -> strict_weak by_weight (map entry_of cs).
Proof.
  intros Hw. assert (Hn : forall e, In e (map entry_of cs) -> is_nan (e_weight e) = false).
  { intros e (c & <- & Hc)%in_map_iff. rewrite List.Forall_forall in Hw.
    apply nonneg_not_nan, link_weight_nonneg. auto. }
  split; unfold by_weight; intros; [apply gtb_asym | eapply (gtb_false_trans _ (e_weight y))]; auto.
Qed.

Section facts.
Context {sort : StdSort}.

Lemma rank_perm pool : Permutation (rank pool) (map entry_of (List.filter isLive pool)).
Proof. apply std_sort_perm. Qed.

Lemma rank_ids pool : Permutation (map e_id (rank pool)) (live_ids pool).
Proof. rewrite rank_perm, map_map. done. Qed.

Lemma rank_length pool : length (rank pool) = length (live_ids pool).
Proof. by rewrite <- (Permutation_length (rank_ids pool)), length_map. Qed.

Lemma rank_nil : rank [] = [].
Proof. apply length_zero_iff_nil. by rewrite rank_length. Qed.

Lemma rank_sorted pool : Forall weighable pool ->
  StronglySorted (not_before by_weight) (rank pool).
Proof.
  intros Hw. apply std_sort_sorted, by_weight_strict_weak.
  apply List.Forall_forall. intros c [Hc _]%filter_In. rewrite List.Forall_forall in Hw. auto.
Qed.

Lemma id_at_In ranked i : (i < length ranked)%nat -> In (id_at ranked i) (map e_id ranked).
Proof. intros. unfold id_at. by apply in_map, nth_In. Qed.

Lemma id_at_inj ranked i j : List.NoDup (map e_id ranked) ->
  (i < length ranked)%nat -> (j < length ranked)%nat -> id_at ranked i = id_at ranked j -> i = j.
Proof.
  intros Hnd Hi Hj Heq.
  apply (proj1 (NoDup_nth (map e_id ranked) (e_id (mkEntry 0 Double.zero))) Hnd);
    [by rewrite length_map.. |]. rewrite !(map_nth e_id). exact Heq.
Qed.

Lemma index_of_Some want l i : index_of want l = Some i ->
  (i < length l)%nat /\ id_at l i = want.
Proof.
  revert i. induction l as [|e l IH]; intros i; simpl; [done|].
  destruct (Z.eqb_spec (e_id e) want); [intros [= <-]; split; [lia | done]|].
  destruct (index_of want l) as [j|]; [|done]. intros [= <-].
  destruct (IH j eq_refl). split; [lia | done].
Qed.
Lemma index_of_In want l : In want (map e_id l) -> exists i, index_of want l = Some i.
Proof.
  induction l as [|e l IH]; simpl; [done|].
  destruct (Z.eqb_spec (e_id e) want); [eauto|]. intros [?|Hin]; [done|].
  destruct (IH Hin) as [i ->]. simpl. eauto.
Qed.

(** The position [select] starts from, and the position of the probe. *)
Definition primary_pos (ranked : list Entry) (want : Z) : nat :=
  if want =? 0 then O else default O (index_of want ranked).
Definition probe_pos (n primary : nat) (rot : Z) : nat :=
  let r := Z.to_nat (rot mod (Z.of_nat n - 1)) in if (r <? primary)%nat then r else S r.

Lemma primary_pos_lt ranked want : ranked <> [] -> (primary_pos ranked want < length ranked)%nat.
Proof.
  intros Hne. assert (0 < length ranked)%nat by (destruct ranked; [done | simpl; lia]).
  unfold primary_pos. destruct (want =? 0); [done|].
  destruct (index_of want ranked) eqn:Hi; simpl; [|done]. apply index_of_Some in Hi. tauto.
Qed.
Lemma probe_pos_spec n primary rot : (1 < n)%nat -> (primary < n)%nat ->
  (probe_pos n primary rot < n)%nat /\ probe_pos n primary rot <> primary.
Proof.
  intros Hn Hp. unfold probe_pos. pose proof (Z.mod_pos_bound rot (Z.of_nat n - 1) ltac:(lia)).
  destruct (Nat.ltb_spec (Z.to_nat (rot mod (Z.of_nat n - 1))) primary); lia.
Qed.

(** [select] in the default mode, by positions in the ranking. *)
Lemma select_weighted pool s :
  mode_ s <> ZFGW_MULTIPATH_BEST -> mode_ s <> ZFGW_MULTIPATH_ALL ->
  let ranked := rank pool in
  let p := primary_pos ranked (primary_channel_id_ s) in
  select pool s =
  match length ranked with
  | O => ([], s)
  | 1%nat => ([id_at ranked p], s)
  | n => ([id_at ranked p; id_at ranked (probe_pos n p (probe_rotation_ s))],
          mkSelector (mode_ s) (primary_channel_id_ s) (u64 (probe_rotation_ s + 1)))
  end.
Proof.
  intros Hb Ha ranked p. unfold select. fold ranked.
  destruct pool as [|c pool]; [|].
  { replace (length ranked) with O; [done|]. symmetry.
    change (length ranked) with (length (rank [])). by rewrite rank_length. }
  destruct (Z.eqb_spec (mode_ s) ZFGW_MULTIPATH_BEST); [done|].
  destruct (Z.eqb_spec (mode_ s) ZFGW_MULTIPATH_ALL); [done|].
  fold (primary_pos ranked (primary_channel_id_ s)). fold p.
  clearbody p. destruct ranked as [|e [|e' l]]; [done..|].
  change (1 <? length (e :: e' :: l))%nat with true. cbv iota.
  unfold probe_pos, zlen. done.
Qed.

Lemma live_ids_NoDup pool : List.NoDup (map channel_id_ pool) -> List.NoDup (live_ids pool).
Proof.
  unfold live_ids. induction pool as [|c pool IH]; simpl; [done|].
  intros Hnd. apply List.NoDup_cons_iff in Hnd as [Hnin Hnd]. destruct (isLive c); simpl; [|auto].
  constructor; [|auto]. intros (c' & Heq & [Hin _]%filter_In)%in_map_iff.
  apply Hnin, in_map_iff. eauto.
Qed.

Lemma rank_NoDup pool : List.NoDup (map channel_id_ pool) -> List.NoDup (map e_id (rank pool)).
Proof.
  intros Hnd. eapply Permutation_NoDup; [symmetry; apply rank_ids | by apply live_ids_NoDup].
Qed.

(** The head of the ranking belongs to a live link none outweighs. *)
Lemma rank_head pool e l : Forall weighable pool -> rank pool = e :: l ->
  exists c, In c pool /\ isLive c = true /\ channel_id_ c = e_id e /\
    forall c', In c' pool -> isLive c' = true -> Double.gtb (link_weight c') (link_weight c) = false.
Proof.
  intros Hw Hr. pose proof (rank_sorted pool Hw) as Hs. pose proof (rank_perm pool) as Hp.
  rewrite Hr in Hs, Hp. inversion Hs as [|? ? _ Hall]; subst.
  assert (Hin : In e (map entry_of (List.filter isLive pool)))
    by (eapply Permutation_in; [exact Hp | by left]).
  apply in_map_iff in Hin as (c & <- & [Hin Hl]%filter_In).
  exists c. split_and!; try done. intros c' Hin' Hl'.
  assert (Hc' : In (entry_of c') (entry_of c :: l)).
  { eapply Permutation_in; [symmetry; exact Hp|]. apply in_map, filter_In. auto. }
  rewrite List.Forall_forall in Hall. destruct Hc' as [Heq | Hc']; [|exact (Hall _ Hc')].
  injection Heq as _ ->. destruct (Double.gtb (link_weight c') (link_weight c')) eqn:E; [|done].
  assert (Hn : is_nan (link_weight c') = false).
  { apply nonneg_not_nan, link_weight_nonneg. rewrite List.Forall_forall in Hw. auto. }
  rewrite <- E. by apply gtb_asym.
Qed.
End facts.

(** ** Rotation of the probe *)
Lemma probe_pos_inj n p r r' : (1 < n)%nat ->
  probe_pos n p r = probe_pos n p r' ->
  Z.to_nat (r mod (Z.of_nat n - 1)) = Z.to_nat (r' mod (Z.of_nat n - 1)).
Proof.
  intros Hn. unfold probe_pos.
  generalize (Z.to_nat (r mod (Z.of_nat n - 1))) (Z.to_nat (r' mod (Z.of_nat n - 1))).
  intros a b. destruct (Nat.ltb_spec a p), (Nat.ltb_spec b p); lia.
Qed.

Section rotation.
Context {sort : StdSort}.

(** With an unchanging ranking, the successive selections use the same primary
    and the successive values of the probe counter. *)
Lemma selects_run pools s ranked (n := length ranked) p :
  mode_ s <> ZFGW_MULTIPATH_BEST -> mode_ s <> ZFGW_MULTIPATH_ALL ->
  (1 < n)%nat -> primary_pos ranked (primary_channel_id_ s) = p ->
  Forall (fun pool => rank pool = ranked) pools ->
  0 <= probe_rotation_ s -> probe_rotation_ s + zlen pools < 2 ^ 64 ->
  fst (selects pools s) =
  map (fun i : nat => [id_at ranked p;
                 id_at ranked (probe_pos n p (probe_rotation_ s + Z.of_nat i))])
      (seq 0 (length pools)).
Proof.
  intros Hb Ha Hn Hp Hall. revert s Hb Ha Hp. induction Hall as [|pool pools Hr Hall IH];
    intros s Hb Ha Hp H0 Hmax; [done|].
  cbn [selects]. rewrite (select_weighted pool s Hb Ha), Hr, Hp.
  unfold n in Hn |- *. destruct (length ranked) as [|[|m]] eqn:Hlen; [lia.. |].
  rewrite zlen_cons in Hmax. assert (Hu : u64 (probe_rotation_ s + 1) = probe_rotation_ s + 1).
  { unfold u64. apply Z.mod_small. unfold zlen in *. lia. }
  rewrite Hu. set (s' := mkSelector _ _ _).
  specialize (IH s' Hb Ha Hp ltac:(simpl; lia) ltac:(simpl; lia)).
  destruct (selects pools s') as [outs s'']. cbn [fst] in IH |- *. rewrite IH.
  cbn [length seq map]. f_equal; [by rewrite Z.add_0_r|].
  rewrite <- seq_shift, map_map. apply map_ext. intros i.
  cbn [probe_rotation_ s']. do 4 f_equal. lia.
Qed.
End rotation.

(** Outside BEST and ALL the selection starts at the primary position. *)
Lemma select_head {sort : StdSort} pool s :
  mode_ s <> ZFGW_MULTIPATH_BEST -> mode_ s <> ZFGW_MULTIPATH_ALL -> rank pool <> [] ->
  exists rest, fst (select pool s) =
    id_at (rank pool) (primary_pos (rank pool) (primary_channel_id_ s)) :: rest.
Proof.
  intros Hb Ha Hr. rewrite (select_weighted pool s Hb Ha).
  destruct (rank pool) as [|e [|e' l]]; [done | by eexists..].
Qed.
(** ... which is the recommended link while that is live. *)
Lemma select_primary {sort : StdSort} pool s :
  mode_ s <> ZFGW_MULTIPATH_BEST -> mode_ s <> ZFGW_MULTIPATH_ALL ->
  primary_channel_id_ s <> 0 -> In (primary_channel_id_ s) (live_ids pool) ->
  exists rest, fst (select pool s) = primary_channel_id_ s :: rest.
Proof.
  intros Hb Ha H0 Hin. assert (Hin' : In (primary_channel_id_ s) (map e_id (rank pool)))
    by (eapply Permutation_in; [symmetry; apply rank_ids | done]).
  destruct (select_head pool s Hb Ha) as [rest Hs]; [by destruct (rank pool)|]. exists rest. rewrite Hs.
  f_equal. destruct (index_of_In _ _ Hin') as [i Hi]. destruct (index_of_Some _ _ _ Hi) as [_ Hat].
  unfold primary_pos. destruct (Z.eqb_spec (primary_channel_id_ s) 0); [done|]. by rewrite Hi.
Qed.

(** What a selection promises. *)
Record pick (mode : Z) (pool : list IFgwChannel) (out : list Z) : Prop := {
  pk_once : List.NoDup out;
  pk_live : incl out (live_ids pool);
  pk_all : mode = ZFGW_MULTIPATH_ALL -> Permutation out (live_ids pool);
  pk_best : mode = ZFGW_MULTIPATH_BEST -> length out = Nat.min 1 (length (live_ids pool));
  pk_two : mode <> ZFGW_MULTIPATH_BEST -> mode <> ZFGW_MULTIPATH_ALL ->
           length out = Nat.min 2 (length (live_ids pool)) }.

Lemma select_pick {sort : StdSort} (pool : list IFgwChannel) (s : LinkSelector) :
  List.NoDup (map channel_id_ pool) -> pick (mode_ s) pool (fst (select pool s)).
Proof.
  intros Hids. set (out := fst (select pool s)). set (n := length (live_ids pool)). pose proof (rank_NoDup pool Hids) as Hnd. pose proof (rank_ids pool) as Hp.
  assert (Hin : forall i, In i (map e_id (rank pool)) -> In i (live_ids pool))
    by (intros i; apply Permutation_in, Hp).
  pose proof (rank_length pool) as Hlen. fold n in Hlen.
  enough (List.NoDup out /\ incl out (live_ids pool) /\
    (mode_ s = ZFGW_MULTIPATH_ALL -> Permutation out (live_ids pool)) /\
    (mode_ s = ZFGW_MULTIPATH_BEST -> length out = Nat.min 1 n) /\
    (mode_ s <> ZFGW_MULTIPATH_BEST -> mode_ s <> ZFGW_MULTIPATH_ALL -> length out = Nat.min 2 n))
    by (constructor; tauto).
  destruct (Z.eq_dec (mode_ s) ZFGW_MULTIPATH_BEST) as [Hb|Hb]; [|destruct (Z.eq_dec (mode_ s) ZFGW_MULTIPATH_ALL) as [Ha|Ha]].
  - assert (Ho : out = match rank pool with [] => [] | e :: _ => [e_id e] end).
    { unfold out, select. destruct pool; [by rewrite rank_nil | by rewrite Hb]. }
    rewrite Ho, Hb. destruct (rank pool) as [|e l]; simpl in *.
    + split_and!; try done; try (by rewrite <- Hlen).
    + split_and!; try done; try (by rewrite <- Hlen); [repeat constructor; by intros []|].
      intros ? [<-|[]]; auto.
  - assert (Ho : out = map e_id (rank pool)).
    { unfold out, select. destruct pool; [by rewrite rank_nil | by rewrite Ha]. }
    rewrite Ho, Ha. split_and!; try done.
  - unfold out. rewrite (select_weighted pool s Hb Ha).
    pose proof (primary_pos_lt (rank pool) (primary_channel_id_ s)) as Hpos.
    destruct (length (rank pool)) as [|[|m]] eqn:Hl; cbn [fst]; rewrite <- Hlen.
    + split_and!; try done; [apply List.NoDup_nil | apply incl_nil_l].
    + split_and!; try done; [repeat constructor; by intros []|].
      intros ? [<-|[]]. apply Hin, id_at_In. rewrite Hl. apply Hpos. by destruct (rank pool).
    + destruct (probe_pos_spec (S (S m)) (primary_pos (rank pool) (primary_channel_id_ s))
        (probe_rotation_ s)) as [Hq Hne]; [lia | apply Hpos; by destruct (rank pool) |].
      split_and!; try done.
      * repeat constructor; [|by intros []]. intros [He|[]].
        apply id_at_inj in He; [lia | done | lia | rewrite Hl; apply Hpos; by destruct (rank pool)].
      * intros ? [<-|[<-|[]]]; apply Hin, id_at_In; rewrite Hl; [|lia].
        apply Hpos. by destruct (rank pool).
Qed.

(** ** Properties *)

Lemma pick_nonempty mode pool out : pick mode pool out -> live_ids pool <> [] -> out <> [].
Proof.
  intros [_ _ Ha Hb Ht] Hne ->. destruct (live_ids pool) as [|i l] eqn:Hl; [done|].
  destruct (Z.eq_dec mode ZFGW_MULTIPATH_BEST) as [E|]; [by specialize (Hb E)|].
  destruct (Z.eq_dec mode ZFGW_MULTIPATH_ALL) as [E|]; [|by specialize (Ht ltac:(done) ltac:(done))].
  by apply Permutation_nil in Ha.
Qed.
Lemma pick_none mode pool out : pick mode pool out -> live_ids pool = [] -> out = [].
Proof. intros [_ Hin _ _ _] Hl. rewrite Hl in Hin. by apply incl_l_nil. Qed.
Lemma select_mode {sort : StdSort} pool s : mode_ (snd (select pool s)) = mode_ s.
Proof. unfold select. by repeat case_match. Qed.

(** C22. The selected identifiers are live links of the pool, each once, and there
    are as many as the mode asks for: one for BEST, every live link for ALL, and
    two (or all there are) for the default dual-send. *)
Theorem select_sound {sort : StdSort} (pool : list IFgwChannel) (s : LinkSelector)
    (Hids : List.NoDup (map channel_id_ pool)) :
  let out := fst (select pool s) in
  let n := length (live_ids pool) in
  List.NoDup out /\ incl out (live_ids pool) /\
  (mode_ s = ZFGW_MULTIPATH_ALL -> Permutation out (live_ids pool)) /\
  (mode_ s = ZFGW_MULTIPATH_BEST -> length out = Nat.min 1 n) /\
  (mode_ s <> ZFGW_MULTIPATH_BEST -> mode_ s <> ZFGW_MULTIPATH_ALL -> length out = Nat.min 2 n).
Proof.
  intros out n. by destruct (select_pick pool s Hids).
Qed.

Lemma length_0_live {sort : StdSort} pool : rank pool = [] -> live_ids pool = [].
Proof. intros H. apply length_zero_iff_nil. by rewrite <- rank_length, H. Qed.

(** C23. What leads the selection: the link the peer recommended while it is
    live, and otherwise (and always in BEST mode) a live link that no live link
    outweighs. *)
Theorem select_leads {sort : StdSort} (pool : list IFgwChannel) (s : LinkSelector)
    (Hw : Forall weighable pool) (Hlive : live_ids pool <> [])
    (Ha : mode_ s <> ZFGW_MULTIPATH_ALL) :
  exists c rest, fst (select pool s) = channel_id_ c :: rest /\ In c pool /\ isLive c = true /\
    (if usable_primary pool s
     then channel_id_ c = primary_channel_id_ s
     else forall c', In c' pool -> isLive c' = true ->
            Double.gtb (link_weight c') (link_weight c) = false).
Proof.
  destruct (rank pool) as [|e l] eqn:Hr; [by apply length_0_live in Hr|].
  destruct (rank_head pool e l Hw Hr) as (c & Hc & Hl & Hid & Hmax).
  destruct (Z.eq_dec (mode_ s) ZFGW_MULTIPATH_BEST) as [Hb|Hb].
  { exists c, []. unfold usable_primary. rewrite Hb. split_and!; try done.
    unfold select. destruct pool; [done|]. rewrite Hb, Hr. simpl. by rewrite Hid. }
  assert (Hu : usable_primary pool s = true <->
    primary_channel_id_ s <> 0 /\ In (primary_channel_id_ s) (live_ids pool)).
  { unfold usable_primary. destruct (Z.eqb_spec (mode_ s) ZFGW_MULTIPATH_BEST); [done|].
    destruct (Z.eqb_spec (primary_channel_id_ s) 0); [split; [done | tauto]|]. simpl.
    rewrite existsb_exists. split; [intros (x & Hx & Heq%Z.eqb_eq); split; [done | by rewrite Heq]|].
    intros [_ Hin]. exists (primary_channel_id_ s). by rewrite Z.eqb_refl. }
  destruct (usable_primary pool s) eqn:Hd.
  - destruct (proj1 Hu eq_refl) as [H0 Hin]. destruct (select_primary pool s Hb Ha H0 Hin) as [rest Hs].
    apply in_map_iff in Hin as (c' & Hc' & [Hin' Hl']%filter_In).
    exists c', rest. by rewrite Hs, Hc'.
  - destruct (select_head pool s Hb Ha) as [rest Hs]; [by rewrite Hr|]. rewrite Hs, Hr.
    replace (primary_pos (e :: l) (primary_channel_id_ s)) with O; [exists c, rest; by rewrite Hid|].
    unfold primary_pos. destruct (Z.eqb_spec (primary_channel_id_ s) 0) as [|H0]; [done|].
    destruct (index_of (primary_channel_id_ s) (e :: l)) as [i|] eqn:Hi; [|done]. exfalso.
    destruct (index_of_Some _ _ _ Hi) as [Hlt Hat]. enough (false = true) by done.
    apply Hu. split; [done|]. eapply Permutation_in; [apply rank_ids|].
    rewrite Hr, <- Hat. by apply id_at_In.
Qed.

(** C30. The probe of the default mode rotates over every other link: while the
    measurements stand still, any [n - 1] consecutive selections among [n] live
    links keep one primary and probe each of the other links exactly once
    (before the 64-bit counter wraps). *)
Theorem probe_rotation {sort : StdSort} (pools : list (list IFgwChannel)) (s : LinkSelector)
    (es : list Entry) (ids := map e_id es)
    (Hb : mode_ s <> ZFGW_MULTIPATH_BEST) (Ha : mode_ s <> ZFGW_MULTIPATH_ALL)
    (Hstill : Forall (fun pool => map entry_of (List.filter isLive pool) = es) pools)
    (Hids : List.NoDup ids) (Hn : (1 < length ids)%nat)
    (Hround : length pools = (length ids - 1)%nat)
    (Hrot : 0 <= probe_rotation_ s) (Hmax : probe_rotation_ s + zlen pools < 2 ^ 64) :
  exists primary probes,
    fst (selects pools s) = map (fun q => [primary; q]) probes /\
    Permutation (primary :: probes) ids.
Proof.
  set (ranked := std_sort by_weight es).
  assert (Hperm : Permutation (map e_id ranked) ids) by (unfold ids, ranked; by rewrite std_sort_perm).
  assert (Hlen : length ranked = length ids).
  { by rewrite <- (Permutation_length Hperm), length_map. }
  assert (Hnd : List.NoDup (map e_id ranked)) by (eapply Permutation_NoDup; [symmetry; exact Hperm | done]).
  set (p := primary_pos ranked (primary_channel_id_ s)).
  assert (Hp : (p < length ranked)%nat) by (apply primary_pos_lt; by destruct ranked; [simpl in Hlen; lia|]).
  set (pos := fun i : nat => probe_pos (length ranked) p (probe_rotation_ s + Z.of_nat i)).
  assert (Hpos : forall i, (pos i < length ranked)%nat /\ pos i <> p)
    by (intros i; apply probe_pos_spec; lia).
  exists (id_at ranked p), (map (fun i => id_at ranked (pos i)) (seq 0 (length pools))). split.
  { rewrite map_map. apply (selects_run pools s ranked p); try done; [lia|].
    eapply List.Forall_impl; [|exact Hstill]. intros pool Hes. unfold rank. by rewrite Hes. }
  rewrite <- Hperm. apply NoDup_Permutation_bis.
  - constructor.
    + intros (i & Heq & _)%in_map_iff. destruct (Hpos i) as [Hlt Hne].
      apply Hne. by apply id_at_inj in Heq.
    + apply NoDup_map_inj; [apply seq_NoDup|]. intros i j Hi%in_seq Hj%in_seq Heq.
      apply id_at_inj in Heq; [|done|apply Hpos..]. apply probe_pos_inj in Heq; [|lia].
      apply Z2Nat.inj in Heq; [|apply Z.mod_pos_bound; lia..].
      apply mod_run_inj in Heq; lia.
  - simpl. rewrite !length_map, length_seq. lia.
  - intros x [<-|(i & <- & _)%in_map_iff]; apply id_at_In; [done | apply Hpos].
Qed.

(** ** Witnesses *)
Definition example_chan (id priority rtt : Z) : IFgwChannel :=
  setRttMs rtt (fst (markConnected true 7 (new_channel ZFGW_CHANNEL_TCP id priority))).
Definition example_pool : list IFgwChannel :=
  [example_chan 1 100 40; example_chan 2 100 0; markStalled true (example_chan 3 900 10);
   example_chan 4 300 200; example_chan 5 100 90].
Definition example_selector : LinkSelector := setPrimaryChannel 4 LinkSelector_init.

Lemma example_pool_weighable : Forall weighable example_pool.
Proof. repeat constructor; simpl; lia. Qed.

Lemma select_sound_witness :
  fst (select (sort := insertion_std_sort) example_pool example_selector) = [4; 1] /\
  List.NoDup (fst (select (sort := insertion_std_sort) example_pool example_selector)).
Proof.
  split; [vm_compute; reflexivity|].
  refine (proj1 (select_sound (sort := insertion_std_sort) example_pool example_selector _)).
  simpl. repeat constructor; simpl; lia.
Defined.

Lemma select_leads_witness :
  usable_primary example_pool example_selector = true /\
  exists c rest, fst (select (sort := insertion_std_sort) example_pool example_selector) =
    channel_id_ c :: rest /\ channel_id_ c = 4.
Proof.
  split; [reflexivity|].
  destruct (select_leads (sort := insertion_std_sort) example_pool example_selector
    example_pool_weighable) as (c & rest & H & _ & _ & Hp); [done | done |].
  exists c, rest. exact (conj H Hp).
Defined.

Lemma probe_rotation_witness : exists primary probes,
  fst (selects (sort := insertion_std_sort) [example_pool; example_pool; example_pool]
         example_selector) = map (fun q => [primary; q]) probes /\
  Permutation (primary :: probes) [1; 2; 4; 5].
Proof.
  refine (probe_rotation (sort := insertion_std_sort) _ example_selector
    (map entry_of (List.filter isLive example_pool)) _ _ _ _ _ _ _ _).
  - discriminate.
  - discriminate.
  - repeat constructor.
  - rewrite map_map. simpl. repeat constructor; simpl; lia.
  - simpl. lia.
  - reflexivity.
  - simpl. lia.
  - vm_compute. reflexivity.
Defined.
