(* ===== verification/Links.v ===== *)
(** * Links: the part of [ChannelManager] that data streams share

    The channels are objects reached through pointers: by the manager's map, by
    the callbacks that hand bytes to the streams and by the snapshots
    [liveChannels()] returns.  A pointer is an address into a heap of channel
    objects; an object stays in the heap while something refers to it. *)
From S2P Require Import Prelude Proto OMap Channel Selector.

(** ** State *)
Record Links := mkLinks {
  (** the channel objects, by address *)
  heap_ : gmap Z IFgwChannel;
  (** [channels_]: channel id to address *)
  channels_ : omap Z;
  selector_ : LinkSelector;
  (** what has been written to the sockets, in order *)
  wire_ : list (Z * bytes) }.

Definition set_heap (h : gmap Z IFgwChannel) (l : Links) : Links :=
  mkLinks h (channels_ l) (selector_ l) (wire_ l).
Definition set_channels (m : omap Z) (l : Links) : Links :=
  mkLinks (heap_ l) m (selector_ l) (wire_ l).
Definition set_selector (s : LinkSelector) (l : Links) : Links :=
  mkLinks (heap_ l) (channels_ l) s (wire_ l).
Definition set_wire (w : list (Z * bytes)) (l : Links) : Links :=
  mkLinks (heap_ l) (channels_ l) (selector_ l) w.

(** A dangling address reads as a channel that was never connected. *)
Definition chan (l : Links) (a : Z) : IFgwChannel :=
  default (new_channel ZFGW_CHANNEL_TCP 0 0) (heap_ l !! a).
Definition upd_chan (a : Z) (f : IFgwChannel -> IFgwChannel) (l : Links) : Links :=
  set_heap (alter f a (heap_ l)) l.

(** ** Operations *)

(** [liveChannels()], in the order of the ids. *)
Definition liveChannels (l : Links) : list Z :=
  List.filter (fun a => isLive (chan l a)) (map snd (channels_ l)).

(** [findChannel(channel_id)]. *)
Definition findChannel (id : Z) (l : Links) : option Z := om_find id (channels_ l).

Section ops.
Context {T : Transport} {sort : StdSort}.

(** [selector().select(live)]. *)
Definition select_links (live : list Z) (l : Links) : list Z * Links :=
  let '(ids, s) := select (map (chan l) live) (selector_ l) in (ids, set_selector s l).

(** [ch->sendBytes(buf, len)] for the channel at [a]. *)
Definition send_on (a : Z) (buf : bytes) (l : Links) : Z * Links :=
  let '(ret, c, w) := sendBytes buf (wire_ l) (chan l a) in
  (ret, set_wire w (upd_chan a (fun _ => c) l)).

(** [std::find_if(live, p->channelId() == id)]. *)
Definition find_live (id : Z) (live : list Z) (l : Links) : option Z :=
  List.find (fun a => channel_id_ (chan l a) =? id) live.

(** The sending loop of a segment: one copy per selected id, [first] while at the
    first id, whose return code counts. *)
Fixpoint send_copies (buf : bytes) (live : list Z) (first : bool) (ids : list Z) (best : Z)
    (l : Links) : Z * Links :=
  match ids with
  | [] => (best, l)
  | id :: ids =>
    match find_live id live l with
    | None => send_copies buf live false ids best l
    | Some a =>
      let '(ret, l) := send_on a buf l in
      let best := if (0 <? ret) && first then ret else best in
      send_copies buf live false ids best l
    end
  end.

(** The loop of [emitFeedback] and of the heartbeat: every channel of [as_]. *)
Fixpoint send_all (buf : bytes) (as_ : list Z) (l : Links) : Links :=
  match as_ with
  | [] => l
  | a :: as_ => send_all buf as_ (snd (send_on a buf l))
  end.
End ops.

(** ** Facts *)

(** The links a sender can use: ids are keys, each address holds the channel of
    that id, and no address is listed twice. *)
Record links_ok (l : Links) : Prop := {
  lk_sorted : om_ok (channels_ l);
  lk_ids : forall id a, In (id, a) (channels_ l) ->
    exists c, heap_ l !! a = Some c /\ channel_id_ c = id }.

Lemma chan_upd_eq a f l c : heap_ l !! a = Some c -> chan (upd_chan a f l) a = f c.
Proof. intros H. unfold chan. simpl. by rewrite lookup_alter_eq, H. Qed.
Lemma chan_upd_ne a b f l : a <> b -> chan (upd_chan a f l) b = chan l b.
Proof. intros H. unfold chan. simpl. by rewrite lookup_alter_ne. Qed.
