(* ===== verification/DataStream.v ===== *)
(** * DataStream: multipath sessions, [src/zfgw_datastream.{h,cpp}]

    The stream multiplexes sessions over the links of the manager.  Its state, the
    links and the state of the session handlers form a [world]; an operation is a
    function on worlds.  The handlers are reached through the class
    [SessionHandler], the counterpart of the source's [ISessionHandler] interface:
    a callback returns the calls it makes back into the stream, which run at that
    point with the stream's (recursive) lock held. *)
From S2P Require Import Prelude Proto OMap Segment Pack Channel Selector Links.

(** ** State *)
Record SessionState := mkSession {
  session_id : Z; wire_ingress_id : Z;
  next_send_seq : Z; expected_rx_seq : Z;
  rx_buffer : omap bytes;
  handler : option Z;
  opened : bool; closed : bool }.
Definition new_session (sid ing : Z) (h : option Z) : SessionState :=
  mkSession sid ing 0 0 [] h false false.
Definition bump_send_seq (s : SessionState) : SessionState :=
  mkSession (session_id s) (wire_ingress_id s) (next_send_seq s +u32 1) (expected_rx_seq s)
    (rx_buffer s) (handler s) (opened s) (closed s).
Definition set_rx (e : Z) (b : omap bytes) (s : SessionState) : SessionState :=
  mkSession (session_id s) (wire_ingress_id s) (next_send_seq s) e b (handler s)
    (opened s) (closed s).

(** [SessionKey] is (ingress, session), [DedupKey] is (ingress, session, seq, kind). *)
Abbreviation SessionKey := (Z * Z)%type.
Abbreviation DedupKey := (Z * Z * Z * Z)%type.
Definition kDedupRing : Z := 4096.

Record StreamConfig := mkStreamConfig {
  local_ingress_id_ : Z; segment_size_ : Z; recv_window_ : Z; verify_crc_ : bool;
  route_outport_id_ : Z }.

Record DataStream := mkStream {
  cfg_ : StreamConfig;
  sessions_ : gmap SessionKey SessionState;
  scratch_ : gmap Z bytes;
  dedup_queue_ : list DedupKey;
  dedup_map_ : gset DedupKey;
  peer_win_count_ : omap Z; peer_part_count_ : omap Z;
  feedback_epoch_ : Z; applied_epoch_ : Z; peer_generation_ : Z;
  unknown_cb_set : bool }.

(** The constructor: the window and segment size it settles on. *)
Definition new_stream (local_ingress segment_size recv_window : Z) (verify_crc : bool)
    (route_outport : Z) : DataStream :=
  let segment_size :=
    if (segment_size =? 0) || (MAX_PAYLOAD <? segment_size) then 1200 else segment_size in
  let recv_window := if recv_window =? 0 then 1024 else recv_window in
  mkStream (mkStreamConfig local_ingress segment_size recv_window verify_crc route_outport)
    empty empty [] empty [] [] 0 0 0 false.

Definition set_sessions v d := mkStream (cfg_ d) v (scratch_ d) (dedup_queue_ d) (dedup_map_ d)
  (peer_win_count_ d) (peer_part_count_ d) (feedback_epoch_ d) (applied_epoch_ d)
  (peer_generation_ d) (unknown_cb_set d).
Definition set_scratch v d := mkStream (cfg_ d) (sessions_ d) v (dedup_queue_ d) (dedup_map_ d)
  (peer_win_count_ d) (peer_part_count_ d) (feedback_epoch_ d) (applied_epoch_ d)
  (peer_generation_ d) (unknown_cb_set d).
Definition set_dedup q m d := mkStream (cfg_ d) (sessions_ d) (scratch_ d) q m
  (peer_win_count_ d) (peer_part_count_ d) (feedback_epoch_ d) (applied_epoch_ d)
  (peer_generation_ d) (unknown_cb_set d).
Definition set_counts w p d := mkStream (cfg_ d) (sessions_ d) (scratch_ d) (dedup_queue_ d)
  (dedup_map_ d) w p (feedback_epoch_ d) (applied_epoch_ d) (peer_generation_ d)
  (unknown_cb_set d).
Definition set_epochs f a g d := mkStream (cfg_ d) (sessions_ d) (scratch_ d) (dedup_queue_ d)
  (dedup_map_ d) (peer_win_count_ d) (peer_part_count_ d) f a g (unknown_cb_set d).
Definition setUnknownSessionCallback d := mkStream (cfg_ d) (sessions_ d) (scratch_ d)
  (dedup_queue_ d) (dedup_map_ d) (peer_win_count_ d) (peer_part_count_ d)
  (feedback_epoch_ d) (applied_epoch_ d) (peer_generation_ d) true.

(** ** The session handlers *)

(** [sendSessionData(sid, data, ingress_key)] and [closeSession(sid, ingress_key)]. *)
Inductive stream_call :=
  | CallSend (sid : Z) (data : bytes) (ingress_key : Z)
  | CallClose (sid : Z) (ingress_key : Z).

Class SessionHandler (H : Type) := {
  (** the unknown-session callback: peer ingress and session id to a handler *)
  unknown_cb : Z -> Z -> H -> option Z * H;
  (** the callbacks of handler [h]; no handler of the program calls the stream
      from [onSessionOpen] *)
  onSessionOpen : Z -> Z -> H -> H;
  onSessionData : Z -> Z -> bytes -> H -> H * list stream_call;
  onSessionClose : Z -> Z -> H -> H * list stream_call }.

(** A log for stating properties: what the stream has told the handlers, and which
    sessions [closeSession] has taken out of its table. *)
Inductive upcall :=
  | UpOpen (k : SessionKey) (h : Z)
  | UpData (k : SessionKey) (h : Z) (data : bytes)
  | UpClose (k : SessionKey) (h : Z)
  | Gone (k : SessionKey).

Record world (H : Type) := mkWorld {
  w_ds : DataStream; w_net : Links; w_app : H; w_log : list upcall }.
Arguments mkWorld {_} _ _ _ _.
Arguments w_ds {_} _.
Arguments w_net {_} _.
Arguments w_app {_} _.
Arguments w_log {_} _.

(** What can happen to a stream: bytes arrive on a link, a session is opened, the
    surroundings do something - the handlers change, the manager changes the links, and
    calls are made into the stream - or feedback is due. *)
Inductive stream_step (H : Type) :=
  | StBytes (ch : Z) (buf : bytes)
  | StOpen (sid : Z) (h : option Z)
  | StEnv (f : H -> Links -> H * Links * list stream_call)
  | StFeedback.
Arguments StBytes {_} _ _.
Arguments StOpen {_} _ _.
Arguments StEnv {_} _.
Arguments StFeedback {_}.

Section stream.
Context {H : Type} {app : SessionHandler H}.
Context {rt : ZdsRuntime} {T : Transport} {sort : StdSort}.
Implicit Types (w : world H).

Definition on_ds (f : DataStream -> DataStream) w : world H :=
  mkWorld (f (w_ds w)) (w_net w) (w_app w) (w_log w).
Definition on_net (f : Links -> Links) w : world H :=
  mkWorld (w_ds w) (f (w_net w)) (w_app w) (w_log w).
Definition log (u : upcall) w : world H :=
  mkWorld (w_ds w) (w_net w) (w_app w) (w_log w ++ [u]).
Definition set_app (h : H) w : world H := mkWorld (w_ds w) (w_net w) h (w_log w).

Definition cfg w : StreamConfig := cfg_ (w_ds w).
Definition find_session (k : SessionKey) w : option SessionState := sessions_ (w_ds w) !! k.
Definition put_session (k : SessionKey) (s : SessionState) : world H -> world H :=
  on_ds (fun d => set_sessions (<[k := s]> (sessions_ d)) d).
Definition erase_session (k : SessionKey) : world H -> world H :=
  on_ds (fun d => set_sessions (delete k (sessions_ d)) d).

Definition resolveIngressKey w (key_arg : Z) : Z :=
  if key_arg =? kFgwWireIngressUseLocal then local_ingress_id_ (cfg w) else key_arg.

(** ** Sending *)
Definition sendSegment (wire_ingress session_id seq flags : Z) (payload : option bytes)
    (payload_len : Z) w : Z * world H :=
  let c := cfg w in
  let routed := negb (route_outport_id_ c =? 0) in
  let hdr := mkHdr MAGIC
    (if routed then u8 (Z.lor flags FLAG_HDR_ROUTE) else flags)
    (u16 payload_len) session_id seq wire_ingress
    (if routed then route_outport_id_ c else 0) 0 in
  let hdr_sz := if routed then ROUTED_HEADER_SIZE else HEADER_SIZE in
  let total := hdr_sz + payload_len in
  if negb (mb_acquire total) then (err ZFGW_ERRCODE_MEMORY, w)
  else
  (* the acquired block: at least [total] bytes of space *)
  let dblock := repeat 0 (Z.to_nat total) in
  let '(wrote, out) := fgwSegmentEncode (Some dblock) (zlen dblock) hdr payload payload_len in
  if wrote <? 0 then (wrote, w)
  else
  let data := take (Z.to_nat wrote) (default [] out) in
  let live := liveChannels (w_net w) in
  let '(ids, net) := select_links live (w_net w) in
  let w := on_net (fun _ => net) w in
  match ids with
  | [] => (err ZFGW_ERRCODE_NOCHANNEL, w)
  | _ =>
    let '(best, net) := send_copies data live true ids 0 (w_net w) in
    (if 0 <? best then best else payload_len, on_net (fun _ => net) w)
  end.

Definition openSession (session_id : Z) (h : option Z) w : Z * world H :=
  let ing := local_ingress_id_ (cfg w) in
  let key := (ing, session_id) in
  match find_session key w with
  | Some _ => (err ZFGW_ERRCODE_BUSY, w)
  | None =>
    let st := mkSession session_id ing 0 0 [] h true false in
    let w := put_session key st w in
    let '(_, w) := sendSegment ing session_id 0 FLAG_SYN None 0 w in
    (0, w)
  end.

Definition closeSession (session_id ingress_key : Z) w : world H :=
  let key := (resolveIngressKey w ingress_key, session_id) in
  match find_session key w with
  | None => w
  | Some st =>
    let w :=
      if closed st then w
      else snd (sendSegment (wire_ingress_id st) session_id (next_send_seq st) FLAG_FIN None 0
                  (put_session key (bump_send_seq st) w)) in
    log (Gone key) (erase_session key w)
  end.

(** The chunking loop of [sendSessionData] on the bytes not yet written. *)
Fixpoint send_chunks (fuel : nat) (key : SessionKey) (sid : Z) (buf : bytes) (written : Z) w
    : Z * world H :=
  match fuel with
  | O => (written, w)
  | S fuel =>
    match buf with
    | [] => (i32 written, w)
    | _ =>
      match find_session key w with
      | None => (written, w)
      | Some st =>
        let chunk := Z.min (zlen buf) (segment_size_ (cfg w)) in
        let w := put_session key (bump_send_seq st) w in
        let '(ret, w) := sendSegment (wire_ingress_id st) sid (next_send_seq st) FLAG_DATA
                           (Some (take (Z.to_nat chunk) buf)) chunk w in
        if ret <? 0 then (ret, w)
        else send_chunks fuel key sid (drop (Z.to_nat chunk) buf) (written + chunk) w
      end
    end
  end.

Definition sendSessionData (session_id : Z) (buf : bytes) (ingress_key : Z) w : Z * world H :=
  let key := (resolveIngressKey w ingress_key, session_id) in
  match find_session key w with
  | None => (err ZFGW_ERRCODE_NOCHANNEL, w)
  | Some st =>
    if closed st then (err ZFGW_ERRCODE_NOCHANNEL, w)
    else send_chunks (S (length buf)) key session_id buf 0 w
  end.

(** ** Callbacks *)
Definition apply_call (c : stream_call) w : world H :=
  match c with
  | CallSend sid data ing => snd (sendSessionData sid data ing w)
  | CallClose sid ing => closeSession sid ing w
  end.
Definition apply_calls (cs : list stream_call) w : world H :=
  fold_left (fun w c => apply_call c w) cs w.

Definition call_open (k : SessionKey) (h sid : Z) w : world H :=
  let w := log (UpOpen k h) w in
  set_app (onSessionOpen h sid (w_app w)) w.
Definition call_data (k : SessionKey) (h sid : Z) (data : bytes) w : world H :=
  let w := log (UpData k h data) w in
  let '(a, cs) := onSessionData h sid data (w_app w) in
  apply_calls cs (set_app a w).
Definition call_close (k : SessionKey) (h sid : Z) w : world H :=
  let w := log (UpClose k h) w in
  let '(a, cs) := onSessionClose h sid (w_app w) in
  apply_calls cs (set_app a w).

(** [deliverInOrder]: first the contiguous run is moved out, then it is handed over. *)
Fixpoint take_run (expected : Z) (b : omap bytes) : list bytes * Z * omap bytes :=
  match b with
  | (k, blk) :: b' =>
    if k =? expected
    then let '(ready, e, rest) := take_run (expected +u32 1) b' in (blk :: ready, e, rest)
    else ([], expected, b)
  | [] => ([], expected, [])
  end.

Fixpoint deliver_all (k : SessionKey) (h sid : Z) (ready : list bytes) w : world H :=
  match ready with
  | [] => w
  | blk :: ready =>
    let w := if 0 <? zlen blk then call_data k h sid blk w else w in
    deliver_all k h sid ready w
  end.

Definition deliverInOrder (key : SessionKey) (st : SessionState) w : world H :=
  match handler st with
  | None => w
  | Some h =>
    let '(ready, e, rest) := take_run (expected_rx_seq st) (rx_buffer st) in
    let w := put_session key (set_rx e rest st) w in
    deliver_all (wire_ingress_id st, session_id st) h (session_id st) ready w
  end.

(** ** The racing arbiter *)
Definition bump (k : Z) (m : omap Z) : omap Z := om_insert k (default 0 (om_find k m) +u32 1) m.

(** A duplicate lost the race; the first copy won it. *)
Definition count_loss (pc : Z) : world H -> world H :=
  on_ds (fun d => if pc =? 0 then d
                  else set_counts (peer_win_count_ d) (bump pc (peer_part_count_ d)) d).
Definition count_win (pc : Z) : world H -> world H :=
  on_ds (fun d => if pc =? 0 then d
                  else set_counts (bump pc (peer_win_count_ d)) (bump pc (peer_part_count_ d)) d).

(** The loop of [pickPrimaryLocked] over the participation counts; the state is
    (best_id, best_part, best_rate). *)
Definition pick_step (wins : omap Z) (best : Z * Z * double) (kv : Z * Z) : Z * Z * double :=
  let '(best_id, best_part, best_rate) := best in
  let '(id, part) := kv in
  if part =? 0 then best
  else
    let w := default 0 (om_find id wins) in
    let rate := Double.div (Double.of_Z w) (Double.of_Z part) in
    if Double.gtb rate best_rate || (Double.eqb rate best_rate && (best_part <? part))
    then (id, part, rate) else best.
Definition pickPrimaryLocked (d : DataStream) : Z :=
  fst (fst (fold_left (pick_step (peer_win_count_ d)) (peer_part_count_ d)
              (0, 0, Double.opp (Double.of_Z 1)))).
Definition recommendedPrimary (d : DataStream) : Z := pickPrimaryLocked d.

Definition halve (m : omap Z) : omap Z := map (fun kv => (fst kv, Z.shiftr (snd kv) 1)) m.

Definition emitFeedback w : world H :=
  let d := w_ds w in
  match peer_part_count_ d with
  | [] => w
  | _ =>
    let best_id := pickPrimaryLocked d in
    let w := on_ds (fun d => set_counts (halve (peer_win_count_ d)) (halve (peer_part_count_ d)) d) w in
    if best_id =? 0 then w
    else
    let epoch := feedback_epoch_ d +u32 1 in
    let w := on_ds (fun d => set_epochs epoch (applied_epoch_ d) (peer_generation_ d) d) w in
    let fb := mkFgwLinkFeedback epoch best_id 0 0 in
    let '(plen, payload) := zds_pack_FgwLinkFeedback (Some 64) fb true in
    if plen <? 0 then w
    else
    let hdr := mkHdr MAGIC FLAG_ACK (u16 plen) 0 0 (local_ingress_id_ (cfg w)) 0 0 in
    let '(wrote, out) := fgwSegmentEncode (Some (repeat 0 128)) 128 hdr (Some payload) plen in
    if wrote <? 0 then w
    else
    let frame := take (Z.to_nat wrote) (default [] out) in
    on_net (fun net => send_all frame (liveChannels net) net) w
  end.

(** ** Receiving one frame *)
Definition on_hello (ch : Z) (payload : bytes) w : world H :=
  let '(len, hello) := zds_unpack_FgwHello payload true in
  if len <? 0 then w
  else if negb (hello_proto_version hello =? kFgwProtoVersion) then w
  else
  let w := on_net (upd_chan ch (setPeerIdentity (hello_channel_id hello)
             (hello_ingress_id hello) (hello_outport_id hello))) w in
  let g := hello_generation hello in
  if negb (g =? 0) && negb (g =? peer_generation_ (w_ds w))
  then on_ds (fun d => set_counts [] [] (set_epochs (feedback_epoch_ d) 0 g d)) w
  else w.

Definition on_ack (payload : bytes) w : world H :=
  let '(len, fb) := zds_unpack_FgwLinkFeedback payload true in
  if (0 <=? len) && (applied_epoch_ (w_ds w) <? fb_decision_epoch fb)
  then
    let w := on_ds (fun d => set_epochs (feedback_epoch_ d) (fb_decision_epoch fb)
                              (peer_generation_ d) d) w in
    if negb (fb_recommended_primary fb =? 0)
    then on_net (fun l => set_selector
           (setPrimaryChannel (fb_recommended_primary fb) (selector_ l)) l) w
    else w
  else w.

(** Look a session up, creating it with the handler the unknown-session callback
    gives. *)
Definition ensure_session (skey : SessionKey) w : world H :=
  match find_session skey w with
  | Some _ => w
  | None =>
    let '(h, a) := if unknown_cb_set (w_ds w)
                   then unknown_cb (fst skey) (snd skey) (w_app w) else (None, w_app w) in
    put_session skey (new_session (snd skey) (fst skey) h) (set_app a w)
  end.

Definition on_syn (skey : SessionKey) w : world H :=
  let w := ensure_session skey w in
  match find_session skey w with
  | Some st => match handler st with
               | Some h => call_open skey h (snd skey) w
               | None => w
               end
  | None => w
  end.

Definition on_fin (skey : SessionKey) w : world H :=
  match find_session skey w with
  | None => w
  | Some st =>
    let w := match handler st with
             | Some h => call_close skey h (snd skey) w
             | None => w
             end in
    erase_session skey w
  end.

Definition on_data (skey : SessionKey) (seq : Z) (payload : bytes) w : world H :=
  let w := ensure_session skey w in
  match find_session skey w with
  | None => w
  | Some st =>
    let st :=
      if mb_acquire (zlen payload)
      then set_rx (expected_rx_seq st) (om_emplace seq payload (rx_buffer st)) st
      else st in
    deliverInOrder skey st (put_session skey st w)
  end.

Definition seg_kind (hdr : FgwSegmentHeader) : Z :=
  if isSyn hdr then 1 else if isFin hdr then 2 else 0.

(** The order the table is kept by; the table as a set is right as keys that are not in
    order are equal ([DedupKey_order]). *)
Definition DedupKey_lt (k k' : DedupKey) : bool :=
  let '(ingress, session, seq, kind) := k in
  let '(ingress', session', seq', kind') := k' in
  if negb (ingress =? ingress') then ingress <? ingress'
  else if negb (session =? session') then session <? session'
  else if negb (seq =? seq') then seq <? seq'
  else kind <? kind'.

(** The key enters the table, the oldest of more than [kDedupRing] leaves it. *)
Definition record_dedup (dk : DedupKey) (d : DataStream) : DataStream :=
  let m := {[dk]} ∪ dedup_map_ d in
  let q := dedup_queue_ d ++ [dk] in
  if kDedupRing <? zlen q
  then match q with
       | front :: q' => set_dedup q' (m ∖ {[front]}) d
       | [] => set_dedup q m d
       end
  else set_dedup q m d.

(** [hdr.seq_num - expected >= recv_window_], on 32-bit unsigned integers. *)
Definition out_of_window (skey : SessionKey) (seq : Z) w : bool :=
  let expected := match find_session skey w with
                  | None => 0 | Some st => expected_rx_seq st end in
  recv_window_ (cfg w) <=? (seq -u32 expected).

Definition has_data (hdr : FgwSegmentHeader) : bool := isData hdr && (0 <? h_payload_len hdr).

(** The first copy of a segment, its key recorded: SYN, then FIN or DATA. *)
Definition dispatch (skey : SessionKey) (hdr : FgwSegmentHeader) (payload : bytes) w : world H :=
  let w := if isSyn hdr then on_syn skey w else w in
  if isFin hdr then on_fin skey w
  else if has_data hdr then on_data skey (h_seq_num hdr) payload w
  else w.

Definition seg_key (hdr : FgwSegmentHeader) : SessionKey :=
  (if isHdrExt hdr then h_ingress_id hdr else 0, h_session_id hdr).
Definition dedup_key (hdr : FgwSegmentHeader) : DedupKey :=
  (seg_key hdr, h_seq_num hdr, seg_kind hdr).

Definition on_segment (ch : Z) (hdr : FgwSegmentHeader) (payload : bytes) w : world H :=
  let skey := seg_key hdr in
  let dk := dedup_key hdr in
  if decide (dk ∈ dedup_map_ (w_ds w))
  then count_loss (peer_channel_id_ (chan (w_net w) ch)) w
  else if has_data hdr && out_of_window skey (h_seq_num hdr) w then w
  else
  let w := on_ds (record_dedup dk) w in
  let w := count_win (peer_channel_id_ (chan (w_net w) ch)) w in
  dispatch skey hdr payload w.

(** The body of the frame loop: [frame] points at the header of [hr] bytes. *)
Definition on_frame (ch : Z) (hdr : FgwSegmentHeader) (hr : Z) (frame : bytes) w : world H :=
  if verify_crc_ (cfg w) && negb (fgwSegmentVerifyCrc frame hdr hr) then w
  else
  let w := on_net (upd_chan ch noteSegmentRecv) w in
  let payload := take (Z.to_nat (h_payload_len hdr)) (drop (Z.to_nat hr) frame) in
  if isHello hdr then on_hello ch payload w
  else if isHeartbeat hdr then w
  else if isAck hdr then on_ack payload w
  else on_segment ch hdr payload w.

(** ** Receiving bytes *)

(** The loop of [onChannelBytes] on the bytes from [pos] on; the result is what
    stays in the scratch buffer. *)
Fixpoint parse_loop (fuel : nat) (ch : Z) (buf : bytes) w : option (bytes * world H) :=
  match fuel with
  | O => None
  | S fuel =>
    let remaining := zlen buf in
    if remaining <? LEGACY_HEADER_SIZE then Some (buf, w)
    else
    let '(hr, hdr) := fgwSegmentPeekHeader buf remaining FgwSegmentHeader_default in
    if is_err hr ZFGW_ERRCODE_BADSEGMENT then Some ([], w)
    else if hr =? 0 then Some (buf, w)
    else
    let total := hr + h_payload_len hdr in
    if remaining <? total then Some (buf, w)
    else parse_loop fuel ch (drop (Z.to_nat total) buf) (on_frame ch hdr hr buf w)
  end.

Definition onChannelBytes (ch : Z) (buf : bytes) w : world H :=
  let b := default [] (scratch_ (w_ds w) !! ch) ++ buf in
  match parse_loop (S (length b)) ch b w with
  | Some (rest, w) => on_ds (fun d => set_scratch (<[ch := rest]> (scratch_ d)) d) w
  | None => w
  end.

(** ** The stream's interface as steps *)
Definition do_step (s : stream_step H) w : world H :=
  match s with
  | StBytes ch buf => onChannelBytes ch buf w
  | StOpen sid h => snd (openSession sid h w)
  | StEnv f =>
    let '(a, net, cs) := f (w_app w) (w_net w) in
    apply_calls cs (mkWorld (w_ds w) net a (w_log w))
  | StFeedback => emitFeedback w
  end.
Definition do_steps (ss : list (stream_step H)) w : world H :=
  fold_left (fun w s => do_step s w) ss w.
End stream.

(** The bytes the steps deliver on a link. *)
Fixpoint bytes_on {H} (ch : Z) (ss : list (stream_step H)) : bytes :=
  match ss with
  | [] => []
  | StBytes ch' buf :: ss => (if ch' =? ch then buf else []) ++ bytes_on ch ss
  | _ :: ss => bytes_on ch ss
  end.
