(* ===== verification/Testbed.v ===== *)
(** * Testbed: a concrete setting to evaluate streams in

    Two handlers (one that only listens, one that echoes), a transport whose buffers
    never run out and whose sockets accept everything, and a pair of connected TCP
    links.  The properties of the stream are instantiated here. *)
From S2P Require Import Prelude Proto OMap Segment Pack ZdsInstance Channel Selector Links.
From S2P Require Import DataStream.

(** Every session is given handler 1. *)
Definition listener : SessionHandler unit := {|
  unknown_cb _ _ a := (Some 1, a);
  onSessionOpen _ _ a := a;
  onSessionData _ _ _ a := (a, []);
  onSessionClose _ _ a := (a, []) |}.

(** Sends back what it gets on session 9 of its own, counting the bytes. *)
Definition echo : SessionHandler Z := {|
  unknown_cb _ _ a := (Some 1, a);
  onSessionOpen _ _ a := a;
  onSessionData _ sid d a := (a + zlen d, [CallSend 9 d kFgwWireIngressUseLocal]);
  onSessionClose _ _ a := (a, []) |}.

Definition test_transport : Transport := {|
  mb_acquire _ := true;
  tcp_write _ _ buf := zlen buf;
  start_connect _ := 0 |}.

Definition test_chan (id sock : Z) : IFgwChannel :=
  set_tcp (Some sock) (set_connected true (new_channel ZFGW_CHANNEL_TCP id 0)).
Definition test_net (mode : Z) : Links :=
  mkLinks {[ 11 := test_chan 1 101; 12 := test_chan 2 102 ]} [(1, 11); (2, 12)]
    (mkSelector mode 0 0) [].

(** A sender with four-byte segments on two links. *)
Definition test_sender (mode : Z) : world unit :=
  mkWorld (new_stream 7 4 0 true 0) (test_net mode) tt [].
Definition test_bufs : list bytes := [[72; 101; 108; 108; 111; 44; 32]; [119; 111; 114; 108; 100]].

#[export] Existing Instances tlv_runtime test_transport insertion_std_sort.
