(* ===== verification/StreamFacts.v ===== *)
(** * StreamFacts: what the operations of a data stream leave alone

    Frame conditions for [DataStream]: sending touches only send counters and the
    links, the calls a handler makes back into the stream never touch the receive
    side of a session they do not close, and the receive path changes one session
    at a time. *)
From S2P Require Import Prelude Proto OMap Segment Pack Channel Selector Links DataStream.

(** The receive side of a session: the session without its send side. *)
Definition rx_view (st : SessionState) : SessionState :=
  mkSession (session_id st) (wire_ingress_id st) 0 (expected_rx_seq st) (rx_buffer st)
    (handler st) false (closed st).

#[export] Instance upcall_eq_dec : EqDecision upcall.
Proof. solve_decision. Defined.

(** What the handlers have been told. *)
Definition handed (l : list upcall) : list upcall :=
  List.filter (fun u => match u with Gone _ => false | _ => true end) l.
Lemma handed_app l l' : handed (l ++ l') = handed l ++ handed l'.
Proof. apply List.filter_app. Qed.

Section facts.
Context {H : Type} {app : SessionHandler H}.
Context {rt : ZdsRuntime} {T : Transport} {sort : StdSort}.
Implicit Types (w : world H) (k : SessionKey).

Definition rx_of k w := rx_view <$> find_session k w.

(** [w'] differs from [w] in its links and its session table only. *)
Definition sess_only w w' : Prop :=
  (exists s, w_ds w' = set_sessions s (w_ds w)) /\ w_app w' = w_app w /\ w_log w' = w_log w.

(** The stream of [w'] differs from that of [w] in its session table only. *)
Definition ds_sess w w' : Prop := exists s, w_ds w' = set_sessions s (w_ds w).

#[export] Instance ds_sess_preorder : PreOrder ds_sess.
Proof.
  split.
  - intros w. exists (sessions_ (w_ds w)). by destruct (w_ds w).
  - intros w1 w2 w3 [s Hs] [s' Hs']. exists s'. by rewrite Hs', Hs.
Qed.
Lemma sess_only_ds w w' : sess_only w w' -> ds_sess w w'.
Proof. by intros [? _]. Qed.

#[export] Instance sess_only_preorder : PreOrder sess_only.
Proof.
  split.
  - intros w. split; [|done]. exists (sessions_ (w_ds w)). by destruct (w_ds w).
  - intros w1 w2 w3 ([s Hs] & Ha & Hl) ([s' Hs'] & Ha' & Hl').
    split; [exists s'; by rewrite Hs', Hs | split; congruence].
Qed.

(** ** Lookups *)
Lemma find_put_eq k st w : find_session k (put_session k st w) = Some st.
Proof. apply lookup_insert_eq. Qed.
Lemma find_put_ne k k' st w : k <> k' -> find_session k (put_session k' st w) = find_session k w.
Proof. intros Hne. by apply lookup_insert_ne. Qed.
Lemma find_erase_eq k w : find_session k (erase_session k w) = None.
Proof. apply lookup_delete_eq. Qed.
Lemma find_erase_ne k k' w : k <> k' -> find_session k (erase_session k' w) = find_session k w.
Proof. intros Hne. by apply lookup_delete_ne. Qed.

Lemma sess_only_put k st w : sess_only w (put_session k st w).
Proof. split; [by eexists | done]. Qed.
Lemma sess_only_erase k w : sess_only w (erase_session k w).
Proof. split; [by eexists | done]. Qed.
Lemma sess_only_net f w : sess_only w (on_net f w).
Proof. split; [|done]. exists (sessions_ (w_ds w)). by destruct w as [[]]. Qed.

Lemma rx_put k k' st w : rx_of k' w = Some (rx_view st) ->
  rx_of k (put_session k' st w) = rx_of k w.
Proof.
  intros Hr. unfold rx_of. destruct (decide (k = k')) as [->|Hne].
  - rewrite find_put_eq. symmetry. exact Hr.
  - by rewrite find_put_ne.
Qed.

(** ** Sending *)
Lemma sendSegment_shape ing sid seq fl p n w :
  exists r f, sendSegment ing sid seq fl p n w = (r, on_net f w).
Proof.
  assert (Hid : w = on_net id w) by (by destruct w).
  unfold sendSegment.
  destruct (negb (mb_acquire _)); [exists (err ZFGW_ERRCODE_MEMORY), id; by rewrite <- Hid|].
  destruct (fgwSegmentEncode _ _ _ _ _) as [wrote out].
  destruct (wrote <? 0); [exists wrote, id; by rewrite <- Hid|].
  destruct (select_links _ _) as [ids net]. destruct ids as [|i ids]; [by do 2 eexists|].
  destruct (send_copies _ _ _ _ _ _) as [best net']. eexists _, (fun _ => net'). reflexivity.
Qed.

Lemma sendSegment_only ing sid seq fl p n w : sess_only w (snd (sendSegment ing sid seq fl p n w)).
Proof.
  destruct (sendSegment_shape ing sid seq fl p n w) as (r & f & ->). apply sess_only_net.
Qed.
Lemma sendSegment_find k ing sid seq fl p n w :
  find_session k (snd (sendSegment ing sid seq fl p n w)) = find_session k w.
Proof. by destruct (sendSegment_shape ing sid seq fl p n w) as (r & f & ->). Qed.

Lemma closeSession_find k sid ing w :
  find_session k (closeSession sid ing w) =
  if decide (k = (resolveIngressKey w ing, sid)) then None else find_session k w.
Proof.
  unfold closeSession. set (key := (resolveIngressKey w ing, sid)).
  destruct (find_session key w) as [st|] eqn:Hf.
  - change (find_session k (log ?u ?x)) with (find_session k x).
    destruct (decide (k = key)) as [->|Hne]; [apply find_erase_eq|].
    rewrite find_erase_ne by done. destruct (closed st); [done|].
    by rewrite sendSegment_find, find_put_ne.
  - by destruct (decide (k = key)) as [->|].
Qed.

Lemma send_chunks_only fuel key sid buf n w : sess_only w (snd (send_chunks fuel key sid buf n w)).
Proof.
  revert buf n w. induction fuel as [|fuel IH]; intros buf n w; [reflexivity|].
  cbn [send_chunks]. destruct buf as [|b buf]; [reflexivity|].
  destruct (find_session key w) as [st|]; [|reflexivity].
  set (w1 := put_session _ _ _). assert (H1 : sess_only w w1) by apply sess_only_put.
  pose proof (sendSegment_only (wire_ingress_id st) sid (next_send_seq st) FLAG_DATA
    (Some (take (Z.to_nat (Z.min (zlen (b :: buf)) (segment_size_ (cfg w)))) (b :: buf)))
    (Z.min (zlen (b :: buf)) (segment_size_ (cfg w))) w1) as H2.
  destruct (sendSegment _ _ _ _ _ _ w1) as [r w2]. cbn [snd] in H2.
  destruct (r <? 0); [by etrans|]. etrans; [exact H1|]. etrans; [exact H2|]. apply IH.
Qed.
Lemma send_chunks_rx k fuel key sid buf n w :
  rx_of k (snd (send_chunks fuel key sid buf n w)) = rx_of k w.
Proof.
  revert buf n w. induction fuel as [|fuel IH]; intros buf n w; [done|].
  cbn [send_chunks]. destruct buf as [|b buf]; [done|].
  destruct (find_session key w) as [st|] eqn:Hf; [|done].
  set (w1 := put_session _ _ _). set (chunk := Z.min _ _). set (p := Some _).
  assert (H1 : rx_of k w1 = rx_of k w)
    by (apply rx_put; unfold rx_of; by rewrite Hf).
  pose proof (sendSegment_find k (wire_ingress_id st) sid (next_send_seq st) FLAG_DATA p chunk w1) as H2.
  destruct (sendSegment _ _ _ _ _ _ w1) as [r w2]. cbn [snd] in H2.
  assert (H3 : rx_of k w2 = rx_of k w) by (rewrite <- H1; unfold rx_of; by rewrite H2).
  destruct (r <? 0); [done|]. by rewrite IH.
Qed.

Lemma sendSessionData_only sid buf ing w : sess_only w (snd (sendSessionData sid buf ing w)).
Proof.
  unfold sendSessionData. destruct (find_session _ w) as [st|]; [|reflexivity].
  destruct (closed st); [reflexivity|]. apply send_chunks_only.
Qed.
Lemma sendSessionData_rx k sid buf ing w :
  rx_of k (snd (sendSessionData sid buf ing w)) = rx_of k w.
Proof.
  unfold sendSessionData. destruct (find_session _ w) as [st|]; [|done].
  destruct (closed st); [done|]. apply send_chunks_rx.
Qed.

(** ** Calls from the handlers *)

Lemma ds_sess_cfg w w' : ds_sess w w' -> cfg w' = cfg w.
Proof. intros [s Hs]. unfold cfg. by rewrite Hs. Qed.

(** Session [k] has been closed from this side. *)
Definition gone k w : Prop := Gone k ∈ w_log w.
#[export] Instance gone_dec k w : Decision (gone k w).
Proof. unfold gone. apply _. Defined.

(** The log of [w'] goes on from that of [w]. *)
Definition log_grows w w' : Prop := exists l, w_log w' = w_log w ++ l.
#[export] Instance log_grows_preorder : PreOrder log_grows.
Proof.
  split; [intros w; exists []; by rewrite app_nil_r|].
  intros w1 w2 w3 [l Hl] [l' Hl']. exists (l ++ l'). by rewrite Hl', Hl, app_assoc.
Qed.
Lemma log_grows_eq w w' : w_log w' = w_log w -> log_grows w w'.
Proof. intros Hl. exists []. by rewrite Hl, app_nil_r. Qed.
Lemma log_grows_gone k w w' : log_grows w w' -> gone k w -> gone k w'.
Proof. intros [l Hl]. unfold gone. rewrite Hl. set_solver. Qed.

(** ... and the stream differs in the session table only. *)
Definition grows w w' : Prop := ds_sess w w' /\ log_grows w w'.
#[export] Instance grows_preorder : PreOrder grows.
Proof. split; [done|]. intros w1 w2 w3 [Hd Hl] [Hd' Hl']. split; by etrans. Qed.
Lemma grows_gone k w w' : grows w w' -> gone k w -> gone k w'.
Proof. intros [_ Hl]. by apply log_grows_gone. Qed.
Lemma grows_only w w' : sess_only w w' -> grows w w'.
Proof. intros (Hd & _ & Hl). split; [done | by apply log_grows_eq]. Qed.

(** [w'] follows [w] through callbacks and the calls they make: the handlers have been
    told [l], and the receive side of each session is as before or the session has
    been closed meanwhile. *)
Record called (l : list upcall) w w' : Prop := {
  cd_ds : ds_sess w w';
  cd_new : exists l', w_log w' = w_log w ++ l' /\ handed l' = l /\
    forall k, rx_of k w' = rx_of k w \/ (rx_of k w' = None /\ Gone k ∈ l') }.

Lemma called_grows l w w' : called l w w' -> grows w w'.
Proof. intros [Hd (l' & Hl & _)]. split; [done | by exists l']. Qed.
Lemma called_nil w : called [] w w.
Proof. split; [done|]. exists []. rewrite app_nil_r. auto. Qed.
Lemma called_trans l l' w1 w2 w3 : called l w1 w2 -> called l' w2 w3 -> called (l ++ l') w1 w3.
Proof.
  intros [Hd (m & Hl & <- & Hr)] [Hd' (m' & Hl' & <- & Hr')]. split; [by etrans|].
  exists (m ++ m'). split_and!; [by rewrite Hl', Hl, app_assoc | apply handed_app |].
  intros k. destruct (Hr' k) as [->|[]]; [|set_solver]. destruct (Hr k) as [|[]]; set_solver.
Qed.

Lemma apply_call_called c w : called [] w (apply_call c w) /\ w_app (apply_call c w) = w_app w.
Proof.
  destruct c as [sid data ing|sid ing]; simpl.
  - destruct (sendSessionData_only sid data ing w) as (Hd & Ha & Hl). split; [|done].
    split; [done|]. exists []. rewrite app_nil_r. split_and!; [done | done|]. intros k. left. apply sendSessionData_rx.
  - pose proof (fun k => closeSession_find k sid ing w) as Hf. unfold closeSession in *.
    set (key := (resolveIngressKey w ing, sid)) in *.
    destruct (find_session key w) as [st|] eqn:Hk; [|split; [apply called_nil | done]].
    set (w1 := if closed st then _ else _) in *.
    assert (H1 : sess_only w w1).
    { unfold w1. destruct (closed st); [reflexivity|]. etrans; [apply sess_only_put | apply sendSegment_only]. }
    assert (H2 : sess_only w (erase_session key w1)) by (etrans; [exact H1 | apply sess_only_erase]).
    destruct H2 as (Hd & Ha & Hl). split; [|exact Ha]. split; [exact Hd|]. exists [Gone key].
    split_and!; [cbn [log w_log]; f_equal; exact Hl | done|].
    intros k. unfold rx_of. rewrite Hf. destruct (decide (k = key)) as [->|]; [right | by left].
    split; [done | set_solver].
Qed.
Lemma apply_calls_called cs w : called [] w (apply_calls cs w) /\ w_app (apply_calls cs w) = w_app w.
Proof.
  revert w. induction cs as [|c cs IH]; intros w; [split; [apply called_nil | done]|].
  destruct (apply_call_called c w) as [H1 Ha], (IH (apply_call c w)) as [H2 Hb].
  split; [by eapply (called_trans [] []) | by etrans].
Qed.

Lemma called_rx_or l k w w' : called l w w' -> rx_of k w' = rx_of k w \/ rx_of k w' = None.
Proof. intros [_ (l' & _ & _ & Hr)]. destruct (Hr k) as [|[]]; auto. Qed.
Lemma called_handed l w w' : called l w w' -> handed (w_log w') = handed (w_log w) ++ l.
Proof. intros [_ (l' & -> & <- & _)]. apply handed_app. Qed.
Lemma apply_calls_only cs w : ds_sess w (apply_calls cs w) /\ w_app (apply_calls cs w) = w_app w /\
  handed (w_log (apply_calls cs w)) = handed (w_log w).
Proof.
  destruct (apply_calls_called cs w) as [Hc Ha]. split_and!; [apply Hc | done|].
  by rewrite (called_handed _ _ _ Hc), app_nil_r.
Qed.

(** ** Callbacks *)
Lemma set_app_log_rx k a w : rx_of k (set_app a w) = rx_of k w. Proof. done. Qed.

Lemma called_calls u a cs w : handed [u] = [u] -> called [u] w (apply_calls cs (set_app a (log u w))).
Proof.
  intros Hu. apply (called_trans [u] [] w (set_app a (log u w))); [|apply apply_calls_called].
  split; [|exists [u]; auto]. exists (sessions_ (w_ds w)). by destruct w as [[]].
Qed.

Lemma call_data_called k h sid d w : called [UpData k h d] w (call_data k h sid d w).
Proof. unfold call_data. destruct (onSessionData _ _ _ _) as [a cs]. by apply called_calls. Qed.
Lemma call_close_called k h sid w : called [UpClose k h] w (call_close k h sid w).
Proof. unfold call_close. destruct (onSessionClose _ _ _) as [a cs]. by apply called_calls. Qed.
Lemma call_open_called k h sid w : called [UpOpen k h] w (call_open k h sid w).
Proof.
  split; [|exists [UpOpen k h]; auto]. exists (sessions_ (w_ds w)). by destruct w as [[]].
Qed.

(** The bytes of [ready], as the handler sees them. *)
Definition ups (k : SessionKey) (h : Z) (ready : list bytes) : list upcall :=
  map (UpData k h) (List.filter (fun b => 0 <? zlen b) ready).

Lemma deliver_all_called k h sid ready w :
  called (ups k h ready) w (deliver_all k h sid ready w).
Proof.
  revert w. induction ready as [|b ready IH]; intros w; [apply called_nil|].
  unfold ups. cbn [deliver_all List.filter]. destruct (0 <? zlen b); [|apply IH].
  apply (called_trans [_] _ _ (call_data k h sid b w)); [apply call_data_called | apply IH].
Qed.

(** ** The receive path, piece by piece *)
Lemma record_dedup_shape dk d : exists q m, record_dedup dk d = set_dedup q m d.
Proof.
  unfold record_dedup. destruct (kDedupRing <? _); [|by do 2 eexists].
  destruct (dedup_queue_ d ++ [dk]); by do 2 eexists.
Qed.

Lemma ensure_cfg k w : cfg (ensure_session k w) = cfg w.
Proof.
  unfold ensure_session. destruct (find_session k w); [done|].
  by destruct (if unknown_cb_set (w_ds w) then _ else _) as [h a].
Qed.

Lemma log_ensure k w : w_log (ensure_session k w) = w_log w.
Proof.
  unfold ensure_session. destruct (find_session k w); [done|].
  by destruct (if unknown_cb_set (w_ds w) then _ else _) as [h a].
Qed.

(** The session [on_data] works on. *)
Lemma ensure_find k w :
  exists h, find_session k (ensure_session k w) =
    Some (default (new_session (snd k) (fst k) h) (find_session k w)).
Proof.
  unfold ensure_session. destruct (find_session k w) as [st|] eqn:Hf; [by exists None|].
  destruct (if unknown_cb_set (w_ds w) then _ else _) as [h a]. exists h. apply find_put_eq.
Qed.

(** The table does not enter the window check. *)
Lemma record_mem x dk d : x ∈ dedup_map_ (record_dedup dk d) -> x = dk \/ x ∈ dedup_map_ d.
Proof.
  unfold record_dedup. destruct (kDedupRing <? _); [destruct (dedup_queue_ d ++ [dk])|];
    simpl; set_solver.
Qed.
Lemma record_find k dk w : find_session k (on_ds (record_dedup dk) w) = find_session k w.
Proof.
  unfold find_session. simpl. by destruct (record_dedup_shape dk (w_ds w)) as (q & m & ->).
Qed.
(** The order of the duplicate table is a strict total order. *)
Lemma DedupKey_order (k1 k2 k3 : DedupKey) :
  DedupKey_lt k1 k1 = false /\ (DedupKey_lt k1 k2 = true -> DedupKey_lt k2 k3 = true -> DedupKey_lt k1 k3 = true) /\
  (DedupKey_lt k1 k2 = false -> DedupKey_lt k2 k1 = false -> k1 = k2).
Proof.
  destruct k1 as [[[a1 b1] c1] d1], k2 as [[[a2 b2] c2] d2], k3 as [[[a3 b3] c3] d3]. unfold DedupKey_lt. rewrite !Z.eqb_refl. split_and!.
  - simpl. lia.
  - destruct (Z.eqb_spec a1 a2), (Z.eqb_spec a2 a3), (Z.eqb_spec a1 a3), (Z.eqb_spec b1 b2), (Z.eqb_spec b2 b3), (Z.eqb_spec b1 b3),
      (Z.eqb_spec c1 c2), (Z.eqb_spec c2 c3), (Z.eqb_spec c1 c3); simpl; lia.
  - rewrite (Z.eqb_sym a2), (Z.eqb_sym b2), (Z.eqb_sym c2).
    destruct (Z.eqb_spec a1 a2), (Z.eqb_spec b1 b2), (Z.eqb_spec c1 c2); simpl; intros; [|lia..]. subst. assert (d1 = d2) by lia. by subst.
Qed.
Lemma record_cfg dk w : cfg (on_ds (record_dedup dk) w) = cfg w.
Proof. unfold cfg. simpl. by destruct (record_dedup_shape dk (w_ds w)) as (q & m & ->). Qed.
Lemma count_win_find k pc w : find_session k (count_win pc w) = find_session k w.
Proof. unfold find_session, count_win. simpl. by destruct (pc =? 0). Qed.
Lemma count_win_cfg pc w : cfg (count_win pc w) = cfg w.
Proof. unfold cfg, count_win. simpl. by destruct (pc =? 0). Qed.


(** Changes of the links, of the handlers' state and of the counters leave the
    sessions, the duplicate table and the scratch buffers alone. *)
Definition same_core (d d' : DataStream) : Prop :=
  cfg_ d' = cfg_ d /\ sessions_ d' = sessions_ d /\ scratch_ d' = scratch_ d /\
  dedup_queue_ d' = dedup_queue_ d /\ dedup_map_ d' = dedup_map_ d /\
  unknown_cb_set d' = unknown_cb_set d.

(** The frames of the link itself. *)
Lemma on_hello_core ch p w :
  same_core (w_ds w) (w_ds (on_hello ch p w)) /\ w_log (on_hello ch p w) = w_log w.
Proof.
  unfold on_hello. destruct (zds_unpack_FgwHello p true) as [len hello].
  destruct (len <? 0); [done|].
  destruct (hello_proto_version hello =? kFgwProtoVersion); simpl; [|done].
  by destruct (_ && _).
Qed.
Lemma on_ack_core p w :
  same_core (w_ds w) (w_ds (on_ack p w)) /\ w_log (on_ack p w) = w_log w.
Proof.
  unfold on_ack. destruct (zds_unpack_FgwLinkFeedback p true) as [len fb].
  destruct ((0 <=? len) && _); [|done]. by destruct (fb_recommended_primary fb =? 0).
Qed.
(** Entering a key and counting the win, before a first copy is dispatched. *)
Lemma accept_facts pc dk w :
  let w1 := count_win pc (on_ds (record_dedup dk) w) in
  (forall k, find_session k w1 = find_session k w) /\ cfg w1 = cfg w /\
  unknown_cb_set (w_ds w1) = unknown_cb_set (w_ds w) /\
  (forall x, x ∈ dedup_map_ (w_ds w1) -> x = dk \/ x ∈ dedup_map_ (w_ds w)).
Proof.
  cbv zeta. split_and!.
  - intros k. by rewrite count_win_find, record_find.
  - by rewrite count_win_cfg, record_cfg.
  - unfold count_win. simpl. destruct (record_dedup_shape dk (w_ds w)) as (q & m & ->).
    by destruct (pc =? 0).
  - intros x. unfold count_win. simpl. destruct (pc =? 0); apply record_mem.
Qed.

Lemma emitFeedback_core w : same_core (w_ds w) (w_ds (emitFeedback w)) /\
  w_log (emitFeedback w) = w_log w.
Proof.
  unfold emitFeedback. destruct (peer_part_count_ (w_ds w)); [done|].
  destruct (_ =? 0); [done|]. destruct (zds_pack_FgwLinkFeedback _ _ _) as [plen payload].
  destruct (plen <? 0); [done|]. destruct (fgwSegmentEncode _ _ _ _ _) as [wrote out].
  by destruct (wrote <? 0).
Qed.
Lemma count_loss_core pc w : same_core (w_ds w) (w_ds (count_loss pc w)).
Proof. unfold count_loss. simpl. by destruct (pc =? 0). Qed.

(** No callback and no frame changes the configuration, the scratch buffers or the
    unknown-session callback. *)
Definition same_io w w' : Prop :=
  cfg_ (w_ds w') = cfg_ (w_ds w) /\ scratch_ (w_ds w') = scratch_ (w_ds w) /\
  unknown_cb_set (w_ds w') = unknown_cb_set (w_ds w).
#[export] Instance same_io_preorder : PreOrder same_io.
Proof.
  split; [done|]. intros w1 w2 w3 (? & ? & ?) (? & ? & ?). unfold same_io. split_and!; congruence.
Qed.

Lemma core_io w w' : same_core (w_ds w) (w_ds w') -> same_io w w'.
Proof. intros (? & _ & ? & _ & _ & ?). done. Qed.
(** ... and only [on_segment] enters keys into the duplicate table. *)
Definition same_dd w w' : Prop :=
  same_io w w' /\ dedup_queue_ (w_ds w') = dedup_queue_ (w_ds w) /\
  dedup_map_ (w_ds w') = dedup_map_ (w_ds w).
#[export] Instance same_dd_preorder : PreOrder same_dd.
Proof.
  split; [done|]. intros w1 w2 w3 (? & ? & ?) (? & ? & ?).
  split; [by etrans | split; congruence].
Qed.
Lemma core_dd w w' : same_core (w_ds w) (w_ds w') -> same_dd w w'.
Proof. intros (? & _ & ? & ? & ? & ?). done. Qed.
Lemma ds_sess_dd w w' : ds_sess w w' -> same_dd w w'.
Proof. intros [s Hs]. unfold same_dd, same_io. by rewrite Hs. Qed.
Lemma ds_self w w' : w_ds w' = w_ds w -> ds_sess w w'.
Proof. intros Heq. exists (sessions_ (w_ds w)). rewrite Heq. by destruct (w_ds w). Qed.

(** The callbacks and the session operations change the session table only. *)
Lemma grows_self w w' : w_ds w' = w_ds w -> w_log w' = w_log w -> grows w w'.
Proof. intros Hd Hl. split; [by apply ds_self | by apply log_grows_eq]. Qed.
Lemma grows_put k st w : grows w (put_session k st w).
Proof. apply grows_only, sess_only_put. Qed.
Lemma grows_ensure k w : grows w (ensure_session k w).
Proof.
  unfold ensure_session. destruct (find_session k w); [done|].
  destruct (if unknown_cb_set (w_ds w) then _ else _) as [h a].
  transitivity (set_app a w); [by apply grows_self | apply grows_put].
Qed.
Lemma grows_on_syn k w : grows w (on_syn k w).
Proof.
  unfold on_syn. pose proof (grows_ensure k w) as He.
  destruct (find_session k (ensure_session k w)) as [st|]; [|done].
  destruct (handler st); [|done]. etrans; [exact He | eapply called_grows, call_open_called].
Qed.
Lemma grows_on_fin k w : grows w (on_fin k w).
Proof.
  unfold on_fin. destruct (find_session k w) as [st|]; [|done].
  etrans; [|apply grows_only, sess_only_erase].
  destruct (handler st); [eapply called_grows, call_close_called | done].
Qed.
Lemma grows_deliver k st w : grows w (deliverInOrder k st w).
Proof.
  unfold deliverInOrder. destruct (handler st); [|done]. destruct (take_run _ _) as [[ready e] rest].
  etrans; [apply grows_put | eapply called_grows, deliver_all_called].
Qed.
Lemma grows_on_data k seq p w : grows w (on_data k seq p w).
Proof.
  unfold on_data. pose proof (grows_ensure k w) as He.
  destruct (find_session k (ensure_session k w)) as [st|]; [|done].
  etrans; [exact He|]. etrans; [apply grows_put | apply grows_deliver].
Qed.
Lemma grows_dispatch k hdr p w : grows w (dispatch k hdr p w).
Proof.
  unfold dispatch. set (w2 := if isSyn hdr then _ else _).
  assert (H2 : grows w w2) by (unfold w2; destruct (isSyn hdr); [apply grows_on_syn | done]).
  etrans; [exact H2|]. destruct (isFin hdr); [apply grows_on_fin|].
  destruct (has_data hdr); [apply grows_on_data | done].
Qed.
Lemma log_on_segment ch hdr p w : log_grows w (on_segment ch hdr p w).
Proof.
  unfold on_segment. destruct (decide _); [by apply log_grows_eq|]. destruct (_ && _); [done|].
  set (w1 := count_win _ _). transitivity w1; [by apply log_grows_eq | apply grows_dispatch].
Qed.
Lemma dd_on_syn k w : same_dd w (on_syn k w).
Proof. apply ds_sess_dd, grows_on_syn. Qed.
Lemma dd_dispatch k hdr p w : same_dd w (dispatch k hdr p w).
Proof. apply ds_sess_dd, grows_dispatch. Qed.
Lemma io_record dk w : same_io w (on_ds (record_dedup dk) w).
Proof. unfold same_io. simpl. by destruct (record_dedup_shape dk (w_ds w)) as (q & m & ->). Qed.
Lemma io_counts (f : DataStream -> bool) g h w :
  same_io w (on_ds (fun d => if f d then d else set_counts (g d) (h d) d) w).
Proof. unfold same_io. simpl. by destruct (f (w_ds w)). Qed.
Lemma io_on_segment ch hdr p w : same_io w (on_segment ch hdr p w).
Proof.
  unfold on_segment. destruct (decide _); [apply (io_counts (fun _ => _))|].
  destruct (_ && _); [done|]. etrans; [|apply dd_dispatch].
  etrans; [apply io_record | apply (io_counts (fun _ => _))].
Qed.
Lemma io_on_frame ch hdr hr f w : same_io w (on_frame ch hdr hr f w).
Proof.
  unfold on_frame. destruct (verify_crc_ (cfg w) && _); [done|]. set (w1 := on_net _ w).
  assert (H1 : same_io w w1) by done. etrans; [exact H1|].
  destruct (isHello hdr); [apply core_io, on_hello_core|].
  destruct (isHeartbeat hdr); [done|]. destruct (isAck hdr); [apply core_io, on_ack_core | apply io_on_segment].
Qed.

(** Neither do the stream's other operations, feedback apart. *)
Definition set_env (a : H) (net : Links) w : world H := mkWorld (w_ds w) net a (w_log w).
Lemma env_step f w : do_step (StEnv f) w =
  apply_calls (snd (f (w_app w) (w_net w))) (set_env (fst (fst (f (w_app w) (w_net w)))) (snd (fst (f (w_app w) (w_net w)))) w).
Proof. cbn [do_step]. by destruct (f (w_app w) (w_net w)) as [[a net] cs]. Qed.
Lemma grows_step s w : (forall ch buf, s <> StBytes ch buf) -> s <> StFeedback -> grows w (do_step s w).
Proof.
  intros Hnb Hnf. destruct s as [ch buf|sid h|f|]; [by destruct (Hnb ch buf) | simpl | rewrite env_step | done].
  - unfold openSession. destruct (find_session _ w); [done|]. set (w1 := put_session _ _ w).
    transitivity w1; [apply grows_put|].
    destruct (sendSegment_shape (local_ingress_id_ (cfg w)) sid 0 FLAG_SYN None 0 w1) as (r & f & ->).
    apply grows_only, sess_only_net.
  - set (w1 := set_env _ _ w). transitivity w1; [by apply grows_self | eapply called_grows, apply_calls_called].
Qed.
Lemma dd_step s w : (forall ch buf, s <> StBytes ch buf) -> same_dd w (do_step s w).
Proof.
  intros Hnb. destruct s; try by apply ds_sess_dd, grows_step.
  apply core_dd, emitFeedback_core.
Qed.
End facts.
