(* ===== verification/Framing.v ===== *)
(** * Framing: the byte streams of the links as sequences of frames

    The loop of [onChannelBytes] cuts the bytes of a link into frames as they
    arrive.  [split_frames] is the same cut as a function of the bytes alone: the
    loop is the fold of [on_frame] over it, however the bytes are chunked. *)
From S2P Require Import Prelude Proto OMap Segment Pack Channel Selector Links DataStream.
From S2P Require Import StreamFacts.

(** ** The cut *)
Inductive next := Need | Bad | Got (hr : Z) (hdr : FgwSegmentHeader).
Definition next_frame (buf : bytes) : next :=
  if zlen buf <? LEGACY_HEADER_SIZE then Need
  else
  let '(hr, hdr) := fgwSegmentPeekHeader buf (zlen buf) FgwSegmentHeader_default in
  if is_err hr ZFGW_ERRCODE_BADSEGMENT then Bad
  else if hr =? 0 then Need
  else if zlen buf <? hr + h_payload_len hdr then Need
  else Got hr hdr.

Record frame_in := mkFrame { f_hr : Z; f_hdr : FgwSegmentHeader; f_bytes : bytes }.

(** The frames, and the incomplete rest, or nothing after a bad segment. *)
Fixpoint split_fuel (fuel : nat) (buf : bytes) : list frame_in * option bytes :=
  match fuel with
  | O => ([], None)
  | S fuel =>
    match next_frame buf with
    | Need => ([], Some buf)
    | Bad => ([], None)
    | Got hr hdr =>
      let total := Z.to_nat (hr + h_payload_len hdr) in
      let '(fs, r) := split_fuel fuel (drop total buf) in
      (mkFrame hr hdr (take total buf) :: fs, r)
    end
  end.
Definition split_frames (buf : bytes) : list frame_in * option bytes :=
  split_fuel (S (length buf)) buf.

Definition f_payload (f : frame_in) : bytes := drop (Z.to_nat (f_hr f)) (f_bytes f).

(** ** Properties of one cut *)
Record got_spec (buf : bytes) (hr : Z) (hdr : FgwSegmentHeader) : Prop := {
  got_peek : peek_spec buf (zlen buf) hr hdr;
  got_hr : hr = 16 \/ hr = 20 \/ hr = 24;
  got_len : 0 <= h_payload_len hdr <= MAX_PAYLOAD;
  got_total : hr + h_payload_len hdr <= zlen buf }.

Lemma next_Got buf hr hdr : next_frame buf = Got hr hdr -> got_spec buf hr hdr.
Proof.
  unfold next_frame, LEGACY_HEADER_SIZE. destruct (Z.ltb_spec (zlen buf) 16) as [|H16]; [done|].
  pose proof (peek_decides buf [] FgwSegmentHeader_default) as Hd.
  destruct (fgwSegmentPeekHeader _ _ _) as [r h] eqn:Hp. destruct Hd as [Hd _].
  destruct (is_err r ZFGW_ERRCODE_BADSEGMENT) eqn:He; [done|].
  destruct (Z.eqb_spec r 0) as [|H0]; [done|].
  destruct (Z.ltb_spec (zlen buf) (r + h_payload_len h)); [done|]. intros [= <- <-].
  destruct Hd as [[??]|[->|(Hr & Hl & Hlen)]]; [done | by rewrite is_err_err in He |].
  constructor; try done. eapply peek_pos; [exact Hp | lia].
Qed.

Lemma next_app buf k : next_frame buf <> Need -> next_frame (buf ++ k) = next_frame buf.
Proof.
  unfold next_frame, LEGACY_HEADER_SIZE. pose proof (zlen_nonneg k).
  destruct (Z.ltb_spec (zlen buf) 16) as [|H16]; [done|].
  destruct (Z.ltb_spec (zlen (buf ++ k)) 16) as [Hlt|_]; [rewrite zlen_app in Hlt; lia|].
  pose proof (peek_app buf k FgwSegmentHeader_default) as Happ.
  destruct (fgwSegmentPeekHeader buf (zlen buf) _) as [r h]. cbn [fst] in Happ.
  destruct (Z.eqb_spec r 0) as [->|Hr0].
  - by change (is_err 0 ZFGW_ERRCODE_BADSEGMENT) with false.
  - rewrite Happ by done. destruct (is_err r ZFGW_ERRCODE_BADSEGMENT); [done|].
    destruct (Z.eqb_spec r 0); [done|].
    destruct (Z.ltb_spec (zlen buf) (r + h_payload_len h)); [done|].
    destruct (Z.ltb_spec (zlen (buf ++ k)) (r + h_payload_len h)) as [Hlt|]; [|done].
    rewrite zlen_app in Hlt. lia.
Qed.

(** What is left waiting is shorter than the largest frame. *)
Lemma next_Need_bound buf : next_frame buf = Need -> zlen buf < 24 + MAX_PAYLOAD.
Proof.
  unfold next_frame, LEGACY_HEADER_SIZE, MAX_PAYLOAD.
  destruct (Z.ltb_spec (zlen buf) 16) as [|H16]; [lia|].
  pose proof (peek_decides buf [] FgwSegmentHeader_default) as Hd.
  destruct (fgwSegmentPeekHeader _ _ _) as [r h]. destruct Hd as [Hd _].
  destruct (is_err r ZFGW_ERRCODE_BADSEGMENT) eqn:He; [done|].
  unfold MAX_PAYLOAD in Hd.
  destruct Hd as [[-> ?]|[->|(Hr & Hl & Hlen)]]; [simpl; lia | by rewrite is_err_err in He |].
  destruct (Z.eqb_spec r 0); [lia|].
  destruct (Z.ltb_spec (zlen buf) (r + h_payload_len h)); [lia | done].
Qed.

(** ** Fuel *)
Lemma got_shrinks buf hr hdr : got_spec buf hr hdr ->
  (length (drop (Z.to_nat (hr + h_payload_len hdr)) buf) < length buf)%nat.
Proof. intros [_ Hr Hl Ht]. rewrite length_drop. unfold zlen in Ht. lia. Qed.

Lemma split_fuel_enough fuel : forall buf fuel', (length buf < fuel)%nat -> (length buf < fuel')%nat ->
  split_fuel fuel buf = split_fuel fuel' buf.
Proof.
  induction fuel as [|fuel IH]; intros buf [|fuel'] Hf Hf'; [lia..|].
  cbn [split_fuel]. destruct (next_frame buf) as [| |hr hdr] eqn:Hn; [done..|].
  pose proof (got_shrinks _ _ _ (next_Got _ _ _ Hn)). rewrite (IH _ fuel'); [done | lia..].
Qed.

(** The equation of [split_frames], without fuel. *)
Lemma split_frames_eq buf :
  split_frames buf =
  match next_frame buf with
  | Need => ([], Some buf)
  | Bad => ([], None)
  | Got hr hdr =>
    let total := Z.to_nat (hr + h_payload_len hdr) in
    let '(fs, r) := split_frames (drop total buf) in
    (mkFrame hr hdr (take total buf) :: fs, r)
  end.
Proof.
  unfold split_frames at 1. cbn [split_fuel].
  destruct (next_frame buf) as [| |hr hdr] eqn:Hn; [done..|]. cbv zeta.
  pose proof (got_shrinks _ _ _ (next_Got _ _ _ Hn)).
  unfold split_frames. by rewrite (split_fuel_enough _ _ (S (length (drop (Z.to_nat (hr + h_payload_len hdr)) buf)))) by lia.
Qed.

(** Induction over the cut. *)
Lemma split_ind (P : bytes -> Prop) :
  (forall buf, (forall hr hdr, next_frame buf = Got hr hdr ->
     P (drop (Z.to_nat (hr + h_payload_len hdr)) buf)) -> P buf) -> forall buf, P buf.
Proof.
  intros Hstep buf. remember (length buf) as n eqn:Hn. revert buf Hn.
  induction n as [n IH] using lt_wf_ind. intros buf ->. apply Hstep. intros hr hdr Hg.
  eapply IH; [|reflexivity]. apply got_shrinks. by apply next_Got.
Qed.

(** Bytes that arrive later only extend the cut. *)
Lemma split_app buf : forall k fs r, split_frames buf = (fs, Some r) ->
  split_frames (buf ++ k) =
  (fs ++ fst (split_frames (r ++ k)), snd (split_frames (r ++ k))).
Proof.
  induction buf as [buf IH] using split_ind. intros k fs r.
  rewrite (split_frames_eq buf). destruct (next_frame buf) as [| |hr hdr] eqn:Hn; [|done|].
  - intros [= <- <-]. by destruct (split_frames (buf ++ k)).
  - specialize (IH _ _ eq_refl k). cbv zeta.
    pose proof (next_Got _ _ _ Hn) as [_ Hr Hl Ht].
    destruct (split_frames (drop _ buf)) as [fs' r'] eqn:Hs. intros [= <- ->].
    rewrite split_frames_eq, next_app, Hn by (by rewrite Hn). cbv zeta.
    rewrite drop_app_le, take_app_le by (unfold zlen in Ht; lia).
    by rewrite (IH _ _ eq_refl).
Qed.

(** After a bad segment the frames before it are all there is. *)
Lemma split_app_bad buf : forall k fs, split_frames buf = (fs, None) -> split_frames (buf ++ k) = (fs, None).
Proof.
  induction buf as [buf IH] using split_ind. intros k fs.
  rewrite (split_frames_eq buf). destruct (next_frame buf) as [| |hr hdr] eqn:Hn; [done| |].
  - intros [= <-]. by rewrite split_frames_eq, next_app, Hn by (by rewrite Hn).
  - specialize (IH _ _ eq_refl k). cbv zeta.
    pose proof (next_Got _ _ _ Hn) as [_ Hr Hl Ht].
    destruct (split_frames (drop _ buf)) as [fs' r'] eqn:Hs. intros [= <- ->].
    rewrite split_frames_eq, next_app, Hn by (by rewrite Hn). cbv zeta.
    rewrite drop_app_le, take_app_le by (unfold zlen in Ht; lia).
    by rewrite (IH _ eq_refl).
Qed.

(** A prefix of a well-framed stream is well framed, with a prefix of the frames. *)
Lemma split_prefix a b fs r : split_frames (a ++ b) = (fs, Some r) ->
  exists fs1 r1, split_frames a = (fs1, Some r1) /\
    fs = fs1 ++ fst (split_frames (r1 ++ b)) /\ snd (split_frames (r1 ++ b)) = Some r.
Proof.
  intros Hab. destruct (split_frames a) as [fs1 [r1|]] eqn:Ha.
  - rewrite (split_app a b fs1 r1 Ha) in Hab. injection Hab as <- Hr. eauto.
  - by rewrite (split_app_bad a b fs1 Ha) in Hab.
Qed.

Lemma split_rest_bound buf fs r : split_frames buf = (fs, Some r) -> zlen r < 24 + MAX_PAYLOAD.
Proof.
  revert fs. induction buf as [buf IH] using split_ind. intros fs. rewrite split_frames_eq.
  destruct (next_frame buf) as [| |hr hdr] eqn:Hn; [|done|].
  - intros [= _ <-]. by apply next_Need_bound.
  - cbv zeta. specialize (IH _ _ eq_refl). destruct (split_frames (drop _ buf)) as [fs' r'].
    intros [= _ ->]. by eapply IH.
Qed.

(** A frame is its header followed by the announced payload. *)
Record frame_shape (f : frame_in) : Prop := {
  fs_hr : f_hr f = 16 \/ f_hr f = 20 \/ f_hr f = 24;
  fs_len : 0 <= h_payload_len (f_hdr f) <= MAX_PAYLOAD;
  fs_total : zlen (f_bytes f) = f_hr f + h_payload_len (f_hdr f);
  fs_payload : zlen (f_payload f) = h_payload_len (f_hdr f) }.

Lemma split_shape buf : Forall frame_shape (fst (split_frames buf)).
Proof.
  induction buf as [buf IH] using split_ind. rewrite split_frames_eq.
  destruct (next_frame buf) as [| |hr hdr] eqn:Hn; [constructor..|].
  cbv zeta. specialize (IH _ _ eq_refl). destruct (split_frames (drop _ buf)) as [fs r].
  constructor; [|exact IH]. pose proof (next_Got _ _ _ Hn) as [_ Hr Hl Ht].
  constructor; cbn [f_hr f_hdr f_bytes]; try done.
  - apply zlen_take. lia.
  - unfold f_payload. cbn [f_hr f_bytes].
    rewrite zlen_drop; rewrite zlen_take; lia.
Qed.

Lemma split_bytes buf : Forall is_byte buf ->
  Forall (fun f => Forall is_byte (f_bytes f)) (fst (split_frames buf)) /\
  (forall r, snd (split_frames buf) = Some r -> Forall is_byte r).
Proof.
  induction buf as [buf IH] using split_ind. intros Hb. rewrite split_frames_eq.
  destruct (next_frame buf) as [| |hr hdr] eqn:Hn.
  - split; [constructor | by intros r [= <-]].
  - split; [constructor | done].
  - cbv zeta. specialize (IH _ _ eq_refl (Forall_drop _ _ _ Hb)).
    destruct (split_frames (drop _ buf)) as [fs r]. destruct IH as [IH1 IH2].
    split; [|exact IH2]. constructor; [|exact IH1]. by apply Forall_take.
Qed.

Lemma split_hdrs (Q : FgwSegmentHeader -> Prop) :
  (forall buf hr hdr, Forall is_byte buf -> got_spec buf hr hdr -> Q hdr) ->
  forall buf, Forall is_byte buf -> Forall (fun f => Q (f_hdr f)) (fst (split_frames buf)).
Proof.
  intros HQ buf. induction buf as [buf IH] using split_ind. intros Hb. rewrite split_frames_eq.
  destruct (next_frame buf) as [| |hr hdr] eqn:Hn; [constructor..|]. cbv zeta.
  specialize (IH _ _ eq_refl (Forall_drop _ _ _ Hb)).
  destruct (split_frames (drop _ buf)) as [fs r]. constructor; [|exact IH]. cbn [f_hdr].
  by eapply HQ, next_Got.
Qed.
Lemma split_u32 buf : Forall is_byte buf ->
  Forall (fun f => is_u32 (h_seq_num (f_hdr f))) (fst (split_frames buf)).
Proof.
  apply (split_hdrs (fun h => is_u32 (h_seq_num h))). intros b hr h Hb [[] _ _ _]. rewrite pk_seq.
  by apply unpack_be32_u32, Forall_drop.
Qed.
(** The keys of sessions that a peer can name. *)
Definition key_ok (k : SessionKey) : Prop := is_u32 (fst k) /\ is_u32 (snd k).
Lemma split_keys buf : Forall is_byte buf ->
  Forall (fun f => key_ok (seg_key (f_hdr f))) (fst (split_frames buf)).
Proof.
  apply (split_hdrs (fun h => key_ok (seg_key h))). intros b hr h Hb [[] _ _ _]. unfold key_ok, seg_key. cbn [fst snd].
  assert (Hu : forall n, is_u32 (unpack_be32 (drop n b))) by (intros n; by apply unpack_be32_u32, Forall_drop).
  rewrite pk_sid. split; [|apply Hu]. destruct (isHdrExt h); [|done]. by destruct pk_ing as [-> | ->].
Qed.

(** ** The loop is the fold over the cut *)
Section stream.
Context {H : Type} {app : SessionHandler H}.
Context {rt : ZdsRuntime} {T : Transport} {sort : StdSort}.
Implicit Types (w : world H).

Definition on_frame_in (ch : Z) w (f : frame_in) : world H :=
  on_frame ch (f_hdr f) (f_hr f) (f_bytes f) w.
Definition on_frames (ch : Z) (fs : list frame_in) w : world H :=
  fold_left (on_frame_in ch) fs w.

Lemma on_frame_take ch hdr hr buf w : 4 <= hr -> 0 <= h_payload_len hdr ->
  on_frame ch hdr hr buf w =
  on_frame ch hdr hr (take (Z.to_nat (hr + h_payload_len hdr)) buf) w.
Proof.
  intros Hr Hl. unfold on_frame, fgwSegmentVerifyCrc. rewrite !crc_ok_input. unfold crc_input.
  rewrite take_take, skipn_firstn_comm, take_take.
  replace (Z.to_nat (hr - 4) `min` Z.to_nat (hr + h_payload_len hdr))%nat
    with (Z.to_nat (hr - 4)) by lia.
  replace (Z.to_nat (hr + h_payload_len hdr) - Z.to_nat hr)%nat
    with (Z.to_nat (h_payload_len hdr)) by lia.
  by rewrite Nat.min_id.
Qed.

(** The fuel of [onChannelBytes] is enough, and the loop computes the cut. *)
Lemma parse_loop_split fuel : forall ch buf w, (length buf < fuel)%nat ->
  parse_loop fuel ch buf w =
  Some (default [] (snd (split_frames buf)), on_frames ch (fst (split_frames buf)) w).
Proof.
  induction fuel as [|fuel IH]; intros ch buf w Hf; [lia|].
  rewrite split_frames_eq. cbn [parse_loop]. unfold next_frame.
  pose proof (next_Got buf) as Hgot. unfold next_frame in Hgot.
  destruct (zlen buf <? LEGACY_HEADER_SIZE); [done|].
  destruct (fgwSegmentPeekHeader buf (zlen buf) FgwSegmentHeader_default) as [hr hdr].
  destruct (is_err hr ZFGW_ERRCODE_BADSEGMENT); [done|].
  destruct (hr =? 0); [done|].
  destruct (zlen buf <? hr + h_payload_len hdr); [done|].
  specialize (Hgot _ _ eq_refl). pose proof (got_shrinks _ _ _ Hgot).
  destruct Hgot as [_ Hr Hl Ht]. cbv zeta. rewrite IH by lia.
  rewrite on_frame_take by lia.
  by destruct (split_frames (drop (Z.to_nat (hr + h_payload_len hdr)) buf)) as [fs r].
Qed.

Lemma onChannelBytes_split ch buf w :
  let b := default [] (scratch_ (w_ds w) !! ch) ++ buf in
  onChannelBytes ch buf w =
  on_ds (fun d => set_scratch (<[ch := default [] (snd (split_frames b))]> (scratch_ d)) d)
    (on_frames ch (fst (split_frames b)) w).
Proof. cbv zeta. unfold onChannelBytes. by rewrite parse_loop_split by lia. Qed.

Lemma io_on_frames ch fs w : same_io w (on_frames ch fs w).
Proof.
  revert w. induction fs as [|f fs IH]; intros w; [done|].
  etrans; [apply io_on_frame | apply IH].
Qed.
End stream.

(** ** The frames of a run *)

(** The frames the steps complete, in the order they are processed, from the
    scratch buffers [scr]. *)
Fixpoint frame_trace {H} (scr : gmap Z bytes) (ss : list (stream_step H)) : list frame_in :=
  match ss with
  | [] => []
  | StBytes ch buf :: ss =>
    let '(fs, r) := split_frames (default [] (scr !! ch) ++ buf) in
    fs ++ frame_trace (<[ch := default [] r]> scr) ss
  | _ :: ss => frame_trace scr ss
  end.

(** What holds of every frame of every link holds of the frames of the run. *)
Lemma links_trace {H} (Q : frame_in -> Prop) (ss : list (stream_step H)) : forall scr,
  (forall ch, exists r, snd (split_frames (default [] (scr !! ch) ++ bytes_on ch ss)) = Some r /\
     Forall Q (fst (split_frames (default [] (scr !! ch) ++ bytes_on ch ss)))) ->
  Forall Q (frame_trace scr ss).
Proof.
  induction ss as [|[ch buf|sid h|c|] ss IH]; intros scr Hl; simpl; [constructor | | by apply IH..].
  destruct (split_frames (default [] (scr !! ch) ++ buf)) as [fs o] eqn:Hs.
  pose proof (Hl ch) as (r & Hr & Hall). simpl in Hr, Hall.
  rewrite Z.eqb_refl, app_assoc in Hr, Hall.
  destruct (split_frames ((default [] (scr !! ch) ++ buf) ++ bytes_on ch ss)) as [fs2 o2] eqn:Hs2.
  simpl in Hr. subst o2. destruct (split_prefix _ _ _ _ Hs2) as (fs1 & r1 & Hs' & -> & Hr1).
  rewrite Hs in Hs'. injection Hs' as -> ->. apply Forall_app in Hall as [Hall1 Hall2].
  apply Forall_app. split; [done|]. apply IH. intros ch'.
  destruct (decide (ch' = ch)) as [->|Hne].
  - rewrite lookup_insert_eq. exists r. done.
  - rewrite lookup_insert_ne by done. destruct (Hl ch') as (r' & Hr' & Hall').
    simpl in Hr', Hall'. destruct (Z.eqb_spec ch ch'); [done|]. eauto.
Qed.

Section trace.
Context {H : Type} {app : SessionHandler H}.
Context {rt : ZdsRuntime} {T : Transport} {sort : StdSort}.
Context (I : list frame_in -> world H -> Prop) (S : stream_step H -> Prop) (tr : list frame_in).

(** Induction along a run: an invariant that may speak of the frames processed so
    far, which are a prefix of the frames [tr] of the whole run. *)
Lemma trace_ind :
  (forall past w, I past w -> forall ch b, scratch_ (w_ds w) !! ch = Some b -> Forall is_byte b) ->
  (forall ch past f rest w, tr = past ++ f :: rest -> frame_shape f -> is_u32 (h_seq_num (f_hdr f)) ->
     I past w -> I (past ++ [f]) (on_frame_in ch w f)) ->
  (forall past w ch r, I past w -> Forall is_byte r -> zlen r < 24 + MAX_PAYLOAD ->
     I past (on_ds (fun d => set_scratch (<[ch := r]> (scratch_ d)) d) w)) ->
  (forall past w s, S s -> (forall ch buf, s <> StBytes ch buf) -> I past w -> I past (do_step s w)) ->
  forall ss past w, tr = past ++ frame_trace (scratch_ (w_ds w)) ss ->
  Forall (fun s => S s /\ match s with StBytes _ buf => Forall is_byte buf | _ => True end) ss ->
  I past w -> I tr (do_steps ss w).
Proof.
  intros Hbytes Hframe Hscr Hother.
  assert (Hframes : forall ch fs past rest w, tr = past ++ fs ++ rest -> Forall frame_shape fs ->
    Forall (fun f => is_u32 (h_seq_num (f_hdr f))) fs -> I past w -> I (past ++ fs) (on_frames ch fs w)).
  { intros ch fs. induction fs as [|f fs IH]; intros past rest w Htr Hsh Hu HI; [by rewrite app_nil_r|].
    inversion Hsh; inversion Hu; subst. change (f :: fs) with ([f] ++ fs). rewrite app_assoc.
    apply (IH _ rest); [by rewrite <- app_assoc | done | done |]. by eapply Hframe. }
  induction ss as [|s ss IH]; intros past w Htr Hss HI.
  { by rewrite Htr, app_nil_r. }
  inversion Hss as [|? ? [Hs Hb] Hss']; subst x l.
  assert (Hrest : (forall ch buf, s <> StBytes ch buf) -> I tr (do_steps (s :: ss) w)).
  { intros Hnb. apply (IH past); [|done | by apply Hother].
    rewrite (proj1 (proj2 (proj1 (dd_step s w Hnb)))). destruct s; [by destruct (Hnb ch buf) | done..]. }
  destruct s as [ch buf|sid h|c|]; [clear Hrest | by apply Hrest..].
  cbn [do_steps fold_left do_step]. rewrite onChannelBytes_split. simpl in Htr.
  set (b := default [] (scratch_ (w_ds w) !! ch) ++ buf) in *.
  assert (Hbb : Forall is_byte b).
  { apply Forall_app. split; [|done]. destruct (scratch_ (w_ds w) !! ch) as [x|] eqn:Hx; [|constructor].
    by eapply Hbytes. }
  pose proof (split_shape b) as Hsh. pose proof (split_u32 b Hbb) as Hu.
  pose proof (proj2 (split_bytes b Hbb)) as Hr. pose proof (split_rest_bound b) as Hrb.
  destruct (split_frames b) as [fs r]. simpl in Hsh, Hu, Hr |- *.
  apply (IH (past ++ fs)).
  - simpl. rewrite (proj1 (proj2 (io_on_frames ch fs w))), <- app_assoc. exact Htr.
  - done.
  - apply Hscr; [by eapply Hframes | destruct r; [by apply Hr | constructor] |].
    destruct r; [by eapply Hrb | done].
Qed.
End trace.
