(* ===== verification/StreamWf.v ===== *)
(** * StreamWf: the invariant of a data stream

    Bounds that hold in every reachable state, whatever bytes the peer sends:
    reassembly buffers stay within the receive window, the duplicate table within
    its ring, the scratch buffers within one frame. *)
From S2P Require Import Prelude Proto OMap Segment Pack Channel Selector Links DataStream.
From S2P Require Import StreamFacts Framing Testbed.

(** ** The invariant *)
Record sess_wf (win : Z) (k : SessionKey) (st : SessionState) : Prop := {
  sw_ids : (wire_ingress_id st, session_id st) = k;
  sw_open : closed st = false;
  sw_exp : is_u32 (expected_rx_seq st);
  sw_sorted : om_ok (rx_buffer st);
  sw_keys : forall s, In s (om_keys (rx_buffer st)) ->
    is_u32 s /\ s -u32 expected_rx_seq st < win }.

Record dedup_wf (d : DataStream) : Prop := {
  dw_nodup : List.NoDup (dedup_queue_ d);
  dw_set : forall dk, dk ∈ dedup_map_ d <-> In dk (dedup_queue_ d);
  dw_len : zlen (dedup_queue_ d) <= kDedupRing }.

Definition scratch_wf (d : DataStream) : Prop :=
  forall ch b, scratch_ d !! ch = Some b -> Forall is_byte b /\ zlen b < 24 + MAX_PAYLOAD.

Definition cfg_wf (c : StreamConfig) : Prop :=
  0 < segment_size_ c <= MAX_PAYLOAD /\ 0 < recv_window_ c < 2 ^ 16.

Record stream_wf {H} (w : world H) : Prop := {
  st_cfg : cfg_wf (cfg w);
  st_sess : forall k st, rx_of k w = Some st -> sess_wf (recv_window_ (cfg w)) k st;
  st_dedup : dedup_wf (w_ds w);
  st_scratch : scratch_wf (w_ds w) }.

(** ** Sequence numbers *)
Lemma rel_succ s e : is_u32 s -> is_u32 e -> s <> e -> s -u32 (e +u32 1) = (s -u32 e) - 1.
Proof.
  intros Hs He Hne. unfold u32. rewrite Zminus_mod_idemp_r.
  assert (0 < (s - e) mod 2 ^ 32).
  { pose proof (Z.mod_pos_bound (s - e) (2 ^ 32)). unfold is_u32 in *.
    assert ((s - e) mod 2 ^ 32 <> 0); [|lia]. intros H0. apply Z.mod_divide in H0; [|lia].
    destruct H0 as [q Hq]. assert (q = 0) by nia. lia. }
  replace (s - (e + 1)) with (s - e - 1) by lia.
  rewrite <- (Zminus_mod_idemp_l (s - e)). apply Z.mod_small.
  pose proof (Z.mod_pos_bound (s - e) (2 ^ 32)). lia.
Qed.

Lemma rel_inj s s' e : is_u32 s -> is_u32 s' -> s -u32 e = s' -u32 e -> s = s'.
Proof.
  intros Hs Hs' He. apply (mod_run_inj (- e) (2 ^ 32)); unfold is_u32 in *; try lia.
  unfold u32 in He. by rewrite !(Z.add_comm (- e)), <- !Z.sub_opp_r, !Z.opp_involutive.
Qed.

(** ** The reassembly buffer *)
Lemma take_run_wf win b : forall e ready e' rest,
  take_run e b = (ready, e', rest) -> is_u32 e -> om_ok b ->
  (forall s, In s (om_keys b) -> is_u32 s /\ s -u32 e < win) ->
  is_u32 e' /\ om_ok rest /\ (forall s, In s (om_keys rest) -> is_u32 s /\ s -u32 e' < win).
Proof.
  induction b as [|[k blk] b IH]; intros e ready e' rest; simpl.
  - intros [= <- <- <-]. done.
  - destruct (Z.eqb_spec k e) as [->|Hne]; [|by intros [= <- <- <-]].
    destruct (take_run (e +u32 1) b) as [[r e1] rest1] eqn:Ht. intros [= <- <- <-] He Hok Hk.
    eapply IH; [exact Ht | apply u32_range | by eapply om_ok_tail |].
    intros s Hs. destruct (Hk s) as [Hs32 Hrel]; [by right|]. split; [done|].
    rewrite rel_succ; [lia | done | done |]. pose proof (om_head_least _ _ _ _ Hok Hs). lia.
Qed.

(** At most a window of segments is buffered. *)
Lemma rx_buffer_bound win k st : 0 <= win -> sess_wf win k st -> zlen (rx_buffer st) <= win.
Proof.
  intros Hw [_ _ He Hok Hk].
  assert (Hnd : List.NoDup (map (fun s => s -u32 expected_rx_seq st) (om_keys (rx_buffer st)))).
  { apply NoDup_map_inj; [by apply om_NoDup|]. intros x y Hx Hy. apply rel_inj; by apply Hk. }
  assert (Hincl : incl (map (fun s => s -u32 expected_rx_seq st) (om_keys (rx_buffer st)))
                    (map Z.of_nat (seq 0 (Z.to_nat win)))).
  { intros x (s & <- & Hs)%in_map_iff. destruct (Hk s Hs) as [_ Hr].
    pose proof (u32_range (s - expected_rx_seq st)) as Hpos. unfold is_u32 in Hpos.
    apply in_map_iff. exists (Z.to_nat (s -u32 expected_rx_seq st)).
    split; [lia|]. apply in_seq. lia. }
  apply NoDup_incl_length in Hincl; [|done].
  unfold om_keys in Hincl. rewrite !length_map, length_seq in Hincl. unfold zlen. lia.
Qed.

(** ** The duplicate table *)
Lemma record_dedup_wf dk d : dedup_wf d -> dk ∉ dedup_map_ d -> dedup_wf (record_dedup dk d).
Proof.
  intros [Hnd Hset Hlen] Hnew. unfold record_dedup.
  assert (Hnin : ~ In dk (dedup_queue_ d)) by (by rewrite <- Hset).
  assert (Hnd' : List.NoDup (dedup_queue_ d ++ [dk])).
  { apply List.NoDup_app; [done | repeat constructor; by intros [] |]. intros x Hx [<-|[]]. done. }
  assert (Hset' : forall x, x ∈ {[dk]} ∪ dedup_map_ d <-> In x (dedup_queue_ d ++ [dk])).
  { intros x. rewrite in_app_iff. simpl. set_unfold. rewrite Hset. intuition. }
  pose proof (zlen_app (dedup_queue_ d) [dk]) as Hl. change (zlen [dk]) with 1 in Hl.
  destruct (Z.ltb_spec kDedupRing (zlen (dedup_queue_ d ++ [dk]))) as [Hgt|Hle].
  - destruct (dedup_queue_ d ++ [dk]) as [|front q] eqn:Hq; [done|].
    apply List.NoDup_cons_iff in Hnd' as [Hfront Hq']. constructor; simpl; [done | |].
    + intros x. rewrite elem_of_difference, Hset', not_elem_of_singleton. simpl.
      split; [intuition congruence | intros Hx; split; [auto | by intros ->]].
    + rewrite zlen_cons in Hgt, Hl. lia.
  - by constructor.
Qed.

(** ** Preservation *)
Section preservation.
Context {H : Type} {app : SessionHandler H}.
Context {rt : ZdsRuntime} {T : Transport} {sort : StdSort}.
Implicit Types (w : world H).

Lemma sess_wf_view win k st : sess_wf win k (rx_view st) <-> sess_wf win k st.
Proof. split; intros []; by constructor. Qed.

Lemma wf_find w k st : stream_wf w -> find_session k w = Some st ->
  sess_wf (recv_window_ (cfg w)) k st.
Proof.
  intros Hw Hf. apply sess_wf_view. apply (st_sess _ Hw). unfold rx_of. by rewrite Hf.
Qed.

Lemma wf_called l w w' : called l w w' -> stream_wf w -> stream_wf w'.
Proof.
  intros [Hd (l' & _ & _ & Hr)] [Hc Hs Hdd Hsc]. pose proof (ds_sess_cfg _ _ Hd) as Hcfg.
  destruct Hd as [s Hd]. constructor.
  - by rewrite Hcfg.
  - rewrite Hcfg. intros k st Hk. destruct (Hr k) as [Heq|[Heq _]]; rewrite Heq in Hk; [|done].
    by apply Hs.
  - rewrite Hd. by destruct Hdd.
  - by rewrite Hd.
Qed.

Lemma wf_put k st w : stream_wf w -> sess_wf (recv_window_ (cfg w)) k st ->
  stream_wf (put_session k st w).
Proof.
  intros [Hc Hs Hdd Hsc] Hst. constructor; try done; [|by destruct Hdd].
  intros k' st'. unfold rx_of. destruct (decide (k' = k)) as [->|Hne].
  - rewrite find_put_eq. intros [= <-]. by apply sess_wf_view.
  - rewrite find_put_ne by done. apply Hs.
Qed.
Lemma wf_erase k w : stream_wf w -> stream_wf (erase_session k w).
Proof.
  intros [Hc Hs Hdd Hsc]. constructor; try done; [|by destruct Hdd]. intros k' st'. unfold rx_of.
  destruct (decide (k' = k)) as [->|]; [by rewrite find_erase_eq | rewrite find_erase_ne by done; apply Hs].
Qed.

Lemma wf_core w w' : same_core (w_ds w) (w_ds w') -> stream_wf w -> stream_wf w'.
Proof.
  intros (Hcf & Hse & Hsc & Hq & Hm & _) [Hc Hs Hdd Hsw].
  assert (Hcfg : cfg w' = cfg w) by done. constructor.
  - by rewrite Hcfg.
  - rewrite Hcfg. intros k st. unfold rx_of, find_session. rewrite Hse. apply Hs.
  - destruct Hdd. constructor; by rewrite ?Hq, ?Hm.
  - unfold scratch_wf. by rewrite Hsc.
Qed.

Lemma wf_on_net f w : stream_wf w -> stream_wf (on_net f w).
Proof. by apply wf_core. Qed.
Lemma wf_set_app a w : stream_wf w -> stream_wf (set_app a w).
Proof. by apply wf_core. Qed.
Lemma wf_counts a b w : stream_wf w -> stream_wf (on_ds (set_counts a b) w).
Proof. by apply wf_core. Qed.
Lemma wf_epochs a b c w : stream_wf w -> stream_wf (on_ds (set_epochs a b c) w).
Proof. by apply wf_core. Qed.

Lemma wf_new_session win k h : 0 < win -> sess_wf win k (new_session (snd k) (fst k) h).
Proof.
  intros Hw. destruct k as [ing sid]. constructor; simpl; try done.
  constructor.
Qed.

Lemma wf_ensure k w : stream_wf w -> stream_wf (ensure_session k w).
Proof.
  intros Hw. unfold ensure_session. destruct (find_session k w); [done|].
  destruct (if unknown_cb_set (w_ds w) then _ else _) as [h a].
  apply (wf_put k _ (set_app a w)); [by apply wf_set_app|].
  apply wf_new_session. destruct (st_cfg _ Hw). unfold cfg in *. simpl. lia.
Qed.

Lemma wf_on_syn k w : stream_wf w -> stream_wf (on_syn k w).
Proof.
  intros Hw. unfold on_syn. pose proof (wf_ensure k w Hw) as He.
  destruct (find_session k (ensure_session k w)) as [st|]; [|done].
  destruct (handler st) as [h|]; [|done]. eapply wf_called; [apply call_open_called | done].
Qed.

Lemma wf_on_fin k w : stream_wf w -> stream_wf (on_fin k w).
Proof.
  intros Hw. unfold on_fin. destruct (find_session k w) as [st|]; [|done].
  apply wf_erase. destruct (handler st) as [h|]; [|done].
  eapply wf_called; [apply call_close_called | done].
Qed.

Lemma wf_deliver k st w : stream_wf w -> find_session k w = Some st ->
  stream_wf (deliverInOrder k st w).
Proof.
  intros Hw Hf. unfold deliverInOrder. destruct (handler st) as [h|] eqn:Hh; [|done].
  destruct (take_run _ _) as [[ready e] rest] eqn:Ht.
  eapply wf_called; [apply deliver_all_called|]. apply wf_put; [done|].
  destruct (wf_find _ _ _ Hw Hf) as [Hi Ho He Hok Hk].
  destruct (take_run_wf (recv_window_ (cfg w)) _ _ _ _ _ Ht He Hok Hk) as (He' & Hok' & Hk').
  by constructor.
Qed.

Lemma wf_on_data k seq p w : stream_wf w -> is_u32 seq -> out_of_window k seq w = false ->
  stream_wf (on_data k seq p w).
Proof.
  intros Hw Hseq Hwin. unfold on_data.
  pose proof (wf_ensure k w Hw) as He. destruct (ensure_find k w) as [h Hf]. rewrite Hf.
  set (st := default _ _) in *.
  assert (Hst : sess_wf (recv_window_ (cfg w)) k st) by (rewrite <- (ensure_cfg k w); by eapply wf_find).
  assert (Hrel : seq -u32 expected_rx_seq st < recv_window_ (cfg w)).
  { unfold out_of_window in Hwin. unfold st. destruct (find_session k w); simpl; lia. }
  set (st' := if mb_acquire _ then _ else _).
  assert (Hst' : sess_wf (recv_window_ (cfg (ensure_session k w))) k st').
  { rewrite ensure_cfg. unfold st'. destruct (mb_acquire (zlen p)); [|done].
    destruct Hst as [Hi Ho Hx Hok Hk]. constructor; simpl; auto with fgw.
    intros s. unfold om_emplace. destruct (om_find seq (rx_buffer st)); [by apply Hk|].
    intros [->|Hs]%om_keys_insert; auto. }
  apply wf_deliver; [by apply wf_put | apply find_put_eq].
Qed.

Lemma wf_record dk w : stream_wf w -> dk ∉ dedup_map_ (w_ds w) ->
  stream_wf (on_ds (record_dedup dk) w).
Proof.
  intros Hw Hnew. pose proof (record_dedup_wf dk (w_ds w) (st_dedup _ Hw) Hnew) as Hd.
  destruct (record_dedup_shape dk (w_ds w)) as (q & m & Hs). destruct Hw as [Hc Hse _ Hsc].
  constructor; simpl; try done; unfold cfg in *; simpl; rewrite Hs; try done.
  intros k st. unfold rx_of, find_session. simpl. rewrite Hs. apply Hse.
Qed.

(** Opening a session does not move its window. *)
Lemma window_ensure k seq w : out_of_window k seq (ensure_session k w) = out_of_window k seq w.
Proof.
  unfold out_of_window. rewrite ensure_cfg. destruct (ensure_find k w) as [h ->].
  by destruct (find_session k w).
Qed.
Lemma window_on_syn k seq w : out_of_window k seq (on_syn k w) = out_of_window k seq w.
Proof.
  pose proof (window_ensure k seq w) as He.
  unfold on_syn. destruct (find_session k (ensure_session k w)) as [st|]; [|done].
  by destruct (handler st).
Qed.

Lemma wf_dispatch k hdr p w : stream_wf w -> is_u32 (h_seq_num hdr) ->
  has_data hdr && out_of_window k (h_seq_num hdr) w = false -> stream_wf (dispatch k hdr p w).
Proof.
  intros Hw Hseq Hwin. unfold dispatch. set (w2 := if isSyn hdr then on_syn k w else w).
  assert (Hw2 : stream_wf w2) by (unfold w2; destruct (isSyn hdr); [by apply wf_on_syn | done]).
  assert (Heq : out_of_window k (h_seq_num hdr) w2 = out_of_window k (h_seq_num hdr) w)
    by (unfold w2; destruct (isSyn hdr); [apply window_on_syn | done]).
  destruct (isFin hdr); [by apply wf_on_fin|]. destruct (has_data hdr); [|done].
  apply wf_on_data; try done. by rewrite Heq.
Qed.

Lemma wf_count_loss pc w : stream_wf w -> stream_wf (count_loss pc w).
Proof. apply wf_core, count_loss_core. Qed.
Lemma count_win_core pc w : same_core (w_ds w) (w_ds (count_win pc w)).
Proof. unfold count_win. simpl. by destruct (pc =? 0). Qed.
Lemma wf_count_win pc w : stream_wf w -> stream_wf (count_win pc w).
Proof. apply wf_core, count_win_core. Qed.

Lemma wf_on_segment ch hdr p w : stream_wf w -> is_u32 (h_seq_num hdr) ->
  stream_wf (on_segment ch hdr p w).
Proof.
  intros Hw Hseq. unfold on_segment.
  destruct (decide (dedup_key hdr ∈ dedup_map_ (w_ds w))) as [|Hnew]; [by apply wf_count_loss|].
  destruct (has_data hdr && out_of_window (seg_key hdr) (h_seq_num hdr) w) eqn:Hwin; [done|].
  apply wf_dispatch; [by apply wf_count_win, wf_record | done |].
  unfold out_of_window in Hwin |- *. by rewrite count_win_find, count_win_cfg, record_find, record_cfg.
Qed.

Lemma wf_on_frame ch hdr hr f w : stream_wf w -> is_u32 (h_seq_num hdr) ->
  stream_wf (on_frame ch hdr hr f w).
Proof.
  intros Hw Hseq. unfold on_frame.
  destruct (verify_crc_ (cfg w) && negb (fgwSegmentVerifyCrc f hdr hr)); [done|].
  set (w1 := on_net _ w). assert (Hw1 : stream_wf w1) by by apply wf_on_net.
  destruct (isHello hdr); [eapply wf_core; [apply on_hello_core | done]|].
  destruct (isHeartbeat hdr); [done|].
  destruct (isAck hdr); [eapply wf_core; [apply on_ack_core | done] | by apply wf_on_segment].
Qed.

Lemma wf_on_frames ch fs w : stream_wf w ->
  Forall (fun f => is_u32 (h_seq_num (f_hdr f))) fs -> stream_wf (on_frames ch fs w).
Proof.
  revert w. induction fs as [|f fs IH]; intros w Hw Hall; [done|].
  inversion Hall; subst. apply IH; [by apply wf_on_frame | done].
Qed.


Lemma wf_scratch w ch r : Forall is_byte r -> zlen r < 24 + MAX_PAYLOAD -> stream_wf w ->
  stream_wf (on_ds (fun d => set_scratch (<[ch := r]> (scratch_ d)) d) w).
Proof.
  intros Hr Hl [Hc Hse Hdd Hsc]. constructor; try done; [by destruct Hdd|].
  intros ch' b. simpl. destruct (decide (ch' = ch)) as [->|Hne].
  - rewrite lookup_insert_eq. by intros [= <-].
  - rewrite lookup_insert_ne by done. apply Hsc.
Qed.

Lemma wf_onChannelBytes ch buf w : stream_wf w -> Forall is_byte buf ->
  stream_wf (onChannelBytes ch buf w).
Proof.
  intros Hw Hbuf. rewrite onChannelBytes_split. set (b := default [] _ ++ buf).
  assert (Hb : Forall is_byte b).
  { apply Forall_app. split; [|done]. destruct (scratch_ (w_ds w) !! ch) as [s|] eqn:Hs; [|constructor].
    by destruct (st_scratch _ Hw _ _ Hs). }
  pose proof (wf_on_frames ch _ w Hw (split_u32 b Hb)) as Hw'.
  pose proof (proj2 (split_bytes b Hb)) as Hr. pose proof (split_rest_bound b) as Hl.
  destruct (split_frames b) as [fs [r|]]; simpl in *.
  - apply wf_scratch; [by apply Hr | by eapply Hl | done].
  - by apply wf_scratch.
Qed.

Lemma wf_send_segment ing sid seq fl p n w : stream_wf w ->
  stream_wf (snd (sendSegment ing sid seq fl p n w)).
Proof.
  destruct (sendSegment_shape ing sid seq fl p n w) as (r & f & ->). apply wf_on_net.
Qed.

Lemma wf_apply_calls cs w : stream_wf w -> stream_wf (apply_calls cs w).
Proof. eapply wf_called, apply_calls_called. Qed.

Lemma wf_openSession sid h w : stream_wf w -> stream_wf (snd (openSession sid h w)).
Proof.
  intros Hw. unfold openSession. destruct (find_session _ w) as [st|]; [done|].
  set (w1 := put_session _ _ w).
  assert (Hw1 : stream_wf w1).
  { apply wf_put; [done|]. pose proof (st_cfg _ Hw) as [_ Hwin].
    destruct (wf_new_session (recv_window_ (cfg w)) (local_ingress_id_ (cfg w), sid) h ltac:(lia)).
    by constructor. }
  pose proof (wf_send_segment (local_ingress_id_ (cfg w)) sid 0 FLAG_SYN None 0 w1 Hw1) as Hs.
  by destruct (sendSegment _ _ _ _ _ _ w1).
Qed.

Lemma wf_emitFeedback w : stream_wf w -> stream_wf (emitFeedback w).
Proof. apply wf_core, emitFeedback_core. Qed.

Definition step_bytes (s : stream_step H) : Prop :=
  match s with StBytes _ buf => Forall is_byte buf | _ => True end.

Lemma wf_steps ss w : stream_wf w -> Forall step_bytes ss -> stream_wf (do_steps ss w).
Proof.
  revert w. induction ss as [|s ss IH]; intros w Hw Hall; [done|].
  inversion Hall; subst. apply IH; [|done].
  destruct s as [ch buf|sid h|f|]; [by apply wf_onChannelBytes | by apply wf_openSession | | by apply wf_emitFeedback].
  rewrite env_step. set (w1 := set_env _ _ w). assert (Hw1 : stream_wf w1) by (by destruct Hw).
  apply wf_apply_calls, Hw1.
Qed.

Lemma scratch_app ch buf w : stream_wf w -> Forall is_byte buf ->
  Forall is_byte (default [] (scratch_ (w_ds w) !! ch) ++ buf).
Proof.
  intros Hw Hb. apply Forall_app. split; [|done]. destruct (scratch_ (w_ds w) !! ch) as [b|] eqn:Hs; [|constructor].
  by apply (st_scratch _ Hw ch b).
Qed.

Lemma wf_new loc ss win v r net a l : 0 <= ss < 2 ^ 16 -> 0 <= win < 2 ^ 16 ->
  stream_wf (mkWorld (H := H) (new_stream loc ss win v r) net a l).
Proof.
  intros Hss Hwin. constructor; simpl; unfold cfg, rx_of, find_session; simpl.
  - unfold cfg_wf, MAX_PAYLOAD. simpl.
    destruct (Z.eqb_spec ss 0); destruct (Z.ltb_spec 65519 ss); destruct (Z.eqb_spec win 0); simpl; lia.
  - intros k st. by rewrite lookup_empty.
  - constructor; simpl; [constructor | | done]. intros dk. set_solver.
  - intros ch b. simpl. by rewrite lookup_empty.
Qed.

Lemma wf_new_cb loc ss win v r net a l : 0 <= ss < 2 ^ 16 -> 0 <= win < 2 ^ 16 ->
  stream_wf (mkWorld (H := H) (setUnknownSessionCallback (new_stream loc ss win v r)) net a l).
Proof.
  intros Hss Hwin. destruct (wf_new loc ss win v r net a l Hss Hwin) as [Hc Hs Hd Hsc].
  constructor; [done | exact Hs | | exact Hsc]. by destruct Hd.
Qed.

(** A new stream, that its owner may have given the unknown-session callback. *)
Lemma wf_fresh loc ss win v r (cb : bool) net a l : 0 <= ss < 2 ^ 16 -> 0 <= win < 2 ^ 16 ->
  stream_wf (mkWorld (H := H) (if cb then setUnknownSessionCallback (new_stream loc ss win v r) else new_stream loc ss win v r) net a l).
Proof. intros Hss Hwin. destruct cb; [by apply wf_new_cb | by apply wf_new]. Qed.

(** C7. Whatever the peer sends and whatever the application calls, in every
    reachable state of a stream, with the unknown-session callback or without: each session buffers at most [recv_window_]
    out-of-order segments, all of them inside the window; the duplicate table
    holds at most 4096 keys, the ones of its queue; and the scratch buffer of a
    link is shorter than the largest frame. *)
Theorem hostile_peer_bounds (loc ss win : Z) (v : bool) (r : Z) (cb : bool) (net : Links) (a : H)
    (d0 := if cb then setUnknownSessionCallback (new_stream loc ss win v r) else new_stream loc ss win v r)
    (steps : list (stream_step H))
    (Hss : 0 <= ss < 2 ^ 16) (Hwin : 0 <= win < 2 ^ 16) (Hin : Forall step_bytes steps) :
  let w := do_steps steps (mkWorld d0 net a []) in
  (forall k st, find_session k w = Some st ->
     zlen (rx_buffer st) <= recv_window_ (cfg w) /\
     forall seq, In seq (om_keys (rx_buffer st)) ->
       seq -u32 expected_rx_seq st < recv_window_ (cfg w)) /\
  zlen (dedup_queue_ (w_ds w)) <= kDedupRing /\
  size (dedup_map_ (w_ds w)) = length (dedup_queue_ (w_ds w)) /\
  (forall ch b, scratch_ (w_ds w) !! ch = Some b -> zlen b < 24 + MAX_PAYLOAD).
Proof.
  intros w. assert (Hw : stream_wf w) by (apply wf_steps; [by apply wf_fresh | done]).
  split_and!.
  - intros k st Hf. pose proof (wf_find _ _ _ Hw Hf) as Hs. destruct (st_cfg _ Hw) as [_ Hwin'].
    split; [eapply rx_buffer_bound; [lia | exact Hs] | intros s Hk; by apply (sw_keys _ _ _ Hs)].
  - apply (st_dedup _ Hw).
  - destruct (st_dedup _ Hw) as [Hnd Hset _].
    replace (dedup_map_ (w_ds w)) with (list_to_set (C := gset DedupKey) (dedup_queue_ (w_ds w))).
    + rewrite size_list_to_set; [done|]. by apply NoDup_ListNoDup.
    + apply leibniz_equiv. intros x. by rewrite elem_of_list_to_set, Hset, list_elem_of_In.
  - intros ch b Hb. by destruct (st_scratch _ Hw _ _ Hb).
Qed.
End preservation.

(** Garbage; then, for an outport, a segment one ahead of the expected one, a copy of it,
    one far outside the window, and half of another. *)
Definition test_segment (i : Z) : bytes := frame (mkHdr MAGIC FLAG_DATA 0 4 i 2 0 0) [66; i].
Definition test_hostile : list (stream_step unit) :=
  [StBytes 5 [0; 1; 2]; StBytes 5 (repeat 255 40); StBytes 6 (test_segment 1); StBytes 5 (test_segment 1);
   StBytes 6 (test_segment 200 ++ take 10 (test_segment 2))].
Lemma hostile_peer_bounds_witness :
  let w := do_steps (app := listener) test_hostile 
      (mkWorld (setUnknownSessionCallback (new_stream 7 0 100 true 0)) (test_net 0) tt []) in
  (exists st, find_session (2, 4) w = Some st /\ handler st = Some 1 /\ rx_buffer st = [(1, [66; 1])] /\
    zlen (rx_buffer st) <= 100 /\ (forall seq, In seq (om_keys (rx_buffer st)) -> seq -u32 0 < 100)) /\
  dedup_queue_ (w_ds w) = [(2, 4, 1, 0)] /\ size (dedup_map_ (w_ds w)) = 1%nat /\
  zlen (default [] (scratch_ (w_ds w) !! 6)) = 10.
Proof.
  intros w. destruct (hostile_peer_bounds (app := listener) 7 0 100 true 0 true (test_net 0) tt test_hostile)
    as (Hs & _ & Hd & _).
  - done.
  - done.
  - unfold test_hostile, test_segment. repeat constructor; by vm_compute.
  - assert (Hq : dedup_queue_ (w_ds w) = [(2, 4, 1, 0)]) by by vm_compute.
    split; [|split; [exact Hq | split; [etrans; [exact Hd | by vm_compute] | by vm_compute]]].
    assert (Hf : find_session (2, 4) w = Some (mkSession 4 2 0 0 [(1, [66; 1])] (Some 1) false false)) by by vm_compute.
    destruct (Hs _ _ Hf) as [H1 H2]. eexists. split_and!; [exact Hf | done | done | exact H1 | exact H2].
Defined.
