(* ===== verification/Reassembly.v ===== *)
(** * Reassembly: what a session's handler receives

    The abstract contract of a session: its handler is given the segments' payloads
    in order, each once, whatever copies the links deliver and in whatever order.
    The contract is proved for the receive path of [DataStream], handlers calling
    back into the stream included. *)
From S2P Require Import Prelude Proto OMap Segment Pack Channel Selector Links DataStream.
From S2P Require Import StreamFacts Framing StreamWf Testbed.

(** ** The contract *)

(** The data handed over for session [k]. *)
Fixpoint log_data (k : SessionKey) (l : list upcall) : list bytes :=
  match l with
  | [] => []
  | UpData k' _ d :: l => if decide (k' = k) then d :: log_data k l else log_data k l
  | _ :: l => log_data k l
  end.

Definition nonempty (b : bytes) : bool := 0 <? zlen b.

(** The payloads of segments [0 .. m-1] of a sender that puts [P seq] in segment
    [seq]; empty payloads are not handed over. *)
Definition sent (P : Z -> bytes) (m : Z) : list bytes := List.filter nonempty (map P (seqZ 0 m)).

(** The data handed over for session [k] until it is closed from this side: a call to
    [closeSession], by a handler or by the application, may come in the middle of a run
    of segments, of which the rest is handed over all the same. *)
Fixpoint heard (k : SessionKey) (l : list upcall) : list bytes :=
  match l with
  | [] => []
  | UpData k' _ d :: l => if decide (k' = k) then d :: heard k l else heard k l
  | Gone k' :: l => if decide (k' = k) then [] else heard k l
  | _ :: l => heard k l
  end.

(** A frame that cannot disturb session [k]: corrupted, or of the link itself, or of
    another session, or a SYN or DATA segment of a sender of [P 0 .. P (n-1)]. *)
Definition good_frame (verify : bool) (k : SessionKey) (P : Z -> bytes) (n : Z) (f : frame_in) : Prop :=
  let hdr := f_hdr f in
  (verify = true -> fgwSegmentVerifyCrc (f_bytes f) hdr (f_hr f) = true) ->
  isHello hdr = false -> isHeartbeat hdr = false -> isAck hdr = false -> seg_key hdr = k ->
  isFin hdr = false /\
  (has_data hdr = true -> 0 <= h_seq_num hdr < n /\ f_payload f = P (h_seq_num hdr)).

(** ** Sequences of payloads *)
Lemma sent_app P m m' : 0 <= m <= m' ->
  sent P m' = sent P m ++ List.filter nonempty (map P (seqZ m (m' - m))).
Proof.
  intros Hm. unfold sent. rewrite <- List.filter_app, <- map_app. do 2 f_equal.
  replace m' with (m + (m' - m)) at 1 by lia. rewrite seqZ_app by lia. do 2 f_equal.
Qed.

Lemma prefix_snoc {A} (l l' : list A) x : l `prefix_of` l' ++ [x] -> l `prefix_of` l' \/ l = l' ++ [x].
Proof.
  intros [t Ht]. destruct t as [|y t _] using rev_ind; [right; by rewrite app_nil_r in Ht|].
  rewrite app_assoc in Ht. apply app_inj_tail in Ht as [-> _]. left. by exists t.
Qed.
(** A run that is broken off is a shorter run. *)
Lemma sent_prefix P m l : 0 <= m -> l `prefix_of` sent P m ->
  exists m', 0 <= m' <= m /\ l = sent P m'.
Proof.
  intros Hm. revert l. apply (natlike_ind (fun m => forall l, l `prefix_of` sent P m ->
    exists m', 0 <= m' <= m /\ l = sent P m')); [| |exact Hm].
  - intros l Hl%prefix_nil_inv. by exists 0.
  - intros x Hx IH l Hl. rewrite (sent_app P x (Z.succ x)) in Hl by lia.
    replace (Z.succ x - x) with 1 in Hl by lia. cbn [seqZ map List.filter] in Hl.
    destruct (decide (l `prefix_of` sent P x)) as [Hp|Hn].
    + destruct (IH l Hp) as (m' & ? & ->). exists m'. split; [lia | done].
    + exists (Z.succ x). split; [lia|]. rewrite (sent_app P x (Z.succ x)) by lia.
      replace (Z.succ x - x) with 1 by lia. cbn [seqZ map List.filter].
      change (seqZ x 1) with [x] in *. cbn [map List.filter] in *.
      destruct (nonempty (P x)); [|by rewrite app_nil_r in Hl].
      apply prefix_snoc in Hl as [Hl|Hl]; done.
Qed.

Lemma log_data_app k l l' : log_data k (l ++ l') = log_data k l ++ log_data k l'.
Proof.
  induction l as [|[k' h|k' h d|k' h|k'] l IH]; simpl; try done.
  destruct (decide (k' = k)); [by rewrite IH | done].
Qed.
Lemma log_data_handed k l : log_data k (handed l) = log_data k l.
Proof. induction l as [|[k' h|k' h d|k' h|k'] l IH]; simpl; try done. by rewrite IH. Qed.
Lemma heard_app k l l' :
  heard k (l ++ l') = if decide (Gone k ∈ l) then heard k l else heard k l ++ heard k l'.
Proof.
  induction l as [|u l IH]; [by rewrite decide_False by set_solver|].
  destruct u as [k' h|k' h d|k' h|k']; cbn [heard app]; rewrite IH;
    try (destruct (decide (k' = k)) as [->|]);
    repeat destruct (decide (Gone _ ∈ _)); try done; set_solver.
Qed.
Lemma heard_prefix k l : heard k l `prefix_of` log_data k l.
Proof.
  induction l as [|[k' h|k' h d|k' h|k'] l IH]; simpl; try done.
  - destruct (decide (k' = k)); [by apply prefix_cons | done].
  - destruct (decide (k' = k)); [apply prefix_nil | done].
Qed.
Lemma heard_kept k l : Gone k ∉ l -> heard k l = log_data k l.
Proof.
  induction l as [|[k' h|k' h d|k' h|k'] l IH]; intros Hn; simpl; [done| | | |];
    rewrite ?IH by set_solver; try done.
  destruct (decide (k' = k)) as [->|]; [set_solver | done].
Qed.

Lemma log_data_ups k k' h ready :
  log_data k (ups k' h ready) = if decide (k' = k) then List.filter nonempty ready else [].
Proof.
  unfold ups. change (fun b : bytes => 0 <? zlen b) with nonempty.
  induction (List.filter nonempty ready) as [|d l IH]; simpl; [by destruct (decide _)|].
  rewrite IH. by destruct (decide (k' = k)).
Qed.

(** ** The contiguous run, below the wrap-around *)
Lemma take_run_reasm P n b : forall m, om_ok b -> 0 <= m -> n < 2 ^ 32 ->
  (forall s x, In (s, x) b -> m <= s < n /\ x = P s) ->
  exists e rest, take_run m b = (map P (seqZ m (e - m)), e, rest) /\ m <= e /\ (e <= n \/ e = m) /\
    (forall s x, In (s, x) rest -> e < s < n /\ x = P s) /\
    (forall s x, In (s, x) b -> s < e \/ In (s, x) rest).
Proof.
  induction b as [|[s x] b IH]; intros m Hok Hm Hn Hin.
  { exists m, []. rewrite Z.sub_diag. split_and!; try done; auto; lia. }
  cbn [take_run]. destruct (Z.eqb_spec s m) as [->|Hne].
  - destruct (Hin m x) as [Hmn ->]; [by left|].
    rewrite u32_small by (unfold is_u32; lia).
    assert (Htail : forall t y, In (t, y) b -> m + 1 <= t < n /\ y = P t).
    { intros t y Hty. destruct (Hin t y) as [? ->]; [by right|].
      pose proof (om_head_least _ _ _ _ Hok (in_map fst _ _ Hty)). simpl in *. split; [lia | done]. }
    destruct (IH (m + 1)) as (e & rest & -> & He & Hen & Hrest & Hcov);
      [by eapply om_ok_tail | lia | done | exact Htail |].
    exists e, rest. split_and!; try done; [| lia | lia |].
    + f_equal. f_equal. replace (e - m) with (1 + (e - (m + 1))) by lia.
      rewrite seqZ_app by lia. done.
    + intros t y [[= <- <-]|Hty]; [left; lia | by apply Hcov].
  - exists m, ((s, x) :: b). rewrite Z.sub_diag. split_and!; try done; auto.
    intros t y Hty. destruct (Hin t y Hty) as [Ht ->]. split; [|done].
    destruct Hty as [[= -> _]|Hty]; [lia|].
    pose proof (om_head_least _ _ _ _ Hok (in_map fst _ _ Hty)). simpl in *.
    destruct (Hin s x); [by left | lia].
Qed.

(** ** What leaves session [k] alone *)
Section aside.
Context {H : Type} {app : SessionHandler H}.
Context {rt : ZdsRuntime} {T : Transport} {sort : StdSort}.
Context (k : SessionKey).
Implicit Types (w : world H) (st : SessionState).

Lemma rx_put_eq st w : rx_of k (put_session k st w) = Some (rx_view st).
Proof. unfold rx_of. by rewrite find_put_eq. Qed.
Lemma rx_put_ne k' st w : k <> k' -> rx_of k (put_session k' st w) = rx_of k w.
Proof. intros. unfold rx_of. by rewrite find_put_ne. Qed.

(** [w'] follows [w] with nothing handed over for [k], and its receive side as before
    unless the session was closed meanwhile. *)
Definition aside w w' : Prop := exists l, w_log w' = w_log w ++ l /\ log_data k l = [] /\
  (rx_of k w' = rx_of k w \/ Gone k ∈ l).
#[export] Instance aside_preorder : PreOrder aside.
Proof.
  split; [intros w; exists []; rewrite app_nil_r; auto|].
  intros w1 w2 w3 (l & Hl & Hd & Hr) (l' & Hl' & Hd' & Hr'). exists (l ++ l').
  split_and!; [by rewrite Hl', Hl, app_assoc | by rewrite log_data_app, Hd, Hd' |].
  destruct Hr' as [->|]; [|set_solver]. destruct Hr; set_solver.
Qed.
Lemma aside_eq w w' : w_log w' = w_log w -> rx_of k w' = rx_of k w -> aside w w'.
Proof. intros Hl Hr. exists []. rewrite app_nil_r. auto. Qed.
Lemma aside_called l w w' : called l w w' -> log_data k l = [] -> aside w w'.
Proof.
  intros [_ (l' & Hl & <- & Hr)]. rewrite log_data_handed. intros Hd. exists l'. split_and!; [done..|].
  destruct (Hr k) as [|[]]; auto.
Qed.
Lemma aside_grows w w' : aside w w' -> log_grows w w'.
Proof. intros (l & Hl & _). by exists l. Qed.
Lemma aside_rx w w' : aside w w' -> ~ gone k w' -> rx_of k w' = rx_of k w.
Proof. intros (l & Hl & _ & [?|Hg]) Hn; [done|]. destruct Hn. unfold gone. rewrite Hl. set_solver. Qed.

(** Segments of another session *)
Lemma aside_ensure k' w : k' <> k -> aside w (ensure_session k' w).
Proof.
  intros Hne. apply aside_eq; [apply log_ensure|]. unfold ensure_session.
  destruct (find_session k' w); [done|].
  destruct (if unknown_cb_set (w_ds w) then _ else _) as [h a]. by rewrite rx_put_ne.
Qed.
Lemma aside_on_syn k' w : k' <> k -> aside w (on_syn k' w).
Proof.
  intros Hne. unfold on_syn. pose proof (aside_ensure k' w Hne) as He.
  destruct (find_session k' (ensure_session k' w)) as [st|]; [|done].
  destruct (handler st); [|done]. etrans; [exact He|]. by eapply aside_called; [apply call_open_called|].
Qed.
Lemma aside_on_fin k' w : k' <> k -> aside w (on_fin k' w).
Proof.
  intros Hne. unfold on_fin. destruct (find_session k' w) as [st|]; [|done].
  set (w1 := match handler st with Some _ => _ | None => _ end).
  transitivity w1; [|apply aside_eq; [done | unfold rx_of; by rewrite find_erase_ne]].
  unfold w1. destruct (handler st); [|done]. by eapply aside_called; [apply call_close_called|].
Qed.
Lemma aside_on_data k' seq p w : k' <> k -> stream_wf w -> aside w (on_data k' seq p w).
Proof.
  intros Hne Hwf. unfold on_data. pose proof (wf_ensure k' w Hwf) as Hwe. pose proof (aside_ensure k' w Hne) as He.
  destruct (find_session k' (ensure_session k' w)) as [st|] eqn:Hf; [|done]. etrans; [exact He|].
  destruct (wf_find _ _ _ Hwe Hf) as [Hid _ _ _ _]. set (st' := if mb_acquire _ then _ else _).
  assert (Hid' : (wire_ingress_id st', session_id st') = k') by (unfold st'; by destruct (mb_acquire _)).
  set (w1 := put_session k' st' _). transitivity w1; [apply aside_eq; [done | by apply rx_put_ne]|].
  unfold deliverInOrder. destruct (handler st'); [|done]. destruct (take_run _ _) as [[ready e] rest].
  rewrite Hid'. set (w2 := put_session k' _ w1). transitivity w2; [apply aside_eq; [done | by apply rx_put_ne]|].
  eapply aside_called; [apply deliver_all_called|]. rewrite log_data_ups. by destruct (decide (k' = k)).
Qed.
Lemma aside_dispatch k' hdr p w : k' <> k -> stream_wf w -> aside w (dispatch k' hdr p w).
Proof.
  intros Hne Hwf. unfold dispatch. set (w2 := if isSyn hdr then _ else _).
  assert (H2 : aside w w2) by (unfold w2; destruct (isSyn hdr); [by apply aside_on_syn | done]).
  assert (Hwf2 : stream_wf w2) by (unfold w2; destruct (isSyn hdr); [by apply wf_on_syn | done]).
  etrans; [exact H2|]. destruct (isFin hdr); [by apply aside_on_fin|].
  destruct (has_data hdr); [by apply aside_on_data | done].
Qed.

End aside.

(** ** The invariant of session [k] *)
Section reassembly.
Context {H : Type} {app : SessionHandler H}.
Context {rt : ZdsRuntime} {T : Transport} {sort : StdSort}.
Context (k : SessionKey) (P : Z -> bytes) (n : Z).
Implicit Types (w : world H) (st : SessionState).

(** Segments below [m] have been delivered, the buffered ones are the sender's. *)
Record reasm (m : Z) st : Prop := {
  rs_exp : expected_rx_seq st = m;
  rs_m : 0 <= m <= n;
  rs_buf : forall s x, In (s, x) (rx_buffer st) -> m <= s < n /\ x = P s }.

Definition in_order w : Prop :=
  (gone k w /\ exists m, 0 <= m <= n /\ heard k (w_log w) = sent P m) \/
  (~ gone k w /\
   match rx_of k w with
   | None => heard k (w_log w) = []
   | Some st => exists m, reasm m st /\ heard k (w_log w) = sent P m
   end).

Lemma in_order_ext w w' : rx_of k w' = rx_of k w -> w_log w' = w_log w -> in_order w -> in_order w'.
Proof. unfold in_order, gone. by intros -> ->. Qed.

Lemma in_order_heard w : 0 <= n -> in_order w -> exists m, 0 <= m <= n /\ heard k (w_log w) = sent P m.
Proof.
  intros Hn [[_ ?]|[_ Hw]]; [done|]. destruct (rx_of k w) as [st|].
  - destruct Hw as (m & [_ ? _] & ->). eauto.
  - exists 0. split; [lia | done].
Qed.
(** Nothing counts any more once the session has been closed. *)
Lemma in_order_over w w' : log_grows w w' -> gone k w -> in_order w -> in_order w'.
Proof.
  intros Hg Hgone [[_ (m & Hm & Hh)]|[? _]]; [|done]. left. split; [by eapply log_grows_gone|].
  destruct Hg as [l Hl]. exists m. split; [done|]. by rewrite Hl, heard_app, decide_True.
Qed.

Lemma in_order_aside w w' : 0 <= n -> aside k w w' -> in_order w -> in_order w'.
Proof.
  intros Hn Ha Hw. destruct (decide (gone k w)) as [Hgone|Hgone].
  { by eapply in_order_over; [by apply (aside_grows k) | |]. }
  assert (Hheard : heard k (w_log w') = heard k (w_log w)).
  { destruct Ha as (l & -> & Hl & _). rewrite heard_app, decide_False by done.
    pose proof (heard_prefix k l) as Hp. rewrite Hl in Hp. apply prefix_nil_inv in Hp as ->. apply app_nil_r. }
  destruct (decide (gone k w')) as [Hg'|Hg'].
  - left. split; [done|]. rewrite Hheard. by apply in_order_heard.
  - right. split; [done|]. rewrite Hheard, (aside_rx k _ _ Ha Hg').
    by destruct Hw as [[? _]|[_ ?]].
Qed.

Lemma reasm_view m st : reasm m (rx_view st) <-> reasm m st.
Proof. split; intros []; by constructor. Qed.

(** A session entered anew. *)
Lemma in_order_fresh st w w' : 0 <= n -> find_session k w = None ->
  w_log w' = w_log w -> rx_of k w' = Some (rx_view st) -> expected_rx_seq st = 0 -> rx_buffer st = [] ->
  in_order w -> in_order w'.
Proof.
  intros Hn Hf Hl Hrx He Hb. unfold in_order, gone. rewrite Hl, Hrx. unfold rx_of. rewrite Hf. simpl.
  intros [Hw|[Hg Hw]]; [by left | right]. split; [done|]. exists 0. split; [|exact Hw].
  apply reasm_view. constructor; [done | lia | by rewrite Hb].
Qed.

Lemma in_order_ensure k' w : 0 <= n -> in_order w -> in_order (ensure_session k' w).
Proof.
  intros Hn Hw. unfold ensure_session. destruct (find_session k' w) as [st|] eqn:Hf; [done|].
  destruct (if unknown_cb_set (w_ds w) then _ else _) as [h a].
  destruct (decide (k = k')) as [<-|Hne].
  - eapply in_order_fresh; [done | exact Hf | | apply rx_put_eq | | | exact Hw]; done.
  - eapply in_order_ext; [| |exact Hw]; [by rewrite rx_put_ne | done].
Qed.

Lemma in_order_on_syn k' w : 0 <= n -> in_order w -> in_order (on_syn k' w).
Proof.
  intros Hn Hw. unfold on_syn. pose proof (in_order_ensure k' w Hn Hw) as He.
  destruct (find_session k' (ensure_session k' w)) as [st|]; [|done].
  destruct (handler st) as [h|]; [|done].
  by eapply in_order_aside; [| eapply aside_called; [apply call_open_called|] |].
Qed.

(** Delivery of session [k]: the run comes out as the next payloads. *)
Lemma in_order_deliver m st w : (wire_ingress_id st, session_id st) = k -> om_ok (rx_buffer st) ->
  n < 2 ^ 32 -> reasm m st -> heard k (w_log w) = sent P m -> find_session k w = Some st ->
  ~ gone k w -> in_order (deliverInOrder k st w).
Proof.
  intros Hid Hok Hn [He Hm Hbuf] Hlog Hf Hgone. unfold deliverInOrder.
  destruct (handler st) as [h|].
  2:{ right. split; [done|]. unfold rx_of. rewrite Hf. exists m. split; [|done].
      apply reasm_view. by constructor. }
  destruct (take_run_reasm P n (rx_buffer st) m) as (e & rest & Ht & Hme & Hen & Hrest & _);
    [done | lia | done | done |].
  rewrite He, Ht, Hid. set (w1 := put_session k (set_rx e rest st) w).
  pose proof (deliver_all_called k h (session_id st) (map P (seqZ m (e - m))) w1) as Hc.
  set (w2 := deliver_all _ _ _ _ w1) in *. destruct Hc as [_ (l & Hl & Hup & Hrx)].
  change (w_log w1) with (w_log w) in Hl.
  assert (Hd : log_data k l = List.filter nonempty (map P (seqZ m (e - m))))
    by (by rewrite <- log_data_handed, Hup, log_data_ups, decide_True).
  assert (Hh : heard k (w_log w2) = sent P m ++ heard k l)
    by (by rewrite Hl, heard_app, decide_False, Hlog).
  destruct (decide (gone k w2)) as [Hg|Hg]; [left | right]; (split; [done|]).
  - destruct (sent_prefix P e (heard k (w_log w2))) as (m' & ? & ?).
    + lia.
    + rewrite Hh, (sent_app P m e) by lia. apply prefix_app. rewrite <- Hd. apply heard_prefix.
    + exists m'. split; [lia | done].
  - assert (Hnl : Gone k ∉ l) by (intros Hin; apply Hg; unfold gone; rewrite Hl; set_solver).
    destruct (Hrx k) as [->|[_ ?]]; [|done]. unfold w1. rewrite rx_put_eq. exists e. split.
    + constructor; simpl; [done | lia |]. intros s x Hs. destruct (Hrest s x Hs) as [? ->]. split; [lia | done].
    + rewrite Hh, heard_kept, Hd by done. symmetry. apply sent_app. lia.
Qed.

Lemma om_In_emplace s x (v : bytes) seq (b : omap bytes) :
  In (s, x) (om_emplace seq v b) -> (s = seq /\ x = v) \/ In (s, x) b.
Proof.
  unfold om_emplace. destruct (om_find seq b); [auto|].
  induction b as [|[j y] b IH]; simpl; [intros [[= <- <-]|[]]; auto|].
  destruct (seq <? j); simpl; [intros [[= <- <-]|?]; auto|].
  destruct (seq =? j); simpl; [intros [[= <- <-]|?]; auto|].
  intros [?|Hin]; [auto|]. destruct (IH Hin); auto.
Qed.

(** The window check places a segment of the sender at or after [m]. *)
Lemma window_lower win seq m : 0 < win -> n + win <= 2 ^ 32 -> 0 <= seq < n -> 0 <= m <= n ->
  seq -u32 m < win -> m <= seq.
Proof.
  intros Hw Hn Hs Hm Hrel. destruct (Z.le_gt_cases m seq) as [|Hgt]; [done|]. exfalso.
  unfold u32 in Hrel. replace (seq - m) with (seq - m + 2 ^ 32 + (-1) * 2 ^ 32) in Hrel by lia.
  rewrite Z.mod_add, Z.mod_small in Hrel; lia.
Qed.

Lemma in_order_on_data seq p w : n + recv_window_ (cfg w) <= 2 ^ 32 -> stream_wf w ->
  0 <= seq < n -> p = P seq -> out_of_window k seq w = false -> in_order w ->
  in_order (on_data k seq p w).
Proof.
  intros Hn Hwf Hseq -> Hwin Hw. destruct (decide (gone k w)) as [Hg|Hg].
  { eapply in_order_over; [apply grows_on_data | done | done]. }
  unfold on_data. pose proof (in_order_ensure k w ltac:(lia) Hw) as He. pose proof (wf_ensure k w Hwf) as Hwe.
  assert (Hge : ~ gone k (ensure_session k w)) by (unfold gone; by rewrite log_ensure).
  pose proof (st_cfg _ Hwf) as [_ Hwpos].
  destruct (ensure_find k w) as [h Hf]. rewrite Hf. set (st := default _ _) in *.
  destruct (wf_find _ _ _ Hwe Hf) as [Hid _ _ Hok _].
  destruct He as [[? _]|[_ He]]; [done|]. unfold rx_of in He. rewrite Hf in He. simpl in He.
  destruct He as (m & Hre & Hlog). apply reasm_view in Hre. destruct Hre as [Hexp Hm Hbuf].
  assert (Hmseq : m <= seq).
  { apply (window_lower (recv_window_ (cfg w))); try done; try lia.
    unfold out_of_window in Hwin. rewrite <- Hexp. unfold st. destruct (find_session k w); simpl; lia. }
  set (st' := if mb_acquire _ then _ else _). apply (in_order_deliver m).
  - unfold st'. by destruct (mb_acquire (zlen (P seq))).
  - unfold st'. destruct (mb_acquire (zlen (P seq))); simpl; auto with fgw.
  - lia.
  - unfold st'. destruct (mb_acquire (zlen (P seq))); [|by constructor].
    constructor; simpl; [done..|]. intros s x [[-> ->]|Hin]%om_In_emplace; [split; [lia | done]|].
    by apply Hbuf.
  - exact Hlog.
  - apply find_put_eq.
  - exact Hge.
Qed.

Lemma in_order_dispatch k' hdr p w : n + recv_window_ (cfg w) <= 2 ^ 32 -> 0 <= n -> stream_wf w ->
  (k' = k -> isFin hdr = false /\ (has_data hdr = true -> 0 <= h_seq_num hdr < n /\ p = P (h_seq_num hdr))) ->
  has_data hdr && out_of_window k' (h_seq_num hdr) w = false -> in_order w ->
  in_order (dispatch k' hdr p w).
Proof.
  intros Hn H0 Hwf Hgood Hwin Hw. destruct (decide (k' = k)) as [->|Hne].
  2: { by eapply in_order_aside; [| by apply aside_dispatch |]. }
  unfold dispatch. set (w2 := if isSyn hdr then _ else _).
  assert (Hw2 : in_order w2) by (unfold w2; destruct (isSyn hdr); [by apply in_order_on_syn | done]).
  assert (Hwf2 : stream_wf w2) by (unfold w2; destruct (isSyn hdr); [by apply wf_on_syn | done]).
  assert (Hwin2 : out_of_window k (h_seq_num hdr) w2 = out_of_window k (h_seq_num hdr) w)
    by (unfold w2; destruct (isSyn hdr); [apply window_on_syn | done]).
  assert (Hcfg : cfg w2 = cfg w)
    by (unfold w2, cfg; destruct (isSyn hdr); [by destruct (dd_on_syn k w) as [[? _] _] | done]).
  destruct (Hgood eq_refl) as [-> Hd]. destruct (has_data hdr); [|done].
  destruct (Hd eq_refl). apply in_order_on_data; try done; [by rewrite Hcfg | by rewrite Hwin2].
Qed.

Lemma in_order_on_frame ch f w : n + recv_window_ (cfg w) <= 2 ^ 32 -> 0 <= n -> stream_wf w ->
  frame_shape f -> good_frame (verify_crc_ (cfg w)) k P n f -> in_order w ->
  in_order (on_frame_in ch w f).
Proof.
  intros Hn H0 Hwf [_ _ _ Hpay] Hgood Hw. unfold on_frame_in, on_frame, good_frame in *.
  fold (f_payload f). rewrite <- Hpay, to_nat_zlen, firstn_all.
  destruct (verify_crc_ (cfg w) && negb _) eqn:Hcrc; [done|].
  specialize (Hgood ltac:(intros Hv; rewrite Hv in Hcrc; by destruct (fgwSegmentVerifyCrc _ _ _))).
  set (w1 := on_net _ w). assert (Hw1 : in_order w1) by done.
  assert (Hwf1 : stream_wf w1) by by apply wf_on_net.
  assert (Hrx : forall w', same_core (w_ds w1) (w_ds w') /\ w_log w' = w_log w1 -> in_order w').
  { intros w' ((_ & Hs & _) & Hl). eapply in_order_ext; [| |exact Hw1]; [|by rewrite Hl].
    unfold rx_of, find_session. by rewrite Hs. }
  destruct (isHello (f_hdr f)); [apply Hrx, on_hello_core|].
  destruct (isHeartbeat (f_hdr f)); [done|].
  destruct (isAck (f_hdr f)); [apply Hrx, on_ack_core|].
  specialize (Hgood eq_refl eq_refl eq_refl). unfold on_segment.
  destruct (decide _).
  { apply Hrx. split; [apply count_loss_core | done]. }
  destruct (has_data (f_hdr f) && _) eqn:Hwin; [done|].
  apply in_order_dispatch; try done.
  - by rewrite count_win_cfg, record_cfg.
  - by apply wf_count_win, wf_record.
  - unfold out_of_window in Hwin |- *. by rewrite count_win_find, count_win_cfg, record_find, record_cfg.
  - eapply in_order_ext; [| |exact Hw1]; [|done].
    unfold rx_of. by rewrite count_win_find, record_find.
Qed.

Lemma in_order_open sid h w : 0 <= n -> in_order w -> in_order (snd (openSession sid h w)).
Proof.
  intros Hn Hw. unfold openSession. set (key := (_, sid)).
  destruct (find_session key w) as [st|] eqn:Hf; [done|]. set (w1 := put_session _ _ w).
  assert (H1 : in_order w1).
  { unfold w1. clearbody key. destruct (decide (k = key)) as [<-|Hne].
    - eapply in_order_fresh; [done | exact Hf | | apply rx_put_eq | | | exact Hw]; done.
    - eapply in_order_ext; [| |exact Hw]; [by apply rx_put_ne | done]. }
  destruct (sendSegment_shape (local_ingress_id_ (cfg w)) sid 0 FLAG_SYN None 0 w1) as (r & f & ->).
  exact H1.
Qed.

Lemma in_order_step s w : 0 <= n -> (forall ch buf, s <> StBytes ch buf) -> in_order w -> in_order (do_step s w).
Proof.
  intros Hn Hnb Hw. destruct s as [ch buf|sid h|f|]; [by destruct (Hnb ch buf) | by apply in_order_open | rewrite env_step | simpl].
  - set (w1 := set_env _ _ w). apply (in_order_aside w1); [done | | exact Hw].
    eapply aside_called; [apply apply_calls_called | done].
  - destruct (emitFeedback_core w) as ((_ & Hs & _) & Hl).
    eapply in_order_ext; [| |exact Hw]; [|by rewrite Hl]. unfold rx_of, find_session. by rewrite Hs.
Qed.

(** What holds between the frames of a run. *)
Record run_inv (c : StreamConfig) w : Prop := {
  ri_wf : stream_wf w; ri_order : in_order w; ri_cfg : cfg w = c }.

Lemma run_inv_frame c ch f w : n + recv_window_ c <= 2 ^ 32 -> 0 <= n ->
  frame_shape f -> is_u32 (h_seq_num (f_hdr f)) -> good_frame (verify_crc_ c) k P n f ->
  run_inv c w -> run_inv c (on_frame_in ch w f).
Proof.
  intros Hn H0 Hsh Hu Hg [Hwf Hord <-]. constructor; [by apply wf_on_frame | by apply in_order_on_frame |].
  unfold cfg. by destruct (io_on_frame ch (f_hdr f) (f_hr f) (f_bytes f) w).
Qed.

Lemma run_inv_scratch c w ch r : Forall is_byte r -> zlen r < 24 + MAX_PAYLOAD ->
  run_inv c w -> run_inv c (on_ds (fun d => set_scratch (<[ch := r]> (scratch_ d)) d) w).
Proof.
  intros Hr Hl [Hwf Hord Hc]. constructor; [by apply wf_scratch | done | done].
Qed.

Lemma run_inv_step c s w : 0 <= n -> (forall ch buf, s <> StBytes ch buf) ->
  run_inv c w -> run_inv c (do_step s w).
Proof.
  intros H0 Hnb [Hwf Hord <-]. destruct (dd_step s w Hnb) as ((Hc & _ & _) & _).
  constructor; [| by apply in_order_step | done].
  apply (wf_steps [s]); [done|]. constructor; [|constructor]. destruct s; try done. by destruct (Hnb ch buf).
Qed.

(** Every link stays well framed and carries good frames. *)
Definition good_links (v : bool) (ss : list (stream_step H)) : Prop :=
  forall ch, exists r, snd (split_frames (bytes_on ch ss)) = Some r /\
    Forall (good_frame v k P n) (fst (split_frames (bytes_on ch ss))).

Lemma good_links_trace v ss : good_links v ss ->
  Forall (good_frame v k P n) (frame_trace empty ss).
Proof. intros Hg. apply links_trace. intros ch. rewrite lookup_empty. apply Hg. Qed.
End reassembly.

Lemma in_order_run_from {H} {app : SessionHandler H} {rt : ZdsRuntime} {T : Transport}
    {sort : StdSort} (k : SessionKey) (P : Z -> bytes) (n : Z)
    (d0 : DataStream) (v : bool) (net : Links) (a : H) (steps : list (stream_step H))
    (Hwf : stream_wf (mkWorld d0 net a [])) (Hnew : sessions_ d0 = empty /\ scratch_ d0 = empty)
    (Hv : verify_crc_ (cfg_ d0) = v) (Hn : 0 <= n <= 2 ^ 32 - 2 ^ 16)
    (Hbytes : Forall step_bytes steps) (Hlinks : good_links k P n v steps) :
  exists m, 0 <= m <= n /\ heard k (w_log (do_steps steps (mkWorld d0 net a []))) = sent P m.
Proof.
  set (w0 := mkWorld d0 net a []) in *. destruct Hnew as [Hse Hsc].
  destruct (st_cfg _ Hwf) as [_ Hw].
  pose proof (good_links_trace _ _ _ _ _ Hlinks) as Hg. set (tr := frame_trace empty steps) in Hg.
  assert (Hinv : run_inv k P n (cfg w0) (do_steps steps w0)).
  { apply (trace_ind (fun _ => run_inv k P n (cfg w0)) (fun _ => True) tr) with (past := []).
    - intros _ w [Hwf' _ _] ch b Hb. by destruct (st_scratch _ Hwf' _ _ Hb).
    - intros ch past f rest w Htr Hsh Hu Hi. apply run_inv_frame; try done; [lia | lia |].
      rewrite List.Forall_forall in Hg. change (verify_crc_ (cfg w0)) with (verify_crc_ (cfg_ d0)). rewrite Hv. apply Hg. rewrite Htr. apply in_elt.
    - intros _ w ch x Hi Hx Hl. by apply run_inv_scratch.
    - intros _ w s _ Hnb Hi. apply run_inv_step; try done. lia.
    - simpl. by rewrite Hsc.
    - eapply List.Forall_impl; [|exact Hbytes]. by intros s Hs.
    - constructor; [done | | done]. right. unfold gone, rx_of, find_session. simpl. rewrite Hse, lookup_empty.
      split; [set_solver | done]. }
  apply in_order_heard; [lia | by destruct Hinv].
Qed.
(** C5. In order and exactly once: let the links deliver, in any interleaving and
    any chunking, copies of the segments of a sender that puts [P seq] into segment
    [seq < n] - duplicated, reordered, lost or corrupted - together with any frames
    of other sessions; let the handlers call back as they like, and the surroundings
    of the stream - application, manager - do anything.  The session may be one the
    application opens or, with the unknown-session callback, one the peer opens.  Then
    what the handler of [k] has been given until the session is first closed from this
    side, if it ever is, is [P 0 .. P (m-1)] for some [m <= n], in order and each once.
    The bound on [n] is the wrap-around of the 32-bit sequence numbers. *)
Theorem in_order_exactly_once {H} {app : SessionHandler H} {rt : ZdsRuntime} {T : Transport}
    {sort : StdSort} (k : SessionKey) (P : Z -> bytes) (n : Z)
    (loc ss win : Z) (v : bool) (r : Z) (cb : bool) (net : Links) (a : H) (steps : list (stream_step H))
    (d0 := if cb then setUnknownSessionCallback (new_stream loc ss win v r) else new_stream loc ss win v r)
    (Hss : 0 <= ss < 2 ^ 16) (Hwin : 0 <= win < 2 ^ 16) (Hn : 0 <= n <= 2 ^ 32 - 2 ^ 16)
    (Hbytes : Forall step_bytes steps) (Hlinks : good_links k P n v steps) :
  exists m, 0 <= m <= n /\ heard k (w_log (do_steps steps (mkWorld d0 net a []))) = sent P m.
Proof. eapply in_order_run_from; try done; [by apply wf_fresh | by destruct cb..]. Qed.

(** *** Two segments, the later one first and twice, to a handler that echoes *)
Definition test_payload (i : Z) : bytes := if i =? 0 then [1; 2; 3] else [4; 5].
Definition test_data (i : Z) : bytes :=
  frame (mkHdr MAGIC FLAG_DATA 0 4 i 2 0 0) (test_payload i).
Definition test_arrivals : list (stream_step Z) :=
  [StBytes 21 (test_data 1); StBytes 21 (test_data 1 ++ test_data 0)].

Lemma test_good : good_links (2, 4) test_payload 2 true test_arrivals.
Proof.
  intros ch. unfold test_arrivals. cbn [bytes_on]. destruct (21 =? ch).
  - exists []. split; [by vm_compute|].
    assert (Hs : fst (split_frames (test_data 1 ++ (test_data 1 ++ test_data 0) ++ [])) =
      [mkFrame 20 (frame_hdr (mkHdr MAGIC FLAG_DATA 0 4 1 2 0 0) [4; 5]) (test_data 1);
       mkFrame 20 (frame_hdr (mkHdr MAGIC FLAG_DATA 0 4 1 2 0 0) [4; 5]) (test_data 1);
       mkFrame 20 (frame_hdr (mkHdr MAGIC FLAG_DATA 0 4 0 2 0 0) [1; 2; 3]) (test_data 0)]) by by vm_compute.
    rewrite Hs. repeat constructor; by vm_compute.
  - exists []. split; [reflexivity | constructor].
Qed.
(** The outport's side: the callback gives the session a handler, which hears both. *)
Lemma in_order_exactly_once_witness :
  let l := w_log (do_steps (app := echo) test_arrivals
    (mkWorld (setUnknownSessionCallback (new_stream 7 0 0 true 0)) (test_net 0) 0 [])) in
  heard (2, 4) l = [[1; 2; 3]; [4; 5]] /\ exists m, 0 <= m <= 2 /\ heard (2, 4) l = sent test_payload m.
Proof.
  cbv zeta. split; [by vm_compute|].
  apply (in_order_exactly_once (app := echo) (2, 4) test_payload 2 7 0 0 true 0 true (test_net 0) 0 test_arrivals).
  - done.
  - done.
  - done.
  - unfold test_arrivals, test_data. repeat constructor; by vm_compute.
  - apply test_good.
Defined.
