(* ===== verification/Completeness.v ===== *)
(** * Completeness: every segment that arrives in its window is delivered

    The other half of the session contract: no segment is lost in the stream.  The
    duplicate filter never swallows a segment that was not received, and the
    contiguous run is always handed over. *)
From S2P Require Import Prelude Proto OMap Segment Pack Channel Selector Links DataStream.
From S2P Require Import StreamFacts Framing StreamWf Reassembly Testbed.

(** A DATA segment of session [k] with number [s], intact. *)
Definition is_copy (v : bool) (k : SessionKey) (s : Z) (f : frame_in) : Prop :=
  let hdr := f_hdr f in
  (v = true -> fgwSegmentVerifyCrc (f_bytes f) hdr (f_hr f) = true) /\
  isHello hdr = false /\ isHeartbeat hdr = false /\ isAck hdr = false /\
  isSyn hdr = false /\ isFin hdr = false /\ has_data hdr = true /\
  seg_key hdr = k /\ h_seq_num hdr = s.

(** An intact segment of session [k] that is no SYN or FIN carries data: the sender
    emits no empty segment, which would take the place of a data segment in the
    duplicate filter. *)
Definition full_frame (v : bool) (k : SessionKey) (f : frame_in) : Prop :=
  let hdr := f_hdr f in
  (v = true -> fgwSegmentVerifyCrc (f_bytes f) hdr (f_hr f) = true) ->
  isHello hdr = false -> isHeartbeat hdr = false -> isAck hdr = false -> seg_key hdr = k ->
  isSyn hdr = false -> isFin hdr = false -> has_data hdr = true.

(** Reordering within the window: a copy of each segment arrives at some position,
    and after copies of the segments a window or more before it. *)
Definition window_arrival (v : bool) (k : SessionKey) (n win : Z) (tr : list frame_in) : Prop :=
  exists pos : Z -> nat,
    (forall s, 0 <= s < n -> exists f, tr !! pos s = Some f /\ is_copy v k s f) /\
    (forall q s, 0 <= q -> q + win <= s < n -> (pos q < pos s)%nat).

(** What a DATA segment carries. *)
Definition carried (f : frame_in) : bytes :=
  take (Z.to_nat (h_payload_len (f_hdr f))) (drop (Z.to_nat (f_hr f)) (f_bytes f)).
(** A first copy of a DATA segment: inside the window it reaches its session, outside of it
    nothing happens but the count of the channel. *)
Lemma copy_frame {H} {app : SessionHandler H} {rt : ZdsRuntime} {T : Transport} {sort : StdSort}
    (w : world H) k ch seq f :
  is_copy (verify_crc_ (cfg w)) k seq f -> dedup_key (f_hdr f) ∉ dedup_map_ (w_ds w) ->
  if out_of_window k seq w then on_frame_in ch w f = on_net (upd_chan ch noteSegmentRecv) w else
  exists w2, on_frame_in ch w f = on_data k seq (carried f) w2 /\
    (forall k', find_session k' w2 = find_session k' w) /\ cfg w2 = cfg w /\ w_app w2 = w_app w /\
    w_log w2 = w_log w /\ unknown_cb_set (w_ds w2) = unknown_cb_set (w_ds w) /\
    out_of_window k seq w2 = false /\ (stream_wf w -> stream_wf w2).
Proof.
  intros (Hv & Hh & Hb & Ha & Hs & Hf & Hd & Hk & <-) Hnew. unfold on_frame_in, on_frame, carried. rewrite Hh, Hb, Ha.
  replace (verify_crc_ (cfg w) && _) with false by (destruct (verify_crc_ (cfg w)); [by rewrite Hv | done]).
  set (w1 := on_net _ w). unfold on_segment. rewrite decide_False by done. rewrite Hk, Hd.
  change (out_of_window k (h_seq_num (f_hdr f)) w1) with (out_of_window k (h_seq_num (f_hdr f)) w).
  destruct (out_of_window k (h_seq_num (f_hdr f)) w) eqn:Hwin; [done|]. cbn [andb].
  unfold dispatch. rewrite Hs, Hf, Hd. set (pc := peer_channel_id_ _).
  destruct (accept_facts pc (dedup_key (f_hdr f)) w1) as (Hfi & Hc & Hset & _).
  eexists. split_and!; try done.
  - unfold out_of_window in Hwin |- *. by rewrite Hfi, Hc.
  - intros Hwf. by apply wf_count_win, wf_record; [apply wf_on_net|].
Qed.

Section completeness.
Context {H : Type} {app : SessionHandler H}.
Context {rt : ZdsRuntime} {T : Transport} {sort : StdSort}.
Context (k : SessionKey) (P : Z -> bytes) (n : Z).
Context (Hmb : forall len, mb_acquire len = true).
Implicit Types (w : world H) (st : SessionState).

(** Segment [s] has been received: delivered, or waiting in the buffer. *)
Definition received (s : Z) w : Prop :=
  match rx_of k w with
  | Some st => s < expected_rx_seq st \/ In s (om_keys (rx_buffer st))
  | None => False
  end.
(** What the session is waiting for is not buffered. *)
Definition drained w : Prop :=
  match rx_of k w with
  | Some st => ~ In (expected_rx_seq st) (om_keys (rx_buffer st))
  | None => True
  end.
(** The session was entered without a handler, which it can never get. *)
Definition mute w : Prop := match rx_of k w with Some st => handler st = None | None => False end.
#[export] Instance mute_dec w : Decision (mute w).
Proof. unfold mute. destruct (rx_of k w); apply _. Defined.
Definition kept w : Prop := ~ gone k w /\ ~ mute w.
#[export] Instance kept_dec w : Decision (kept w).
Proof. unfold kept. apply _. Defined.
(** The duplicate filter knows received segments only. *)
Definition filter_sound w : Prop :=
  forall s, (k, s, 0) ∈ dedup_map_ (w_ds w) -> received s w.

(** What a run keeps up as long as the session is kept. *)
Record live_inv (c : StreamConfig) w : Prop := {
  li_run : run_inv k P n c w;
  li_live : kept w -> drained w /\ filter_sound w }.

(** What a session has lost it does not get back. *)
Definition keeps w w' : Prop := log_grows w w' /\ (~ gone k w' -> mute w -> mute w').
#[export] Instance keeps_preorder : PreOrder keeps.
Proof.
  split; [done|]. intros w1 w2 w3 [Hl Hm] [Hl' Hm']. split; [by etrans|]. intros Hg Hw. apply Hm'; [done|].
  apply Hm; [|done]. intros ?. by apply Hg, (log_grows_gone k w2).
Qed.
Lemma keeps_kept w w' : keeps w w' -> kept w' -> kept w.
Proof. intros [Hl Hm] [Hg Hn]. split; [|auto]. intros ?. by apply Hg, (log_grows_gone k w). Qed.
Lemma keeps_aside w w' : aside k w w' -> keeps w w'.
Proof.
  intros Ha. split; [by apply (aside_grows k)|]. intros Hg. unfold mute. by rewrite (aside_rx k _ _ Ha Hg).
Qed.
Lemma keeps_rx w w' : w_log w' = w_log w -> rx_of k w' = rx_of k w -> keeps w w'.
Proof. intros Hl Hr. by apply keeps_aside, aside_eq. Qed.

Lemma order_kept w : in_order k P n w -> ~ gone k w ->
  match rx_of k w with
  | None => heard k (w_log w) = []
  | Some st => exists m, reasm P n m st /\ heard k (w_log w) = sent P m
  end.
Proof. by intros [[? _]|[_ ?]]. Qed.

(** ** Steps that leave the receive side of [k] and the filter alone *)
Lemma received_ext s w w' : rx_of k w' = rx_of k w -> received s w -> received s w'.
Proof. unfold received. by intros ->. Qed.
Lemma drained_ext w w' : rx_of k w' = rx_of k w -> drained w -> drained w'.
Proof. unfold drained. by intros ->. Qed.

Lemma filter_ext w w' : rx_of k w' = rx_of k w -> dedup_map_ (w_ds w') = dedup_map_ (w_ds w) ->
  filter_sound w -> filter_sound w'.
Proof.
  intros Hrx Hd Hf s. rewrite Hd. intros Hs. eapply received_ext; [exact Hrx | by apply Hf].
Qed.

(** ** Delivery *)
Lemma deliver_spec m st w h : n < 2 ^ 32 -> om_ok (rx_buffer st) -> reasm P n m st ->
  handler st = Some h -> find_session k w = Some st -> ~ gone k (deliverInOrder k st w) ->
  exists e rest, rx_of k (deliverInOrder k st w) = Some (rx_view (set_rx e rest st)) /\
    m <= e /\ ~ In e (om_keys rest) /\
    (forall s, In s (om_keys (rx_buffer st)) -> s < e \/ In s (om_keys rest)).
Proof.
  intros Hn Hok [He Hm Hbuf] Hh Hf. unfold deliverInOrder. rewrite Hh.
  destruct (take_run_reasm P n (rx_buffer st) m) as (e & rest & Ht & Hme & _ & Hrest & Hcov);
    [done | lia | done | done |].
  rewrite He, Ht. intros Hng. exists e, rest. split_and!.
  - destruct (deliver_all_called (wire_ingress_id st, session_id st) h (session_id st) (map P (seqZ m (e - m)))
      (put_session k (set_rx e rest st) w)) as [_ (l & Hl & _ & Hr)].
    destruct (Hr k) as [->|[_ Hin]]; [by apply rx_put_eq|]. destruct Hng. unfold gone. rewrite Hl. set_solver.
  - done.
  - intros ([s x] & Hs & Hin)%in_map_iff. simpl in Hs. destruct (Hrest s x Hin). lia.
  - intros s ([s' x] & <- & Hin)%in_map_iff. destruct (Hcov s' x Hin) as [?|Hin']; [by left|].
    right. apply in_map_iff. by exists (s', x).
Qed.

Lemma ensure_live w : drained w ->
  exists st, find_session k (ensure_session k w) = Some st /\
    ~ In (expected_rx_seq st) (om_keys (rx_buffer st)) /\
    (forall s, received s w -> s < expected_rx_seq st \/ In s (om_keys (rx_buffer st))).
Proof.
  intros Hd. unfold ensure_session, drained, received, rx_of in *.
  destruct (find_session k w) as [st|] eqn:Hf; simpl in *.
  - rewrite Hf. by exists st.
  - destruct (if unknown_cb_set (w_ds w) then _ else _) as [h a].
    eexists. split; [apply find_put_eq|]. simpl. tauto.
Qed.
Lemma mute_st st w : find_session k w = Some st -> handler st = None -> mute w.
Proof. intros Hf Hh. unfold mute, rx_of. by rewrite Hf. Qed.
(** A mute session stays so. *)
Lemma mute_ensure w : mute w -> exists st, find_session k (ensure_session k w) = Some st /\ handler st = None.
Proof.
  unfold mute, rx_of, ensure_session. destruct (find_session k w) as [st|] eqn:Hf; [|done]. simpl.
  rewrite Hf. by exists st.
Qed.
Lemma keeps_on_data seq p w : keeps w (on_data k seq p w).
Proof.
  split; [apply grows_on_data|]. intros _ (st & Hf & Hh)%mute_ensure. unfold on_data. rewrite Hf.
  set (st' := if mb_acquire _ then _ else _). assert (Hh' : handler st' = None) by (unfold st'; by destruct (mb_acquire _)).
  unfold deliverInOrder. rewrite Hh'. eapply mute_st; [apply find_put_eq | done].
Qed.
Lemma keeps_on_syn w : keeps w (on_syn k w).
Proof.
  split; [apply grows_on_syn|]. intros _ (st & Hf & Hh)%mute_ensure. unfold on_syn. rewrite Hf, Hh. by eapply mute_st.
Qed.
Lemma keeps_dispatch k' hdr p w : stream_wf w -> (k' = k -> isFin hdr = false) -> keeps w (dispatch k' hdr p w).
Proof.
  intros Hwf Hfin. destruct (decide (k' = k)) as [->|Hne]; [|by apply keeps_aside, aside_dispatch].
  unfold dispatch. rewrite Hfin by done. set (w2 := if isSyn hdr then _ else _).
  transitivity w2; [unfold w2; destruct (isSyn hdr); [apply keeps_on_syn | done]|].
  destruct (has_data hdr); [apply keeps_on_data | done].
Qed.

(** An accepted copy is received, and nothing received before is lost. *)
Lemma on_data_live c seq p w : n + recv_window_ c <= 2 ^ 32 -> run_inv k P n c w ->
  drained w -> 0 <= seq < n -> p = P seq -> out_of_window k seq w = false -> kept (on_data k seq p w) ->
  drained (on_data k seq p w) /\ received seq (on_data k seq p w) /\
  (forall s, received s w -> received s (on_data k seq p w)).
Proof.
  intros Hn [Hwf Hord <-] Hdr Hseq -> Hwin Hkept.
  destruct (keeps_kept _ _ (keeps_on_data seq (P seq) w) Hkept) as [Hg _]. destruct Hkept as [Hng Hnm].
  destruct (ensure_live w Hdr) as (st & Hf & Hhead & Hrec).
  pose proof (in_order_ensure k P n k w ltac:(lia) Hord) as He. pose proof (wf_ensure k w Hwf) as Hwe.
  pose proof (st_cfg _ Hwf) as [_ Hwpos].
  destruct (wf_find _ _ _ Hwe Hf) as [Hid _ _ Hok _].
  apply order_kept in He; [|unfold gone; by rewrite log_ensure].
  unfold rx_of in He. rewrite Hf in He. simpl in He. destruct He as (m & Hre & Hlog).
  apply (proj1 (reasm_view P n m st)) in Hre. unfold on_data in *. rewrite Hf, Hmb in *.
  set (st' := set_rx _ _ st) in *.
  destruct (handler st) as [h|] eqn:Hhe.
  2: { destruct Hnm. unfold deliverInOrder, st'. simpl. rewrite Hhe. eapply mute_st; [apply find_put_eq | done]. }
  assert (Hmseq : m <= seq).
  { apply (window_lower n (recv_window_ (cfg w))); try done; try lia; [by destruct Hre|].
    rewrite <- window_ensure in Hwin. unfold out_of_window in Hwin.
    rewrite Hf, ensure_cfg in Hwin. destruct Hre as [<- _ _]. lia. }
  destruct (deliver_spec m st' (put_session k st' (ensure_session k w)) h) as (e & rest & Hrx & Hme & Hne & Hcov).
  - lia.
  - simpl. auto with fgw.
  - destruct Hre as [Hexp Hm Hbuf]. constructor; simpl; [done..|].
    intros s x [[-> ->]|Hin]%om_In_emplace; [split; [lia | done]|]. by apply Hbuf.
  - done.
  - apply find_put_eq.
  - exact Hng.
  - assert (Hkeys : forall s, s = seq \/ In s (om_keys (rx_buffer st)) -> In s (om_keys (rx_buffer st'))).
    { intros s Hs. simpl. unfold om_emplace. destruct (om_find seq (rx_buffer st)) as [x|] eqn:Hx.
      - destruct Hs as [->|]; [|done]. apply om_find_In in Hx. by apply (in_map fst) in Hx.
      - by apply om_keys_insert. }
    unfold drained, received. rewrite Hrx. simpl. split_and!; [done | |].
    + apply Hcov, Hkeys. by left.
    + intros s Hs. destruct (Hrec s Hs) as [Hlt|Hin]; [|apply Hcov, Hkeys; by right].
      destruct Hre as [Hexp _ _]. left. lia.
Qed.

(** ** A segment of the session *)
Lemma on_syn_live w : drained w -> drained (on_syn k w) /\ (forall s, received s w -> received s (on_syn k w)).
Proof.
  intros Hd. destruct (ensure_live w Hd) as (st & Hf & Hhead & Hrec).
  unfold on_syn. rewrite Hf. destruct (handler st) as [h|]; unfold drained, received, rx_of.
  - change (find_session k (call_open k h (snd k) (ensure_session k w)))
      with (find_session k (ensure_session k w)). by rewrite Hf.
  - by rewrite Hf.
Qed.

Lemma dispatch_live c hdr p w : n + recv_window_ c <= 2 ^ 32 -> 0 <= n -> run_inv k P n c w ->
  drained w -> isFin hdr = false ->
  (has_data hdr = true -> 0 <= h_seq_num hdr < n /\ p = P (h_seq_num hdr)) ->
  has_data hdr && out_of_window k (h_seq_num hdr) w = false -> kept (dispatch k hdr p w) ->
  drained (dispatch k hdr p w) /\
  (forall s, received s w -> received s (dispatch k hdr p w)) /\
  (has_data hdr = true -> received (h_seq_num hdr) (dispatch k hdr p w)).
Proof.
  intros Hn H0 Hri Hd Hfin Hg Hwin. unfold dispatch. rewrite Hfin.
  destruct (on_syn_live w Hd) as [Hds Hrs]. destruct Hri as [Hwf Hord Hc].
  set (w2 := if isSyn hdr then _ else _). intros Hng.
  assert (H2 : drained w2 /\ (forall s, received s w -> received s w2))
    by (unfold w2; destruct (isSyn hdr); auto).
  assert (Hri2 : run_inv k P n c w2).
  { unfold w2. destruct (isSyn hdr); [|by constructor].
    constructor; [by apply wf_on_syn | by apply in_order_on_syn |].
    rewrite <- Hc. unfold cfg. by destruct (dd_on_syn k w) as [[? _] _]. }
  assert (Hwin2 : out_of_window k (h_seq_num hdr) w2 = out_of_window k (h_seq_num hdr) w)
    by (unfold w2; destruct (isSyn hdr); [apply window_on_syn | done]).
  clearbody w2. destruct H2 as [Hd2 Hr2].
  destruct (has_data hdr); [|done]. destruct (Hg eq_refl) as [Hseq ->].
  destruct (on_data_live c (h_seq_num hdr) _ w2 Hn Hri2 Hd2 Hseq eq_refl) as (Hd3 & Hs3 & Hr3).
  { by rewrite Hwin2. }
  { exact Hng. }
  split_and!; auto.
Qed.

(** Everything a window or more before [s] is received, so [s] is in the window
    or received itself. *)
Lemma in_window c s w : n + recv_window_ c <= 2 ^ 32 -> run_inv k P n c w -> drained w -> ~ gone k w ->
  0 <= s < n -> (forall q, 0 <= q -> q + recv_window_ c <= s -> received q w) ->
  received s w \/ out_of_window k s w = false.
Proof.
  intros Hn [Hwf Hord <-] Hd Hg Hs Hbefore. pose proof (st_cfg _ Hwf) as [_ Hw].
  apply order_kept in Hord; [|done]. unfold drained, received, out_of_window, rx_of in *.
  destruct (find_session k w) as [st|]; simpl in *.
  - destruct Hord as (m & [Hexp Hm _] & _). simpl in Hexp. rewrite Hexp in *.
    destruct (Z.lt_ge_cases s m); [left; by left|]. right.
    assert (m + recv_window_ (cfg w) > s).
    { destruct (Z.le_gt_cases (m + recv_window_ (cfg w)) s) as [Hle|]; [|lia]. exfalso.
      destruct (Hbefore m ltac:(lia) Hle); [lia | done]. }
    rewrite u32_small by (unfold is_u32; lia). lia.
  - right. destruct (Z.le_gt_cases (recv_window_ (cfg w)) s) as [Hle|Hgt].
    + by destruct (Hbefore 0 ltac:(lia) ltac:(lia)).
    + rewrite u32_small by (unfold is_u32; lia). lia.
Qed.

(** A first copy of a frame, its key entered and its win counted. *)
Lemma accept_live c hdr p w w1 : n + recv_window_ c <= 2 ^ 32 -> 0 <= n -> live_inv c w ->
  (forall k', find_session k' w1 = find_session k' w) -> cfg w1 = cfg w ->
  stream_wf w1 -> w_log w1 = w_log w ->
  (forall x, x ∈ dedup_map_ (w_ds w1) -> x = dedup_key hdr \/ x ∈ dedup_map_ (w_ds w)) ->
  (seg_key hdr = k -> isFin hdr = false /\ (isSyn hdr = false -> has_data hdr = true) /\
    (has_data hdr = true -> 0 <= h_seq_num hdr < n /\ p = P (h_seq_num hdr))) ->
  has_data hdr && out_of_window (seg_key hdr) (h_seq_num hdr) w = false ->
  let w' := dispatch (seg_key hdr) hdr p w1 in
  kept w' ->
  drained w' /\ filter_sound w' /\ (forall s, received s w -> received s w') /\
  (seg_key hdr = k -> has_data hdr = true -> received (h_seq_num hdr) w').
Proof.
  intros Hn H0 [Hri Hlive] Hfind Hcfg1 Hwf1 Hlog1 Hmem Hg Hwin. cbv zeta. intros Hng.
  assert (Hrx1 : rx_of k w1 = rx_of k w) by (unfold rx_of; by rewrite Hfind).
  assert (Hk1 : kept w1) by (eapply keeps_kept; [apply keeps_dispatch; [done | by apply Hg] | exact Hng]).
  destruct Hlive as [Hd Hf]; [by eapply keeps_kept; [by apply keeps_rx|]|].
  assert (Hri1 : run_inv k P n c w1).
  { destruct Hri as [_ Hord Hc]. constructor; [done | | by rewrite Hcfg1].
    by eapply in_order_ext; [exact Hrx1 | |]. }
  pose proof (drained_ext _ _ Hrx1 Hd) as Hd1.
  assert (Hr1 : forall s, received s w -> received s w1) by (intros s; by apply received_ext).
  assert (Hdd : dedup_map_ (w_ds (dispatch (seg_key hdr) hdr p w1)) = dedup_map_ (w_ds w1))
    by (by destruct (dd_dispatch (seg_key hdr) hdr p w1) as (_ & _ & ->)).
  destruct (decide (seg_key hdr = k)) as [Hk|Hne].
  - destruct (Hg Hk) as (Hfin & Hsyn & Hdata). rewrite Hk in *.
    destruct (dispatch_live c hdr p w1) as (Hd2 & Hr2 & Hs2); try done.
    { unfold out_of_window in Hwin |- *. by rewrite Hfind, Hcfg1. }
    split_and!; [done | | auto | auto].
    intros s Hs. rewrite Hdd in Hs. destruct (Hmem _ Hs) as [Heq|Hold]; [|by apply Hr2, Hr1, Hf].
    unfold dedup_key, seg_kind in Heq. rewrite Hk, Hfin in Heq. injection Heq as -> Hkind.
    destruct (isSyn hdr); [done|]. by apply Hs2, Hsyn.
  - assert (Hrx2 : rx_of k (dispatch (seg_key hdr) hdr p w1) = rx_of k w1) by (apply aside_rx; [by apply aside_dispatch | by apply Hng]).
    split_and!; [by eapply drained_ext | | | by intros].
    + intros s Hs. rewrite Hdd in Hs. destruct (Hmem _ Hs) as [Heq|Hold].
      * unfold dedup_key in Heq. injection Heq as Hk _ _. done.
      * eapply received_ext; [exact Hrx2|]. by apply Hr1, Hf.
    + intros s Hs. eapply received_ext; [exact Hrx2|]. auto.
Qed.

Lemma on_segment_live c ch hdr p w : n + recv_window_ c <= 2 ^ 32 -> 0 <= n -> live_inv c w ->
  (seg_key hdr = k -> isFin hdr = false /\ (isSyn hdr = false -> has_data hdr = true) /\
    (has_data hdr = true -> 0 <= h_seq_num hdr < n /\ p = P (h_seq_num hdr))) ->
  let w' := on_segment ch hdr p w in
  keeps w w' /\
  (kept w' -> drained w' /\ filter_sound w' /\ (forall s, received s w -> received s w') /\
   (seg_key hdr = k -> isSyn hdr = false -> has_data hdr = true ->
    (forall q, 0 <= q -> q + recv_window_ c <= h_seq_num hdr -> received q w) ->
    received (h_seq_num hdr) w')).
Proof.
  intros Hn H0 Hli Hg. pose proof Hli as [Hri Hlive]. cbv zeta. unfold on_segment.
  destruct (decide (dedup_key hdr ∈ dedup_map_ (w_ds w))) as [Hdup|Hnew].
  { destruct (count_loss_core (peer_channel_id_ (chan (w_net w) ch)) w) as (_ & Hs & _ & _ & Hdd & _).
    assert (Hrx : rx_of k (count_loss (peer_channel_id_ (chan (w_net w) ch)) w) = rx_of k w)
      by (unfold rx_of, find_session; by rewrite Hs).
    assert (Hks : keeps w (count_loss (peer_channel_id_ (chan (w_net w) ch)) w)) by (by apply keeps_rx).
    split; [done|]. intros Hng. destruct (Hlive (keeps_kept _ _ Hks Hng)) as [Hd Hf].
    split_and!; [by eapply drained_ext | by eapply filter_ext | intros s; by apply received_ext |].
    intros Hk Hsyn Hdata _. eapply received_ext; [exact Hrx|]. apply Hf.
    unfold dedup_key, seg_kind in Hdup. rewrite Hk, Hsyn in Hdup.
    by rewrite (proj1 (Hg Hk)) in Hdup. }
  destruct (has_data hdr && out_of_window (seg_key hdr) (h_seq_num hdr) w) eqn:Hwin.
  { split; [done|]. intros Hng. destruct (Hlive Hng) as [Hd Hf]. split_and!; try done. intros Hk _ Hdata Hbefore.
    apply andb_true_iff in Hwin as [_ Hwin]. rewrite Hk in Hwin.
    destruct (in_window c (h_seq_num hdr) w) as [?|?]; try done; [by apply Hng | by apply (Hg Hk) | congruence]. }
  destruct (accept_facts (peer_channel_id_ (chan (w_net (on_ds (record_dedup (dedup_key hdr)) w)) ch))
    (dedup_key hdr) w) as (Hfind & Hcfg1 & _ & Hmem). set (w1 := count_win _ _) in *.
  assert (Hwf1 : stream_wf w1) by (apply wf_count_win, wf_record; by destruct Hri).
  assert (Hrx1 : rx_of k w1 = rx_of k w) by (unfold rx_of; by rewrite Hfind).
  split.
  - transitivity w1; [by apply keeps_rx|]. apply keeps_dispatch; [done | by intros; apply Hg].
  - intros Hng. destruct (accept_live c hdr p w w1 Hn H0 Hli Hfind Hcfg1) as (H1 & H2 & H3 & H4); try done.
    split_and!; auto.
Qed.

Lemma live_on_frame c ch f w : n + recv_window_ c <= 2 ^ 32 -> 0 <= n -> live_inv c w ->
  frame_shape f -> is_u32 (h_seq_num (f_hdr f)) -> good_frame (verify_crc_ c) k P n f ->
  full_frame (verify_crc_ c) k f ->
  let w' := on_frame_in ch w f in
  live_inv c w' /\ keeps w w' /\ (kept w' -> (forall s, received s w -> received s w') /\
  (forall s, is_copy (verify_crc_ c) k s f ->
     (forall q, 0 <= q -> q + recv_window_ c <= s -> received q w) -> received s w')).
Proof.
  intros Hn H0 Hli Hsh Hu Hg Hfull. cbv zeta. pose proof Hli as [Hri Hlive].
  pose proof (run_inv_frame k P n c ch f w Hn H0 Hsh Hu Hg Hri) as Hri'.
  assert (Hcore : same_core (w_ds w) (w_ds (on_frame_in ch w f)) -> w_log (on_frame_in ch w f) = w_log w ->
    (forall s, is_copy (verify_crc_ c) k s f -> False) ->
    live_inv c (on_frame_in ch w f) /\ keeps w (on_frame_in ch w f) /\ (kept (on_frame_in ch w f) ->
      (forall s, received s w -> received s (on_frame_in ch w f)) /\
      (forall s, is_copy (verify_crc_ c) k s f ->
        (forall q, 0 <= q -> q + recv_window_ c <= s -> received q w) -> received s (on_frame_in ch w f)))).
  { intros (_ & Hs & _ & _ & Hm & _) Hl Hno.
    assert (Hrx : rx_of k (on_frame_in ch w f) = rx_of k w) by (unfold rx_of, find_session; by rewrite Hs).
    assert (Hks : keeps w (on_frame_in ch w f)) by (by apply keeps_rx).
    split; [|split; [done|]].
    - constructor; [done|]. intros Hng. destruct (Hlive (keeps_kept _ _ Hks Hng)).
      split; [by eapply drained_ext | by eapply filter_ext].
    - intros Hng. split; [intros s; by apply received_ext |]. intros s Hc. by destruct (Hno s). }
  unfold good_frame, full_frame, is_copy, on_frame_in, on_frame in *. fold (f_payload f) in *.
  rewrite <- (fs_payload _ Hsh), to_nat_zlen, firstn_all in *.
  assert (Hv : verify_crc_ (cfg w) = verify_crc_ c) by (by destruct Hri as [_ _ ->]). rewrite Hv in *.
  destruct (verify_crc_ c && negb (fgwSegmentVerifyCrc _ _ _)) eqn:Hcrc.
  { apply Hcore; [done..|]. intros s (Hc & _). destruct (verify_crc_ c); [|done]. by rewrite (Hc eq_refl) in Hcrc. }
  assert (Hok : verify_crc_ c = true -> fgwSegmentVerifyCrc (f_bytes f) (f_hdr f) (f_hr f) = true).
  { intros Hvt. rewrite Hvt in Hcrc. by destruct (fgwSegmentVerifyCrc _ _ _). }
  specialize (Hg Hok). specialize (Hfull Hok). set (w1 := on_net _ w) in *.
  destruct (isHello (f_hdr f)); [apply Hcore; [apply (on_hello_core _ _ w1) | by apply (on_hello_core _ _ w1) | by intros s (_ & ? & _)]|].
  destruct (isHeartbeat (f_hdr f)); [apply Hcore; [done | done | by intros s (_ & _ & ? & _)]|].
  destruct (isAck (f_hdr f));
    [apply Hcore; [apply (on_ack_core _ w1) | by apply (on_ack_core _ w1) | by intros s (_ & _ & _ & ? & _)]|].
  specialize (Hg eq_refl eq_refl eq_refl). specialize (Hfull eq_refl eq_refl eq_refl).
  assert (Hli1 : live_inv c w1).
  { constructor; try done. destruct Hri as [Hwf Hord Hc]. by constructor; [apply wf_on_net | |]. }
  pose proof (on_segment_live c ch (f_hdr f) (f_payload f) w1 Hn H0 Hli1) as Hseg. cbv zeta in Hseg.
  assert (Hfacts : seg_key (f_hdr f) = k -> isFin (f_hdr f) = false /\
    (isSyn (f_hdr f) = false -> has_data (f_hdr f) = true) /\
    (has_data (f_hdr f) = true -> 0 <= h_seq_num (f_hdr f) < n /\ f_payload f = P (h_seq_num (f_hdr f)))).
  { intros Hk. destruct (Hg Hk) as [Hfin Hdata]. split_and!; auto. }
  destruct (Hseg Hfacts) as [Hks Hmain]. split; [|split].
  - constructor; [done|]. intros Hng. by destruct (Hmain Hng) as (? & ? & _).
  - transitivity w1; [by apply keeps_rx | exact Hks].
  - intros Hng. destruct (Hmain Hng) as (_ & _ & H3 & H4). split; [exact H3|].
    intros s (_ & _ & _ & _ & Hsyn & _ & Hdata & Hk & <-). by apply H4.
Qed.

Lemma live_step c s w : 0 <= n -> (forall ch buf, s <> StBytes ch buf) -> live_inv c w ->
  live_inv c (do_step s w) /\ keeps w (do_step s w) /\
    (kept (do_step s w) -> forall q, received q w -> received q (do_step s w)).
Proof.
  intros H0 Hnb [Hri Hlive].
  pose proof (run_inv_step k P n c s w H0 Hnb Hri) as Hri'.
  destruct (dd_step s w Hnb) as (_ & _ & Hdd).
  assert (Hsame : keeps w (do_step s w) -> (~ gone k (do_step s w) -> rx_of k (do_step s w) = rx_of k w) ->
    live_inv c (do_step s w) /\ keeps w (do_step s w) /\
      (kept (do_step s w) -> forall q, received q w -> received q (do_step s w))).
  { intros Hks Hrx. split; [|split; [done|]].
    - constructor; [done|]. intros Hng. destruct (Hlive (keeps_kept _ _ Hks Hng)). destruct Hng as [Hng _].
      specialize (Hrx Hng). split; [by eapply drained_ext | by eapply filter_ext].
    - intros [Hng _] q. by apply received_ext, Hrx. }
  destruct s as [ch buf|sid h|f|]; [by destruct (Hnb ch buf) | | |].
  - pose proof (grows_step (StOpen sid h) w Hnb ltac:(done)) as Hgr.
    simpl in *. unfold openSession in *. set (key := (_, sid)) in *.
    destruct (find_session key w) as [st|] eqn:Hfs; [by apply Hsame|].
    set (w1 := put_session _ _ w) in *.
    destruct (sendSegment_shape (local_ingress_id_ (cfg w)) sid 0 FLAG_SYN None 0 w1) as (r & f & Hs).
    rewrite Hs in *. clearbody key. cbn [snd] in *. destruct (decide (k = key)) as [<-|Hne].
    + assert (Hnone : rx_of k w = None) by (unfold rx_of; by rewrite Hfs).
      assert (Hnr : forall q, ~ received q w) by (intros q; unfold received; rewrite Hnone; tauto).
      assert (Hks : keeps w (on_net f w1)) by (split; [exact (proj2 Hgr) | intros _ Hm; unfold mute in Hm; by rewrite Hnone in Hm]).
      split; [|split; [done | intros _ q Hq; by destruct (Hnr q)]].
      constructor; [done|]. intros Hng. destruct (Hlive (keeps_kept _ _ Hks Hng)) as [_ Hf]. split.
      * unfold drained, rx_of. change (find_session k (on_net f w1)) with (find_session k w1).
        unfold w1. rewrite find_put_eq. simpl. tauto.
      * intros q Hin. cbn [do_step snd] in Hdd. rewrite Hdd in Hin. by destruct (Hnr q); apply Hf.
    + assert (Hrx : rx_of k (on_net f w1) = rx_of k w) by (by apply (rx_put_ne k)).
      apply Hsame; [by apply keeps_rx | done].
  - rewrite env_step in *. set (w1 := set_env _ _ w) in *.
    assert (Ha : aside k w1 (apply_calls (snd (f (w_app w) (w_net w))) w1))
      by (eapply aside_called; [apply apply_calls_called | done]).
    apply Hsame; [etrans; [by apply (keeps_rx w w1) | by apply keeps_aside]|].
    intros Hng. by apply (aside_rx k w1).
  - destruct (emitFeedback_core w) as ((_ & Hs & _) & Hl).
    assert (Hrx : rx_of k (emitFeedback w) = rx_of k w) by (unfold rx_of, find_session; by rewrite Hs).
    apply Hsame; [by apply keeps_rx | done].
Qed.

Lemma live_new loc ss win v r net a (b : bool)
    (d := if b then setUnknownSessionCallback (new_stream loc ss win v r) else new_stream loc ss win v r) :
  0 <= n -> 0 <= ss < 2 ^ 16 -> 0 <= win < 2 ^ 16 -> live_inv (cfg_ d) (mkWorld d net a []).
Proof.
  intros Hn Hss Hwin. assert (Hwf : stream_wf (mkWorld d net a [])) by (unfold d; destruct b; [by apply wf_new_cb | by apply wf_new]).
  assert (Hno : sessions_ d = empty /\ dedup_map_ d = empty) by (by destruct b). destruct Hno as [Hns Hnd].
  constructor; [constructor; [done | | done] | intros _; split].
  - right. unfold gone, rx_of, find_session. cbn [w_ds]. rewrite Hns, lookup_empty. split; [set_solver | done].
  - unfold drained, rx_of, find_session. cbn [w_ds]. by rewrite Hns, lookup_empty.
  - intros s. cbn [w_ds]. rewrite Hnd. set_solver.
Qed.

(** Once every segment is received, everything has been handed over. *)
Lemma live_done c w : 0 <= n -> live_inv c w -> kept w -> (forall s, 0 <= s < n -> received s w) ->
  heard k (w_log w) = sent P n.
Proof.
  intros Hn [[_ Hord _] Hlive] Hg Hall. apply order_kept in Hord; [|apply Hg].
  destruct (Hlive Hg) as [Hd _]. unfold drained, received in *.
  destruct (rx_of k w) as [st|].
  - destruct Hord as (m & [Hexp Hm _] & ->). destruct (decide (m = n)) as [->|Hne]; [done|].
    destruct (Hall m) as [?|Hin]; [lia | lia |]. rewrite <- Hexp in Hin. by destruct Hd.
  - destruct (decide (n = 0)) as [->|]; [done|]. by destruct (Hall 0 ltac:(lia)).
Qed.
End completeness.

(** A session that is still there, with a handler, has been given everything. *)
Lemma arrival_run {H} {app : SessionHandler H} {rt : ZdsRuntime} {T : Transport}
    {sort : StdSort} (k : SessionKey) (P : Z -> bytes) (n : Z)
    (loc ss win : Z) (v : bool) (r : Z) (b : bool) (net : Links) (a : H) (steps : list (stream_step H))
    (d0 := if b then setUnknownSessionCallback (new_stream loc ss win v r) else new_stream loc ss win v r)
    (Hmb : forall len, mb_acquire len = true)
    (Hss : 0 <= ss < 2 ^ 16) (Hwin : 0 <= win < 2 ^ 16) (Hn : 0 <= n <= 2 ^ 32 - 2 ^ 16)
    (Hbytes : Forall step_bytes steps)
    (Hlinks : good_links k P n v steps)
    (Hfull : Forall (full_frame v k) (frame_trace empty steps))
    (Harrive : window_arrival v k n (recv_window_ (cfg_ d0)) (frame_trace empty steps))
    (Hkept : kept k (do_steps steps (mkWorld d0 net a []))) :
  heard k (w_log (do_steps steps (mkWorld d0 net a []))) = sent P n.
Proof.
  set (w0 := mkWorld d0 net a []) in *.
  assert (Hwf : stream_wf w0) by (unfold w0, d0; destruct b; [by apply wf_new_cb | by apply wf_new]).
  destruct (st_cfg _ Hwf) as [_ Hw]. set (c := cfg_ d0) in *. change (cfg w0) with c in Hw.
  assert (Hv : verify_crc_ c = v) by (unfold c, d0; by destruct b). 
  pose proof (good_links_trace _ _ _ _ _ Hlinks) as Hg. set (tr := frame_trace empty steps) in *.
  rewrite List.Forall_forall in Hg, Hfull. destruct Harrive as (pos & Hpos & Hbefore).
  assert (Hbound : n + recv_window_ c <= 2 ^ 32) by lia.
  set (I := fun (past : list frame_in) (w : world H) => live_inv k P n c w /\
    (kept k w -> forall s, 0 <= s < n -> (pos s < length past)%nat -> received k s w)).
  assert (Hinv : I tr (do_steps steps w0)).
  { apply (trace_ind I (fun _ => True) tr) with (past := []).
    - intros _ w [[[Hwf' _ _] _] _] ch x Hx. by destruct (st_scratch _ Hwf' _ _ Hx).
    - intros ch past f rest w Htr Hsh Hu [Hli Hrec].
      assert (Hin : In f tr) by (rewrite Htr; apply in_elt).
      destruct (live_on_frame k P n Hmb c ch f w) as (Hli' & Hks & Hnew);
        try done; try lia; [rewrite Hv; by apply Hg | rewrite Hv; by apply Hfull |].
      split; [done|]. intros Hng s Hs Hlt. destruct (Hnew Hng) as (Hmono & Hcp). rewrite Hv in Hcp.
      specialize (Hrec (keeps_kept _ _ _ Hks Hng)). rewrite length_app in Hlt. simpl in Hlt.
      destruct (decide (pos s < length past)%nat); [by apply Hmono, Hrec|].
      assert (Hat : pos s = length past) by lia.
      destruct (Hpos s Hs) as (f' & Hf' & Hcopy). rewrite Htr, Hat, list_lookup_middle in Hf' by done.
      injection Hf' as <-. apply Hcp; [done|]. intros q Hq Hqs. apply Hrec; [lia |].
      specialize (Hbefore q s Hq ltac:(lia)). lia.
    - intros past w ch x [[Hri Hlive] Hrec] Hx Hl. split; [|done].
      constructor; [by apply run_inv_scratch | done].
    - intros past w s _ Hnb [Hli Hrec].
      destruct (live_step k P n c s w) as (Hli' & Hks & Hmono); try done; [lia|].
      split; [done|]. intros Hng q Hq Hlt. apply Hmono, Hrec; [done | | done | done]. by eapply keeps_kept.
    - unfold w0, d0. cbn [w_ds]. by destruct b.
    - eapply Forall_impl; [exact Hbytes|]. by intros s Hs.
    - split; [unfold w0, c, d0; apply live_new; done || lia | intros _ s Hs Hlt; simpl in Hlt; lia]. }
  destruct Hinv as [Hli Hrec]. apply (live_done k P n c); [lia | done | done |].
  intros s Hs. apply Hrec; [done | done |]. destruct (Hpos s Hs) as (f & Hf & _).
  by apply lookup_lt_Some in Hf.
Qed.

(** C8. Nothing is lost: if intact copies of the [n] segments arrive with a
    reordering the receive window can absorb - each at some point after the
    segments a window before it; duplicates, losses of other copies and late
    copies are free - then the handler is given [P 0 .. P (n-1)] in full, unless
    the session has been closed from this side.  The session has not been entered
    without a handler, and memory can be acquired. *)
Theorem window_delivery {H} {app : SessionHandler H} {rt : ZdsRuntime} {T : Transport}
    {sort : StdSort} (k : SessionKey) (P : Z -> bytes) (n : Z)
    (loc ss win : Z) (v : bool) (r : Z) (cb : bool) (net : Links) (a : H) (steps : list (stream_step H))
    (d0 := if cb then setUnknownSessionCallback (new_stream loc ss win v r) else new_stream loc ss win v r)
    (Hmb : forall len, mb_acquire len = true)
    (Hss : 0 <= ss < 2 ^ 16) (Hwin : 0 <= win < 2 ^ 16) (Hn : 0 <= n <= 2 ^ 32 - 2 ^ 16)
    (Hbytes : Forall step_bytes steps)
    (Hlinks : good_links k P n v steps)
    (Hfull : Forall (full_frame v k) (frame_trace empty steps))
    (Harrive : window_arrival v k n (recv_window_ (cfg_ d0)) (frame_trace empty steps))
    (Hkept : kept k (do_steps steps (mkWorld d0 net a []))) :
  heard k (w_log (do_steps steps (mkWorld d0 net a []))) = sent P n.
Proof. by apply arrival_run. Qed.

Lemma test_trace : frame_trace empty test_arrivals =
    [mkFrame 20 (frame_hdr (mkHdr MAGIC FLAG_DATA 0 4 1 2 0 0) [4; 5]) (test_data 1);
     mkFrame 20 (frame_hdr (mkHdr MAGIC FLAG_DATA 0 4 1 2 0 0) [4; 5]) (test_data 1);
     mkFrame 20 (frame_hdr (mkHdr MAGIC FLAG_DATA 0 4 0 2 0 0) [1; 2; 3]) (test_data 0)].
Proof. by vm_compute. Qed.
Lemma window_delivery_witness :
  heard (2, 4) (w_log (do_steps (app := echo) test_arrivals
    (mkWorld (setUnknownSessionCallback (new_stream 7 0 0 true 0)) (test_net 0) 0 []))) =
  [[1; 2; 3]; [4; 5]].
Proof.
  refine (window_delivery (app := echo) (2, 4) test_payload 2 7 0 0 true 0 true (test_net 0) 0 test_arrivals
    _ _ _ _ _ _ _ _ _).
  - done.
  - done.
  - done.
  - done.
  - unfold test_arrivals, test_data. repeat constructor; by vm_compute.
  - apply test_good.
  - rewrite test_trace. repeat constructor.
  - rewrite test_trace. exists (fun s => if s =? 0 then 2%nat else 0%nat). split.
    + intros s Hs. destruct (decide (s = 0)) as [->|Hne]; [|replace s with 1 by lia];
        (eexists; split; [reflexivity|]); repeat split; by vm_compute.
    + intros q s Hq Hqs. change (recv_window_ _) with 1024 in Hqs. lia.
  - refine (bool_decide_unpack _ _). by vm_compute.
Defined.
