(* ===== verification/Sending.v ===== *)
(** * Sending: what [sendSessionData] puts on the links

    The specification of the send path: the data is cut into chunks, chunk [i] goes
    out as one frame with sequence number [q + i], and a copy of each frame is
    written to every link the selector picks. *)
From S2P Require Import Prelude Proto OMap Segment Pack Channel Selector Links DataStream.
From S2P Require Import StreamFacts StreamWf Testbed.

(** ** The specification *)

(** The header [sendSegment] builds. *)
Definition seg_hdr (c : StreamConfig) (ing sid seq flags plen : Z) : FgwSegmentHeader :=
  let routed := negb (route_outport_id_ c =? 0) in
  mkHdr MAGIC (if routed then u8 (Z.lor flags FLAG_HDR_ROUTE) else flags) (u16 plen) sid seq ing
    (if routed then route_outport_id_ c else 0) 0.

(** The live links as the selector sees them. *)
Definition pool (l : Links) : list IFgwChannel := map (chan l) (liveChannels l).

Fixpoint chunk_list (fuel : nat) (seg : Z) (buf : bytes) : list bytes :=
  match fuel, buf with
  | S fuel, _ :: _ =>
    take (Z.to_nat (Z.min (zlen buf) seg)) buf ::
    chunk_list fuel seg (drop (Z.to_nat (Z.min (zlen buf) seg)) buf)
  | _, _ => []
  end.
Definition chunks (seg : Z) (buf : bytes) : list bytes := chunk_list (length buf) seg buf.

(** The frames of consecutive DATA segments. *)
Fixpoint data_frames (c : StreamConfig) (ing sid seq : Z) (cs : list bytes) : list bytes :=
  match cs with
  | [] => []
  | p :: cs => frame (seg_hdr c ing sid seq FLAG_DATA (zlen p)) p ::
               data_frames c ing sid (seq +u32 1) cs
  end.

Definition set_send_seq (q : Z) (s : SessionState) : SessionState :=
  mkSession (session_id s) (wire_ingress_id s) q (expected_rx_seq s) (rx_buffer s) (handler s)
    (opened s) (closed s).

(** The socket behind the live link with identifier [id]. *)
Definition sock (l : Links) (id : Z) : Z :=
  match find_live id (liveChannels l) l with
  | Some a => default 0 (tcp_ptr_ (chan l a))
  | None => 0
  end.

(** A live link has a socket to write to. *)
Definition links_sane (l : Links) : Prop :=
  links_ok l /\
  forall a c, heap_ l !! a = Some c -> isLive c = true -> is_tcp c = true /\ tcp_ptr_ c <> None.

(** ** Chunks *)
Lemma chunk_list_concat fuel seg buf : 0 < seg -> (length buf <= fuel)%nat ->
  concat (chunk_list fuel seg buf) = buf.
Proof.
  intros Hseg. revert buf. induction fuel as [|fuel IH]; intros buf Hf.
  { destruct buf; simpl in *; [done | lia]. }
  destruct buf as [|b buf]; [done|]. cbn [chunk_list concat].
  set (m := Z.to_nat (Z.min (zlen (b :: buf)) seg)).
  assert (Hm : (0 < m)%nat) by (unfold m; rewrite zlen_cons; pose proof (zlen_nonneg buf); lia).
  rewrite IH; [apply take_drop|]. rewrite length_drop. simpl in *. lia.
Qed.
Lemma chunks_concat seg buf : 0 < seg -> concat (chunks seg buf) = buf.
Proof. intros. by apply chunk_list_concat. Qed.

Lemma chunk_list_fuel seg : 0 < seg -> forall f f' buf, (length buf <= f)%nat -> (length buf <= f')%nat ->
  chunk_list f seg buf = chunk_list f' seg buf.
Proof.
  intros Hseg. induction f as [|f IH]; intros f' [|b buf] Hf Hf'; simpl in Hf, Hf'; try lia.
  - by destruct f'.
  - by destruct f'.
  - destruct f' as [|f']; [lia|]. cbn [chunk_list]. f_equal.
    pose proof (zlen_nonneg buf). apply IH; rewrite length_drop, zlen_cons; simpl; lia.
Qed.
Lemma chunks_cons seg b buf : 0 < seg ->
  let m := Z.to_nat (Z.min (zlen (b :: buf)) seg) in
  chunks seg (b :: buf) = take m (b :: buf) :: chunks seg (drop m (b :: buf)).
Proof.
  intros Hseg m. unfold chunks. cbn [length chunk_list]. fold m. f_equal.
  pose proof (zlen_nonneg buf). apply chunk_list_fuel; try done.
  rewrite length_drop. unfold m. rewrite zlen_cons. simpl. lia.
Qed.

Lemma chunk_list_sizes fuel seg buf : 0 < seg ->
  Forall (fun p => 0 < zlen p <= seg) (chunk_list fuel seg buf).
Proof.
  intros Hseg. revert buf. induction fuel as [|fuel IH]; intros buf; [constructor|].
  destruct buf as [|b buf]; [constructor|]. cbn [chunk_list]. constructor; [|apply IH].
  rewrite zlen_take; [rewrite zlen_cons; pose proof (zlen_nonneg buf); lia|].
  pose proof (zlen_nonneg (b :: buf)). lia.
Qed.

Lemma data_frames_length c ing sid seq cs : length (data_frames c ing sid seq cs) = length cs.
Proof. revert seq. induction cs as [|p cs IH]; intros seq; simpl; [done | by rewrite IH]. Qed.

Lemma data_frames_app c ing sid seq cs cs' : is_u32 seq ->
  data_frames c ing sid seq (cs ++ cs') =
  data_frames c ing sid seq cs ++ data_frames c ing sid (u32 (seq + zlen cs)) cs'.
Proof.
  revert seq. induction cs as [|p cs IH]; intros seq Hu.
  - simpl. change (zlen (@nil bytes)) with 0. by rewrite Z.add_0_r, u32_small.
  - cbn [data_frames app]. rewrite IH by apply u32_range. rewrite zlen_cons.
    unfold u32. by rewrite Zplus_mod_idemp_l, Z.add_assoc.
Qed.

(** ** Links stay as they are while segments are written *)
Record chan_sim (c c' : IFgwChannel) : Prop := {
  cs_id : channel_id_ c' = channel_id_ c; cs_live : isLive c' = isLive c;
  cs_kind : kind_ c' = kind_ c; cs_tcp : tcp_ptr_ c' = tcp_ptr_ c;
  cs_entry : entry_of c' = entry_of c }.
Record sim (l l' : Links) : Prop := {
  sim_channels : channels_ l' = channels_ l;
  sim_mode : mode_ (selector_ l') = mode_ (selector_ l);
  sim_heap : forall a, match heap_ l !! a with
    | Some c => exists c', heap_ l' !! a = Some c' /\ chan_sim c c'
    | None => heap_ l' !! a = None
    end }.

#[export] Instance chan_sim_preorder : PreOrder chan_sim.
Proof.
  split; [by constructor|]. intros c1 c2 c3 [] []. constructor; congruence.
Qed.
#[export] Instance sim_preorder : PreOrder sim.
Proof.
  split.
  - intros l. constructor; [done | done |]. intros a. destruct (heap_ l !! a) as [c|]; [|done]. by exists c.
  - intros l1 l2 l3 [Hc Hm Hh] [Hc' Hm' Hh']. constructor; [congruence | congruence |]. intros a.
    specialize (Hh a). specialize (Hh' a). destruct (heap_ l1 !! a) as [c|].
    + destruct Hh as (c' & Hc2 & Hs). rewrite Hc2 in Hh'. destruct Hh' as (c'' & ? & ?).
      exists c''. split; [done | by etrans].
    + by rewrite Hh in Hh'.
Qed.

Lemma sim_chan l l' a : sim l l' -> chan_sim (chan l a) (chan l' a).
Proof.
  intros [_ _ Hh]. specialize (Hh a). unfold chan. destruct (heap_ l !! a) as [c|].
  - by destruct Hh as (c' & -> & Hs).
  - by rewrite Hh.
Qed.
Lemma sim_live l l' : sim l l' -> liveChannels l' = liveChannels l.
Proof.
  intros Hs. unfold liveChannels. rewrite (sim_channels _ _ Hs). apply filter_ext. intros a.
  by destruct (sim_chan _ _ a Hs).
Qed.
Lemma sim_find id live l l' : sim l l' -> find_live id live l' = find_live id live l.
Proof.
  intros Hs. unfold find_live. induction live as [|a live IH]; simpl; [done|].
  destruct (sim_chan _ _ a Hs) as [-> _ _ _ _]. by rewrite IH.
Qed.
Lemma sim_ids live l l' : sim l l' ->
  map channel_id_ (map (chan l') live) = map channel_id_ (map (chan l) live).
Proof.
  intros Hs. rewrite !map_map. apply map_ext. intros a. by destruct (sim_chan _ _ a Hs).
Qed.
Lemma sim_sock l l' id : sim l l' -> sock l' id = sock l id.
Proof.
  intros Hs. unfold sock. rewrite (sim_live _ _ Hs), (sim_find _ _ _ _ Hs).
  destruct (find_live _ _ _) as [a|]; [|done]. by destruct (sim_chan _ _ a Hs) as [_ _ _ -> _].
Qed.
Lemma sim_sane l l' : sim l l' -> links_sane l -> links_sane l'.
Proof.
  intros [Hc _ Hh] [[Hok Hids] Hl]. split; [constructor|].
  - by rewrite Hc.
  - intros id a Hin. rewrite Hc in Hin. destruct (Hids id a Hin) as (c & Hca & Hid).
    specialize (Hh a). rewrite Hca in Hh. destruct Hh as (c' & Hc' & Hs). exists c'.
    split; [done|]. by rewrite (cs_id _ _ Hs).
  - intros a c' Hc' Hlive. specialize (Hh a). destruct (heap_ l !! a) as [c|] eqn:Hca; [|congruence].
    destruct Hh as (c2 & Hc2 & [Hid Hlv Hk Ht He]). rewrite Hc2 in Hc'. injection Hc' as ->.
    destruct (Hl a c Hca) as [Htcp Hptr]; [congruence|]. unfold is_tcp in *. by rewrite Hk, Ht.
Qed.
Lemma sim_set_wire l x : sim l (set_wire x l).
Proof. constructor; [done | done |]. intros a. simpl. destruct (heap_ l !! a) as [c|]; [by exists c | done]. Qed.
Lemma sim_set_selector l x : mode_ x = mode_ (selector_ l) -> sim l (set_selector x l).
Proof. constructor; [done | done |]. intros a. simpl. destruct (heap_ l !! a) as [c|]; [by exists c | done]. Qed.
Lemma sim_upd a f l : (forall c, heap_ l !! a = Some c -> chan_sim c (f c)) -> sim l (upd_chan a f l).
Proof.
  intros Hf. constructor; [done | done |]. intros b. simpl. destruct (decide (a = b)) as [<-|Hne].
  - rewrite lookup_alter_eq. destruct (heap_ l !! a) as [c|] eqn:Hc; simpl; [|done]. eauto.
  - rewrite lookup_alter_ne by done. destruct (heap_ l !! b) as [c|]; [by exists c | done].
Qed.

(** ** One segment *)
Lemma live_In a l : In a (liveChannels l) ->
  isLive (chan l a) = true /\ exists id, In (id, a) (channels_ l).
Proof.
  intros [Hin Hl]%filter_In. split; [done|]. apply in_map_iff in Hin as ([id b] & <- & Hin). eauto.
Qed.
Lemma live_heap a l : links_ok l -> In a (liveChannels l) -> exists c, heap_ l !! a = Some c /\ chan l a = c.
Proof.
  intros [_ Hids] [_ (id & Hin)]%live_In. destruct (Hids id a Hin) as (c & Hc & _).
  exists c. split; [done|]. unfold chan. by rewrite Hc.
Qed.

(** The pool handed to the selector has distinct ids, all of them live. *)
Lemma pool_ids l : links_ok l ->
  map channel_id_ (pool l) =
  map fst (List.filter (fun kv => isLive (chan l (snd kv))) (channels_ l)).
Proof.
  intros [_ Hids]. unfold pool, liveChannels. induction (channels_ l) as [|[id a] m IH]; simpl; [done|].
  assert (IH' := IH ltac:(intros; eapply Hids; by right)).
  destruct (isLive (chan l a)); simpl; [|done]. rewrite IH'. f_equal.
  destruct (Hids id a) as (c & Hc & <-); [by left|]. unfold chan. by rewrite Hc.
Qed.
Lemma pool_NoDup l : links_ok l -> List.NoDup (map channel_id_ (pool l)).
Proof.
  intros Hok. rewrite pool_ids by done. destruct Hok as [Hs _]. apply om_NoDup in Hs.
  unfold om_keys in Hs. induction (channels_ l) as [|[id a] m IH]; simpl in *; [constructor|].
  apply List.NoDup_cons_iff in Hs as [Hnin Hnd]. destruct (isLive (chan l a)); simpl; [|auto].
  constructor; [|auto]. intros ([i b] & Hi & [Hin _]%filter_In)%in_map_iff. simpl in Hi. subst i.
  apply Hnin. apply in_map_iff. by exists (id, b).
Qed.
Lemma pool_live l : live_ids (pool l) = map channel_id_ (pool l).
Proof.
  unfold live_ids, pool. f_equal. apply forallb_filter_id. apply forallb_forall.
  intros c (a & <- & Ha)%in_map_iff. by apply live_In in Ha as [? _].
Qed.

Lemma find_live_In id l : In id (live_ids (pool l)) ->
  exists a, find_live id (liveChannels l) l = Some a /\ In a (liveChannels l).
Proof.
  rewrite pool_live. unfold pool. rewrite map_map. intros (a & Ha & Hin)%in_map_iff. unfold find_live.
  destruct (List.find (fun a => channel_id_ (chan l a) =? id) (liveChannels l)) as [b|] eqn:Hf.
  - exists b. split; [done|]. by apply find_some in Hf as [? _].
  - pose proof (find_none _ _ Hf a Hin) as Hn. simpl in Hn. lia.
Qed.

Section sending.
Context {H : Type} {app : SessionHandler H}.
Context {rt : ZdsRuntime} {T : Transport} {sort : StdSort}.
Implicit Types (w : world H).
Context (Hmb : forall len, mb_acquire len = true).

Lemma sendBytes_live buf wire c p : isLive c = true -> is_tcp c = true -> tcp_ptr_ c = Some p ->
  0 < zlen buf ->
  exists ret c', sendBytes buf wire c = (ret, c', wire ++ [(p, buf)]) /\ chan_sim c c' /\
    (ret = zlen buf \/ ret < 0).
Proof.
  intros Hl Ht Hp Hb. unfold sendBytes, tcp_sendBytes. rewrite Ht, Hp, Hmb.
  unfold isLive in Hl. apply andb_true_iff in Hl as [Hc Hs]. rewrite Hc. simpl.
  destruct (Z.eqb_spec (zlen buf) 0); [lia|].
  eexists _, _. split; [reflexivity|]. split.
  - destruct (0 <=? tcp_write wire p buf); [done|reflexivity].
  - destruct (Z.ltb_spec (tcp_write wire p buf) 0); auto.
Qed.

Lemma send_on_live a buf l : links_sane l -> In a (liveChannels l) -> 0 < zlen buf ->
  exists ret l', send_on a buf l = (ret, l') /\ sim l l' /\
    wire_ l' = wire_ l ++ [(default 0 (tcp_ptr_ (chan l a)), buf)] /\ (ret = zlen buf \/ ret < 0).
Proof.
  intros [Hok Hl] Hin Hb. destruct (live_heap a l Hok Hin) as (c & Hc & Hch).
  destruct (live_In a l Hin) as [Hlive _]. rewrite Hch in Hlive.
  destruct (Hl a c Hc Hlive) as [Htcp Hptr]. destruct (tcp_ptr_ c) as [p|] eqn:Hp; [|done].
  destruct (sendBytes_live buf (wire_ l) c p Hlive Htcp Hp Hb) as (ret & c' & Hs & Hsim & Hret).
  unfold send_on. rewrite Hch, Hs. eexists _, _. split; [reflexivity|]. split_and!; [|by rewrite Hp | done].
  etrans; [|apply sim_set_wire]. apply sim_upd. intros c0 Hc0. by rewrite Hc in Hc0; injection Hc0 as <-.
Qed.

Lemma send_copies_wire buf live ids : forall first best l, links_sane l -> live = liveChannels l ->
  (forall id, In id ids -> In id (map channel_id_ (map (chan l) live))) -> 0 < zlen buf -> 0 <= best ->
  exists best' l', send_copies buf live first ids best l = (best', l') /\ 0 <= best' /\ sim l l' /\
    wire_ l' = wire_ l ++ map (fun id => (sock l id, buf)) ids.
Proof.
  induction ids as [|id ids IH]; intros first best l Hsane -> Hids Hb Hbest.
  { exists best, l. split_and!; try done. by rewrite app_nil_r. }
  cbn [send_copies]. destruct (find_live_In id l) as (a & Hf & Ha).
  { rewrite pool_live. apply Hids. by left. }
  rewrite Hf.
  destruct (send_on_live a buf l Hsane Ha Hb) as (ret & l1 & -> & Hsim & Hw & Hret).
  destruct (IH false (if (0 <? ret) && first then ret else best) l1) as (best' & l' & Hs & Hb' & Hsim' & Hw').
  - by eapply sim_sane.
  - by rewrite (sim_live _ _ Hsim).
  - intros i Hi. rewrite (sim_ids _ _ _ Hsim). apply Hids. by right.
  - done.
  - destruct (Z.ltb_spec 0 ret), first; simpl; lia.
  - exists best', l'. split; [done|]. split; [done|]. split; [by etrans|].
    rewrite Hw', Hw, <- app_assoc. simpl. f_equal. f_equal.
    + unfold sock. by rewrite Hf.
    + apply map_ext. intros i. by rewrite (sim_sock _ _ _ Hsim).
Qed.

Lemma select_links_spec l : links_ok l ->
  exists ids s, select_links (liveChannels l) l = (ids, set_selector s l) /\
    sim l (set_selector s l) /\ pick (mode_ (selector_ l)) (pool l) ids.
Proof.
  intros Hok. unfold select_links. pose proof (select_pick (pool l) (selector_ l) (pool_NoDup l Hok)) as Hp.
  pose proof (select_mode (pool l) (selector_ l)) as Hm. unfold pool in *.
  destruct (select _ _) as [ids s]. exists ids, s. split_and!; try done. by apply sim_set_selector.
Qed.

(** The copies of [f] written to the sockets of the links [ids]. *)
Definition copies (l : Links) (f : bytes) (ids : list Z) : list (Z * bytes) :=
  map (fun id => (sock l id, f)) ids.

Lemma sim_copies l l' f ids : sim l l' -> copies l' f ids = copies l f ids.
Proof. intros Hs. unfold copies. apply map_ext. intros i. by rewrite (sim_sock _ _ _ Hs). Qed.

Lemma seg_hdr_size c ing sid seq fl plen : In fl [FLAG_SYN; FLAG_FIN; FLAG_DATA] ->
  hdr_sz (seg_hdr c ing sid seq fl plen) =
  if negb (route_outport_id_ c =? 0) then ROUTED_HEADER_SIZE else HEADER_SIZE.
Proof.
  unfold hdr_sz, isHdrRoute, seg_hdr. cbn [h_flags].
  destruct (negb (route_outport_id_ c =? 0)); intros [<-|[<-|[<-|[]]]]; reflexivity.
Qed.

Lemma sendSegment_spec ing sid seq fl p w : links_sane (w_net w) -> zlen p <= MAX_PAYLOAD ->
  In fl [FLAG_SYN; FLAG_FIN; FLAG_DATA] ->
  let l := w_net w in
  exists ret net, sendSegment ing sid seq fl (Some p) (zlen p) w = (ret, on_net (fun _ => net) w) /\
    sim l net /\
    if decide (live_ids (pool l) = [])
    then ret = err ZFGW_ERRCODE_NOCHANNEL /\ wire_ net = wire_ l
    else 0 <= ret /\ exists ids, pick (mode_ (selector_ l)) (pool l) ids /\
      wire_ net = wire_ l ++ copies l (frame (seg_hdr (cfg w) ing sid seq fl (zlen p)) p) ids.
Proof.
  intros Hsane Hp Hfl l. pose proof (zlen_nonneg p) as Hp0. pose proof Hsane as [Hok _].
  unfold sendSegment. rewrite Hmb. cbn [negb].
  set (h := seg_hdr (cfg w) ing sid seq fl (zlen p)).
  change (mkHdr MAGIC _ _ _ _ _ _ _) with h.
  rewrite <- (seg_hdr_size (cfg w) ing sid seq fl (zlen p) Hfl). fold h.
  assert (Hsz : zlen (repeat 0 (Z.to_nat (hdr_sz h + zlen p))) = hdr_sz h + zlen p).
  { unfold zlen at 1. rewrite repeat_length. pose proof (hdr_sz_cases h). lia. }
  rewrite Hsz, encode_frame by lia. pose proof (zlen_nonneg (frame h p)) as Hf0.
  destruct (Z.ltb_spec (zlen (frame h p)) 0); [lia|]. 
  replace (take _ _) with (frame h p) by (symmetry; apply take_zlen_app).
  destruct (select_links_spec l Hok) as (ids & s & Hsel & Hs & Hpick). fold l. rewrite Hsel.
  cbn [w_net on_net]. destruct (decide (live_ids (pool l) = [])) as [Hnone|Hsome].
  - rewrite (pick_none _ _ _ Hpick Hnone). eexists _, _. split; [reflexivity|]. done.
  - pose proof (pick_nonempty _ _ _ Hpick Hsome) as Hne.
    destruct (send_copies_wire (frame h p) (liveChannels l) ids true 0 (set_selector s l))
      as (best & net & Hsend & Hb & Hs' & Hw).
    + by eapply sim_sane.
    + by rewrite (sim_live _ _ Hs).
    + intros i Hi. rewrite (sim_ids _ _ _ Hs). fold (pool l). rewrite <- pool_live. by apply (pk_live _ _ _ Hpick).
    + rewrite frame_len. pose proof (hdr_sz_cases h). lia.
    + done.
    + destruct ids as [|i ids]; [done|]. rewrite Hsend. eexists _, _. split; [reflexivity|].
      split; [by etrans|]. split; [destruct (0 <? best); lia|]. exists (i :: ids). split; [done|].
      rewrite Hw. by rewrite <- (sim_copies _ _ (frame h p) (i :: ids) Hs).
Qed.

Lemma sim_live_ids l l' : sim l l' -> live_ids (pool l') = live_ids (pool l).
Proof. intros Hs. rewrite !pool_live. unfold pool. rewrite (sim_live _ _ Hs). by apply sim_ids. Qed.
Lemma sim_pick l l' ids : sim l l' ->
  pick (mode_ (selector_ l')) (pool l') ids -> pick (mode_ (selector_ l)) (pool l) ids.
Proof.
  intros Hs. rewrite (sim_mode _ _ Hs). intros [Ho Hl Ha Hb Ht].
  rewrite (sim_live_ids _ _ Hs) in *. by constructor.
Qed.
Lemma sim_zip l l' fs groups : sim l l' ->
  concat (zip_with (copies l') fs groups) = concat (zip_with (copies l) fs groups).
Proof.
  intros Hs. f_equal. revert groups. induction fs as [|f fs IH]; intros [|g groups]; simpl; try done.
  by rewrite IH, (sim_copies _ _ _ _ Hs).
Qed.

(** What a run of chunks leaves behind: the links [l'] and the session [st'] after
    sending [cs] from [seq] on. *)
Definition sent_groups (c : StreamConfig) (ing sid seq : Z) (l l' : Links) (cs : list bytes) : Prop :=
  exists groups, Forall (pick (mode_ (selector_ l)) (pool l)) groups /\ length groups = length cs /\
    wire_ l' = wire_ l ++ concat (zip_with (copies l) (data_frames c ing sid seq cs) groups).

Lemma sent_groups_cons c ing sid seq l l1 l' p cs ids : sim l l1 ->
  pick (mode_ (selector_ l)) (pool l) ids ->
  wire_ l1 = wire_ l ++ copies l (frame (seg_hdr c ing sid seq FLAG_DATA (zlen p)) p) ids ->
  sent_groups c ing sid (seq +u32 1) l1 l' cs -> sent_groups c ing sid seq l l' (p :: cs).
Proof.
  intros Hs Hp Hw (groups & Hg & Hl & Hw'). exists (ids :: groups).
  split_and!; [| simpl; by rewrite Hl |].
  - constructor; [done|]. eapply Forall_impl; [exact Hg|]. intros i. by apply sim_pick.
  - rewrite Hw', Hw, <- app_assoc. cbn [data_frames zip_with concat]. do 2 f_equal. by apply sim_zip.
Qed.

Lemma send_chunks_spec fuel key sid : forall buf n w st,
  (length buf < fuel)%nat -> find_session key w = Some st -> is_u32 (next_send_seq st) ->
  links_sane (w_net w) -> live_ids (pool (w_net w)) <> [] ->
  0 < segment_size_ (cfg w) <= MAX_PAYLOAD ->
  let cs := chunks (segment_size_ (cfg w)) buf in
  exists w', send_chunks fuel key sid buf n w = (i32 (n + zlen buf), w') /\
    find_session key w' = Some (set_send_seq (u32 (next_send_seq st + zlen cs)) st) /\
    sim (w_net w) (w_net w') /\
    sent_groups (cfg w) (wire_ingress_id st) sid (next_send_seq st) (w_net w) (w_net w') cs.
Proof.
  induction fuel as [|fuel IH]; intros buf n w st Hf Hst Hu Hsane Hlive Hseg; [lia|].
  destruct buf as [|b buf].
  { exists w. cbn [send_chunks]. rewrite zlen_nil, Z.add_0_r. split_and!; try done.
    - rewrite Hst. unfold chunks. cbn. rewrite Z.add_0_r, u32_small by done. by destruct st.
    - exists []. simpl. by rewrite app_nil_r. }
  rewrite chunks_cons by lia. cbn [send_chunks]. rewrite Hst.
  set (m := Z.min (zlen (b :: buf)) (segment_size_ (cfg w))).
  set (p := take (Z.to_nat m) (b :: buf)). set (rest := drop (Z.to_nat m) (b :: buf)).
  pose proof (zlen_nonneg buf) as Hb0.
  assert (Hm : 0 < m <= zlen (b :: buf)) by (unfold m; rewrite zlen_cons; lia).
  assert (Hp : zlen p = m) by (unfold p; rewrite zlen_take; lia).
  assert (Hr : zlen rest = zlen (b :: buf) - m) by (unfold rest; rewrite zlen_drop; lia).
  set (w1 := put_session key (bump_send_seq st) w).
  destruct (sendSegment_spec (wire_ingress_id st) sid (next_send_seq st) FLAG_DATA p w1)
    as (ret & net & Hsend & Hs & Hw); [done | lia | by right; right; left |].
  rewrite Hp in Hsend. change (segment_size_ (cfg w1)) with (segment_size_ (cfg w)). rewrite Hsend.
  change (w_net w1) with (w_net w) in *. change (cfg w1) with (cfg w) in *.
  destruct (decide _) as [|_] in Hw; [done|]. destruct Hw as (Hret & ids & Hids & Hwire).
  destruct (Z.ltb_spec ret 0); [lia|].
  destruct (IH rest (n + m) (on_net (fun _ => net) w1) (bump_send_seq st)) as (w' & Heq & Hf' & Hs' & Hg).
  - unfold zlen in Hr. simpl in Hr, Hf |- *. lia.
  - apply find_put_eq.
  - apply u32_range.
  - by eapply sim_sane.
  - simpl. by rewrite (sim_live_ids _ _ Hs).
  - done.
  - change (cfg (on_net _ w1)) with (cfg w) in *. exists w'. split_and!.
    + rewrite Heq. by replace (n + m + zlen rest) with (n + zlen (b :: buf)) by lia.
    + rewrite Hf'. unfold set_send_seq, bump_send_seq. cbn [next_send_seq].
      unfold u32. rewrite Zplus_mod_idemp_l, zlen_cons, Z.add_assoc. done.
    + by etrans.
    + by eapply sent_groups_cons.
Qed.

Lemma sendSegment_none ing sid seq fl w :
  sendSegment ing sid seq fl None 0 w = sendSegment ing sid seq fl (Some []) (zlen (@nil Z)) w.
Proof. reflexivity. Qed.

Lemma sendSessionData_spec sid buf ing w st (key := (resolveIngressKey w ing, sid)) :
  find_session key w = Some st -> closed st = false -> is_u32 (next_send_seq st) ->
  links_sane (w_net w) -> live_ids (pool (w_net w)) <> [] ->
  0 < segment_size_ (cfg w) <= MAX_PAYLOAD ->
  let cs := chunks (segment_size_ (cfg w)) buf in
  exists w', sendSessionData sid buf ing w = (i32 (zlen buf), w') /\ cfg w' = cfg w /\
    find_session key w' = Some (set_send_seq (u32 (next_send_seq st + zlen cs)) st) /\
    sim (w_net w) (w_net w') /\
    sent_groups (cfg w) (wire_ingress_id st) sid (next_send_seq st) (w_net w) (w_net w') cs.
Proof.
  intros Hst Hcl Hu Hsane Hlive Hseg cs.
  assert (Hsd : sendSessionData sid buf ing w = send_chunks (S (length buf)) key sid buf 0 w).
  { unfold sendSessionData. fold key. by rewrite Hst, Hcl. }
  destruct (send_chunks_spec (S (length buf)) key sid buf 0 w st) as (w' & Heq & Hst' & Hs & Hg); try done; [lia|].
  exists w'. rewrite Hsd, Heq. split_and!; try done.
  pose proof (send_chunks_only (S (length buf)) key sid buf 0 w) as Ho. rewrite Heq in Ho.
  by apply ds_sess_cfg, sess_only_ds.
Qed.

Lemma sent_groups_app c ing sid seq l l1 l2 cs cs' : is_u32 seq -> sim l l1 ->
  sent_groups c ing sid seq l l1 cs -> sent_groups c ing sid (u32 (seq + zlen cs)) l1 l2 cs' ->
  sent_groups c ing sid seq l l2 (cs ++ cs').
Proof.
  intros Hu Hs (g & Hg & Hl & Hw) (g' & Hg' & Hl' & Hw'). exists (g ++ g'). split_and!.
  - apply Forall_app. split; [done|]. eapply Forall_impl; [exact Hg'|]. intros i. by apply sim_pick.
  - by rewrite !length_app, Hl, Hl'.
  - rewrite Hw', Hw, <- app_assoc. f_equal. rewrite data_frames_app by done.
    rewrite zip_with_app, concat_app by (by rewrite data_frames_length). f_equal.
    by rewrite <- (sim_zip _ _ _ _ Hs).
Qed.

(** A run of [sendSessionData] calls. *)
Lemma send_run_spec sid : forall bufs w st (key := (local_ingress_id_ (cfg w), sid)),
  find_session key w = Some st -> closed st = false -> is_u32 (next_send_seq st) ->
  links_sane (w_net w) -> live_ids (pool (w_net w)) <> [] ->
  0 < segment_size_ (cfg w) <= MAX_PAYLOAD ->
  let cs := concat (map (chunks (segment_size_ (cfg w))) bufs) in
  let w' := apply_calls (map (fun b => CallSend sid b kFgwWireIngressUseLocal) bufs) w in
  find_session key w' = Some (set_send_seq (u32 (next_send_seq st + zlen cs)) st) /\
  sim (w_net w) (w_net w') /\
  sent_groups (cfg w) (wire_ingress_id st) sid (next_send_seq st) (w_net w) (w_net w') cs.
Proof.
  induction bufs as [|b bufs IH]; intros w st key Hst Hcl Hu Hsane Hlive Hseg.
  { cbn [map concat apply_calls fold_left]. change (zlen (@nil bytes)) with 0.
    rewrite Z.add_0_r, u32_small by done. split_and!; [|done|].
    - etrans; [exact Hst|]. by destruct st.
    - exists []. simpl. by rewrite app_nil_r. }
  destruct (sendSessionData_spec sid b kFgwWireIngressUseLocal w st) as (w1 & Heq & Hcfg & Hst1 & Hs1 & Hg1);
    try done.
  cbn [map concat apply_calls fold_left apply_call]. rewrite Heq. cbn [snd].
  change (resolveIngressKey w kFgwWireIngressUseLocal) with (local_ingress_id_ (cfg w)) in Hst1.
  destruct (IH w1 (set_send_seq (u32 (next_send_seq st + zlen (chunks (segment_size_ (cfg w)) b))) st))
    as (Hst2 & Hs2 & Hg2); rewrite ?Hcfg; try done.
  - apply u32_range.
  - by eapply sim_sane.
  - by rewrite (sim_live_ids _ _ Hs1).
  - rewrite Hcfg in Hst2, Hg2. split_and!; [| by etrans | by eapply sent_groups_app].
    etrans; [exact Hst2|]. cbn [next_send_seq set_send_seq]. rewrite zlen_app.
    unfold set_send_seq, u32. cbn. by rewrite Zplus_mod_idemp_l, Z.add_assoc.
Qed.
End sending.

(** ** Properties *)

(** C9. On an open session with live links, [sendSessionData] returns the length of
    the data and writes exactly its chunks: they concatenate to the data, none is
    empty or longer than a segment, chunk [i] goes out as the frame numbered
    [next_send_seq + i], frame by frame, each to the links the selector picked for it
    (one copy per link), and the session's counter moves past the last of them. *)
Theorem send_session_data {H} {app : SessionHandler H} {rt : ZdsRuntime} {T : Transport}
    {sort : StdSort} (sid ing : Z) (buf : bytes) (w : world H) (st : SessionState)
    (seg := segment_size_ (cfg w)) (l := w_net w) (key := (resolveIngressKey w ing, sid))
    (Hmb : forall len, mb_acquire len = true)
    (Hst : find_session key w = Some st) (Hcl : closed st = false)
    (Hu : is_u32 (next_send_seq st)) (Hseg : 0 < seg <= MAX_PAYLOAD)
    (Hsane : links_sane l) (Hlive : live_ids (pool l) <> []) :
  let cs := chunks seg buf in
  exists w' groups,
    sendSessionData sid buf ing w = (i32 (zlen buf), w') /\
    concat cs = buf /\ Forall (fun p => 0 < zlen p <= seg) cs /\
    Forall (pick (mode_ (selector_ l)) (pool l)) groups /\ length groups = length cs /\
    wire_ (w_net w') = wire_ l ++ concat (zip_with (copies l)
      (data_frames (cfg w) (wire_ingress_id st) sid (next_send_seq st) cs) groups) /\
    find_session key w' = Some (set_send_seq (u32 (next_send_seq st + zlen cs)) st).
Proof.
  intros cs. destruct (sendSessionData_spec Hmb sid buf ing w st) as
    (w' & Heq & _ & Hst' & _ & groups & Hg & Hl & Hw); try done.
  exists w', groups. split_and!; try done; [apply chunks_concat; lia | apply chunk_list_sizes; lia].
Qed.

(** With no live link a send fails with NOCHANNEL and writes nothing, but the
    session's sequence number is consumed: the next segment of the session is
    numbered past a segment that was never sent. *)
Theorem send_failure_gap {H} {app : SessionHandler H} {rt : ZdsRuntime} {T : Transport}
    {sort : StdSort} (sid ing : Z) (buf : bytes) (w : world H) (st : SessionState)
    (seg := segment_size_ (cfg w)) (l := w_net w) (key := (resolveIngressKey w ing, sid))
    (Hmb : forall len, mb_acquire len = true)
    (Hst : find_session key w = Some st) (Hcl : closed st = false)
    (Hbuf : buf <> []) (Hseg : 0 < seg <= MAX_PAYLOAD)
    (Hsane : links_sane l) (Hdead : live_ids (pool l) = []) :
  exists w', sendSessionData sid buf ing w = (err ZFGW_ERRCODE_NOCHANNEL, w') /\
    wire_ (w_net w') = wire_ l /\
    find_session key w' = Some (set_send_seq (next_send_seq st +u32 1) st).
Proof.
  unfold sendSessionData. fold key. rewrite Hst, Hcl. destruct buf as [|b buf]; [done|].
  cbn [send_chunks]. rewrite Hst. fold seg. set (m := Z.min (zlen (b :: buf)) seg).
  set (p := take (Z.to_nat m) (b :: buf)). set (w1 := put_session key (bump_send_seq st) w).
  assert (Hp : zlen p = m).
  { unfold p. pose proof (zlen_nonneg (b :: buf)). rewrite zlen_take; lia. }
  destruct (sendSegment_spec Hmb (wire_ingress_id st) sid (next_send_seq st) FLAG_DATA p w1)
    as (ret & net & Hsend & _ & Hw); [done | lia | by right; right; left |].
  change (w_net w1) with l in Hw. destruct (decide _) as [_|] in Hw; [|done]. destruct Hw as [-> Hw].
  rewrite Hp in Hsend. change (segment_size_ (cfg w1)) with seg. fold m.
  change (segment_size_ (cfg w)) with seg. fold m p. rewrite Hsend.
  exists (on_net (fun _ => net) w1). split_and!; try done. apply find_put_eq.
Qed.

Lemma test_sane mode : links_sane (test_net mode).
Proof.
  split; [constructor|].
  - by repeat constructor.
  - intros id a [[= <- <-]|[[= <- <-]|[]]]; eexists; split; reflexivity.
  - intros a c Hc Hl. unfold test_net in Hc. cbn [heap_] in Hc.
    rewrite lookup_insert_Some in Hc. destruct Hc as [[<- <-]|[_ Hc]]; [done|].
    by apply lookup_singleton_Some in Hc as [<- <-].
Qed.

(** Session 9 opened on a pair of links, and on no link. *)
Definition test_session : SessionState := mkSession 9 7 0 0 [] (Some 1) true false.
Definition test_open (net : Links) : world unit :=
  put_session (7, 9) test_session (mkWorld (new_stream 7 4 0 true 0) net tt []).
Definition no_links : Links := mkLinks empty [] LinkSelector_init [].

Lemma send_session_data_witness : exists w' groups (cs := [[72; 101; 108; 108]; [111; 44; 32]]),
  sendSessionData 9 [72; 101; 108; 108; 111; 44; 32] kFgwWireIngressUseLocal
    (test_open (test_net ZFGW_MULTIPATH_ALL)) = (7, w') /\
  length groups = 2%nat /\
  wire_ (w_net w') = concat (zip_with (copies (test_net ZFGW_MULTIPATH_ALL))
    (data_frames (mkStreamConfig 7 4 1024 true 0) 7 9 0 cs) groups).
Proof.
  destruct (send_session_data (app := listener) 9 kFgwWireIngressUseLocal
    [72; 101; 108; 108; 111; 44; 32] (test_open (test_net ZFGW_MULTIPATH_ALL)) test_session)
    as (w' & groups & Hs & _ & _ & _ & Hl & Hw & _).
  - done.
  - reflexivity.
  - done.
  - by vm_compute.
  - by vm_compute.
  - apply test_sane.
  - by vm_compute.
  - exists w', groups. split_and!; [exact Hs | exact Hl | exact Hw].
Defined.

Lemma send_failure_gap_witness : exists w',
  sendSessionData 9 [1; 2] kFgwWireIngressUseLocal (test_open no_links) =
    (err ZFGW_ERRCODE_NOCHANNEL, w') /\
  next_send_seq <$> find_session (7, 9) w' = Some 1.
Proof.
  destruct (send_failure_gap (app := listener) 9 kFgwWireIngressUseLocal [1; 2]
    (test_open no_links) test_session) as (w' & Hs & _ & Hf).
  - done.
  - reflexivity.
  - done.
  - done.
  - by vm_compute.
  - by repeat constructor.
  - reflexivity.
  - exists w'. split; [exact Hs|].
    change (resolveIngressKey (test_open no_links) kFgwWireIngressUseLocal) with 7 in Hf. by rewrite Hf.
Defined.
