(* ===== verification/EndToEnd.v ===== *)
(** * EndToEnd: two streams joined by links

    What one stream's [sendSessionData] writes, another stream's [onChannelBytes]
    hands to its session handler: the frames written to a socket are cut back out of
    its byte stream, and they are the frames of a sender the reassembly contract
    speaks of. *)
From S2P Require Import Prelude Proto OMap Segment Pack Channel Selector Links DataStream.
From S2P Require Import StreamFacts Framing StreamWf Reassembly Completeness Sending Testbed.

(** ** Socket streams *)

(** The bytes written to socket [p]. *)
Definition writes_to (p : Z) (wr : list (Z * bytes)) : list bytes :=
  map snd (List.filter (fun x => fst x =? p) wr).
Definition on_socket (p : Z) (wr : list (Z * bytes)) : bytes := concat (writes_to p wr).

Lemma writes_to_app p a b : writes_to p (a ++ b) = writes_to p a ++ writes_to p b.
Proof. unfold writes_to. by rewrite List.filter_app, map_app. Qed.
Lemma writes_to_copies p l f ids : Forall (fun g => g = f) (writes_to p (copies l f ids)).
Proof.
  unfold writes_to, copies. induction ids as [|i ids IH]; simpl; [constructor|].
  destruct (sock l i =? p); simpl; [by constructor | done].
Qed.

Lemma writes_to_groups p l fs groups :
  Forall (fun f => In f fs) (writes_to p (concat (zip_with (copies l) fs groups))).
Proof.
  revert groups. induction fs as [|f fs IH]; intros [|g groups]; simpl; try constructor.
  rewrite writes_to_app. apply Forall_app. split.
  - eapply Forall_impl; [apply writes_to_copies|]. intros x ->. by left.
  - eapply Forall_impl; [apply IH|]. intros x Hx. by right.
Qed.

(** A link that is in every group carries every frame, in order. *)
Lemma writes_to_sublist id l fs groups : length groups = length fs ->
  Forall (In id) groups ->
  fs `sublist_of` writes_to (sock l id) (concat (zip_with (copies l) fs groups)).
Proof.
  revert groups. induction fs as [|f fs IH]; intros [|g groups] Hl Hg; try done.
  inversion Hg as [|? ? Hin Hg']; subst. simpl. rewrite writes_to_app.
  pose proof (writes_to_copies (sock l id) l f g) as Hall.
  assert (Hne : writes_to (sock l id) (copies l f g) <> []).
  { unfold writes_to, copies. clear -Hin. induction g as [|i g IH]; [done|]. simpl.
    destruct (Z.eqb_spec (sock l i) (sock l id)); [done|]. destruct Hin as [->|Hin]; [done | by apply IH]. }
  destruct (writes_to _ (copies l f g)) as [|x xs]; [done|]. inversion Hall; subst.
  simpl. apply sublist_skip. apply sublist_inserts_l, IH; [by injection Hl | done].
Qed.

(** ** Cutting frames back out *)
Definition seg_frame (hp : FgwSegmentHeader * bytes) : bytes := frame (fst hp) (snd hp).
Definition seg_in (hp : FgwSegmentHeader * bytes) : frame_in :=
  mkFrame (hdr_sz (fst hp)) (frame_hdr (fst hp) (snd hp)) (seg_frame hp).
Definition seg_ok (hp : FgwSegmentHeader * bytes) : Prop :=
  wf_hdr (fst hp) /\ zlen (snd hp) <= MAX_PAYLOAD.

Lemma next_frame_seg hp rest : seg_ok hp ->
  next_frame (seg_frame hp ++ rest) = Got (hdr_sz (fst hp)) (frame_hdr (fst hp) (snd hp)).
Proof.
  destruct hp as [h p]. intros [Hh Hp]. unfold next_frame, seg_frame in *. cbn [fst snd] in *.
  pose proof (zlen_nonneg rest) as Hr0. pose proof (zlen_nonneg p) as Hp0.
  pose proof (hdr_sz_cases h) as Hc. rewrite zlen_app, frame_len.
  destruct (Z.ltb_spec (hdr_sz h + zlen p + zlen rest) LEGACY_HEADER_SIZE);
    [unfold LEGACY_HEADER_SIZE in *; lia|].
  rewrite peek_frame by (done || lia).
  replace (is_err (hdr_sz h) ZFGW_ERRCODE_BADSEGMENT) with false
    by (by destruct Hc as [-> | ->]).
  destruct (Z.eqb_spec (hdr_sz h) 0); [lia|]. cbn [h_payload_len frame_hdr].
  destruct (Z.ltb_spec (hdr_sz h + zlen p + zlen rest) (hdr_sz h + zlen p)); [lia | done].
Qed.

Lemma split_segs hps : Forall seg_ok hps ->
  split_frames (concat (map seg_frame hps)) = (map seg_in hps, Some []).
Proof.
  induction hps as [|hp hps IH]; intros Hall; [done|]. inversion Hall as [|? ? Hok Hall']; subst.
  cbn [map concat]. rewrite split_frames_eq, next_frame_seg by done. destruct hp as [h p].
  cbn [fst snd h_payload_len frame_hdr].
  assert (Hl : hdr_sz h + zlen p = zlen (seg_frame (h, p))) by (by rewrite <- frame_len).
  cbv zeta. rewrite Hl, drop_zlen_app, take_zlen_app, IH by done. done.
Qed.

Lemma frames_of_segs (segs : list (FgwSegmentHeader * bytes)) (fs : list bytes) :
  Forall (fun f => In f (map seg_frame segs)) fs ->
  exists hps, fs = map seg_frame hps /\ Forall (fun hp => In hp segs) hps.
Proof.
  induction 1 as [|f fs Hin _ (hps & -> & Hall)]; [by exists []|].
  apply in_map_iff in Hin as (hp & <- & Hin). exists (hp :: hps). split; [done | by constructor].
Qed.

(** A frame determines its segment as the receiver sees it. *)
Lemma seg_in_frame hps : Forall seg_ok hps ->
  map seg_in hps = map (fun f => List.hd (mkFrame 0 FgwSegmentHeader_default []) (fst (split_frames f)))
                     (map seg_frame hps).
Proof.
  induction 1 as [|hp hps Hok _ IH]; [done|]. cbn [map]. rewrite <- IH. f_equal.
  pose proof (split_segs [hp]) as Hs. cbn [map concat] in Hs. rewrite app_nil_r in Hs.
  rewrite Hs; [done | by constructor].
Qed.
Lemma seg_in_sublist hps hps' : Forall seg_ok hps -> Forall seg_ok hps' ->
  map seg_frame hps `sublist_of` map seg_frame hps' -> map seg_in hps `sublist_of` map seg_in hps'.
Proof. intros Hok Hok' Hs. rewrite !seg_in_frame by done. by apply (fmap_sublist _). Qed.

(** The frames of a prefix of a socket's stream. *)
Lemma split_socket (segs : list (FgwSegmentHeader * bytes)) (fs : list bytes) (b : bytes) :
  Forall seg_ok segs -> Forall (fun f => In f (map seg_frame segs)) fs -> b `prefix_of` concat fs ->
  exists r, snd (split_frames b) = Some r /\
    Forall (fun f => exists hp, In hp segs /\ f = seg_in hp) (fst (split_frames b)).
Proof.
  intros Hok Hfs [b' Hb].
  destruct (frames_of_segs segs fs Hfs) as (hps & -> & Hall).
  assert (Hok' : Forall seg_ok hps).
  { rewrite List.Forall_forall in Hok, Hall |- *. auto. }
  pose proof (split_segs hps Hok') as Hsp. rewrite Hb in Hsp.
  destruct (split_prefix _ _ _ _ Hsp) as (fs1 & r1 & Hs1 & Heq & _). rewrite Hs1. exists r1.
  split; [done|]. cbn [fst].
  assert (Hm : Forall (fun f => exists hp, In hp segs /\ f = seg_in hp) (map seg_in hps)).
  { clear -Hall. induction Hall; simpl; constructor; eauto. }
  rewrite Heq in Hm. by apply Forall_app in Hm as [? _].
Qed.

(** The frames of one link occur in the trace of the run, in order. *)
Lemma split_rest_done buf fs r : split_frames buf = (fs, Some r) -> fst (split_frames r) = [].
Proof.
  intros Hs. pose proof (split_app buf [] fs r Hs) as Ha. rewrite !app_nil_r, Hs in Ha.
  injection Ha as Ha _. symmetry in Ha. rewrite <- (app_nil_r fs) in Ha at 2. by apply app_inv_head in Ha.
Qed.
Lemma trace_link {H} ch (ss : list (stream_step H)) : forall scr r, fst (split_frames (default [] (scr !! ch))) = [] ->
  snd (split_frames (default [] (scr !! ch) ++ bytes_on ch ss)) = Some r ->
  fst (split_frames (default [] (scr !! ch) ++ bytes_on ch ss)) `sublist_of` frame_trace scr ss.
Proof.
  induction ss as [|[ch' buf|sid h|c|] ss IH]; intros scr r Hd Hr; simpl in *; try by eapply IH.
  { rewrite app_nil_r, Hd. constructor. }
  destruct (split_frames (default [] (scr !! ch') ++ buf)) as [fs o] eqn:Hs.
  destruct (Z.eqb_spec ch' ch) as [->|Hne].
  - rewrite app_assoc in Hr |- *.
    destruct (split_frames ((default [] (scr !! ch) ++ buf) ++ bytes_on ch ss)) as [fs2 o2] eqn:Hs2.
    simpl in Hr. subst o2. destruct (split_prefix _ _ _ _ Hs2) as (fs1 & r1 & Hs' & -> & Hr1).
    rewrite Hs in Hs'. injection Hs' as -> ->. cbn [fst]. apply sublist_app; [done|].
    specialize (IH (<[ch := r1]> scr)). rewrite lookup_insert_eq in IH. simpl in IH.
    eapply IH; [by eapply split_rest_done | exact Hr1].
  - simpl in Hr |- *. apply sublist_inserts_l. specialize (IH (<[ch' := default [] o]> scr)).
    rewrite lookup_insert_ne in IH by done. by eapply IH.
Qed.

Lemma sublist_embed {A} (l k : list A) : l `sublist_of` k -> exists f : nat -> nat,
  (forall i x, l !! i = Some x -> k !! f i = Some x) /\ (forall i j, (i < j)%nat -> (f i < f j)%nat).
Proof.
  induction 1 as [|x l k _ (f & Hf & Hm)|x l k _ (f & Hf & Hm)].
  - by exists id.
  - exists (fun i => match i with O => O | S i => S (f i) end). split.
    + intros [|i] y Hi; [done | by apply Hf].
    + intros [|i] [|j] Hij; try lia. specialize (Hm i j). lia.
  - exists (fun i => S (f i)). split; [done|]. intros i j Hij. specialize (Hm i j Hij). lia.
Qed.

(** ** The segments of a session *)
Fixpoint data_segs (c : StreamConfig) (ing sid seq : Z) (cs : list bytes)
    : list (FgwSegmentHeader * bytes) :=
  match cs with
  | [] => []
  | p :: cs => (seg_hdr c ing sid seq FLAG_DATA (zlen p), p) :: data_segs c ing sid (seq +u32 1) cs
  end.
Definition syn_seg (c : StreamConfig) (ing sid : Z) : FgwSegmentHeader * bytes :=
  (seg_hdr c ing sid 0 FLAG_SYN 0, []).

Lemma data_segs_frames c ing sid seq cs :
  map seg_frame (data_segs c ing sid seq cs) = data_frames c ing sid seq cs.
Proof. revert seq. induction cs as [|p cs IH]; intros seq; simpl; [done | by rewrite IH]. Qed.

Lemma data_segs_lookup c ing sid cs : forall seq i, 0 <= seq -> seq + zlen cs < 2 ^ 32 ->
  data_segs c ing sid seq cs !! i =
  (fun p => (seg_hdr c ing sid (seq + Z.of_nat i) FLAG_DATA (zlen p), p)) <$> cs !! i.
Proof.
  induction cs as [|p cs IH]; intros seq i Hs Hn; [done|]. rewrite zlen_cons in Hn.
  pose proof (zlen_nonneg cs). destruct i as [|i]; simpl; [by rewrite Z.add_0_r|].
  rewrite u32_small by (unfold is_u32; lia). rewrite IH by lia.
  by replace (seq + 1 + Z.of_nat i) with (seq + Z.of_nat (S i)) by lia.
Qed.
Lemma data_segs_In c ing sid cs hp : zlen cs < 2 ^ 32 -> In hp (data_segs c ing sid 0 cs) ->
  exists i p, cs !! i = Some p /\ hp = (seg_hdr c ing sid (Z.of_nat i) FLAG_DATA (zlen p), p).
Proof.
  intros Hn Hin. apply list_elem_of_In, list_elem_of_lookup in Hin as [i Hi].
  rewrite data_segs_lookup in Hi by lia. destruct (cs !! i) as [p|] eqn:Hp; [|done].
  injection Hi as <-. eauto.
Qed.

(** A segment of session [k], as the receiver sees it. *)
Definition of_session (k : SessionKey) (hp : FgwSegmentHeader * bytes) : Prop :=
  let h := f_hdr (seg_in hp) in
  isHello h = false /\ isHeartbeat h = false /\ isAck h = false /\ seg_key h = k.

Section session.
Context (c : StreamConfig) (ing sid : Z).
Context (Hing : is_u32 ing) (Hsid : is_u32 sid) (Hroute : is_u32 (route_outport_id_ c)).

Lemma seg_hdr_wf seq fl plen : is_u32 seq -> In fl [FLAG_SYN; FLAG_FIN; FLAG_DATA] ->
  wf_hdr (seg_hdr c ing sid seq fl plen).
Proof.
  intros Hs Hfl. unfold seg_hdr. destruct (negb _); constructor; simpl; try done;
    repeat destruct Hfl as [<-|Hfl]; try done; unfold is_byte; vm_compute; done.
Qed.

(** The flags a receiver sees. *)
Lemma data_flags seq p : 0 < zlen p <= MAX_PAYLOAD -> is_u32 seq ->
  let f := seg_in (seg_hdr c ing sid seq FLAG_DATA (zlen p), p) in
  (forall v, is_copy v (ing, sid) seq f) /\ f_payload f = p.
Proof.
  intros Hp Hs f. split.
  - intros v. split.
    + intros _. pose proof (verify_frame (seg_hdr c ing sid seq FLAG_DATA (zlen p)) p []) as Hv.
      by rewrite app_nil_r in Hv.
    + unfold f, seg_in, isHello, isHeartbeat, isAck, isSyn, isFin, has_data, isData, seg_key, isHdrExt,
        seg_hdr, frame_hdr. cbn [f_hdr fst snd h_flags h_payload_len h_session_id h_seq_num h_ingress_id].
      destruct (Z.ltb_spec 0 (zlen p)); [|lia]. by destruct (negb _).
  - pose proof (frame_payload (seg_hdr c ing sid seq FLAG_DATA (zlen p)) p []) as Hv.
    by rewrite !app_nil_r in Hv.
Qed.
Lemma syn_flags : let h := f_hdr (seg_in (syn_seg c ing sid)) in
  isFin h = false /\ isSyn h = true /\ has_data h = false.
Proof.
  unfold seg_in, syn_seg, isSyn, isFin, has_data, isData, seg_hdr, frame_hdr.
  cbn [f_hdr fst snd h_flags h_payload_len]. by destruct (negb _).
Qed.

Context (cs : list bytes) (Hcs : Forall (fun p => 0 < zlen p <= MAX_PAYLOAD) cs).
Context (Hn : zlen cs <= 2 ^ 32 - 2 ^ 16).
Definition payload_of (i : Z) : bytes := nth (Z.to_nat i) cs [].
Definition session_segs : list (FgwSegmentHeader * bytes) :=
  syn_seg c ing sid :: data_segs c ing sid 0 cs.

Lemma cs_lookup i p : cs !! i = Some p ->
  0 < zlen p <= MAX_PAYLOAD /\ 0 <= Z.of_nat i < zlen cs /\ payload_of (Z.of_nat i) = p.
Proof.
  intros Hi. split; [by eapply (proj1 (Forall_lookup _ _) Hcs)|].
  pose proof (lookup_lt_Some _ _ _ Hi). split; [unfold zlen; lia|].
  unfold payload_of. rewrite Nat2Z.id. by apply nth_lookup_Some.
Qed.

Lemma session_segs_ok : Forall seg_ok session_segs.
Proof.
  constructor.
  - split; [apply seg_hdr_wf; [by vm_compute | by left] | by vm_compute].
  - apply List.Forall_forall. intros hp (i & p & Hi & ->)%data_segs_In; [|lia].
    destruct (cs_lookup _ _ Hi) as (Hp & Hlt & _). split; [|simpl; lia].
    apply seg_hdr_wf; [unfold is_u32; lia | by right; right; left].
Qed.

(** Every frame of the session is one the reassembly contract allows. *)
Lemma session_frame_good v f : (exists hp, In hp session_segs /\ f = seg_in hp) ->
  good_frame v (ing, sid) payload_of (zlen cs) f /\ full_frame v (ing, sid) f.
Proof.
  intros (hp & [<-|Hin] & ->).
  - destruct syn_flags as (Hf & Hs & Hd).
    split; [intros _ _ _ _ _; split; [done | by rewrite Hd] | intros _ _ _ _ _ Hns; by rewrite Hs in Hns].
  - apply data_segs_In in Hin as (i & p & Hi & ->); [|lia].
    destruct (cs_lookup _ _ Hi) as (Hp & Hlt & Hpay).
    destruct (data_flags (Z.of_nat i) p) as [Hcopy Hpl]; [done | unfold is_u32; lia|].
    destruct (Hcopy v) as (_ & _ & _ & _ & _ & Hf & Hd & _ & Hq).
    split; [|by intros _ _ _ _ _ _ _]. intros _ _ _ _ _. split; [done|]. intros _.
    by rewrite Hq, Hpl, Hpay.
Qed.

Lemma sent_take m : 0 <= m <= zlen cs -> sent payload_of m = take (Z.to_nat m) cs.
Proof.
  intros Hm. assert (Heq : map payload_of (seqZ 0 m) = take (Z.to_nat m) cs).
  { apply list_eq. intros i. change (map payload_of) with (fmap (M := list) payload_of).
    rewrite list_lookup_fmap. destruct (decide (Z.of_nat i < m)) as [Hlt|Hge].
    - rewrite lookup_seqZ_lt, lookup_take_lt by lia. simpl. rewrite Z.add_0_l.
      destruct (lookup_lt_is_Some_2 cs i) as [p Hp]; [unfold zlen in Hm; lia|].
      rewrite Hp. f_equal. by apply cs_lookup.
    - rewrite lookup_seqZ_ge, lookup_take_ge by lia. done. }
  unfold sent. rewrite Heq. apply forallb_filter_id, forallb_forall. intros p Hin.
  apply list_elem_of_In, elem_of_take in Hin as (i & Hi & _). apply cs_lookup in Hi as [Hp _].
  unfold nonempty. lia.
Qed.
Lemma sent_all : sent payload_of (zlen cs) = cs.
Proof.
  rewrite sent_take by (pose proof (zlen_nonneg cs); lia). unfold zlen. rewrite Nat2Z.id. apply firstn_all.
Qed.

(** *** A receiver fed with frames of the session, among others, on any number of links *)
Context (all : list (FgwSegmentHeader * bytes)) (Hok : Forall seg_ok all).
Context (Hmine : forall hp, In hp all -> of_session (ing, sid) hp -> In hp session_segs).

Lemma fed_frame_good v f : (exists hp, In hp all /\ f = seg_in hp) ->
  good_frame v (ing, sid) payload_of (zlen cs) f /\ full_frame v (ing, sid) f.
Proof.
  intros (hp & Hin & Hf).
  assert (Hm : isHello (f_hdr f) = false -> isHeartbeat (f_hdr f) = false -> isAck (f_hdr f) = false ->
    seg_key (f_hdr f) = (ing, sid) -> good_frame v (ing, sid) payload_of (zlen cs) f /\ full_frame v (ing, sid) f).
  { intros H1 H2 H3 H4. apply session_frame_good. exists hp. split; [|done]. apply Hmine; [done|]. by rewrite Hf in *. }
  split.
  - intros Hc H1 H2 H3 H4. by apply Hm.
  - intros Hc H1 H2 H3 H4. by apply Hm.
Qed.
Lemma fed_good {H} v (steps : list (stream_step H)) :
  (forall ch, exists fs, Forall (fun f => In f (map seg_frame all)) fs /\ bytes_on ch steps `prefix_of` concat fs) ->
  good_links (ing, sid) payload_of (zlen cs) v steps /\ Forall (full_frame v (ing, sid)) (frame_trace empty steps).
Proof.
  intros Hfed.
  assert (Hs : forall ch, exists r, snd (split_frames (bytes_on ch steps)) = Some r /\
    Forall (fun f => exists hp, In hp all /\ f = seg_in hp) (fst (split_frames (bytes_on ch steps)))).
  { intros ch. destruct (Hfed ch) as (fs & Hfs & Hp). eapply split_socket; [exact Hok | exact Hfs | exact Hp]. }
  split.
  - intros ch. destruct (Hs ch) as (r & Hr & Hall). exists r. split; [done|].
    eapply Forall_impl; [exact Hall|]. intros f Hf. by apply fed_frame_good.
  - apply links_trace. intros ch. rewrite lookup_empty. destruct (Hs ch) as (r & Hr & Hall).
    exists r. split; [done|]. eapply Forall_impl; [exact Hall|]. intros f Hf. by apply (fed_frame_good v).
Qed.

(** One link that brings every frame is enough. *)
Lemma fed_complete {H} (steps : list (stream_step H)) ch fs segs :
  Forall (fun f => In f (map seg_frame all)) fs -> bytes_on ch steps = concat fs -> Forall seg_ok segs ->
  map seg_frame segs `sublist_of` fs -> map seg_in segs `sublist_of` frame_trace empty steps.
Proof.
  intros Hfs Hall Hoks Hsub. destruct (frames_of_segs _ _ Hfs) as (hps & -> & Hhps).
  assert (Hokh : Forall seg_ok hps) by (rewrite List.Forall_forall in Hok, Hhps |- *; auto).
  assert (Hsp : split_frames (bytes_on ch steps) = (map seg_in hps, Some [])) by (rewrite Hall; by apply split_segs).
  pose proof (trace_link ch steps empty []) as Ht. rewrite lookup_empty in Ht. simpl in Ht.
  rewrite Hsp in Ht. specialize (Ht eq_refl eq_refl). etrans; [|exact Ht]. by apply seg_in_sublist.
Qed.
Lemma session_arrival v win (tr : list frame_in) : 0 < win -> map seg_in (data_segs c ing sid 0 cs) `sublist_of` tr ->
  window_arrival v (ing, sid) (zlen cs) win tr.
Proof.
  intros Hwin Hsub. destruct (sublist_embed _ _ Hsub) as (pos & Hpos & Hmono).
  exists (fun s => pos (Z.to_nat s)).
  split; [|intros q s Hq Hqs; apply Hmono; lia].
  intros s Hs'. destruct (lookup_lt_is_Some_2 cs (Z.to_nat s)) as [p Hp]; [unfold zlen in Hs'; lia|].
  exists (seg_in (seg_hdr c ing sid s FLAG_DATA (zlen p), p)). split.
  - apply Hpos. etrans; [apply (list_lookup_fmap seg_in (data_segs c ing sid 0 cs))|].
    rewrite data_segs_lookup, Hp by lia. simpl. by rewrite Z2Nat.id by lia.
  - destruct (cs_lookup _ _ Hp) as (Hsz & _ & _). apply data_flags; [done | unfold is_u32; lia].
Qed.
Lemma data_segs_ok : Forall seg_ok (data_segs c ing sid 0 cs).
Proof. pose proof session_segs_ok as Hs. by inversion Hs. Qed.
End session.

(** ** The sender *)
Section sender.
Context {H : Type} {app : SessionHandler H}.
Context {rt : ZdsRuntime} {T : Transport} {sort : StdSort}.
Context (Hmb : forall len, mb_acquire len = true).
Implicit Types (w : world H).

(** Open session [sid], then send the buffers [bufs] one after the other. *)
Definition sender_run (sid : Z) (h : option Z) (bufs : list bytes) w : world H :=
  apply_calls (map (fun b => CallSend sid b kFgwWireIngressUseLocal) bufs)
    (snd (openSession sid h w)).

Record sender_ready (sid : Z) w : Prop := {
  sr_new : find_session (local_ingress_id_ (cfg w), sid) w = None;
  sr_seg : 0 < segment_size_ (cfg w) <= MAX_PAYLOAD;
  sr_ids : is_u32 sid /\ is_u32 (local_ingress_id_ (cfg w)) /\ is_u32 (route_outport_id_ (cfg w));
  sr_links : links_sane (w_net w);
  sr_live : live_ids (pool (w_net w)) <> [] }.

Definition all_chunks w (bufs : list bytes) : list bytes :=
  concat (map (chunks (segment_size_ (cfg w))) bufs).

Lemma all_chunks_sizes w bufs : 0 < segment_size_ (cfg w) <= MAX_PAYLOAD ->
  Forall (fun p => 0 < zlen p <= MAX_PAYLOAD) (all_chunks w bufs).
Proof.
  intros Hs. unfold all_chunks. induction bufs as [|b bufs IH]; simpl; [constructor|].
  apply Forall_app. split; [|done]. eapply Forall_impl; [apply (chunk_list_sizes (length b) (segment_size_ (cfg w)) b); lia|].
  simpl. intros. lia.
Qed.
Lemma all_chunks_concat w bufs : 0 < segment_size_ (cfg w) -> concat (all_chunks w bufs) = concat bufs.
Proof.
  intros Hs. unfold all_chunks. induction bufs as [|b bufs IH]; simpl; [done|].
  by rewrite concat_app, IH, chunks_concat.
Qed.

Lemma sender_run_wire sid h bufs w : sender_ready sid w ->
  let ing := local_ingress_id_ (cfg w) in let l := w_net w in
  let segs := session_segs (cfg w) ing sid (all_chunks w bufs) in
  exists groups, Forall (pick (mode_ (selector_ l)) (pool l)) groups /\ length groups = length segs /\
    wire_ (w_net (sender_run sid h bufs w)) =
      wire_ l ++ concat (zip_with (copies l) (map seg_frame segs) groups).
Proof.
  intros [Hnew Hseg _ Hsane Hlive] ing l segs. unfold sender_run.
  set (st := mkSession sid ing 0 0 [] h true false). set (w1 := put_session (ing, sid) st w).
  assert (Ho : openSession sid h w =
    (0, snd (sendSegment ing sid 0 FLAG_SYN (Some []) (zlen (@nil Z)) w1))).
  { unfold openSession. rewrite sendSegment_none. fold ing in Hnew |- *. rewrite Hnew. fold st w1.
    by destruct (sendSegment _ _ _ _ _ _ w1). }
  rewrite Ho. cbn [snd].
  destruct (sendSegment_spec Hmb ing sid 0 FLAG_SYN [] w1) as (ret & net & -> & Hs & Hw);
    [done | by vm_compute | by left |]. cbn [snd].
  change (w_net w1) with l in *. change (cfg w1) with (cfg w) in *.
  destruct (decide _) as [|_] in Hw; [done|]. destruct Hw as (_ & ids & Hids & Hwire).
  destruct (send_run_spec Hmb sid bufs (on_net (fun _ => net) w1) st) as (_ & Hs2 & Hg).
  - apply find_put_eq.
  - done.
  - by vm_compute.
  - by eapply sim_sane.
  - simpl. by rewrite (sim_live_ids _ _ Hs).
  - done.
  - change (cfg (on_net _ w1)) with (cfg w) in *. cbn [w_net on_net] in *.
    destruct Hg as (groups & Hgr & Hlen & Hw2). exists (ids :: groups). split_and!.
    + constructor; [done|]. eapply Forall_impl; [exact Hgr|]. intros i. by apply sim_pick.
    + unfold segs, session_segs. simpl. f_equal. rewrite Hlen.
      by rewrite <- (length_map seg_frame), data_segs_frames, data_frames_length.
    + etrans; [exact Hw2|]. rewrite Hwire, <- app_assoc. f_equal. unfold segs, session_segs. simpl.
      rewrite data_segs_frames. f_equal. by apply sim_zip.
Qed.
End sender.

(** ** Receiver runs fed by the sender's sockets *)
Section joined.
Context {Hs Hr : Type} {apps : SessionHandler Hs} {appr : SessionHandler Hr}.
Context {rt : ZdsRuntime} {T : Transport} {sort : StdSort}.
Context (Hmb : forall len, mb_acquire len = true).
Context (sid : Z) (h : option Z) (bufs : list bytes) (ws : world Hs).
Context (Hready : sender_ready sid ws).
Abbreviation ing := (local_ingress_id_ (cfg ws)).
Abbreviation cs := (all_chunks ws bufs).
Abbreviation segs := (session_segs (cfg ws) ing sid cs).
Context (Hn : zlen cs <= 2 ^ 32 - 2 ^ 16).
Context (new : list (Z * bytes)).
Context (Hnew : wire_ (w_net (sender_run sid h bufs ws)) = wire_ (w_net ws) ++ new).
Context (conn : Z -> Z) (steps : list (stream_step Hr)).
Context (Hfed : forall ch, bytes_on ch steps `prefix_of` on_socket (conn ch) new).

Lemma joined_groups : exists groups,
  Forall (pick (mode_ (selector_ (w_net ws))) (pool (w_net ws))) groups /\
  length groups = length segs /\
  new = concat (zip_with (copies (w_net ws)) (map seg_frame segs) groups).
Proof.
  destruct (sender_run_wire Hmb sid h bufs ws Hready) as (groups & Hg & Hl & Hw).
  exists groups. split_and!; try done. rewrite Hnew in Hw. by apply app_inv_head in Hw.
Qed.
Lemma joined_ok : Forall seg_ok segs.
Proof.
  destruct Hready as [_ Hseg (? & ? & ?) _ _]. apply session_segs_ok; try done. by apply all_chunks_sizes.
Qed.
Lemma joined_fed ch : Forall (fun f => In f (map seg_frame segs)) (writes_to (conn ch) new) /\
  bytes_on ch steps `prefix_of` concat (writes_to (conn ch) new).
Proof. destruct joined_groups as (groups & _ & _ & ->). split; [apply writes_to_groups | apply Hfed]. Qed.
Lemma joined_good v : good_links (ing, sid) (payload_of cs) (zlen cs) v steps /\
  Forall (full_frame v (ing, sid)) (frame_trace empty steps).
Proof.
  destruct Hready as [_ Hseg (? & ? & ?) _ _].
  apply (fed_good (cfg ws)) with (all := segs); try done; [by apply all_chunks_sizes | apply joined_ok |].
  intros ch. eexists. apply joined_fed.
Qed.

(** The frames of a link that was written every frame and delivered everything. *)
Lemma joined_complete ch id : mode_ (selector_ (w_net ws)) = ZFGW_MULTIPATH_ALL ->
  In id (live_ids (pool (w_net ws))) -> conn ch = sock (w_net ws) id ->
  bytes_on ch steps = on_socket (conn ch) new ->
  map seg_in segs `sublist_of` frame_trace empty steps.
Proof.
  intros Hmode Hid Hconn Hall. destruct joined_groups as (groups & Hg & Hl & Heq).
  assert (Hin : Forall (In id) groups).
  { eapply Forall_impl; [exact Hg|]. intros g [_ _ Ha _ _]. by rewrite (Ha Hmode). }
  pose proof (writes_to_sublist id (w_net ws) (map seg_frame segs) groups) as Hsub.
  rewrite length_map in Hsub. specialize (Hsub Hl Hin). rewrite <- Heq, <- Hconn in Hsub.
  apply fed_complete with (all := segs) (ch := ch) (fs := writes_to (conn ch) new); try done; [apply joined_ok | | apply joined_ok].
  apply joined_fed.
Qed.

(** ... and what the receiver makes of it. *)
Lemma joined_all loc ss win v r (cb : bool) net a ch0 id0
    (d0 := if cb then setUnknownSessionCallback (new_stream loc ss win v r) else new_stream loc ss win v r)
    (wr := do_steps steps (mkWorld d0 net a [])) :
  0 <= ss < 2 ^ 16 -> 0 <= win < 2 ^ 16 ->
  Forall step_bytes steps ->
  mode_ (selector_ (w_net ws)) = ZFGW_MULTIPATH_ALL ->
  In id0 (live_ids (pool (w_net ws))) -> conn ch0 = sock (w_net ws) id0 ->
  bytes_on ch0 steps = on_socket (conn ch0) new ->
  kept (ing, sid) wr -> heard (ing, sid) (w_log wr) = cs.
Proof.
  intros Hss Hwin Hbytes Hmode Hid Hconn Hall Hkept.
  pose proof Hready as [_ Hseg (Hsid & Hing & Hroute) _ _].
  destruct (joined_good v) as [Hg Hf].
  pose proof (joined_complete ch0 id0 Hmode Hid Hconn Hall) as Hsub.
  pose proof (all_chunks_sizes ws bufs Hseg) as Hsizes.
  transitivity (sent (payload_of cs) (zlen cs)); [|by apply sent_all].
  pose proof (zlen_nonneg cs).
  apply arrival_run; try done. apply (session_arrival (cfg ws)); try done.
  - destruct cb; simpl; destruct (Z.eqb_spec win 0); lia.
  - etrans; [|exact Hsub]. by apply sublist_cons.
Qed.
End joined.

(** ** Properties *)

(** Two streams end to end, any selection mode, any interleaving and any cut-off
    of the links: a receiver fed, link by link, a prefix of what was written to a
    socket hands over to the session's handler - until the session is closed from the
    receiver's side - exactly the first [m] chunks of what the sender's session was
    given, in order, each once. *)
Theorem end_to_end_prefix {Hs Hr : Type} {apps : SessionHandler Hs} {appr : SessionHandler Hr}
    {rt : ZdsRuntime} {T : Transport} {sort : StdSort}
    (sid : Z) (h : option Z) (bufs : list bytes) (ws : world Hs)
    (ing := local_ingress_id_ (cfg ws)) (cs := all_chunks ws bufs)
    (loc ss win : Z) (v : bool) (r : Z) (net : Links) (a : Hr)
    (new : list (Z * bytes)) (conn : Z -> Z) (steps : list (stream_step Hr))
    (Hmb : forall len, mb_acquire len = true)
    (Hss : 0 <= ss < 2 ^ 16) (Hwin : 0 <= win < 2 ^ 16)
    (Hready : sender_ready sid ws) (Hn : zlen cs <= 2 ^ 32 - 2 ^ 16)
    (Hnew : wire_ (w_net (sender_run sid h bufs ws)) = wire_ (w_net ws) ++ new)
    (Hbytes : Forall step_bytes steps)
    (Hfed : forall ch, bytes_on ch steps `prefix_of` on_socket (conn ch) new) :
  concat cs = concat bufs /\
  exists m, heard (ing, sid) (w_log (do_steps steps
    (mkWorld (new_stream loc ss win v r) net a []))) = take m cs.
Proof.
  pose proof Hready as [_ Hseg _ _ _]. split; [apply all_chunks_concat; lia|].
  destruct (joined_good Hmb sid h bufs ws Hready Hn new Hnew conn steps Hfed v) as [Hg _].
  pose proof (zlen_nonneg cs).
  destruct (in_order_run_from (ing, sid) (payload_of cs) (zlen cs) (new_stream loc ss win v r) v net a steps)
    as (m & Hm & ->); try done; [by apply (wf_fresh loc ss win v r false)|].
  exists (Z.to_nat m). apply sent_take; [by apply all_chunks_sizes | done].
Qed.

(** C4. Seamless redundancy: in ALL mode, if one link delivers everything written to
    it, the receiver's session gets all the data the sender's session was given, in
    order and each byte once, whatever prefixes the other links deliver, however they
    are interleaved, and whatever else the receiver does meanwhile short of closing the
    session; the session has not been entered without a handler. *)
Theorem seamless_redundancy {Hs Hr : Type} {apps : SessionHandler Hs} {appr : SessionHandler Hr}
    {rt : ZdsRuntime} {T : Transport} {sort : StdSort}
    (sid : Z) (h : option Z) (bufs : list bytes) (ws : world Hs)
    (ing := local_ingress_id_ (cfg ws)) (cs := all_chunks ws bufs)
    (loc ss win : Z) (v : bool) (r : Z) (cb : bool) (net : Links) (a : Hr)
    (d0 := if cb then setUnknownSessionCallback (new_stream loc ss win v r) else new_stream loc ss win v r)
    (new : list (Z * bytes)) (conn : Z -> Z) (steps : list (stream_step Hr)) (ch0 id0 : Z)
    (Hmb : forall len, mb_acquire len = true)
    (Hss : 0 <= ss < 2 ^ 16) (Hwin : 0 <= win < 2 ^ 16)
    (Hready : sender_ready sid ws) (Hn : zlen cs <= 2 ^ 32 - 2 ^ 16)
    (Hnew : wire_ (w_net (sender_run sid h bufs ws)) = wire_ (w_net ws) ++ new)
    (Hbytes : Forall step_bytes steps)
    (Hfed : forall ch, bytes_on ch steps `prefix_of` on_socket (conn ch) new)
    (Hmode : mode_ (selector_ (w_net ws)) = ZFGW_MULTIPATH_ALL)
    (Hid : In id0 (live_ids (pool (w_net ws)))) (Hconn : conn ch0 = sock (w_net ws) id0)
    (Hall : bytes_on ch0 steps = on_socket (conn ch0) new)
    (wr := do_steps steps (mkWorld d0 net a []))
    (Hkept : kept (ing, sid) wr) :
  concat (heard (ing, sid) (w_log wr)) = concat bufs.
Proof.
  pose proof Hready as [_ Hseg _ _ _]. rewrite <- (all_chunks_concat ws bufs) by lia. f_equal.
  by apply (joined_all Hmb sid h bufs ws Hready Hn new Hnew conn steps Hfed loc ss win v r cb net a ch0 id0).
Qed.

(** *** A run on two links *)
Definition test_new : list (Z * bytes) :=
  wire_ (w_net (sender_run 9 (Some 1) test_bufs (test_sender ZFGW_MULTIPATH_ALL))).
Definition test_conn (ch : Z) : Z := if ch =? 21 then 101 else if ch =? 22 then 102 else 0.
(** Link 22 delivers 30 bytes and breaks; link 21 delivers everything, in two pieces. *)
Definition test_cut : list (stream_step unit) :=
  [StBytes 21 (take 13 (on_socket 101 test_new)); StBytes 22 (take 30 (on_socket 102 test_new))].
Definition test_steps : list (stream_step unit) :=
  test_cut ++ [StFeedback; StBytes 21 (drop 13 (on_socket 101 test_new))].

Lemma test_ready : sender_ready (H := unit) 9 (test_sender ZFGW_MULTIPATH_ALL).
Proof.
  constructor; [done | by vm_compute | by vm_compute | apply test_sane | by vm_compute].
Qed.
Lemma test_fed {H} (steps : list (stream_step H)) ch :
  bytes_on 21 steps `prefix_of` on_socket 101 test_new ->
  bytes_on 22 steps `prefix_of` on_socket 102 test_new ->
  (forall ch, ch <> 21 -> ch <> 22 -> bytes_on ch steps = []) ->
  bytes_on ch steps `prefix_of` on_socket (test_conn ch) test_new.
Proof.
  intros H1 H2 H3. unfold test_conn. destruct (Z.eqb_spec ch 21) as [->|Hn1]; [exact H1|].
  destruct (Z.eqb_spec ch 22) as [->|Hn2]; [exact H2|]. rewrite H3 by done. apply prefix_nil.
Qed.
Lemma test_step_bytes {H} (steps : list (stream_step H)) :
  forallb (fun s => match s with StBytes _ b => forallb (fun x => (0 <=? x) && (x <? 256)) b
                    | _ => true end) steps = true ->
  Forall step_bytes steps.
Proof.
  intros Hs. rewrite forallb_forall in Hs. apply List.Forall_forall. intros s Hin. specialize (Hs s Hin).
  destruct s as [ch b|sid h|f|]; simpl; try done. rewrite forallb_forall in Hs.
  apply List.Forall_forall. intros x Hx. specialize (Hs x Hx). unfold is_byte. lia.
Qed.

Lemma end_to_end_prefix_witness :
  exists m, heard (7, 9) (w_log (do_steps (app := listener) test_cut
    (mkWorld (new_stream 3 0 0 true 0) (test_net ZFGW_MULTIPATH_BEST) tt []))) =
  take m (all_chunks (test_sender ZFGW_MULTIPATH_ALL) test_bufs).
Proof.
  refine (proj2 (end_to_end_prefix (apps := listener) (appr := listener) 9 (Some 1) test_bufs
    (test_sender ZFGW_MULTIPATH_ALL) 3 0 0 true 0 (test_net ZFGW_MULTIPATH_BEST) tt test_new
    test_conn test_cut _ _ _ _ _ _ _ _)).
  - done.
  - done.
  - done.
  - apply test_ready.
  - by vm_compute.
  - reflexivity.
  - apply test_step_bytes. by vm_compute.
  - intros ch. apply test_fed.
    + exists (drop 13 (on_socket 101 test_new)). by vm_compute.
    + exists (drop 30 (on_socket 102 test_new)). by vm_compute.
    + intros c H1 H2. unfold test_cut. cbn [bytes_on].
      destruct (Z.eqb_spec 21 c), (Z.eqb_spec 22 c); lia || done.
Defined.

Lemma seamless_redundancy_witness :
  concat (heard (7, 9) (w_log (do_steps (app := listener) test_steps
    (mkWorld (setUnknownSessionCallback (new_stream 3 0 0 true 0))
       (test_net ZFGW_MULTIPATH_BEST) tt [])))) =
  [72; 101; 108; 108; 111; 44; 32; 119; 111; 114; 108; 100].
Proof.
  refine (seamless_redundancy (apps := listener) (appr := listener) 9 (Some 1) test_bufs
    (test_sender ZFGW_MULTIPATH_ALL) 3 0 0 true 0 true (test_net ZFGW_MULTIPATH_BEST) tt test_new
    test_conn test_steps 21 1 _ _ _ _ _ _ _ _ _ _ _ _ _).
  - done.
  - done.
  - done.
  - apply test_ready.
  - by vm_compute.
  - reflexivity.
  - apply test_step_bytes. by vm_compute.
  - intros ch. apply test_fed.
    + exists []. by vm_compute.
    + exists (drop 30 (on_socket 102 test_new)). by vm_compute.
    + intros c H1 H2. unfold test_steps, test_cut. cbn [bytes_on app].
      destruct (Z.eqb_spec 21 c), (Z.eqb_spec 22 c); lia || done.
  - reflexivity.
  - by left.
  - reflexivity.
  - by vm_compute.
  - refine (bool_decide_unpack _ _). by vm_compute.
Defined.
