(* ===== verification/Traffic.v ===== *)
(** * Traffic: what a stream says on its links, whoever its handlers are

    A stream serves many sessions at once, and its links carry the frames of all of
    them, and those of the links themselves.  Here the frames written are read per
    session: what is said for one session in a run, which of the operations say it, and
    what a receiver at the other end of the links makes of it. *)
From S2P Require Import Prelude Proto OMap Segment Pack Channel Selector Links DataStream.
From S2P Require Import StreamFacts Framing StreamWf Reassembly Completeness Sending EndToEnd.

Abbreviation segment := (FgwSegmentHeader * bytes)%type.

(** ** Frames on sockets *)
Definition spoken (sg : list (Z * segment)) : list (Z * bytes) :=
  map (fun x => (fst x, seg_frame (snd x))) sg.
Definition segs_on (p : Z) (sg : list (Z * segment)) : list segment :=
  map snd (List.filter (fun x => fst x =? p) sg).

Lemma spoken_app a b : spoken (a ++ b) = spoken a ++ spoken b.
Proof. apply map_app. Qed.
Lemma segs_on_app p a b : segs_on p (a ++ b) = segs_on p a ++ segs_on p b.
Proof. unfold segs_on. by rewrite List.filter_app, map_app. Qed.
Lemma spoken_on p sg : writes_to p (spoken sg) = map seg_frame (segs_on p sg).
Proof.
  unfold writes_to, spoken, segs_on. induction sg as [|[q hp] sg IH]; simpl; [done|].
  destruct (q =? p); simpl; by rewrite IH.
Qed.
Lemma segs_on_In p sg hp : In hp (segs_on p sg) -> In hp (map snd sg).
Proof.
  unfold segs_on. intros (x & <- & [Hx _]%filter_In)%in_map_iff. by apply in_map.
Qed.

(** One segment, a copy to each of the links [ids]. *)
Definition said_to (l : Links) (hp : segment) (ids : list Z) : list (Z * segment) :=
  map (fun id => (sock l id, hp)) ids.
Lemma spoken_to l hp ids : spoken (said_to l hp ids) = copies l (seg_frame hp) ids.
Proof. unfold spoken, said_to, copies. by rewrite map_map. Qed.
Lemma said_to_In l hp ids x : In x (map snd (said_to l hp ids)) -> x = hp.
Proof. unfold said_to. rewrite map_map. by intros (i & <- & _)%in_map_iff. Qed.
Lemma said_to_on l hp ids id : In id ids -> [hp] `sublist_of` segs_on (sock l id) (said_to l hp ids).
Proof.
  unfold segs_on, said_to. induction ids as [|i ids IH]; [done|]. intros [->|Hin]; simpl.
  - rewrite Z.eqb_refl. simpl. apply sublist_skip, sublist_nil_l.
  - destruct (sock l i =? sock l id); simpl; [apply sublist_cons|]; by apply IH.
Qed.

(** ** What is said for a session *)

(** The links come from [l] to [l'] and keep their identity, all that is written are
    frames, of which those of session [k] are frames of [segs]; in ALL mode every live
    link is written [segs], in order. *)
Record utters (k : SessionKey) (segs : list segment) (l l' : Links) : Prop := {
  ut_sim : sim l l';
  ut_said : exists sg, wire_ l' = wire_ l ++ spoken sg /\ Forall seg_ok (map snd sg) /\
    (forall hp, In hp (map snd sg) -> of_session k hp -> In hp segs) /\
    (mode_ (selector_ l) = ZFGW_MULTIPATH_ALL -> forall id, In id (live_ids (pool l)) ->
       segs `sublist_of` segs_on (sock l id) sg) }.

Section utters.
Context (k : SessionKey).
Implicit Types (segs : list segment) (l : Links).

Lemma utters_sim l l' : sim l l' -> wire_ l' = wire_ l -> utters k [] l l'.
Proof.
  intros Hs Hw. split; [done|]. exists []. rewrite app_nil_r. by split_and!.
Qed.
Lemma utters_refl l : utters k [] l l.
Proof. by apply utters_sim. Qed.
(** Without a live link there is nobody to say anything to. *)
Lemma utters_dead segs l l' : sim l l' -> wire_ l' = wire_ l -> live_ids (pool l) = [] -> utters k segs l l'.
Proof.
  intros Hs Hw Hd. split; [done|]. exists []. rewrite app_nil_r. split_and!; try done.
  intros _ id. by rewrite Hd.
Qed.
Lemma utters_trans s1 s2 l l1 l2 : utters k s1 l l1 -> utters k s2 l1 l2 -> utters k (s1 ++ s2) l l2.
Proof.
  intros [Hs (g & Hw & Hok & Hin & Hall)] [Hs' (g' & Hw' & Hok' & Hin' & Hall')]. split; [by etrans|].
  exists (g ++ g'). rewrite map_app. split_and!.
  - by rewrite Hw', Hw, spoken_app, app_assoc.
  - by apply Forall_app.
  - intros hp [Hp|Hp]%in_app_iff Hk; apply in_app_iff; auto.
  - intros Hm id Hid. rewrite segs_on_app. apply sublist_app; [by apply Hall|].
    rewrite <- (sim_sock _ _ id Hs). apply Hall'; [by rewrite (sim_mode _ _ Hs) | by rewrite (sim_live_ids _ _ Hs)].
Qed.
Lemma utters_then s l l1 l2 : utters k s l l1 -> utters k [] l1 l2 -> utters k s l l2.
Proof. intros H1 H2. rewrite <- (app_nil_r s). by eapply utters_trans. Qed.
Lemma utters_after s l l1 l2 : utters k [] l l1 -> utters k s l1 l2 -> utters k s l l2.
Proof. intros H1 H2. by apply (utters_trans [] s l l1 l2). Qed.

(** One segment, of [k] or of another session. *)
Lemma utters_copies hp ids l l' : sim l l' -> seg_ok hp ->
  wire_ l' = wire_ l ++ copies l (seg_frame hp) ids ->
  (mode_ (selector_ l) = ZFGW_MULTIPATH_ALL -> forall id, In id (live_ids (pool l)) -> In id ids) ->
  utters k [hp] l l' /\ (~ of_session k hp -> utters k [] l l').
Proof.
  intros Hs Hok Hw Hall. assert (Hoks : Forall seg_ok (map snd (said_to l hp ids))).
  { apply List.Forall_forall. by intros x ->%said_to_In. }
  split; [|intros Hn]; (split; [done|]; exists (said_to l hp ids); rewrite spoken_to; split_and!; try done).
  - intros x ->%said_to_In _. by left.
  - intros Hm id Hid. by apply said_to_on, Hall.
  - by intros x ->%said_to_In ?.
  - intros _ id _. apply sublist_nil_l.
Qed.
End utters.

(** *** In the long run

    The links may change between the operations.  Of all that is written on them from a
    moment on, the frames of a session are followed to an outlet: a socket that gets all of
    them if it is a full one. *)
Record outlet := Outlet { ot_full : Prop; ot_socket : Z; ot_base : list (Z * bytes) }.
Implicit Types (o : outlet).
Definition live_socket (l : Links) (q : Z) : Prop := exists id, In id (live_ids (pool l)) /\ q = sock l id.
(** The outlet's socket is a live one, and in ALL mode it is written whatever any is. *)
Definition steady o (l : Links) : Prop := mode_ (selector_ l) = ZFGW_MULTIPATH_ALL /\ live_socket l (ot_socket o).
(** What has been written since the outlet's beginning: of [k] only frames of [segs], and to
    the outlet's socket what [h] says. *)
Definition uttered (k : SessionKey) (segs : list segment) (h : list segment -> Prop) o (l : Links) : Prop :=
  exists sg, wire_ l = ot_base o ++ spoken sg /\ Forall seg_ok (map snd sg) /\
    (forall hp, In hp (map snd sg) -> of_session k hp -> In hp segs) /\ h (segs_on (ot_socket o) sg).
(** Links that change and write frames of no session. *)
Definition drift (l l' : Links) : Prop :=
  exists sg, wire_ l' = wire_ l ++ spoken sg /\ Forall (fun hp => seg_ok hp /\ forall k, ~ of_session k hp) (map snd sg).
Lemma steady_sim o l l' : sim l l' -> steady o l' -> steady o l.
Proof.
  intros Hs. unfold steady, live_socket. rewrite (sim_live_ids _ _ Hs), (sim_mode _ _ Hs). intros [Hm (id & Hid & ->)].
  split; [done|]. exists id. by rewrite (sim_sock _ _ id Hs).
Qed.
Lemma steady_live o l : steady o l -> live_ids (pool l) <> [].
Proof. intros [_ (id & Hid & _)] Hn. by rewrite Hn in Hid. Qed.
Lemma uttered_start k o l (h : list segment -> Prop) : wire_ l = ot_base o -> h [] -> uttered k [] h o l.
Proof. intros Hw Hh. exists []. rewrite app_nil_r. by split_and!. Qed.
Lemma uttered_more k o segs s (h h' : list segment -> Prop) l l' : uttered k segs h o l -> utters k s l l' ->
  (forall g g', h g -> (steady o l -> s `sublist_of` g') -> h' (g ++ g')) -> uttered k (segs ++ s) h' o l'.
Proof.
  intros (g & Hw & Hok & Hin & Hall) [_ (g' & Hw' & Hok' & Hin' & Hall')] Hh. exists (g ++ g'). rewrite map_app, segs_on_app. split_and!.
  - by rewrite Hw', Hw, spoken_app, app_assoc.
  - by apply Forall_app.
  - intros hp [Hp|Hp]%in_app_iff Hk; apply in_app_iff; auto.
  - apply Hh; [done|]. intros [Hm (id & Hid & ->)]. by apply Hall'.
Qed.
Lemma uttered_quiet k o segs (h h' : list segment -> Prop) l l' : uttered k segs h o l -> utters k [] l l' ->
  (forall g g', h g -> h' (g ++ g')) -> uttered k segs h' o l'.
Proof. intros H1 H2 Hh. rewrite <- (app_nil_r segs). eapply uttered_more; [exact H1 | exact H2 | auto]. Qed.
Lemma uttered_drift k o segs (h h' : list segment -> Prop) l l' : drift l l' -> uttered k segs h o l ->
  (forall g g', h g -> h' (g ++ g')) -> uttered k segs h' o l'.
Proof.
  intros (g' & Hw' & Hg') (g & Hw & Hok & Hin & Hall) Hh. exists (g ++ g'). rewrite map_app, segs_on_app. split_and!.
  - by rewrite Hw', Hw, spoken_app, app_assoc.
  - apply Forall_app. split; [done|]. eapply Forall_impl; [exact Hg'|]. by intros hp [].
  - intros hp [Hp|Hp]%in_app_iff Hk; [by apply Hin|]. rewrite List.Forall_forall in Hg'. by destruct (Hg' hp Hp) as [_ Hno]; destruct (Hno k).
  - by apply Hh.
Qed.
Lemma uttered_weaken k o segs segs' (h h' : list segment -> Prop) l l' : wire_ l' = wire_ l ->
  (forall hp, In hp segs -> In hp segs') -> (forall g, h g -> h' g) -> uttered k segs h o l -> uttered k segs' h' o l'.
Proof. intros Hw Hs Hh (g & Hg & Hok & Hin & Hall). exists g. rewrite Hw. split_and!; auto. Qed.
(** Nothing of [k] yet. *)
Definition silent k o l : Prop := uttered k [] (fun _ => True) o l.

(** The segments a stream makes belong to the session they are made for. *)
Lemma seg_of_session k c ing sid seq fl p : In fl [FLAG_SYN; FLAG_FIN; FLAG_DATA] ->
  of_session k (seg_hdr c ing sid seq fl (zlen p), p) <-> k = (ing, sid).
Proof.
  intros Hfl. unfold of_session, seg_in, isHello, isHeartbeat, isAck, seg_key, isHdrExt, seg_hdr, frame_hdr.
  cbn [f_hdr fst snd h_flags h_session_id h_ingress_id].
  assert (Hk : forall a b c0 : bool, a = false -> b = false -> c0 = false ->
    (a = false /\ b = false /\ c0 = false /\ (ing, sid) = k) <-> k = (ing, sid)) by (intros; intuition).
  destruct (negb _); repeat destruct Hfl as [<-|Hfl]; try done; by apply Hk.
Qed.

Lemma data_segs_app c ing sid cs cs' : forall seq, is_u32 seq ->
  data_segs c ing sid seq (cs ++ cs') =
  data_segs c ing sid seq cs ++ data_segs c ing sid (u32 (seq + zlen cs)) cs'.
Proof.
  induction cs as [|p cs IH]; intros seq Hu.
  - simpl. change (zlen (@nil bytes)) with 0. by rewrite Z.add_0_r, u32_small.
  - cbn [data_segs app]. rewrite IH by apply u32_range. rewrite zlen_cons.
    unfold u32. by rewrite Zplus_mod_idemp_l, Z.add_assoc.
Qed.

(** ** A writer of the zce runtime returns how many bytes it wrote *)
Class ZdsExact (rt : ZdsRuntime) : Prop := {
  exact_header : forall pf hp s len bs, zds_pack_struct_header s pf hp = (len, bs) -> 0 <= len -> len = zlen bs;
  exact_builtin : forall b v s len bs, zds_pack_builtin b s v = (len, bs) -> 0 <= len -> len = zlen bs }.

Section exact.
Context {rt : ZdsRuntime} {laws : ZdsLaws rt} {ex : ZdsExact rt}.
Definition exact (w : wr) : Prop := wr_ret w = zlen (wr_out w).
Lemma exact_move w len bs w' : exact w -> (0 <= len -> len = zlen bs) -> checklen_wr w (len, bs) = inr w' -> exact w'.
Proof.
  intros Hw Hl Hc. destruct (Z.lt_ge_cases len 0) as [Hneg|Hpos].
  - by rewrite law_checklen_wr_err in Hc.
  - rewrite law_checklen_wr_ok in Hc by done. injection Hc as <-. unfold exact in *. simpl. rewrite Hw, zlen_app. by rewrite Hl.
Qed.
Lemma exact_member pf i b v k w len bs : exact w ->
  (forall w', exact w' -> k w' = (len, bs) -> 0 <= len -> len = zlen bs) ->
  pack_member pf i (fun s => zds_pack_builtin b s v) k w = (len, bs) -> 0 <= len -> len = zlen bs.
Proof.
  intros Hw Hk. unfold pack_member. destruct (bit_set pf i); [|by apply Hk].
  destruct (zds_pack_builtin b (wr_sink w) v) as [n d] eqn:Hp. destruct (checklen_wr w (n, d)) as [e|w'] eqn:Hc.
  - intros [= <- <-]. destruct (Z.lt_ge_cases n 0) as [Hneg|Hpos].
    + rewrite law_checklen_wr_err in Hc by done. injection Hc as <-. lia.
    + by rewrite law_checklen_wr_ok in Hc.
  - apply Hk. eapply exact_move; [exact Hw | | exact Hc]. intros Hn. by eapply exact_builtin.
Qed.
Lemma exact_struct s pf k len bs : (forall w, exact w -> k w = (len, bs) -> 0 <= len -> len = zlen bs) ->
  pack_struct s pf true k = (len, bs) -> 0 <= len -> len = zlen bs.
Proof.
  intros Hk. unfold pack_struct. destruct (zds_pack_struct_header s pf true) as [n d] eqn:Hp.
  destruct (checklen_wr _ (n, d)) as [e|w] eqn:Hc.
  { intros [= <- <-]. destruct (Z.lt_ge_cases n 0) as [Hneg|Hpos].
    + rewrite law_checklen_wr_err in Hc by done. injection Hc as <-. lia.
    + by rewrite law_checklen_wr_ok in Hc. }
  apply Hk. eapply exact_move; [| |exact Hc]; [done | intros Hn; by eapply exact_header].
Qed.
Lemma exact_return w len bs : exact w -> pack_return w = (len, bs) -> 0 <= len -> len = zlen bs.
Proof. intros Hw. unfold pack_return. intros [= <- <-] _. exact Hw. Qed.
Ltac exact_members :=
  apply exact_struct; intros w Hw; repeat (apply exact_member; [done|]; clear w Hw; intros w Hw); by apply exact_return.
Lemma exact_feedback s fb len bs : zds_pack_FgwLinkFeedback s fb true = (len, bs) -> 0 <= len -> len = zlen bs.
Proof. unfold zds_pack_FgwLinkFeedback. exact_members. Qed.
Lemma exact_hello s h len bs : zds_pack_FgwHello s h true = (len, bs) -> 0 <= len -> len = zlen bs.
Proof. unfold zds_pack_FgwHello. exact_members. Qed.
End exact.

(** ** The stream's operations *)
Section speaking.
Context {H : Type} {app : SessionHandler H}.
Context {rt : ZdsRuntime} {laws : ZdsLaws rt} {ex : ZdsExact rt} {T : Transport} {sort : StdSort}.
Context (Hmb : forall len, mb_acquire len = true).
Implicit Types (w : world H) (k : SessionKey).

Definition sess_ok k (st : SessionState) : Prop :=
  (wire_ingress_id st, session_id st) = k /\ key_ok k /\ is_u32 (next_send_seq st) /\ closed st = false.

(** What sending relies on. *)
Record sound w : Prop := {
  so_links : links_sane (w_net w);
  so_seg : 0 < segment_size_ (cfg w) <= MAX_PAYLOAD;
  so_ids : is_u32 (local_ingress_id_ (cfg w)) /\ is_u32 (route_outport_id_ (cfg w));
  so_sess : forall k st, find_session k w = Some st -> sess_ok k st }.

Lemma sound_step w w' : sound w -> cfg w' = cfg w -> sim (w_net w) (w_net w') ->
  (forall k st, find_session k w' = Some st -> find_session k w = Some st \/ sess_ok k st) -> sound w'.
Proof.
  intros [Hl Hs Hi Hk] Hc Hsim Hf. constructor; rewrite ?Hc; try done; [by eapply sim_sane|].
  intros k st Hst. destruct (Hf k st Hst); auto.
Qed.
Lemma sound_net net w : sound w -> sim (w_net w) net -> sound (on_net (fun _ => net) w).
Proof. intros Hw Hs. by apply (sound_step w); auto. Qed.
Lemma sound_put key st w : sound w -> sess_ok key st -> sound (put_session key st w).
Proof.
  intros Hw Hst. apply (sound_step w); [done..|]. intros k st'. destruct (decide (k = key)) as [->|Hne].
  - rewrite find_put_eq. intros [= <-]. by right.
  - rewrite find_put_ne by done. by left.
Qed.
Lemma sess_ok_seq key st q : sess_ok key st -> is_u32 q -> sess_ok key (set_send_seq q st).
Proof. by intros (? & ? & _ & ?) ?. Qed.

Lemma speak_segment k ing sid seq fl p w : sound w -> zlen p <= MAX_PAYLOAD ->
  In fl [FLAG_SYN; FLAG_FIN; FLAG_DATA] -> key_ok (ing, sid) -> is_u32 seq ->
  exists ret net, sendSegment ing sid seq fl (Some p) (zlen p) w = (ret, on_net (fun _ => net) w) /\
    (live_ids (pool (w_net w)) <> [] -> 0 <= ret) /\ (live_ids (pool (w_net w)) = [] -> wire_ net = wire_ (w_net w)) /\
    utters k (if decide ((ing, sid) = k) then [(seg_hdr (cfg w) ing sid seq fl (zlen p), p)] else [])
      (w_net w) net.
Proof.
  intros Hw Hp Hfl [Hing Hsid] Hseq. pose proof (so_ids _ Hw) as [_ Hroute].
  destruct (sendSegment_spec Hmb ing sid seq fl p w (so_links _ Hw) Hp Hfl) as (ret & net & Hs & Hsim & Hc).
  exists ret, net. split; [done|]. destruct (decide (live_ids _ = [])) as [Hd|Hlive] in Hc.
  - destruct Hc as [_ Hwire]. split; [done|]. split; [done|]. by apply utters_dead.
  - destruct Hc as (Hret & ids & Hpick & Hwire). split; [done|]. split; [done|].
    destruct (utters_copies k (seg_hdr (cfg w) ing sid seq fl (zlen p), p) ids (w_net w) net) as [H1 H2]; try done.
    + split; [by apply seg_hdr_wf | done].
    + intros Hm id Hid. by rewrite (pk_all _ _ _ Hpick Hm).
    + destruct (decide _) as [|Hne]; [done|]. apply H2. rewrite seg_of_session by done. congruence.
Qed.

(** One chunk of a session: its number is taken, and its segment goes to the links. *)
Lemma speak_chunk ing sid p st w : sound w -> find_session (ing, sid) w = Some st -> 0 < zlen p <= MAX_PAYLOAD ->
  let w1 := put_session (ing, sid) (bump_send_seq st) w in
  exists ret net,
    sendSegment (wire_ingress_id st) sid (next_send_seq st) FLAG_DATA (Some p) (zlen p) w1 = (ret, on_net (fun _ => net) w1) /\
    (live_ids (pool (w_net w)) <> [] -> 0 <= ret) /\ (live_ids (pool (w_net w)) = [] -> wire_ net = wire_ (w_net w)) /\
    sound (on_net (fun _ => net) w1) /\ live_ids (pool net) = live_ids (pool (w_net w)) /\
    forall k, utters k (if decide ((ing, sid) = k) then data_segs (cfg w) (fst k) (snd k) (next_send_seq st) [p] else [])
      (w_net w) net.
Proof.
  intros Hw Hst Hp w1. destruct (so_sess _ Hw _ _ Hst) as (Hid & Hko & Hu & Hcl). injection Hid as Hing Hsid.
  assert (Hw1 : sound w1)
    by (apply sound_put; [done|]; apply (sess_ok_seq (ing, sid) st (next_send_seq st +u32 1)); [by apply (so_sess _ Hw) | apply u32_range]).
  assert (Hk : forall k, exists ret net,
    sendSegment (wire_ingress_id st) sid (next_send_seq st) FLAG_DATA (Some p) (zlen p) w1 = (ret, on_net (fun _ => net) w1) /\
    (live_ids (pool (w_net w)) <> [] -> 0 <= ret) /\ (live_ids (pool (w_net w)) = [] -> wire_ net = wire_ (w_net w)) /\
    utters k (if decide ((ing, sid) = k) then data_segs (cfg w) (fst k) (snd k) (next_send_seq st) [p] else []) (w_net w) net).
  { intros k. rewrite Hing.
    destruct (speak_segment k ing sid (next_send_seq st) FLAG_DATA p w1) as (ret & net & Hs & Hret & Hdead & Hut);
      [done | lia | by right; right; left | done.. |].
    exists ret, net. split_and!; [done..|]. destruct (decide _) as [<-|]; [|done]. exact Hut. }
  destruct (Hk (ing, sid)) as (ret & net & Hsend & Hret & Hdead & Hut0). exists ret, net.
  pose proof (ut_sim _ _ _ _ Hut0) as Hsim. split_and!; try done.
  - by apply sound_net.
  - by rewrite (sim_live_ids _ _ Hsim).
  - intros k. destruct (Hk k) as (ret' & net' & Hs' & _ & _ & Hu'). rewrite Hsend in Hs'. injection Hs' as _ Hnet.
    by rewrite Hnet.
Qed.

(** [sendSessionData]: the chunks of the data, or those it numbered before it failed; the
    last of these it may not have got out. *)
Record chunked (l : Links) (buf : bytes) (cs : list bytes) : Prop := {
  ck_sizes : Forall (fun p => 0 < zlen p <= MAX_PAYLOAD) cs;
  ck_total : zlen (concat cs) <= zlen buf;
  ck_some : cs = [] -> buf = [];
  ck_live : live_ids (pool l) <> [] -> concat cs = buf }.
Lemma speak_chunks fuel key sid : forall buf n w st,
  (length buf < fuel)%nat -> find_session key w = Some st -> sound w -> snd key = sid ->
  exists cs w' r, send_chunks fuel key sid buf n w = (r, w') /\
    chunked (w_net w) buf cs /\ (live_ids (pool (w_net w)) = [] -> wire_ (w_net w') = wire_ (w_net w)) /\
    find_session key w' = Some (set_send_seq (u32 (next_send_seq st + zlen cs)) st) /\
    (forall k, k <> key -> find_session k w' = find_session k w) /\ cfg w' = cfg w /\
    forall k, utters k (if decide (key = k) then data_segs (cfg w) (fst k) (snd k) (next_send_seq st) cs else [])
      (w_net w) (w_net w').
Proof.
  induction fuel as [|fuel IH]; intros buf n w st Hf Hst Hw Hkey; [lia|].
  destruct (so_sess _ Hw _ _ Hst) as (Hid & Hko & Hu & Hcl).
  destruct buf as [|b buf].
  { exists [], w, (i32 n). split_and!; try done.
    - rewrite Hst. cbn. rewrite Z.add_0_r, u32_small by done. by destruct st.
    - intros k. destruct (decide _); apply utters_refl. }
  pose proof (so_seg _ Hw) as Hseg. cbn [send_chunks]. rewrite Hst.
  set (m := Z.min (zlen (b :: buf)) (segment_size_ (cfg w))).
  set (p := take (Z.to_nat m) (b :: buf)). set (rest := drop (Z.to_nat m) (b :: buf)).
  pose proof (zlen_nonneg buf) as Hb0.
  assert (Hm : 0 < m <= zlen (b :: buf)) by (unfold m; rewrite zlen_cons; lia).
  assert (Hp : zlen p = m) by (unfold p; rewrite zlen_take; lia).
  assert (Hr : zlen rest = zlen (b :: buf) - m) by (unfold rest; rewrite zlen_drop; lia).
  assert (Hpsz : 0 < zlen p <= MAX_PAYLOAD) by (unfold MAX_PAYLOAD in *; lia).
  destruct key as [ing sid']. cbn [snd] in Hkey. subst sid'. clear Hid.
  destruct (speak_chunk ing sid p st w Hw Hst Hpsz) as (ret & net & Hsend & Hret & Hdead & Hw2 & Hlive2 & Hut).
  rewrite Hp in Hsend. rewrite Hsend. fold rest.
  set (w1 := put_session (ing, sid) (bump_send_seq st) w) in *. set (w2 := on_net (fun _ => net) w1) in *.
  assert (Hc : cfg w2 = cfg w) by done.
  assert (Hbuf : b :: buf = p ++ rest) by (symmetry; apply take_drop).
  destruct (Z.ltb_spec ret 0) as [Hneg|Hpos].
  - exists [p], w2, ret. split_and!; try done.
    + constructor; [by constructor | cbn [concat]; rewrite app_nil_r; lia | done |]. intros Hlive. specialize (Hret Hlive). lia.
    + apply find_put_eq.
    + intros k Hne. change (find_session k w2) with (find_session k w1). by apply find_put_ne.
  - destruct (IH rest (n + m) w2 (bump_send_seq st)) as (cs & w' & r & Heq & [Hsz Htot Hsome Hlv] & Hdead' & Hf' & Hoth & Hcf & Hut').
    + unfold zlen in Hr. simpl in Hr, Hf |- *. lia.
    + apply find_put_eq.
    + exact Hw2.
    + done.
    + exists (p :: cs), w', r. split_and!.
      * exact Heq.
      * constructor; [by constructor | cbn [concat]; rewrite zlen_app; lia | done |].
        intros Hlive. cbn [concat]. rewrite Hbuf, Hlv; [done|]. simpl. by rewrite Hlive2.
      * intros Hno. rewrite Hdead', <- Hdead; [done | done |]. simpl. by rewrite Hlive2.
      * rewrite Hf'. unfold set_send_seq, bump_send_seq. cbn [next_send_seq].
        unfold u32. rewrite Zplus_mod_idemp_l, zlen_cons, Z.add_assoc. done.
      * intros k Hne. rewrite Hoth by done. change (find_session k w2) with (find_session k w1). by apply find_put_ne.
      * congruence.
      * intros k. specialize (Hut k). specialize (Hut' k). rewrite Hc in Hut'. destruct (decide ((ing, sid) = k)) as [<-|].
        -- apply (utters_trans _ _ _ _ _ _ Hut Hut').
        -- by eapply utters_then.
Qed.

(** [w'] has spoken for [k] no more than [segs], and its session is as it was. *)
Record hushed k w w' : Prop := {
  hu_cfg : cfg w' = cfg w;
  hu_find : find_session k w' = find_session k w;
  hu_net : utters k [] (w_net w) (w_net w') }.
#[export] Instance hushed_preorder k : PreOrder (hushed k).
Proof.
  split; [intros w; split; [done..|apply utters_refl]|].
  intros w1 w2 w3 [? ? ?] [? ? ?]. split; [congruence..|]. by eapply utters_then.
Qed.

Lemma speak_send sid buf ing w (key := (resolveIngressKey w ing, sid)) : sound w ->
  let w' := snd (sendSessionData sid buf ing w) in
  sound w' /\ cfg w' = cfg w /\ (forall k, k <> key -> hushed k w w') /\
  match find_session key w with
  | None => w' = w
  | Some st => exists cs, chunked (w_net w) buf cs /\ sim (w_net w) (w_net w') /\
    (live_ids (pool (w_net w)) = [] -> wire_ (w_net w') = wire_ (w_net w)) /\
    find_session key w' = Some (set_send_seq (u32 (next_send_seq st + zlen cs)) st) /\
    utters key (data_segs (cfg w) (fst key) (snd key) (next_send_seq st) cs) (w_net w) (w_net w')
  end.
Proof.
  intros Hw. unfold sendSessionData. fold key. destruct (find_session key w) as [st|] eqn:Hf; [|done].
  destruct (so_sess _ Hw _ _ Hf) as (Hid & Hko & Hu & ->).
  destruct (speak_chunks (S (length buf)) key sid buf 0 w st) as (cs & w' & r & -> & Hcs & Hdead & Hf' & Hoth & Hc & Hut);
    try done; [lia|]. cbn [snd]. split_and!.
  - apply (sound_step w); [done | done | apply (Hut key) |]. intros k st' Hst'.
    destruct (decide (k = key)) as [->|Hne]; [right | left; by rewrite <- (Hoth k)].
    rewrite Hf' in Hst'. injection Hst' as <-. by apply sess_ok_seq; [eapply so_sess | apply u32_range].
  - done.
  - intros k Hne. split; [done | by apply Hoth |]. specialize (Hut k). by rewrite decide_False in Hut by congruence.
  - exists cs. split_and!; [done | apply (Hut key) | done | done |]. specialize (Hut key). by rewrite decide_True in Hut.
Qed.

Lemma speak_close sid ing w (key := (resolveIngressKey w ing, sid)) : sound w ->
  let w' := closeSession sid ing w in
  sound w' /\ cfg w' = cfg w /\ find_session key w' = None /\ sim (w_net w) (w_net w') /\
  (forall k, k <> key -> hushed k w w').
Proof.
  intros Hw. pose proof (fun k => closeSession_find k sid ing w) as Hfind. unfold closeSession in *. fold key in Hfind |- *.
  destruct (find_session key w) as [st|] eqn:Hf.
  2: { split_and!; done || by intros. }
  destruct (so_sess _ Hw _ _ Hf) as (Hid & Hko & Hu & Hcl). rewrite Hcl in *.
  set (w1 := put_session key (bump_send_seq st) w) in *.
  assert (Hw1 : sound w1) by (apply sound_put; [done|]; apply (sess_ok_seq key st (next_send_seq st +u32 1)); [done | apply u32_range]).
  assert (Hwi : wire_ingress_id st = fst key) by (by rewrite <- Hid). rewrite Hwi, sendSegment_none in *.
  assert (Hk : forall k, exists ret net, sendSegment (fst key) sid (next_send_seq st) FLAG_FIN (Some []) (zlen (@nil Z)) w1 =
      (ret, on_net (fun _ => net) w1) /\ sim (w_net w) net /\ (k <> key -> utters k [] (w_net w) net)).
  { intros k. destruct (speak_segment k (fst key) sid (next_send_seq st) FLAG_FIN [] w1) as (ret & net & Hs & _ & _ & Hut); try done.
    - by right; left.
    - exists ret, net. split; [done|]. split; [apply Hut|]. intros Hne. destruct (decide _) as [He|]; [by destruct Hne | exact Hut]. }
  destruct (Hk key) as (ret & net & Hs & Hsim & _). rewrite Hs in Hfind |- *. cbn [snd] in *.
  set (w2 := log (Gone key) (erase_session key (on_net (fun _ => net) w1))) in *. split_and!.
  - apply (sound_step w); try done. intros k st' Hst'. rewrite Hfind in Hst'. destruct (decide (k = key)); [done | by left].
  - done.
  - rewrite Hfind. by rewrite decide_True.
  - done.
  - intros k Hne. split; [done | by rewrite Hfind, decide_False |].
    destruct (Hk k) as (ret' & net' & Hs' & _ & Hu'). rewrite Hs in Hs'. injection Hs' as _ Hnet. rewrite <- Hnet in Hu'. by apply Hu'.
Qed.

Lemma speak_open sid h w (key := (local_ingress_id_ (cfg w), sid)) : sound w -> is_u32 sid ->
  let w' := snd (openSession sid h w) in
  sound w' /\ cfg w' = cfg w /\ w_app w' = w_app w /\ w_log w' = w_log w /\ (forall k, k <> key -> hushed k w w') /\
  match find_session key w with
  | Some _ => w' = w
  | None => find_session key w' = Some (mkSession sid (fst key) 0 0 [] h true false) /\
            utters key [syn_seg (cfg w) (fst key) sid] (w_net w) (w_net w')
  end.
Proof.
  intros Hw Hsid. unfold openSession. fold key. destruct (find_session key w) as [st|] eqn:Hf; [done|].
  set (st := mkSession _ _ _ _ _ _ _ _). set (w1 := put_session key st w).
  assert (Hko : key_ok key) by (split; [apply (so_ids _ Hw) | done]).
  assert (Hw1 : sound w1) by (by apply sound_put).
  rewrite sendSegment_none.
  assert (Hk : forall k, exists ret net, sendSegment (local_ingress_id_ (cfg w)) sid 0 FLAG_SYN (Some []) (zlen (@nil Z)) w1 =
      (ret, on_net (fun _ => net) w1) /\ utters k (if decide (key = k) then [syn_seg (cfg w) (fst key) sid] else []) (w_net w) net).
  { intros k. destruct (speak_segment k (local_ingress_id_ (cfg w)) sid 0 FLAG_SYN [] w1) as (ret & net & Hs & _ & _ & Hut); try done.
    - by left.
    - by exists ret, net. }
  destruct (Hk key) as (ret & net & Hs & Hut0). rewrite Hs. cbn [snd]. rewrite decide_True in Hut0 by done.
  split_and!; try done.
  - apply sound_net; [done | apply Hut0].
  - intros k Hne. split; [done | by apply find_put_ne |].
    destruct (Hk k) as (ret' & net' & Hs' & Hu'). rewrite Hs in Hs'. injection Hs' as _ Hnet.
    rewrite <- Hnet, decide_False in Hu' by congruence. exact Hu'.
  - apply find_put_eq.
Qed.

(** Calls for other sessions. *)
Definition call_key w (c : stream_call) : SessionKey :=
  match c with CallSend sid _ ing | CallClose sid ing => (resolveIngressKey w ing, sid) end.
Lemma speak_call c w : sound w ->
  sound (apply_call c w) /\ cfg (apply_call c w) = cfg w /\ forall k, k <> call_key w c -> hushed k w (apply_call c w).
Proof.
  intros Hw. destruct c as [sid d ing|sid ing]; simpl.
  - destruct (speak_send sid d ing w Hw) as (H1 & H2 & H3 & _). done.
  - destruct (speak_close sid ing w Hw) as (H1 & H2 & _ & _ & H3). done.
Qed.
Lemma speak_calls k cs : forall w, sound w ->
  sound (apply_calls cs w) /\ cfg (apply_calls cs w) = cfg w /\
  (Forall (fun c => call_key w c <> k) cs -> hushed k w (apply_calls cs w)).
Proof.
  induction cs as [|c cs IH]; intros w Hw; [done|]. destruct (speak_call c w Hw) as (H1 & H2 & H3).
  destruct (IH (apply_call c w) H1) as (H4 & H5 & H6). split_and!; [exact H4 | cbn; by etrans |].
  intros Hall. inversion Hall as [|? ? Hc Hcs]; subst. etrans; [by apply H3, not_eq_sym|]. apply H6.
  eapply Forall_impl; [exact Hcs|]. intros [sid d ing|sid ing]; unfold call_key, resolveIngressKey; by rewrite H2.
Qed.

(** *** What a session has said so far *)
Definition tx k w : option Z := next_send_seq <$> find_session k w.
(** Nothing is said for [k]. *)
Definition quietly k w w' : Prop :=
  cfg w' = cfg w /\ tx k w' = tx k w /\ utters k [] (w_net w) (w_net w').
Lemma quietly_same k w w' : w_ds w' = w_ds w -> w_net w' = w_net w -> quietly k w w'.
Proof.
  intros Hd Hn. unfold quietly, cfg, tx, find_session. rewrite Hd, Hn. split_and!; try done. apply utters_refl.
Qed.
Lemma quietly_hushed k w w' : hushed k w w' -> quietly k w w'.
Proof. intros [Hc Hf Hu]. split_and!; try done. unfold tx. by rewrite Hf. Qed.
Definition session_said (c : StreamConfig) k (syn : bool) (cs : list bytes) : list segment :=
  (if syn then [syn_seg c (fst k) (snd k)] else []) ++ data_segs c (fst k) (snd k) 0 cs.

(** The same when the [m]-th chunk has been lost. *)
Definition session_voice (c : StreamConfig) k (syn : bool) (m : nat) (cs : list bytes) : list segment :=
  session_said c k syn (take m cs) ++ data_segs c (fst k) (snd k) (u32 (Z.of_nat m + 1)) (drop (S m) cs).

(** Since the outlet's beginning session [k] has said [said], in chunks, with a SYN before
    them if it was opened from this side.  Of the chunks the first [m] are its beginning; if
    there are more, the next has not been written to any link.  That does not happen
    while a full outlet is steady, and it has been written all of them. *)
Definition voiced k (syn : bool) (o : outlet) (said : bytes) w : Prop := exists cs m,
  Forall (fun p => 0 < zlen p <= MAX_PAYLOAD) cs /\ zlen (concat cs) <= zlen said /\ (m <= length cs)%nat /\
  concat (take m cs) `prefix_of` said /\ (m = length cs -> concat cs = said) /\ tx k w = Some (u32 (zlen cs)) /\
  uttered k (session_voice (cfg w) k syn m cs) (fun g => ot_full o -> steady o (w_net w) ->
    m = length cs /\ data_segs (cfg w) (fst k) (snd k) 0 cs `sublist_of` g) o (w_net w).

(** Nothing is lost yet. *)
Lemma voice_whole c k syn cs : session_voice c k syn (length cs) cs = session_said c k syn cs.
Proof. unfold session_voice. rewrite take_ge, drop_ge by lia. apply app_nil_r. Qed.
Lemma voiced_new k (syn : bool) o w : tx k w = Some 0 ->
  uttered k (if syn then [syn_seg (cfg w) (fst k) (snd k)] else []) (fun _ => True) o (w_net w) -> voiced k syn o [] w.
Proof.
  intros Ht Hu. exists [], 0%nat. split_and!; try done. rewrite (voice_whole _ _ _ []). unfold session_said. cbn [data_segs]. rewrite app_nil_r.
  eapply uttered_weaken; [done | done | | exact Hu]. intros g _ _ _. split; [done | apply sublist_nil_l].
Qed.
Lemma voiced_then k syn o said w w' : quietly k w w' -> voiced k syn o said w -> voiced k syn o said w'.
Proof.
  intros (Hc & Ht & Hu) (cs & m & H1 & H2 & H3 & H4 & H5 & H6 & H7). exists cs, m. rewrite Hc, Ht. split_and!; try done.
  eapply uttered_quiet; [exact H7 | exact Hu |]. intros g g' Hg Hy Hst.
  destruct (Hg Hy (steady_sim _ _ _ (ut_sim _ _ _ _ Hu) Hst)). split; [done | by apply sublist_inserts_r].
Qed.
(** When the links change a full outlet has to be steady before: what was said has been heard. *)
Lemma voiced_drift k syn o said l' w : drift (w_net w) l' -> (ot_full o -> steady o (w_net w)) -> voiced k syn o said w ->
  voiced k syn o said (on_net (fun _ => l') w).
Proof.
  intros Hd Hst (cs & m & H1 & H2 & H3 & H4 & H5 & H6 & H7). exists cs, m. split_and!; try done.
  eapply uttered_drift; [exact Hd | exact H7 |]. intros g g' Hg Hy _.
  destruct (Hg Hy (Hst Hy)). split; [done | by apply sublist_inserts_r].
Qed.

(** More chunks: after the others, after a loss, and lost from the first on. *)
Lemma voice_more c k syn cs cs' : session_voice c k syn (length (cs ++ cs')) (cs ++ cs') =
  session_voice c k syn (length cs) cs ++ data_segs c (fst k) (snd k) (u32 (zlen cs)) cs'.
Proof. rewrite !voice_whole. unfold session_said. by rewrite data_segs_app, app_assoc by done. Qed.
Lemma voice_after c k syn m cs cs' : (m < length cs)%nat -> session_voice c k syn m (cs ++ cs') =
  session_voice c k syn m cs ++ data_segs c (fst k) (snd k) (u32 (zlen cs)) cs'.
Proof.
  intros Hm. unfold session_voice. rewrite take_app_le, drop_app_le, data_segs_app, app_assoc by (lia || apply u32_range). f_equal. f_equal.
  unfold u32. rewrite Zplus_mod_idemp_l. f_equal. unfold zlen. rewrite length_drop. lia.
Qed.
Lemma voice_lost c k syn cs cs' hp : In hp (session_voice c k syn (length cs) cs) ->
  In hp (session_voice c k syn (length cs) (cs ++ cs')).
Proof.
  rewrite voice_whole. unfold session_voice. rewrite take_app_length. intros Hin. apply in_app_iff. by left.
Qed.
Lemma chunks_more (cs cs' : list bytes) : Forall (fun p => 0 < zlen p <= MAX_PAYLOAD) cs ->
  Forall (fun p => 0 < zlen p <= MAX_PAYLOAD) cs' -> Forall (fun p => 0 < zlen p <= MAX_PAYLOAD) (cs ++ cs').
Proof. intros. by apply Forall_app. Qed.
Lemma voiced_send k syn o said sid buf ing w : sound w -> k = (resolveIngressKey w ing, sid) ->
  voiced k syn o said w -> voiced k syn o (said ++ buf) (snd (sendSessionData sid buf ing w)).
Proof.
  intros Hw Hk (cs & m & Hsz & Htot & Hm & Hpre & Hall & Htx & Hut).
  destruct (speak_send sid buf ing w Hw) as (_ & Hc & _ & Hs). rewrite <- Hk in Hs.
  unfold tx in Htx. destruct (find_session k w) as [st|] eqn:Hf; [|done]. injection Htx as Hq.
  destruct Hs as (cs' & [Hsz' Htot' Hsome Hlive] & Hsim & Hdead & Hf' & Hu').
  assert (Htx : tx k (snd (sendSessionData sid buf ing w)) = Some (u32 (zlen (cs ++ cs')))).
  { unfold tx. rewrite Hf'. cbn. rewrite Hq, zlen_app. unfold u32. by rewrite Zplus_mod_idemp_l. }
  assert (Htots : zlen (concat (cs ++ cs')) <= zlen (said ++ buf)) by (rewrite concat_app, !zlen_app; lia).
  assert (Hsizes : Forall (fun p => 0 < zlen p <= MAX_PAYLOAD) (cs ++ cs')) by (by apply chunks_more).
  assert (Hlen : (m <= length (cs ++ cs'))%nat) by (rewrite length_app; lia).
  assert (Hpres : concat (take m (cs ++ cs')) `prefix_of` said ++ buf) by (rewrite take_app_le by done; by apply prefix_app_r).
  rewrite Hq in Hu'. unfold voiced. rewrite Hc.
  destruct (decide (live_ids (pool (w_net w)) = [])) as [Hno|Hyes].
  - (* nobody to say it to *)
    exists (cs ++ cs'), m. split_and!; try done.
    + intros Heq. rewrite length_app in Heq. assert (Hnil : cs' = []) by (destruct cs'; simpl in Heq; [done | lia]).
      rewrite (Hsome Hnil), Hnil, !app_nil_r. apply Hall. lia.
    + eapply uttered_weaken; [by apply Hdead | | | exact Hut].
      * intros hp Hin. destruct (decide (m = length cs)) as [->|Hne]; [by apply voice_lost|].
        rewrite voice_after by lia. apply in_app_iff. by left.
      * intros g _ _ Hst. by destruct (steady_live _ _ (steady_sim _ _ _ Hsim Hst)).
  - specialize (Hlive Hyes). destruct (decide (m = length cs)) as [->|Hne].
    + exists (cs ++ cs'), (length (cs ++ cs')). split_and!; try done.
      * rewrite take_ge, concat_app, Hall, Hlive by done. done.
      * intros _. by rewrite concat_app, Hall, Hlive.
      * rewrite voice_more. eapply uttered_more; [exact Hut | exact Hu' |]. intros g g' Hg Hg' Hy Hst.
        pose proof (steady_sim _ _ _ Hsim Hst) as Hst0. split; [done|]. destruct (Hg Hy Hst0) as [_ Hd].
        rewrite data_segs_app by done. apply sublist_app; [done | by apply Hg'].
    + exists (cs ++ cs'), m. split_and!; try done.
      * intros Heq. rewrite length_app in Heq. lia.
      * rewrite voice_after by lia. eapply uttered_more; [exact Hut | exact Hu' |]. intros g g' Hg _ Hy Hst.
        by destruct (Hg Hy (steady_sim _ _ _ Hsim Hst)).
Qed.

(** [emitFeedback] speaks for no session. *)
Lemma utters_all k h p as_ : forall l, links_sane l -> (forall a, In a as_ -> In a (liveChannels l)) ->
  seg_ok (h, p) -> ~ of_session k (h, p) -> utters k [] l (send_all (frame h p) as_ l).
Proof.
  induction as_ as [|a as_ IH]; intros l Hsane Hin Hok Hno; [apply utters_refl|]. cbn [send_all].
  assert (Hpos : 0 < zlen (frame h p)).
  { rewrite frame_len. pose proof (hdr_sz_cases h). pose proof (zlen_nonneg p). lia. }
  destruct (send_on_live Hmb a (frame h p) l Hsane (Hin a ltac:(by left)) Hpos) as (ret & l1 & -> & Hsim & Hw & _).
  cbn [snd]. eapply utters_then.
  - split; [exact Hsim|]. exists [(default 0 (tcp_ptr_ (chan l a)), (h, p))]. split_and!; [exact Hw | by constructor | |].
    + by intros hp [<-|[]] ?.
    + intros _ id _. apply sublist_nil_l.
  - apply IH; [by eapply sim_sane | | done | done]. intros b Hb. rewrite (sim_live _ _ Hsim). apply Hin. by right.
Qed.
Lemma speak_feedback k w : sound w -> utters k [] (w_net w) (w_net (emitFeedback w)).
Proof.
  intros Hw. unfold emitFeedback. destruct (peer_part_count_ (w_ds w)); [apply utters_refl|].
  destruct (_ =? 0); [apply utters_refl|]. set (fb := mkFgwLinkFeedback _ _ _ _).
  destruct (zds_pack_FgwLinkFeedback (Some 64) fb true) as [plen payload] eqn:Hp.
  destruct (Z.ltb_spec plen 0) as [|Hpl]; [apply utters_refl|].
  apply exact_feedback in Hp; [|done]. subst plen. set (hdr := mkHdr _ _ _ _ _ _ _ _).
  destruct (Z.lt_ge_cases MAX_PAYLOAD (zlen payload)) as [Hbig|Hmax].
  { unfold fgwSegmentEncode. replace (MAX_PAYLOAD <? zlen payload) with true by lia. rewrite orb_true_r. apply utters_refl. }
  destruct (Z.lt_ge_cases 128 (hdr_sz hdr + zlen payload)) as [Hbig|Hfit].
  { unfold fgwSegmentEncode. replace ((zlen payload <? 0) || (MAX_PAYLOAD <? zlen payload)) with false by lia.
    change (if negb (Z.land (h_flags hdr) FLAG_HDR_ROUTE =? 0) then ROUTED_HEADER_SIZE else HEADER_SIZE) with (hdr_sz hdr).
    replace (128 <? hdr_sz hdr + zlen payload) with true by lia. apply utters_refl. }
  rewrite encode_frame by (done || lia). pose proof (zlen_nonneg (frame hdr payload)).
  destruct (Z.ltb_spec (zlen (frame hdr payload)) 0); [lia|]. cbn [default].
  replace (take _ _) with (frame hdr payload) by (symmetry; apply take_zlen_app).
  cbn [w_net on_net on_ds]. apply utters_all; [apply Hw | done | |].
  - split; [|done]. constructor; cbn; try done. apply (so_ids _ Hw).
  - unfold of_session, isAck. by intros (_ & _ & Ha & _).
Qed.
End speaking.

(** ** On the way

    Of all the segments on the links, [all], those of a session come to the other end in
    some order, with copies, cut off, among the others. *)

(** Bytes that begin, or are, a run of frames; a run that has [segs] in order. *)
Definition pieces (all : list segment) (b : bytes) : Prop :=
  exists fs, Forall (fun f => In f (map seg_frame all)) fs /\ b `prefix_of` concat fs.
Definition whole (all segs : list segment) (b : bytes) : Prop :=
  exists fs, Forall (fun f => In f (map seg_frame all)) fs /\ b = concat fs /\ map seg_frame segs `sublist_of` fs.
(** What is written to the sockets that lead onward: frames, if it is [full] all of [segs]
    to each of those that are [good]. *)
Definition bears (full : Prop) (all segs : list segment) (src : list (Z * bytes)) (onward good : Z -> Prop) : Prop :=
  (forall q, onward q -> Forall (fun f => In f (map seg_frame all)) (writes_to q src)) /\
  (full -> forall q, onward q -> good q -> map seg_frame segs `sublist_of` writes_to q src).
(** What comes out of them: beginnings, and on some channel everything. *)
Definition supplied (full : Prop) (all segs : list segment) (fed : Z -> bytes) : Prop :=
  (forall ch, pieces all (fed ch)) /\ (full -> exists ch, whole all segs (fed ch)).

Lemma pieces_more all all' b : (forall hp, In hp all -> In hp all') -> pieces all b -> pieces all' b.
Proof.
  intros Hi (fs & Hfs & Hp). exists fs. split; [|done]. eapply Forall_impl; [exact Hfs|].
  intros f (hp & <- & Hin)%in_map_iff. by apply in_map, Hi.
Qed.
(** Links bring beginnings of what is written to their sockets, one of them all, or
    [others]. *)
Lemma bears_links full all others segs src onward good conn fed : bears full all segs src onward good ->
  (forall ch, (onward (conn ch) /\ fed ch `prefix_of` on_socket (conn ch) src) \/ pieces others (fed ch)) ->
  (full -> exists ch, onward (conn ch) /\ good (conn ch) /\ fed ch = on_socket (conn ch) src) ->
  supplied full (all ++ others) segs fed.
Proof.
  intros [Hon Hgood] Hfed Hall. split.
  - intros ch. destruct (Hfed ch) as [[Ho Hp]|Hp].
    + apply (pieces_more all); [intros; apply in_app_iff; by left|]. exists (writes_to (conn ch) src). split; [by apply Hon | done].
    + apply (pieces_more others); [intros; apply in_app_iff; by right | done].
  - intros Hy. destruct (Hall Hy) as (ch0 & Ho & Hg & Hall0). exists ch0, (writes_to (conn ch0) src).
    split_and!; [|exact Hall0|by apply Hgood]. rewrite map_app.
    eapply Forall_impl; [by apply Hon|]. intros f Hf. apply in_app_iff. by left.
Qed.
(** What has been said on an outlet, in [src]: the frames of [segs], to its socket all of [data]. *)
Lemma uttered_bears k o segs data (h : list segment -> Prop) l src : uttered k segs h o l ->
  (forall g, h g -> ot_full o -> data `sublist_of` g) -> wire_ l = ot_base o ++ src -> exists all, Forall seg_ok all /\
  (forall hp, In hp all -> of_session k hp -> In hp segs) /\
  bears (ot_full o) all data src (fun _ => True) (eq (ot_socket o)).
Proof.
  intros (sg & Hw & Hok & Hin & Hall) Hdata Hsrc. rewrite Hsrc in Hw. apply app_inv_head in Hw. subst src.
  exists (map snd sg). split_and!; [done..|]. split.
  - intros q _. apply List.Forall_forall. intros f. rewrite spoken_on. intros (hp & <- & Hhp)%in_map_iff.
    by apply in_map, (segs_on_In q).
  - intros Hy q _ <-. rewrite spoken_on. apply (fmap_sublist seg_frame). by apply Hdata.
Qed.

(** ** At the other end *)
Section carried.
Context {Hr : Type} {appr : SessionHandler Hr}.
Context {rt : ZdsRuntime} {T : Transport} {sort : StdSort}.
Context (Hmb : forall len, mb_acquire len = true).
(** the session: its sender's configuration, its key, what it is given; a session entered
    by the peer has no SYN *)
Context (c : StreamConfig) (ing sid : Z) (cs : list bytes) (syn : bool).
Context (Hing : is_u32 ing) (Hsid : is_u32 sid) (Hroute : is_u32 (route_outport_id_ c)).
Context (Hcs : Forall (fun p => 0 < zlen p <= MAX_PAYLOAD) cs) (Hn : zlen cs <= 2 ^ 32 - 2 ^ 16).
(** the segments on the way *)
Context (all : list segment) (Hok : Forall seg_ok all).
Context (Hin : forall hp, In hp all -> of_session (ing, sid) hp -> In hp (session_said c (ing, sid) syn cs)).
(** the receiver *)
Context (steps : list (stream_step Hr)).
Context (Hfed : forall ch, pieces all (bytes_on ch steps)).

Lemma carried_good v : good_links (ing, sid) (payload_of cs) (zlen cs) v steps /\
  Forall (full_frame v (ing, sid)) (frame_trace empty steps).
Proof.
  apply (fed_good c) with (all := all); try done. intros hp Hhp Hk.
  specialize (Hin hp Hhp Hk). apply in_app_iff in Hin as [Hs|Hd]; [|by right].
  destruct syn; [|done]. destruct Hs as [<-|[]]. by left.
Qed.

Context (loc ss win : Z) (v cb : bool) (r : Z) (net : Links) (a : Hr).
Context (Hss : 0 <= ss < 2 ^ 16) (Hwin : 0 <= win < 2 ^ 16) (Hbytes : Forall step_bytes steps).
Abbreviation d0 := (if cb then setUnknownSessionCallback (new_stream loc ss win v r) else new_stream loc ss win v r).
Abbreviation wr := (do_steps steps (mkWorld d0 net a [])).

Lemma carried_prefix : exists m, heard (ing, sid) (w_log wr) = take m cs.
Proof.
  destruct (carried_good v) as [Hg _]. pose proof (zlen_nonneg cs).
  destruct (in_order_run_from (ing, sid) (payload_of cs) (zlen cs) d0 v net a steps) as (m & Hm & Hh); try done.
  all: try by destruct cb.
  - destruct cb; [by apply wf_new_cb | by apply wf_new].
  - exists (Z.to_nat m). rewrite Hh. by apply sent_take.
Qed.
Lemma carried_whole ch0 : whole all (data_segs c ing sid 0 cs) (bytes_on ch0 steps) ->
  kept (ing, sid) wr -> heard (ing, sid) (w_log wr) = cs.
Proof.
  intros (fs & Hfs & Heq & Hsub) Hkept. destruct (carried_good v) as [Hg Hf]. pose proof (zlen_nonneg cs).
  transitivity (sent (payload_of cs) (zlen cs)); [|by apply sent_all].
  apply arrival_run; try done. apply (session_arrival c); try done.
  { destruct cb; simpl; destruct (Z.eqb_spec win 0); lia. }
  apply (fed_complete all Hok steps ch0 fs); try done. by apply data_segs_ok.
Qed.
End carried.

(** The chunks of a session are not empty. *)
Lemma zlen_chunks (cs : list bytes) : Forall (fun p => 0 < zlen p <= MAX_PAYLOAD) cs -> zlen cs <= zlen (concat cs).
Proof.
  induction 1 as [|p cs Hp _ IH]; [done|]. cbn [concat]. rewrite zlen_cons, zlen_app. lia.
Qed.
Lemma concat_take_prefix {A} (cs : list (list A)) m : concat (take m cs) `prefix_of` concat cs.
Proof. exists (concat (drop m cs)). by rewrite <- concat_app, take_drop. Qed.
(** Whatever stands in for a chunk that was lost, the segments written are of the session. *)
Lemma voice_instead c k syn m cs x hp : (m < length cs)%nat ->
  In hp (session_voice c k syn m cs) -> In hp (session_said c k syn (take m cs ++ [x] ++ drop (S m) cs)).
Proof.
  intros Hm. unfold session_voice, session_said. rewrite !data_segs_app by (done || apply u32_range). rewrite !in_app_iff.
  intros [[Hin|Hin]|Hin]; [by left | by right; left |]. right. right. right.
  assert (Heq : u32 (u32 (0 + zlen (take m cs)) + zlen [x]) = u32 (Z.of_nat m + 1)); [|by rewrite Heq].
  unfold u32. rewrite Zplus_mod_idemp_l. f_equal. unfold zlen. rewrite length_take. simpl. lia.
Qed.
Lemma take_instead {A} (cs : list A) m x y j j' : x <> y -> (m < length cs)%nat ->
  take j (take m cs ++ [x] ++ drop (S m) cs) = take j' (take m cs ++ [y] ++ drop (S m) cs) ->
  take j (take m cs ++ [x] ++ drop (S m) cs) `prefix_of` take m cs.
Proof.
  intros Hne Hm Heq. assert (Hl : length (take m cs) = m) by (rewrite length_take; lia).
  destruct (Nat.le_gt_cases j m) as [Hj|Hj].
  { rewrite take_app_le by lia. by exists (drop j (take m cs)); rewrite take_drop. }
  exfalso. assert (Hx : take j (take m cs ++ [x] ++ drop (S m) cs) !! m = Some x).
  { rewrite lookup_take_lt by done. rewrite lookup_app_r by lia. by rewrite Hl, Nat.sub_diag. }
  rewrite Heq in Hx. apply lookup_take_Some in Hx as [Hx _]. rewrite lookup_app_r, Hl, Nat.sub_diag in Hx by lia. by injection Hx.
Qed.
Section heard.
Context {Hs Hr : Type} {appr : SessionHandler Hr} {rt : ZdsRuntime} {T : Transport} {sort : StdSort}.
Context (Hmb : forall len, mb_acquire len = true).
Context (k : SessionKey) (Hk : key_ok k) (syn : bool) (o : outlet) (ws : world Hs) (said : bytes) (Hsd : sound ws).
Context (new : list (Z * bytes)) (Hnew : wire_ (w_net ws) = ot_base o ++ new) (Hn : zlen said <= 2 ^ 32 - 2 ^ 16).
Context (steps : list (stream_step Hr)) (Hbytes : Forall step_bytes steps).
Context (loc ss win : Z) (v cb : bool) (r : Z) (net : Links) (a : Hr) (Hss : 0 <= ss < 2 ^ 16) (Hwin : 0 <= win < 2 ^ 16).
Abbreviation d0 := (if cb then setUnknownSessionCallback (new_stream loc ss win v r) else new_stream loc ss win v r).
Abbreviation wr := (do_steps steps (mkWorld d0 net a [])).

(** The other end hears, of what a session has said, the beginning; and if what is written
    on the links arrives - of any segments that it bears, what is fed has all - the whole. *)
Lemma voiced_heard : voiced k syn o said ws -> (ot_full o -> steady o (w_net ws)) ->
  (forall all cs (segs := data_segs (cfg ws) (fst k) (snd k) 0 cs), Forall seg_ok all -> Forall seg_ok segs ->
     bears (ot_full o) all segs new (fun _ => True) (eq (ot_socket o)) -> exists others, Forall (fun hp => seg_ok hp /\ ~ of_session k hp) others /\
     supplied (ot_full o) (all ++ others) segs (fun ch => bytes_on ch steps)) ->
  concat (heard k (w_log wr)) `prefix_of` said /\ (ot_full o -> kept k wr -> concat (heard k (w_log wr)) = said).
Proof.
  intros (cs & m & Hsz & Htot & Hm & Hpre & Hall & _ & Hut) Hst Hway. pose proof (zlen_chunks cs Hsz).
  destruct k as [ing sid]. destruct Hk as [Hing Hsid]. pose proof (so_ids _ Hsd) as [_ Hroute].
  destruct (uttered_bears _ _ _ (data_segs (cfg ws) ing sid 0 cs) _ _ new Hut) as (all & Hok & Hin & Hb); [|exact Hnew|].
  { intros g Hg Hy. by apply (Hg Hy (Hst Hy)). }
  destruct (Hway all cs Hok) as (others & Hoth & Hfed & Hwhole); [|exact Hb|].
  { apply data_segs_ok; try done; lia. }
  assert (Hok' : Forall seg_ok (all ++ others)).
  { apply Forall_app. split; [done|]. eapply Forall_impl; [exact Hoth|]. by intros hp []. }
  assert (Hin' : forall hp, In hp (all ++ others) -> of_session (ing, sid) hp -> In hp (session_voice (cfg ws) (ing, sid) syn m cs)).
  { intros hp [Hi|Hi]%in_app_iff Hks; [by apply Hin|]. rewrite List.Forall_forall in Hoth. by destruct (Hoth hp Hi). }
  destruct (decide (m = length cs)) as [->|Hne].
  - rewrite voice_whole in Hin'. specialize (Hall eq_refl). split.
    + destruct (carried_prefix (cfg ws) ing sid cs syn Hsz ltac:(lia) _ Hok' Hin'
        steps Hfed loc ss win v cb r net a Hss Hwin Hbytes) as (j & ->). rewrite <- Hall. apply concat_take_prefix.
    + intros Hy Hkept. destruct (Hwhole Hy) as (ch0 & Hw0). rewrite <- Hall. f_equal.
      apply (carried_whole Hmb (cfg ws) ing sid cs syn Hing Hsid Hroute Hsz ltac:(lia) _ Hok' Hin'
        steps Hfed loc ss win v cb r net a Hss Hwin Hbytes ch0 Hw0 Hkept).
  - assert (Hlt : (m < length cs)%nat) by lia. split.
    2: { intros Hy. destruct Hut as (g & _ & _ & _ & Hg). by destruct (Hg Hy (Hst Hy)). }
    assert (Hj : forall x : Z, exists j, heard (ing, sid) (w_log wr) = take j (take m cs ++ [[x]] ++ drop (S m) cs)).
    { intros x. apply (carried_prefix (cfg ws) ing sid _ syn) with (all := all ++ others); try done.
      - apply Forall_app. split; [by apply Forall_take|]. constructor; [done | by apply Forall_drop].
      - unfold zlen in *. rewrite !length_app, length_take, length_drop. simpl. lia.
      - intros hp Hi Hks. by apply voice_instead, Hin'. }
    destruct (Hj 0) as (j & Hj0), (Hj 1) as (j' & Hj1). rewrite Hj0.
    destruct (take_instead cs m [0] [1] j j') as [rest Hrest]; [done | done | by rewrite <- Hj0, <- Hj1 |].
    etrans; [|exact Hpre]. apply (f_equal (@concat Z)) in Hrest. rewrite concat_app in Hrest. by exists (concat rest).
Qed.
End heard.
