(* ===== verification/Racing.v ===== *)
(** * Racing: which link is recommended, and what the peer does with it

    Every duplicate is the loser of a race between links and every first copy the
    winner.  The receiver of the data counts races by link, recommends the link with
    the best win rate, and the sender of the data makes it its primary. *)
From Stdlib Require Import SpecFloat.
From S2P Require Import Prelude Proto OMap Floats Segment Pack Channel Selector Links.
From S2P Require Import DataStream.
From S2P Require Import ZdsInstance Testbed StreamFacts Framing StreamWf Sending EndToEnd.

(** ** The best link *)
Definition rate (wins : omap Z) (kv : Z * Z) : double :=
  Double.div (Double.of_Z (default 0 (om_find (fst kv) wins))) (Double.of_Z (snd kv)).

(** [a] is preferred to [b], for pairs of a rate and a number of races. *)
Definition beats (a b : double * Z) : bool :=
  Double.gtb (fst a) (fst b) || (Double.eqb (fst a) (fst b) && (snd b <? snd a)).

Lemma eqb_key x y : is_nan x = false -> is_nan y = false ->
  Double.eqb x y = true <-> key x = key y.
Proof.
  intros Hx Hy. pose proof (SFcompare_key x y Hx Hy) as Hc. unfold Double.eqb, SFeqb.
  destruct (SFcompare x y) as [[]|]; [done | split; [done|] | split; [done|] | done];
    intros He; rewrite He in Hc; by apply key_lt_irrefl in Hc.
Qed.
Lemma beats_key a b : is_nan (fst a) = false -> is_nan (fst b) = false ->
  beats a b = true <->
  key_lt (key (fst b)) (key (fst a)) \/ key (fst a) = key (fst b) /\ snd b < snd a.
Proof.
  intros Ha Hb. unfold beats, Double.gtb. fold (Double.ltb (fst b) (fst a)).
  rewrite orb_true_iff, andb_true_iff, ltb_key, eqb_key, Z.ltb_lt by done. done.
Qed.
Lemma beats_asym a b : is_nan (fst a) = false -> is_nan (fst b) = false ->
  beats a b = true -> beats b a = false.
Proof.
  intros Ha Hb Hab%beats_key; [|done..]. destruct (beats b a) eqn:Hba; [|done].
  apply beats_key in Hba; [|done..].
  destruct Hab as [Hab|[Hk Hab]], Hba as [Hba|[Hk' Hba]]; [| | | lia]; exfalso.
  - by apply (key_lt_irrefl _ (key_lt_trans _ _ _ Hab Hba)).
  - rewrite Hk' in Hab. by apply key_lt_irrefl in Hab.
  - rewrite Hk in Hba. by apply key_lt_irrefl in Hba.
Qed.
Lemma beats_irrefl a : is_nan (fst a) = false -> beats a a = false.
Proof.
  intros Ha. destruct (beats a a) eqn:Hb; [|done]. by rewrite (beats_asym a a Ha Ha Hb) in Hb.
Qed.
(** Not being beaten is transitive. *)
Lemma beats_false_trans a b c : is_nan (fst a) = false -> is_nan (fst b) = false ->
  is_nan (fst c) = false -> beats b a = false -> beats c b = false -> beats c a = false.
Proof.
  intros Ha Hb Hc Hba Hcb. destruct (beats c a) eqn:Hca; [|done].
  apply beats_key in Hca; [|done..].
  assert (Hn : ~ (key_lt (key (fst a)) (key (fst b)) \/ key (fst b) = key (fst a) /\ snd a < snd b))
    by (rewrite <- beats_key by done; congruence).
  assert (Hm : ~ (key_lt (key (fst b)) (key (fst c)) \/ key (fst c) = key (fst b) /\ snd b < snd c))
    by (rewrite <- beats_key by done; congruence).
  destruct (key_lt_total (key (fst a)) (key (fst b))) as [|[Hab|Hab]]; [tauto | |];
    destruct (key_lt_total (key (fst b)) (key (fst c))) as [|[Hbc|Hbc]]; try tauto.
  - rewrite Hab, Hbc in *. destruct Hca as [Hca|[_ Hca]]; [by apply key_lt_irrefl in Hca|].
    destruct (decide (snd a < snd b)); [tauto|]. destruct (decide (snd b < snd c)); [tauto | lia].
  - rewrite <- Hab in Hbc. destruct Hca as [Hca|[Hca _]].
    + by apply key_lt_irrefl in Hca || destruct (key_lt_irrefl _ (key_lt_trans _ _ _ Hca Hbc)).
    + rewrite Hca in Hbc. by apply key_lt_irrefl in Hbc.
  - rewrite Hbc in Hab. destruct Hca as [Hca|[Hca _]].
    + by destruct (key_lt_irrefl _ (key_lt_trans _ _ _ Hca Hab)).
    + rewrite Hca in Hab. by apply key_lt_irrefl in Hab.
  - pose proof (key_lt_trans _ _ _ Hbc Hab) as Hac. destruct Hca as [Hca|[Hca _]].
    + by destruct (key_lt_irrefl _ (key_lt_trans _ _ _ Hca Hac)).
    + rewrite Hca in Hac. by apply key_lt_irrefl in Hac.
Qed.

Section pick.
Context (wins : omap Z).
Implicit Types (best : Z * Z * double) (kv : Z * Z).
Definition val kv : double * Z := (rate wins kv, snd kv).
Definition val_of best : double * Z := (snd best, snd (fst best)).
Definition entry kv : Z * Z * double := (kv, rate wins kv).

Context (Hwins : forall k v, om_find k wins = Some v -> 0 <= v < 2 ^ 32).

Lemma rate_nonneg kv : 0 < snd kv < 2 ^ 32 -> nonneg (rate wins kv) = true.
Proof.
  intros Hp. unfold rate. destruct (of_Z_finite (snd kv) Hp) as (q & e & -> & _).
  apply div_nonneg. apply of_Z_nonneg. destruct (om_find (fst kv) wins) as [v|] eqn:Hv; simpl; [|lia].
  by apply (Hwins (fst kv)).
Qed.

Lemma pick_step_eq best kv : pick_step wins best kv =
  if snd kv =? 0 then best else if beats (val kv) (val_of best) then entry kv else best.
Proof. by destruct best as [[b p] r], kv as [i q]. Qed.

Lemma pick_fold l : forall best, is_nan (snd best) = false -> Forall (fun kv => 0 <= snd kv < 2 ^ 32) l ->
  let r := fold_left (pick_step wins) l best in
  is_nan (snd r) = false /\
  (r = best \/ exists kv, In kv l /\ snd kv <> 0 /\ r = entry kv) /\
  beats (val_of best) (val_of r) = false /\
  (forall kv, In kv l -> snd kv <> 0 -> beats (val kv) (val_of r) = false).
Proof.
  induction l as [|kv l IH]; intros best Hn Hall r.
  - split_and!; [done | by left | by apply beats_irrefl | done].
  - inversion Hall as [|? ? Hkv Hall']; subst.
    assert (Hnext : exists b1, pick_step wins best kv = b1 /\ is_nan (snd b1) = false /\
      (b1 = best \/ b1 = entry kv /\ snd kv <> 0) /\ beats (val_of best) (val_of b1) = false /\
      (snd kv <> 0 -> beats (val kv) (val_of b1) = false /\ is_nan (rate wins kv) = false)).
    { rewrite pick_step_eq. pose proof (beats_irrefl (val_of best) Hn) as Hbb.
      destruct (Z.eqb_spec (snd kv) 0) as [Hz|Hz]; [exists best; by split_and!; auto|].
      assert (Hr : is_nan (rate wins kv) = false) by (apply nonneg_not_nan, rate_nonneg; lia).
      destruct (beats (val kv) (val_of best)) eqn:Hb; eexists; (split_and!; [reflexivity|..]); auto.
      - by apply beats_asym.
      - intros _. split; [|done]. change (val_of (entry kv)) with (val kv).
        by apply beats_irrefl. }
    destruct Hnext as (b1 & Hb1 & Hn1 & Hc1 & Hle1 & Hkv1).
    unfold r. cbn [fold_left]. rewrite Hb1. destruct (IH b1 Hn1 Hall') as (Hr & Hc & Hle & Hmax).
    set (r1 := fold_left (pick_step wins) l b1) in *. split_and!; [done | | |].
    + destruct Hc as [->|(kv' & Hin & Hz & ->)]; [|right; exists kv'; by split; [right|]].
      destruct Hc1 as [->|[-> Hz]]; [by left | right; exists kv; by split; [left|]].
    + eapply beats_false_trans; [| | | exact Hle | exact Hle1]; done.
    + intros kv' [<-|Hin] Hz; [|by apply Hmax]. destruct (Hkv1 Hz) as [Hk1 Hk2].
      eapply beats_false_trans; [| | | exact Hle | exact Hk1]; done.
Qed.
End pick.

(** ** The counts of a reachable stream *)
Definition count (k : Z) (m : omap Z) : Z := default 0 (om_find k m).
Record race_wf (n : Z) (d : DataStream) : Prop := {
  rw_wins : om_ok (peer_win_count_ d);
  rw_parts : om_ok (peer_part_count_ d);
  rw_ids : ~ In 0 (om_keys (peer_part_count_ d));
  rw_counts : forall k, 0 <= count k (peer_win_count_ d) <= count k (peer_part_count_ d) /\
                        count k (peer_part_count_ d) <= n }.

Lemma race_wf_le n n' d : n <= n' -> race_wf n d -> race_wf n' d.
Proof. intros Hle [? ? ? Hc]. constructor; try done. intros k. specialize (Hc k). lia. Qed.
Lemma race_wf_same n d d' : peer_win_count_ d' = peer_win_count_ d ->
  peer_part_count_ d' = peer_part_count_ d -> race_wf n d -> race_wf n d'.
Proof. intros Hw Hp [? ? ? ?]. constructor; rewrite ?Hw, ?Hp; auto. Qed.
Lemma race_wf_empty n d : 0 <= n -> peer_win_count_ d = [] -> peer_part_count_ d = [] -> race_wf n d.
Proof. intros Hn Hw Hp. constructor; rewrite ?Hw, ?Hp; try apply om_ok_nil; [by intros [] |]. intros k. unfold count. simpl. lia. Qed.

Lemma count_bump k j m : 0 <= count j m < 2 ^ 32 - 1 ->
  count k (bump j m) = count k m + (if k =? j then 1 else 0).
Proof.
  intros Hj. unfold count, bump. destruct (Z.eqb_spec k j) as [->|Hne].
  - rewrite om_find_insert_eq. simpl. unfold count in Hj. apply u32_small. unfold is_u32. lia.
  - rewrite om_find_insert_ne by done. lia.
Qed.
Lemma count_halve k m : count k (halve m) = Z.shiftr (count k m) 1.
Proof.
  unfold count, halve. induction m as [|[j v] m IH]; simpl; [done|]. by destruct (k =? j).
Qed.
Lemma halve_keys m : om_keys (halve m) = om_keys m.
Proof. unfold om_keys, halve. by rewrite map_map. Qed.
Lemma bump_ok j m : om_ok m -> om_ok (bump j m).
Proof. apply om_ok_insert. Qed.

Lemma race_wf_win n pc d : n < 2 ^ 32 - 1 -> race_wf n d ->
  race_wf (n + 1) (if pc =? 0 then d else set_counts (bump pc (peer_win_count_ d)) (bump pc (peer_part_count_ d)) d).
Proof.
  intros Hn Hr. destruct (Z.eqb_spec pc 0) as [->|Hpc]; [eapply race_wf_le; [|exact Hr]; lia|].
  destruct Hr as [Hw Hp Hi Hc]. constructor; simpl; [by apply bump_ok | by apply bump_ok | |].
  - unfold bump. rewrite om_keys_insert. intros [|]; [by subst | done].
  - intros k. pose proof (Hc k). pose proof (Hc pc). rewrite !count_bump by lia. destruct (k =? pc); lia.
Qed.
Lemma race_wf_loss n pc d : n < 2 ^ 32 - 1 -> race_wf n d ->
  race_wf (n + 1) (if pc =? 0 then d else set_counts (peer_win_count_ d) (bump pc (peer_part_count_ d)) d).
Proof.
  intros Hn Hr. destruct (Z.eqb_spec pc 0) as [->|Hpc]; [eapply race_wf_le; [|exact Hr]; lia|].
  destruct Hr as [Hw Hp Hi Hc]. constructor; simpl; [done | by apply bump_ok | |].
  - unfold bump. rewrite om_keys_insert. intros [|]; [by subst | done].
  - intros k. pose proof (Hc k). pose proof (Hc pc). rewrite count_bump by lia. destruct (k =? pc); lia.
Qed.
Lemma race_wf_halve n d e a g : 0 <= n -> race_wf n d ->
  race_wf n (set_epochs e a g (set_counts (halve (peer_win_count_ d)) (halve (peer_part_count_ d)) d)).
Proof.
  intros Hn [Hw Hp Hi Hc]. constructor; simpl.
  - unfold om_ok. rewrite halve_keys. exact Hw.
  - unfold om_ok. rewrite halve_keys. exact Hp.
  - rewrite halve_keys. exact Hi.
  - intros k. rewrite !count_halve, !Z.shiftr_div_pow2 by lia. change (2 ^ 1) with 2.
    pose proof (Hc k). Z.div_mod_to_equations. lia.
Qed.

Section races.
Context {H : Type} {app : SessionHandler H}.
Context {rt : ZdsRuntime} {T : Transport} {sort : StdSort}.
Implicit Types (w : world H).

Lemma race_ds_sess n w w' : ds_sess w w' -> race_wf n (w_ds w) -> race_wf n (w_ds w').
Proof. intros [s Hs]. apply race_wf_same; by rewrite Hs. Qed.

Lemma race_on_frame n ch hdr hr f w : 0 <= n < 2 ^ 32 - 1 -> race_wf n (w_ds w) ->
  race_wf (n + 1) (w_ds (on_frame ch hdr hr f w)).
Proof.
  intros Hn Hr. assert (Hr1 : race_wf (n + 1) (w_ds w)) by (eapply race_wf_le; [|exact Hr]; lia).
  unfold on_frame. destruct (_ && _); [done|]. set (p := take _ _).
  set (w1 := on_net _ w). change (w_ds w) with (w_ds w1) in Hr, Hr1. clearbody w1.
  destruct (isHello hdr); [|destruct (isHeartbeat hdr); [done|]; destruct (isAck hdr)].
  - unfold on_hello. destruct (zds_unpack_FgwHello p true) as [len hello].
    destruct (len <? 0); [done|]. destruct (negb _); [done|]. destruct (_ && _); [|done].
    apply race_wf_empty; [lia | done | done].
  - unfold on_ack. destruct (zds_unpack_FgwLinkFeedback p true) as [len fb].
    destruct (_ && _); [|done]. destruct (negb _); by apply (race_wf_same _ (w_ds w1)).
  - unfold on_segment. destruct (decide _); [apply race_wf_loss; [lia | done]|].
    destruct (_ && _); [done|]. eapply race_ds_sess; [apply grows_dispatch|].
    unfold count_win. cbn [w_ds on_ds]. set (d := record_dedup _ _).
    apply race_wf_win; [lia|]. destruct (record_dedup_shape (dedup_key hdr) (w_ds w1)) as (q & m & Hq).
    unfold d. rewrite Hq. by apply (race_wf_same n (w_ds w1)).
Qed.

Lemma race_feedback n w : 0 <= n -> race_wf n (w_ds w) -> race_wf n (w_ds (emitFeedback w)).
Proof.
  intros Hn Hr. unfold emitFeedback. destruct (peer_part_count_ (w_ds w)) as [|kv l] eqn:Hp; [done|].
  clear Hp kv l. set (d' := set_counts (halve (peer_win_count_ (w_ds w))) (halve (peer_part_count_ (w_ds w))) (w_ds w)).
  assert (Hd : forall e a g, race_wf n (set_epochs e a g d')) by (intros; by apply race_wf_halve).
  assert (Hd' : race_wf n d') by (exact (Hd (feedback_epoch_ d') (applied_epoch_ d') (peer_generation_ d'))).
  destruct (_ =? 0); [exact Hd'|].
  destruct (zds_pack_FgwLinkFeedback _ _ _) as [plen payload].
  destruct (plen <? 0); [apply Hd|]. destruct (fgwSegmentEncode _ _ _ _ _) as [wrote out].
  destruct (wrote <? 0); apply Hd.
Qed.

(** Every reachable stream. *)
Lemma race_reachable steps w tr : race_wf 0 (w_ds w) -> tr = frame_trace (scratch_ (w_ds w)) steps ->
  zlen tr < 2 ^ 32 - 1 -> Forall step_bytes steps ->
  (forall ch b, scratch_ (w_ds w) !! ch = Some b -> Forall is_byte b) ->
  race_wf (zlen tr) (w_ds (do_steps steps w)).
Proof.
  intros Hr Htr Hlen Hb Hscr.
  set (I := fun (past : list frame_in) (w : world H) => race_wf (zlen past) (w_ds w) /\
    forall ch b, scratch_ (w_ds w) !! ch = Some b -> Forall is_byte b).
  apply (trace_ind I (fun _ => True) tr) with (past := []); unfold I.
  - by intros past w' [_ Hs].
  - intros ch past f rest w' Heq _ _ [Hi Hs]. split.
    + rewrite zlen_app. apply race_on_frame; [|done]. pose proof (zlen_nonneg past).
      assert (zlen past < zlen tr) by (rewrite Heq, zlen_app, zlen_cons; pose proof (zlen_nonneg rest); lia). lia.
    + intros c b. unfold on_frame_in.
      destruct (io_on_frame ch (f_hdr f) (f_hr f) (f_bytes f) w') as (_ & -> & _). apply Hs.
  - intros past w' ch r [Hi Hs] Hrb _. split; [by apply (race_wf_same _ (w_ds w'))|].
    intros c b. simpl. rewrite lookup_insert_Some. intros [[_ <-]|[_ Hc]]; [done | by eapply Hs].
  - intros past w' s _ Hnb [Hi Hs]. split.
    + destruct s as [ch buf|sid h|f|]; [by destruct (Hnb ch buf) | | |].
      * eapply race_ds_sess; [by apply (grows_step (StOpen sid h)) | done].
      * eapply race_ds_sess; [by apply (grows_step (StEnv f)) | done].
      * apply race_feedback; [apply zlen_nonneg | done].
    + destruct (dd_step s w' Hnb) as [(_ & -> & _) _]. exact Hs.
  - by rewrite Htr.
  - apply List.Forall_forall. intros s Hs. split; [done|]. rewrite List.Forall_forall in Hb. by apply Hb.
  - by split.
Qed.
End races.

Lemma race_wf_new loc ss win v r : race_wf 0 (new_stream loc ss win v r).
Proof. by apply race_wf_empty. Qed.

Lemma recommended_spec n d : n < 2 ^ 32 -> race_wf n d ->
  let b := recommendedPrimary d in
  let parts := peer_part_count_ d in
  (b = 0 <-> forall k, count k parts = 0) /\
  (b <> 0 -> In (b, count b parts) parts /\ 0 < count b parts /\
    forall k, 0 < count k parts ->
      beats (val (peer_win_count_ d) (k, count k parts)) (val (peer_win_count_ d) (b, count b parts)) = false).
Proof.
  intros Hn [Hw Hp Hi Hc] b parts. set (wins := peer_win_count_ d) in *. fold parts in Hp, Hi, Hc.
  assert (Hwr : forall k v, om_find k wins = Some v -> 0 <= v < 2 ^ 32).
  { intros k v Hv. pose proof (Hc k) as Hk. unfold count in Hk. rewrite Hv in Hk. simpl in Hk. lia. }
  assert (Hentry : forall k v, In (k, v) parts -> v = count k parts).
  { intros k v Hin. unfold count. by rewrite (om_find_ok_In k v parts Hp Hin). }
  assert (Hcount : forall k, 0 < count k parts -> In (k, count k parts) parts).
  { intros k Hk. unfold count in *. destruct (om_find k parts) as [v|] eqn:Hv; [|simpl in Hk; lia].
    by apply om_find_In. }
  set (init := (0, 0, Double.opp (Double.of_Z 1)) : Z * Z * double).
  destruct (pick_fold wins Hwr parts init) as (_ & Hcase & _ & Hmax).
  { done. }
  { apply List.Forall_forall. intros [k v] Hin. rewrite (Hentry k v Hin). simpl. pose proof (Hc k). lia. }
  change (fold_left (pick_step wins) parts init) with (fold_left (pick_step wins) parts init) in *.
  set (r := fold_left (pick_step wins) parts init) in *. assert (Hb : b = fst (fst r)) by done.
  destruct Hcase as [Hr|(kv & Hin & Hz & Hr)].
  - assert (Hzero : forall k, count k parts = 0).
    { intros k. destruct (decide (count k parts = 0)) as [|Hne]; [done|]. exfalso. pose proof (Hc k).
      assert (Hin : In (k, count k parts) parts) by (apply Hcount; lia).
      specialize (Hmax _ Hin Hne). rewrite Hr in Hmax. unfold beats in Hmax. cbn [val val_of init fst snd] in Hmax.
      rewrite minus_one_lt in Hmax; [done|]. apply rate_nonneg; [done | simpl; lia]. }
    rewrite Hr in Hb. split; [done|]. by intros.
  - destruct kv as [k v]. rewrite Hr in Hb. cbn [entry fst] in Hb. pose proof (Hentry k v Hin) as ->.
    cbn [snd] in Hz. pose proof (Hc k) as Hk. rewrite Hb.
    assert (Hkey : k <> 0) by (intros ->; apply Hi; by apply (in_map fst) in Hin).
    split; [split; [done | intros Hall; by rewrite Hall in Hz]|]. intros _. split_and!; [done | lia |].
    intros j Hj. specialize (Hmax (j, count j parts) (Hcount j Hj)). rewrite Hr in Hmax.
    apply Hmax. simpl. lia.
Qed.

(** ** Properties *)


(** ** Feedback *)
Section feedback.
Context {rt : ZdsRuntime} {laws : ZdsLaws rt} {T : Transport} {sort : StdSort}.
Context (Hmb : forall len, mb_acquire len = true).

Lemma send_all_wire buf as_ : forall l, links_sane l -> incl as_ (liveChannels l) -> 0 < zlen buf ->
  sim l (send_all buf as_ l) /\
  wire_ (send_all buf as_ l) = wire_ l ++ map (fun a => (default 0 (tcp_ptr_ (chan l a)), buf)) as_.
Proof.
  induction as_ as [|a as_ IH]; intros l Hs Hin Hb; [simpl; by rewrite app_nil_r|].
  destruct (send_on_live Hmb a buf l Hs) as (ret & l1 & Heq & Hsim & Hw & _); [apply Hin; by left | done|].
  cbn [send_all]. rewrite Heq. cbn [snd].
  destruct (IH l1) as [Hsim' Hw'].
  - by eapply sim_sane.
  - intros x Hx. rewrite (sim_live _ _ Hsim). apply Hin. by right.
  - done.
  - split; [by etrans|]. rewrite Hw', Hw, <- app_assoc. simpl. do 2 f_equal.
    apply map_ext. intros x. by destruct (sim_chan _ _ x Hsim) as [_ _ _ -> _].
Qed.

Definition feedback_hdr (ing plen : Z) : FgwSegmentHeader :=
  mkHdr MAGIC FLAG_ACK (u16 plen) 0 0 ing 0 0.

(** The frame a feedback message travels in, at the peer. *)
Lemma on_feedback_frame {H} {app : SessionHandler H} ing plen pl fb ch (w : world H) :
  is_u32 ing -> wf_FgwLinkFeedback fb -> plen <= MAX_PAYLOAD ->
  zds_pack_FgwLinkFeedback (Some 64) fb true = (plen, pl) -> 0 <= plen ->
  default [] (scratch_ (w_ds w) !! ch) = [] ->
  onChannelBytes ch (frame (feedback_hdr ing plen) pl) w =
  on_ds (fun d => set_scratch (<[ch := []]> (scratch_ d)) d)
    (on_ack pl (on_net (upd_chan ch noteSegmentRecv) w)) /\
  zds_unpack_FgwLinkFeedback pl true = (plen, fb).
Proof.
  intros Hing Hfb Hmax Hpack Hp Hscr.
  destruct (codec_FgwLinkFeedback fb Hfb (Some 64) plen pl Hpack Hp) as [Hl Hun].
  specialize (Hun []). rewrite app_nil_r in Hun. split; [|done].
  rewrite onChannelBytes_split, Hscr. set (h := feedback_hdr ing plen).
  assert (Hok : seg_ok (h, pl)).
  { split; [|simpl; lia]. by constructor. }
  pose proof (split_segs [(h, pl)]) as Hsp. cbn [map concat] in Hsp. rewrite app_nil_r in Hsp.
  change ([] ++ frame h pl) with (seg_frame (h, pl)). rewrite Hsp by (by constructor).
  cbn [map fst snd default]. unfold on_frames. cbn [fold_left]. unfold on_frame_in, seg_in, seg_frame.
  cbn [f_hdr f_hr f_bytes fst snd]. unfold on_frame.
  pose proof (verify_frame h pl []) as Hv. rewrite app_nil_r in Hv. rewrite Hv, andb_false_r.
  pose proof (frame_payload h pl []) as Hpay. rewrite !app_nil_r in Hpay. rewrite Hpay.
  cbn [h_payload_len frame_hdr]. unfold zlen. rewrite Nat2Z.id, firstn_all. done.
Qed.
End feedback.

(** C28. The feedback loop.  The receiver of the data writes one frame to every live
    link, numbers its decision and halves its counts; the sender of the data, getting that
    frame whole on any channel, adopts the recommendation exactly when its decision epoch
    is newer than the last one applied, and remembers the newer epoch.  Nothing else of
    either stream changes - sessions, duplicate table, counts, generation - and of the
    peer's links only the primary and the segment counter of the channel.  From then on
    the peer's selections start with the recommended link while that is live. *)
Theorem feedback_loop {H H' : Type} {app : SessionHandler H} {app' : SessionHandler H'}
    {rt : ZdsRuntime} {laws : ZdsLaws rt} {T : Transport} {sort : StdSort}
    (w : world H) (wp : world H') (ch plen : Z) (pl : bytes)
    (best := recommendedPrimary (w_ds w)) (epoch := feedback_epoch_ (w_ds w) +u32 1)
    (Hmb : forall len, mb_acquire len = true) (Hbest : best <> 0) (Hb32 : is_u32 best)
    (Hing : is_u32 (local_ingress_id_ (cfg w))) (Hsane : links_sane (w_net w))
    (Hpack : zds_pack_FgwLinkFeedback (Some 64) (mkFgwLinkFeedback epoch best 0 0) true = (plen, pl))
    (Hplen : 0 <= plen <= 64) (Hscr : default [] (scratch_ (w_ds wp) !! ch) = []) :
  let d := w_ds w in let dp := w_ds wp in let s := selector_ (w_net wp) in
  (w_ds (emitFeedback w) = set_epochs epoch (applied_epoch_ d) (peer_generation_ d)
     (set_counts (halve (peer_win_count_ d)) (halve (peer_part_count_ d)) d) /\
   w_app (emitFeedback w) = w_app w /\ w_log (emitFeedback w) = w_log w) /\
  exists F, wire_ (w_net (emitFeedback w)) = wire_ (w_net w) ++
      map (fun a => (default 0 (tcp_ptr_ (chan (w_net w) a)), F)) (liveChannels (w_net w)) /\
    let wp' := onChannelBytes ch F wp in
    let s' := selector_ (w_net wp') in
    let fresh := applied_epoch_ dp <? epoch in
    wp' = mkWorld
      (set_epochs (feedback_epoch_ dp) (Z.max (applied_epoch_ dp) epoch) (peer_generation_ dp)
        (set_scratch (<[ch := []]> (scratch_ dp)) dp))
      (set_selector (if fresh then setPrimaryChannel best s else s) (upd_chan ch noteSegmentRecv (w_net wp)))
      (w_app wp) (w_log wp) /\
    (fresh = true -> forall pool, mode_ s' <> ZFGW_MULTIPATH_BEST -> mode_ s' <> ZFGW_MULTIPATH_ALL ->
       In best (live_ids pool) -> exists rest, fst (select pool s') = best :: rest).
Proof.
  set (fb := mkFgwLinkFeedback epoch best 0 0) in *.
  assert (Hfb : wf_FgwLinkFeedback fb) by (split_and!; try done; apply u32_range).
  destruct (codec_FgwLinkFeedback fb Hfb (Some 64) plen pl Hpack ltac:(lia)) as [Hl _].
  set (h := feedback_hdr (local_ingress_id_ (cfg w)) plen). intros d dp s.
  assert (Hemit : emitFeedback w = on_net (fun net => send_all (frame h pl) (liveChannels net) net)
    (on_ds (fun _ => set_epochs epoch (applied_epoch_ d) (peer_generation_ d)
      (set_counts (halve (peer_win_count_ d)) (halve (peer_part_count_ d)) d)) w)).
  { unfold emitFeedback. change (pickPrimaryLocked (w_ds w)) with best.
    destruct (peer_part_count_ (w_ds w)) as [|kv l] eqn:Hpc.
    { destruct Hbest. unfold best, recommendedPrimary, pickPrimaryLocked. by rewrite Hpc. }
    destruct (Z.eqb_spec best 0); [done|]. cbn [w_ds on_ds feedback_epoch_ set_counts].
    fold epoch fb. rewrite Hpack. destruct (Z.ltb_spec plen 0); [lia|].
    change (mkHdr MAGIC FLAG_ACK _ _ _ _ _ _) with h.
    assert (Hroom : 128 <= zlen (repeat 0 128)) by (by vm_compute).
    rewrite Hl, encode_frame by (unfold MAX_PAYLOAD; change (hdr_sz h) with 20; lia).
    pose proof (zlen_nonneg (frame h pl)). destruct (Z.ltb_spec (zlen (frame h pl)) 0); [lia|].
    by replace (take _ _) with (frame h pl) by (symmetry; apply take_zlen_app). }
  rewrite Hemit. split; [done|]. exists (frame h pl). split.
  - refine (proj2 (send_all_wire Hmb _ _ _ Hsane (incl_refl _) _)).
    rewrite frame_len. change (hdr_sz h) with 20. pose proof (zlen_nonneg pl). lia.
  - destruct (on_feedback_frame (local_ingress_id_ (cfg w)) plen pl fb ch wp) as [Hon Hun];
      try done; [unfold MAX_PAYLOAD; lia | lia |].
    fold h in Hon. cbv zeta. rewrite Hon. unfold on_ack. rewrite Hun.
    unfold s, dp. cbn [w_ds w_net w_app w_log on_ds on_net]. destruct (Z.leb_spec 0 plen); [|lia].
    change (fb_decision_epoch fb) with epoch. change (fb_recommended_primary fb) with best.
    destruct (Z.ltb_spec (applied_epoch_ (w_ds wp)) epoch) as [Hlt|Hge]; simpl.
    + destruct (Z.eqb_spec best 0); [done|]. rewrite Z.max_r by lia. simpl. split; [done|].
      intros _ pool Hmb' Hma Hin. by apply (select_primary pool).
    + rewrite Z.max_l by lia. split; [|done]. by destruct wp as [[] [] ? ?].
Qed.

(** *** Link 2 of the peer wins twice, and the peer follows *)
Definition test_racer : world unit :=
  on_ds (set_counts [(2, 2)] [(1, 2); (2, 2)]) (mkWorld (new_stream 3 0 0 true 0) (test_net 0) tt []).

Lemma feedback_loop_witness : exists F,
  let wp' := onChannelBytes (app := listener) 11 F (test_sender 0) in
  primary_channel_id_ (selector_ (w_net wp')) = 2 /\ applied_epoch_ (w_ds wp') = 1 /\
  dedup_map_ (w_ds wp') = dedup_map_ (w_ds (test_sender 0)).
Proof.
  destruct (feedback_loop (rt := tlv_runtime) (app := listener) (app' := listener) test_racer (test_sender 0) 11
    (fst (zds_pack_FgwLinkFeedback (Some 64) (mkFgwLinkFeedback 1 2 0 0) true))
    (snd (zds_pack_FgwLinkFeedback (Some 64) (mkFgwLinkFeedback 1 2 0 0) true)))
    as (_ & F & _ & Hp & _).
  - done.
  - by vm_compute.
  - by vm_compute.
  - by vm_compute.
  - apply test_sane.
  - by vm_compute.
  - by vm_compute.
  - reflexivity.
  - exists F. cbv zeta. rewrite Hp. by vm_compute.
Defined.

