(* ===== verification/Hazards.v ===== *)
(** * Hazards: where the session contract ends

    The reassembly contract assumes a session of fewer than [2^32] segments that is
    not closed while data is in flight.  Outside of that the code loses data: a
    receive buffer that straddles the wrap of the sequence numbers never drains
    again, and a FIN that overtakes data cuts the session short. *)
From S2P Require Import Prelude Proto OMap Segment Pack Channel Selector Links DataStream.
From S2P Require Import Testbed StreamFacts Framing StreamWf Reassembly Completeness.

Section hazards.
Context {H : Type} {app : SessionHandler H}.
Context {rt : ZdsRuntime} {T : Transport} {sort : StdSort}.
Context (k : SessionKey).
Context (Hmb : forall len, mb_acquire len = true).
Implicit Types (w : world H).

(** ** A buffer that cannot drain *)

(** Since the log was [B] the session has been handed nothing, and unless it has been
    closed, the first segment in its buffer is not the expected one and never will be: it
    is before it, while segments enter at or after it. *)
Definition blocked w : Prop :=
  exists st, rx_of k w = Some st /\ exists j, In j (om_keys (rx_buffer st)) /\ j < expected_rx_seq st.
Definition stuck (B : list upcall) w : Prop :=
  stream_wf w /\ exists l, w_log w = B ++ l /\ heard k l = [] /\ (Gone k ∈ l \/ blocked w).

Lemma stuck_aside B w w' : stream_wf w' -> aside k w w' -> stuck B w -> stuck B w'.
Proof.
  intros Hwf (m & Hm & Hd & Hr) (_ & l & Hl & Hh & Hb). split; [done|]. exists (l ++ m).
  split; [by rewrite Hm, Hl, app_assoc|]. split.
  - rewrite heard_app, Hh. destruct (decide _); [done|]. pose proof (heard_prefix k m) as Hp.
    rewrite Hd in Hp. by apply prefix_nil_inv in Hp.
  - destruct Hb as [?|Hb]; [set_solver|]. destruct Hr as [Hr|]; [right | set_solver].
    unfold blocked. by rewrite Hr.
Qed.
Lemma stuck_ext B w w' : stream_wf w' -> rx_of k w' = rx_of k w -> w_log w' = w_log w ->
  stuck B w -> stuck B w'.
Proof. intros Hwf Hr Hl. apply stuck_aside; [done | by apply aside_eq]. Qed.
(** Nothing counts once the session has been closed. *)
Lemma stuck_over B w w' : stream_wf w' -> log_grows w w' -> ~ blocked w -> stuck B w -> stuck B w'.
Proof.
  intros Hwf [m Hm] Hnb (_ & l & Hl & Hh & [Hg|?]); [|done]. split; [done|]. exists (l ++ m).
  split_and!; [by rewrite Hm, Hl, app_assoc | by rewrite heard_app, decide_True | set_solver].
Qed.

Lemma take_run_stuck e b j : om_ok b -> In j (om_keys b) -> j < e -> take_run e b = ([], e, b).
Proof.
  intros Hok Hin Hj. destruct b as [|[i x] b]; [done|]. simpl.
  destruct (Z.eqb_spec i e) as [->|]; [|done]. destruct Hin as [Hij|Hin]; [simpl in Hij; lia|].
  pose proof (om_head_least _ _ _ _ Hok Hin). lia.
Qed.

Lemma deliver_stuck st w j : find_session k w = Some st -> om_ok (rx_buffer st) ->
  In j (om_keys (rx_buffer st)) -> j < expected_rx_seq st ->
  deliverInOrder k st w = w \/ deliverInOrder k st w = put_session k st w.
Proof.
  intros Hf Hok Hj Hlt. unfold deliverInOrder. destruct (handler st); [|by left].
  rewrite (take_run_stuck _ _ j) by done. right. cbn [deliver_all]. by destruct st.
Qed.

Lemma om_keys_emplace j seq (v : bytes) (b : omap bytes) :
  In j (om_keys b) -> In j (om_keys (om_emplace seq v b)).
Proof.
  intros Hj. unfold om_emplace. destruct (om_find seq b); [done|]. apply om_keys_insert. by right.
Qed.

(** A segment of the session, when it or a buffered one is before the expected one. *)
Lemma on_data_blocked seq p w st : is_u32 seq -> out_of_window k seq w = false -> stream_wf w ->
  find_session k w = Some st ->
  (exists j, In j (om_keys (om_emplace seq p (rx_buffer st))) /\ j < expected_rx_seq st) ->
  blocked (on_data k seq p w) /\ w_log (on_data k seq p w) = w_log w.
Proof.
  intros Hu Hwin Hwf Hf (j & Hj & Hlt). destruct (wf_find _ _ _ Hwf Hf) as [Hid _ _ Hok _].
  unfold on_data, ensure_session. rewrite Hf, Hf, Hmb. set (st' := set_rx _ _ st).
  destruct (deliver_stuck st' (put_session k st' w) j) as [-> | ->];
    [apply find_put_eq | by apply om_ok_emplace | done | done | |];
    (split; [|done]; exists (rx_view st'); split; [unfold rx_of; by rewrite find_put_eq | by exists j]).
Qed.
Lemma blocked_dec w : blocked w \/ ~ blocked w.
Proof.
  unfold blocked. destruct (rx_of k w) as [st|]; [|right; by intros (? & ? & _)].
  destruct (decide (Exists (fun j => j < expected_rx_seq st) (om_keys (rx_buffer st)))) as [He|He].
  - left. exists st. split; [done|]. apply Exists_exists in He as (j & Hj & ?). exists j.
    split; [by apply list_elem_of_In | done].
  - right. intros (? & [= <-] & j & Hj & ?). apply He, Exists_exists. exists j.
    split; [by apply list_elem_of_In | done].
Qed.
Lemma stuck_on_data B seq p w : is_u32 seq -> out_of_window k seq w = false ->
  stuck B w -> stuck B (on_data k seq p w).
Proof.
  intros Hu Hwin Hw. pose proof Hw as [Hwf _]. pose proof (wf_on_data k seq p w Hwf Hu Hwin) as Hwf'.
  destruct (blocked_dec w) as [(st & Hrx & j & Hj & Hlt)|Hn]; [|by eapply stuck_over; [| apply grows_on_data | |]].
  unfold rx_of in Hrx. destruct (find_session k w) as [st0|] eqn:Hf; [|done]. injection Hrx as <-. simpl in Hj, Hlt.
  destruct (on_data_blocked seq p w st0 Hu Hwin Hwf Hf) as [Hb Hl].
  { exists j. split; [by apply om_keys_emplace | done]. }
  destruct Hw as (_ & l & Hlw & Hh & _). split; [done|]. exists l. split_and!; [by rewrite Hl | done | by right].
Qed.

Lemma stuck_on_syn B w : stuck B w -> stuck B (on_syn k w).
Proof.
  intros Hw. pose proof Hw as [Hwf _]. pose proof (wf_on_syn k w Hwf) as Hwf'.
  destruct (blocked_dec w) as [(st & Hrx & _)|Hn]; [|by eapply stuck_over; [| apply grows_on_syn | |]].
  unfold rx_of in Hrx. destruct (find_session k w) as [st0|] eqn:Hf; [|done].
  unfold on_syn, ensure_session in *. rewrite Hf in *. rewrite Hf in *. destruct (handler st0); [|done].
  eapply stuck_aside; [done | eapply aside_called; [apply call_open_called | done] | done].
Qed.

Lemma stuck_dispatch B k' hdr p w : is_u32 (h_seq_num hdr) -> (k' = k -> isFin hdr = false) ->
  has_data hdr && out_of_window k' (h_seq_num hdr) w = false -> stuck B w -> stuck B (dispatch k' hdr p w).
Proof.
  intros Hu Hfin Hwin Hw. pose proof Hw as [Hwf _]. destruct (decide (k' = k)) as [->|Hne].
  - unfold dispatch. rewrite (Hfin eq_refl). set (w2 := if isSyn hdr then _ else _).
    assert (Hw2 : stuck B w2) by (unfold w2; destruct (isSyn hdr); [by apply stuck_on_syn | done]).
    assert (Hwin2 : out_of_window k (h_seq_num hdr) w2 = out_of_window k (h_seq_num hdr) w)
      by (unfold w2; destruct (isSyn hdr); [apply window_on_syn | done]).
    destruct (has_data hdr); [|done]. by apply stuck_on_data; [|rewrite Hwin2|].
  - eapply stuck_aside; [by apply wf_dispatch | by apply aside_dispatch | done].
Qed.

(** No intact frame of the session is a FIN. *)
Definition no_fin (v : bool) (f : frame_in) : Prop :=
  let hdr := f_hdr f in
  (v = true -> fgwSegmentVerifyCrc (f_bytes f) hdr (f_hr f) = true) -> seg_key hdr = k -> isFin hdr = false.

Lemma stuck_on_frame B ch f w : is_u32 (h_seq_num (f_hdr f)) -> no_fin (verify_crc_ (cfg w)) f ->
  stuck B w -> stuck B (on_frame_in ch w f).
Proof.
  intros Hu Hfin Hw. unfold on_frame_in, on_frame, no_fin in *.
  destruct (verify_crc_ (cfg w) && negb _) eqn:Hcrc; [done|].
  specialize (Hfin ltac:(intros Hv; rewrite Hv in Hcrc; by destruct (fgwSegmentVerifyCrc _ _ _))).
  set (p := take _ _). set (w1 := on_net _ w).
  assert (Hw1 : stuck B w1) by (apply (stuck_ext B w); [by apply wf_on_net; destruct Hw | done..]).
  assert (Hsame : forall w', same_core (w_ds w1) (w_ds w') /\ w_log w' = w_log w1 -> stuck B w').
  { intros w' [Hc Hl]. apply (stuck_ext B w1); [eapply wf_core; [exact Hc | by destruct Hw1] | | by rewrite Hl | done].
    unfold rx_of, find_session. by rewrite (proj1 (proj2 Hc)). }
  destruct (isHello (f_hdr f)); [apply Hsame, on_hello_core|].
  destruct (isHeartbeat (f_hdr f)); [done|].
  destruct (isAck (f_hdr f)); [apply Hsame, on_ack_core|]. unfold on_segment.
  destruct (decide _) as [|Hnew]; [apply Hsame; split; [apply count_loss_core | done]|].
  destruct (has_data (f_hdr f) && _) eqn:Hwin; [done|].
  pose proof Hw1 as [Hwf1 _]. apply stuck_dispatch; [done | done | |].
  - unfold out_of_window in Hwin |- *. by rewrite count_win_find, count_win_cfg, record_find, record_cfg.
  - apply (stuck_ext B w1); [by apply wf_count_win, wf_record | | done..].
    unfold rx_of. by rewrite count_win_find, record_find.
Qed.

Lemma stuck_step B s w : (forall ch buf, s <> StBytes ch buf) -> stuck B w -> stuck B (do_step s w).
Proof.
  intros Hnb Hw. pose proof Hw as (Hwf & _).
  assert (Hwf' : stream_wf (do_step s w)).
  { apply (wf_steps [s]); [done|]. constructor; [destruct s; try done; by destruct (Hnb ch buf) | constructor]. }
  destruct s as [ch buf|sid h|f|]; [by destruct (Hnb ch buf) | | |].
  - destruct (blocked_dec w) as [(st & Hrx & _)|Hn]; [|eapply stuck_over; [done | by apply (grows_step (StOpen sid h) w) | done | done]].
    simpl in *. unfold openSession in *. set (key := (_, sid)) in *. destruct (find_session key w) as [st0|] eqn:Hf; [done|].
    set (w1 := put_session _ _ w) in *.
    destruct (sendSegment_shape (local_ingress_id_ (cfg w)) sid 0 FLAG_SYN None 0 w1) as (r & g & Heq).
    rewrite Heq in Hwf' |- *. apply (stuck_ext B w); try done. 
    change (rx_of k (snd (r, on_net g w1))) with (rx_of k w1). apply rx_put_ne. intros Heqk. rewrite <- Heqk in Hf. unfold rx_of in Hrx. by rewrite Hf in Hrx.
  - rewrite env_step in *. set (w1 := set_env _ _ w) in *. apply (stuck_aside B w); [done | | done].
    transitivity w1; [by apply aside_eq | eapply aside_called; [apply apply_calls_called | done]].
  - simpl in *. destruct (emitFeedback_core w) as ((_ & Hs & _) & Hl). apply (stuck_ext B w); try done.
    unfold rx_of, find_session. by rewrite Hs.
Qed.

Lemma stuck_run B steps w : stuck B w -> Forall step_bytes steps ->
  Forall (no_fin (verify_crc_ (cfg w))) (frame_trace (scratch_ (w_ds w)) steps) ->
  stuck B (do_steps steps w).
Proof.
  intros Hw Hbytes Hfin. set (c := cfg w) in *. set (tr := frame_trace _ steps) in *.
  rewrite List.Forall_forall in Hfin.
  set (I := fun (past : list frame_in) (w : world H) => stuck B w /\ cfg w = c).
  apply (trace_ind I (fun _ => True) tr) with (past := []) (ss := steps) (w := w); unfold I.
  - intros _ w' [[Hwf _] _] ch b Hb. by destruct (st_scratch _ Hwf _ _ Hb).
  - intros ch past f rest w' Htr _ Hu [Hi Hc]. split.
    + apply stuck_on_frame; [done | | done]. rewrite Hc. apply Hfin. rewrite Htr. apply in_elt.
    + rewrite <- Hc. apply io_on_frame.
  - intros _ w' ch r [Hi Hc] Hx Hl. split; [|done]. destruct Hi as (Hwf & ?).
    split; [by apply wf_scratch | done].
  - intros _ w' s _ Hnb [Hi Hc]. split; [by apply stuck_step|].
    rewrite <- Hc. by apply (dd_step s w').
  - done.
  - eapply List.Forall_impl; [|exact Hbytes]. by intros s Hs.
  - done.
Qed.
End hazards.

(** ** Properties *)

(** C37. Sequence numbers that wrap stall a session for good: once a segment whose
    number is below the expected one (so, across the wrap) is accepted inside the
    receive window, the session's handler is not handed anything again, whatever
    segments arrive and whatever else happens, until the session is closed: by a FIN or
    from this side. *)
Theorem wraparound_stall {H} {app : SessionHandler H} {rt : ZdsRuntime} {T : Transport}
    {sort : StdSort} (k : SessionKey) (w : world H) (st : SessionState) (ch seq : Z) (f : frame_in)
    (steps : list (stream_step H))
    (w1 := on_frame_in ch w f)
    (Hmb : forall len, mb_acquire len = true) (Hwf : stream_wf w)
    (Hst : find_session k w = Some st) (Hseq : is_u32 seq) (Hwrap : seq < expected_rx_seq st)
    (Hcopy : is_copy (verify_crc_ (cfg w)) k seq f)
    (Hnew : dedup_key (f_hdr f) ∉ dedup_map_ (w_ds w)) (Hin : out_of_window k seq w = false)
    (Hbytes : Forall step_bytes steps)
    (Hfin : Forall (no_fin k (verify_crc_ (cfg w))) (frame_trace (scratch_ (w_ds w)) steps)) :
  exists l, w_log (do_steps steps w1) = w_log w ++ l /\ heard k l = [].
Proof.
  assert (Hio : same_io w w1) by apply io_on_frame. destruct Hio as (Hcfg & Hscr & _).
  assert (Hs : stuck k (w_log w) w1).
  { pose proof (copy_frame w k ch seq f Hcopy Hnew) as Hcf. rewrite Hin in Hcf.
    destruct Hcf as (w3 & Heq & Hfi & _ & _ & Hl3 & _ & Hin3 & Hwf3). specialize (Hwf3 Hwf). fold w1 in Heq. rewrite Heq.
    destruct (on_data_blocked k Hmb seq (carried f) w3 st) as [Hbl Hl]; try done.
    { by rewrite Hfi. }
    2: { split; [by apply wf_on_data|]. exists []. rewrite Hl, Hl3, app_nil_r. split_and!; [done | done | by right]. }
    exists seq. split; [|done]. unfold om_emplace.
    destruct (om_find _ _) eqn:Ho; [apply om_find_In in Ho; by apply (in_map fst) in Ho|].
    apply om_keys_insert. by left. }
  destruct (stuck_run k Hmb _ steps w1 Hs) as (_ & l & Hl & Hh & _); [done | | by exists l].
  unfold cfg in *. by rewrite Hcfg, Hscr.
Qed.

(** A first copy of an intact FIN of session [k]. *)
Definition fin_frame {H} (w : world H) (k : SessionKey) (f : frame_in) : Prop :=
  let hdr := f_hdr f in
  (verify_crc_ (cfg w) = true -> fgwSegmentVerifyCrc (f_bytes f) hdr (f_hr f) = true) /\
  isHello hdr = false /\ isHeartbeat hdr = false /\ isAck hdr = false /\
  isSyn hdr = false /\ isFin hdr = true /\ has_data hdr = false /\ seg_key hdr = k /\
  dedup_key hdr ∉ dedup_map_ (w_ds w).

Lemma on_fin_frame {H} {app : SessionHandler H} {rt : ZdsRuntime} {T : Transport} {sort : StdSort}
    (w : world H) k ch f : fin_frame w k f ->
  exists w2, on_frame_in ch w f = on_fin k w2 /\
    (forall k', find_session k' w2 = find_session k' w) /\ w_app w2 = w_app w /\ w_log w2 = w_log w /\
    unknown_cb_set (w_ds w2) = unknown_cb_set (w_ds w) /\
    (forall x, x ∈ dedup_map_ (w_ds w2) -> x = dedup_key (f_hdr f) \/ x ∈ dedup_map_ (w_ds w)).
Proof.
  intros (Hv & Hh & Hb & Ha & Hs & Hf & Hd & Hk & Hnew). unfold on_frame_in, on_frame. rewrite Hh, Hb, Ha.
  replace (verify_crc_ (cfg w) && _) with false
    by (destruct (verify_crc_ (cfg w)); [by rewrite Hv | done]).
  unfold on_segment. rewrite decide_False by done. rewrite Hk, Hd. cbn [andb].
  unfold dispatch. rewrite Hs, Hf. eexists. split; [reflexivity|].
  set (w2 := on_net _ w). destruct (accept_facts (peer_channel_id_ (chan (w_net w2) ch)) (dedup_key (f_hdr f)) w2)
    as (Hfi & _ & Hset & Hdd). by split_and!.
Qed.

(** A DATA segment for a session that the stream does not have, other than its first: the
    session is made, with the handler the unknown-session callback gives, and waits. *)
Lemma on_data_reopens {H} {app : SessionHandler H} {rt : ZdsRuntime} {T : Transport} {sort : StdSort}
    k seq p (w : world H) : find_session k w = None -> unknown_cb_set (w_ds w) = true -> 0 < seq ->
  mb_acquire (zlen p) = true ->
  exists st, find_session k (on_data k seq p w) = Some st /\ expected_rx_seq st = 0 /\
    handler st = fst (unknown_cb (fst k) (snd k) (w_app w)) /\
    rx_buffer st = [(seq, p)] /\ w_log (on_data k seq p w) = w_log w.
Proof.
  intros Hnone Hcb Hseq Hmb. unfold on_data, ensure_session. rewrite Hnone, Hcb.
  destruct (unknown_cb (fst k) (snd k) (w_app w)) as [h' a] eqn:Hu. rewrite find_put_eq, Hmb.
  set (st0 := new_session (snd k) (fst k) h'). cbn [rx_buffer new_session st0 om_emplace om_find om_insert].
  unfold deliverInOrder. destruct h' as [h'|]; cbn [handler set_rx new_session st0].
  - cbn [take_run rx_buffer expected_rx_seq set_rx]. change (expected_rx_seq st0) with 0.
    destruct (Z.eqb_spec seq 0); [lia|]. cbn [deliver_all]. eexists. rewrite find_put_eq. by split_and!.
  - eexists. rewrite find_put_eq. by split_and!.
Qed.

(** C38. A FIN closes its session at once, whatever is missing or still buffered: the
    handler is told once, gets no more data, and the session is gone.  Let then a DATA
    segment arrive that the FIN overtook, a first copy with a number other than 0.  Inside
    the receive window of a new session it opens the session again, which waits for segment
    0, with whatever handler the unknown-session callback gives; outside of it the session
    stays gone.  Either way nothing is handed over. *)
Theorem fin_truncates {H} {app : SessionHandler H} {rt : ZdsRuntime} {T : Transport}
    {sort : StdSort} (k : SessionKey) (w : world H) (st : SessionState) (h ch ch' seq : Z)
    (f late : frame_in) (w1 := on_frame_in ch w f) (w2 := on_frame_in ch' w1 late)
    (Hst : find_session k w = Some st) (Hh : handler st = Some h) (Hfin : fin_frame w k f)
    (Hcb : unknown_cb_set (w_ds w) = true) (Hseq : 0 < seq < 2 ^ 32)
    (Hlate : is_copy (verify_crc_ (cfg w)) k seq late) (Hnew : dedup_key (f_hdr late) ∉ dedup_map_ (w_ds w))
    (Hmb : mb_acquire (zlen (carried late)) = true) :
  find_session k w1 = None /\ handed (w_log w1) = handed (w_log w) ++ [UpClose k h] /\
  w_log w2 = w_log w1 /\
  (if seq <? recv_window_ (cfg w) then
     exists st', find_session k w2 = Some st' /\ expected_rx_seq st' = 0 /\
       handler st' = fst (unknown_cb (fst k) (snd k) (w_app w1)) /\ rx_buffer st' = [(seq, carried late)]
   else find_session k w2 = None).
Proof.
  pose proof Hfin as (_ & _ & _ & _ & Hsyn & Hf & _). pose proof Hlate as (_ & _ & _ & _ & Hsyn' & Hf' & _).
  destruct (on_fin_frame w k ch f Hfin) as (w0 & Heq & Hfi & Happ & Hlog & Hset & Hdd). fold w1 in Heq.
  unfold on_fin in Heq. rewrite Hfi, Hst, Hh in Heq. set (w3 := call_close k h (snd k) w0) in *.
  assert (Hc : called [UpClose k h] w0 w3) by apply call_close_called.
  destruct Hc as [[s Hs] (l & Hl & Hhd & _)].
  assert (Hnone : find_session k w1 = None) by (rewrite Heq; apply find_erase_eq).
  assert (Hcb1 : unknown_cb_set (w_ds w1) = true) by (rewrite Heq; simpl; rewrite Hs; simpl; congruence).
  assert (Hcfg : cfg w1 = cfg w) by apply io_on_frame.
  assert (Hnew1 : dedup_key (f_hdr late) ∉ dedup_map_ (w_ds w1)).
  { rewrite Heq. simpl. rewrite Hs. intros [Hk|]%Hdd; [|done]. unfold dedup_key, seg_kind in Hk.
    rewrite Hsyn, Hf, Hsyn', Hf' in Hk. discriminate Hk. }
  rewrite <- Hcfg in Hlate. pose proof (copy_frame w1 k ch' seq late Hlate Hnew1) as Hcopy. fold w2 in Hcopy.
  assert (Hwin : out_of_window k seq w1 = negb (seq <? recv_window_ (cfg w))).
  { unfold out_of_window. rewrite Hnone, Hcfg, Z.sub_0_r, u32_small by (unfold is_u32; lia).
    destruct (Z.ltb_spec seq (recv_window_ (cfg w))); simpl; lia. }
  rewrite Hwin in Hcopy. split; [done|]. split.
  { rewrite Heq. change (handed (w_log w3) = handed (w_log w) ++ [UpClose k h]). by rewrite Hl, Hlog, handed_app, Hhd. }
  destruct (seq <? recv_window_ (cfg w)); cbn [negb] in Hcopy.
  - destruct Hcopy as (w4 & -> & Hfi4 & _ & Happ4 & Hlog4 & Hset4 & _). rewrite <- Happ4, <- Hlog4.
    destruct (on_data_reopens k seq (carried late) w4) as (st' & ? & ? & ? & ? & ?);
      [by rewrite Hfi4 | by rewrite Hset4 | lia | done |]. eauto 10.
  - by rewrite Hcopy.
Qed.

(** *** A session about to wrap *)
Definition wrap_session : SessionState := mkSession 4 2 0 (2 ^ 32 - 1) [] (Some 1) false false.
Definition wrap_world : world Z :=
  put_session (2, 4) wrap_session (mkWorld (new_stream 7 0 0 true 0) (test_net 0) 0 []).
Definition wrap_frame (i : Z) : frame_in :=
  let h := mkHdr MAGIC FLAG_DATA 0 4 i 2 0 0 in mkFrame 20 (frame_hdr h [9]) (frame h [9]).

Lemma wrap_wf : stream_wf wrap_world.
Proof.
  apply wf_put; [by apply wf_new|].
  constructor; [done | done | by vm_compute | constructor | by intros s []].
Qed.
Lemma wraparound_stall_witness :
  exists l, w_log (do_steps (app := echo) [StBytes 21 (f_bytes (wrap_frame (2 ^ 32 - 1)))]
    (on_frame_in (app := echo) 21 wrap_world (wrap_frame 0))) = [] ++ l /\ heard (2, 4) l = [].
Proof.
  apply (wraparound_stall (app := echo) (2, 4) wrap_world wrap_session 21 0 (wrap_frame 0)).
  - done.
  - apply wrap_wf.
  - by vm_compute.
  - by vm_compute.
  - by vm_compute.
  - repeat split; by vm_compute.
  - apply not_elem_of_empty.
  - by vm_compute.
  - repeat constructor; by vm_compute.
  - assert (Ht : frame_trace (H := Z) (scratch_ (w_ds wrap_world)) [StBytes 21 (f_bytes (wrap_frame (2 ^ 32 - 1)))] =
      [wrap_frame (2 ^ 32 - 1)]) by by vm_compute.
    rewrite Ht. by repeat constructor.
Defined.

Definition fin_in : frame_in :=
  let h := mkHdr MAGIC FLAG_FIN 0 4 3 2 0 0 in mkFrame 20 (frame_hdr h []) (frame h []).
Definition fin_world : world Z :=
  on_ds setUnknownSessionCallback
    (put_session (2, 4) (mkSession 4 2 0 1 [(2, [5])] (Some 1) false false)
      (mkWorld (new_stream 7 0 0 true 0) (test_net 0) 0 [])).
Definition late_in : frame_in :=
  let h := mkHdr MAGIC FLAG_DATA 0 4 1 2 0 0 in mkFrame 20 (frame_hdr h [8]) (frame h [8]).
(** Segment 2 was waiting for segment 1, which comes after the FIN. *)
Lemma fin_truncates_witness :
  let w1 := on_frame_in (app := echo) 21 fin_world fin_in in
  let w2 := on_frame_in (app := echo) 22 w1 late_in in
  find_session (2, 4) w1 = None /\ handed (w_log w1) = [UpClose (2, 4) 1] /\ w_log w2 = w_log w1 /\
  exists st, find_session (2, 4) w2 = Some st /\ expected_rx_seq st = 0 /\ handler st = Some 1 /\
    rx_buffer st = [(1, [8])].
Proof.
  destruct (fin_truncates (app := echo) (2, 4) fin_world
    (mkSession 4 2 0 1 [(2, [5])] (Some 1) false false) 1 21 22 1 fin_in late_in)
    as (Hn & Hl & Hq & st & Hs & He & Hh & Hb).
  - by vm_compute.
  - reflexivity.
  - repeat split; try by vm_compute.
  - reflexivity.
  - lia.
  - repeat split; by vm_compute.
  - by vm_compute.
  - reflexivity.
  - split; [exact Hn|]. split; [exact Hl|]. split; [exact Hq|].
    exists st. split; [exact Hs|]. split; [exact He|]. split; [exact Hh | exact Hb].
Defined.
