(* ===== verification/Relay.v ===== *)
(** * Relay: a SOCKS5 session of the outport, [FgwRelaySession]

    The negotiation and relay of one session of [src/zfgw_outport.{h,cpp}].  A method
    returns the session after it and the actions it takes on its surroundings, in
    order; the OutportService around it is in [Outport]. *)
From S2P Require Import Prelude Proto Channel.

(** ** State *)
Inductive RelayState :=
  ST_AWAIT_METHODS | ST_AWAIT_REQUEST | ST_CONNECTING | ST_RELAYING | ST_CLOSED.
#[export] Instance RelayState_eq_dec : EqDecision RelayState.
Proof. solve_decision. Defined.

Record FgwRelaySession := mkRelay {
  rs_peer_ingress : Z; rs_session_id : Z;
  state_ : RelayState;
  rx_buffer_ : bytes;
  (** whether [remote_tcp_] is set *)
  remote_tcp_ : bool;
  target_addr_ : bytes;
  bytes_sent_ : Z; bytes_recv_ : Z }.
Definition new_relay (peer_ingress session_id : Z) : FgwRelaySession :=
  mkRelay peer_ingress session_id ST_AWAIT_METHODS [] false [] 0 0.

(** What a session does to its surroundings. *)
Inductive relay_action :=
  | ToPeer (data : bytes)          (** [stream_->sendSessionData(...)] *)
  | Dial (host : bytes) (port : Z) (** [remote_conn_->start_connect()] *)
  | ToRemote (data : bytes)        (** [remote_tcp_->write(...)] *)
  | CloseRemote                    (** [remote_tcp_->close()] *)
  | CloseStream                    (** [stream_->closeSession(...)] *)
  | Remove.                        (** [outport_->removeSession(...)] *)

Definition set_state (v : RelayState) (s : FgwRelaySession) : FgwRelaySession :=
  mkRelay (rs_peer_ingress s) (rs_session_id s) v (rx_buffer_ s) (remote_tcp_ s)
    (target_addr_ s) (bytes_sent_ s) (bytes_recv_ s).
Definition set_rx_buffer (b : bytes) (s : FgwRelaySession) : FgwRelaySession :=
  mkRelay (rs_peer_ingress s) (rs_session_id s) (state_ s) b (remote_tcp_ s)
    (target_addr_ s) (bytes_sent_ s) (bytes_recv_ s).
Definition set_remote_tcp (v : bool) (s : FgwRelaySession) : FgwRelaySession :=
  mkRelay (rs_peer_ingress s) (rs_session_id s) (state_ s) (rx_buffer_ s) v
    (target_addr_ s) (bytes_sent_ s) (bytes_recv_ s).
Definition set_target (b : bytes) (s : FgwRelaySession) : FgwRelaySession :=
  mkRelay (rs_peer_ingress s) (rs_session_id s) (state_ s) (rx_buffer_ s) (remote_tcp_ s)
    b (bytes_sent_ s) (bytes_recv_ s).
Definition add_sent (n : Z) (s : FgwRelaySession) : FgwRelaySession :=
  mkRelay (rs_peer_ingress s) (rs_session_id s) (state_ s) (rx_buffer_ s) (remote_tcp_ s)
    (target_addr_ s) (u64 (bytes_sent_ s + n)) (bytes_recv_ s).
Definition add_recv (n : Z) (s : FgwRelaySession) : FgwRelaySession :=
  mkRelay (rs_peer_ingress s) (rs_session_id s) (state_ s) (rx_buffer_ s) (remote_tcp_ s)
    (target_addr_ s) (bytes_sent_ s) (u64 (bytes_recv_ s + n)).

(** ** Text *)

(** [%u] and [std::to_string]: the decimal digits, most significant first. *)
Fixpoint dec_digits (fuel : nat) (n : Z) (acc : bytes) : bytes :=
  match fuel with
  | O => acc
  | S fuel => let acc := (48 + n mod 10) :: acc in
              if n <? 10 then acc else dec_digits fuel (n / 10) acc
  end.
Definition dec (n : Z) : bytes := dec_digits 20 n [].
(** [%02x] of a byte. *)
Definition hex_digit (d : Z) : Z := if d <? 10 then 48 + d else 87 + d.
Definition hex2 (b : Z) : bytes := [hex_digit (b / 16); hex_digit (b mod 16)].

Definition dot : Z := 46.
Definition colon : Z := 58.
Definition ipv4_text (b : bytes) : bytes :=
  dec (at_ b 4) ++ [dot] ++ dec (at_ b 5) ++ [dot] ++ dec (at_ b 6) ++ [dot] ++ dec (at_ b 7).
(** The loop over [i = 0, 2, .., 14]. *)
Fixpoint ipv6_text (i : nat) (groups : nat) (b : bytes) : bytes :=
  match groups with
  | O => []
  | S groups => (if (i =? 0)%nat then [] else [colon]) ++
      hex2 (at_ b (4 + Z.of_nat i)) ++ hex2 (at_ b (4 + Z.of_nat i + 1)) ++ ipv6_text (i + 2) groups b
  end.
Definition be_port (b : bytes) (i : Z) : Z := u16 (Z.lor (Z.shiftl (at_ b i) 8) (at_ b (i + 1))).

(** ** SOCKS5 *)
Definition SOCKS5_VER := 5.
Definition SOCKS5_CMD_CONNECT := 1.
Definition SOCKS5_ATYP_IPV4 := 1.
Definition SOCKS5_ATYP_DOMAIN := 3.
Definition SOCKS5_ATYP_IPV6 := 4.
Definition SOCKS5_REP_OK := 0.
Definition SOCKS5_REP_HOSTUNREACH := 4.
Definition SOCKS5_REP_CMDNOTSUP := 7.

Section relay.
Context {T : Transport}.
Implicit Types (s : FgwRelaySession).

(** [writeReply(rep)]. *)
Definition writeReply (rep : Z) : list relay_action :=
  [ToPeer [SOCKS5_VER; rep; 0; SOCKS5_ATYP_IPV4; 0; 0; 0; 0; 0; 0]].

Definition close s : FgwRelaySession * list relay_action :=
  match state_ s with
  | ST_CLOSED => (s, [])
  | _ =>
    let s := set_state ST_CLOSED s in
    (set_remote_tcp false s,
     (if remote_tcp_ s then [CloseRemote] else []) ++ [CloseStream; Remove])
  end.

Definition startConnect (host : bytes) (port : Z) s : FgwRelaySession * list relay_action :=
  let s := set_remote_tcp true s in
  if start_connect (mkFgwEndpoint host port) <? 0
  then let '(s, a) := close s in (s, [Dial host port] ++ writeReply SOCKS5_REP_HOSTUNREACH ++ a)
  else (s, [Dial host port]).

(** The result of a parser: its return value, the session, the actions. *)
Definition tryParseMethods s : Z * FgwRelaySession * list relay_action :=
  let b := rx_buffer_ s in
  if zlen b <? 2 then (0, s, [])
  else if negb (at_ b 0 =? SOCKS5_VER) then let '(s, a) := close s in (-1, s, a)
  else
  let nmethods := at_ b 1 in
  if zlen b <? 2 + nmethods then (0, s, [])
  else
  (2 + nmethods,
   set_state ST_AWAIT_REQUEST (set_rx_buffer (drop (Z.to_nat (2 + nmethods)) b) s),
   [ToPeer [SOCKS5_VER; 0]]).

(** The address of a request: more input is needed, or the type is unknown, or the
    bytes it takes with the host and port. *)
Inductive request_addr := AddrNeed | AddrUnknown | Addr (need : Z) (host : bytes) (port : Z).
Definition parse_addr (b : bytes) : request_addr :=
  let atyp := at_ b 3 in
  if atyp =? SOCKS5_ATYP_IPV4 then
    let need := 4 + 4 + 2 in
    if zlen b <? need then AddrNeed else Addr need (ipv4_text b) (be_port b 8)
  else if atyp =? SOCKS5_ATYP_DOMAIN then
    if zlen b <? 5 then AddrNeed else
    let dlen := at_ b 4 in
    let need := 4 + 1 + dlen + 2 in
    if zlen b <? need then AddrNeed
    else Addr need (take (Z.to_nat dlen) (drop 5 b)) (be_port b (5 + dlen))
  else if atyp =? SOCKS5_ATYP_IPV6 then
    let need := 4 + 16 + 2 in
    if zlen b <? need then AddrNeed else Addr need (ipv6_text 0 8 b) (be_port b 20)
  else AddrUnknown.

Definition reject s : Z * FgwRelaySession * list relay_action :=
  let '(s, a) := close s in (-1, s, writeReply SOCKS5_REP_CMDNOTSUP ++ a).
Definition tryParseRequest s : Z * FgwRelaySession * list relay_action :=
  let b := rx_buffer_ s in
  if zlen b <? 5 then (0, s, [])
  else if negb (at_ b 0 =? SOCKS5_VER) then let '(s, a) := close s in (-1, s, a)
  else
  match parse_addr b with
  | AddrNeed => (0, s, [])
  | AddrUnknown => reject s
  | Addr need host port =>
    let s := set_rx_buffer (drop (Z.to_nat need) b) s in
    if negb (at_ b 1 =? SOCKS5_CMD_CONNECT) then reject s
    else
    let s := set_state ST_CONNECTING (set_target (host ++ [colon] ++ dec port) s) in
    let '(s, a) := startConnect host port s in (need, s, a)
  end.

(** Hand bytes to the remote side, if a block for them can be had. *)
Definition write_remote (data : bytes) s : list relay_action :=
  if (0 <? zlen data) && remote_tcp_ s && mb_acquire (zlen data) then [ToRemote data] else [].

(** The loop of [feedRx]; [st] is the state sampled before the iteration. *)
Fixpoint feed_loop (fuel : nat) (st : RelayState) s : option (FgwRelaySession * list relay_action) :=
  match fuel with
  | O => None
  | S fuel =>
    let next (r : Z * FgwRelaySession * list relay_action) :=
      let '(ret, s, a) := r in
      if ret <=? 0 then Some (s, a)
      else match feed_loop fuel (state_ s) s with
           | Some (s, a') => Some (s, a ++ a')
           | None => None
           end in
    match st with
    | ST_AWAIT_METHODS => next (tryParseMethods s)
    | ST_AWAIT_REQUEST => next (tryParseRequest s)
    | ST_RELAYING =>
      let data := rx_buffer_ s in
      let a := write_remote data s in
      let s := set_rx_buffer [] s in
      Some (match a with [] => s | _ => add_sent (zlen data) s end, a)
    | _ => Some (s, [])
    end
  end.
Definition feedRx (buf : bytes) s : FgwRelaySession * list relay_action :=
  let s := set_rx_buffer (rx_buffer_ s ++ buf) s in
  default (s, []) (feed_loop 4 (state_ s) s).

Definition onRemoteOpen s : FgwRelaySession * list relay_action :=
  let s := set_state ST_RELAYING s in
  let leftover := rx_buffer_ s in
  (set_rx_buffer [] s, writeReply SOCKS5_REP_OK ++ write_remote leftover s).
Definition onRemoteBytes (buf : bytes) s : FgwRelaySession * list relay_action :=
  (add_recv (zlen buf) s, [ToPeer buf]).
Definition onRemoteClose s : FgwRelaySession * list relay_action := close s.
End relay.

(** ** A session among its callers

    The stream delivers and closes at any time; the outbound socket calls back only
    while the session owns it, opens once and then delivers. *)
Inductive relay_event :=
  | EvData (data : bytes) | EvPeerClose
  | EvRemoteOpen | EvRemoteBytes (data : bytes) | EvRemoteClose.
Definition relay_step {T : Transport} (e : relay_event) (s : FgwRelaySession)
    : option (FgwRelaySession * list relay_action) :=
  match e with
  | EvData b => Some (feedRx b s)
  | EvPeerClose => Some (close s)
  | EvRemoteOpen =>
    if remote_tcp_ s && bool_decide (state_ s = ST_CONNECTING) then Some (onRemoteOpen s) else None
  | EvRemoteBytes b =>
    if remote_tcp_ s && bool_decide (state_ s = ST_RELAYING) then Some (onRemoteBytes b s) else None
  | EvRemoteClose => if remote_tcp_ s then Some (onRemoteClose s) else None
  end.
Inductive relay_run {T : Transport} (s : FgwRelaySession)
    : list relay_event -> FgwRelaySession -> list relay_action -> Prop :=
  | run_nil : relay_run s [] s []
  | run_step evs s1 a1 e s2 a2 : relay_run s evs s1 a1 -> relay_step e s1 = Some (s2, a2) ->
      relay_run s (evs ++ [e]) s2 (a1 ++ a2).
