(* ===== verification/Socks.v ===== *)
(** * Socks: the SOCKS5 negotiation of a relay session

    The wire grammar of a SOCKS5 client, and the proof that the relay recognises it
    however the stream cuts the bytes up: the negotiation is a function of the bytes
    received alone. *)
From S2P Require Import Prelude Proto Segment Channel Testbed Relay.

(** ** Chunking *)
Definition ext (b : bytes) (s : FgwRelaySession) : FgwRelaySession := set_rx_buffer (rx_buffer_ s ++ b) s.

Lemma ext_ext a b s : ext b (ext a s) = ext (a ++ b) s.
Proof. unfold ext. cbn. by rewrite <- app_assoc. Qed.
Lemma ext_nil s : ext [] s = s.
Proof. unfold ext. rewrite app_nil_r. by destruct s. Qed.

Definition rank (st : RelayState) : nat :=
  match st with ST_AWAIT_METHODS => 2 | ST_AWAIT_REQUEST => 1 | _ => 0 end.

Lemma rank_lt st : (rank st < 4)%nat.
Proof. destruct st; simpl; lia. Qed.

Section chunking.
Context {T : Transport}.
Implicit Types (s : FgwRelaySession).

Lemma close_ext b s : close (ext b s) = (ext b (fst (close s)), snd (close s)).
Proof. unfold close. cbn. by destruct (state_ s), s. Qed.
Lemma close_closed s : state_ (fst (close s)) = ST_CLOSED.
Proof. unfold close. destruct (state_ s) eqn:Hs; done. Qed.
Lemma close_buffer s : rx_buffer_ (fst (close s)) = rx_buffer_ s.
Proof. unfold close. by destruct (state_ s). Qed.

(** What a parser returns once it has decided: later bytes change nothing but the
    buffer. *)
Definition decides (f : FgwRelaySession -> Z * FgwRelaySession * list relay_action) s : Prop :=
  let '(ret, s', a) := f s in
  (ret = 0 -> s' = s /\ a = []) /\
  (ret <> 0 -> forall b, f (ext b s) = (ret, ext b s', a)) /\
  (ret < 0 -> state_ s' = ST_CLOSED) /\
  (0 < ret -> (rank (state_ s') < rank (state_ s))%nat /\ state_ s' <> ST_RELAYING).

Lemma methods_decides s : Forall is_byte (rx_buffer_ s) -> state_ s = ST_AWAIT_METHODS ->
  decides tryParseMethods s.
Proof.
  intros Hby Hst. unfold decides, tryParseMethods. set (b0 := rx_buffer_ s) in *.
  pose proof (at_byte b0 1 Hby) as Hn. unfold is_byte in Hn.
  destruct (Z.ltb_spec (zlen b0) 2) as [|H2]; [by split_and!; [done | intros; lia..]|].
  assert (Hat : forall b i, 0 <= i < zlen b0 -> at_ (b0 ++ b) i = at_ b0 i) by (intros; by apply at_app_l).
  assert (Hlen : forall b, zlen (b0 ++ b) <? 2 = false)
    by (intros b; rewrite zlen_app; pose proof (zlen_nonneg b); lia).
  destruct (negb (at_ b0 0 =? SOCKS5_VER)) eqn:Hv.
  { pose proof (close_closed s) as Hc. destruct (close s) as [s' a] eqn:Hcl. simpl in Hc.
    split_and!; [lia | | done | lia]. intros _ b. cbn [rx_buffer_ ext set_rx_buffer]. fold b0.
    rewrite Hlen, Hat, Hv by lia. change (set_rx_buffer (b0 ++ b) s) with (ext b s).
    by rewrite close_ext, Hcl. }
  destruct (Z.ltb_spec (zlen b0) (2 + at_ b0 1)) as [|Hm]; [by split_and!; [done | intros; lia..]|].
  split_and!; [lia | | lia | intros _; rewrite Hst; split; [simpl; lia | done]].
  intros _ b. cbn [rx_buffer_ ext set_rx_buffer]. fold b0. rewrite Hlen, !Hat, Hv by lia.
  rewrite zlen_app. pose proof (zlen_nonneg b).
  destruct (Z.ltb_spec (zlen b0 + zlen b) (2 + at_ b0 1)); [lia|].
  rewrite drop_app_le by (unfold zlen in Hm; lia). done.
Qed.

Lemma startConnect_ext h p b s : startConnect h p (ext b s) =
  (ext b (fst (startConnect h p s)), snd (startConnect h p s)).
Proof.
  unfold startConnect. change (set_remote_tcp true (ext b s)) with (ext b (set_remote_tcp true s)).
  rewrite close_ext. by destruct (_ <? 0), (close (set_remote_tcp true s)).
Qed.
Lemma startConnect_state h p s : state_ s = ST_CONNECTING ->
  state_ (fst (startConnect h p s)) = ST_CONNECTING \/ state_ (fst (startConnect h p s)) = ST_CLOSED.
Proof.
  intros Hs. unfold startConnect. destruct (_ <? 0); [right | by left].
  pose proof (close_closed (set_remote_tcp true s)). by destruct (close _).
Qed.

Lemma parse_addr_pos b need h p : Forall is_byte b -> parse_addr b = Addr need h p -> 0 < need <= zlen b.
Proof.
  intros Hb. pose proof (at_byte b 4 Hb) as H4. unfold is_byte in H4. unfold parse_addr.
  repeat (match goal with |- context [if ?c then _ else _] => destruct c eqn:? end); try done;
    intros [= <- _ _]; lia.
Qed.
Lemma parse_addr_app b k : Forall is_byte b -> 5 <= zlen b -> parse_addr b <> AddrNeed ->
  parse_addr (b ++ k) = parse_addr b.
Proof.
  intros Hby Hl. pose proof (zlen_nonneg k) as Hk. pose proof (at_byte b 4 Hby) as H4. unfold is_byte in H4.
  assert (Hat : forall i, 0 <= i < zlen b -> at_ (b ++ k) i = at_ b i) by (intros; by apply at_app_l).
  unfold parse_addr. rewrite zlen_app, !(Hat 3), !(Hat 4) by lia.
  destruct (at_ b 3 =? SOCKS5_ATYP_IPV4).
  { destruct (Z.ltb_spec (zlen b) (4 + 4 + 2)); [done|]. intros _.
    destruct (Z.ltb_spec (zlen b + zlen k) (4 + 4 + 2)); [lia|].
    unfold ipv4_text, be_port. by rewrite !Hat by lia. }
  destruct (at_ b 3 =? SOCKS5_ATYP_DOMAIN).
  { destruct (Z.ltb_spec (zlen b) 5); [lia|]. destruct (Z.ltb_spec (zlen b + zlen k) 5); [lia|].
    destruct (Z.ltb_spec (zlen b) (4 + 1 + at_ b 4 + 2)); [done|]. intros _.
    destruct (Z.ltb_spec (zlen b + zlen k) (4 + 1 + at_ b 4 + 2)); [lia|].
    unfold be_port. rewrite !Hat by lia. f_equal.
    rewrite drop_app_le by (unfold zlen in *; lia). rewrite take_app_le; [done|].
    rewrite length_drop. unfold zlen in *. lia. }
  destruct (at_ b 3 =? SOCKS5_ATYP_IPV6); [|done].
  destruct (Z.ltb_spec (zlen b) (4 + 16 + 2)); [done|]. intros _.
  destruct (Z.ltb_spec (zlen b + zlen k) (4 + 16 + 2)); [lia|].
  unfold be_port. cbn [ipv6_text Nat.eqb Nat.add]. by rewrite !Hat by lia.
Qed.

Lemma request_decides s : Forall is_byte (rx_buffer_ s) -> state_ s = ST_AWAIT_REQUEST ->
  decides tryParseRequest s.
Proof.
  intros Hby Hst. unfold decides, tryParseRequest. set (b0 := rx_buffer_ s) in *.
  destruct (Z.ltb_spec (zlen b0) 5) as [|H5]; [by split_and!; [done | intros; lia..]|].
  assert (Hat : forall b i, 0 <= i < zlen b0 -> at_ (b0 ++ b) i = at_ b0 i) by (intros; by apply at_app_l).
  assert (Hlen : forall b, zlen (b0 ++ b) <? 5 = false)
    by (intros b; rewrite zlen_app; pose proof (zlen_nonneg b); lia).
  pose proof (close_closed s) as Hc.
  destruct (negb (at_ b0 0 =? SOCKS5_VER)) eqn:Hv.
  { destruct (close s) as [s' a] eqn:Hcl. simpl in Hc.
    split_and!; [lia | | done | lia]. intros _ b. cbn [rx_buffer_ ext set_rx_buffer]. fold b0.
    rewrite Hlen, Hat, Hv by lia. change (set_rx_buffer (b0 ++ b) s) with (ext b s).
    by rewrite close_ext, Hcl. }
  pose proof (parse_addr_app b0) as Happ. pose proof (parse_addr_pos b0) as Hpos.
  destruct (parse_addr b0) as [| |need host port] eqn:Hp; [by split_and!; [done | intros; lia..]| |].
  { unfold reject. destruct (close s) as [s' a] eqn:Hcl. simpl in Hc.
    split_and!; [lia | | done | lia]. intros _ b. cbn [rx_buffer_ ext set_rx_buffer]. fold b0.
    rewrite Hlen, Hat, Hv, Happ by (done || lia). change (set_rx_buffer (b0 ++ b) s) with (ext b s).
    by rewrite close_ext, Hcl. }
  destruct (Hpos need host port Hby eq_refl) as [Hn1 Hn2].
  set (s1 := set_rx_buffer (drop (Z.to_nat need) b0) s).
  assert (Hext : forall b, set_rx_buffer (drop (Z.to_nat need) (b0 ++ b)) (ext b s) = ext b s1).
  { intros b. unfold s1, ext. cbn. by rewrite drop_app_le by (unfold zlen in Hn2; lia). }
  destruct (negb (at_ b0 1 =? SOCKS5_CMD_CONNECT)) eqn:Hcmd.
  { unfold reject. pose proof (close_closed s1) as Hc1. destruct (close s1) as [s' a] eqn:Hcl. simpl in Hc1.
    split_and!; [lia | | done | lia]. intros _ b. cbn [rx_buffer_ ext set_rx_buffer]. fold b0.
    rewrite Hlen, !Hat, Hv, Happ by (done || lia). change (set_rx_buffer (b0 ++ b) s) with (ext b s).
    by rewrite Hcmd, Hext, close_ext, Hcl. }
  set (s2 := set_state ST_CONNECTING _).
  pose proof (startConnect_state host port s2 eq_refl) as Hstate.
  destruct (startConnect host port s2) as [s' a] eqn:Hcon. simpl in Hstate.
  split_and!; [lia | | lia | intros _; rewrite Hst; destruct Hstate as [-> | ->]; split; (simpl; lia) || done].
  intros _ b. cbn [rx_buffer_ ext set_rx_buffer]. fold b0.
  rewrite Hlen, !Hat, Hv, Happ by (done || lia). change (set_rx_buffer (b0 ++ b) s) with (ext b s).
  rewrite Hcmd, Hext. change (set_state _ (set_target _ (ext b s1))) with (ext b s2).
  by rewrite startConnect_ext, Hcon.
Qed.

(** The parsers keep the buffer made of bytes. *)
Lemma drop_bytes n (b : bytes) : Forall is_byte b -> Forall is_byte (drop n b).
Proof. apply Forall_drop. Qed.
Lemma parse_bytes f s : f = tryParseMethods \/ f = tryParseRequest ->
  Forall is_byte (rx_buffer_ s) -> Forall is_byte (rx_buffer_ (snd (fst (f s)))).
Proof.
  assert (Hc : forall s, Forall is_byte (rx_buffer_ s) -> Forall is_byte (rx_buffer_ (fst (close s))))
    by (intros s' Hs'; by rewrite close_buffer).
  assert (Hr : forall s, Forall is_byte (rx_buffer_ s) -> Forall is_byte (rx_buffer_ (snd (fst (reject s))))).
  { intros s' Hs'. specialize (Hc s' Hs'). unfold reject. by destruct (close s'). }
  intros [-> | ->] Hby.
  - unfold tryParseMethods. repeat (case_match; try done); simplify_eq; simpl.
    + specialize (Hc s Hby). by rewrite H1 in Hc.
    + by apply drop_bytes.
  - unfold tryParseRequest. destruct (_ <? 5); [done|]. destruct (negb _).
    { specialize (Hc s Hby). by destruct (close s). }
    destruct (parse_addr _); [done | by apply Hr|].
    set (s1 := set_rx_buffer _ s). assert (H1 : Forall is_byte (rx_buffer_ s1)) by (by apply drop_bytes).
    destruct (negb _); [by apply Hr|]. set (s2 := set_state _ _). unfold startConnect.
    specialize (Hc (set_remote_tcp true s2) H1). destruct (_ <? 0); [|done].
    by destruct (close (set_remote_tcp true s2)).
Qed.

(** One iteration of the loop, for a state that parses. *)
Definition parser (st : RelayState) :=
  match st with
  | ST_AWAIT_METHODS => Some tryParseMethods
  | ST_AWAIT_REQUEST => Some tryParseRequest
  | _ => None
  end.
Lemma feed_loop_parse fuel st f s : parser st = Some f ->
  feed_loop (S fuel) st s =
  let '(ret, s, a) := f s in
  if ret <=? 0 then Some (s, a)
  else match feed_loop fuel (state_ s) s with Some (s, a') => Some (s, a ++ a') | None => None end.
Proof. by destruct st; intros [= <-]. Qed.
Lemma parser_decides s f : parser (state_ s) = Some f -> Forall is_byte (rx_buffer_ s) -> decides f s.
Proof.
  destruct (state_ s) eqn:Hs; intros [= <-] Hb; [by apply methods_decides | by apply request_decides].
Qed.
Lemma parser_bytes s f : parser (state_ s) = Some f -> Forall is_byte (rx_buffer_ s) ->
  Forall is_byte (rx_buffer_ (snd (fst (f s)))).
Proof. intros Hf. apply parse_bytes. destruct (state_ s); try discriminate Hf; injection Hf as <-; auto. Qed.
Lemma parser_none s : parser (state_ s) = None -> (0 < 1)%nat -> forall fuel, (0 < fuel)%nat ->
  state_ s <> ST_RELAYING -> feed_loop fuel (state_ s) s = Some (s, []).
Proof. intros Hp _ [|fuel] Hf Hr; [lia|]. by destruct (state_ s). Qed.

(** The fuel of [feedRx] is enough: the loop runs at most [rank + 1] times. *)
Lemma feed_fuel n : forall m s, Forall is_byte (rx_buffer_ s) ->
  (rank (state_ s) < n)%nat -> (rank (state_ s) < m)%nat ->
  exists r, feed_loop n (state_ s) s = Some r /\ feed_loop m (state_ s) s = Some r.
Proof.
  induction n as [|n IH]; intros [|m] s Hb Hn Hm; try lia.
  destruct (parser (state_ s)) as [f|] eqn:Hf; [|by destruct (state_ s); try done; eexists].
  rewrite !(feed_loop_parse _ _ f) by done. pose proof (parser_decides s f Hf Hb) as Hd.
  pose proof (parser_bytes s f Hf Hb) as Hb'. unfold decides in Hd. destruct (f s) as [[ret s1] a1].
  destruct (Z.leb_spec ret 0); [by eexists|]. destruct Hd as (_ & _ & _ & Hpos).
  destruct (Hpos ltac:(lia)) as [Hr _]. destruct (IH m s1 Hb') as ([s2 a2] & -> & ->); [lia..|]. by eexists.
Qed.

(** More bytes: the loop picks up where it was. *)
Lemma feed_ext n b : forall s s1 a1, Forall is_byte b -> Forall is_byte (rx_buffer_ s) ->
  state_ s <> ST_RELAYING -> (rank (state_ s) < n)%nat -> feed_loop n (state_ s) s = Some (s1, a1) ->
  state_ s1 <> ST_RELAYING /\ Forall is_byte (rx_buffer_ s1) /\
  exists s2 a2, feed_loop 4 (state_ s1) (ext b s1) = Some (s2, a2) /\
    feed_loop n (state_ s) (ext b s) = Some (s2, a1 ++ a2).
Proof.
  induction n as [|n IH]; intros s s1 a1 Hbb Hb Hnr Hn Hfeed; [lia|].
  destruct (parser (state_ s)) as [f|] eqn:Hf.
  2:{ assert (Hs1 : s1 = s /\ a1 = []) by (destruct (state_ s); try discriminate Hf; try done; by injection Hfeed as <- <-).
      destruct Hs1 as [-> ->]. split_and!; [done | done |]. exists (ext b s), [].
      split; by destruct (state_ s). }
  assert (Hb1 : Forall is_byte (rx_buffer_ (ext b s))) by (by apply Forall_app).
  rewrite (feed_loop_parse _ _ f) in Hfeed by done.
  pose proof (parser_decides s f Hf Hb) as Hd. pose proof (parser_bytes s f Hf Hb) as Hb'.
  unfold decides in Hd. destruct (f s) as [[ret s'] a'] eqn:Hfs. simpl in Hb'.
  destruct Hd as (Hz & Hdec & Hneg & Hpos). destruct (Z.leb_spec ret 0) as [Hle|Hgt].
  - injection Hfeed as -> ->. destruct (decide (ret = 0)) as [H0|H0].
    + destruct (Hz H0) as [-> ->]. split_and!; [done | done |].
      destruct (feed_fuel (S n) 4 (ext b s) Hb1) as ([s2 a2] & H1 & H2); [done | apply rank_lt |].
      by exists s2, a2.
    + pose proof (Hneg ltac:(lia)) as Hst. split_and!; [by rewrite Hst | done |]. exists (ext b s1), [].
      split; [by rewrite Hst|]. change (state_ (ext b s)) with (state_ s).
      rewrite (feed_loop_parse n (state_ s) f) by done. rewrite (Hdec H0 b), app_nil_r.
      destruct (Z.leb_spec ret 0); [done | lia].
  - destruct (Hpos ltac:(lia)) as [Hr Hnr'].
    destruct (feed_loop n (state_ s') s') as [[s3 a3]|] eqn:Hl; [|done]. injection Hfeed as -> <-.
    destruct (IH s' s1 a3 Hbb Hb' Hnr' ltac:(lia) Hl) as (Hn1 & Hb3 & s2 & a2 & H1 & H2).
    split_and!; [done | done |]. exists s2, a2. split; [done|].
    rewrite (feed_loop_parse _ _ f) by done. rewrite (Hdec ltac:(lia) b).
    destruct (Z.leb_spec ret 0); [lia|].
    change (state_ (ext b s')) with (state_ s'). by rewrite H2, app_assoc.
Qed.

Lemma feedRx_spec b s : Forall is_byte b -> Forall is_byte (rx_buffer_ s) ->
  feed_loop 4 (state_ s) (ext b s) = Some (feedRx b s).
Proof.
  intros Hb Hs. destruct (feed_fuel 4 4 (ext b s)) as (r & H1 & _);
    [by apply Forall_app | apply rank_lt.. |].
  unfold feedRx. fold (ext b s). change (state_ (ext b s)) with (state_ s) in *. by rewrite H1.
Qed.

(** Two deliveries are one. *)
Lemma feedRx_app a b s : Forall is_byte a -> Forall is_byte b -> Forall is_byte (rx_buffer_ s) ->
  state_ s <> ST_RELAYING ->
  let '(s1, acts1) := feedRx a s in let '(s2, acts2) := feedRx b s1 in
  feedRx (a ++ b) s = (s2, acts1 ++ acts2) /\ state_ s1 <> ST_RELAYING /\ Forall is_byte (rx_buffer_ s1).
Proof.
  intros Ha Hb Hs Hnr. pose proof (feedRx_spec a s Ha Hs) as H1. destruct (feedRx a s) as [s1 acts1].
  destruct (feed_ext 4 b (ext a s) s1 acts1) as (Hn1 & Hb1 & s2 & a2 & H2 & H3); try done.
  { by apply Forall_app. }
  { apply rank_lt. }
  rewrite (feedRx_spec b s1) in H2 by done. injection H2 as ->. split_and!; try done.
  rewrite ext_ext in H3. change (state_ (ext a s)) with (state_ s) in H3.
  rewrite (feedRx_spec (a ++ b) s) in H3; [by injection H3 | by apply Forall_app | done].
Qed.
End chunking.

(** ** The grammar of a client *)
Inductive socks_addr :=
  | SA_ipv4 (a b c d : Z)
  | SA_domain (name : bytes)
  | SA_ipv6 (addr : bytes).
Definition addr_ok (a : socks_addr) : Prop :=
  match a with
  | SA_ipv4 a b c d => Forall is_byte [a; b; c; d]
  | SA_domain name => Forall is_byte name /\ zlen name < 256
  | SA_ipv6 addr => Forall is_byte addr /\ zlen addr = 16
  end.
Definition addr_type (a : socks_addr) : Z :=
  match a with SA_ipv4 _ _ _ _ => 1 | SA_domain _ => 3 | SA_ipv6 _ => 4 end.
Definition addr_bytes (a : socks_addr) : bytes :=
  match a with SA_ipv4 a b c d => [a; b; c; d] | SA_domain name => zlen name :: name | SA_ipv6 addr => addr end.

(** The pairs of an IPv6 address, in hexadecimal, between colons. *)
Fixpoint ipv6_groups (addr : bytes) : bytes :=
  match addr with
  | [x; y] => hex2 x ++ hex2 y
  | x :: y :: addr => hex2 x ++ hex2 y ++ [colon] ++ ipv6_groups addr
  | _ => []
  end.
Definition host_text (a : socks_addr) : bytes :=
  match a with
  | SA_ipv4 a b c d => dec a ++ [dot] ++ dec b ++ [dot] ++ dec c ++ [dot] ++ dec d
  | SA_domain name => name
  | SA_ipv6 addr => ipv6_groups addr
  end.

Definition client_hello (methods : bytes) : bytes := [5; zlen methods] ++ methods.
Definition client_request (cmd rsv : Z) (a : socks_addr) (port : Z) : bytes :=
  [5; cmd; rsv; addr_type a] ++ addr_bytes a ++ [port / 256; port mod 256].

Lemma be_port_val b i port : 0 <= port < 2 ^ 16 ->
  at_ b i = port / 256 -> at_ b (i + 1) = port mod 256 -> be_port b i = port.
Proof.
  intros Hp H1 H2. unfold be_port. rewrite H1, H2, Z.shiftl_mul_pow2 by lia.
  pose proof (Z.mod_pos_bound port 256). rewrite lor_low by lia. change (2 ^ 8) with 256.
  rewrite u16_small; Z.div_mod_to_equations; lia.
Qed.

(** The next length check passes. *)
Ltac ltb_no := match goal with |- context [Z.ltb ?x ?y] => destruct (Z.ltb_spec x y); [lia|] end.

Lemma parse_request cmd rsv a port k : addr_ok a -> 0 <= port < 2 ^ 16 ->
  let b := client_request cmd rsv a port in
  parse_addr (b ++ k) = Addr (zlen b) (host_text a) port.
Proof.
  intros Ha Hp b. pose proof (zlen_nonneg k) as Hk. destruct a as [a1 a2 a3 a4|name|addr].
  - unfold b, client_request, parse_addr. cbn [addr_type addr_bytes app].
    change (at_ _ 3) with 1. rewrite !zlen_cons. ltb_no.
    cbn [Z.eqb SOCKS5_ATYP_IPV4 Pos.eqb]. f_equal. by apply be_port_val.
  - destruct Ha as [Hn Hl]. pose proof (zlen_nonneg name) as Hn0.
    assert (Hb : b ++ k = [5; cmd; rsv; 3; zlen name] ++ name ++ [port / 256; port mod 256] ++ k).
    { unfold b, client_request. cbn [addr_type addr_bytes]. by rewrite <- !app_assoc. }
    assert (Hlen : zlen b = 5 + zlen name + 2).
    { unfold b, client_request. cbn [addr_type addr_bytes app]. autorewrite with words. lia. }
    rewrite Hlen, Hb. unfold parse_addr. change (at_ _ 3) with 3. change (at_ _ 4) with (zlen name).
    cbn [Z.eqb SOCKS5_ATYP_IPV4 SOCKS5_ATYP_DOMAIN Pos.eqb].
    rewrite !zlen_app. change (zlen [5; cmd; rsv; 3; zlen name]) with 5.
    change (zlen [port / 256; port mod 256]) with 2.
    ltb_no. ltb_no.
    f_equal; [by apply take_zlen_app |].
    apply be_port_val; [done | |].
    + rewrite at_app_r by (change (zlen [5; cmd; rsv; 3; zlen name]) with 5; lia).
      change (zlen [5; cmd; rsv; 3; zlen name]) with 5.
      rewrite at_app_r by lia. by replace (5 + zlen name - 5 - zlen name) with 0 by lia.
    + rewrite at_app_r by (change (zlen [5; cmd; rsv; 3; zlen name]) with 5; lia).
      change (zlen [5; cmd; rsv; 3; zlen name]) with 5.
      rewrite at_app_r by lia. by replace (5 + zlen name + 1 - 5 - zlen name) with 1 by lia.
  - destruct Ha as [Hn Hl]. assert (Hlen : length addr = 16%nat) by (unfold zlen in Hl; lia). clear Hn Hl.
    do 16 (destruct addr as [|? addr]; [done|]). destruct addr; [|done].
    unfold b, client_request, parse_addr. cbn [addr_type addr_bytes app].
    change (at_ _ 3) with 4.
    cbn [Z.eqb SOCKS5_ATYP_IPV4 SOCKS5_ATYP_DOMAIN SOCKS5_ATYP_IPV6 Pos.eqb].
    rewrite !zlen_cons. ltb_no. f_equal. by apply be_port_val.
Qed.

(** ** The negotiation *)
Section negotiation.
Context {T : Transport}.

(** The deliveries of the stream, one after the other. *)
Fixpoint feeds (cs : list bytes) (s : FgwRelaySession) : FgwRelaySession * list relay_action :=
  match cs with
  | [] => (s, [])
  | c :: cs => let '(s, a) := feedRx c s in let '(s, a') := feeds cs s in (s, a ++ a')
  end.

Lemma feeds_concat cs : forall c s, Forall is_byte (concat (c :: cs)) -> Forall is_byte (rx_buffer_ s) ->
  state_ s <> ST_RELAYING -> feeds (c :: cs) s = feedRx (concat (c :: cs)) s.
Proof.
  induction cs as [|c' cs IH]; intros c s Hb Hs Hnr.
  - cbn [feeds concat]. rewrite app_nil_r. destruct (feedRx c s). by rewrite app_nil_r.
  - cbn [concat] in Hb. apply Forall_app in Hb as [Hc Hcs].
    pose proof (feedRx_app c (concat (c' :: cs)) s Hc Hcs Hs Hnr) as Happ.
    change (feeds (c :: c' :: cs) s) with
      (let '(s, a) := feedRx c s in let '(s, a') := feeds (c' :: cs) s in (s, a ++ a')).
    destruct (feedRx c s) as [s1 a1] eqn:H1. cbn [fst] in *.
    destruct (feedRx (concat (c' :: cs)) s1) as [s2 a2] eqn:H2. destruct Happ as (Heq & Hnr1 & Hb1).
    rewrite IH, H2 by done. change (concat (c :: c' :: cs)) with (c ++ concat (c' :: cs)). by rewrite Heq.
Qed.

Definition relay_at (ing sid : Z) (st : RelayState) (rest : bytes) (remote : bool) (target : bytes) :=
  mkRelay ing sid st rest remote target 0 0.

Lemma hello_step ing sid ms rest : zlen ms < 256 ->
  tryParseMethods (relay_at ing sid ST_AWAIT_METHODS (client_hello ms ++ rest) false []) =
  (2 + zlen ms, relay_at ing sid ST_AWAIT_REQUEST rest false [], [ToPeer [5; 0]]).
Proof.
  intros Hm. pose proof (zlen_nonneg ms) as H0. pose proof (zlen_nonneg rest) as H1.
  unfold tryParseMethods, client_hello. cbn [rx_buffer_ relay_at].
  rewrite <- app_assoc. change (at_ _ 0) with 5. change (at_ _ 1) with (zlen ms).
  rewrite !zlen_app. change (zlen [5; zlen ms]) with 2. ltb_no. cbn [Z.eqb SOCKS5_VER Pos.eqb negb]. ltb_no.
  assert (Hd : drop (Z.to_nat (2 + zlen ms)) ([5; zlen ms] ++ ms ++ rest) = rest).
  { rewrite app_assoc. replace (2 + zlen ms) with (zlen ([5; zlen ms] ++ ms)) by (by rewrite zlen_app).
    apply drop_zlen_app. }
  by rewrite Hd.
Qed.

Lemma request_step ing sid cmd rsv a port rest : addr_ok a -> 0 <= port < 2 ^ 16 ->
  let b := client_request cmd rsv a port in
  tryParseRequest (relay_at ing sid ST_AWAIT_REQUEST (b ++ rest) false []) =
  if cmd =? 1 then
    let '(s, act) := startConnect (host_text a) port
      (relay_at ing sid ST_CONNECTING rest false (host_text a ++ [colon] ++ dec port)) in (zlen b, s, act)
  else (-1, relay_at ing sid ST_CLOSED rest false [], writeReply SOCKS5_REP_CMDNOTSUP ++ [CloseStream; Remove]).
Proof.
  intros Ha Hp b. pose proof (zlen_nonneg rest) as H1.
  assert (Hlen : 6 <= zlen b).
  { unfold b, client_request. autorewrite with words. pose proof (zlen_nonneg (addr_bytes a)). lia. }
  unfold tryParseRequest. cbn [rx_buffer_ relay_at]. rewrite zlen_app. ltb_no.
  pose proof (parse_request cmd rsv a port rest Ha Hp) as Hpr. cbv zeta in Hpr. fold b in Hpr.
  change (at_ (b ++ rest) 0) with 5. change (at_ (b ++ rest) 1) with cmd.
  cbn [Z.eqb SOCKS5_VER Pos.eqb negb]. rewrite Hpr, drop_zlen_app. unfold SOCKS5_CMD_CONNECT.
  destruct (cmd =? 1); [|done]. simpl. unfold relay_at. by destruct (startConnect _ _ _).
Qed.
End negotiation.

(** The greeting, the request and what follows them, in any deliveries. *)
Lemma negotiates {T : Transport} (ing sid cmd rsv port : Z) (methods payload c : bytes)
    (a : socks_addr) (cs : list bytes)
    (Hm : zlen methods < 256) (Ha : addr_ok a) (Hp : 0 <= port < 2 ^ 16)
    (Hbytes : Forall is_byte (concat (c :: cs)))
    (Hcs : concat (c :: cs) = client_hello methods ++ client_request cmd rsv a port ++ payload) :
  let host := host_text a in
  let target := host ++ [colon] ++ dec port in
  feeds (c :: cs) (new_relay ing sid) =
  if cmd =? 1 then
    if start_connect (mkFgwEndpoint host port) <? 0
    then (relay_at ing sid ST_CLOSED payload false target,
          [ToPeer [5; 0]; Dial host port; ToPeer [5; 4; 0; 1; 0; 0; 0; 0; 0; 0];
           CloseRemote; CloseStream; Remove])
    else (relay_at ing sid ST_CONNECTING payload true target, [ToPeer [5; 0]; Dial host port])
  else (relay_at ing sid ST_CLOSED payload false [],
        [ToPeer [5; 0]; ToPeer [5; 7; 0; 1; 0; 0; 0; 0; 0; 0]; CloseStream; Remove]).
Proof.
  intros host target. rewrite feeds_concat by (done || constructor). rewrite Hcs. unfold feedRx.
  change (set_rx_buffer _ (new_relay ing sid)) with
    (relay_at ing sid ST_AWAIT_METHODS (client_hello methods ++ client_request cmd rsv a port ++ payload) false []).
  cbn [state_ relay_at]. rewrite (feed_loop_parse 3 _ tryParseMethods) by done.
  rewrite hello_step by done. pose proof (zlen_nonneg methods). destruct (Z.leb_spec (2 + zlen methods) 0); [lia|].
  cbn [state_ relay_at]. rewrite (feed_loop_parse 2 _ tryParseRequest) by done.
  rewrite request_step by done.
  assert (Hlen : 0 < zlen (client_request cmd rsv a port)).
  { unfold client_request. autorewrite with words. pose proof (zlen_nonneg (addr_bytes a)). lia. }
  destruct (cmd =? 1); [|done]. unfold startConnect. fold host target.
  destruct (start_connect (mkFgwEndpoint host port) <? 0); cbn;
    destruct (Z.leb_spec (zlen (client_request cmd rsv a port)) 0); lia || done.
Qed.

(** ** Properties *)

(** C13. The SOCKS5 negotiation, however the stream cuts it up.  A relay session fed, in
    any number of deliveries, a client greeting, a request and payload, answers the
    greeting with "no authentication", and then: for CONNECT, dials exactly the
    requested host and port once, keeping the payload for when the remote side is up,
    or, when the dial fails at once, replies "host unreachable" and closes; for any
    other command, replies "command not supported" and closes without dialling. *)
Theorem socks_negotiation {T : Transport} (ing sid cmd rsv port : Z) (methods payload c : bytes)
    (a : socks_addr) (cs : list bytes)
    (Hm : zlen methods < 256) (Ha : addr_ok a) (Hp : 0 <= port < 2 ^ 16)
    (Hbytes : Forall is_byte (concat (c :: cs)))
    (Hcs : concat (c :: cs) = client_hello methods ++ client_request cmd rsv a port ++ payload) :
  let host := host_text a in
  let target := host ++ [colon] ++ dec port in
  feeds (c :: cs) (new_relay ing sid) =
  if cmd =? 1 then
    if start_connect (mkFgwEndpoint host port) <? 0
    then (relay_at ing sid ST_CLOSED payload false target,
          [ToPeer [5; 0]; Dial host port; ToPeer [5; 4; 0; 1; 0; 0; 0; 0; 0; 0];
           CloseRemote; CloseStream; Remove])
    else (relay_at ing sid ST_CONNECTING payload true target, [ToPeer [5; 0]; Dial host port])
  else (relay_at ing sid ST_CLOSED payload false [],
        [ToPeer [5; 0]; ToPeer [5; 7; 0; 1; 0; 0; 0; 0; 0; 0]; CloseStream; Remove]).
Proof. exact (negotiates ing sid cmd rsv port methods payload c a cs Hm Ha Hp Hbytes Hcs). Qed.

(** The greeting, a CONNECT to "a.io:443" and two bytes of payload, cut inside the
    greeting and inside the name. *)
Definition test_cuts : list bytes := [[5]; [1; 0; 5; 1; 0; 3; 4; 97]; [46; 105; 111; 1; 187; 22; 3]].
Lemma socks_negotiation_witness :
  feeds test_cuts (new_relay 7 9) =
  (relay_at 7 9 ST_CONNECTING [22; 3] true [97; 46; 105; 111; 58; 52; 52; 51],
   [ToPeer [5; 0]; Dial [97; 46; 105; 111] 443]).
Proof.
  refine (socks_negotiation 7 9 1 0 443 [0] [22; 3] [5] (SA_domain [97; 46; 105; 111])
    [[1; 0; 5; 1; 0; 3; 4; 97]; [46; 105; 111; 1; 187; 22; 3]] eq_refl _ _ _ eq_refl);
    [by split; [repeat constructor|] | lia | repeat constructor; by vm_compute].
Defined.
