(* ===== verification/RelayLife.v ===== *)
(** * RelayLife: the life of a relay session

    The state machine of [FgwRelaySession]: it closes at most once and does nothing
    afterwards, and between the negotiation and the close it is a transparent pipe. *)
From S2P Require Import Prelude Proto Segment Channel Testbed Relay Socks.

(** ** Closing *)
Definition closing (a : relay_action) : bool :=
  match a with CloseRemote | CloseStream | Remove => true | _ => false end.
Definition dials (acts : list relay_action) : nat :=
  length (List.filter (fun a => match a with Dial _ _ => true | _ => false end) acts).
Definition quiet (acts : list relay_action) : Prop := Forall (fun a => closing a = false) acts.
Definition farewell (remote : bool) : list relay_action :=
  (if remote then [CloseRemote] else []) ++ [CloseStream; Remove].

Definition has_remote (st : RelayState) : bool :=
  match st with ST_CONNECTING | ST_RELAYING => true | _ => false end.
(** The dials a session may still make. *)
Definition credit (st : RelayState) : nat :=
  match st with ST_AWAIT_METHODS | ST_AWAIT_REQUEST => 1 | _ => 0 end.

(** What an operation may do to an open session. *)
Record op_ok (s s' : FgwRelaySession) (a : list relay_action) : Prop := {
  op_remote : remote_tcp_ s' = has_remote (state_ s');
  op_dials : (dials a + credit (state_ s') <= credit (state_ s))%nat;
  op_quiet : state_ s' <> ST_CLOSED -> quiet a;
  (** it has a socket once it has dialled, *)
  op_sock : state_ s' <> ST_CLOSED -> remote_tcp_ s' = remote_tcp_ s || (0 <? dials a)%nat;
  (** and closes it if it has one *)
  op_shut : state_ s' = ST_CLOSED -> exists pre, quiet pre /\
    a = pre ++ farewell (remote_tcp_ s || (0 <? dials a)%nat) }.
Lemma op_closed s s' a : op_ok s s' a -> state_ s' = ST_CLOSED ->
  exists pre remote, quiet pre /\ a = pre ++ farewell remote.
Proof. intros Hop Hc. destruct (op_shut _ _ _ Hop Hc) as (pre & Hq & Ha). eauto. Qed.

Section life.
Context {T : Transport}.
Implicit Types (s : FgwRelaySession).

Lemma close_open s : state_ s <> ST_CLOSED ->
  close s = (set_remote_tcp false (set_state ST_CLOSED s), farewell (remote_tcp_ s)).
Proof. intros Hs. unfold close. by destruct (state_ s). Qed.
Lemma close_twice s : state_ s = ST_CLOSED -> close s = (s, []).
Proof. intros Hs. unfold close. by rewrite Hs. Qed.
Lemma dials_app a b : dials (a ++ b) = (dials a + dials b)%nat.
Proof. unfold dials. by rewrite List.filter_app, length_app. Qed.
Lemma dials_farewell r : dials (farewell r) = 0%nat.
Proof. by destruct r. Qed.
Lemma dialled_app a b : (0 <? dials (a ++ b))%nat = (0 <? dials a)%nat || (0 <? dials b)%nat.
Proof. rewrite dials_app. by destruct (dials a). Qed.

(** An operation followed by others. *)
Lemma op_trans s s1 s2 a1 a2 : op_ok s s1 a1 -> state_ s1 <> ST_CLOSED -> op_ok s1 s2 a2 ->
  op_ok s s2 (a1 ++ a2).
Proof.
  intros [_ Hd Hq Hk _] Hne [Hr Hd' Hq' Hk' Hc']. specialize (Hq Hne). specialize (Hk Hne).
  rewrite Hk in Hk', Hc'. constructor; [done | | | |]; rewrite ?dialled_app, ?orb_assoc; try done.
  - rewrite dials_app. lia.
  - intros Hs. apply Forall_app. split; [done | by apply Hq'].
  - intros Hs. destruct (Hc' Hs) as (pre & Hp & Ha). exists (a1 ++ pre).
    split; [by apply Forall_app | by rewrite <- app_assoc, <- Ha].
Qed.
(** Saying something, then closing. *)
Lemma op_close s pre : state_ s <> ST_CLOSED -> quiet pre -> dials pre = 0%nat ->
  op_ok s (fst (close s)) (pre ++ snd (close s)).
Proof.
  intros Hs Hq Hd. rewrite close_open by done. constructor; simpl; try done.
  - rewrite dials_app, Hd, dials_farewell. simpl. lia.
  - intros _. exists pre. by rewrite dialled_app, Hd, dials_farewell, orb_false_r.
Qed.
Lemma op_same s s' a : state_ s' = state_ s -> remote_tcp_ s' = remote_tcp_ s ->
  remote_tcp_ s' = has_remote (state_ s') ->
  state_ s <> ST_CLOSED -> quiet a -> dials a = 0%nat -> op_ok s s' a.
Proof.
  intros Hs Hrs Hr Hne Hq Hd. constructor; [done | rewrite Hs; lia | done | by rewrite Hd, orb_false_r |].
  rewrite Hs. by intros.
Qed.
Lemma quiet_reply r : quiet (writeReply r) /\ dials (writeReply r) = 0%nat.
Proof. split; [by constructor | done]. Qed.

Lemma op_methods s : state_ s = ST_AWAIT_METHODS -> remote_tcp_ s = false ->
  op_ok s (snd (fst (tryParseMethods s))) (snd (tryParseMethods s)).
Proof.
  intros Hs Hr. assert (Hne : state_ s <> ST_CLOSED) by (by rewrite Hs).
  pose proof (op_close s [] Hne ltac:(constructor) eq_refl) as Hc.
  assert (Hsame : op_ok s s []) by (apply op_same; try done; [by rewrite Hs | constructor]).
  unfold tryParseMethods. destruct (_ <? 2); [done|].
  destruct (negb _); [by destruct (close s)|]. destruct (_ <? _); [done|].
  constructor; simpl; try done; [rewrite Hs; simpl; lia | intros _; by constructor | by rewrite Hr].
Qed.

Lemma op_reject s : state_ s <> ST_CLOSED -> op_ok s (snd (fst (reject s))) (snd (reject s)).
Proof.
  intros Hne. destruct (quiet_reply SOCKS5_REP_CMDNOTSUP) as [Hq Hd].
  pose proof (op_close s _ Hne Hq Hd) as Hc. unfold reject. by destruct (close s).
Qed.
Lemma op_from s0 s s' a : state_ s0 = state_ s -> remote_tcp_ s0 = remote_tcp_ s -> op_ok s s' a -> op_ok s0 s' a.
Proof. intros Heq Hr [? ? ? ? ?]. constructor; rewrite ?Heq, ?Hr; done. Qed.

Lemma op_request s : state_ s = ST_AWAIT_REQUEST -> remote_tcp_ s = false ->
  op_ok s (snd (fst (tryParseRequest s))) (snd (tryParseRequest s)).
Proof.
  intros Hs Hr. assert (Hne : state_ s <> ST_CLOSED) by (by rewrite Hs).
  pose proof (op_close s [] Hne ltac:(constructor) eq_refl) as Hc.
  assert (Hsame : op_ok s s []) by (apply op_same; try done; [by rewrite Hs | constructor]).
  unfold tryParseRequest. destruct (_ <? 5); [done|].
  destruct (negb _); [by destruct (close s)|].
  destruct (parse_addr _) as [| |need host port]; [done | by apply op_reject|].
  set (s1 := set_rx_buffer _ s). assert (H1 : state_ s = state_ s1) by done.
  destruct (negb _); [by apply (op_from s s1), op_reject|].
  unfold startConnect. set (s2 := set_remote_tcp true _). rewrite (close_open s2) by done.
  destruct (_ <? 0); constructor; simpl; try done; try (rewrite Hs; simpl; lia).
  - intros _. exists (Dial host port :: writeReply SOCKS5_REP_HOSTUNREACH). rewrite Hr.
    split; [by repeat constructor | done].
  - intros _. by constructor.
  - by rewrite Hr.
Qed.

Lemma quiet_write data s : quiet (write_remote data s) /\ dials (write_remote data s) = 0%nat.
Proof. unfold write_remote. destruct (_ && _); split; by repeat constructor. Qed.

Lemma op_feed fuel : forall s s' a, remote_tcp_ s = has_remote (state_ s) -> state_ s <> ST_CLOSED ->
  feed_loop fuel (state_ s) s = Some (s', a) -> op_ok s s' a.
Proof.
  induction fuel as [|fuel IH]; intros s s' a Hr Hne; [done|].
  destruct (parser (state_ s)) as [f|] eqn:Hf.
  - rewrite (feed_loop_parse _ _ f) by done.
    assert (Hop : op_ok s (snd (fst (f s))) (snd (f s))).
    { destruct (state_ s) eqn:Hs; try discriminate Hf; injection Hf as <-;
        [by apply op_methods | by apply op_request]. }
    destruct (f s) as [[ret s1] a1]. cbn [fst snd] in Hop.
    destruct (ret <=? 0); [by intros [= <- <-]|].
    destruct (decide (state_ s1 = ST_CLOSED)) as [Hc|Hc].
    { rewrite Hc. destruct fuel; [done|]. cbn [feed_loop]. rewrite app_nil_r. by intros [= <- <-]. }
    destruct (feed_loop fuel (state_ s1) s1) as [[s2 a2]|] eqn:Hl; [|done]. intros [= <- <-].
    eapply op_trans; [exact Hop | done |]. apply IH; [apply Hop | done | done].
  - destruct (state_ s) eqn:Hs; try discriminate Hf; cbn [feed_loop]; intros [= <- <-]; try done.
    + apply op_same; by rewrite ?Hs || constructor.
    + destruct (quiet_write (rx_buffer_ s) s) as [Hq Hd].
      apply op_same; try done; destruct (write_remote _ _); simpl; by rewrite ?Hs.
Qed.

Lemma op_feedRx b s : remote_tcp_ s = has_remote (state_ s) -> state_ s <> ST_CLOSED ->
  op_ok s (fst (feedRx b s)) (snd (feedRx b s)).
Proof.
  intros Hr Hne. unfold feedRx. fold (ext b s). apply (op_from s (ext b s)); [done..|].
  destruct (feed_loop 4 _ _) as [[s' a]|] eqn:Hl; simpl.
  - by apply (op_feed 4) in Hl.
  - by apply op_same; try constructor.
Qed.
Lemma op_step e s s' a : remote_tcp_ s = has_remote (state_ s) -> state_ s <> ST_CLOSED ->
  relay_step e s = Some (s', a) -> op_ok s s' a.
Proof.
  intros Hr Hne. pose proof (op_close s [] Hne ltac:(constructor) eq_refl) as Hc.
  destruct e as [b| | |b|]; simpl.
  - intros [= Heq]. pose proof (op_feedRx b s Hr Hne) as Hop. by rewrite Heq in Hop.
  - intros [= Heq]. by rewrite Heq in Hc.
  - destruct (remote_tcp_ s && _) eqn:Hb; [|done]. apply andb_true_iff in Hb as [Hrt Hst%bool_decide_eq_true].
    intros [= <- <-]. destruct (quiet_write (rx_buffer_ s) (set_state ST_RELAYING s)) as [Hq Hd].
    destruct (quiet_reply SOCKS5_REP_OK) as [Hq' Hd'].
    assert (Hd0 : dials (snd (onRemoteOpen s)) = 0%nat) by exact Hd.
    constructor; [done | | intros _; by constructor | | done].
    + change (dials _) with (dials (snd (onRemoteOpen s))). rewrite Hd0. simpl. lia.
    + intros _. change (dials _) with (dials (snd (onRemoteOpen s))). by rewrite Hd0, orb_false_r.
  - destruct (remote_tcp_ s && _) eqn:Hb; [|done]. intros [= <- <-].
    apply op_same; try done. by constructor.
  - destruct (remote_tcp_ s); [|done]. intros [= Heq]. unfold onRemoteClose in Heq. by rewrite Heq in Hc.
Qed.

Lemma step_closed e s s' a : state_ s = ST_CLOSED -> remote_tcp_ s = false ->
  relay_step e s = Some (s', a) -> a = [] /\ state_ s' = ST_CLOSED /\ remote_tcp_ s' = false.
Proof.
  intros Hs Hr. destruct e as [b| | |b|]; simpl; rewrite ?Hr; simpl; try done.
  - unfold feedRx. simpl. rewrite Hs. simpl. by intros [= <- <-].
  - rewrite close_twice by done. by intros [= <- <-].
Qed.

Lemma run_ok s evs s' acts : relay_run s evs s' acts ->
  remote_tcp_ s = has_remote (state_ s) -> state_ s <> ST_CLOSED -> op_ok s s' acts.
Proof.
  intros Hrun Hr Hne. induction Hrun as [|evs s1 a1 e s2 a2 _ IH Hstep].
  - by apply op_same; try constructor.
  - destruct (decide (state_ s1 = ST_CLOSED)) as [Hc|Hc].
    + destruct (step_closed e s1 s2 a2) as (-> & Hs2 & Hr2); [done | by rewrite (op_remote _ _ _ IH), Hc | done |].
      destruct IH as [Hr1 Hd1 Hq1 _ Hc1]. rewrite app_nil_r. rewrite Hc in Hd1. simpl in Hd1.
      constructor; [by rewrite Hr2, Hs2 | rewrite Hs2; simpl; lia | by rewrite Hs2.. | by intros _; apply Hc1].
    + eapply op_trans; [exact IH | done |]. apply (op_step e); [apply IH | done | done].
Qed.
End life.

(** ** The pipe *)
Definition remote_bytes (acts : list relay_action) : bytes :=
  concat (map (fun a => match a with ToRemote d => d | _ => [] end) acts).
Definition peer_bytes (acts : list relay_action) : bytes :=
  concat (map (fun a => match a with ToPeer d => d | _ => [] end) acts).
Definition data_in (evs : list relay_event) : bytes :=
  concat (map (fun e => match e with EvData b => b | _ => [] end) evs).
Definition data_out (evs : list relay_event) : bytes :=
  concat (map (fun e => match e with EvRemoteBytes b => b | _ => [] end) evs).
Definition opens (evs : list relay_event) : bool :=
  existsb (fun e => match e with EvRemoteOpen => true | _ => false end) evs.

Lemma concat_map_app {A B} (f : A -> list B) l k : concat (map f (l ++ k)) = concat (map f l) ++ concat (map f k).
Proof. by rewrite map_app, concat_app. Qed.

Section pipe.
Context {T : Transport}.
Context (Hmb : forall len, mb_acquire len = true).
Context (payload : bytes).
Implicit Types (s : FgwRelaySession).

(** What a session has passed on, [payload] being what it held when it dialled. *)
Definition piped (evs : list relay_event) s (acts : list relay_action) : Prop :=
  let peer := (if opens evs then [5; 0; 0; 1; 0; 0; 0; 0; 0; 0] else []) ++ data_out evs in
  peer_bytes acts = peer /\
  match state_ s with
  | ST_CONNECTING => remote_tcp_ s = true /\ opens evs = false /\ data_out evs = [] /\
      remote_bytes acts = [] /\ rx_buffer_ s = payload ++ data_in evs
  | ST_RELAYING => remote_tcp_ s = true /\ opens evs = true /\
      remote_bytes acts = payload ++ data_in evs /\ rx_buffer_ s = []
  | ST_CLOSED => remote_tcp_ s = false /\ remote_bytes acts `prefix_of` payload ++ data_in evs
  | _ => False
  end.

Lemma remote_app a b : remote_bytes (a ++ b) = remote_bytes a ++ remote_bytes b.
Proof. apply concat_map_app. Qed.
Lemma peer_app a b : peer_bytes (a ++ b) = peer_bytes a ++ peer_bytes b.
Proof. apply concat_map_app. Qed.
Lemma data_in_app a b : data_in (a ++ b) = data_in a ++ data_in b.
Proof. apply concat_map_app. Qed.
Lemma data_out_app a b : data_out (a ++ b) = data_out a ++ data_out b.
Proof. apply concat_map_app. Qed.
Lemma opens_app a b : opens (a ++ b) = opens a || opens b.
Proof. apply existsb_app. Qed.

Lemma write_remote_bytes data s : remote_tcp_ s = true ->
  remote_bytes (write_remote data s) = data /\ peer_bytes (write_remote data s) = [].
Proof.
  intros Hr. unfold write_remote. rewrite Hr, Hmb. destruct (Z.ltb_spec 0 (zlen data)) as [|Hz];
    unfold remote_bytes, peer_bytes; simpl.
  - by rewrite app_nil_r.
  - destruct data; [done|]. rewrite zlen_cons in Hz. pose proof (zlen_nonneg data). lia.
Qed.

Lemma feed_connecting b s : state_ s = ST_CONNECTING \/ state_ s = ST_CLOSED -> feedRx b s = (ext b s, []).
Proof. intros [Hs|Hs]; unfold feedRx; simpl; by rewrite Hs. Qed.
Lemma feed_relaying b s : state_ s = ST_RELAYING -> remote_tcp_ s = true -> rx_buffer_ s = [] ->
  let '(s', a) := feedRx b s in state_ s' = ST_RELAYING /\ remote_tcp_ s' = true /\ rx_buffer_ s' = [] /\
    remote_bytes a = b /\ peer_bytes a = [].
Proof.
  intros Hs Hr Hb. unfold feedRx. rewrite Hb. cbn [app]. set (s1 := set_rx_buffer b s).
  change (state_ s1) with (state_ s). rewrite Hs. cbn [feed_loop default].
  destruct (write_remote_bytes b s1) as [H1 H2]; [done|]. change (rx_buffer_ s1) with b.
  destruct (write_remote b s1) eqn:Hw; simpl; by rewrite ?Hs.
Qed.

(** A close, with nothing more passed on. *)
(** What an open session has told its peer: the replies of the negotiation as far as it
    is, and then what the outbound socket has delivered. *)
Definition greeted (st : RelayState) : bytes :=
  match st with
  | ST_AWAIT_METHODS | ST_CLOSED => []
  | ST_AWAIT_REQUEST | ST_CONNECTING => [5; 0]
  | ST_RELAYING => [5; 0; 5; 0; 0; 1; 0; 0; 0; 0; 0; 0]
  end.
Lemma greeted_feed fuel : forall s s' a, feed_loop fuel (state_ s) s = Some (s', a) -> state_ s' <> ST_CLOSED ->
  greeted (state_ s) ++ peer_bytes a = greeted (state_ s').
Proof.
  induction fuel as [|fuel IH]; intros s s' a; [done|].
  assert (Hnext : forall (r : Z * FgwRelaySession * list relay_action),
    (state_ (snd (fst r)) <> ST_CLOSED -> greeted (state_ s) ++ peer_bytes (snd r) = greeted (state_ (snd (fst r)))) ->
    (let '(ret, s, a) := r in if ret <=? 0 then Some (s, a) else
       match feed_loop fuel (state_ s) s with Some (s, a') => Some (s, a ++ a') | None => None end) = Some (s', a) ->
    state_ s' <> ST_CLOSED -> greeted (state_ s) ++ peer_bytes a = greeted (state_ s')).
  { intros [[ret s1] a1]. cbn [fst snd]. intros H1. destruct (ret <=? 0); [intros [= <- <-]; exact H1|].
    destruct (feed_loop fuel (state_ s1) s1) as [[s2 a2]|] eqn:Hl; [|done]. intros [= <- <-] Ho.
    destruct (decide (state_ s1 = ST_CLOSED)) as [Hc|Hc].
    { rewrite Hc in Hl. destruct fuel; [done|]. cbn [feed_loop] in Hl. by injection Hl as <- _. }
    rewrite peer_app, app_assoc, H1 by done. by apply (IH s1 s2 a2). }
  destruct (state_ s) eqn:Hs; cbn [feed_loop].
  - apply (Hnext (tryParseMethods s)). unfold tryParseMethods. destruct (zlen _ <? 2); [simpl; by rewrite Hs|].
    destruct (negb _); [unfold close; simpl; by rewrite Hs|]. destruct (zlen _ <? _); simpl; by rewrite ?Hs.
  - apply (Hnext (tryParseRequest s)). unfold tryParseRequest, reject. destruct (zlen _ <? 5); [simpl; by rewrite Hs|].
    destruct (negb _); [unfold close; simpl; by rewrite Hs|].
    destruct (parse_addr _) as [| |need host port]; [simpl; by rewrite Hs | unfold close; simpl; by rewrite Hs |].
    destruct (negb _); [unfold close; simpl; by rewrite Hs|]. unfold startConnect.
    by destruct (start_connect _ <? 0).
  - intros [= <- <-] _. by rewrite Hs.
  - intros [= <- <-] _. unfold write_remote. destruct (_ && _); simpl; by rewrite ?Hs.
  - intros [= <- <-]. by rewrite Hs.
Qed.
Lemma greeted_feedRx b s : state_ (fst (feedRx b s)) <> ST_CLOSED ->
  greeted (state_ s) ++ peer_bytes (snd (feedRx b s)) = greeted (state_ (fst (feedRx b s))).
Proof.
  unfold feedRx. destruct (feed_loop 4 _ _) as [[s' a]|] eqn:Hl; simpl.
  - intros Ho. by apply (greeted_feed 4) in Hl.
  - intros _. apply app_nil_r.
Qed.
Lemma run_tells ing sid evs s acts : relay_run (new_relay ing sid) evs s acts -> state_ s <> ST_CLOSED ->
  peer_bytes acts = greeted (state_ s) ++ data_out evs /\ (state_ s <> ST_RELAYING -> data_out evs = []).
Proof.
  intros Hrun. induction Hrun as [|evs s1 a1 e s2 a2 Hrun IH Hstep]; intros Ho; [done|].
  pose proof (run_ok _ _ _ _ Hrun eq_refl ltac:(done)) as Hok.
  assert (Ho1 : state_ s1 <> ST_CLOSED).
  { intros Hc. apply Ho. by destruct (step_closed e s1 s2 a2 Hc) as (_ & ? & _); [by rewrite (op_remote _ _ _ Hok), Hc | |]. }
  destruct (IH Ho1) as [Hp Hd]. rewrite peer_app, data_out_app, Hp. clear IH.
  destruct e as [b| | |b|].
  - injection Hstep as Hf. pose proof (greeted_feedRx b s1) as Hg. rewrite Hf in Hg. specialize (Hg Ho). cbn [fst snd] in Hg.
    change (data_out [EvData b]) with (@nil Z). rewrite app_nil_r.
    destruct (decide (state_ s1 = ST_RELAYING)) as [Hr|Hr].
    + assert (Hs2 : state_ s2 = ST_RELAYING /\ peer_bytes a2 = []).
      { unfold feedRx in Hf. change (state_ (set_rx_buffer _ s1)) with (state_ s1) in Hf. rewrite Hr in Hf. cbn in Hf.
        injection Hf as <- <-. unfold write_remote. by destruct (_ && _). }
      destruct Hs2 as [-> ->]. by rewrite Hr, app_nil_r.
    + rewrite Hd in * by done. rewrite !app_nil_r. by split.
  - injection Hstep as Hc. rewrite close_open in Hc by done. by injection Hc as <- _.
  - simpl in Hstep. destruct (_ && _) eqn:Hb; [|done]. apply andb_true_iff in Hb as [_ Hst%bool_decide_eq_true].
    injection Hstep as <- <-. rewrite Hst, Hd by (by rewrite Hst). change (data_out [EvRemoteOpen]) with (@nil Z).
    split; [|done]. unfold write_remote. by destruct (_ && _).
  - simpl in Hstep. destruct (_ && _) eqn:Hb; [|done]. apply andb_true_iff in Hb as [_ Hst%bool_decide_eq_true].
    injection Hstep as <- <-. simpl. rewrite Hst. by split; [rewrite app_assoc|].
  - simpl in Hstep. destruct (remote_tcp_ s1); [|done]. injection Hstep as Hc. unfold onRemoteClose in Hc.
    rewrite close_open in Hc by done. by injection Hc as <- _.
Qed.

Lemma piped_close evs e s acts : piped evs s acts -> opens [e] = false -> data_in [e] = [] ->
  data_out [e] = [] -> piped (evs ++ [e]) (fst (close s)) (acts ++ snd (close s)).
Proof.
  intros [Hp Hs] Ho Hi Hou. unfold piped.
  rewrite opens_app, data_in_app, data_out_app, peer_app, remote_app, Ho, Hi, Hou, orb_false_r, !app_nil_r, Hp.
  destruct (decide (state_ s = ST_CLOSED)) as [Hc|Hc].
  - rewrite close_twice by done. rewrite Hc in Hs. simpl. rewrite Hc, !app_nil_r. done.
  - rewrite close_open by done. simpl.
    assert (Hb : forall r, peer_bytes (farewell r) = [] /\ remote_bytes (farewell r) = []) by (by intros []).
    destruct (Hb (remote_tcp_ s)) as [-> ->]. rewrite !app_nil_r. split; [done|]. split; [done|].
    destruct (state_ s); try done.
    + destruct Hs as (_ & _ & _ & -> & _). apply prefix_nil.
    + by destruct Hs as (_ & _ & -> & _).
Qed.

Lemma piped_step evs e s acts s' a : piped evs s acts -> relay_step e s = Some (s', a) ->
  piped (evs ++ [e]) s' (acts ++ a).
Proof.
  intros Hpi Hstep. destruct e as [b| | |b|]; simpl in Hstep.
  - destruct Hpi as [Hp Hs]. assert (Hd : data_in [EvData b] = b) by apply app_nil_r. unfold piped.
    rewrite opens_app, data_in_app, data_out_app, peer_app, remote_app, Hd, orb_false_r, Hp.
    change (data_out [EvData b]) with (@nil Z). rewrite app_nil_r.
    destruct (state_ s) eqn:Hst; try done.
    + rewrite feed_connecting in Hstep by auto. injection Hstep as <- <-. simpl. rewrite Hst, !app_nil_r.
      destruct Hs as (? & ? & ? & ? & ->). by rewrite app_assoc.
    + destruct Hs as (Hr & Ho & Hrem & Hb). pose proof (feed_relaying b s Hst Hr Hb) as Hf.
      destruct (feedRx b s) as [s1 a1]. injection Hstep as <- <-. destruct Hf as (Hs1 & Hr1 & Hb1 & Hrb & Hpb).
      rewrite Hs1, Hpb, Hrb, app_nil_r. split; [done|]. by rewrite Hrem, app_assoc.
    + rewrite feed_connecting in Hstep by auto. injection Hstep as <- <-. simpl. rewrite Hst, !app_nil_r.
      split; [done|]. destruct Hs as [? Hs]. split; [done|]. rewrite app_assoc. by apply prefix_app_r.
  - injection Hstep as Heq. pose proof (piped_close evs EvPeerClose s acts Hpi) as Hc. rewrite Heq in Hc. by apply Hc.
  - destruct (remote_tcp_ s && _) eqn:Hg; [|done].
    apply andb_true_iff in Hg as [Hr Hst%bool_decide_eq_true]. injection Hstep as <- <-.
    destruct Hpi as [Hp Hs]. rewrite Hst in Hs. destruct Hs as (_ & Ho & Hdo & Hrem & Hb).
    destruct (write_remote_bytes (rx_buffer_ s) (set_state ST_RELAYING s) Hr) as [H1 H2].
    unfold piped. rewrite opens_app, data_in_app, data_out_app, peer_app, remote_app, orb_true_r, Hp, Ho, Hrem.
    change (ToPeer ?x :: ?l) with ([ToPeer x] ++ l). rewrite peer_app, remote_app, H1, H2, Hb.
    change (data_in [EvRemoteOpen]) with (@nil Z). change (data_out [EvRemoteOpen]) with (@nil Z).
    rewrite Hdo, !app_nil_r. done.
  - destruct (remote_tcp_ s && _) eqn:Hg; [|done].
    apply andb_true_iff in Hg as [Hr Hst%bool_decide_eq_true]. injection Hstep as <- <-.
    destruct Hpi as [Hp Hs]. rewrite Hst in Hs. destruct Hs as (_ & Ho & Hrem & Hb).
    assert (Hd : data_out [EvRemoteBytes b] = b) by apply app_nil_r. unfold piped.
    rewrite opens_app, data_in_app, data_out_app, peer_app, remote_app, Hd, orb_false_r, Hp, Ho, Hrem.
    change (data_in [EvRemoteBytes b]) with (@nil Z). change (remote_bytes [ToPeer b]) with (@nil Z).
    replace (peer_bytes [ToPeer b]) with b by (symmetry; apply app_nil_r). simpl. rewrite Hst, !app_nil_r.
    done.
  - destruct (remote_tcp_ s); [|done]. injection Hstep as Heq. unfold onRemoteClose in Heq.
    pose proof (piped_close evs EvRemoteClose s acts Hpi) as Hc. rewrite Heq in Hc. by apply Hc.
Qed.

Lemma piped_run s0 evs s acts : piped [] s0 [] -> relay_run s0 evs s acts -> piped evs s acts.
Proof. intros H0 Hrun. induction Hrun as [|evs s1 a1 e s2 a2 _ IH Hstep]; [done | by eapply piped_step]. Qed.
End pipe.

(** A greeting and request, the socket opens, data both ways, the remote side closes. *)
Definition test_life : list relay_event :=
  [EvData [5; 1; 0]; EvData [5; 1; 0; 1; 10; 0; 0; 1; 0; 80; 71]; EvRemoteOpen; EvData [69; 84];
   EvRemoteBytes [79; 75]; EvRemoteClose; EvPeerClose].
(** The session and actions of a sequence of events. *)
Fixpoint relay_exec {T : Transport} (evs : list relay_event) (s : FgwRelaySession)
    (acts : list relay_action) : option (FgwRelaySession * list relay_action) :=
  match evs with
  | [] => Some (s, acts)
  | e :: evs => match relay_step e s with Some (s, a) => relay_exec evs s (acts ++ a) | None => None end
  end.
Lemma relay_exec_run {T : Transport} evs s0 : forall es s acts s' acts', relay_run s0 es s acts ->
  relay_exec evs s acts = Some (s', acts') -> relay_run s0 (es ++ evs) s' acts'.
Proof.
  induction evs as [|e evs IH]; intros es s acts s' acts' Hrun; simpl.
  - intros [= <- <-]. by rewrite app_nil_r.
  - destruct (relay_step e s) as [[s1 a]|] eqn:He; [|done]. intros Hex.
    change (es ++ e :: evs) with (es ++ [e] ++ evs). rewrite app_assoc. eapply IH; [|exact Hex]. by eapply run_step.
Qed.

(** ** Properties *)

(** C16. The life of a relay session, from its creation, under any sequence of events:
    it dials at most once, and it holds a socket exactly while connecting or relaying.
    While it is open it has closed nothing, and its socket is the one it has dialled.
    Once it is closed, the last things it ever did were to close the socket, exactly when
    it had dialled one, then its stream session and its entry in the service, each exactly
    once. *)
Theorem relay_lifecycle {T : Transport} (ing sid : Z) (evs : list relay_event) (s : FgwRelaySession)
    (acts : list relay_action) (Hrun : relay_run (new_relay ing sid) evs s acts) :
  let dialled := (0 <? dials acts)%nat in
  (dials acts <= 1)%nat /\ remote_tcp_ s = has_remote (state_ s) /\
  (state_ s <> ST_CLOSED -> quiet acts /\ remote_tcp_ s = dialled) /\
  (state_ s = ST_CLOSED -> exists pre, quiet pre /\
     acts = pre ++ (if dialled then [CloseRemote] else []) ++ [CloseStream; Remove]).
Proof.
  destruct (run_ok _ _ _ _ Hrun) as [Hr Hd Hq Hk Hc]; [done | done |].
  split_and!; [simpl in Hd; lia | done | by split; [apply Hq | apply Hk] | exact Hc].
Qed.

Lemma relay_lifecycle_witness : exists s acts,
  relay_run (new_relay 7 9) test_life s acts /\ state_ s = ST_CLOSED /\ dials acts = 1%nat /\
  exists pre, quiet pre /\ acts = pre ++ [CloseRemote; CloseStream; Remove].
Proof.
  destruct (relay_exec test_life (new_relay 7 9) []) as [[s acts]|] eqn:He; [|discriminate He].
  pose proof (relay_exec_run test_life (new_relay 7 9) [] _ [] s acts (run_nil _) He) as Hrun.
  exists s, acts. destruct (relay_lifecycle 7 9 test_life s acts Hrun) as (_ & _ & _ & Hc).
  assert (Hs : state_ s = ST_CLOSED) by (vm_compute in He; by injection He as <- _).
  assert (Hd : dials acts = 1%nat) by (vm_compute in He; by injection He as _ <-).
  rewrite Hd in Hc. split; [exact Hrun|]. split; [exact Hs|]. split; [exact Hd | exact (Hc Hs)].
Defined.

(** C12. A relay session that has dialled is a transparent pipe.  Towards the remote
    side goes what the session held when it dialled followed by all the peer sends, in
    order, each byte once: all of it while relaying, nothing before the socket opens,
    a prefix once the session is closed.  Towards the peer goes the success reply, once
    the socket opens, followed by exactly what the remote side sends. *)
Theorem relay_transparent {T : Transport} (ing sid : Z) (payload target : bytes)
    (evs : list relay_event) (s : FgwRelaySession) (acts : list relay_action)
    (Hmb : forall len, mb_acquire len = true)
    (Hrun : relay_run (relay_at ing sid ST_CONNECTING payload true target) evs s acts) :
  peer_bytes acts = (if opens evs then [5; 0; 0; 1; 0; 0; 0; 0; 0; 0] else []) ++ data_out evs /\
  (state_ s = ST_CONNECTING -> remote_bytes acts = []) /\
  (state_ s = ST_RELAYING -> remote_bytes acts = payload ++ data_in evs) /\
  remote_bytes acts `prefix_of` payload ++ data_in evs.
Proof.
  assert (H0 : piped payload [] (relay_at ing sid ST_CONNECTING payload true target) [])
    by (unfold piped; simpl; by rewrite app_nil_r).
  destruct (piped_run Hmb payload _ _ _ _ H0 Hrun) as [Hp Hs]. split; [done|].
  destruct (state_ s); try done; split_and!; try done.
  - by destruct Hs as (_ & _ & _ & -> & _).
  - destruct Hs as (_ & _ & _ & -> & _). apply prefix_nil.
  - by destruct Hs as (_ & _ & -> & _).
  - by destruct Hs as (_ & _ & -> & _).
  - by destruct Hs.
Qed.

Definition test_pipe : list relay_event := [EvData [69]; EvRemoteOpen; EvData [84]; EvRemoteBytes [79; 75]].
Lemma relay_transparent_witness : exists s acts,
  relay_run (relay_at 7 9 ST_CONNECTING [71] true []) test_pipe s acts /\
  remote_bytes acts = [71; 69; 84] /\
  peer_bytes acts = [5; 0; 0; 1; 0; 0; 0; 0; 0; 0; 79; 75].
Proof.
  destruct (relay_exec test_pipe (relay_at 7 9 ST_CONNECTING [71] true []) []) as [[s acts]|] eqn:He;
    [|discriminate He].
  pose proof (relay_exec_run test_pipe _ [] _ [] s acts (run_nil _) He) as Hrun.
  exists s, acts. destruct (relay_transparent (T := test_transport) 7 9 [71] [] test_pipe s acts (fun _ => eq_refl) Hrun)
    as (Hp & _ & Hr & _).
  assert (Hs : state_ s = ST_RELAYING) by (vm_compute in He; by injection He as <- _).
  split; [exact Hrun|]. split; [exact (Hr Hs) | exact Hp].
Defined.
