(* ===== verification/AppInv.v ===== *)
(** * AppInv: invariants shared by a data stream and its session handlers

    A session handler keeps state of its own that must agree with the stream's table
    of sessions.  A predicate on worlds that the callbacks preserve, one by one, is
    preserved by all the stream does with what arrives. *)
From S2P Require Import Prelude Proto OMap Segment Pack Channel Selector Links DataStream.
From S2P Require Import StreamFacts Framing Sending Traffic.

(** ** What handlers can see *)

(** The part of a session that a handler depends on. *)
Definition ident (st : SessionState) : Z * Z * option Z :=
  (wire_ingress_id st, session_id st, handler st).

Section invariants.
Context {H : Type} {app : SessionHandler H}.
Context {rt : ZdsRuntime} {T : Transport} {sort : StdSort}.
Implicit Types (w : world H) (k : SessionKey).

Definition idents (k : SessionKey) (w : world H) : option (Z * Z * option Z) := ident <$> find_session k w.

Record same_view w w' : Prop := {
  sv_idents : forall k, idents k w' = idents k w;
  sv_cfg : cfg w' = cfg w;
  sv_cb : unknown_cb_set (w_ds w') = unknown_cb_set (w_ds w);
  sv_app : w_app w' = w_app w;
  sv_log : exists l, w_log w' = w_log w ++ l /\ handed l = [] }.
#[export] Instance same_view_preorder : PreOrder same_view.
Proof.
  split; [intros w; constructor; try done; exists []; by rewrite app_nil_r|].
  intros w1 w2 w3 [? ? ? ? (l & Hl & Hh)] [? ? ? ? (l' & Hl' & Hh')]. constructor; try congruence.
  exists (l ++ l'). by rewrite Hl', Hl, app_assoc, handed_app, Hh, Hh'.
Qed.
Lemma sv_handed w w' : same_view w w' -> handed (w_log w') = handed (w_log w).
Proof. intros [_ _ _ _ (l & -> & Hl)]. by rewrite handed_app, Hl, app_nil_r. Qed.
Lemma sv_grows w w' : same_view w w' -> log_grows w w'.
Proof. intros [_ _ _ _ (l & Hl & _)]. by exists l. Qed.
Lemma same_log w w' : w_log w' = w_log w -> exists l, w_log w' = w_log w ++ l /\ handed l = [].
Proof. intros Hl. exists []. by rewrite app_nil_r. Qed.

Lemma idents_erase k k' w : idents k (erase_session k' w) = if decide (k = k') then None else idents k w.
Proof.
  unfold idents. destruct (decide (k = k')) as [->|]; [by rewrite find_erase_eq | by rewrite find_erase_ne].
Qed.
Lemma idents_rx k w : idents k w = ident <$> rx_of k w.
Proof. unfold idents, rx_of. by destruct (find_session k w). Qed.
Lemma idents_called l w w' k i : called l w w' -> idents k w' = Some i -> idents k w = Some i.
Proof. intros Hc. rewrite !idents_rx. by destruct (called_rx_or _ k _ _ Hc) as [-> | ->]. Qed.
Lemma view_core w w' : same_core (w_ds w) (w_ds w') -> w_app w' = w_app w -> w_log w' = w_log w ->
  same_view w w'.
Proof.
  intros (Hc & Hs & _ & _ & _ & Hu) Ha Hl. constructor; try done; [|by apply same_log]. intros k.
  unfold idents, find_session. by rewrite Hs.
Qed.
Lemma view_put k st st' w : find_session k w = Some st -> ident st' = ident st ->
  same_view w (put_session k st' w).
Proof.
  intros Hf Hi. constructor; try done; [|by apply same_log]. intros k'. unfold idents.
  destruct (decide (k' = k)) as [->|]; [by rewrite find_put_eq, Hf; cbn; rewrite Hi | by rewrite find_put_ne].
Qed.
Lemma view_record dk w : same_view w (on_ds (record_dedup dk) w).
Proof.
  destruct (record_dedup_shape dk (w_ds w)) as (q & m & Hs).
  constructor; [..|by apply same_log]; try done; unfold cfg, idents, find_session; simpl; by rewrite Hs.
Qed.
Lemma view_count_win pc w : same_view w (count_win pc w).
Proof. apply view_core; [|done..]. unfold count_win. simpl. by destruct (pc =? 0). Qed.
Lemma view_count_loss pc w : same_view w (count_loss pc w).
Proof. apply view_core; [|done..]. apply count_loss_core. Qed.

(** Sending keeps the view, closing takes one session out of it. *)
Lemma view_net f w : same_view w (on_net f w).
Proof. by apply view_core. Qed.
Lemma view_sendSegment ing sid seq fl p n w : same_view w (snd (sendSegment ing sid seq fl p n w)).
Proof. destruct (sendSegment_shape ing sid seq fl p n w) as (r & f & ->). apply view_net. Qed.
Lemma view_send_chunks fuel key sid buf n w : same_view w (snd (send_chunks fuel key sid buf n w)).
Proof.
  revert buf n w. induction fuel as [|fuel IH]; intros buf n w; [done|].
  cbn [send_chunks]. destruct buf as [|b buf]; [done|].
  destruct (find_session key w) as [st|] eqn:Hf; [|done].
  set (w1 := put_session _ _ _). set (chunk := Z.min _ _). set (p := Some _).
  assert (H1 : same_view w w1) by (by apply (view_put key st)).
  pose proof (view_sendSegment (wire_ingress_id st) sid (next_send_seq st) FLAG_DATA p chunk w1) as H2.
  destruct (sendSegment _ _ _ _ _ _ w1) as [r w2]. cbn [snd] in H2.
  assert (H3 : same_view w w2) by (by etrans). destruct (r <? 0); [done|]. by etrans.
Qed.
Lemma view_sendSessionData sid buf ing w : same_view w (snd (sendSessionData sid buf ing w)).
Proof.
  unfold sendSessionData. destruct (find_session _ w) as [st|]; [|done].
  destruct (closed st); [done|]. apply view_send_chunks.
Qed.
Lemma closeSession_view sid ing w : same_view (erase_session (resolveIngressKey w ing, sid) w) (closeSession sid ing w).
Proof.
  unfold closeSession. set (key := (resolveIngressKey w ing, sid)).
  assert (Hid : forall w', same_view w w' -> same_view (erase_session key w) (erase_session key w')).
  { intros w' [Hi Hc Hb Ha Hl]. constructor; try done. intros k. specialize (Hi k). unfold idents in *.
    destruct (decide (k = key)) as [->|]; [by rewrite !find_erase_eq | by rewrite !find_erase_ne]. }
  destruct (find_session key w) as [st|] eqn:Hf.
  - set (w1 := if closed st then _ else _). transitivity (erase_session key w1).
    2: { constructor; try done. by exists [Gone key]. }
    apply Hid. unfold w1. destruct (closed st); [done|]. etrans; [by apply (view_put key st (bump_send_seq st))|].
    apply view_sendSegment.
  - constructor; try done; [|by apply same_log]. intros k. unfold idents.
    destruct (decide (k = key)) as [->|]; [by rewrite find_erase_eq, Hf | by rewrite find_erase_ne].
Qed.

(** The frames of the link itself do not reach the handlers. *)
Lemma on_hello_app ch p w : w_app (on_hello ch p w) = w_app w.
Proof.
  unfold on_hello. destruct (zds_unpack_FgwHello p true) as [len hello]. destruct (len <? 0); [done|].
  destruct (hello_proto_version hello =? kFgwProtoVersion); simpl; [|done]. by destruct (_ && _).
Qed.
Lemma on_ack_app p w : w_app (on_ack p w) = w_app w.
Proof.
  unfold on_ack. destruct (zds_unpack_FgwLinkFeedback p true) as [len fb].
  destruct ((0 <=? len) && _); [|done]. by destruct (fb_recommended_primary fb =? 0).
Qed.
Lemma emitFeedback_app w : w_app (emitFeedback w) = w_app w.
Proof.
  unfold emitFeedback. destruct (peer_part_count_ (w_ds w)); [done|].
  destruct (_ =? 0); [done|]. destruct (zds_pack_FgwLinkFeedback _ _ _) as [plen payload].
  destruct (plen <? 0); [done|]. destruct (fgwSegmentEncode _ _ _ _ _) as [wrote out].
  by destruct (wrote <? 0).
Qed.

(** ** Steps of the stream's own

    Besides the view, what the stream does between callbacks keeps the send side of every
    session, and says nothing for any of them. *)
Record still w w' : Prop := {
  sl_view : same_view w w';
  sl_tx : forall k, tx k w' = tx k w;
  sl_sound : ZdsLaws rt -> ZdsExact rt -> (forall len, mb_acquire len = true) -> sound w ->
    sound w' /\ forall k, utters k [] (w_net w) (w_net w') }.
#[export] Instance still_preorder : PreOrder still.
Proof.
  split.
  - intros w. split; [done..|]. intros _ _ _ Hw. split; [done|]. intros k. apply utters_refl.
  - intros w1 w2 w3 [Hv Ht Hs] [Hv' Ht' Hs']. split; [by etrans | congruence |]. intros Hz Hx Hm Hw.
    destruct (Hs Hz Hx Hm Hw) as [H2 Hu]. destruct (Hs' Hz Hx Hm H2) as [H3 Hu']. split; [done|].
    intros k. by eapply utters_then.
Qed.
(** Nothing is written. *)
Lemma still_core w w' : same_core (w_ds w) (w_ds w') -> w_app w' = w_app w -> w_log w' = w_log w ->
  sim (w_net w) (w_net w') -> wire_ (w_net w') = wire_ (w_net w) -> still w w'.
Proof.
  intros Hc Ha Hl Hs Hw. pose proof Hc as (Hcf & Hse & _). split; [by apply view_core | |].
  - intros k. unfold tx, find_session. by rewrite Hse.
  - intros _ _ _ Hsd. split; [|intros k; by apply utters_sim]. apply (sound_step w); [done.. |].
    intros k st. unfold find_session. rewrite Hse. by left.
Qed.
Lemma still_put k st st' w : find_session k w = Some st -> ident st' = ident st ->
  next_send_seq st' = next_send_seq st -> closed st' = closed st -> still w (put_session k st' w).
Proof.
  intros Hf Hi Hn Hc. split; [by eapply view_put | |].
  - intros k'. unfold tx. destruct (decide (k' = k)) as [->|]; [|by rewrite find_put_ne].
    rewrite find_put_eq, Hf. simpl. by rewrite Hn.
  - intros _ _ _ Hw. split; [|intros k'; apply utters_refl]. apply sound_put; [done|].
    destruct (so_sess _ Hw _ _ Hf) as (Hid & Hk & Hu & Hcl). unfold ident in Hi. injection Hi as Hi1 Hi2 _.
    split_and!; try done; try congruence; apply Hk.
Qed.
Lemma still_record dk w : still w (on_ds (record_dedup dk) w).
Proof.
  pose proof (view_record dk w) as Hv. destruct (record_dedup_shape dk (w_ds w)) as (q & m & Hs).
  assert (Hf : forall k, find_session k (on_ds (record_dedup dk) w) = find_session k w)
    by (intros k; unfold find_session; simpl; by rewrite Hs).
  split; [done | intros k; unfold tx; by rewrite Hf |]. intros _ _ _ Hw. split; [|intros k; apply utters_refl].
  apply (sound_step w); [done | unfold cfg; simpl; by rewrite Hs | done |]. intros k st. rewrite Hf. by left.
Qed.
Lemma still_count_win pc w : still w (count_win pc w).
Proof. apply still_core; [|done..]. unfold count_win. simpl. by destruct (pc =? 0). Qed.
Lemma still_count_loss pc w : still w (count_loss pc w).
Proof. apply still_core; [|done..]. apply count_loss_core. Qed.
Lemma still_chan ch f w : (forall c, chan_sim c (f c)) -> still w (on_net (upd_chan ch f) w).
Proof. intros Hf. apply still_core; try done. by apply sim_upd. Qed.
Lemma on_hello_still ch p w : still w (on_hello ch p w).
Proof.
  apply still_core; [apply on_hello_core | apply on_hello_app | apply on_hello_core | |];
    unfold on_hello; destruct (zds_unpack_FgwHello p true) as [len hello]; destruct (len <? 0); try done;
    (destruct (hello_proto_version hello =? kFgwProtoVersion); simpl; [|done]).
  - destruct (_ && _); by apply sim_upd.
  - by destruct (_ && _).
Qed.
Lemma on_ack_still p w : still w (on_ack p w).
Proof.
  apply still_core; [apply on_ack_core | apply on_ack_app | apply on_ack_core | |];
    unfold on_ack; destruct (zds_unpack_FgwLinkFeedback p true) as [len fb]; destruct ((0 <=? len) && _); try done;
    destruct (fb_recommended_primary fb =? 0); try done. by apply sim_set_selector.
Qed.
Lemma emitFeedback_still w : still w (emitFeedback w).
Proof.
  destruct (emitFeedback_core w) as [Hc Hl]. pose proof Hc as (Hcf & Hse & _). split.
  - by apply view_core; [| apply emitFeedback_app |].
  - intros k. unfold tx, find_session. by rewrite Hse.
  - intros Hz Hx Hm Hw. pose proof (fun k => speak_feedback Hm k w Hw) as Hu. split; [|done].
    apply (sound_step w); [done | done | apply (Hu (0, 0)) |]. intros k st. unfold find_session. rewrite Hse. by left.
Qed.
(** A session entered by its peer has said nothing. *)
Lemma sound_ensure k w : key_ok k -> sound w -> sound (ensure_session k w).
Proof.
  intros Hk Hw. unfold ensure_session. destruct (find_session k w) as [st|]; [done|].
  destruct (if unknown_cb_set (w_ds w) then _ else _) as [h a]. apply sound_put; [|by destruct k].
  by apply (sound_step w); auto.
Qed.
Lemma net_ensure k w : w_net (ensure_session k w) = w_net w.
Proof.
  unfold ensure_session. destruct (find_session k w) as [st|]; [done|].
  by destruct (if unknown_cb_set (w_ds w) then _ else _) as [h a].
Qed.

(** ** The invariants

    [Q k h] is what an invariant [P] knows of a handler [h] that session [k] names; it
    must outlive the session, since a run of data goes on being handed over after the
    handler has closed the session.  The peers' frames name sessions with [K] only. *)
Record stream_invariant (K : SessionKey -> Prop) (P : world H -> Prop)
    (Q : SessionKey -> Z -> world H -> Prop) : Prop := {
  si_still : forall w w', still w w' -> P w -> P w';
  si_ensure : forall k w, K k -> P w -> P (ensure_session k w);
  si_known : forall k st h w, P w -> find_session k w = Some st -> handler st = Some h ->
    Q (wire_ingress_id st, session_id st) h w;
  si_open : forall k h w, P w -> P (call_open k h (snd k) w);
  si_data : forall k h d w, P w -> Q k h w ->
    P (call_data k h (snd k) d w) /\ Q k h (call_data k h (snd k) d w);
  si_close : forall k st h w, P w -> find_session k w = Some st -> handler st = Some h ->
    P (erase_session k (call_close k h (snd k) w));
  si_forget : forall k st w, P w -> find_session k w = Some st -> handler st = None ->
    P (erase_session k w) }.

Section preserved.
Context {K : SessionKey -> Prop} {P : world H -> Prop} {Q : SessionKey -> Z -> world H -> Prop}.
Context (SI : stream_invariant K P Q).

Lemma si_deliver_all ready : forall k h w, P w -> Q k h w -> P (deliver_all k h (snd k) ready w).
Proof.
  induction ready as [|b ready IH]; intros k h w Hp Hq; [done|]. simpl.
  destruct (0 <? zlen b); [|by apply IH]. destruct (si_data _ _ _ SI k h b w Hp Hq). by apply IH.
Qed.
Lemma si_deliver k st w : P w -> find_session k w = Some st -> P (deliverInOrder k st w).
Proof.
  intros Hp Hf. unfold deliverInOrder. destruct (handler st) as [h|] eqn:Hh; [|done].
  destruct (take_run _ _) as [[ready e] rest]. set (w1 := put_session _ _ w).
  assert (H1 : P w1) by (eapply (si_still _ _ _ SI); [by apply (still_put k st) | done]).
  apply (si_deliver_all ready (wire_ingress_id st, session_id st)); [done|].
  apply (si_known _ _ _ SI k (set_rx e rest st)); [done | apply find_put_eq | done].
Qed.
Lemma si_on_syn k w : K k -> P w -> P (on_syn k w).
Proof.
  intros Hk Hp. unfold on_syn. apply (si_ensure _ _ _ SI k) in Hp; [|done].
  destruct (find_session k (ensure_session k w)) as [st|]; [|done].
  destruct (handler st); [|done]. by apply (si_open _ _ _ SI).
Qed.
Lemma si_on_fin k w : P w -> P (on_fin k w).
Proof.
  intros Hp. unfold on_fin. destruct (find_session k w) as [st|] eqn:Hf; [|done].
  destruct (handler st) as [h|] eqn:Hh; [by eapply (si_close _ _ _ SI) | by eapply (si_forget _ _ _ SI)].
Qed.
Lemma si_on_data k seq p w : K k -> P w -> P (on_data k seq p w).
Proof.
  intros Hk Hp. unfold on_data. apply (si_ensure _ _ _ SI k) in Hp; [|done].
  destruct (ensure_find k w) as [h Hf]. rewrite Hf. set (st := default _ _) in *.
  set (st' := if mb_acquire _ then _ else _).
  apply si_deliver; [|apply find_put_eq]. eapply (si_still _ _ _ SI); [|done].
  apply (still_put k st); [done | unfold st'; by destruct (mb_acquire _)..].
Qed.
Lemma si_on_segment ch hdr p w : K (seg_key hdr) -> P w -> P (on_segment ch hdr p w).
Proof.
  intros Hk Hp. unfold on_segment. destruct (decide _).
  { eapply (si_still _ _ _ SI); [apply still_count_loss | done]. }
  destruct (_ && _); [done|]. set (w1 := count_win _ _).
  assert (H1 : P w1).
  { eapply (si_still _ _ _ SI); [|exact Hp]. etrans; [apply still_record | apply still_count_win]. }
  unfold dispatch. set (w2 := if isSyn hdr then _ else _).
  assert (H2 : P w2) by (unfold w2; destruct (isSyn hdr); [by apply si_on_syn | done]).
  destruct (isFin hdr); [by apply si_on_fin|]. destruct (has_data hdr); [by apply si_on_data | done].
Qed.
Lemma si_on_frame ch hdr hr f w : K (seg_key hdr) -> P w -> P (on_frame ch hdr hr f w).
Proof.
  intros Hk Hp. unfold on_frame. destruct (verify_crc_ (cfg w) && _); [done|]. set (w1 := on_net _ w).
  assert (H1 : P w1) by (eapply (si_still _ _ _ SI); [by apply still_chan | done]).
  destruct (isHello hdr); [eapply (si_still _ _ _ SI); [apply on_hello_still | done]|].
  destruct (isHeartbeat hdr); [done|]. destruct (isAck hdr); [|by apply si_on_segment].
  eapply (si_still _ _ _ SI); [apply on_ack_still | done].
Qed.
Lemma si_on_frames ch fs w : Forall (fun f => K (seg_key (f_hdr f))) fs -> P w -> P (on_frames ch fs w).
Proof.
  intros Hfs. revert w. induction Hfs as [|f fs Hk _ IH]; intros w Hp; [done|]. by apply IH, si_on_frame.
Qed.
Lemma si_onChannelBytes ch buf w :
  Forall (fun f => K (seg_key (f_hdr f))) (fst (split_frames (default [] (scratch_ (w_ds w) !! ch) ++ buf))) ->
  P w -> P (onChannelBytes ch buf w).
Proof.
  intros Hk Hp. rewrite onChannelBytes_split. set (b := default [] _ ++ buf) in *.
  eapply (si_still _ _ _ SI); [|by apply (si_on_frames ch (fst (split_frames b)))].
  set (w1 := on_frames _ _ w). split; [constructor; try done; by apply same_log | done |].
  intros _ _ _ Hw. split; [|intros k; apply utters_refl]. apply (sound_step w1); [done..|]. by left.
Qed.
Lemma si_emitFeedback w : P w -> P (emitFeedback w).
Proof. intros Hp. eapply (si_still _ _ _ SI); [apply emitFeedback_still | done]. Qed.
End preserved.

(** Invariants of what the handlers see, whatever is said on the links and whatever
    sessions the peers name. *)
Record app_invariant (P : world H -> Prop) (Q : SessionKey -> Z -> world H -> Prop) : Prop := {
  ai_view : forall w w', same_view w w' -> P w -> P w';
  ai_ensure : forall k w, P w -> P (ensure_session k w);
  ai_known : forall k st h w, P w -> find_session k w = Some st -> handler st = Some h ->
    Q (wire_ingress_id st, session_id st) h w;
  ai_open : forall k h w, P w -> P (call_open k h (snd k) w);
  ai_data : forall k h d w, P w -> Q k h w ->
    P (call_data k h (snd k) d w) /\ Q k h (call_data k h (snd k) d w);
  ai_close : forall k st h w, P w -> find_session k w = Some st -> handler st = Some h ->
    P (erase_session k (call_close k h (snd k) w));
  ai_forget : forall k st w, P w -> find_session k w = Some st -> handler st = None ->
    P (erase_session k w) }.

Context {P : world H -> Prop} {Q : SessionKey -> Z -> world H -> Prop} (AI : app_invariant P Q).

Lemma app_stream : stream_invariant (fun _ => True) P Q.
Proof. destruct AI. constructor; auto. intros w w' Hs. eauto using sl_view. Qed.
Lemma ai_on_data k seq p w : P w -> P (on_data k seq p w).
Proof. by apply (si_on_data app_stream). Qed.
Lemma ai_onChannelBytes ch buf w : P w -> P (onChannelBytes ch buf w).
Proof. apply (si_onChannelBytes app_stream). by apply List.Forall_forall. Qed.
Lemma ai_emitFeedback w : P w -> P (emitFeedback w).
Proof. apply (si_emitFeedback app_stream). Qed.
End invariants.
