(* ===== verification/Outport.v ===== *)
(** * Outport: the SOCKS5 terminator, [OutportService] of [src/zfgw_outport.cpp]

    The service owns the relay sessions and is the session handler of its data
    stream: it creates a relay for every session a peer opens, feeds it the data of
    that session, and takes it out when it closes.  The sessions are objects on a
    heap of their own: the stream reaches them by raw pointers, the service's table
    by counted ones, so that a session leaves the heap when it leaves the table.  A
    call through a pointer to a session that is gone, or a method that goes on with
    one that is, is undefined behaviour; [os_ub] says it has happened.  What the model does
    from there on is what the code does as long as the memory is what it was. *)
From S2P Require Import Prelude Proto OMap Segment Pack Channel Selector Links DataStream Relay.

(** ** State *)
Record OutportService := mkOutport {
  os_heap : gmap Z FgwRelaySession;
  (** [sessions_] *)
  os_sessions : gmap SessionKey Z;
  (** the address of the next object *)
  os_next : Z;
  (** what the relays have done to their outbound sockets *)
  os_out : list (SessionKey * relay_action);
  os_ub : bool }.
Definition new_outport : OutportService := mkOutport empty empty 1 [] false.

Definition set_relay (a : Z) (r : FgwRelaySession) (o : OutportService) : OutportService :=
  mkOutport (<[a := r]> (os_heap o)) (os_sessions o) (os_next o) (os_out o) (os_ub o).
Definition add_out (k : SessionKey) (l : list relay_action) (o : OutportService) : OutportService :=
  mkOutport (os_heap o) (os_sessions o) (os_next o) (os_out o ++ map (pair k) l) (os_ub o).
Definition mark_ub (b : bool) (o : OutportService) : OutportService :=
  mkOutport (os_heap o) (os_sessions o) (os_next o) (os_out o) (os_ub o || b).

Definition relay_key (r : FgwRelaySession) : SessionKey := (rs_peer_ingress r, rs_session_id r).

(** ** The table *)
Definition ensureSession (peer_ingress session_id : Z) (o : OutportService) : Z * OutportService :=
  match os_sessions o !! (peer_ingress, session_id) with
  | Some a => (a, o)
  | None =>
    let a := os_next o in
    (a, mkOutport (<[a := new_relay peer_ingress session_id]> (os_heap o))
          (<[(peer_ingress, session_id) := a]> (os_sessions o)) (a + 1) (os_out o) (os_ub o))
  end.

(** The entry leaves the table and, its last reference, the object the heap. *)
Definition removeSession (peer_ingress session_id : Z) (o : OutportService) : OutportService :=
  match os_sessions o !! (peer_ingress, session_id) with
  | Some a => mkOutport (delete a (os_heap o)) (delete (peer_ingress, session_id) (os_sessions o))
                (os_next o) (os_out o) (os_ub o)
  | None => o
  end.

(** The order of [std::map<std::pair<..>, ..>]. *)
Definition key_le (x y : SessionKey * Z) : Prop :=
  fst (fst x) < fst (fst y) \/ (fst (fst x) = fst (fst y) /\ snd (fst x) <= snd (fst y)).
#[export] Instance key_le_dec x y : Decision (key_le x y).
Proof. unfold key_le. apply _. Defined.
Definition in_order_entries (o : OutportService) : list (SessionKey * Z) :=
  merge_sort key_le (map_to_list (os_sessions o)).
Definition snapshotSessions (o : OutportService) : list FgwRelaySession :=
  concat (map (fun e => match os_heap o !! snd e with Some r => [r] | None => [] end)
            (in_order_entries o)).

(** ** The relays at work *)

(** The calls a relay makes on the stream, and what it does to its socket. *)
Definition call_of (r : FgwRelaySession) (a : relay_action) : list stream_call :=
  match a with
  | ToPeer d => [CallSend (rs_session_id r) d (rs_peer_ingress r)]
  | CloseStream => [CallClose (rs_session_id r) (rs_peer_ingress r)]
  | _ => []
  end.
Definition calls_of (r : FgwRelaySession) (acts : list relay_action) : list stream_call :=
  concat (map (call_of r) acts).
Definition is_outward (a : relay_action) : bool :=
  match a with Dial _ _ | ToRemote _ | CloseRemote => true | _ => false end.
Definition removes (acts : list relay_action) : bool :=
  existsb (fun a => match a with Remove => true | _ => false end) acts.

(** The relay at [a] has become [r], taking the actions [acts]. *)
Definition settle (a : Z) (r : FgwRelaySession) (acts : list relay_action) (o : OutportService)
    : OutportService :=
  let o := add_out (relay_key r) (List.filter is_outward acts) (set_relay a r o) in
  if removes acts then removeSession (rs_peer_ingress r) (rs_session_id r) o else o.

(** The callbacks of an outbound socket. *)
Inductive socket_event := SkOpen | SkBytes (data : bytes) | SkClose.
Definition event_of (e : socket_event) : relay_event :=
  match e with SkOpen => EvRemoteOpen | SkBytes b => EvRemoteBytes b | SkClose => EvRemoteClose end.

Section outport.
Context {rt : ZdsRuntime} {T : Transport} {sort : StdSort}.

(** Whether the object at [h] is gone. *)
Definition freed (h : Z) (o : OutportService) : bool := bool_decide (os_heap o !! h = None).

(** Whether [feedRx] touches the session at [h] when it is gone: what the loop does to the
    session is carried out on the service, and the heap is asked at the accesses that follow
    a parser.  The guard in [tryParseMethods] is released once the parser is done, [close()]
    included, and the loop takes the lock again when [tryParseRequest] has returned its
    length. *)
Fixpoint feed_dangles (fuel : nat) (h : Z) (st : RelayState) (s : FgwRelaySession) (o : OutportService) : bool :=
  match fuel with
  | O => false
  | S fuel =>
    match st with
    | ST_AWAIT_METHODS =>
      let '(ret, s, acts) := tryParseMethods s in
      let o := settle h s acts o in
      freed h o || (if ret <=? 0 then false else feed_dangles fuel h (state_ s) s o)
    | ST_AWAIT_REQUEST =>
      let '(ret, s, acts) := tryParseRequest s in
      let o := settle h s acts o in
      if ret <=? 0 then false else freed h o || feed_dangles fuel h (state_ s) s o
    | _ => false
    end
  end.
Definition feedRx_dangles (h : Z) (buf : bytes) (s : FgwRelaySession) (o : OutportService) : bool :=
  feed_dangles 4 h (state_ s) (set_rx_buffer (rx_buffer_ s ++ buf) s) o.

(** [dataStreamHook()] and the [ISessionHandler] side of [FgwRelaySession]. *)
#[export] Instance outport_handler : SessionHandler OutportService := {|
  unknown_cb peer_ingress session_id o :=
    let '(a, o) := ensureSession peer_ingress session_id o in (Some a, o);
  onSessionOpen h _ o := mark_ub (bool_decide (os_heap o !! h = None)) o;
  onSessionData h _ data o :=
    match os_heap o !! h with
    | None => (mark_ub true o, [])
    | Some r =>
      let '(r', acts) := feedRx data r in
      (settle h r' acts (mark_ub (feedRx_dangles h data r o) o), calls_of r acts)
    end;
  onSessionClose h _ o :=
    match os_heap o !! h with
    | None => (mark_ub true o, [])
    | Some r => let '(r', acts) := close r in (settle h r' acts o, calls_of r acts)
    end |}.

(** [start()]. *)
Definition start (w : world OutportService) : world OutportService :=
  on_ds setUnknownSessionCallback w.

(** A callback of the [OutboundTcp] of the relay at [a]; its owner is cleared when the
    relay closes. *)
Definition on_remote (a : Z) (e : socket_event) (w : world OutportService) : world OutportService :=
  match os_heap (w_app w) !! a with
  | None => w
  | Some r =>
    match relay_step (event_of e) r with
    | None => w
    | Some (r', acts) => apply_calls (calls_of r acts) (set_app (settle a r' acts (w_app w)) w)
    end
  end.

(** [stop()]: the table is emptied first, the sessions in it live until all of them
    have closed. *)
Definition stop_one (w : world OutportService) (e : SessionKey * Z) : world OutportService :=
  match os_heap (w_app w) !! snd e with
  | None => w
  | Some r =>
    let '(r', acts) := close r in
    apply_calls (calls_of r acts) (set_app (settle (snd e) r' acts (w_app w)) w)
  end.
Definition drop_table (o : OutportService) : OutportService :=
  mkOutport (os_heap o) empty (os_next o) (os_out o) (os_ub o).
Definition free_all (l : list (SessionKey * Z)) (o : OutportService) : OutportService :=
  mkOutport (foldr (fun e h => delete (snd e) h) (os_heap o) l) (os_sessions o) (os_next o)
    (os_out o) (os_ub o).
Definition stop (w : world OutportService) : world OutportService :=
  let copy := in_order_entries (w_app w) in
  let w := set_app (drop_table (w_app w)) w in
  let w := fold_left stop_one copy w in
  set_app (free_all copy (w_app w)) w.

(** ** The service among its callers *)
Inductive outport_step :=
  | OsBytes (ch : Z) (buf : bytes)       (** bytes arrive on a link *)
  | OsFeedback                           (** the heartbeat asks for feedback *)
  | OsRemote (a : Z) (e : socket_event)  (** an outbound socket calls back *)
  | OsStop.
Definition outport_do (s : outport_step) (w : world OutportService) : world OutportService :=
  match s with
  | OsBytes ch buf => onChannelBytes ch buf w
  | OsFeedback => emitFeedback w
  | OsRemote a e => on_remote a e w
  | OsStop => stop w
  end.
Definition outport_run (ss : list outport_step) (w : world OutportService) : world OutportService :=
  fold_left (fun w s => outport_do s w) ss w.
End outport.
