(* ===== verification/OutportWf.v ===== *)
(** * OutportWf: the service's table, its relays and the stream agree

    The invariant of [OutportService] and its stream, and its preservation by all that
    can arrive: bytes on the links, callbacks of the outbound sockets, a stop. *)
From S2P Require Import Prelude Proto OMap Segment Pack Channel Selector Links DataStream.
From S2P Require Import StreamFacts Framing AppInv Relay Socks RelayLife Outport.

(** A relay that is not closed holds a socket exactly while connecting or relaying. *)
Definition open_relay (r : FgwRelaySession) : Prop :=
  state_ r <> ST_CLOSED /\ remote_tcp_ r = has_remote (state_ r).

(** The peers whose ingress id is neither reserved nor the service's own. *)
Definition peer_key (loc : Z) (k : SessionKey) : Prop :=
  fst k <> kFgwWireIngressUseLocal /\ fst k <> loc.

Record table_wf (loc : Z) (ids : SessionKey -> option (Z * Z * option Z)) (o : OutportService) : Prop := {
  (** the table names live relays, each under its own key, *)
  tw_entry : forall k a, os_sessions o !! k = Some a ->
    exists r, os_heap o !! a = Some r /\ relay_key r = k /\ open_relay r;
  (** all of them, *)
  tw_heap : forall a r, os_heap o !! a = Some r -> os_sessions o !! relay_key r = Some a;
  tw_fresh : forall a, is_Some (os_heap o !! a) -> a < os_next o;
  tw_ids : forall k i, ids k = Some i -> fst i = k;
  (** and the stream has exactly the sessions of the table, with these relays. *)
  tw_stream : forall k, peer_key loc k -> snd <$> ids k = Some <$> os_sessions o !! k }.

(** ** Identities *)
Section keys.
Context {T : Transport}.
Implicit Types (s : FgwRelaySession).

Lemma close_key s : relay_key (fst (close s)) = relay_key s.
Proof. unfold close. by destruct (state_ s). Qed.
Lemma reject_key s : relay_key (snd (fst (reject s))) = relay_key s.
Proof. unfold reject. pose proof (close_key s). by destruct (close s). Qed.
Lemma methods_key s : relay_key (snd (fst (tryParseMethods s))) = relay_key s.
Proof.
  unfold tryParseMethods. destruct (_ <? 2); [done|]. destruct (negb _); [|by destruct (_ <? _)].
  pose proof (close_key s). by destruct (close s).
Qed.
Lemma connect_key h p s : relay_key (fst (startConnect h p s)) = relay_key s.
Proof.
  unfold startConnect. destruct (_ <? 0); [|done].
  pose proof (close_key (set_remote_tcp true s)). by destruct (close _).
Qed.
Lemma request_key s : relay_key (snd (fst (tryParseRequest s))) = relay_key s.
Proof.
  unfold tryParseRequest. destruct (_ <? 5); [done|].
  destruct (negb _); [pose proof (close_key s); by destruct (close s)|].
  destruct (parse_addr _) as [| |need host port]; [done | apply reject_key|].
  destruct (negb _); [apply (reject_key (set_rx_buffer _ s))|]. set (s1 := set_state _ _).
  pose proof (connect_key host port s1). by destruct (startConnect _ _ s1).
Qed.
Lemma feed_key fuel : forall st s s' a, feed_loop fuel st s = Some (s', a) -> relay_key s' = relay_key s.
Proof.
  induction fuel as [|fuel IH]; intros st s s' a; [done|].
  destruct (parser st) as [f|] eqn:Hf.
  - rewrite (feed_loop_parse _ _ f) by done.
    assert (Hk : relay_key (snd (fst (f s))) = relay_key s).
    { destruct st; try discriminate Hf; injection Hf as <-; [apply methods_key | apply request_key]. }
    destruct (f s) as [[ret s1] a1]. cbn [fst snd] in Hk. destruct (ret <=? 0); [by intros [= <- <-]|].
    destruct (feed_loop fuel (state_ s1) s1) as [[s2 a2]|] eqn:Hl; [|done]. intros [= <- <-].
    by rewrite (IH _ _ _ _ Hl).
  - destruct st; try discriminate Hf; cbn [feed_loop]; intros [= <- <-]; try done.
    by destruct (write_remote _ _).
Qed.
Lemma feedRx_key b s : relay_key (fst (feedRx b s)) = relay_key s.
Proof.
  unfold feedRx. destruct (feed_loop 4 _ _) as [[s' a]|] eqn:Hl; [|done]. by apply feed_key in Hl.
Qed.
Lemma step_key e s s' a : relay_step e s = Some (s', a) -> relay_key s' = relay_key s.
Proof.
  pose proof (close_key s) as Hc. destruct e as [b| | |b|]; simpl.
  - intros [= Heq]. pose proof (feedRx_key b s) as Hk. by rewrite Heq in Hk.
  - intros [= Heq]. by rewrite Heq in Hc.
  - destruct (_ && _); [|done]. by intros [= <- <-].
  - destruct (_ && _); [|done]. by intros [= <- <-].
  - destruct (remote_tcp_ s); [|done]. intros [= Heq]. unfold onRemoteClose in Heq. by rewrite Heq in Hc.
Qed.
End keys.

(** ** The table *)
Section table.
Implicit Types (o : OutportService) (r : FgwRelaySession).

Lemma table_live loc ids o a r : table_wf loc ids o -> os_heap o !! a = Some r -> open_relay r.
Proof.
  intros Hw Hr. destruct (tw_entry _ _ _ Hw _ _ (tw_heap _ _ _ Hw _ _ Hr)) as (r' & Hr' & _ & Ho).
  by rewrite Hr in Hr'; injection Hr' as ->.
Qed.
Lemma table_inj loc ids o a b r : table_wf loc ids o -> os_heap o !! a = Some r ->
  os_sessions o !! relay_key r = Some b -> a = b.
Proof. intros Hw Hr Hb. pose proof (tw_heap _ _ _ Hw _ _ Hr). congruence. Qed.

(** A view of the stream that differs where it does not matter. *)
Lemma table_ids loc ids ids' o : table_wf loc ids o ->
  (forall k i, ids' k = Some i -> fst i = k) ->
  (forall k, peer_key loc k -> ids' k = ids k) -> table_wf loc ids' o.
Proof. intros [He Hh Hf _ Hs] Hi Heq. constructor; try done. intros k Hk. rewrite Heq by done. by apply Hs. Qed.

Lemma table_ub loc ids o b : table_wf loc ids o -> table_wf loc ids (mark_ub b o).
Proof. by intros []. Qed.

(** A relay changes. *)
Lemma table_set loc ids o a r r' l : table_wf loc ids o -> os_heap o !! a = Some r ->
  relay_key r' = relay_key r -> open_relay r' ->
  table_wf loc ids (add_out (relay_key r') l (set_relay a r' o)).
Proof.
  intros Hw Hr Hk Ho. pose proof (tw_heap _ _ _ Hw _ _ Hr) as Ha. destruct Hw as [He Hh Hf Hi Hs].
  constructor; simpl; try done.
  - intros k b Hb. destruct (decide (b = a)) as [->|Hne].
    + exists r'. rewrite lookup_insert_eq. split; [done|]. split; [|done].
      destruct (He k a Hb) as (r0 & Hr0 & Hk0 & _). rewrite Hr in Hr0. injection Hr0 as <-. congruence.
    + rewrite lookup_insert_ne by done. by apply He.
  - intros b r0. destruct (decide (b = a)) as [->|Hne].
    + rewrite lookup_insert_eq. intros [= <-]. by rewrite Hk.
    + rewrite lookup_insert_ne by done. apply Hh.
  - intros b. destruct (decide (b = a)) as [->|Hne]; [|rewrite lookup_insert_ne by done; apply Hf].
    intros _. apply Hf. by exists r.
Qed.

(** A relay leaves, and its session leaves the stream. *)
Lemma table_remove loc ids ids' o a r r' l : table_wf loc ids o -> os_heap o !! a = Some r ->
  relay_key r' = relay_key r ->
  (forall k i, ids' k = Some i -> ids k = Some i) ->
  (forall k, peer_key loc k -> ids' k = if decide (k = relay_key r) then None else ids k) ->
  table_wf loc ids' (removeSession (rs_peer_ingress r') (rs_session_id r')
    (add_out (relay_key r') l (set_relay a r' o))).
Proof.
  intros Hw Hr Hk Hsub Hids. pose proof (tw_heap _ _ _ Hw _ _ Hr) as Ha.
  unfold removeSession. fold (relay_key r'). simpl. rewrite Hk, Ha.
  assert (Hinj : forall k, os_sessions o !! k = Some a -> k = relay_key r).
  { intros k Hk'. destruct (tw_entry _ _ _ Hw k a Hk') as (r0 & Hr0 & Hk0 & _). congruence. }
  destruct Hw as [He Hh Hf Hi Hs]. constructor; simpl.
  - intros k b [Hne Hb]%lookup_delete_Some. destruct (He k b Hb) as (r0 & Hr0 & Hk0 & Ho0). exists r0.
    assert (b <> a) by (intros ->; by apply Hne, eq_sym, Hinj).
    by rewrite lookup_delete_ne, lookup_insert_ne.
  - intros b r0 [Hne Hb]%lookup_delete_Some. rewrite lookup_insert_ne in Hb by done.
    rewrite lookup_delete_ne; [by apply Hh|]. intros Heq. apply Hh in Hb. congruence.
  - intros b [r0 [Hne Hb]%lookup_delete_Some]. rewrite lookup_insert_ne in Hb by done. apply Hf. by exists r0.
  - intros k i Hk0. by apply Hi, Hsub.
  - intros k Hp. rewrite Hids by done. destruct (decide (k = relay_key r)) as [->|Hne].
    + by rewrite lookup_delete_eq.
    + rewrite lookup_delete_ne by done. by apply Hs.
Qed.

(** A relay is made for a session of the stream. *)
Lemma table_ensure loc ids ids' o a o' k : table_wf loc ids o -> ensureSession (fst k) (snd k) o = (a, o') ->
  ids k = None -> ids' k = Some (k, Some a) -> (forall k', k' <> k -> ids' k' = ids k') ->
  table_wf loc ids' o'.
Proof.
  intros Hw He Hn Hk Hne. unfold ensureSession in He. destruct k as [ing sid]. cbn [fst snd] in He.
  assert (Hi : forall k' i, ids' k' = Some i -> fst i = k').
  { intros k' i. destruct (decide (k' = (ing, sid))) as [->|Hd]; [rewrite Hk; by intros [= <-]|].
    rewrite Hne by done. apply (tw_ids _ _ _ Hw). }
  destruct (os_sessions o !! (ing, sid)) as [b|] eqn:Hb; injection He as <- <-.
  - destruct Hw as [He Hh Hf _ Hs]. constructor; try done. intros k' Hp.
    destruct (decide (k' = (ing, sid))) as [->|Hd]; [by rewrite Hk, Hb | by rewrite Hne; auto].
  - assert (Hfresh : os_heap o !! os_next o = None).
    { destruct (os_heap o !! os_next o) eqn:Hx; [|done].
      pose proof (tw_fresh _ _ _ Hw (os_next o) ltac:(by eexists)). lia. }
    assert (Hna : forall k' b, os_sessions o !! k' = Some b -> b <> os_next o).
    { intros k' b0 Hk' ->. destruct (tw_entry _ _ _ Hw _ _ Hk') as (r & Hr & _). congruence. }
    destruct Hw as [He Hh Hf _ Hs]. constructor; simpl; [| | |done|].
    + intros k' b0 [[<- <-]|[Hd Hb0]]%lookup_insert_Some.
      * exists (new_relay ing sid). by rewrite lookup_insert_eq.
      * pose proof (Hna _ _ Hb0). rewrite lookup_insert_ne by congruence. by apply He.
    + intros b0 r [[<- <-]|[Hd Hb0]]%lookup_insert_Some.
      * change (relay_key _) with (ing, sid). by rewrite lookup_insert_eq.
      * rewrite lookup_insert_ne; [by apply Hh|]. intros Heq. apply Hh in Hb0. congruence.
    + intros b0 [r [[<- _]|[_ Hr]]%lookup_insert_Some]; [lia|]. specialize (Hf b0 ltac:(by eexists)). lia.
    + intros k' Hp. destruct (decide (k' = (ing, sid))) as [->|Hd].
      * by rewrite Hk, lookup_insert_eq.
      * rewrite Hne, lookup_insert_ne by done. by apply Hs.
Qed.
End table.

(** ** The stream and the service together *)
Section service.
Context {rt : ZdsRuntime} {T : Transport} {sort : StdSort}.
Implicit Types (w : world OutportService).

Definition loc_of w : Z := local_ingress_id_ (cfg w).
Definition outport_wf w : Prop :=
  unknown_cb_set (w_ds w) = true /\ table_wf (loc_of w) (fun k => idents k w) (w_app w).

Lemma wf_same_view w w' : same_view w w' -> outport_wf w -> outport_wf w'.
Proof.
  intros [Hi Hc Hu Ha _] [Hcb Hw]. unfold outport_wf, loc_of. rewrite Hu, Hc, Ha. split; [done|].
  eapply table_ids; [exact Hw | | done]. intros k i. rewrite Hi. apply (tw_ids _ _ _ Hw).
Qed.

(** The calls of a relay that stays open only send. *)
Lemma calls_quiet r acts w : quiet acts -> same_view w (apply_calls (calls_of r acts) w).
Proof.
  revert w. induction acts as [|a acts IH]; intros w Hq; [done|].
  inversion Hq as [|? ? Ha Hq']; subst. unfold apply_calls in *.
  destruct a; try discriminate Ha; [|by apply IH..].
  etrans; [|by apply IH]. apply view_sendSessionData.
Qed.
Lemma apply_calls_app cs cs' w : apply_calls (cs ++ cs') w = apply_calls cs' (apply_calls cs w).
Proof. apply fold_left_app. Qed.
Lemma calls_of_app r a b : calls_of r (a ++ b) = calls_of r a ++ calls_of r b.
Proof. unfold calls_of. by rewrite map_app, concat_app. Qed.

Definition stream_key w (r : FgwRelaySession) : SessionKey :=
  (resolveIngressKey w (rs_peer_ingress r), rs_session_id r).
Lemma same_view_erase k w w' : same_view w w' -> same_view (erase_session k w) (erase_session k w').
Proof.
  intros [Hi Hc Hu Ha Hl]. constructor; try done. intros k'. specialize (Hi k'). unfold idents in *.
  destruct (decide (k' = k)) as [->|]; [by rewrite !find_erase_eq | by rewrite !find_erase_ne].
Qed.
(** Those of one that closes take its session out of the stream. *)
Lemma calls_farewell r pre b w : quiet pre ->
  same_view (erase_session (stream_key w r) w) (apply_calls (calls_of r (pre ++ farewell b)) w).
Proof.
  intros Hq. rewrite calls_of_app, apply_calls_app. pose proof (calls_quiet r pre w Hq) as Hv.
  replace (calls_of r (farewell b)) with [CallClose (rs_session_id r) (rs_peer_ingress r)] by (by destruct b).
  simpl. etrans; [|apply closeSession_view].
  unfold stream_key, resolveIngressKey. rewrite (sv_cfg _ _ Hv). by apply same_view_erase.
Qed.

Lemma removes_quiet acts : quiet acts -> removes acts = false.
Proof. induction 1 as [|a acts Ha _ IH]; [done|]. simpl. rewrite IH. by destruct a. Qed.
Lemma removes_farewell pre b : removes (pre ++ farewell b) = true.
Proof. unfold removes. rewrite existsb_app. by destruct b; rewrite orb_true_r. Qed.

Lemma peer_stream_key k w r : peer_key (loc_of w) k -> k = stream_key w r <-> k = relay_key r.
Proof.
  intros [H1 H2]. unfold stream_key, relay_key, resolveIngressKey. destruct k as [ing sid]. cbn [fst] in *.
  unfold loc_of in H2. destruct (Z.eqb_spec (rs_peer_ingress r) kFgwWireIngressUseLocal) as [He|]; [|done].
  rewrite He. split; intros [= -> ->]; congruence.
Qed.

(** A relay works, by whatever callback; the world may have gained a log entry. *)
Lemma wf_settle w w1 a r r' acts b : outport_wf w -> w_ds w1 = w_ds w -> w_net w1 = w_net w ->
  os_heap (w_app w) !! a = Some r -> op_ok r r' acts -> relay_key r' = relay_key r ->
  outport_wf (apply_calls (calls_of r acts) (set_app (settle a r' acts (mark_ub b (w_app w))) w1)).
Proof.
  intros [Hcb Hw] Hds Hnet Hr Hop Hk. pose proof (table_live _ _ _ _ _ Hw Hr) as [Hne Hrem].
  set (w2 := set_app _ w1). assert (Hfind : forall k, idents k w2 = idents k w)
    by (intros k; unfold idents, find_session; simpl; by rewrite Hds).
  assert (Hloc : loc_of w2 = loc_of w) by (unfold loc_of, cfg; simpl; by rewrite Hds).
  assert (Hcb2 : unknown_cb_set (w_ds w2) = true) by (simpl; by rewrite Hds).
  pose proof (table_ub _ _ _ b Hw) as Hw'.
  destruct (decide (state_ r' = ST_CLOSED)) as [Hc|Hc].
  - destruct (op_closed _ _ _ Hop Hc) as (pre & rem & Hq & ->).
    eapply wf_same_view; [by apply calls_farewell|]. split; [done|].
    change (loc_of (erase_session (stream_key w2 r) w2)) with (loc_of w2). rewrite Hloc.
    change (w_app _) with (settle a r' (pre ++ farewell rem) (mark_ub b (w_app w))).
    unfold settle. rewrite removes_farewell. eapply table_remove; [exact Hw' | exact Hr | done | |].
    + intros k i. rewrite idents_erase. destruct (decide _); [done|]. by rewrite Hfind.
    + intros k Hp. rewrite idents_erase, Hfind. rewrite <- Hloc in Hp.
      pose proof (peer_stream_key k w2 r Hp). do 2 destruct (decide _); tauto || done.
  - pose proof (op_quiet _ _ _ Hop Hc) as Hq. eapply wf_same_view; [by apply calls_quiet|]. split; [done|].
    rewrite Hloc. change (w_app w2) with (settle a r' acts (mark_ub b (w_app w))).
    unfold settle. rewrite removes_quiet by done. eapply table_ids.
    + eapply table_set; [exact Hw' | exact Hr | done |]. split; [done | apply Hop].
    + intros k i. rewrite Hfind. apply (tw_ids _ _ _ Hw).
    + intros k _. apply Hfind.
Qed.

Lemma wf_mark w w1 b : outport_wf w -> w_ds w1 = w_ds w ->
  outport_wf (set_app (mark_ub b (w_app w)) w1).
Proof.
  intros [Hcb Hw] Hds. split; [simpl; by rewrite Hds|].
  assert (Hloc : loc_of (set_app (mark_ub b (w_app w)) w1) = loc_of w) by (unfold loc_of, cfg; simpl; by rewrite Hds).
  rewrite Hloc. eapply table_ids; [by apply table_ub | |]; unfold idents, find_session; simpl; rewrite Hds;
    [apply (tw_ids _ _ _ Hw) | done].
Qed.
Lemma mark_false o : mark_ub false o = o.
Proof. unfold mark_ub. rewrite orb_false_r. by destruct o. Qed.

Lemma close_ok s : open_relay s -> op_ok s (fst (close s)) (snd (close s)).
Proof. intros [Hs _]. apply (op_close s [] Hs); [constructor | done]. Qed.

Lemma wf_call_data k h sid d w : outport_wf w -> outport_wf (call_data k h sid d w).
Proof.
  intros Hw. unfold call_data. simpl. destruct (os_heap (w_app w) !! h) as [r|] eqn:Hr.
  - pose proof (table_live _ _ _ _ _ (proj2 Hw) Hr) as [Hne Hrem].
    pose proof (op_feedRx d r Hrem Hne) as Hop. pose proof (feedRx_key d r) as Hk.
    destruct (feedRx d r) as [r' acts]. by apply (wf_settle w _ h r r').
  - by apply (wf_mark w).
Qed.
Lemma wf_call_close k h sid w : outport_wf w -> outport_wf (call_close k h sid w).
Proof.
  intros Hw. unfold call_close. simpl. destruct (os_heap (w_app w) !! h) as [r|] eqn:Hr.
  - pose proof (close_ok r (table_live _ _ _ _ _ (proj2 Hw) Hr)) as Hop. pose proof (close_key r) as Hk.
    destruct (close r) as [r' acts]. rewrite <- (mark_false (w_app w)). by apply (wf_settle w _ h r r').
  - by apply (wf_mark w).
Qed.

(** After its relay closed, a peer's session is gone from the stream. *)
Lemma closed_gone k h w : outport_wf w -> peer_key (loc_of w) k ->
  snd <$> idents k w = Some (Some h) -> idents k (call_close k h (snd k) w) = None.
Proof.
  intros Hw Hp Hk. destruct Hw as [Hcb Hw]. rewrite (tw_stream _ _ _ Hw k Hp) in Hk.
  destruct (os_sessions (w_app w) !! k) as [a|] eqn:Ha; [|done]. injection Hk as ->.
  destruct (tw_entry _ _ _ Hw k h Ha) as (r & Hr & Hrk & Ho).
  unfold call_close. simpl. rewrite Hr. unfold close. destruct Ho as [Ho _].
  destruct (state_ r) eqn:Hst; try done; (set (w1 := set_app _ _);
    rewrite (sv_idents _ _ (calls_farewell r [] (remote_tcp_ r) w1 ltac:(constructor))), idents_erase;
    rewrite decide_True; [done|]; by apply (peer_stream_key k w1 r)).
Qed.

Lemma outport_invariant : app_invariant outport_wf (fun _ _ _ => True).
Proof.
  constructor; try done.
  - intros w w'. apply wf_same_view.
  - intros k w Hw. unfold ensure_session. destruct (find_session k w) as [st|] eqn:Hf; [done|].
    destruct Hw as [Hcb Hw]. rewrite Hcb. simpl.
    destruct (ensureSession (fst k) (snd k) (w_app w)) as [a o'] eqn:He. split; [done|].
    eapply table_ensure; [exact Hw | exact He | | |].
    + unfold idents. by rewrite Hf.
    + unfold idents. rewrite find_put_eq. by destruct k.
    + intros k' Hne. unfold idents. by rewrite find_put_ne.
  - intros k h w Hw. unfold call_open. simpl. by apply (wf_mark w).
  - intros k h d w Hw _. split; [by apply wf_call_data | done].
  - intros k st h w Hw Hf Hh. pose proof (wf_call_close k h (snd k) w Hw) as [Hcb' Hw'].
    split; [done|]. eapply table_ids; [exact Hw' | |].
    + intros k' i. rewrite idents_erase. destruct (decide _); [done|]. apply (tw_ids _ _ _ Hw').
    + intros k' Hp. rewrite idents_erase. destruct (decide (k' = k)) as [->|]; [|done]. symmetry.
      apply closed_gone; [done | |].
      * unfold loc_of in *. by rewrite <- (ds_sess_cfg _ _ (cd_ds _ _ _ (call_close_called k h (snd k) w))).
      * unfold idents. rewrite Hf. simpl. by rewrite Hh.
  - intros k st w [Hcb Hw] Hf Hh. split; [done|]. eapply table_ids; [exact Hw | |].
    + intros k' i. rewrite idents_erase. destruct (decide _); [done|]. apply (tw_ids _ _ _ Hw).
    + intros k' Hp. rewrite idents_erase. destruct (decide (k' = k)) as [->|]; [|done]. exfalso.
      pose proof (tw_stream _ _ _ Hw k Hp) as Hs. unfold idents in Hs. rewrite Hf in Hs. simpl in Hs.
      rewrite Hh in Hs. by destruct (os_sessions (w_app w) !! k).
Qed.
End service.

(** ** Callbacks of the sockets, and the stop *)
Section steps.
Context {rt : ZdsRuntime} {T : Transport} {sort : StdSort}.
Implicit Types (w : world OutportService).

Lemma wf_on_remote a e w : outport_wf w -> outport_wf (on_remote a e w).
Proof.
  intros Hw. unfold on_remote. destruct (os_heap (w_app w) !! a) as [r|] eqn:Hr; [|done].
  destruct (table_live _ _ _ _ _ (proj2 Hw) Hr) as [Hne Hrem].
  destruct (relay_step (event_of e) r) as [[r' acts]|] eqn:He; [|done].
  rewrite <- (mark_false (w_app w)). apply (wf_settle w w a r r'); try done.
  - by eapply op_step.
  - by eapply step_key.
Qed.

Lemma entries_elem o k a : (k, a) ∈ in_order_entries o <-> os_sessions o !! k = Some a.
Proof. unfold in_order_entries. by rewrite merge_sort_Permutation, elem_of_map_to_list. Qed.
Lemma entries_nodup loc ids o : table_wf loc ids o -> NoDup (map snd (in_order_entries o)).
Proof.
  intros Hw. apply NoDup_fmap_2_strong; [|unfold in_order_entries; rewrite merge_sort_Permutation; apply NoDup_map_to_list].
  intros [k a] [k' a'] H1 H2. rewrite entries_elem in H1, H2. cbn [snd]. intros <-.
  destruct (tw_entry _ _ _ Hw _ _ H1) as (r & Hr & Hk & _).
  destruct (tw_entry _ _ _ Hw _ _ H2) as (r' & Hr' & Hk' & _). congruence.
Qed.

(** What closing the relays of [l] makes of a world whose table has been emptied. *)
Record stopped (l : list (SessionKey * Z)) w w' : Prop := {
  sp_table : os_sessions (w_app w') = empty;
  sp_heap : forall a, os_heap (w_app w') !! a = None <-> os_heap (w_app w) !! a = None;
  sp_cb : unknown_cb_set (w_ds w') = unknown_cb_set (w_ds w);
  sp_cfg : cfg w' = cfg w;
  sp_sub : forall k i, idents k w' = Some i -> idents k w = Some i;
  sp_gone : forall k, peer_key (loc_of w) k ->
    idents k w' = if decide (k ∈ map fst l) then None else idents k w }.

Lemma stop_one_spec w k a r : os_sessions (w_app w) = empty -> os_heap (w_app w) !! a = Some r ->
  relay_key r = k -> open_relay r ->
  stopped [(k, a)] w (stop_one w (k, a)) /\
  (forall b, b <> a -> os_heap (w_app (stop_one w (k, a))) !! b = os_heap (w_app w) !! b).
Proof.
  intros Hs Hr <- [Ho _]. unfold stop_one. cbn [snd]. rewrite Hr, close_open by done.
  set (r' := set_remote_tcp _ _). set (w1 := set_app _ w).
  pose proof (calls_farewell r [] (remote_tcp_ r) w1 ltac:(constructor)) as Hv. cbn [app] in Hv.
  assert (Happ : w_app w1 = add_out (relay_key r) (List.filter is_outward (farewell (remote_tcp_ r)))
                              (set_relay a r' (w_app w))).
  { unfold w1, settle. cbn [w_app set_app].
    pose proof (removes_farewell [] (remote_tcp_ r)) as Hrm. cbn [app] in Hrm. rewrite Hrm. unfold removeSession.
    cbn [os_sessions add_out set_relay]. by rewrite Hs, lookup_empty. }
  destruct Hv as [Hi Hc Hu Ha _].
  set (w2 := apply_calls _ w1) in *. change (w_app (erase_session _ w1)) with (w_app w1) in Ha. rewrite Happ in Ha.
  split; [constructor|]; rewrite ?Ha; cbn [os_sessions os_heap add_out set_relay]; try done.
  - intros b. destruct (decide (b = a)) as [->|]; [|by rewrite lookup_insert_ne].
    rewrite lookup_insert_eq, Hr. split; discriminate.
  - intros k i. rewrite Hi, idents_erase. by destruct (decide _).
  - intros k Hp. rewrite Hi, idents_erase. pose proof (peer_stream_key k w1 r Hp) as Hk.
    assert (Hel : k ∈ map fst [(relay_key r, a)] <-> k = relay_key r) by (cbn; set_solver).
    do 2 destruct (decide _); tauto || done.
  - intros b Hb. by rewrite lookup_insert_ne.
Qed.

Lemma stop_all_spec l : forall w, os_sessions (w_app w) = empty -> NoDup (map snd l) ->
  (forall k a, (k, a) ∈ l -> exists r, os_heap (w_app w) !! a = Some r /\ relay_key r = k /\ open_relay r) ->
  stopped l w (fold_left stop_one l w).
Proof.
  induction l as [|[k a] l IH]; intros w Hs Hnd Hl; [done|].
  destruct (Hl k a) as (r & Hr & Hk & Ho); [set_solver|]. cbn [map fst snd] in Hnd.
  apply NoDup_cons in Hnd as [Hnin Hnd]. cbn [fold_left].
  destruct (stop_one_spec w k a r Hs Hr Hk Ho) as [[Hs1 Hh1 Hcb1 Hc1 Hsub1 Hg1] Hoth].
  set (w1 := stop_one w (k, a)) in *.
  destruct (IH w1) as [Hs2 Hh2 Hcb2 Hc2 Hsub2 Hg2]; [done..| |].
  { intros k' a' Hin. rewrite Hoth; [apply Hl; set_solver|]. intros ->. apply Hnin.
    apply list_elem_of_fmap. by exists (k', a). }
  constructor; try congruence.
  - intros b. by rewrite Hh2.
  - intros k' i Hi. by apply Hsub1, Hsub2.
  - intros k' Hp. rewrite Hg2 by (unfold loc_of in *; by rewrite Hc1). rewrite Hg1 by done. cbn [map fst].
    repeat destruct (decide _); done || (exfalso; set_solver).
Qed.

Lemma free_all_heap l o a : os_heap (free_all l o) !! a = if decide (a ∈ map snd l) then None else os_heap o !! a.
Proof.
  simpl. induction l as [|[k b] l IH]; cbn [foldr map snd].
  - rewrite decide_False; [done | apply not_elem_of_nil].
  - destruct (decide (a = b)) as [->|Hne].
    + by rewrite lookup_delete_eq, decide_True by apply list_elem_of_here.
    + rewrite lookup_delete_ne, IH by done. apply decide_ext. rewrite elem_of_cons. tauto.
Qed.

(** A stop leaves no relay, and no session of a peer in the stream. *)
Lemma stop_spec w : outport_wf w ->
  os_sessions (w_app (stop w)) = empty /\ os_heap (w_app (stop w)) = empty /\ cfg (stop w) = cfg w /\
  (forall k, peer_key (loc_of w) k -> find_session k (stop w) = None) /\ outport_wf (stop w).
Proof.
  intros [Hcb Hw]. unfold stop. set (l := in_order_entries (w_app w)). set (w0 := set_app (drop_table (w_app w)) w).
  assert (Hst : stopped l w0 (fold_left stop_one l w0)).
  { apply stop_all_spec; [done | by eapply entries_nodup |]. intros k a Hin%entries_elem. by apply (tw_entry _ _ _ Hw). }
  destruct Hst as [Hs Hh Hcb' Hc Hsub Hg]. set (w1 := fold_left stop_one l w0) in *.
  assert (Hheap : os_heap (free_all l (w_app w1)) = empty).
  { apply map_empty. intros a. rewrite free_all_heap. destruct (decide _) as [|Hn]; [done|]. apply Hh.
    change (os_heap (w_app w0)) with (os_heap (w_app w)).
    destruct (os_heap (w_app w) !! a) as [r|] eqn:Hr; [|done]. exfalso. apply Hn. apply list_elem_of_fmap.
    exists (relay_key r, a). split; [done|]. by apply entries_elem, (tw_heap _ _ _ Hw). }
  assert (Hgone : forall k, peer_key (loc_of w) k -> idents k w1 = None).
  { intros k Hp. rewrite (Hg k Hp). destruct (decide _) as [|Hn]; [done|].
    change (idents k w0) with (idents k w). pose proof (tw_stream _ _ _ Hw k Hp) as Hk.
    destruct (os_sessions (w_app w) !! k) as [a|] eqn:Ha; [|by destruct (idents k w)].
    exfalso. apply Hn, list_elem_of_fmap. exists (k, a). split; [done | by apply entries_elem]. }
  set (w2 := set_app (free_all l (w_app w1)) w1).
  assert (Ht : os_sessions (w_app w2) = empty) by exact Hs.
  split_and!; [exact Hs | exact Hheap | exact Hc | |].
  - intros k Hp. specialize (Hgone k Hp). unfold idents in Hgone. change (find_session k w2) with (find_session k w1).
    by destruct (find_session k w1).
  - split; [etrans; [exact Hcb' | exact Hcb]|]. constructor.
    + intros k a. by rewrite Ht, lookup_empty.
    + intros a r. change (os_heap (w_app w2)) with (os_heap (free_all l (w_app w1))). by rewrite Hheap, lookup_empty.
    + intros a. change (os_heap (w_app w2)) with (os_heap (free_all l (w_app w1))). rewrite Hheap, lookup_empty. by intros [].
    + intros k i Hi. apply (tw_ids _ _ _ Hw). by apply (Hsub k i).
    + intros k Hp. rewrite Ht, lookup_empty. change (idents k w2) with (idents k w1). rewrite Hgone; [done|].
      assert (Hl : loc_of w2 = loc_of w) by (unfold loc_of, cfg; simpl; change (cfg_ (w_ds w1)) with (cfg w1); by rewrite Hc).
      by rewrite Hl in Hp.
Qed.

Lemma wf_outport_do s w : outport_wf w -> outport_wf (outport_do s w).
Proof.
  intros Hw. destruct s as [ch buf| |a e|]; simpl.
  - by apply (ai_onChannelBytes outport_invariant).
  - by apply (ai_emitFeedback outport_invariant).
  - by apply wf_on_remote.
  - by apply stop_spec.
Qed.
Lemma wf_outport_run ss w : outport_wf w -> outport_wf (outport_run ss w).
Proof. revert w. induction ss as [|s ss IH]; intros w Hw; [done | by apply IH, wf_outport_do]. Qed.

Lemma cfg_outport_do s w : outport_wf w -> cfg (outport_do s w) = cfg w.
Proof.
  intros Hw. destruct s as [ch buf| |a e|]; simpl.
  - rewrite onChannelBytes_split. unfold cfg. simpl. apply io_on_frames.
  - apply emitFeedback_core.
  - unfold on_remote. destruct (os_heap (w_app w) !! a) as [r|]; [|done].
    destruct (relay_step (event_of e) r) as [[r' acts]|]; [|done].
    by rewrite (ds_sess_cfg _ _ (proj1 (apply_calls_only (calls_of r acts) _))).
  - by apply stop_spec.
Qed.
Lemma cfg_outport_run ss w : outport_wf w -> cfg (outport_run ss w) = cfg w.
Proof.
  revert w. induction ss as [|s ss IH]; intros w Hw; [done|]. unfold outport_run in *. cbn [fold_left].
  rewrite IH by (by apply wf_outport_do). by apply cfg_outport_do.
Qed.

(** A service that has just started. *)
Definition new_service (loc segment_size recv_window : Z) (verify : bool) (route : Z) (net : Links)
    : world OutportService :=
  start (mkWorld (new_stream loc segment_size recv_window verify route) net new_outport []).
Lemma wf_new_service loc ss win v r net : outport_wf (new_service loc ss win v r net).
Proof.
  split; [done|]. constructor; simpl; try done.
  - intros a [x Hx]. by rewrite lookup_empty in Hx.
Qed.
End steps.

(** ** Properties *)

(** C14. The sessions of the outport are in step.  After any bytes on the links, socket
    callbacks, heartbeats and stops: the table of the service names exactly the relays
    that exist, each under its own key and none of them closed, holding a socket exactly
    while it is connecting or relaying; and for every peer whose ingress id is neither
    the reserved one nor the service's own, the stream has a session exactly when the
    table has a relay, and hands the session's data to that relay.  A stop leaves no
    relay, and no session of such a peer. *)
Theorem outport_in_step {rt : ZdsRuntime} {T : Transport} {sort : StdSort}
    (loc ss win : Z) (v : bool) (route : Z) (net : Links) (steps : list outport_step)
    (w := outport_run steps (new_service loc ss win v route net)) (o := w_app w) :
  (forall k a, os_sessions o !! k = Some a ->
     exists r, os_heap o !! a = Some r /\ relay_key r = k /\ state_ r <> ST_CLOSED /\
       remote_tcp_ r = has_remote (state_ r)) /\
  (forall a r, os_heap o !! a = Some r -> os_sessions o !! relay_key r = Some a) /\
  (forall k, peer_key loc k -> handler <$> find_session k w = Some <$> os_sessions o !! k) /\
  os_sessions (w_app (stop w)) = empty /\ os_heap (w_app (stop w)) = empty /\
  (forall k, peer_key loc k -> find_session k (stop w) = None).
Proof.
  pose proof (wf_new_service loc ss win v route net) as H0. pose proof (cfg_outport_run steps _ H0) as Hc.
  pose proof (wf_outport_run steps _ H0) as Hw. fold w in Hw, Hc.
  destruct (stop_spec w Hw) as (Ht & Hheap & _ & Hgone & _). unfold loc_of in Hgone. rewrite Hc in Hgone.
  destruct Hw as [_ [He Hh _ _ Hs]]. unfold loc_of in Hs. rewrite Hc in Hs.
  fold o in He, Hh, Hs. split; [|split; [exact Hh | split; [|by split_and!]]].
  - intros k a Hk. destruct (He k a Hk) as (r & ? & ? & []). eauto.
  - intros k Hk. specialize (Hs k Hk). unfold idents in Hs. by rewrite <- option_fmap_compose in Hs.
Qed.
