(* ===== verification/Serve.v ===== *)
(** * Serve: what the outport does for a client

    The data of a session reaches its relay in deliveries of the stream; here the
    negotiation of [Socks] is carried through the service: what it does to the
    outbound socket, what it sends back, and when it goes on with a relay that has
    freed itself. *)
From S2P Require Import Prelude Proto Segment Channel Selector Links DataStream Testbed Relay.
From S2P Require Import Socks.
From S2P Require Import RelayLife Outport OutportWf.

Section serve.
Context {T : Transport}.
Implicit Types (s : FgwRelaySession) (o : OutportService).

(** ** Going on with a freed relay *)

(** A step of a relay frees it, if it is its session's entry, exactly when it closes it. *)
Lemma freed_open h s s' a o : op_ok s s' a -> state_ s' <> ST_CLOSED -> freed h (settle h s' a o) = false.
Proof.
  intros Hop Ho. unfold freed, settle. rewrite removes_quiet by (by apply (op_quiet _ _ _ Hop)).
  apply bool_decide_eq_false. cbn [os_heap add_out set_relay]. by rewrite lookup_insert_eq.
Qed.
Lemma freed_closed h s s' a o : op_ok s s' a -> state_ s' = ST_CLOSED -> os_sessions o !! relay_key s' = Some h ->
  freed h (settle h s' a o) = true /\ os_sessions (settle h s' a o) !! relay_key s' = None.
Proof.
  intros Hop Hc Ht. destruct (op_closed _ _ _ Hop Hc) as (pre & r & _ & ->). unfold settle. rewrite removes_farewell.
  unfold removeSession. cbn [os_sessions add_out set_relay]. fold (relay_key s'). rewrite Ht. split.
  - apply bool_decide_eq_true. apply lookup_delete_eq.
  - apply lookup_delete_eq.
Qed.
Lemma settle_open h s s' a o : op_ok s s' a -> state_ s' <> ST_CLOSED ->
  os_sessions (settle h s' a o) = os_sessions o /\ os_heap (settle h s' a o) !! h = Some s'.
Proof.
  intros Hop Ho. unfold settle. rewrite removes_quiet by (by apply (op_quiet _ _ _ Hop)).
  split; [done | apply lookup_insert_eq].
Qed.
Lemma parser_ok s f : parser (state_ s) = Some f -> remote_tcp_ s = has_remote (state_ s) ->
  op_ok s (snd (fst (f s))) (snd (f s)) /\ relay_key (snd (fst (f s))) = relay_key s.
Proof.
  destruct (state_ s) eqn:Hs; intros [= <-] Hr;
    [split; [by apply op_methods | apply methods_key] | split; [by apply op_request | apply request_key]].
Qed.

Lemma feed_dangles_closed fuel : forall h s s' a o, remote_tcp_ s = has_remote (state_ s) ->
  feed_loop fuel (state_ s) s = Some (s', a) -> feed_dangles fuel h (state_ s) s o = true -> state_ s' = ST_CLOSED.
Proof.
  induction fuel as [|fuel IH]; intros h s s' a o Hr; [done|].
  destruct (parser (state_ s)) as [f|] eqn:Hf; [|by destruct (state_ s)]. rewrite (feed_loop_parse _ _ f) by done.
  destruct (parser_ok s f Hf Hr) as [Hop _]. intros Hl Hd.
  assert (Hd1 : freed h (settle h (snd (fst (f s))) (snd (f s)) o) || (if fst (fst (f s)) <=? 0 then false else
    feed_dangles fuel h (state_ (snd (fst (f s)))) (snd (fst (f s))) (settle h (snd (fst (f s))) (snd (f s)) o)) = true).
  { destruct (state_ s); try discriminate Hf; injection Hf as <-; cbn [feed_dangles] in Hd.
    - by destruct (tryParseMethods s) as [[ret s1] a1].
    - destruct (tryParseRequest s) as [[ret s1] a1]. cbn [fst snd]. by destruct (ret <=? 0). }
  clear Hd Hf. destruct (f s) as [[ret s1] a1]. cbn [fst snd] in *.
  destruct (decide (state_ s1 = ST_CLOSED)) as [Hc|Hc].
  - destruct (ret <=? 0); [by injection Hl as <- _|]. rewrite Hc in Hl. destruct fuel; [done|].
    cbn [feed_loop] in Hl. by injection Hl as <- _.
  - rewrite (freed_open h s s1 a1 o Hop Hc) in Hd1. cbn [orb] in Hd1. destruct (ret <=? 0); [done|].
    destruct (feed_loop fuel (state_ s1) s1) as [[s2 a2]|] eqn:Hl2; [|done]. injection Hl as <- _.
    by apply (IH h s1 s2 a2 _ (op_remote _ _ _ Hop) Hl2 Hd1).
Qed.
Lemma feedRx_dangles_closed h b s o : Forall is_byte b -> Forall is_byte (rx_buffer_ s) ->
  remote_tcp_ s = has_remote (state_ s) -> feedRx_dangles h b s o = true -> state_ (fst (feedRx b s)) = ST_CLOSED.
Proof.
  intros Hb Hs Hr. pose proof (feedRx_spec b s Hb Hs) as Hl. destruct (feedRx b s) as [s' a].
  change (state_ s) with (state_ (ext b s)) in Hl. by apply (feed_dangles_closed 4 h (ext b s) s' a o).
Qed.

(** A relay that dials and closes in one delivery has been gone on with. *)
Lemma reject_dials s : state_ s <> ST_CLOSED -> dials (snd (reject s)) = 0%nat.
Proof.
  intros Hs. unfold reject. rewrite close_open by done. cbn [fst snd]. by rewrite dials_app, dials_farewell.
Qed.
Lemma methods_dials s : state_ s = ST_AWAIT_METHODS -> dials (snd (tryParseMethods s)) = 0%nat.
Proof.
  intros Hs. unfold tryParseMethods. destruct (_ <? 2); [done|]. destruct (negb _); [|by destruct (_ <? _)].
  rewrite close_open by (by rewrite Hs). apply dials_farewell.
Qed.
Lemma request_dials s : state_ s = ST_AWAIT_REQUEST -> Forall is_byte (rx_buffer_ s) ->
  (0 < dials (snd (tryParseRequest s)))%nat -> 0 < fst (fst (tryParseRequest s)).
Proof.
  intros Hs Hb. unfold tryParseRequest. destruct (_ <? 5); [cbn; lia|].
  destruct (negb _); [rewrite close_open by (by rewrite Hs); cbn [fst snd]; rewrite dials_farewell; lia|].
  pose proof (parse_addr_pos (rx_buffer_ s)) as Hpos.
  destruct (parse_addr (rx_buffer_ s)) as [| |need host port]; [cbn; lia | rewrite reject_dials; [lia | by rewrite Hs]|].
  destruct (Hpos need host port Hb eq_refl) as [Hn _].
  destruct (negb _); [rewrite reject_dials; [lia | cbn; by rewrite Hs]|].
  by destruct (startConnect _ _ _) as [s' a].
Qed.
(** What follows a parser that took its input. *)
Lemma parser_next s f : parser (state_ s) = Some f -> Forall is_byte (rx_buffer_ s) ->
  0 < fst (fst (f s)) ->
  (rank (state_ (snd (fst (f s)))) < rank (state_ s))%nat /\ state_ (snd (fst (f s))) <> ST_RELAYING.
Proof.
  intros Hf Hb. pose proof (parser_decides s f Hf Hb) as Hd. unfold decides in Hd.
  destruct (f s) as [[ret s1] a1]. by apply Hd.
Qed.

Lemma feed_dials_closed fuel : forall h s s' a o, os_sessions o !! relay_key s = Some h ->
  remote_tcp_ s = false -> Forall is_byte (rx_buffer_ s) ->
  state_ s <> ST_RELAYING -> feed_loop fuel (state_ s) s = Some (s', a) ->
  (0 < dials a)%nat -> state_ s' = ST_CLOSED -> feed_dangles fuel h (state_ s) s o = true.
Proof.
  induction fuel as [|fuel IH]; intros h s s' a o Ht Hr Hb Hnr Hl Hd Hc; [done|].
  destruct (parser (state_ s)) as [f|] eqn:Hf.
  2: { destruct (state_ s); try discriminate Hf; try (by destruct Hnr); injection Hl as <- <-; cbn in Hd; lia. }
  rewrite (feed_loop_parse _ _ f) in Hl by done. pose proof (parser_bytes s f Hf Hb) as Hb1.
  pose proof (parser_next s f Hf Hb) as Hn.
  destruct (parser_ok s f Hf) as [Hop Hk]; [by destruct (state_ s)|]. rewrite <- Hk in Ht.
  destruct (state_ s) eqn:Hs; try discriminate Hf; injection Hf as <-; cbn [feed_dangles].
  - pose proof (methods_dials s Hs) as Hd1.
    destruct (tryParseMethods s) as [[ret s1] a1]. cbn [fst snd] in *. apply orb_true_iff.
    destruct (decide (state_ s1 = ST_CLOSED)) as [Hc1|Hc1]; [left; by apply (freed_closed h s s1 a1 o)|right].
    destruct (Z.leb_spec ret 0) as [Hret|Hret]; [injection Hl as <- <-; lia|].
    destruct (feed_loop fuel (state_ s1) s1) as [[s2 a2]|] eqn:Hl2; [|done]. injection Hl as <- <-.
    rewrite dials_app in Hd. destruct (Hn Hret) as [Hrk Hnr1]. pose proof (op_remote _ _ _ Hop) as Hr1.
    assert (Hcon : state_ s1 <> ST_CONNECTING).
    { intros Hst. rewrite Hst in Hl2. destruct fuel; [done|]. injection Hl2 as <- <-. change (dials []) with 0%nat in Hd. lia. }
    apply (IH h s1 s2 a2); try done; [by rewrite (proj1 (settle_open h s s1 a1 o Hop Hc1)) | | lia].
    rewrite Hr1. by destruct (state_ s1).
  - pose proof (request_dials s Hs Hb) as Hd1.
    destruct (tryParseRequest s) as [[ret s1] a1]. cbn [fst snd] in *.
    destruct (Z.leb_spec ret 0) as [Hret|Hret]; [injection Hl as <- <-; lia|]. apply orb_true_iff. left.
    apply (freed_closed h s s1 a1 o); [done | | done].
    destruct (feed_loop fuel (state_ s1) s1) as [[s2 a2]|] eqn:Hl2; [|done]. injection Hl as <- <-.
    destruct (Hn Hret) as [Hrk Hnr1]. simpl in Hrk.
    destruct fuel; [done|]. destruct (state_ s1) eqn:Hs1; simpl in Hrk; try lia; try done.
    injection Hl2 as <- <-. by rewrite Hs1 in Hc.
Qed.

(** ** A run of deliveries at the service *)
Lemma feedRx_connecting c s : state_ s = ST_CONNECTING \/ state_ s = ST_CLOSED ->
  state_ (fst (feedRx c s)) = state_ s /\ snd (feedRx c s) = [].
Proof. intros [Hs|Hs]; unfold feedRx; simpl; by rewrite Hs. Qed.
Lemma feeds_settled cs : forall s, state_ s = ST_CONNECTING \/ state_ s = ST_CLOSED ->
  state_ (fst (feeds cs s)) = state_ s /\ snd (feeds cs s) = [].
Proof.
  induction cs as [|c cs IH]; intros s Hs; [done|]. cbn [feeds].
  destruct (feedRx_connecting c s Hs) as [H1 H2]. destruct (feedRx c s) as [s1 a1]. cbn [fst snd] in *.
  destruct (IH s1) as [H3 H4]; [by rewrite H1|]. destruct (feeds cs s1) as [s2 a2]. cbn [fst snd] in *.
  split; [congruence | by subst].
Qed.
Lemma feedRx_bytes c s : Forall is_byte c -> Forall is_byte (rx_buffer_ s) -> state_ s <> ST_RELAYING ->
  Forall is_byte (rx_buffer_ (fst (feedRx c s))) /\ state_ (fst (feedRx c s)) <> ST_RELAYING.
Proof.
  intros Hc Hb Hn. pose proof (feedRx_app c [] s Hc ltac:(constructor) Hb Hn) as Happ.
  destruct (feedRx c s) as [s1 a1]. cbn [fst] in *. by destruct (feedRx [] s1) as [s2 a2], Happ as (_ & ? & ?).
Qed.

(** The deliveries of a run to the handler at [h]. *)
Fixpoint data_run (h sid : Z) (cs : list bytes) o : OutportService * list stream_call :=
  match cs with
  | [] => (o, [])
  | c :: cs => let '(o, l) := onSessionData h sid c o in
               let '(o, l') := data_run h sid cs o in (o, l ++ l')
  end.

Lemma data_run_cons h sid c cs o : data_run h sid (c :: cs) o =
  let '(o1, l) := onSessionData h sid c o in
  let '(o2, l') := data_run h sid cs o1 in (o2, l ++ l').
Proof. done. Qed.
Lemma calls_of_key r r' acts : relay_key r' = relay_key r -> calls_of r' acts = calls_of r acts.
Proof. intros [= H1 H2]. unfold calls_of. f_equal. apply map_ext. intros []; simpl; by rewrite ?H1, ?H2. Qed.

(** A run that leaves the relay open does to the service what it does to the relay. *)
Lemma data_run_open h sid cs : forall r o, os_heap o !! h = Some r ->
  Forall (Forall is_byte) cs -> Forall is_byte (rx_buffer_ r) ->
  remote_tcp_ r = has_remote (state_ r) -> state_ r <> ST_RELAYING ->
  state_ (fst (feeds cs r)) <> ST_CLOSED ->
  let '(o', calls) := data_run h sid cs o in
  calls = calls_of r (snd (feeds cs r)) /\ os_heap o' !! h = Some (fst (feeds cs r)) /\
  os_sessions o' = os_sessions o /\ os_ub o' = os_ub o /\
  os_out o' = os_out o ++ map (pair (relay_key r)) (List.filter is_outward (snd (feeds cs r))).
Proof.
  induction cs as [|c cs IH]; intros r o Hh Hcs Hb Hr Hn Ho.
  - cbn. by rewrite app_nil_r.
  - inversion Hcs as [|? ? Hc Hcs']; subst. rewrite data_run_cons. cbn [feeds] in *.
    destruct (feedRx_bytes c r Hc Hb Hn) as [Hb1 Hn1]. pose proof (feedRx_dangles_closed h c r o Hc Hb Hr) as Hdc.
    pose proof (feedRx_key c r) as Hk.
    assert (Hsc : state_ r <> ST_CLOSED).
    { intros Hs. apply Ho. destruct (feeds_settled (c :: cs) r (or_intror Hs)) as [H1 _]. cbn [feeds] in H1. by rewrite H1. }
    pose proof (op_feedRx c r Hr Hsc) as Hop. cbn [onSessionData outport_handler]. rewrite Hh.
    destruct (feedRx c r) as [r1 a1]. cbn [fst snd] in *. pose proof (feeds_settled cs r1) as Hset.
    specialize (IH r1). destruct (feeds cs r1) as [r2 a2]. cbn [fst snd] in *.
    assert (Hc1 : state_ r1 <> ST_CLOSED) by (intros Hs; apply Ho; destruct Hset as [-> _]; auto).
    assert (Hnd : feedRx_dangles h c r o = false) by (destruct (feedRx_dangles h c r o); [by destruct Hc1; apply Hdc | done]).
    rewrite Hnd, mark_false. unfold settle. rewrite removes_quiet by (by apply (op_quiet _ _ _ Hop)).
    set (o1 := add_out _ _ _). specialize (IH o1). destruct (data_run h sid cs o1) as [o2 l2].
    destruct IH as (-> & Hh2 & Hs2 & Hu2 & Hout); try done; [apply lookup_insert_eq | apply Hop|].
    rewrite (calls_of_key r r1) by done. rewrite calls_of_app. split_and!; try done.
    rewrite Hout. cbn [os_out add_out o1]. by rewrite Hk, List.filter_app, map_app, app_assoc.
Qed.

Lemma data_run_ub_mono h sid cs : forall o, os_ub o = true -> os_ub (fst (data_run h sid cs o)) = true.
Proof.
  induction cs as [|c cs IH]; intros o Hu; [done|]. rewrite data_run_cons.
  assert (H1 : os_ub (fst (onSessionData h sid c o)) = true).
  { cbn [onSessionData outport_handler]. destruct (os_heap o !! h) as [r|]; [|cbn; by rewrite Hu].
    destruct (feedRx c r) as [r1 a1]. cbn [fst]. unfold settle, removeSession.
    repeat case_match; cbn; by rewrite ?Hu. }
  destruct (onSessionData h sid c o) as [o1 l]. cbn [fst] in H1. specialize (IH o1 H1).
  by destruct (data_run h sid cs o1).
Qed.
(** The object at [h] is gone, and has been used since. *)
Definition misused (h : Z) (k : SessionKey) o : Prop :=
  os_heap o !! h = None /\ os_sessions o !! k = None /\ os_ub o = true.
Lemma data_run_misused h sid k cs : forall o, misused h k o -> misused h k (fst (data_run h sid cs o)).
Proof.
  induction cs as [|c cs IH]; intros o Ho; [done|]. rewrite data_run_cons. cbn [onSessionData outport_handler].
  destruct Ho as (Hh & Hs & Hu). rewrite Hh. specialize (IH (mark_ub true o)).
  destruct (data_run h sid cs (mark_ub true o)) as [o2 l2]. apply IH. split_and!; [done..|]. simpl. by rewrite Hu.
Qed.
(** A relay that dials and closes in one delivery, and is its session's entry. *)
Lemma deliver_dial_closed h sid c r o : os_heap o !! h = Some r -> os_sessions o !! relay_key r = Some h ->
  Forall is_byte c -> Forall is_byte (rx_buffer_ r) -> remote_tcp_ r = has_remote (state_ r) ->
  state_ r <> ST_RELAYING -> state_ r <> ST_CLOSED ->
  (0 < dials (snd (feedRx c r)))%nat -> state_ (fst (feedRx c r)) = ST_CLOSED ->
  misused h (relay_key r) (fst (onSessionData h sid c o)).
Proof.
  intros Hh Ht Hc Hb Hr Hn Hsc Hd Hcl. cbn [onSessionData outport_handler]. rewrite Hh.
  assert (Hrf : remote_tcp_ r = false).
  { rewrite Hr. destruct (state_ r) eqn:Hs; try done. destruct (feedRx_connecting c r (or_introl Hs)) as [_ H2].
    rewrite H2 in Hd. change (dials []) with 0%nat in Hd. lia. }
  pose proof (op_feedRx c r Hr Hsc) as Hop. pose proof (feedRx_key c r) as Hk.
  pose proof (feedRx_spec c r Hc Hb) as Hl. change (state_ r) with (state_ (ext c r)) in Hl.
  destruct (feedRx c r) as [r1 a1]. cbn [fst snd] in *.
  assert (Hdg : feedRx_dangles h c r o = true).
  { apply (feed_dials_closed 4 h (ext c r) r1 a1 o); try done. by apply Forall_app. }
  rewrite Hdg. set (o0 := mark_ub true o). rewrite <- Hk in Ht.
  destruct (freed_closed h r r1 a1 o0 Hop Hcl Ht) as [Hf Hs]. rewrite <- Hk.
  split_and!; [by apply bool_decide_eq_true in Hf | exact Hs |].
  unfold settle, removeSession, o0. repeat case_match; cbn; by rewrite orb_true_r.
Qed.
Lemma data_run_dial_closed h sid cs : forall r o, os_heap o !! h = Some r -> os_sessions o !! relay_key r = Some h ->
  Forall (Forall is_byte) cs -> Forall is_byte (rx_buffer_ r) -> remote_tcp_ r = has_remote (state_ r) ->
  state_ r <> ST_RELAYING -> (0 < dials (snd (feeds cs r)))%nat -> state_ (fst (feeds cs r)) = ST_CLOSED ->
  misused h (relay_key r) (fst (data_run h sid cs o)).
Proof.
  induction cs as [|c cs IH]; intros r o Hh Ht Hcs Hb Hr Hn Hd Hcl; [by destruct (Nat.lt_irrefl _ Hd)|].
  inversion Hcs as [|? ? Hc Hcs']; subst. pose proof (feeds_settled (c :: cs) r) as Hset.
  assert (Hpar : state_ r <> ST_CONNECTING /\ state_ r <> ST_CLOSED).
  { split; intros Hs; (destruct Hset as [_ H2]; [tauto|]; rewrite H2 in Hd; change (dials []) with 0%nat in Hd; lia). }
  clear Hset. destruct Hpar as [Hnc Hsc]. cbn [feeds] in *. rewrite data_run_cons.
  destruct (feedRx_bytes c r Hc Hb Hn) as [Hb1 Hn1]. pose proof (op_feedRx c r Hr Hsc) as Hop.
  pose proof (deliver_dial_closed h sid c r o Hh Ht Hc Hb Hr Hn Hsc) as Hone. pose proof (feedRx_key c r) as Hk.
  pose proof (feeds_settled cs (fst (feedRx c r))) as Hset1. cbn [onSessionData outport_handler] in *. rewrite Hh in *.
  destruct (feedRx c r) as [r1 a1]. cbn [fst snd] in *. set (o1 := settle h r1 a1 _) in *.
  specialize (IH r1 o1). destruct (feeds cs r1) as [r2 a2] eqn:Hfe. cbn [fst snd] in *. rewrite dials_app in Hd.
  destruct (decide (state_ r1 = ST_CLOSED)) as [Hc1|Hc1].
  - destruct Hset1 as [_ ->]; [auto|]. change (dials []) with 0%nat in Hd.
    pose proof (data_run_misused h sid (relay_key r) cs o1 (Hone ltac:(lia) Hc1)) as Hm.
    by destruct (data_run h sid cs o1).
  - destruct (settle_open h r r1 a1 (mark_ub (feedRx_dangles h c r o) o) Hop Hc1) as [Hs1 Hh1]. fold o1 in Hs1, Hh1.
    enough (Hm : misused h (relay_key r) (fst (data_run h sid cs o1))) by (by destruct (data_run h sid cs o1)).
    rewrite <- Hk. apply IH; try done; [by rewrite Hs1, Hk | apply Hop |].
    destruct (decide (state_ r1 = ST_CONNECTING)) as [Hcon|Hcon].
    + destruct Hset1 as [H1 _]; [auto|]. congruence.
    + pose proof (op_dials _ _ _ Hop) as Hcr. assert (credit (state_ r1) = 1%nat) by (by destruct (state_ r1)).
      assert (credit (state_ r) <= 1)%nat by (destruct (state_ r); simpl; lia). lia.
Qed.
End serve.

(** The outport serves a client.  A relay just made, handed in any number of
    deliveries a greeting, a CONNECT request and payload, with a dial that starts, dials
    the requested host and port, sends back "no authentication" and nothing else, keeps
    the payload, and stays in the table; no session is touched after it is freed. *)
Lemma outport_serves_client {T : Transport} (h ing sid rsv port : Z) (methods payload : bytes)
    (a : socks_addr) (c : bytes) (cs : list bytes) (o : OutportService)
    (Hh : os_heap o !! h = Some (new_relay ing sid)) (Hm : zlen methods < 256) (Ha : addr_ok a)
    (Hp : 0 <= port < 2 ^ 16) (Hbytes : Forall (Forall is_byte) (c :: cs))
    (Hcs : concat (c :: cs) = client_hello methods ++ client_request 1 rsv a port ++ payload)
    (Hdial : 0 <= start_connect (mkFgwEndpoint (host_text a) port)) :
  let '(o', calls) := data_run h sid (c :: cs) o in
  calls = [CallSend sid [5; 0] ing] /\
  os_out o' = os_out o ++ [((ing, sid), Dial (host_text a) port)] /\
  os_heap o' !! h =
    Some (relay_at ing sid ST_CONNECTING payload true (host_text a ++ [colon] ++ dec port)) /\
  os_sessions o' = os_sessions o /\ os_ub o' = os_ub o.
Proof.
  pose proof (negotiates ing sid 1 rsv port methods payload c a cs Hm Ha Hp
    ltac:(by apply Forall_concat) Hcs) as Hneg.
  cbv zeta in Hneg. cbn [Z.eqb Pos.eqb] in Hneg.
  destruct (Z.ltb_spec (start_connect (mkFgwEndpoint (host_text a) port)) 0) as [|_]; [lia|].
  pose proof (data_run_open h sid (c :: cs) (new_relay ing sid) o Hh Hbytes) as Hrun. rewrite Hneg in Hrun.
  destruct (data_run h sid (c :: cs) o) as [o' calls].
  by destruct Hrun as (-> & Hh' & Hs & Hu & Hout).
Qed.

(** ** Properties *)

(** A service with one relay. *)
Definition served : OutportService := snd (ensureSession 7 9 new_outport).

(** C39. A relay that closes inside a parser is used after it has been freed.  Take a
    relay just made, that is the table's entry of its session.  When its first two bytes or
    more do not start with the SOCKS version, or when it is handed, in any number of
    deliveries, a greeting and a CONNECT request whose dial fails at once, its entry leaves
    the table and the object the heap, and the object is used after that.  When the dial
    starts, the relay lives on, and nothing is used after it is freed. *)
Theorem outport_use_after_free {T : Transport} (h ing sid : Z) (o : OutportService)
    (Hh : os_heap o !! h = Some (new_relay ing sid)) (Ht : os_sessions o !! (ing, sid) = Some h) :
  (forall b, 2 <= zlen b -> at_ b 0 <> 5 -> misused h (ing, sid) (fst (onSessionData h sid b o))) /\
  (forall rsv port methods payload a c cs,
     zlen methods < 256 -> addr_ok a -> 0 <= port < 2 ^ 16 -> Forall (Forall is_byte) (c :: cs) ->
     concat (c :: cs) = client_hello methods ++ client_request 1 rsv a port ++ payload ->
     let o' := fst (data_run h sid (c :: cs) o) in
     if start_connect (mkFgwEndpoint (host_text a) port) <? 0 then misused h (ing, sid) o'
     else os_ub o' = os_ub o /\ os_sessions o' !! (ing, sid) = Some h /\ is_Some (os_heap o' !! h)).
Proof.
  split.
  - intros b Hb Hv. cbn [onSessionData outport_handler]. rewrite Hh.
    assert (Hm : tryParseMethods (ext b (new_relay ing sid)) =
      (-1, set_remote_tcp false (set_state ST_CLOSED (ext b (new_relay ing sid))), [CloseStream; Remove])).
    { unfold tryParseMethods. cbn [rx_buffer_ ext set_rx_buffer new_relay app].
      destruct (Z.ltb_spec (zlen b) 2); [lia|]. by destruct (Z.eqb_spec (at_ b 0) SOCKS5_VER). }
    unfold feedRx_dangles, feedRx. fold (ext b (new_relay ing sid)).
    cbn [state_ new_relay ext set_rx_buffer feed_dangles feed_loop] in *. rewrite Hm.
    cbn. unfold misused, freed, settle, removeSession. cbn. rewrite Ht. cbn. rewrite !lookup_delete_eq.
    by rewrite bool_decide_eq_true_2, orb_true_r by done.
  - intros rsv port methods payload a c cs Hm Ha Hp Hbytes Hcs o'.
    destruct (Z.ltb_spec (start_connect (mkFgwEndpoint (host_text a) port)) 0) as [Hdial|Hdial].
    + pose proof (negotiates ing sid 1 rsv port methods payload c a cs Hm Ha Hp
        ltac:(by apply Forall_concat) Hcs) as Hneg.
      cbv zeta in Hneg. cbn [Z.eqb Pos.eqb] in Hneg.
      destruct (Z.ltb_spec (start_connect (mkFgwEndpoint (host_text a) port)) 0) as [_|]; [|lia].
      unfold o'. change (ing, sid) with (relay_key (new_relay ing sid)).
      apply data_run_dial_closed.
      * exact Hh.
      * exact Ht.
      * exact Hbytes.
      * constructor.
      * done.
      * done.
      * rewrite Hneg. cbn. lia.
      * by rewrite Hneg.
    + pose proof (outport_serves_client h ing sid rsv port methods payload a c cs o Hh Hm Ha Hp Hbytes Hcs Hdial) as Hs.
      unfold o'. destruct (data_run h sid (c :: cs) o) as [o1 calls]. destruct Hs as (_ & _ & Hh' & Hs' & Hu).
      cbn [fst]. rewrite Hh', Hs'. by split_and!.
Qed.

(** A transport whose dials fail. *)
Definition no_dial : Transport := {|
  mb_acquire _ := true;
  tcp_write _ _ buf := zlen buf;
  start_connect _ := -1 |}.
Lemma outport_use_after_free_witness :
  misused 1 (7, 9) (fst (onSessionData (SessionHandler := outport_handler (T := no_dial)) 1 9 [71; 69; 84] served)) /\
  misused 1 (7, 9) (fst (data_run (T := no_dial) 1 9 test_cuts served)) /\
  os_ub (fst (data_run (T := test_transport) 1 9 test_cuts served)) = false.
Proof.
  destruct (outport_use_after_free (T := no_dial) 1 7 9 served eq_refl eq_refl) as [Hv Hd].
  destruct (outport_use_after_free (T := test_transport) 1 7 9 served eq_refl eq_refl) as [_ Hd'].
  specialize (Hd 0 443 [0] [22; 3] (SA_domain [97; 46; 105; 111]) [5]
    [[1; 0; 5; 1; 0; 3; 4; 97]; [46; 105; 111; 1; 187; 22; 3]]).
  specialize (Hd' 0 443 [0] [22; 3] (SA_domain [97; 46; 105; 111]) [5]
    [[1; 0; 5; 1; 0; 3; 4; 97]; [46; 105; 111; 1; 187; 22; 3]]).
  split; [apply Hv; [by vm_compute | discriminate]|].
  assert (Hb : Forall (Forall is_byte) test_cuts) by (repeat constructor; by vm_compute).
  assert (Ha : addr_ok (SA_domain [97; 46; 105; 111])) by (by split; [repeat constructor|]).
  split; [apply Hd | apply Hd']; try done.
Defined.
