(* ===== verification/Tunnel.v ===== *)
(** * Tunnel: from a client's stream to the destination's socket

    The pieces joined: the sessions contract of [Reassembly] and [Completeness], the
    negotiation of [Socks] and the pipe of [RelayLife] are carried through the outport
    service, whatever else it serves.  A relay of the service is followed from its
    creation by the events it has seen, and the data among them is what the stream has
    handed over for its session. *)
From S2P Require Import Prelude Proto OMap Segment Pack Channel Selector Links DataStream.
From S2P Require Import StreamFacts Framing StreamWf Reassembly Completeness Sending EndToEnd.
From S2P Require Import Traffic.
From S2P Require Import Testbed.
From S2P Require Import AppInv Relay Socks RelayLife Outport OutportWf Serve.

(** ** A relay from its creation *)
Definition ev_data (e : relay_event) : list bytes := match e with EvData d => [d] | _ => [] end.
Definition evs_data (evs : list relay_event) : list bytes := concat (map ev_data evs).
Definition outward (acts : list relay_action) : list relay_action := List.filter is_outward acts.

Section from_new.
Context {T : Transport}.
Implicit Types (s : FgwRelaySession).

Lemma evs_data_app a b : evs_data (a ++ b) = evs_data a ++ evs_data b.
Proof. apply concat_map_app. Qed.
Lemma evs_data_concat evs : concat (evs_data evs) = data_in evs.
Proof.
  unfold evs_data, data_in. induction evs as [|[d| | |d|] evs IH]; simpl; rewrite ?IH; done.
Qed.
Lemma outward_app a b : outward (a ++ b) = outward a ++ outward b.
Proof. apply List.filter_app. Qed.

(** Deliveries alone, seen as a run. *)
Lemma feeds_snoc cs c s :
  feeds (cs ++ [c]) s = let '(s1, a1) := feeds cs s in let '(s2, a2) := feedRx c s1 in (s2, a1 ++ a2).
Proof.
  revert s. induction cs as [|c' cs IH]; intros s; cbn [feeds app].
  - destruct (feedRx c s) as [s1 a1]. by rewrite app_nil_r.
  - destruct (feedRx c' s) as [s1 a1]. rewrite IH. destruct (feeds cs s1) as [s2 a2].
    destruct (feedRx c s2) as [s3 a3]. by rewrite app_assoc.
Qed.

Lemma feeds_bytes cs : forall s, Forall (Forall is_byte) cs -> Forall is_byte (rx_buffer_ s) ->
  state_ s <> ST_RELAYING ->
  Forall is_byte (rx_buffer_ (fst (feeds cs s))) /\ state_ (fst (feeds cs s)) <> ST_RELAYING.
Proof.
  induction cs as [|c cs IH]; intros s Hcs Hb Hn; [done|]. inversion Hcs as [|? ? Hc Hcs']; subst.
  cbn [feeds]. destruct (feedRx_bytes c s Hc Hb Hn) as [Hb1 Hn1]. destruct (feedRx c s) as [s1 a1].
  specialize (IH s1 Hcs' Hb1 Hn1). by destruct (feeds cs s1).
Qed.

(** A run of a relay that is still open: first deliveries, then, once it has dialled,
    anything. *)
Lemma run_split s0 evs s acts : relay_run s0 evs s acts -> state_ s0 = ST_AWAIT_METHODS ->
  Forall (Forall is_byte) (evs_data evs) -> Forall is_byte (rx_buffer_ s0) ->
  remote_tcp_ s0 = false -> state_ s <> ST_CLOSED ->
  exists cs evs2 a1 a2, evs_data evs = cs ++ evs_data evs2 /\ acts = a1 ++ a2 /\ snd (feeds cs s0) = a1 /\
    relay_run (fst (feeds cs s0)) evs2 s a2 /\
    (evs2 <> [] -> state_ (fst (feeds cs s0)) = ST_CONNECTING).
Proof.
  intros Hrun Hs0 Hb Hb0 Hr0 Ho. revert Hb Ho.
  induction Hrun as [|evs s1 a1 e s2 a2 Hrun IH Hstep]; intros Hb Ho.
  { exists [], [], [], []. split_and!; try done. constructor. }
  rewrite evs_data_app in Hb. apply Forall_app in Hb as [Hb He].
  pose proof (run_ok _ _ _ _ Hrun) as Hok. rewrite Hs0, Hr0 in Hok. specialize (Hok eq_refl ltac:(done)).
  assert (Ho1 : state_ s1 <> ST_CLOSED).
  { intros Hc. apply Ho. destruct (step_closed e s1 s2 a2 Hc) as (_ & ? & _); [|done..].
    by rewrite (op_remote _ _ _ Hok), Hc. }
  destruct (IH Hb Ho1) as (cs & evs2 & b1 & b2 & Hd & -> & Hf & Hrun2 & Hcon).
  destruct evs2 as [|e2 evs2].
  - (* still nothing but deliveries *)
    inversion Hrun2 as [Hx Hy Hz|evs' ? ? ? ? ? ? ? Habs]; [|by destruct evs']. subst.
    change (evs_data []) with (@nil bytes) in Hd. rewrite app_nil_r in Hd.
    destruct e as [d| | |d|].
    + injection Hstep as Hfe. exists (cs ++ [d]), [], (snd (feeds (cs ++ [d]) s0)), [].
      rewrite feeds_snoc. destruct (feeds cs s0) as [s1' a1']. cbn [fst snd] in *. rewrite Hfe. cbn [fst snd].
      rewrite !app_nil_r. split_and!; [|done|done| constructor |done].
      rewrite evs_data_app, Hd. change (evs_data []) with (@nil bytes). by rewrite ?app_nil_r.
    + injection Hstep as Hcl. rewrite close_open in Hcl by done. injection Hcl as <- _. by destruct Ho.
    + exists cs, [EvRemoteOpen], (snd (feeds cs s0)), ([] ++ a2). split_and!.
      * by rewrite evs_data_app, Hd.
      * by rewrite app_nil_r.
      * done.
      * by eapply (run_step _ []); [constructor|].
      * intros _. simpl in Hstep. destruct (remote_tcp_ _ && bool_decide _) eqn:Hg; [|done].
        by apply andb_true_iff in Hg as [_ Hg%bool_decide_eq_true].
    + exfalso. simpl in Hstep. destruct (remote_tcp_ _ && bool_decide _) eqn:Hg; [|done].
      apply andb_true_iff in Hg as [_ Hg%bool_decide_eq_true].
      rewrite Hd in Hb.
      by destruct (feeds_bytes cs s0 Hb Hb0) as [_ ?]; [by rewrite Hs0|].
    + simpl in Hstep. destruct (remote_tcp_ _); [|done]. injection Hstep as Hcl. unfold onRemoteClose in Hcl.
      rewrite close_open in Hcl by done. injection Hcl as <- _. by destruct Ho.
  - exists cs, ((e2 :: evs2) ++ [e]), b1, (b2 ++ a2). split_and!.
    + by rewrite !evs_data_app, Hd, app_assoc.
    + by rewrite app_assoc.
    + done.
    + by eapply run_step.
    + intros _. by apply Hcon.
Qed.

Lemma outward_writes acts : quiet acts -> dials acts = 0%nat ->
  exists ws, outward acts = map ToRemote ws /\ concat ws = remote_bytes acts.
Proof.
  induction 1 as [|x acts Hx _ IH]; intros Hd; [by exists []|].
  destruct x as [d|h p|d| | |]; try discriminate Hx; try discriminate Hd.
  - apply IH, Hd.
  - destruct (IH Hd) as (ws & Hw & Hc). exists (d :: ws). unfold outward, remote_bytes in *. simpl. by rewrite Hw, Hc.
Qed.

(** What a client's bytes make a relay do.  If the data of the run is a greeting, a
    CONNECT request and payload, and the dial starts, an open relay has dialled the
    target, once, and its socket has been written the payload when it is open, and
    nothing before. *)
Lemma run_serves ing sid evs s acts rsv port methods payload a :
  (forall len, mb_acquire len = true) ->
  relay_run (new_relay ing sid) evs s acts -> state_ s <> ST_CLOSED ->
  Forall (Forall is_byte) (evs_data evs) ->
  zlen methods < 256 -> addr_ok a -> 0 <= port < 2 ^ 16 ->
  concat (evs_data evs) = client_hello methods ++ client_request 1 rsv a port ++ payload ->
  0 <= start_connect (mkFgwEndpoint (host_text a) port) ->
  exists ws, outward acts = Dial (host_text a) port :: map ToRemote ws /\
    ((state_ s = ST_CONNECTING /\ concat ws = [] /\ rx_buffer_ s = payload) \/
     (state_ s = ST_RELAYING /\ concat ws = payload)).
Proof.
  intros Hmb Hrun Ho Hb Hm Ha Hp Hdata Hdial.
  destruct (run_split _ _ _ _ Hrun) as (cs & evs2 & a1 & a2 & Hd & -> & Hf & Hrun2 & Hcon); try done.
  rewrite Hd in Hb, Hdata. apply Forall_app in Hb as [Hbc Hb2]. rewrite concat_app in Hdata.
  set (target := host_text a ++ [colon] ++ dec port).
  (* the whole of it in one delivery *)
  assert (Hall : Forall is_byte (concat cs ++ concat (evs_data evs2)))
    by (apply Forall_app; split; by apply Forall_concat).
  pose proof (negotiates ing sid 1 rsv port methods payload (concat cs ++ concat (evs_data evs2)) a []
    Hm Ha Hp) as Hneg. cbn [concat feeds] in Hneg. rewrite app_nil_r in Hneg. specialize (Hneg Hall Hdata).
  cbv zeta in Hneg. cbn [Z.eqb Pos.eqb] in Hneg.
  destruct (Z.ltb_spec (start_connect (mkFgwEndpoint (host_text a) port)) 0) as [|_]; [lia|]. fold target in Hneg.
  assert (Hat : exists p1, fst (feeds cs (new_relay ing sid)) = relay_at ing sid ST_CONNECTING p1 true target /\
    a1 = [ToPeer [5; 0]; Dial (host_text a) port] /\ p1 ++ concat (evs_data evs2) = payload).
  { destruct cs as [|c cs].
    { destruct evs2; [|by specialize (Hcon ltac:(done))]. pose proof (zlen_nonneg methods). by destruct methods. }
    destruct evs2 as [|e2 evs2].
    - change (concat (evs_data [])) with (@nil Z) in *. rewrite app_nil_r in Hdata.
      pose proof (negotiates ing sid 1 rsv port methods payload c a cs Hm Ha Hp ltac:(by apply Forall_concat) Hdata) as Hn.
      cbv zeta in Hn. cbn [Z.eqb Pos.eqb] in Hn.
      destruct (Z.ltb_spec (start_connect (mkFgwEndpoint (host_text a) port)) 0) as [|_]; [lia|]. fold target in Hn.
      rewrite Hn in Hf |- *. exists payload. by rewrite app_nil_r.
    - rewrite feeds_concat in * by (done || by apply Forall_concat).
      pose proof (feedRx_app (concat (c :: cs)) (concat (evs_data (e2 :: evs2))) (new_relay ing sid)) as Happ.
      specialize (Happ ltac:(by apply Forall_concat) ltac:(by apply Forall_concat) ltac:(constructor) ltac:(done)).
      destruct (feedRx (concat (c :: cs)) (new_relay ing sid)) as [s1 b1]. cbn [fst snd] in *. subst b1.
      destruct (feedRx (concat (c :: cs) ++ concat (evs_data (e2 :: evs2))) (new_relay ing sid)) as [s3 b3].
      rewrite app_nil_r in Hneg. injection Hneg as -> ->.
      rewrite feed_connecting in Happ by (left; by apply Hcon). destruct Happ as (Heq & _ & _).
      exists (rx_buffer_ s1). destruct s1. cbn in *. injection Heq as <- <- <- -> <- <- <- <- Ha1.
      rewrite app_nil_r in Ha1. by subst. }
  destruct Hat as (p1 & Hs1 & -> & Hpay). rewrite Hs1 in Hrun2.
  pose proof (run_ok _ _ _ _ Hrun2 eq_refl ltac:(done)) as Hok2.
  destruct (outward_writes a2) as (ws & Hws & Hc); [by apply Hok2 | pose proof (op_dials _ _ _ Hok2) as Hdl; cbn in Hdl; lia|].
  assert (H0 : piped p1 [] (relay_at ing sid ST_CONNECTING p1 true target) [])
    by (unfold piped; simpl; by rewrite app_nil_r).
  destruct (piped_run Hmb p1 _ _ _ _ H0 Hrun2) as [_ Hst]. rewrite <- evs_data_concat, Hpay in Hst.
  exists ws. split; [by rewrite outward_app, Hws|]. rewrite Hc.
  destruct (state_ s); try done; [left | right]; by destruct Hst as (_ & _ & ? & ?).
Qed.
(** Before the end of the request nothing is dialled. *)
Lemma feeds_begin ing sid rsv port methods a cs rest :
  Forall is_byte (concat cs) -> Forall is_byte rest -> zlen methods < 256 -> addr_ok a -> 0 <= port < 2 ^ 16 ->
  0 <= start_connect (mkFgwEndpoint (host_text a) port) ->
  client_hello methods ++ client_request 1 rsv a port = concat cs ++ rest -> rest <> [] ->
  state_ (fst (feeds cs (new_relay ing sid))) <> ST_CONNECTING /\ outward (snd (feeds cs (new_relay ing sid))) = [].
Proof.
  intros Hb Hbr Hm Ha Hp Hdial Heq Hne. destruct cs as [|c cs]; [done|].
  rewrite feeds_concat by (done || constructor). set (d := concat (c :: cs)) in *.
  pose proof (negotiates ing sid 1 rsv port methods [] (d ++ rest) a [] Hm Ha Hp) as Hneg.
  cbn [concat] in Hneg. rewrite (app_nil_r (d ++ rest)) in Hneg.
  specialize (Hneg ltac:(by apply Forall_app) ltac:(rewrite app_nil_r; by rewrite <- Heq)). cbv zeta in Hneg.
  set (target := host_text a ++ [colon] ++ dec port) in *. rewrite feeds_concat in Hneg; [|cbn [concat]; rewrite app_nil_r; by apply Forall_app | constructor | done].
  cbn [Z.eqb Pos.eqb concat] in Hneg. rewrite (app_nil_r (d ++ rest)) in Hneg.
  destruct (Z.ltb_spec (start_connect (mkFgwEndpoint (host_text a) port)) 0) as [|_]; [lia|].
  pose proof (feedRx_app d rest (new_relay ing sid) Hb Hbr ltac:(constructor) ltac:(done)) as Happ.
  pose proof (op_feedRx d (new_relay ing sid) eq_refl ltac:(done)) as Hop.
  destruct (feedRx d (new_relay ing sid)) as [s1 b1]. cbn [fst snd] in *.
  assert (Hst : state_ s1 <> ST_CONNECTING).
  { intros Hc. rewrite feed_connecting in Happ by (by left). destruct Happ as (Hs2 & _). rewrite Hneg in Hs2.
    apply (f_equal (fun p => rx_buffer_ (fst p))) in Hs2. cbn in Hs2. symmetry in Hs2. by apply app_eq_nil in Hs2 as [_ ?]. }
  split; [exact Hst|]. destruct (feedRx rest s1) as [s2 b2]. destruct Happ as (Hs2 & Hnr & _). rewrite Hneg in Hs2.
  apply (f_equal snd) in Hs2. cbn [snd] in Hs2.
  destruct b1 as [|x1 [|x2 b1]]; [done | by injection Hs2 as <- _|]. exfalso.
  injection Hs2 as <- <- Hb1'. symmetry in Hb1'. apply app_eq_nil in Hb1' as [-> ->].
  destruct (decide (state_ s1 = ST_CLOSED)) as [Hc|Hc].
  - destruct (op_closed _ _ _ Hop Hc) as (pre & rem & _ & Hq). apply (f_equal (fun l => last l)) in Hq.
    rewrite last_app in Hq. by destruct rem.
  - pose proof (op_dials _ _ _ Hop) as Hdl. destruct (state_ s1); simpl in Hdl; try done; lia.
Qed.

(** ... and when the data is only the beginning of all that: nothing, or the dial and a
    beginning of the payload. *)
Lemma run_begins ing sid evs s acts rsv port methods payload a (hs := client_hello methods ++ client_request 1 rsv a port) :
  (forall len, mb_acquire len = true) ->
  relay_run (new_relay ing sid) evs s acts -> state_ s <> ST_CLOSED ->
  Forall is_byte (hs ++ payload) -> zlen methods < 256 -> addr_ok a -> 0 <= port < 2 ^ 16 ->
  concat (evs_data evs) `prefix_of` hs ++ payload ->
  0 <= start_connect (mkFgwEndpoint (host_text a) port) ->
  outward acts = [] \/
  exists ws, outward acts = Dial (host_text a) port :: map ToRemote ws /\ concat ws `prefix_of` payload.
Proof.
  intros Hmb Hrun Ho Hb Hm Ha Hp [x Hx] Hdial.
  assert (Hbd : Forall (Forall is_byte) (evs_data evs)).
  { rewrite Hx in Hb. apply Forall_app in Hb as [Hb _]. destruct (Forall_concat is_byte (evs_data evs)) as [Hf _]. by apply Hf. }
  assert (Hsome : forall l l', concat (evs_data evs) = hs ++ l -> payload = l ++ l' ->
    exists ws, outward acts = Dial (host_text a) port :: map ToRemote ws /\ concat ws `prefix_of` payload).
  { intros l l' Hd ->. destruct (run_serves ing sid evs s acts rsv port methods l a Hmb Hrun Ho Hbd Hm Ha Hp) as (ws & Hw & Hst);
      [rewrite Hd; unfold hs; by rewrite <- app_assoc | done |].
    exists ws. split; [done|]. destruct Hst as [(_ & -> & _)|[_ ->]]; [apply prefix_nil | by eexists]. }
  symmetry in Hx. destruct (app_eq_app _ _ _ _ Hx) as (l & [[Hd Hl]|[Hd Hl]]); [right; by apply (Hsome l x)|].
  destruct l as [|y l]; [right; apply (Hsome [] payload); [by rewrite Hd, !app_nil_r | done]|]. clear Hsome Hl Hx.
  (* inside the negotiation *)
  left. destruct (run_split _ _ _ _ Hrun) as (cs & evs2 & a1 & a2 & He & -> & Hf & Hrun2 & Hcon); try done.
  rewrite He in Hd, Hbd. rewrite concat_app, <- app_assoc in Hd. apply Forall_app in Hbd as [Hbc Hbe].
  apply Forall_app in Hb as [Hb _]. rewrite Hd in Hb. apply Forall_app in Hb as [Hb1 Hb2].
  destruct (feeds_begin ing sid rsv port methods a cs (concat (evs_data evs2) ++ y :: l) Hb1 Hb2 Hm Ha Hp Hdial Hd
    ltac:(by destruct (concat (evs_data evs2)))) as [Hst Hout].
  destruct evs2 as [|e evs2]; [|by destruct Hst; apply Hcon].
  inversion Hrun2 as [Hy1 Hy2 Hy3|evs' ? ? ? ? ? ? ? Habs]; [|by destruct evs']. by rewrite app_nil_r, <- Hf.
Qed.
End from_new.

(** ** The service's runs as runs of its stream *)
Fixpoint served_on (ch : Z) (ss : list outport_step) : bytes :=
  match ss with
  | [] => []
  | OsBytes ch' buf :: ss => (if ch' =? ch then buf else []) ++ served_on ch ss
  | _ :: ss => served_on ch ss
  end.
(** Bytes arrive, and the service is not stopped. *)
Definition serving (s : outport_step) : Prop :=
  match s with OsBytes _ buf => Forall is_byte buf | OsStop => False | _ => True end.

Lemma outport_as_stream {rt : ZdsRuntime} {T : Transport} {sort : StdSort} ss : forall w,
  Forall serving ss -> exists ts, do_steps ts w = outport_run ss w /\
    (forall ch, bytes_on ch ts = served_on ch ss) /\ Forall step_bytes ts /\
    (forall sid h, ~ In (StOpen sid h) ts).
Proof.
  induction ss as [|s ss IH]; intros w Hss; [by exists []; split_and!; auto|].
  inversion Hss as [|? ? Hs Hss']; subst.
  assert (H1 : exists t, do_step t w = outport_do s w /\
    (forall ch, bytes_on ch [t] = served_on ch [s]) /\ step_bytes t /\ (forall sid h, t <> StOpen sid h)).
  { destruct s as [ch buf| |a e|]; [by exists (StBytes ch buf) | by exists StFeedback | |done].
    simpl. unfold on_remote. destruct (os_heap (w_app w) !! a) as [r|].
    2: { exists (StEnv (fun o net => (o, net, []))). split_and!; try done. simpl. by destruct w. }
    destruct (relay_step (event_of e) r) as [[r' acts]|].
    - exists (StEnv (fun o net => (settle a r' acts o, net, calls_of r acts))). by split_and!.
    - exists (StEnv (fun o net => (o, net, []))). split_and!; try done. simpl. by destruct w. }
  destruct H1 as (t & Ht & Hb & Hst & Hno). destruct (IH (outport_do s w) Hss') as (ts & Hts & Hbs & Hsts & Hnos).
  exists (t :: ts). split_and!.
  - unfold do_steps in *. simpl. by rewrite Ht.
  - intros ch. transitivity (bytes_on ch [t] ++ bytes_on ch ts); [destruct t; simpl; by rewrite ?app_nil_r|].
    rewrite Hb, Hbs. destruct s; simpl; by rewrite ?app_nil_r.
  - by constructor.
  - intros sid h [Heq|Hin]; [by apply (Hno sid h) | by apply (Hnos sid h)].
Qed.

(** The bytes that outbound sockets hand to a relay of session [k] that is relaying. *)
Definition delivered_by {rt : ZdsRuntime} {T : Transport} (k : SessionKey) (s : outport_step) (w : world OutportService) : bytes :=
  match s with
  | OsRemote a (SkBytes b) =>
    match os_heap (w_app w) !! a with
    | Some r => if decide (relay_key r = k) then if decide (state_ r = ST_RELAYING) then b else [] else []
    | None => []
    end
  | _ => []
  end.
Fixpoint from_remote {rt : ZdsRuntime} {T : Transport} {sort : StdSort} (k : SessionKey) (ss : list outport_step)
    (w : world OutportService) : bytes :=
  match ss with
  | [] => []
  | s :: ss => delivered_by k s w ++ from_remote k ss (outport_do s w)
  end.

(** ** A relay in the service *)

(** What the relays of session [k] have done to their sockets. *)
Definition out_of (k : SessionKey) (l : list (SessionKey * relay_action)) : list relay_action :=
  map snd (List.filter (fun x => bool_decide (fst x = k)) l).
Lemma out_of_app k a b : out_of k (a ++ b) = out_of k a ++ out_of k b.
Proof. unfold out_of. by rewrite List.filter_app, map_app. Qed.
Lemma out_of_key k k' acts : out_of k (map (pair k') acts) = if decide (k' = k) then acts else [].
Proof.
  unfold out_of. induction acts as [|x acts IH]; simpl; [by destruct (decide _)|].
  destruct (decide (k' = k)) as [->|Hne].
  - rewrite bool_decide_eq_true_2 by done. simpl. by rewrite IH.
  - by rewrite bool_decide_eq_false_2.
Qed.

Lemma app_if_nil {A} {P : Prop} (d : Decision P) (l x : list A) : x = [] -> l ++ (if d then x else []) = l.
Proof. intros ->. destruct d; apply app_nil_r. Qed.

Section tracked.
Context {rt : ZdsRuntime} {T : Transport} {sort : StdSort}.
Context (k : SessionKey).
(** The outlet that what is said is followed to, if [spk], under the laws and hypotheses that
    it takes. *)
Context (ol : outlet) (spk : Prop).
Context (Hspk : spk -> ZdsLaws rt /\ ZdsExact rt /\ (forall len, mb_acquire len = true)).
Implicit Types (w : world OutportService) (o : OutportService) (D : bytes).

(** The handlers of the stream are the relays of their sessions, as long as they live. *)
Definition named w : Prop := forall k' h, snd <$> idents k' w = Some (Some h) ->
  h < os_next (w_app w) /\ forall r, os_heap (w_app w) !! h = Some r -> relay_key r = k'.

(** Nothing has happened to session [k] yet. *)
Definition pristine D w : Prop :=
  os_sessions (w_app w) !! k = None /\ log_data k (w_log w) = [] /\ out_of k (os_out (w_app w)) = [] /\
  D = [] /\ (spk -> silent k ol (w_net w)).
(** The relay of session [k] comes from a new one by the events [evs], of which [D] is what
    its socket has delivered. *)
Definition followed D evs acts r w : Prop :=
  exists a, os_sessions (w_app w) !! k = Some a /\ os_heap (w_app w) !! a = Some r /\
    relay_run (new_relay (fst k) (snd k)) evs r acts /\
    evs_data evs = log_data k (w_log w) /\ outward acts = out_of k (os_out (w_app w)) /\
    data_out evs = D /\ (spk -> voiced k false ol (peer_bytes acts) w).
Definition tracked D w : Prop := gone k w \/ pristine D w \/ exists evs acts r, followed D evs acts r w.

Record tunnel_inv D w : Prop := {
  ti_wf : outport_wf w;
  ti_named : named w;
  ti_peer : peer_key (loc_of w) k;
  ti_sound : spk -> sound w;
  ti_tracked : tracked D w }.
Definition relay_of (k' : SessionKey) (h : Z) w : Prop :=
  gone k w \/ ((k' = k -> is_Some (os_heap (w_app w) !! h)) /\
              forall r, os_heap (w_app w) !! h = Some r -> relay_key r = k').

(** A world that the service and the log see alike. *)
Lemma tracked_ext D w w' : log_grows w w' -> (gone k w \/ log_data k (w_log w') = log_data k (w_log w)) ->
  os_sessions (w_app w') !! k = os_sessions (w_app w) !! k -> 
  (forall a, os_sessions (w_app w) !! k = Some a -> os_heap (w_app w') !! a = os_heap (w_app w) !! a) ->
  out_of k (os_out (w_app w')) = out_of k (os_out (w_app w)) -> (spk -> quietly k w w') ->
  tracked D w -> tracked D w'.
Proof.
  intros Hg Hlog Hs Hh Ho Hq Ht. destruct Hlog as [Hgone|Hlog]; [left; by eapply log_grows_gone|].
  destruct Ht as [Hgone|[(H1 & H2 & H3 & H4 & H5)|(evs & acts & r & a & H1 & H2 & H3 & H4 & H5 & H6 & H7)]].
  - left. by eapply log_grows_gone.
  - right. left. unfold pristine. rewrite Hs, Hlog, Ho. split_and!; try done. intros Hk.
    eapply uttered_quiet; [by apply H5 | by apply Hq | done].
  - right. right. exists evs, acts, r, a. rewrite Hs, (Hh a H1), Hlog, Ho. split_and!; try done. intros Hk.
    eapply voiced_then; [by apply Hq | by apply H7].
Qed.
Lemma named_sub w w' : (forall k' i, idents k' w' = Some i -> idents k' w = Some i) ->
  os_next (w_app w') = os_next (w_app w) ->
  (forall h r', os_heap (w_app w') !! h = Some r' -> exists r, os_heap (w_app w) !! h = Some r /\ relay_key r = relay_key r') ->
  named w -> named w'.
Proof.
  intros Hi Hn Hh Hw k' h Hk. destruct (idents k' w') as [i|] eqn:Hid; [|done].
  destruct (Hw k' h) as [H1 H2]; [by rewrite (Hi _ _ Hid)|]. rewrite Hn. split; [done|].
  intros r' Hr'. destruct (Hh h r' Hr') as (r & Hr & <-). by apply H2.
Qed.
Lemma tunnel_still D w w' : still w w' -> tunnel_inv D w -> tunnel_inv D w'.
Proof.
  intros [Hv Htx Hsl] [Hw Hn Hp Hsd Ht]. pose proof (sv_grows _ _ Hv) as Hg. pose proof (sv_handed _ _ Hv) as Hh.
  assert (Hspeak : spk -> sound w' /\ forall k, utters k [] (w_net w) (w_net w')).
  { intros Hk. destruct (Hspk Hk) as (? & ? & ?). by apply Hsl, Hsd. }
  constructor.
  - by eapply wf_same_view.
  - destruct Hv as [Hi _ _ Ha _]. eapply named_sub; [| | |exact Hn]; rewrite ?Ha; eauto.
    intros k' i. by rewrite Hi.
  - unfold loc_of. by rewrite (sv_cfg _ _ Hv).
  - intros Hk. by apply Hspeak.
  - eapply tracked_ext; [done | right | rewrite (sv_app _ _ Hv).. | | exact Ht]; try done.
    + by rewrite <- (log_data_handed k (w_log w')), Hh, log_data_handed.
    + intros Hk. split_and!; [apply (sv_cfg _ _ Hv) | done | by apply Hspeak].
Qed.

(** Calls that close take the session into the log. *)
Lemma closeSession_gone sid ing w : is_Some (find_session (resolveIngressKey w ing, sid) w) ->
  gone (resolveIngressKey w ing, sid) (closeSession sid ing w).
Proof. intros [st Hf]. unfold closeSession, gone. rewrite Hf. simpl. set_solver. Qed.
Lemma calls_gone r pre b w : quiet pre -> is_Some (idents (stream_key w r) w) ->
  gone (stream_key w r) (apply_calls (calls_of r (pre ++ farewell b)) w).
Proof.
  intros Hq [i Hi]. rewrite calls_of_app, apply_calls_app. pose proof (calls_quiet r pre w Hq) as Hv.
  replace (calls_of r (farewell b)) with [CallClose (rs_session_id r) (rs_peer_ingress r)] by (by destruct b).
  set (w1 := apply_calls (calls_of r pre) w) in *. simpl.
  assert (Hk : stream_key w r = (resolveIngressKey w1 (rs_peer_ingress r), rs_session_id r)).
  { unfold stream_key, resolveIngressKey. by rewrite (sv_cfg _ _ Hv). }
  rewrite Hk in *. apply closeSession_gone. rewrite <- (sv_idents _ _ Hv) in Hi. unfold idents in Hi.
  by destruct (find_session _ w1).
Qed.
(** What a relay's work leaves of the table and the heap. *)
Lemma settle_facts a r r' acts o : os_heap o !! a = Some r -> relay_key r' = relay_key r ->
  os_sessions o !! relay_key r = Some a -> (removes acts = true -> state_ r' = ST_CLOSED) ->
  let o' := settle a r' acts o in
  os_next o' = os_next o /\
  (forall h x', os_heap o' !! h = Some x' -> exists x, os_heap o !! h = Some x /\ relay_key x = relay_key x') /\
  (state_ r' <> ST_CLOSED -> os_sessions o' = os_sessions o /\ os_heap o' !! a = Some r') /\
  (forall k', k' <> relay_key r -> os_sessions o' !! k' = os_sessions o !! k') /\
  (forall h, h <> a -> os_heap o' !! h = os_heap o !! h) /\
  os_out o' = os_out o ++ map (pair (relay_key r)) (outward acts).
Proof.
  intros Hr Hk Hs Hrm o'. unfold o', settle, removeSession. fold (relay_key r'). rewrite Hk.
  cbn [os_sessions add_out set_relay]. rewrite Hs.
  assert (Hh : forall h x', <[a := r']> (os_heap o) !! h = Some x' ->
    exists x, os_heap o !! h = Some x /\ relay_key x = relay_key x').
  { intros h x' [[<- <-]|[Hne Hx]]%lookup_insert_Some; [by exists r | by exists x']. }
  destruct (removes acts); cbn; split_and!; try done.
  - intros h x' [_ Hx]%lookup_delete_Some. by apply Hh.
  - intros Ho. by destruct Ho; apply Hrm.
  - intros k' Hne. by rewrite lookup_delete_ne.
  - intros h Hne. by rewrite lookup_delete_ne, lookup_insert_ne.
  - intros _. by rewrite lookup_insert_eq.
  - intros h Hne. by rewrite lookup_insert_ne.
Qed.

(** What the calls of a relay say: for another session nothing, for [k] what the relay
    tells its peer. *)
Lemma relay_calls_key r acts w : Forall (fun c => call_key w c = stream_key w r) (calls_of r acts).
Proof.
  unfold calls_of. induction acts as [|x acts IH]; [constructor|]. cbn [map concat]. apply Forall_app. split; [|done].
  destruct x; repeat constructor.
Qed.
Lemma voiced_acts r acts : spk -> quiet acts -> forall said w, sound w -> stream_key w r = k ->
  voiced k false ol said w -> voiced k false ol (said ++ peer_bytes acts) (apply_calls (calls_of r acts) w).
Proof.
  intros (Hz & Hx & Hmb)%Hspk. induction 1 as [|x acts Hq _ IH]; intros said w Hw Hk Hv; [by rewrite app_nil_r|].
  change (peer_bytes (x :: acts)) with ((match x with ToPeer d => d | _ => [] end) ++ peer_bytes acts).
  change (calls_of r (x :: acts)) with (call_of r x ++ calls_of r acts). rewrite apply_calls_app, app_assoc.
  destruct x as [d|h p|d| | |]; try discriminate Hq; rewrite ?app_nil_r; try by apply IH.
  destruct (speak_call Hmb (CallSend (rs_session_id r) d (rs_peer_ingress r)) w Hw) as (H1 & H2 & _). apply IH.
  - exact H1.
  - unfold stream_key, resolveIngressKey in *. cbn [call_of apply_calls fold_left]. by rewrite H2.
  - apply voiced_send; [done..|]. done.
Qed.

(** All the calls of a relay: they keep the world sound, say nothing for another session
    than the relay's, and for the relay's own what it tells its peer. *)
Lemma speak_acts r acts w : spk -> sound w -> peer_key (loc_of w) k ->
  let w' := apply_calls (calls_of r acts) w in
  sound w' /\ (relay_key r <> k -> quietly k w w') /\
  forall said, relay_key r = k -> quiet acts -> voiced k false ol said w ->
    voiced k false ol (said ++ peer_bytes acts) w'.
Proof.
  intros Hy Hw Hp w'. destruct (Hspk Hy) as (Hz & Hx & Hmb).
  pose proof (peer_stream_key k w r Hp) as Hsk.
  destruct (speak_calls Hmb k (calls_of r acts) w Hw) as (H1 & _ & H3). split_and!; [exact H1| |].
  - intros Hne. apply quietly_hushed, H3. eapply Forall_impl; [apply relay_calls_key|].
    intros c -> Heq. by apply Hne, eq_sym, Hsk.
  - intros said Hkr Hqa Hv. apply voiced_acts; [done..| |done]. symmetry. by apply Hsk.
Qed.
(** The relay of session [k] takes one more step, and lives. *)
Lemma tracked_own D w w' e a r r' acts :
  os_sessions (w_app w) !! k = Some a -> os_heap (w_app w) !! a = Some r ->
  os_sessions (w_app w') !! k = Some a -> os_heap (w_app w') !! a = Some r' ->
  relay_step e r = Some (r', acts) -> log_grows w w' ->
  log_data k (w_log w') = log_data k (w_log w) ++ ev_data e ->
  out_of k (os_out (w_app w')) = out_of k (os_out (w_app w)) ++ outward acts ->
  (spk -> forall said, voiced k false ol said w -> voiced k false ol (said ++ peer_bytes acts) w') ->
  tracked D w -> tracked (D ++ data_out [e]) w'.
Proof.
  intros Hs Hr Hs' Hr' Hstep Hg Hlog Hout Hv
    [Hgone|[(H1 & _)|(evs & acts0 & r0 & a0 & H1 & H2 & H3 & H4 & H5 & H6 & H7)]];
    [left; by eapply log_grows_gone | congruence |].
  rewrite Hs in H1. injection H1 as <-. rewrite Hr in H2. injection H2 as <-.
  right. right. exists (evs ++ [e]), (acts0 ++ acts), r', a. split_and!; [done | done | by eapply run_step |..].
  - rewrite evs_data_app, H4, Hlog. f_equal. unfold evs_data. simpl. apply app_nil_r.
  - by rewrite outward_app, H5, Hout.
  - by rewrite data_out_app, H6.
  - intros Hy. rewrite peer_app. by apply Hv, H7.
Qed.
(** A relay of session [k] that closes takes the session with it. *)
Lemma acts_gone a r r' acts w w2 : outport_wf w -> os_sessions (w_app w) !! k = Some a ->
  op_ok r r' acts -> state_ r' = ST_CLOSED -> relay_key r = k ->
  peer_key (loc_of w) k -> peer_key (loc_of w2) k -> idents k w2 = idents k w ->
  gone k (apply_calls (calls_of r acts) w2).
Proof.
  intros Hw Hs Hop Hcl Hkr Hp Hp2 Hid. destruct (op_closed _ _ _ Hop Hcl) as (pre & rem & Hq & ->).
  assert (Hk : k = stream_key w2 r) by (by apply (peer_stream_key k w2 r Hp2)). rewrite Hk. apply calls_gone; [done|].
  rewrite <- Hk, Hid. pose proof (tw_stream _ _ _ (proj2 Hw) k Hp) as Hst. rewrite Hs in Hst. by destruct (idents k w).
Qed.

(** The relay at [a] reacts to an event; the log has gained [l]. *)
Lemma tunnel_settle D w w1 a r r' e acts b l : tunnel_inv D w -> w_ds w1 = w_ds w -> w_net w1 = w_net w ->
  w_log w1 = w_log w ++ l -> os_heap (w_app w) !! a = Some r -> relay_step e r = Some (r', acts) ->
  (gone k w \/ log_data k l = if decide (relay_key r = k) then ev_data e else []) ->
  let w' := apply_calls (calls_of r acts) (set_app (settle a r' acts (mark_ub b (w_app w))) w1) in
  let D' := D ++ if decide (relay_key r = k) then data_out [e] else [] in
  tunnel_inv D' w' /\ relay_of (relay_key r) a w'.
Proof.
  intros [Hw Hn Hp Hsd Ht] Hds Hnet Hlog Hr Hstep Hl.
  pose proof (tw_heap _ _ _ (proj2 Hw) _ _ Hr) as Hs. destruct (table_live _ _ _ _ _ (proj2 Hw) Hr) as [Ho Hrem].
  pose proof (op_step e r r' acts Hrem Ho Hstep) as Hop. pose proof (step_key e r r' acts Hstep) as Hk.
  pose proof (wf_settle w w1 a r r' acts b Hw Hds Hnet Hr Hop Hk) as Hw'.
  set (o' := settle a r' acts (mark_ub b (w_app w))) in *. set (w2 := set_app o' w1) in *.
  destruct (apply_calls_called (calls_of r acts) w2) as [Hc Happ].
  assert (Hq2 : quietly k w w2) by (by apply quietly_same).
  assert (Hid2 : forall k', idents k' w2 = idents k' w)
    by (intros k'; unfold idents, find_session; simpl; by rewrite Hds).
  assert (Hpw : peer_key (loc_of w2) k) by (unfold loc_of, cfg in *; simpl; by rewrite Hds).
  assert (Hspeak : spk -> _) by (intros Hy; apply (speak_acts r acts w2 Hy); [|done];
    apply (sound_step w); [by apply Hsd | apply Hq2 | simpl; by rewrite Hnet | intros k' st;
      unfold find_session; simpl; rewrite Hds; by left]).
  cbv zeta in Hspeak. set (w' := apply_calls _ w2) in *. change (w_app w2) with o' in Happ.
  destruct (settle_facts a r r' acts (mark_ub b (w_app w)) Hr Hk Hs) as (Hnx & Hheap & Hopen & Hoth & Hsep & Hout).
  { intros Hrm. destruct (decide (state_ r' = ST_CLOSED)) as [|Hne]; [done|].
    by rewrite removes_quiet in Hrm by (by apply Hop). }
  fold o' in Hnx, Hheap, Hopen, Hoth, Hsep, Hout. rewrite <- Happ in Hnx, Hheap, Hopen, Hoth, Hsep, Hout.
  assert (Hg : log_grows w w') by (transitivity w2; [by exists l | by eapply called_grows]).
  assert (Hlw' : log_data k (w_log w') = log_data k (w_log w) ++ log_data k l).
  { rewrite <- (log_data_handed k (w_log w')), (called_handed _ _ _ Hc), app_nil_r, log_data_handed.
    change (w_log w2) with (w_log w1). rewrite Hlog. apply log_data_app. }
  cbv zeta. set (D' := D ++ _).
  enough (Htr : tracked D' w' /\ (gone k w' \/ (relay_key r = k -> is_Some (os_heap (w_app w') !! a)))).
  { destruct Htr as [Htr Hro]. split; [constructor; [done | | | by intros Hy; apply Hspeak | done]|].
    - apply (named_sub w); [|done|done|done]. intros k' i Hi. rewrite <- Hid2. by eapply idents_called.
    - unfold loc_of in *. rewrite (ds_sess_cfg _ _ (cd_ds _ _ _ Hc)). unfold cfg in *. simpl. by rewrite Hds.
    - destruct Hro as [|Hro]; [by left | right]. split; [done|]. intros x' Hx'.
      destruct (Hheap a x' Hx') as (x & Hx & <-). cbn [os_heap mark_ub] in Hx. congruence. }
  destruct Hl as [Hgone|Hl]; [split; left; by eapply log_grows_gone|].
  unfold D' in *. destruct (decide (relay_key r = k)) as [Hkr|Hne].
  - rewrite Hkr in Hs. destruct (decide (state_ r' = ST_CLOSED)) as [Hcl|Hcl].
    + assert (gone k w') by (by eapply (acts_gone a r r' acts w w2)). split; by left.
    + destruct (Hopen Hcl) as [Hse Hhe]. split; [|right; by intros _; exists r'].
      eapply (tracked_own D w w' e a r r' acts); try done.
      * by rewrite Hse.
      * by rewrite Hlw', Hl.
      * rewrite Hout, out_of_app, out_of_key. by rewrite decide_True.
      * intros Hy said Hv. apply Hspeak; [done | done | by apply Hop | by eapply voiced_then].
  - split; [|by right]. rewrite Hl, app_nil_r in Hlw'. rewrite app_nil_r.
    eapply tracked_ext; [done | by right | by apply Hoth | | | | done].
    + intros b0 Hb0. apply Hsep. intros ->. destruct (tw_entry _ _ _ (proj2 Hw) _ _ Hb0) as (r0 & Hr0 & Hk0 & _).
      congruence.
    + rewrite Hout, out_of_app, out_of_key, decide_False by done. apply app_nil_r.
    + intros Hy. destruct (proj1 (proj2 (Hspeak Hy)) Hne) as (Hc3 & Ht3 & Hu3).
      destruct Hq2 as (Hc2 & Ht2 & Hu2). split_and!; [by etrans | by etrans | by eapply utters_then].
Qed.
(** A call through a pointer to a relay that is gone, or one that does nothing. *)
Lemma tunnel_mark D w w1 b l : tunnel_inv D w -> w_ds w1 = w_ds w -> w_net w1 = w_net w -> w_log w1 = w_log w ++ l ->
  (gone k w \/ log_data k l = []) -> tunnel_inv D (set_app (mark_ub b (w_app w)) w1).
Proof.
  intros [Hw Hn Hp Hsd Ht] Hds Hnet Hlog Hl. set (w' := set_app _ w1).
  assert (Hg : log_grows w w') by (by exists l).
  assert (Hid : forall k', idents k' w' = idents k' w)
    by (intros k'; unfold idents, find_session; simpl; by rewrite Hds).
  constructor.
  - by apply wf_mark.
  - eapply (named_sub w); eauto. intros k' i. by rewrite Hid.
  - unfold loc_of, cfg in *. simpl. by rewrite Hds.
  - intros Hy. apply (sound_step w); [by apply Hsd | unfold cfg; simpl; by rewrite Hds | simpl; by rewrite Hnet |].
    intros k' st. unfold find_session. simpl. rewrite Hds. by left.
  - apply (tracked_ext D w); [done | | done.. | | exact Ht].
    + destruct Hl as [|Hl]; [by left | right]. simpl. by rewrite Hlog, log_data_app, Hl, app_nil_r.
    + intros _. by apply quietly_same.
Qed.

Lemma tunnel_data D k' h d w : tunnel_inv D w -> relay_of k' h w ->
  tunnel_inv D (call_data k' h (snd k') d w) /\ relay_of k' h (call_data k' h (snd k') d w).
Proof.
  intros Hw Hq. unfold call_data. cbn [onSessionData outport_handler]. change (w_app (log ?u w)) with (w_app w).
  assert (Hld : log_data k [UpData k' h d] = if decide (k' = k) then [d] else []) by (simpl; by destruct (decide _)).
  destruct (os_heap (w_app w) !! h) as [r|] eqn:Hr.
  - pose proof (tunnel_settle D w (log (UpData k' h d) w) h r (fst (feedRx d r)) (EvData d) (snd (feedRx d r))
      (feedRx_dangles h d r (w_app w)) [UpData k' h d] Hw eq_refl eq_refl eq_refl Hr) as Hst.
    cbv zeta in Hst. rewrite app_if_nil in Hst by done.
    destruct (feedRx d r) as [r' acts] eqn:Hf. cbn [fst snd] in Hst.
    destruct Hq as [Hg|[_ Hk]].
    + destruct Hst as [H1 _]; [simpl; by rewrite Hf | by left |]. split; [exact H1|]. left.
      eapply log_grows_gone; [|exact Hg]. etrans; [|by eapply called_grows, apply_calls_called]. by exists [UpData k' h d].
    + rewrite <- (Hk r Hr) in *. destruct Hst as [H1 H2]; [simpl; by rewrite Hf | right; exact Hld | done].
  - split; [|destruct Hq as [Hg|[Hk Hn]]].
    + apply (tunnel_mark D w _ true [UpData k' h d] Hw); try done.
      destruct Hq as [|[Hk _]]; [by left | right]. rewrite Hld. destruct (decide (k' = k)) as [->|]; [|done].
      destruct (Hk eq_refl) as [x Hx]. congruence.
    + left. eapply log_grows_gone; [|exact Hg]. by exists [UpData k' h d].
    + right. split; [intros Heq; destruct (Hk Heq) as [x Hx]; congruence|]. intros r'. simpl. by rewrite Hr.
Qed.
Lemma tunnel_close D k' h w : tunnel_inv D w -> tunnel_inv D (call_close k' h (snd k') w).
Proof.
  intros Hw. unfold call_close. cbn [onSessionClose outport_handler]. change (w_app (log ?u w)) with (w_app w).
  destruct (os_heap (w_app w) !! h) as [r|] eqn:Hr.
  - pose proof (tunnel_settle D w (log (UpClose k' h) w) h r (fst (close r)) EvPeerClose (snd (close r))
      false [UpClose k' h] Hw eq_refl eq_refl eq_refl Hr) as Hst. rewrite mark_false in Hst.
    cbv zeta in Hst. rewrite app_if_nil in Hst by done.
    destruct (close r) as [r' acts] eqn:Hf. cbn [fst snd] in Hst.
    destruct Hst as [H1 _]; [simpl; by rewrite Hf | right; by destruct (decide _) | done].
  - by apply (tunnel_mark D w _ true [UpClose k' h] Hw); auto.
Qed.
Lemma tunnel_erase D k' w : outport_wf (erase_session k' w) -> tunnel_inv D w ->
  (k' = k -> find_session k w = None) -> tunnel_inv D (erase_session k' w).
Proof.
  intros Hw' [Hw Hn Hp Hsd Ht] Hk'.
  assert (Hf : find_session k (erase_session k' w) = find_session k w).
  { destruct (decide (k = k')) as [<-|]; [rewrite find_erase_eq; symmetry; by apply Hk' | by apply find_erase_ne]. }
  constructor; try done.
  - eapply (named_sub w); eauto. intros k0 i. rewrite idents_erase. by destruct (decide _).
  - intros Hy. apply (sound_step w); [by apply Hsd | done..|]. intros k0 st. destruct (decide (k0 = k')) as [->|];
      [by rewrite find_erase_eq | rewrite find_erase_ne by done; by left].
  - apply (tracked_ext D w); [by apply log_grows_eq | by right | done.. | | exact Ht].
    intros _. split_and!; [done | unfold tx; by rewrite Hf | apply utters_refl].
Qed.

Lemma tunnel_ensure D k' w : key_ok k' -> tunnel_inv D w -> tunnel_inv D (ensure_session k' w).
Proof.
  intros Hko Hall. pose proof Hall as [Hw Hn Hp Hsd Ht]. pose proof (ai_ensure _ _ outport_invariant k' w Hw) as Hw'.
  assert (Hsd' : spk -> sound (ensure_session k' w)) by (intros Hy; apply sound_ensure; [done | by apply Hsd]).
  unfold ensure_session in *. destruct (find_session k' w) as [st|] eqn:Hf; [done|].
  pose proof Hw as [Hcb Hwt]. rewrite Hcb in *. cbn [unknown_cb outport_handler] in *.
  destruct (ensureSession (fst k') (snd k') (w_app w)) as [a o'] eqn:He. set (w' := put_session _ _ _) in *.
  assert (Hid : forall k0, idents k0 w' = if decide (k0 = k') then Some (k', Some a) else idents k0 w).
  { intros k0. unfold idents, w'. destruct (decide (k0 = k')) as [->|Hne]; [|by rewrite find_put_ne].
    rewrite find_put_eq. by destruct k'. }
  assert (Hnone : idents k' w = None) by (unfold idents; by rewrite Hf).
  assert (Hquiet : k' <> k -> quietly k w w').
  { intros Hne. split_and!; [done | | apply utters_refl]. unfold tx, w'. by rewrite find_put_ne. }
  unfold ensureSession in He. rewrite <- surjective_pairing in He.
  destruct (os_sessions (w_app w) !! k') as [b|] eqn:Hb; injection He as <- <-.
  - (* an entry without a session of the stream: not that of a peer *)
    assert (Hne : k' <> k).
    { intros ->. pose proof (tw_stream _ _ _ Hwt k Hp) as Hs. cbv beta in Hs. by rewrite Hnone, Hb in Hs. }
    destruct (tw_entry _ _ _ Hwt _ _ Hb) as (r & Hr & Hk & _). constructor; try done.
    + intros k0 h. rewrite Hid. destruct (decide (k0 = k')) as [->|]; [|apply Hn]. intros [= <-].
      split; [apply (tw_fresh _ _ _ Hwt); by exists r|]. intros r0. simpl. rewrite Hr. by intros [= <-].
    + apply (tracked_ext D w); [by apply log_grows_eq | by right | done.. | by intros _; apply Hquiet | done].
  - set (a := os_next (w_app w)) in *.
    assert (Hfresh : os_heap (w_app w) !! a = None).
    { destruct (os_heap (w_app w) !! a) eqn:Hx; [|done].
      pose proof (tw_fresh _ _ _ Hwt a ltac:(by eexists)). unfold a in *. lia. }
    constructor; try done.
    + intros k0 h. rewrite Hid. cbn [w_app w' put_session on_ds set_app os_next os_heap].
      destruct (decide (k0 = k')) as [->|].
      * intros [= <-]. split; [lia|]. intros r0. rewrite lookup_insert_eq. intros [= <-]. by destruct k'.
      * intros Hk0. destruct (Hn k0 h Hk0) as [Hlt Hkey]. unfold a in *. split; [lia|].
        intros r0. rewrite lookup_insert_ne by lia. apply Hkey.
    + destruct (decide (k' = k)) as [->|Hne].
      * destruct Ht as [Hg|[(_ & Hlog & Hout & -> & Hut)|(evs & acts & r & a0 & H1 & _)]]; [by left | | congruence].
        right. right. exists [], [], (new_relay (fst k) (snd k)), a. split_and!.
        -- apply lookup_insert_eq.
        -- apply lookup_insert_eq.
        -- constructor.
        -- symmetry. exact Hlog.
        -- symmetry. exact Hout.
        -- done.
        -- intros Hy. apply voiced_new; [|by apply Hut]. unfold tx, w'. by rewrite find_put_eq.
      * apply (tracked_ext D w); [by apply log_grows_eq | by right | | | done | by intros _; apply Hquiet | done].
        -- cbn [w_app w' put_session on_ds set_app os_sessions]. by rewrite lookup_insert_ne.
        -- intros a0 Ha0. cbn [w_app w' put_session on_ds set_app os_heap]. rewrite lookup_insert_ne; [done|].
           intros <-. destruct (tw_entry _ _ _ Hwt _ _ Ha0) as (r & Hr & _). congruence.
Qed.

Lemma tunnel_invariant D : stream_invariant key_ok (tunnel_inv D) relay_of.
Proof.
  constructor.
  - apply tunnel_still.
  - apply tunnel_ensure.
  - intros k' st h w [Hw Hn Hp _ Ht] Hf Hh. right.
    assert (Hid : idents k' w = Some (wire_ingress_id st, session_id st, Some h)) by (unfold idents; rewrite Hf; by rewrite <- Hh).
    pose proof (tw_ids _ _ _ (proj2 Hw) _ _ Hid) as Hk. cbn [fst] in Hk. rewrite Hk.
    destruct (Hn k' h) as [_ Hkey]; [by rewrite Hid|]. split; [|exact Hkey]. intros ->.
    pose proof (tw_stream _ _ _ (proj2 Hw) k Hp) as Hs. cbv beta in Hs. rewrite Hid in Hs. cbn in Hs.
    destruct (os_sessions (w_app w) !! k) as [a|] eqn:Ha; [|done]. injection Hs as ->.
    destruct (tw_entry _ _ _ (proj2 Hw) k a Ha) as (r & Hr & _). by exists r.
  - intros k' h w Hw. unfold call_open. simpl. by apply (tunnel_mark D w _ _ [UpOpen k' h] Hw); auto.
  - intros k' h d w. apply tunnel_data.
  - intros k' st h w Hw Hf Hh. apply tunnel_erase; [|by apply tunnel_close|].
    + by apply (ai_close _ _ outport_invariant k' st h); [apply Hw| |].
    + intros ->. pose proof (closed_gone k h w (ti_wf _ _ Hw) (ti_peer _ _ Hw)) as Hc. unfold idents in Hc.
      rewrite Hf in Hc. cbn in Hc. rewrite Hh in Hc. by destruct (find_session k (call_close k h (snd k) w)); [discriminate Hc|].
  - intros k' st w Hw Hf Hh. apply tunnel_erase; [|done|].
    + by apply (ai_forget _ _ outport_invariant k' st); [apply Hw| |].
    + intros ->. pose proof (tw_stream _ _ _ (proj2 (ti_wf _ _ Hw)) k (ti_peer _ _ Hw)) as Hs. unfold idents in Hs.
      rewrite Hf in Hs. cbn in Hs. rewrite Hh in Hs. by destruct (os_sessions (w_app w) !! k).
Qed.

(** ** Runs of the service that do not stop it *)
Lemma served_wf s w : serving s -> stream_wf w -> stream_wf (outport_do s w).
Proof.
  intros Hs Hw. destruct (outport_as_stream [s] w) as (ts & Hts & _ & Hb & _); [by constructor|].
  change (outport_do s w) with (outport_run [s] w). rewrite <- Hts. by apply wf_steps.
Qed.
Lemma tunnel_step D s w : serving s -> stream_wf w -> tunnel_inv D w ->
  tunnel_inv (D ++ delivered_by k s w) (outport_do s w).
Proof.
  intros Hs Hwf Hw. destruct s as [ch buf| |a e|]; simpl; [| | |done].
  - rewrite app_nil_r. apply (si_onChannelBytes (tunnel_invariant D)); [|done]. apply split_keys. by apply scratch_app.
  - rewrite app_nil_r. by apply (si_emitFeedback (tunnel_invariant D)).
  - unfold on_remote. destruct (os_heap (w_app w) !! a) as [r|] eqn:Hr.
    2: { destruct e; by rewrite app_nil_r. }
    destruct (table_live _ _ _ _ _ (proj2 (ti_wf _ _ Hw)) Hr) as [_ Hrem].
    destruct (relay_step (event_of e) r) as [[r' acts]|] eqn:He.
    + pose proof (tunnel_settle D w w a r r' (event_of e) acts false [] Hw eq_refl eq_refl
        ltac:(by rewrite app_nil_r) Hr He) as Hst. rewrite mark_false in Hst. destruct Hst as [Hst _].
      { right. destruct (decide _); [|done]. by destruct e. }
      replace (D ++ match e with SkBytes b => _ | _ => _ end) with (D ++ (if decide (relay_key r = k) then data_out [event_of e] else []));
        [exact Hst|]. f_equal. destruct e as [|b|]; simpl in *; [by destruct (decide _) | | by destruct (decide _)].
      destruct (remote_tcp_ r && bool_decide (state_ r = ST_RELAYING)) eqn:Hg; [|done].
      apply andb_true_iff in Hg as [_ Hg%bool_decide_eq_true]. destruct (decide (relay_key r = k)); [|done].
      rewrite decide_True by done. apply app_nil_r.
    + replace (match e with SkBytes b => _ | _ => _ end) with (@nil Z); [by rewrite app_nil_r|].
      destruct e as [|b|]; try done. simpl in He. rewrite Hrem in He.
      destruct (decide (state_ r = ST_RELAYING)) as [Hst|]; [|by destruct (decide (relay_key r = k))].
      by rewrite Hst, bool_decide_eq_true_2 in He.
Qed.
Lemma tunnel_run ss : forall D w, Forall serving ss -> stream_wf w -> tunnel_inv D w ->
  tunnel_inv (D ++ from_remote k ss w) (outport_run ss w).
Proof.
  induction ss as [|s ss IH]; intros D w Hss Hwf Hw; [by rewrite app_nil_r|]. inversion Hss; subst.
  cbn [from_remote]. rewrite app_assoc. apply IH; [done | by apply served_wf | by apply tunnel_step].
Qed.
End tracked.

Lemma new_service_tunnel {rt : ZdsRuntime} {T : Transport} {sort : StdSort} k ol spk loc ss win v route net :
  peer_key loc k -> (spk -> sound (new_service loc ss win v route net)) -> wire_ net = ot_base ol ->
  tunnel_inv k ol spk [] (new_service loc ss win v route net).
Proof.
  intros Hp Hs Hb. constructor; [apply wf_new_service | | exact Hp | exact Hs |].
  - intros k' h. unfold idents, find_session. simpl. by rewrite lookup_empty.
  - right. left. unfold pristine. simpl. rewrite lookup_empty. split_and!; try done. intros _. by apply uttered_start.
Qed.

(** Under a peer's key the stream has no session without a relay. *)
Lemma tunnel_mute {rt : ZdsRuntime} {T : Transport} k ol spk D w : tunnel_inv k ol spk D w -> ~ mute k w.
Proof.
  intros Hi. pose proof (tw_stream _ _ _ (proj2 (ti_wf _ _ _ _ _ Hi)) k (ti_peer _ _ _ _ _ Hi)) as Hs.
  unfold mute, rx_of, idents in *. destruct (find_session k w) as [st|]; cbn in *; [|by intros []].
  intros Hh. rewrite Hh in Hs. by destruct (os_sessions (w_app w) !! k).
Qed.

(** What a service makes of a session it has been handed a client's bytes for. *)
Lemma tunnel_serves {rt : ZdsRuntime} {T : Transport} {sort : StdSort} (Hmb : forall len, mb_acquire len = true)
    k ol spk D w cs methods rsv port a payload : tunnel_inv k ol spk D w -> heard k (w_log w) = cs -> ~ gone k w ->
  Forall is_byte (concat cs) -> zlen methods < 256 -> addr_ok a -> 0 <= port < 2 ^ 16 ->
  concat cs = client_hello methods ++ client_request 1 rsv a port ++ payload ->
  0 <= start_connect (mkFgwEndpoint (host_text a) port) ->
  exists evs acts r written, followed k ol spk D evs acts r w /\ evs_data evs = cs /\ state_ r <> ST_CLOSED /\
    out_of k (os_out (w_app w)) = Dial (host_text a) port :: map ToRemote written /\
    ((state_ r = ST_CONNECTING /\ concat written = [] /\ rx_buffer_ r = payload) \/
     (state_ r = ST_RELAYING /\ concat written = payload)).
Proof.
  intros Hinv Hheard Hkept Hbytes Hm Ha Hp Hsays Hdial. rewrite heard_kept in Hheard by done.
  destruct (ti_tracked _ _ _ _ _ Hinv) as [?|[(_ & Hl & _)|(evs & acts & r & Hf)]]; [done | |].
  { rewrite Hl in Hheard. by rewrite <- Hheard in Hsays. }
  pose proof Hf as (x & H1 & H2 & H3 & H4 & H5 & _).
  destruct (table_live _ _ _ _ _ (proj2 (ti_wf _ _ _ _ _ Hinv)) H2) as [Ho _]. rewrite Hheard in H4.
  destruct (run_serves (fst k) (snd k) evs r acts rsv port methods payload a) as (written & Hw & Hst); try done.
  - rewrite H4. destruct (Forall_concat is_byte cs) as [Hc _]. by apply Hc.
  - by rewrite H4.
  - exists evs, acts, r, written. split_and!; try done. by rewrite <- H5.
Qed.

(** ** Properties *)

(** A client reaches its destination, whatever the sender is.  A sender in ALL mode is given, for one
    session, a SOCKS5 greeting, a CONNECT request and payload, in any pieces; one link
    delivers everything written to it, the others any prefixes, in any interleaving, to
    an outport that serves any other sessions meanwhile, with any callbacks of its
    outbound sockets.  Then, unless the session has been closed from this side, the
    outport has a relay for it that has dialled exactly the requested host and port,
    once; what it has written to that socket is nothing while the socket is not open,
    the payload being kept, and exactly the payload once it is. *)
Theorem client_reaches_destination {Hs : Type} {apps : SessionHandler Hs}
    {rt : ZdsRuntime} {T : Transport} {sort : StdSort} (Hmb : forall len, mb_acquire len = true)
    (* the sender, and what it is given *)
    (sid : Z) (h : option Z) (bufs : list bytes) (ws : world Hs) (k := (local_ingress_id_ (cfg ws), sid))
    (new : list (Z * bytes)) (id0 : Z)
    (Hready : sender_ready sid ws) (Hn : zlen (all_chunks ws bufs) <= 2 ^ 32 - 2 ^ 16)
    (Hnew : wire_ (w_net (sender_run sid h bufs ws)) = wire_ (w_net ws) ++ new)
    (Hmode : mode_ (selector_ (w_net ws)) = ZFGW_MULTIPATH_ALL)
    (Hid : In id0 (live_ids (pool (w_net ws))))
    (methods payload : bytes) (rsv port : Z) (a : socks_addr)
    (Hm : zlen methods < 256) (Ha : addr_ok a) (Hp : 0 <= port < 2 ^ 16)
    (Hsays : concat bufs = client_hello methods ++ client_request 1 rsv a port ++ payload)
    (Hbufs : Forall is_byte (concat bufs))
    (Hdial : 0 <= start_connect (mkFgwEndpoint (host_text a) port))
    (* the outport *)
    (loc ss win : Z) (v : bool) (route : Z) (net : Links) (steps : list outport_step)
    (w := outport_run steps (new_service loc ss win v route net)) (o := w_app w)
    (Hss : 0 <= ss < 2 ^ 16) (Hwin : 0 <= win < 2 ^ 16) (Hpeer : peer_key loc k)
    (Hserving : Forall serving steps) (conn : Z -> Z) (ch0 : Z)
    (Hfed : forall ch, served_on ch steps `prefix_of` on_socket (conn ch) new)
    (Hconn : conn ch0 = sock (w_net ws) id0) (Hall : served_on ch0 steps = on_socket (conn ch0) new)
    (Hkept : ~ gone k w) :
  exists x r written, os_sessions o !! k = Some x /\ os_heap o !! x = Some r /\
    out_of k (os_out o) = Dial (host_text a) port :: map ToRemote written /\
    ((state_ r = ST_CONNECTING /\ concat written = [] /\ rx_buffer_ r = payload) \/
     (state_ r = ST_RELAYING /\ concat written = payload)).
Proof.
  pose proof Hready as [_ Hseg _ _ _].
  destruct (outport_as_stream steps (new_service loc ss win v route net) Hserving) as (ts & Hts & Hon & Hbytes & Hno).
  pose proof (new_service_tunnel k (Outlet False 0 (wire_ net)) False loc ss win v route net Hpeer ltac:(done) eq_refl) as Hinv.
  apply (tunnel_run k _ False ltac:(done) steps) in Hinv; [|done | by apply wf_new_cb]. fold w in Hinv.
  assert (Hheard : heard k (w_log w) = all_chunks ws bufs).
  { unfold w. rewrite <- Hts. apply (joined_all Hmb sid h bufs ws Hready Hn new Hnew conn ts
      ltac:(by intros ch; rewrite Hon) loc ss win v route true net new_outport ch0 id0); try done.
    - by rewrite Hon.
    - change (kept k (do_steps ts (new_service loc ss win v route net))). rewrite Hts. split; [done|].
      by eapply tunnel_mute. }
  assert (Hconcat : concat (all_chunks ws bufs) = concat bufs) by (apply all_chunks_concat; lia).
  destruct (tunnel_serves Hmb k _ False _ w _ methods rsv port a payload Hinv Hheard Hkept)
    as (evs & acts & r & written & (x & H1 & H2 & _) & _ & _ & Hw & Hst); rewrite ?Hconcat; try done.
  by exists x, r, written.
Qed.

(** *** A client asks for a.io:443 over two links, of which the second breaks *)
Definition client_bufs : list bytes := [[5; 1; 0]; [5; 1; 0; 3; 4; 97; 46; 105; 111; 1; 187]; [22; 3; 1]].
Definition client_sent : list (Z * bytes) :=
  wire_ (w_net (sender_run 9 (Some 1) client_bufs (test_sender ZFGW_MULTIPATH_ALL))).
Definition client_steps : list outport_step :=
  [OsBytes 21 (take 60 (on_socket 101 client_sent)); OsBytes 22 (take 30 (on_socket 102 client_sent));
   OsFeedback; OsBytes 21 (drop 60 (on_socket 101 client_sent)); OsRemote 1 SkOpen].
Definition client_addr : socks_addr := SA_domain [97; 46; 105; 111].
Abbreviation client_key := (local_ingress_id_ (cfg (test_sender ZFGW_MULTIPATH_ALL)), 9).
Abbreviation client_world := (outport_run client_steps (new_service 3 0 0 true 0 (test_net ZFGW_MULTIPATH_BEST))).

Lemma client_fed ch : served_on ch client_steps `prefix_of` on_socket (test_conn ch) client_sent.
Proof.
  unfold test_conn. destruct (Z.eqb_spec ch 21) as [->|Hn1]; [exists []; by vm_compute|].
  destruct (Z.eqb_spec ch 22) as [->|Hn2]; [exists (drop 30 (on_socket 102 client_sent)); by vm_compute|].
  unfold client_steps. cbn [served_on].
  destruct (Z.eqb_spec 21 ch), (Z.eqb_spec 22 ch); try lia. apply prefix_nil.
Qed.
Lemma serving_test (steps : list outport_step) :
  forallb (fun s => match s with OsBytes _ b => forallb (fun x => (0 <=? x) && (x <? 256)) b
                    | OsStop => false | _ => true end) steps = true -> Forall serving steps.
Proof.
  intros Hs. rewrite forallb_forall in Hs. apply List.Forall_forall. intros s Hin. specialize (Hs s Hin).
  destruct s as [ch b| |a e|]; simpl; try done. rewrite forallb_forall in Hs.
  apply List.Forall_forall. intros x Hx. specialize (Hs x Hx). unfold is_byte. lia.
Qed.
Lemma client_serving : Forall serving client_steps.
Proof. apply serving_test. by vm_compute. Qed.
Lemma client_kept : ~ gone client_key client_world.
Proof. refine (bool_decide_unpack _ _). by vm_compute. Qed.

Lemma client_reaches_destination_witness :
  exists x r written, os_sessions (w_app client_world) !! client_key = Some x /\
    os_heap (w_app client_world) !! x = Some r /\
    out_of client_key (os_out (w_app client_world)) = Dial (host_text client_addr) 443 :: map ToRemote written /\
    ((state_ r = ST_CONNECTING /\ concat written = [] /\ rx_buffer_ r = [22; 3; 1]) \/
     (state_ r = ST_RELAYING /\ concat written = [22; 3; 1])).
Proof.
  refine (client_reaches_destination (apps := listener) (fun _ => eq_refl) 9 (Some 1) client_bufs
    (test_sender ZFGW_MULTIPATH_ALL) client_sent 1 _ _ _ _ _ [0] [22; 3; 1] 0 443
    client_addr eq_refl _ _ eq_refl _ _
    3 0 0 true 0 (test_net ZFGW_MULTIPATH_BEST) client_steps _ _ _ client_serving test_conn 21 client_fed
    _ _ client_kept).
  - constructor; [done | by vm_compute | by vm_compute | apply test_sane | by vm_compute].
  - by vm_compute.
  - reflexivity.
  - reflexivity.
  - by left.
  - by split; [repeat constructor|].
  - lia.
  - repeat constructor; by vm_compute.
  - by vm_compute.
  - done.
  - done.
  - done.
  - reflexivity.
  - by vm_compute.
Defined.
