(* ===== verification/Inport.v ===== *)
(** * Inport: the local end of sessions, [src/zfgw_inport.{h,cpp}]

    The service accepts clients, opens a stream session for each and relays bytes
    between the client's socket and the session.  A session object stays alive while
    its socket's handler holds it; a pointer to one is an address into a heap that
    keeps them all. *)
From S2P Require Import Prelude Proto OMap Segment Pack Channel Selector Links DataStream.

(** ** State *)
Record FgwSession := mkFgwSession {
  fs_session_id : Z;
  (** [client_tcp_], the socket it points to, if any *)
  client_tcp_ : option Z;
  client_addr_ : bytes;
  fs_bytes_sent_ : Z; fs_bytes_recv_ : Z;
  closed_ : bool }.
Definition new_fgw_session (session_id : Z) : FgwSession := mkFgwSession session_id None [] 0 0 false.

(** What the sessions do to their sockets. *)
Inductive client_action := ClientWrite (data : bytes) | ClientClose.

Record InportService := mkInport {
  is_heap : gmap Z FgwSession;
  (** [sessions_] *)
  is_sessions : omap Z;
  next_session_id_ : Z;
  (** the [session_] of each socket's [InportTcp] *)
  is_tcps : gmap Z Z;
  (** whether [acceptor_] is set *)
  is_acceptor : bool;
  (** the address of the next object *)
  is_next : Z;
  is_out : list (Z * client_action) }.
Definition new_inport : InportService := mkInport empty [] 1 empty false 1 [].

Definition set_sessions_ (m : omap Z) (o : InportService) : InportService :=
  mkInport (is_heap o) m (next_session_id_ o) (is_tcps o) (is_acceptor o) (is_next o) (is_out o).
Definition set_acceptor (b : bool) (o : InportService) : InportService :=
  mkInport (is_heap o) (is_sessions o) (next_session_id_ o) (is_tcps o) b (is_next o) (is_out o).
Definition set_tcps (m : gmap Z Z) (o : InportService) : InportService :=
  mkInport (is_heap o) (is_sessions o) (next_session_id_ o) m (is_acceptor o) (is_next o) (is_out o).
Definition upd_sess (a : Z) (f : FgwSession -> FgwSession) (o : InportService) : InportService :=
  mkInport (alter f a (is_heap o)) (is_sessions o) (next_session_id_ o) (is_tcps o) (is_acceptor o)
    (is_next o) (is_out o).
Definition emit_ (t : Z) (x : client_action) (o : InportService) : InportService :=
  mkInport (is_heap o) (is_sessions o) (next_session_id_ o) (is_tcps o) (is_acceptor o) (is_next o)
    (is_out o ++ [(t, x)]).

(** ** [FgwSession] *)
Definition bindClientTcp (t : Z) (addr : bytes) (s : FgwSession) : FgwSession :=
  mkFgwSession (fs_session_id s) (Some t) addr (fs_bytes_sent_ s) (fs_bytes_recv_ s) (closed_ s).
Definition add_recv (n : Z) (s : FgwSession) : FgwSession :=
  mkFgwSession (fs_session_id s) (client_tcp_ s) (client_addr_ s) (fs_bytes_sent_ s)
    (u64 (fs_bytes_recv_ s + n)) (closed_ s).
Definition add_sent (n : Z) (s : FgwSession) : FgwSession :=
  mkFgwSession (fs_session_id s) (client_tcp_ s) (client_addr_ s) (u64 (fs_bytes_sent_ s + n))
    (fs_bytes_recv_ s) (closed_ s).
Definition shut (s : FgwSession) : FgwSession :=
  mkFgwSession (fs_session_id s) None (client_addr_ s) (fs_bytes_sent_ s) (fs_bytes_recv_ s) true.

Definition removeSession (session_id : Z) (o : InportService) : InportService :=
  set_sessions_ (om_erase session_id (is_sessions o)) o.

(** [close()] of the session at [a]: the service after it and the call it makes on the
    stream, first. *)
Definition close (a : Z) (o : InportService) : InportService * list stream_call :=
  match is_heap o !! a with
  | None => (o, [])
  | Some s =>
    if closed_ s then (o, [])
    else
    let o := match client_tcp_ s with Some t => emit_ t ClientClose o | None => o end in
    (removeSession (fs_session_id s) (upd_sess a shut o),
     [CallClose (fs_session_id s) kFgwWireIngressUseLocal])
  end.

Section inport.
Context {rt : ZdsRuntime} {T : Transport} {sort : StdSort}.

(** The service as the stream's handler; it sets no unknown-session callback. *)
#[export] Instance inport_handler : SessionHandler InportService := {|
  unknown_cb _ _ o := (None, o);
  onSessionOpen _ _ o := o;
  onSessionData h _ data o :=
    match is_heap o !! h with
    | None => (o, [])
    | Some s =>
      match client_tcp_ s with
      | None => (o, [])
      | Some t =>
        if closed_ s then (o, [])
        else if negb (mb_acquire (zlen data)) then (o, [])
        else (upd_sess h (add_sent (zlen data)) (emit_ t (ClientWrite data) o), [])
      end
    end;
  onSessionClose h _ o := close h o |}.

Definition close_at (a : Z) (w : world InportService) : world InportService :=
  let '(o, cs) := close a (w_app w) in apply_calls cs (set_app o w).

Definition onClientBytes (a : Z) (buf : bytes) (w : world InportService) : world InportService :=
  match is_heap (w_app w) !! a with
  | None => w
  | Some s =>
    if closed_ s then w
    else
    let w := set_app (upd_sess a (add_recv (zlen buf)) (w_app w)) w in
    apply_call (CallSend (fs_session_id s) buf kFgwWireIngressUseLocal) w
  end.
Definition onClientClose (a : Z) (w : world InportService) : world InportService := close_at a w.

(** ** [InportTcp] *)
Definition on_read_data (t : Z) (buf : bytes) (w : world InportService) : world InportService :=
  match is_tcps (w_app w) !! t with Some a => onClientBytes a buf w | None => w end.
Definition on_close (t : Z) (w : world InportService) : world InportService :=
  match is_tcps (w_app w) !! t with
  | Some a =>
    let w := onClientClose a w in
    set_app (set_tcps (delete t (is_tcps (w_app w))) (w_app w)) w
  | None => w
  end.

(** ** [InportService] *)
Definition allocateSessionId (o : InportService) : Z * InportService :=
  (next_session_id_ o,
   mkInport (is_heap o) (is_sessions o) (next_session_id_ o +u32 1) (is_tcps o) (is_acceptor o)
     (is_next o) (is_out o)).

(** The factory of the acceptor, for a new socket; [addr] is the text of the socket's
    address at that moment. *)
Definition on_accept (addr : bytes) (w : world InportService) : world InportService :=
  let t := is_next (w_app w) in
  let '(sid, o) := allocateSessionId (w_app w) in
  let a := t + 1 in
  let s := bindClientTcp t addr (new_fgw_session sid) in
  let o := mkInport (<[a := s]> (is_heap o)) (om_insert sid a (is_sessions o)) (next_session_id_ o)
             (<[t := a]> (is_tcps o)) (is_acceptor o) (a + 1) (is_out o) in
  snd (openSession sid (Some a) (set_app o w)).

(** [listen_ret] is what [Acceptor::listen] returns. *)
Definition start (listen_ret : Z) (o : InportService) : Z * InportService :=
  if is_acceptor o then (err ZFGW_ERRCODE_BUSY, o)
  else if listen_ret <? 0 then (err ZFGW_ERRCODE_LISTENFAIL, set_acceptor false o)
  else (0, set_acceptor true o).

Definition stop (w : world InportService) : world InportService :=
  let copy := is_sessions (w_app w) in
  let w := set_app (set_acceptor false (set_sessions_ [] (w_app w))) w in
  fold_left (fun w e => close_at (snd e) w) copy w.

Definition registerSession (a : Z) (o : InportService) : InportService :=
  match is_heap o !! a with
  | Some s => set_sessions_ (om_insert (fs_session_id s) a (is_sessions o)) o
  | None => o
  end.
Definition snapshotSessions (o : InportService) : list FgwSession :=
  concat (map (fun e => match is_heap o !! snd e with Some s => [s] | None => [] end) (is_sessions o)).

(** ** The service among its callers *)
Inductive inport_step :=
  | InBytes (ch : Z) (buf : bytes)         (** bytes arrive on a link *)
  | InFeedback
  | InAccept (addr : bytes)                (** a client connects *)
  | InClient (t : Z) (buf : bytes)         (** a client sends *)
  | InClose (t : Z)                        (** a client's socket closes *)
  | InStop.
(** Clients are accepted only while the acceptor is up. *)
Definition inport_do (s : inport_step) (w : world InportService) : world InportService :=
  match s with
  | InBytes ch buf => onChannelBytes ch buf w
  | InFeedback => emitFeedback w
  | InAccept addr => if is_acceptor (w_app w) then on_accept addr w else w
  | InClient t buf => on_read_data t buf w
  | InClose t => on_close t w
  | InStop => stop w
  end.
Definition inport_run (ss : list inport_step) (w : world InportService) : world InportService :=
  fold_left (fun w s => inport_do s w) ss w.
End inport.
