(* ===== verification/InportWf.v ===== *)
(** * InportWf: the inport's sessions, their sockets and the stream agree

    The invariant of [InportService] and its stream: every handler the stream holds is
    an open session with a socket, what the stream tells a session is what the session's
    socket is given, and what a client sends its session sends. *)
From S2P Require Import Prelude Proto OMap Segment Pack Channel Selector Links DataStream.
From S2P Require Import ZdsInstance Testbed StreamFacts Framing StreamWf Sending AppInv Inport.

(** ** What sockets were given and sessions were told *)
Definition written (t : Z) (out : list (Z * client_action)) : bytes :=
  concat (map (fun x => match snd x with ClientWrite d => if fst x =? t then d else [] | ClientClose => [] end) out).
Definition told (h : Z) (log : list upcall) : bytes :=
  concat (map (fun u => match u with UpData _ h' d => if h' =? h then d else [] | _ => [] end) log).

Lemma written_app t a b : written t (a ++ b) = written t a ++ written t b.
Proof. unfold written. by rewrite map_app, concat_app. Qed.
Lemma told_handed h l : told h (handed l) = told h l.
Proof. unfold told. induction l as [|[k i|k i d|k i|k] l IH]; simpl; try done. by rewrite IH. Qed.
Lemma told_same h l l' : handed l = handed l' -> told h l = told h l'.
Proof. intros Hl. by rewrite <- (told_handed h l), Hl, told_handed. Qed.
Lemma told_app h a b : told h (a ++ b) = told h a ++ told h b.
Proof. unfold told. by rewrite map_app, concat_app. Qed.

(** A session with its client: open, and reached by the socket before it. *)
Definition live_session (o : InportService) (a : Z) (s : FgwSession) : Prop :=
  is_heap o !! a = Some s /\ closed_ s = false /\ client_tcp_ s = Some (a - 1).

(** [n] is a bound on the clients accepted so far. *)
Record table_wf (n loc : Z) (ids : SessionKey -> option (Z * Z * option Z)) (o : InportService) : Prop := {
  (** the table names open sessions, held by their sockets, *)
  iw_entry : forall sid a, om_find sid (is_sessions o) = Some a ->
    (exists s, live_session o a s /\ fs_session_id s = sid) /\ is_tcps o !! (a - 1) = Some a;
  (** all of them; *)
  iw_open : forall a s, is_heap o !! a = Some s -> closed_ s = false ->
    om_find (fs_session_id s) (is_sessions o) = Some a;
  iw_tcp : forall t a, is_tcps o !! t = Some a -> a = t + 1 /\ a < is_next o;
  iw_fresh : forall a, is_Some (is_heap o !! a) -> a < is_next o;
  iw_sids : forall sid a, om_find sid (is_sessions o) = Some a -> sid < next_session_id_ o;
  iw_ok : om_ok (is_sessions o);
  iw_next : 0 < next_session_id_ o <= 1 + n;
  (** and the handlers of the stream's sessions are in it, under their own ids. *)
  iw_ids : forall k i, ids k = Some i -> fst i = k;
  iw_stream : forall k i h, ids k = Some i -> snd i = Some h ->
    fst k = loc /\ om_find (snd k) (is_sessions o) = Some h }.

Section table.
Implicit Types (o : InportService).

Lemma inport_table_ids n loc ids ids' o : table_wf n loc ids o ->
  (forall k i, ids' k = Some i -> ids k = Some i \/ (fst i = k /\ snd i = None)) -> table_wf n loc ids' o.
Proof.
  intros [] Hsub. constructor; try done.
  - intros k i Hk. destruct (Hsub k i Hk) as [|[]]; eauto.
  - intros k i h Hk Hh. destruct (Hsub k i Hk) as [|[_ Hn]]; [eauto | congruence].
Qed.
Lemma table_more n n' loc ids o : table_wf n loc ids o -> n <= n' -> table_wf n' loc ids o.
Proof. intros [] Hn. constructor; try done. lia. Qed.

(** Counters and sockets' bytes change nothing. *)
Definition quiet_upd (f : FgwSession -> FgwSession) : Prop :=
  forall s, fs_session_id (f s) = fs_session_id s /\ closed_ (f s) = closed_ s /\ client_tcp_ (f s) = client_tcp_ s.
Lemma table_upd n loc ids o a f : table_wf n loc ids o -> quiet_upd f -> table_wf n loc ids (upd_sess a f o).
Proof.
  intros [He Ho Ht Hf Hs Hok Hn Hi Hst] Hq. constructor; simpl; try done.
  - intros sid b Hb. destruct (He sid b Hb) as [(s & (Hh & Hc & Hcl) & Hid) Htc]. split; [|done].
    destruct (Hq s) as (H1 & H2 & H3). unfold live_session. simpl. destruct (decide (b = a)) as [->|Hne].
    + exists (f s). rewrite lookup_alter_eq, Hh. simpl. by rewrite H1, H2, H3.
    + exists s. by rewrite lookup_alter_ne.
  - intros b s. destruct (decide (b = a)) as [->|Hne]; [|rewrite lookup_alter_ne by done; apply Ho].
    rewrite lookup_alter_eq. destruct (is_heap o !! a) as [s0|] eqn:Hh; [|done]. intros [= <-].
    destruct (Hq s0) as (-> & -> & _). by apply Ho.
  - intros b. destruct (decide (b = a)) as [->|Hne]; [|rewrite lookup_alter_ne by done; apply Hf].
    rewrite lookup_alter_eq. intros [x Hx]. apply Hf. by destruct (is_heap o !! a).
Qed.
Lemma table_emit n loc ids o t x : table_wf n loc ids o -> table_wf n loc ids (emit_ t x o).
Proof. by intros []. Qed.

Lemma inport_table_inj n loc ids o sid sid' a : table_wf n loc ids o ->
  om_find sid (is_sessions o) = Some a -> om_find sid' (is_sessions o) = Some a -> sid = sid'.
Proof.
  intros Hw H1 H2. destruct (iw_entry _ _ _ _ Hw _ _ H1) as [(s & (Hh & _) & Hid) _].
  destruct (iw_entry _ _ _ _ Hw _ _ H2) as [(s' & (Hh' & _) & Hid') _]. congruence.
Qed.

(** A session closes and leaves the table; its id leaves the stream. *)
Lemma table_close n loc ids ids' o a s : table_wf n loc ids o -> is_heap o !! a = Some s -> closed_ s = false ->
  (forall k i, ids' k = Some i -> k <> (loc, fs_session_id s) /\ ids k = Some i) ->
  table_wf n loc ids' (removeSession (fs_session_id s) (upd_sess a shut o)).
Proof.
  intros Hw Hh Hc Hids. pose proof (iw_open _ _ _ _ Hw a s Hh Hc) as Ha.
  destruct Hw as [He Ho Ht Hf Hs Hok Hn Hi Hst].
  assert (Hfind : forall sid b, om_find sid (om_erase (fs_session_id s) (is_sessions o)) = Some b ->
            sid <> fs_session_id s /\ om_find sid (is_sessions o) = Some b).
  { intros sid b. destruct (decide (sid = fs_session_id s)) as [->|Hne]; [by rewrite om_find_erase_eq|].
    by rewrite om_find_erase_ne. }
  constructor; simpl.
  - intros sid b [Hne Hb]%Hfind. destruct (He sid b Hb) as [(s' & (Hh' & Hc' & Hcl') & Hid') Htc]. split; [|done].
    exists s'. unfold live_session. simpl. rewrite lookup_alter_ne; [done|]. intros <-. congruence.
  - intros b s'. destruct (decide (b = a)) as [->|Hne].
    + rewrite lookup_alter_eq, Hh. simpl. by intros [= <-].
    + rewrite lookup_alter_ne by done. intros Hb Hcb. rewrite om_find_erase_ne; [by apply Ho|].
      intros Heq. pose proof (Ho b s' Hb Hcb) as Hb'. rewrite Heq in Hb'. congruence.
  - done.
  - intros b. destruct (decide (b = a)) as [->|Hne]; [|rewrite lookup_alter_ne by done; apply Hf].
    intros _. apply Hf. by exists s.
  - intros sid b [_ Hb]%Hfind. by eapply Hs.
  - by apply om_ok_erase.
  - done.
  - intros k i Hk. destruct (Hids k i Hk). by apply Hi.
  - intros k i h Hk Hh'. destruct (Hids k i Hk) as [Hne Hk']. destruct (Hst k i h Hk' Hh') as [Hl Hfi].
    split; [done|]. rewrite om_find_erase_ne; [done|]. intros Heq. apply Hne. destruct k. simpl in *. congruence.
Qed.

(** A client is accepted. *)
Lemma table_accept n loc ids ids' o addr :
  table_wf n loc ids o -> n + 2 < 2 ^ 32 ->
  let t := is_next o in
  let sid := next_session_id_ o in
  (forall k i, ids' k = Some i ->
     ids k = Some i \/ (k = (loc, sid) /\ i = (loc, sid, Some (t + 1)))) ->
  table_wf (n + 1) loc ids' (mkInport (<[t + 1 := bindClientTcp t addr (new_fgw_session sid)]> (is_heap o))
    (om_insert sid (t + 1) (is_sessions o)) (sid +u32 1) (<[t := t + 1]> (is_tcps o)) (is_acceptor o) (t + 1 + 1) (is_out o)).
Proof.
  intros [He Ho Ht Hf Hs Hok Hn Hi Hst] Hlt t sid Hids.
  assert (Hu : sid +u32 1 = sid + 1) by (apply u32_small; unfold is_u32, sid; lia).
  assert (Hfresh : forall b, is_Some (is_heap o !! b) -> b <> t + 1) by (intros b Hb%Hf ->; unfold t in Hb; lia).
  assert (Hnew : om_find sid (is_sessions o) = None).
  { destruct (om_find sid (is_sessions o)) eqn:Hx; [|done]. apply Hs in Hx. unfold sid in Hx. lia. }
  rewrite Hu. constructor; simpl.
  - intros sid' b. destruct (decide (sid' = sid)) as [->|Hne].
    + rewrite om_find_insert_eq. intros [= <-]. replace (t + 1 - 1) with t by lia. split; [|apply lookup_insert_eq].
      eexists. unfold live_session. simpl. rewrite lookup_insert_eq. replace (t + 1 - 1) with t by lia. by split_and!.
    + rewrite om_find_insert_ne by done. intros Hb. destruct (He sid' b Hb) as [(s & (Hh & Hc & Hcl) & Hid) Htc].
      assert (b <> t + 1) by (apply Hfresh; by exists s). split.
      * exists s. unfold live_session. simpl. by rewrite lookup_insert_ne.
      * rewrite lookup_insert_ne by lia. done.
  - intros b s. destruct (decide (b = t + 1)) as [->|Hne].
    + rewrite lookup_insert_eq. intros [= <-] _. apply om_find_insert_eq.
    + rewrite lookup_insert_ne by done. intros Hb Hc. pose proof (Ho b s Hb Hc) as Hx.
      rewrite om_find_insert_ne; [done|]. intros Heq. rewrite Heq in Hx. congruence.
  - intros t' a. destruct (decide (t' = t)) as [->|Hne]; [rewrite lookup_insert_eq; intros [= <-]; lia|].
    rewrite lookup_insert_ne by done. intros Hx. destruct (Ht t' a Hx). unfold t in *. lia.
  - intros b. destruct (decide (b = t + 1)) as [->|Hne]; [lia|]. rewrite lookup_insert_ne by done.
    intros Hb%Hf. unfold t. lia.
  - intros sid' b. destruct (decide (sid' = sid)) as [->|Hne]; [lia|]. rewrite om_find_insert_ne by done.
    intros Hx%Hs. unfold sid. lia.
  - by apply om_ok_insert.
  - unfold sid. lia.
  - intros k i Hk. destruct (Hids k i Hk) as [|[-> ->]]; [by apply Hi | done].
  - intros k i h Hk Hh. destruct (Hids k i Hk) as [Hk'|[-> ->]].
    + destruct (Hst k i h Hk' Hh) as [Hl Hfi]. split; [done|]. rewrite om_find_insert_ne; [done|].
      intros Heq. rewrite Heq in Hfi. congruence.
    + cbn [snd] in Hh. injection Hh as <-. split; [done | apply om_find_insert_eq].
Qed.
End table.

(** ** The stream and the service together *)
Section service.
Context {rt : ZdsRuntime} {T : Transport} {sort : StdSort}.
Implicit Types (w : world InportService).

Definition loc_of w : Z := local_ingress_id_ (cfg w).
Definition piped w : Prop := forall a, written (a - 1) (is_out (w_app w)) = told a (w_log w).
Definition inport_wf (n : Z) w : Prop :=
  table_wf n (loc_of w) (fun k => idents k w) (w_app w) /\ ((forall len, mb_acquire len = true) -> piped w).

Lemma inport_wf_same_view n w w' : same_view w w' -> inport_wf n w -> inport_wf n w'.
Proof.
  intros Hv [Hw Hp]. pose proof (sv_handed _ _ Hv) as Hl. destruct Hv as [Hi Hc _ Ha _]. unfold inport_wf, loc_of, piped. rewrite Hc, Ha. split.
  2: { intros Hmb a. rewrite (told_same _ _ _ Hl). by apply Hp. }
  eapply inport_table_ids; [exact Hw|]. intros k i Hk. left. by rewrite <- Hi.
Qed.

(** What a handler of the stream is. *)
Lemma wf_known n k st h w : inport_wf n w -> find_session k w = Some st -> handler st = Some h ->
  fst k = loc_of w /\ exists s, live_session (w_app w) h s /\ fs_session_id s = snd k.
Proof.
  intros [Hw _] Hf Hh. destruct (iw_stream _ _ _ _ Hw k (ident st) h) as [Hl Hfi]; [|done|].
  { unfold idents. by rewrite Hf. }
  split; [done|]. by destruct (iw_entry _ _ _ _ Hw _ _ Hfi) as [? _].
Qed.

(** A session is told something. *)
Lemma inport_wf_call_data n k h d w s : inport_wf n w -> live_session (w_app w) h s ->
  inport_wf n (call_data k h (snd k) d w) /\ exists s', live_session (w_app (call_data k h (snd k) d w)) h s'.
Proof.
  intros [Hw Hp] Hl. pose proof Hl as (Hh & Hc & Ht). unfold call_data. simpl. rewrite Hh, Ht, Hc.
  destruct (mb_acquire (zlen d)) eqn:Hm; simpl.
  - split; [split|].
    + apply table_upd; [by apply table_emit | done].
    + intros Hmb a. specialize (Hp Hmb a). unfold piped in *. simpl. rewrite written_app, told_app, Hp. f_equal.
      unfold written, told. simpl. rewrite !app_nil_r. by destruct (Z.eqb_spec (h - 1) (a - 1)), (Z.eqb_spec h a); try lia.
    + exists (add_sent (zlen d) s). unfold live_session. simpl. by rewrite lookup_alter_eq, Hh.
  - split; [split; [done|] | by exists s]. intros Hmb. by rewrite Hmb in Hm.
Qed.

(** The session at [a] closes: it leaves the table and the stream. *)
Lemma wf_close n w w1 a : inport_wf n w -> w_ds w1 = w_ds w ->
  (forall h, told h (w_log w1) = told h (w_log w)) ->
  let '(o, cs) := close a (w_app w) in
  let w' := apply_calls cs (set_app o w1) in
  inport_wf n w' /\ (forall k i, idents k w' = Some i -> idents k w = Some i) /\
  (forall s, is_heap (w_app w') !! a = Some s -> closed_ s = true) /\ is_tcps (w_app w') = is_tcps (w_app w).
Proof.
  intros [Hw Hp] Hds Htold. set (o0 := w_app w) in *.
  assert (Hskip : inport_wf n (set_app o0 w1) /\ (forall k, idents k (set_app o0 w1) = idents k w)).
  { split; [|intros k; unfold idents, find_session; simpl; by rewrite Hds]. split.
    - unfold loc_of, cfg. simpl. rewrite Hds. eapply inport_table_ids; [exact Hw|]. intros k i Hk. left.
      unfold idents, find_session in *. simpl in Hk. by rewrite Hds in Hk.
    - intros Hmb b. unfold piped in Hp. simpl. by rewrite Htold, <- (Hp Hmb b). }
  unfold close. destruct (is_heap o0 !! a) as [s|] eqn:Hh.
  2: { simpl. destruct Hskip as [H1 H2]. split_and!; try done; [intros k i; by rewrite H2 | intros s; by rewrite Hh]. }
  destruct (closed_ s) eqn:Hc.
  { simpl. destruct Hskip as [H1 H2]. split_and!; try done; [intros k i; by rewrite H2 |].
    intros s'. rewrite Hh. by intros [= <-]. }
  clear Hskip. set (o1 := match client_tcp_ s with Some t => _ | None => _ end).
  assert (Ho1 : table_wf n (loc_of w) (fun k => idents k w) o1 /\ is_heap o1 !! a = Some s /\
    (forall t, written t (is_out o1) = written t (is_out o0)) /\ is_tcps o1 = is_tcps o0).
  { unfold o1. destruct (client_tcp_ s); [|done]. split_and!; [by apply table_emit | done | | done].
    intros t. simpl. rewrite written_app. unfold written at 2. simpl. by rewrite app_nil_r. }
  destruct Ho1 as (Hw1 & Hh1 & Hout & Htc). cbn [apply_calls fold_left apply_call].
  set (w2 := set_app _ w1). pose proof (closeSession_view (fs_session_id s) kFgwWireIngressUseLocal w2) as Hv.
  assert (Hres : resolveIngressKey w2 kFgwWireIngressUseLocal = loc_of w)
    by (unfold resolveIngressKey, loc_of, cfg; simpl; by rewrite Hds).
  rewrite Hres in Hv. set (w3 := closeSession _ _ w2) in *. set (key := (loc_of w, fs_session_id s)) in *.
  assert (Hid : forall k, idents k w2 = idents k w) by (intros k; unfold idents, find_session; simpl; by rewrite Hds).
  pose proof (sv_handed _ _ Hv) as Hl. destruct Hv as [Hi Hcf _ Ha _]. change (w_app (erase_session key w2)) with (w_app w2) in Ha.
  change (w_log (erase_session key w2)) with (w_log w1) in Hl.
  assert (Hloc : loc_of w3 = loc_of w) by (unfold loc_of; rewrite Hcf; unfold cfg; simpl; by rewrite Hds).
  assert (Hsub : forall k i, idents k w3 = Some i -> k <> key /\ idents k w = Some i).
  { intros k i. rewrite Hi, idents_erase, Hid. by destruct (decide (k = key)). }
  split_and!.
  - split.
    + rewrite Hloc, Ha. eapply table_close; [exact Hw1 | done..].
    + intros Hmb b. rewrite Ha, (told_same _ _ _ Hl), Htold. simpl. rewrite Hout. by apply (Hp Hmb).
  - intros k i Hk. by apply Hsub.
  - intros s'. rewrite Ha. simpl. rewrite lookup_alter_eq, Hh1. simpl. by intros [= <-].
  - rewrite Ha. done.
Qed.

Lemma inport_invariant n : app_invariant (inport_wf n) (fun _ h w => exists s, live_session (w_app w) h s).
Proof.
  constructor.
  - intros w w'. apply inport_wf_same_view.
  - intros k w Hw. unfold ensure_session. destruct (find_session k w) as [st|] eqn:Hf; [done|].
    replace (if unknown_cb_set (w_ds w) then _ else _) with (@None Z, w_app w) by (by destruct (unknown_cb_set _)).
    destruct Hw as [Hw Hp]. split; [|done]. eapply inport_table_ids; [exact Hw|]. intros k' i. unfold idents.
    destruct (decide (k' = k)) as [->|Hne]; [|rewrite find_put_ne by done; auto].
    rewrite find_put_eq. intros [= <-]. right. by destruct k.
  - intros k st h w Hw Hf Hh. by destruct (wf_known n k st h w Hw Hf Hh) as [_ (s & Hl & _)]; exists s.
  - intros k h w [Hw Hp]. split; [done|]. intros Hmb a. simpl. rewrite told_app. unfold told at 2. simpl.
    rewrite app_nil_r. by apply Hp.
  - intros k h d w Hw [s Hl]. by apply (inport_wf_call_data n k h d w s).
  - intros k st h w Hw Hf Hh. unfold call_close. simpl.
    pose proof (wf_close n w (log (UpClose k h) w) h Hw eq_refl) as Hcl.
    destruct (close h (w_app w)) as [o cs]. destruct Hcl as ([Hw' Hp'] & _).
    { intros b. simpl. rewrite told_app. unfold told at 2. simpl. by rewrite app_nil_r. }
    split; [|done]. eapply inport_table_ids; [exact Hw'|]. intros k' i. rewrite idents_erase. destruct (decide _); auto. done.
  - intros k st w [Hw Hp] Hf Hh. split; [|done]. eapply inport_table_ids; [exact Hw|]. intros k' i. rewrite idents_erase.
    destruct (decide _); auto. done.
Qed.
End service.

(** ** The clients *)
Section steps.
Context {rt : ZdsRuntime} {T : Transport} {sort : StdSort}.
Implicit Types (w : world InportService).

Lemma wf_close_at n w a : inport_wf n w -> let w' := close_at a w in
  inport_wf n w' /\ (forall k i, idents k w' = Some i -> idents k w = Some i) /\
  (forall s, is_heap (w_app w') !! a = Some s -> closed_ s = true) /\ is_tcps (w_app w') = is_tcps (w_app w).
Proof.
  intros Hw. unfold close_at. pose proof (wf_close n w w a Hw eq_refl (fun _ => eq_refl)) as Hc.
  by destruct (close a (w_app w)) as [o cs].
Qed.

Lemma wf_on_close n w t : inport_wf n w -> inport_wf n (on_close t w).
Proof.
  intros Hw. unfold on_close, onClientClose. destruct (is_tcps (w_app w) !! t) as [a|] eqn:Ht; [|done].
  pose proof (wf_close_at n w a Hw) as ([Hw' Hp'] & _ & Hcl & Htc).
  destruct (iw_tcp _ _ _ _ (proj1 Hw) t a Ht) as [-> _]. set (w1 := close_at (t + 1) w) in *.
  split; [|done]. change (loc_of (set_app _ w1)) with (loc_of w1).
  destruct Hw' as [He Ho Htt Hf Hs Hok Hn Hi Hst]. constructor; simpl; try done.
  - intros sid b Hb. destruct (He sid b Hb) as [(s & Hl & Hid) Hx]. split; [by exists s|].
    rewrite lookup_delete_ne; [done|]. intros Heq. destruct Hl as (Hh & Hc & _).
    replace b with (t + 1) in Hh by lia. by rewrite (Hcl s Hh) in Hc.
  - intros t' b [_ Hx]%lookup_delete_Some. by apply Htt.
Qed.

Lemma wf_on_read n w t buf : inport_wf n w -> inport_wf n (on_read_data t buf w).
Proof.
  intros Hw. unfold on_read_data, onClientBytes. destruct (is_tcps (w_app w) !! t) as [a|]; [|done].
  destruct (is_heap (w_app w) !! a) as [s|]; [|done]. destruct (closed_ s); [done|].
  eapply inport_wf_same_view; [apply view_sendSessionData|]. destruct Hw as [Hw Hp].
  split; [by apply table_upd | done].
Qed.

Lemma wf_on_accept n w addr : inport_wf n w -> n + 2 < 2 ^ 32 -> inport_wf (n + 1) (on_accept addr w).
Proof.
  intros [Hw Hp] Hn. unfold on_accept. cbn [allocateSessionId fst snd].
  set (o' := mkInport _ _ _ _ _ _ _). set (sid := next_session_id_ (w_app w)). set (t := is_next (w_app w)).
  assert (Ht : forall ids', (forall k i, ids' k = Some i -> idents k w = Some i \/
            (k = (loc_of w, sid) /\ i = (loc_of w, sid, Some (t + 1)))) -> table_wf (n + 1) (loc_of w) ids' o')
    by (intros ids' Hids; by apply (table_accept n (loc_of w) (fun k => idents k w) ids' (w_app w) addr)).
  unfold openSession. set (key := (local_ingress_id_ (cfg (set_app o' w)), sid)).
  change key with (loc_of w, sid). change (find_session (loc_of w, sid) (set_app o' w)) with (find_session (loc_of w, sid) w).
  destruct (find_session (loc_of w, sid) w) as [st|] eqn:Hf.
  - split; [|done]. apply Ht. auto.
  - set (w1 := put_session _ _ _). pose proof (view_sendSegment (local_ingress_id_ (cfg (set_app o' w))) sid 0 FLAG_SYN None 0 w1) as Hv.
    destruct (sendSegment _ _ _ _ _ _ w1) as [r w2]. eapply inport_wf_same_view; [exact Hv|]. split; [|done].
    apply Ht. intros k i. unfold idents, w1. destruct (decide (k = (loc_of w, sid))) as [->|Hne].
    + rewrite find_put_eq. intros [= <-]. by right.
    + rewrite find_put_ne by done. by left.
Qed.

(** Closing sends and erases, whatever the handlers' state is. *)
Lemma sendSegment_app ing sid seq fl p n o w :
  sendSegment ing sid seq fl p n (set_app o w) =
  (fst (sendSegment ing sid seq fl p n w), set_app o (snd (sendSegment ing sid seq fl p n w))).
Proof.
  unfold sendSegment. change (cfg (set_app o w)) with (cfg w). change (w_net (set_app o w)) with (w_net w).
  destruct (negb (mb_acquire _)); [done|]. destruct (fgwSegmentEncode _ _ _ _ _) as [wrote out].
  destruct (wrote <? 0); [done|]. destruct (select_links _ _) as [ids net]. destruct ids; [done|].
  change (w_net (on_net (fun _ => net) (set_app o w))) with (w_net (on_net (fun _ => net) w)).
  by destruct (send_copies _ _ _ _ _ _) as [best net'].
Qed.
Lemma closeSession_app sid ing o w : closeSession sid ing (set_app o w) = set_app o (closeSession sid ing w).
Proof.
  unfold closeSession. change (resolveIngressKey (set_app o w) ing) with (resolveIngressKey w ing).
  change (find_session (resolveIngressKey w ing, sid) (set_app o w)) with (find_session (resolveIngressKey w ing, sid) w).
  destruct (find_session _ w) as [st|]; [|done]. destruct (closed st); [done|].
  change (put_session ?k ?v (set_app o w)) with (set_app o (put_session k v w)). by rewrite sendSegment_app.
Qed.

(** The service with its table emptied and its acceptor down. *)
Definition strip (o : InportService) : InportService := set_acceptor false (set_sessions_ [] o).
Lemma close_strip a o : close a (strip o) = (strip (fst (close a o)), snd (close a o)).
Proof.
  unfold close. change (is_heap (strip o)) with (is_heap o). destruct (is_heap o !! a) as [s|]; [|done].
  destruct (closed_ s); [done|]. by destruct (client_tcp_ s).
Qed.
Lemma close_at_strip a w : close_at a (set_app (strip (w_app w)) w) =
  set_app (strip (w_app (close_at a w))) (close_at a w).
Proof.
  unfold close_at. cbn [w_app set_app]. rewrite close_strip. unfold close.
  destruct (is_heap (w_app w) !! a) as [s|]; [|by destruct w]. destruct (closed_ s); [by destruct w|].
  cbn [fst snd]. set (o1 := removeSession _ _). cbn [apply_calls fold_left apply_call].
  change (set_app (strip o1) (set_app (strip (w_app w)) w)) with (set_app (strip o1) w).
  by rewrite !closeSession_app.
Qed.
(** So a stop closes the sessions one by one, table and all. *)
Definition close_all (l : list (Z * Z)) (w : world InportService) : world InportService :=
  fold_left (fun w e => close_at (snd e) w) l w.
Lemma stop_close_all w : let w' := close_all (is_sessions (w_app w)) w in
  stop w = set_app (strip (w_app w')) w'.
Proof.
  cbv zeta. unfold stop. change (set_acceptor false (set_sessions_ [] (w_app w))) with (strip (w_app w)).
  generalize (is_sessions (w_app w)) as l. intros l. revert w. induction l as [|e l IH]; intros w; [done|].
  cbn [fold_left close_all]. rewrite close_at_strip. apply IH.
Qed.

Lemma close_at_mono w a : 
  (forall b s, is_heap (w_app w) !! b = Some s -> closed_ s = true ->
     exists s', is_heap (w_app (close_at a w)) !! b = Some s' /\ closed_ s' = true) /\
  (forall sid b, om_find sid (is_sessions (w_app (close_at a w))) = Some b ->
     om_find sid (is_sessions (w_app w)) = Some b) /\
  (forall b, is_Some (is_heap (w_app (close_at a w)) !! b) -> is_Some (is_heap (w_app w) !! b)).
Proof.
  unfold close_at. assert (Ha : forall cs o, w_app (apply_calls cs (set_app o w)) = o)
    by (intros cs o; by destruct (apply_calls_only cs (set_app o w)) as (_ & -> & _)).
  destruct (close a (w_app w)) as [o cs] eqn:Hc. rewrite Ha. unfold close in Hc.
  destruct (is_heap (w_app w) !! a) as [s0|] eqn:Hh; [|injection Hc as <- <-; eauto].
  destruct (closed_ s0) eqn:Hcl; [injection Hc as <- <-; eauto|].
  injection Hc as <- <-. split_and!.
  - intros b s Hb Hs. exists s. split; [|done].
    assert (b <> a) by (intros ->; congruence). destruct (client_tcp_ s0); simpl; by rewrite lookup_alter_ne.
  - intros sid b. assert (He : forall m : omap Z, om_find sid (om_erase (fs_session_id s0) m) = Some b -> om_find sid m = Some b).
    { intros m. destruct (decide (sid = fs_session_id s0)) as [->|]; [by rewrite om_find_erase_eq | by rewrite om_find_erase_ne]. }
    destruct (client_tcp_ s0); apply He.
  - intros b. assert (Hx : is_Some (alter shut a (is_heap (w_app w)) !! b) -> is_Some (is_heap (w_app w) !! b))
      by (by rewrite lookup_alter_is_Some). destruct (client_tcp_ s0); apply Hx.
Qed.

Lemma close_all_spec n l : forall w, inport_wf n w -> let w' := close_all l w in
  inport_wf n w' /\
  (forall sid b, om_find sid (is_sessions (w_app w')) = Some b -> om_find sid (is_sessions (w_app w)) = Some b) /\
  (forall sid b s, (sid, b) ∈ l -> is_heap (w_app w') !! b = Some s -> closed_ s = true) /\
  (forall b s, is_heap (w_app w) !! b = Some s -> closed_ s = true ->
     exists s', is_heap (w_app w') !! b = Some s' /\ closed_ s' = true) /\
  (forall b, is_Some (is_heap (w_app w') !! b) -> is_Some (is_heap (w_app w) !! b)).
Proof.
  induction l as [|[sid a] l IH]; intros w Hw.
  - cbn. split_and!; [done | done | | eauto | done]. intros sid b s Hin. by apply elem_of_nil in Hin.
  - cbn [close_all fold_left snd]. destruct (wf_close_at n w a Hw) as (Hw1 & _ & Hcl & _).
    destruct (close_at_mono w a) as (Hm & Ht & Hs). destruct (IH _ Hw1) as (Hw2 & Ht2 & Hcl2 & Hm2 & Hs2).
    fold (close_all l (close_at a w)). split_and!; [done | intros; by apply Ht, Ht2 | | |].
    + intros sid' b s [[= -> ->]|Hin]%elem_of_cons Hh; [|by eapply Hcl2].
      destruct (is_heap (w_app (close_at a w)) !! a) as [s1|] eqn:H1.
      * destruct (Hm2 a s1 H1 (Hcl s1 eq_refl)) as (s2 & H2 & Hc2). congruence.
      * destruct (Hs2 a) as [s1 Hs1]; [by exists s | congruence].
    + intros b s Hb Hc. destruct (Hm b s Hb Hc) as (s1 & H1 & Hc1). by apply (Hm2 b s1).
    + intros b Hb. by apply Hs, Hs2.
Qed.

(** After a stop no session is open and the table is empty. *)
Lemma inport_stop_spec n w : inport_wf n w ->
  inport_wf n (stop w) /\ is_sessions (w_app (stop w)) = [] /\
  (forall a s, is_heap (w_app (stop w)) !! a = Some s -> closed_ s = true) /\
  (forall k st, find_session k (stop w) = Some st -> handler st = None).
Proof.
  intros Hw. rewrite stop_close_all. set (l := is_sessions (w_app w)). set (w1 := close_all l w).
  destruct (close_all_spec n l w Hw) as ([Hw1 Hp1] & Ht & Hcl & _). fold w1 in Hw1, Hp1, Ht, Hcl.
  assert (Hnone : forall sid b, om_find sid (is_sessions (w_app w1)) = Some b -> False).
  { intros sid b Hb. destruct (iw_entry _ _ _ _ Hw1 _ _ Hb) as [(s & (Hh & Hc & _) & _) _].
    pose proof (Hcl sid b s) as Hx. rewrite Hc in Hx. discriminate Hx; [|done].
    by apply list_elem_of_In, om_find_In, Ht. }
  assert (Hnil : is_sessions (w_app w1) = []).
  { destruct (is_sessions (w_app w1)) as [|[sid b] m] eqn:Hm; [done|]. destruct (Hnone sid b). simpl. by rewrite Z.eqb_refl. }
  assert (Hopen : forall a s, is_heap (w_app w1) !! a = Some s -> closed_ s = true).
  { intros a s Hs. destruct (closed_ s) eqn:Hc; [done|]. pose proof (iw_open _ _ _ _ Hw1 a s Hs Hc) as Hx.
    by destruct (Hnone _ _ Hx). }
  assert (Heq : set_sessions_ [] (w_app w1) = w_app w1) by (rewrite <- Hnil; by destruct (w_app w1)).
  unfold strip. rewrite Heq. split_and!; [split; [|done] | done | done |].
  - by destruct Hw1.
  - intros k st Hf. destruct (handler st) as [h|] eqn:Hh; [|done]. exfalso.
    destruct (iw_stream _ _ _ _ Hw1 k (ident st) h) as [_ Hx]; [|done|by destruct (Hnone _ _ Hx)].
    change (find_session k w1 = Some st) in Hf. unfold idents. by rewrite Hf.
Qed.

Lemma wf_inport_do n s w : inport_wf n w -> n + 2 < 2 ^ 32 ->
  inport_wf (match s with InAccept _ => n + 1 | _ => n end) (inport_do s w).
Proof.
  intros Hw Hn. destruct s as [ch buf| |addr|t buf|t|]; simpl.
  - by apply (ai_onChannelBytes (inport_invariant n)).
  - by apply (ai_emitFeedback (inport_invariant n)).
  - destruct (is_acceptor (w_app w)); [by apply wf_on_accept|]. destruct Hw as [Hw Hp].
    split; [|done]. by eapply table_more; [exact Hw|lia].
  - by apply wf_on_read.
  - by apply wf_on_close.
  - by apply inport_stop_spec.
Qed.

Definition accepts (ss : list inport_step) : Z :=
  zlen (List.filter (fun s => match s with InAccept _ => true | _ => false end) ss).
Lemma accepts_cons n s ss : n + accepts (s :: ss) = match s with InAccept _ => n + 1 | _ => n end + accepts ss.
Proof. unfold accepts. destruct s; cbn [List.filter]; rewrite ?zlen_cons; lia. Qed.
Lemma accepts_nonneg ss : 0 <= accepts ss.
Proof. apply zlen_nonneg. Qed.
Lemma wf_inport_run ss : forall n w, inport_wf n w -> n + accepts ss + 2 < 2 ^ 32 ->
  inport_wf (n + accepts ss) (inport_run ss w).
Proof.
  induction ss as [|s ss IH]; intros n w Hw Hn; [by rewrite Z.add_0_r|]. rewrite accepts_cons in *.
  pose proof (accepts_nonneg ss). unfold inport_run. cbn [fold_left]. apply IH; [|done].
  apply wf_inport_do; [done|]. destruct s; lia.
Qed.

Definition new_inport_service (loc segment_size recv_window : Z) (verify : bool) (route listen_ret : Z)
    (net : Links) : world InportService :=
  mkWorld (new_stream loc segment_size recv_window verify route) net (snd (start listen_ret new_inport)) [].
Lemma start_new lr : snd (start lr new_inport) = set_acceptor (negb (lr <? 0)) new_inport.
Proof. unfold start. simpl. by destruct (lr <? 0). Qed.
Lemma wf_new_inport loc ss win v r lr net : inport_wf 0 (new_inport_service loc ss win v r lr net).
Proof.
  unfold new_inport_service. rewrite start_new. generalize (negb (lr <? 0)) as b. intros b. split; [|done].
  constructor; simpl; try done; [|apply om_ok_nil].
  by intros a [x Hx].
Qed.

(** The stream's configuration stays. *)
Lemma cfg_close_at a w : cfg (close_at a w) = cfg w.
Proof.
  unfold close_at. destruct (close a (w_app w)) as [o cs].
  by rewrite (ds_sess_cfg _ _ (proj1 (apply_calls_only cs (set_app o w)))).
Qed.
Lemma cfg_inport_do s w : cfg (inport_do s w) = cfg w.
Proof.
  destruct s as [ch buf| |addr|t buf|t|]; simpl.
  - rewrite onChannelBytes_split. unfold cfg. simpl. apply io_on_frames.
  - apply emitFeedback_core.
  - destruct (is_acceptor (w_app w)); [|done]. unfold on_accept. cbn [allocateSessionId fst snd].
    set (w1 := set_app _ w). change (cfg w) with (cfg w1). apply ds_sess_cfg.
    apply (grows_step (StOpen (next_session_id_ (w_app w)) (Some (is_next (w_app w) + 1)))); done.
  - unfold on_read_data, onClientBytes. destruct (is_tcps (w_app w) !! t); [|done].
    destruct (is_heap (w_app w) !! z) as [x|]; [|done]. destruct (closed_ x); [done|].
    apply (sv_cfg _ _ (view_sendSessionData _ _ _ (set_app _ w))).
  - unfold on_close. destruct (is_tcps (w_app w) !! t) as [a|]; [|done]. apply (cfg_close_at a w).
  - rewrite stop_close_all. generalize (is_sessions (w_app w)) as l. intros l.
    change (cfg (close_all l w) = cfg w). revert w.
    induction l as [|e l IH]; intros w; [done|]. cbn [close_all fold_left]. etrans; [apply IH | apply cfg_close_at].
Qed.
Lemma cfg_inport_run ss w : cfg (inport_run ss w) = cfg w.
Proof.
  revert w. induction ss as [|s ss IH]; intros w; [done|]. unfold inport_run in *. cbn [fold_left].
  by rewrite IH, cfg_inport_do.
Qed.
End steps.

(** What a client of the table sends, piece by piece, its session sends. *)
Lemma client_sends {rt : ZdsRuntime} {T : Transport} {sort : StdSort} (Hmb : forall len, mb_acquire len = true)
    n sid a bufs : forall (w : world InportService) st,
  inport_wf n w -> om_find sid (is_sessions (w_app w)) = Some a -> find_session (loc_of w, sid) w = Some st ->
  closed st = false -> is_u32 (next_send_seq st) -> 0 < segment_size_ (cfg w) <= MAX_PAYLOAD ->
  links_sane (w_net w) -> live_ids (pool (w_net w)) <> [] ->
  let cs := concat (map (chunks (segment_size_ (cfg w))) bufs) in
  let w' := inport_run (map (InClient (a - 1)) bufs) w in
  concat cs = concat bufs /\ sim (w_net w) (w_net w') /\
  sent_groups (cfg w) (loc_of w) sid (next_send_seq st) (w_net w) (w_net w') cs /\
  find_session (loc_of w, sid) w' = Some (set_send_seq (u32 (next_send_seq st + zlen cs)) st).
Proof.
  induction bufs as [|b bufs IH]; intros w st Hw Ha Hst Hcl Hu Hseg Hsane Hlive.
  { cbn [map concat]. change (zlen (@nil bytes)) with 0. rewrite Z.add_0_r, u32_small by done. split_and!; [done..| |].
    - exists []. simpl. by rewrite app_nil_r.
    - etrans; [exact Hst|]. by destruct st. }
  destruct (iw_entry _ _ _ _ (proj1 Hw) sid a Ha) as [(s & (Hh & Hcs & Ht) & Hid) Htc].
  set (w1 := set_app (upd_sess a (add_recv (zlen b)) (w_app w)) w).
  assert (Hdo : inport_do (InClient (a - 1) b) w = snd (sendSessionData sid b kFgwWireIngressUseLocal w1)).
  { simpl. unfold on_read_data, onClientBytes. by rewrite Htc, Hh, Hcs, Hid. }
  pose proof (wf_on_read n w (a - 1) b Hw) as Hw'. change (on_read_data (a - 1) b w) with (inport_do (InClient (a - 1) b) w) in Hw'.
  pose proof (iw_ids _ _ _ _ (proj1 Hw) (loc_of w, sid) (ident st)) as Hing.
  unfold idents in Hing. rewrite Hst in Hing. specialize (Hing eq_refl). cbn [ident fst] in Hing. injection Hing as Hing _.
  destruct (sendSessionData_spec Hmb sid b kFgwWireIngressUseLocal w1 st) as (w2 & Heq & Hcfg & Hst2 & Hs2 & Hg2); try done.
  pose proof (view_sendSessionData sid b kFgwWireIngressUseLocal w1) as Hv.
  rewrite Heq in Hdo, Hv. cbn [snd] in Hdo, Hv. rewrite Hdo in Hw'.
  change (cfg w1) with (cfg w) in *. change (w_net w1) with (w_net w) in *.
  change (resolveIngressKey w1 kFgwWireIngressUseLocal) with (loc_of w) in Hst2.
  assert (Hloc : loc_of w2 = loc_of w) by (unfold loc_of; by rewrite Hcfg).
  cbn [map concat]. unfold inport_run. cbn [fold_left]. rewrite Hdo. fold (inport_run (map (InClient (a - 1)) bufs) w2).
  destruct (IH w2 (set_send_seq (u32 (next_send_seq st + zlen (chunks (segment_size_ (cfg w)) b))) st))
    as (Hc3 & Hs3 & Hg3 & Hst3); rewrite ?Hcfg, ?Hloc; try done.
  - by rewrite (sv_app _ _ Hv).
  - apply u32_range.
  - by eapply sim_sane.
  - by rewrite (sim_live_ids _ _ Hs2).
  - rewrite Hcfg, ?Hloc in *. rewrite Hing in Hg2. split_and!.
    + rewrite concat_app, Hc3. f_equal. apply chunks_concat. lia.
    + by etrans.
    + by eapply sent_groups_app.
    + etrans; [exact Hst3|]. cbn [next_send_seq set_send_seq]. rewrite zlen_app.
      unfold set_send_seq, u32. cbn. by rewrite Zplus_mod_idemp_l, Z.add_assoc.
Qed.

(** ** Properties *)

(** C15. The inport's sessions are in step, whatever clients and links do, as long as
    fewer than [2^32 - 2] clients have come.  Every handler the stream holds is an open
    session of the table, on the stream under the inport's ingress id and the session's
    own id, and kept alive by its socket; the table names every open session once; and a
    client's socket is given exactly the bytes the stream has handed to its session, in
    order, each once.  The other way, what a client of the table sends in a row of pieces,
    over live links, is written to the links as the next segments of its session: their
    payloads are the pieces' bytes in order, each once, numbered on from the last.  A stop
    closes every session and takes every handler off the stream. *)
Theorem inport_in_step {rt : ZdsRuntime} {T : Transport} {sort : StdSort}
    (loc ss win : Z) (v : bool) (route lr : Z) (net : Links) (steps : list inport_step)
    (Hn : accepts steps + 2 < 2 ^ 32) (Hmb : forall len, mb_acquire len = true)
    (Hss : 0 <= ss < 2 ^ 16) (Hwin : 0 <= win < 2 ^ 16)
    (w := inport_run steps (new_inport_service loc ss win v route lr net)) (o := w_app w) :
  (forall k st h, find_session k w = Some st -> handler st = Some h ->
     fst k = loc /\ om_find (snd k) (is_sessions o) = Some h) /\
  (forall sid a, om_find sid (is_sessions o) = Some a ->
     exists s, is_heap o !! a = Some s /\ fs_session_id s = sid /\ closed_ s = false /\
       client_tcp_ s = Some (a - 1) /\ is_tcps o !! (a - 1) = Some a) /\
  (forall a s, is_heap o !! a = Some s -> closed_ s = false -> om_find (fs_session_id s) (is_sessions o) = Some a) /\
  (forall a, written (a - 1) (is_out o) = told a (w_log w)) /\
  (forall sid a st bufs, om_find sid (is_sessions o) = Some a -> find_session (loc, sid) w = Some st ->
     closed st = false -> is_u32 (next_send_seq st) -> links_sane (w_net w) -> live_ids (pool (w_net w)) <> [] ->
     let cs := concat (map (chunks (segment_size_ (cfg w))) bufs) in
     let w' := inport_run (map (InClient (a - 1)) bufs) w in
     concat cs = concat bufs /\
     sent_groups (cfg w) loc sid (next_send_seq st) (w_net w) (w_net w') cs /\
     find_session (loc, sid) w' = Some (set_send_seq (u32 (next_send_seq st + zlen cs)) st)) /\
  (forall a s, is_heap (w_app (stop w)) !! a = Some s -> closed_ s = true) /\
  (forall k st, find_session k (stop w) = Some st -> handler st = None).
Proof.
  pose proof (wf_inport_run steps 0 _ (wf_new_inport loc ss win v route lr net) Hn) as Hw.
  pose proof (cfg_inport_run steps (new_inport_service loc ss win v route lr net)) as Hc. fold w in Hw, Hc.
  assert (Hloc : loc_of w = loc) by (unfold loc_of; by rewrite Hc).
  destruct (inport_stop_spec _ w Hw) as (_ & _ & Hcl & Hno). pose proof Hw as [Hwt Hp].
  split; [|split; [|split; [|split; [by apply Hp | split; [|by split]]]]].
  - intros k st h Hf Hh. destruct (iw_stream _ _ _ _ Hwt k (ident st) h) as [Hl Hx]; [by unfold idents; rewrite Hf | done |].
    by rewrite Hloc in Hl.
  - intros sid a Ha. destruct (iw_entry _ _ _ _ Hwt sid a Ha) as [(s & (Hh & Hcs & Ht) & Hid) Hx]. by exists s.
  - apply (iw_open _ _ _ _ Hwt).
  - intros sid a st bufs Ha Hst Hcs Hu Hsane Hlive.
    pose proof (st_cfg _ (wf_new (H := InportService) loc ss win v route net new_inport [] Hss Hwin)) as [Hseg _].
    rewrite <- Hloc in Hst. destruct (client_sends Hmb _ sid a bufs w st Hw Ha Hst) as (H1 & _ & H2 & H3); try done.
    + by rewrite Hc.
    + rewrite Hloc in H2, H3. by split_and!.
Qed.

(** Two clients come, the first talks and leaves, the second talks. *)
Definition test_clients : list inport_step :=
  [InAccept [49]; InAccept [50]; InClient 1 [72; 105]; InClose 1].
Lemma test_clients_sane :
  links_sane (w_net (inport_run test_clients (new_inport_service 7 4 0 true 0 0 (test_net 1)))).
Proof.
  apply (sim_sane (test_net 1)); [|apply test_sane]. set (l := w_net _).
  assert (Hh : heap_ l = {[ 11 := chan l 11; 12 := chan l 12 ]}) by by vm_compute.
  constructor; [by vm_compute..|]. intros a. rewrite Hh. cbn [heap_ test_net].
  destruct (decide (a = 11)) as [->|H1]; [|destruct (decide (a = 12)) as [->|H2]].
  - rewrite !lookup_insert_eq. eexists. split; [done|]. constructor; by vm_compute.
  - rewrite !lookup_insert_ne, !lookup_singleton_eq by done. eexists. split; [done|]. constructor; by vm_compute.
  - by rewrite !lookup_insert_ne, !lookup_singleton_ne by done.
Qed.
Lemma inport_in_step_witness :
  let w := inport_run test_clients (new_inport_service 7 4 0 true 0 0 (test_net 1)) in
  let w' := inport_run [InClient 3 [1; 2; 3; 4; 5]; InClient 3 [6]] w in
  is_sessions (w_app w) = [(2, 4)] /\ is_tcps (w_app w) !! 3 = Some 4 /\
  sent_groups (cfg w) 7 2 0 (w_net w) (w_net w') [[1; 2; 3; 4]; [5]; [6]] /\
  next_send_seq <$> find_session (7, 2) w' = Some 3.
Proof.
  destruct (inport_in_step 7 4 0 true 0 0 (test_net 1) test_clients ltac:(by vm_compute) (fun _ => eq_refl)
    ltac:(lia) ltac:(lia)) as (_ & He & _ & _ & Hs & _).
  split; [by vm_compute|]. destruct (He 2 4 ltac:(by vm_compute)) as (s & _ & _ & _ & _ & Ht).
  split; [exact Ht|].
  destruct (Hs 2 4 (mkSession 2 7 0 0 [] (Some 4) true false) [[1; 2; 3; 4; 5]; [6]]) as (_ & Hg & Hf).
  - reflexivity.
  - by vm_compute.
  - done.
  - unfold is_u32. cbn. lia.
  - apply test_clients_sane.
  - intros Hx. vm_compute in Hx. discriminate Hx.
  - split; [exact Hg|]. etrans; [exact (f_equal (fmap (M := option) next_send_seq) Hf) | reflexivity].
Defined.
