(* ===== verification/Uplink.v ===== *)
(** * Uplink: what a client says, through the inport, on the stream's links

    The inport numbers its clients: the session of the [n]-th is [n], with a socket and an
    address of its own.  So what the stream hands over for a session is what that
    session's client is told, and what the client says is what the session says on the
    links, whoever else is served. *)
From S2P Require Import Prelude Proto OMap Segment Pack Channel Selector Links DataStream.
From S2P Require Import StreamFacts Framing StreamWf Reassembly Completeness Sending EndToEnd.
From S2P Require Import Traffic.
From S2P Require Import AppInv Inport InportWf.

(** ** The service's runs as runs of its stream *)
Fixpoint inport_on (ch : Z) (ss : list inport_step) : bytes :=
  match ss with
  | [] => []
  | InBytes ch' buf :: ss => (if ch' =? ch then buf else []) ++ inport_on ch ss
  | _ :: ss => inport_on ch ss
  end.
Definition hearing (s : inport_step) : Prop :=
  match s with InBytes _ buf => Forall is_byte buf | _ => True end.

Section as_stream.
Context {rt : ZdsRuntime} {T : Transport} {sort : StdSort}.
Implicit Types (w : world InportService).

Lemma env_close a w : do_step (StEnv (fun o net => let '(o, cs) := close a o in (o, net, cs))) w = close_at a w.
Proof. rewrite env_step. unfold close_at. by destruct (close a (w_app w)). Qed.
Lemma env_app (f : InportService -> InportService) w : do_step (StEnv (fun o net => (f o, net, []))) w = set_app (f (w_app w)) w.
Proof. by rewrite env_step. Qed.
Lemma bytes_on_env {H} ch (fs : list (H -> Links -> H * Links * list stream_call)) : bytes_on ch (map StEnv fs) = [].
Proof. by induction fs. Qed.
Lemma bytes_on_app {H} ch (a b : list (stream_step H)) : bytes_on ch (a ++ b) = bytes_on ch a ++ bytes_on ch b.
Proof. induction a as [|[] a IH]; simpl; rewrite ?IH, ?app_assoc; done. Qed.

(** Each step is some of the stream's. *)
Lemma inport_step_stream s w : hearing s -> exists ts, do_steps ts w = inport_do s w /\
  (forall ch, bytes_on ch ts = inport_on ch [s]) /\ Forall step_bytes ts.
Proof.
  intros Hs. destruct s as [ch buf| |addr|t buf|t|].
  - by exists [StBytes ch buf]; split_and!; [..|repeat constructor].
  - by exists [StFeedback]; split_and!; [..|repeat constructor].
  - simpl. destruct (is_acceptor (w_app w)) eqn:Ha; [|by exists []].
    exists [StEnv (fun o net => (let '(sid, o) := allocateSessionId o in
        mkInport (<[is_next o + 1 := bindClientTcp (is_next o) addr (new_fgw_session sid)]> (is_heap o))
          (om_insert sid (is_next o + 1) (is_sessions o)) (next_session_id_ o)
          (<[is_next o := is_next o + 1]> (is_tcps o)) (is_acceptor o) (is_next o + 1 + 1) (is_out o), net, []));
      StOpen (next_session_id_ (w_app w)) (Some (is_next (w_app w) + 1))].
    by split_and!; [..|repeat constructor].
  - simpl. unfold on_read_data, onClientBytes. destruct (is_tcps (w_app w) !! t) as [a|]; [|by exists []].
    destruct (is_heap (w_app w) !! a) as [x|]; [|by exists []]. destruct (closed_ x); [by exists []|].
    exists [StEnv (fun o net => (upd_sess a (add_recv (zlen buf)) o, net,
      [CallSend (fs_session_id x) buf kFgwWireIngressUseLocal]))]. by split_and!; [..|repeat constructor].
  - simpl. unfold on_close, onClientClose. destruct (is_tcps (w_app w) !! t) as [a|]; [|by exists []].
    exists [StEnv (fun o net => let '(o, cs) := close a o in (o, net, cs));
            StEnv (fun o net => (set_tcps (delete t (is_tcps o)) o, net, []))].
    split_and!; [|done|repeat constructor]. unfold do_steps. cbn [fold_left]. by rewrite env_app, env_close.
  - simpl. unfold stop. set (l := is_sessions (w_app w)).
    exists (StEnv (fun o net => (set_acceptor false (set_sessions_ [] o), net, [])) ::
      map (fun e => StEnv (fun o net => let '(o, cs) := close (snd e) o in (o, net, cs))) l). split_and!.
    + unfold do_steps. cbn [fold_left]. rewrite env_app. generalize (set_acceptor false (set_sessions_ [] (w_app w))) as o.
      intros o. generalize (set_app o w) as w1. clear. induction l as [|e l IH]; intros w1; [done|].
      cbn [map fold_left]. rewrite env_close. apply IH.
    + intros ch. simpl. clear. by induction l.
    + constructor; [done|]. clear. induction l; constructor; done.
Qed.
Lemma inport_as_stream ss : forall w, Forall hearing ss -> exists ts, do_steps ts w = inport_run ss w /\
  (forall ch, bytes_on ch ts = inport_on ch ss) /\ Forall step_bytes ts.
Proof.
  induction ss as [|s ss IH]; intros w Hss; [by exists []|]. inversion Hss as [|? ? Hs Hss']; subst.
  destruct (inport_step_stream s w Hs) as (t & Ht & Hb & Hst). destruct (IH (inport_do s w) Hss') as (ts & Hts & Hbs & Hsts).
  exists (t ++ ts). split_and!.
  - unfold do_steps in *. by rewrite fold_left_app, Ht.
  - intros ch. rewrite bytes_on_app, Hb, Hbs. destruct s; simpl; by rewrite ?app_nil_r.
  - by apply Forall_app.
Qed.
Lemma heard_wf s w : hearing s -> stream_wf w -> stream_wf (inport_do s w).
Proof. intros Hs Hw. destruct (inport_step_stream s w Hs) as (ts & <- & _ & Hb). by apply wf_steps. Qed.
End as_stream.

(** The bytes that socket [t] reads while it has its session. *)
Definition read_from (t : Z) (s : inport_step) (w : world InportService) : bytes :=
  match s with
  | InClient t' buf => if t' =? t then match is_tcps (w_app w) !! t with Some _ => buf | None => [] end else []
  | _ => []
  end.
Fixpoint from_client {rt : ZdsRuntime} {T : Transport} {sort : StdSort} (t : Z) (ss : list inport_step)
    (w : world InportService) : bytes :=
  match ss with
  | [] => []
  | s :: ss => read_from t s w ++ from_client t ss (inport_do s w)
  end.

(** ** One client *)
Section uplink.
Context {rt : ZdsRuntime} {laws : ZdsLaws rt} {ex : ZdsExact rt} {T : Transport} {sort : StdSort}.
Context (Hmb : forall len, mb_acquire len = true).
Implicit Types (w : world InportService).
(** The client's session, its socket and the address of its object; the outlet that what it
    says is followed to. *)
Context (loc sid : Z) (ol : outlet).
Abbreviation k := (loc, sid).
Abbreviation t := (2 * sid - 1).
Abbreviation a := (2 * sid).

(** Clients are numbered, and so are their sockets and sessions. *)
Definition numbered w : Prop :=
  is_next (w_app w) = 2 * next_session_id_ (w_app w) - 1 /\
  forall h s, is_heap (w_app w) !! h = Some s -> h = 2 * fs_session_id s.
(** The stream's session is the client's. *)
Definition attached w : Prop := snd <$> idents k w = Some (Some a).
(** What the client has said has been said on the links, while it is attached; before it
    came, nothing. *)
Definition speech (said : bytes) w : Prop :=
  (next_session_id_ (w_app w) <= sid -> said = [] /\ silent k ol (w_net w)) /\
  (attached w -> voiced k true ol said w).
Record uplink (n : Z) (said : bytes) w : Prop := {
  ul_wf : inport_wf n w;
  ul_loc : loc_of w = loc;
  ul_num : numbered w;
  ul_told : told a (w_log w) = concat (log_data k (w_log w));
  ul_sound : sound w;
  ul_speech : speech said w }.
Definition client_of (k' : SessionKey) (h : Z) w : Prop :=
  exists s, live_session (w_app w) h s /\ fs_session_id s = snd k' /\ fst k' = loc.

Lemma attached_known n said w : uplink n said w -> attached w -> exists s, live_session (w_app w) a s /\
  fs_session_id s = sid /\ sid < next_session_id_ (w_app w) /\ is_tcps (w_app w) !! t = Some a.
Proof.
  intros [[Hw _] Hloc _ _ _ _] Ha. unfold attached in Ha. destruct (idents k w) as [i|] eqn:Hi; [|done]. injection Ha as Ha.
  destruct (iw_stream _ _ _ _ Hw k i a) as [_ Hf]; [done..|]. cbn [snd] in Hf.
  destruct (iw_entry _ _ _ _ Hw _ _ Hf) as [(s & Hl & Hid) Htc]. exists s. split_and!; try done. by eapply iw_sids.
Qed.
(** A session object that is a client's own session. *)
Lemma numbered_key w h s : numbered w -> is_heap (w_app w) !! h = Some s -> fs_session_id s = sid <-> h = a.
Proof. intros [_ Hn] Hs. rewrite (Hn h s Hs). lia. Qed.

(** Steps that say nothing for the session, and those that end it. *)
Lemma speech_quiet said w w' : next_session_id_ (w_app w') = next_session_id_ (w_app w) ->
  (attached w' -> attached w) -> quietly k w w' -> speech said w -> speech said w'.
Proof.
  intros Hn Ha Hq [H1 H2]. pose proof Hq as (_ & _ & Hu). split.
  - rewrite Hn. intros Hle. destruct (H1 Hle) as [? Hu0]. split; [done | by eapply uttered_quiet; [|apply Hu|]].
  - intros Ha'. eapply voiced_then; [exact Hq | by apply H2, Ha].
Qed.
Lemma attached_find w w' : find_session k w' = find_session k w -> attached w' -> attached w.
Proof. unfold attached, idents. by intros ->. Qed.
Lemma speech_hushed said w w' : next_session_id_ (w_app w') = next_session_id_ (w_app w) ->
  hushed k w w' -> speech said w -> speech said w'.
Proof. intros Hn Hh. apply speech_quiet; [done | by apply attached_find, Hh | by apply quietly_hushed]. Qed.
Lemma speech_over said w : sid < next_session_id_ (w_app w) -> ~ attached w -> speech said w.
Proof. intros Hn Ha. split; [lia | done]. Qed.

(** The objects and the counters; what is emitted aside. *)
Definition same_clients (o o' : InportService) : Prop :=
  next_session_id_ o' = next_session_id_ o /\ is_next o' = is_next o /\
  forall h s', is_heap o' !! h = Some s' -> exists s, is_heap o !! h = Some s /\ fs_session_id s' = fs_session_id s.
Lemma numbered_same w w' : same_clients (w_app w) (w_app w') -> numbered w -> numbered w'.
Proof.
  intros (Hn & Hx & Hh) [H1 H2]. split; [congruence|]. intros h s' Hs'. destruct (Hh h s' Hs') as (s & Hs & ->). by apply H2.
Qed.
Lemma same_clients_refl o : same_clients o o.
Proof. split_and!; [done..|eauto]. Qed.
Lemma same_clients_upd f h o : (forall s, fs_session_id (f s) = fs_session_id s) -> same_clients o (upd_sess h f o).
Proof.
  intros Hf. split_and!; [done..|]. intros h' s'. simpl. destruct (decide (h' = h)) as [->|Hne].
  - rewrite lookup_alter_eq. destruct (is_heap o !! h) as [s|]; [|done]. intros [= <-]. eauto.
  - rewrite lookup_alter_ne by done. eauto.
Qed.
Lemma close_shape h o : same_clients o (fst (close h o)) /\
  (snd (close h o) = [] \/ exists s, is_heap o !! h = Some s /\ closed_ s = false /\
     snd (close h o) = [CallClose (fs_session_id s) kFgwWireIngressUseLocal]).
Proof.
  unfold close. destruct (is_heap o !! h) as [s|] eqn:Hs; [|by split; [apply same_clients_refl | left]].
  destruct (closed_ s) eqn:Hc; [by split; [apply same_clients_refl | left]|]. split; [|right; by exists s].
  simpl. set (o1 := match client_tcp_ s with Some _ => _ | None => o end).
  assert (Ho1 : same_clients o o1) by (unfold o1; destruct (client_tcp_ s); split_and!; simpl; eauto).
  destruct (same_clients_upd shut h o1) as (H1 & H2 & H3); [done|]. destruct Ho1 as (H4 & H5 & H6). split_and!; [done..|].
  intros h' s' Hs'. destruct (H3 h' s' Hs') as (s1 & Hs1 & ->). by apply H6.
Qed.

(** The session at [h] closes. *)
Lemma uplink_close n said w w1 h : uplink n said w -> w_ds w1 = w_ds w -> w_net w1 = w_net w ->
  (forall b, told b (w_log w1) = told b (w_log w)) -> log_data k (w_log w1) = log_data k (w_log w) ->
  let '(o, cs) := close h (w_app w) in uplink n said (apply_calls cs (set_app o w1)).
Proof.
  intros Hall Hds Hnet Htold Hlog. pose proof Hall as [Hw Hl Hn Ht Hsd Hsp]. pose proof (wf_close n w w1 h Hw Hds Htold) as Hcl.
  destruct (close_shape h (w_app w)) as [Hsame Hcs]. destruct (close h (w_app w)) as [o cs]. cbn [fst snd] in *.
  destruct Hcl as (Hw' & _ & _ & _). set (w2 := set_app o w1) in *.
  destruct (apply_calls_called cs w2) as [Hc Happ]. pose proof (called_handed _ _ _ Hc) as Hh. rewrite app_nil_r in Hh.
  assert (Hf2 : forall k', find_session k' w2 = find_session k' w) by (intros k'; unfold find_session; simpl; by rewrite Hds).
  assert (Hq2 : hushed k w w2) by (split; [unfold cfg; simpl; by rewrite Hds | done | simpl; rewrite Hnet; apply utters_refl]).
  assert (Hsd2 : sound w2).
  { apply (sound_step w); [done | apply Hq2 | apply Hq2 |]. intros k' st. rewrite Hf2. by left. }
  assert (Hsp2 : speech said w2) by (eapply speech_hushed; [apply Hsame | exact Hq2 | done]).
  assert (Hcfg : cfg (apply_calls cs w2) = cfg w).
  { rewrite (ds_sess_cfg _ _ (cd_ds _ _ _ Hc)). apply Hq2. }
  constructor; [done | unfold loc_of; by rewrite Hcfg | apply (numbered_same w); [by rewrite Happ | done] | | |].
  - rewrite (told_same _ _ _ Hh), <- log_data_handed, Hh, log_data_handed. simpl. by rewrite Htold, Hlog.
  - destruct (speak_calls Hmb k cs w2 Hsd2) as (H1 & _ & _). exact H1.
  - destruct Hcs as [->|(s & Hs & Hcs & ->)]; [done|]. cbn [apply_calls fold_left apply_call] in *.
    destruct (speak_close Hmb (fs_session_id s) kFgwWireIngressUseLocal w2 Hsd2) as (_ & _ & Hgone & _ & Hoth).
    assert (Hres : resolveIngressKey w2 kFgwWireIngressUseLocal = loc).
    { unfold resolveIngressKey. simpl. change (local_ingress_id_ (cfg w2) = loc). by rewrite (hu_cfg _ _ _ Hq2). }
    rewrite Hres in *. destruct (decide (fs_session_id s = sid)) as [Heq|Hne].
    + apply (speech_over said); [|unfold attached, idents; by rewrite <- Heq, Hgone].
      rewrite Happ. change (w_app w2) with o. rewrite (proj1 Hsame), <- Heq. eapply (iw_sids _ _ _ _ (proj1 Hw)), iw_open; [exact (proj1 Hw) | done..].
    + eapply speech_hushed; [by rewrite Happ | apply Hoth; congruence | done].
Qed.
(** A session that is forgotten without a word. *)
Lemma uplink_erase n said k' w : inport_wf n (erase_session k' w) -> uplink n said w -> uplink n said (erase_session k' w).
Proof.
  intros Hw' [Hw Hl Hn Ht Hsd Hsp]. constructor; try done.
  - apply (sound_step w); [done..|]. intros k0 st. destruct (decide (k0 = k')) as [->|];
      [by rewrite find_erase_eq | rewrite find_erase_ne by done; by left].
  - destruct (decide (k' = k)) as [->|Hne].
    + split; [apply Hsp|]. unfold attached, idents. by rewrite find_erase_eq.
    + apply (speech_hushed said w); [done | | exact Hsp]. split; [done | by apply find_erase_ne | apply utters_refl].
Qed.
(** A client's object is told something of its own session only. *)
Lemma client_told k' h d w : numbered w -> client_of k' h w ->
  told a [UpData k' h d] = concat (log_data k [UpData k' h d]).
Proof.
  intros Hn (s & (Hs & _) & Hid & Hloc). pose proof (numbered_key w h s Hn Hs) as Hk. unfold told. simpl.
  destruct (Z.eqb_spec h a) as [He|He], (decide (k' = k)) as [Hk'|Hk']; try done; exfalso.
  - apply Hk'. apply Hk in He. destruct k'. simpl in *. congruence.
  - apply He, Hk. by rewrite Hid, Hk'.
Qed.

Lemma uplink_data n said k' h d w : uplink n said w -> client_of k' h w ->
  uplink n said (call_data k' h (snd k') d w) /\ client_of k' h (call_data k' h (snd k') d w).
Proof.
  intros [Hw Hl Hn Ht Hsd Hsp] Hq. pose proof Hq as (s & Hls & Hid & Hloc).
  destruct (inport_wf_call_data n k' h d w s Hw Hls) as [Hw' Hq']. pose proof (client_told k' h d w Hn Hq) as Htd.
  pose proof Hls as (Hh & Hc & Htc). revert Hw' Hq'. unfold call_data. cbn [onSessionData inport_handler].
  change (w_app (log (UpData k' h d) w)) with (w_app w). rewrite Hh, Htc, Hc.
  set (r := if negb (mb_acquire (zlen d)) then _ else _).
  assert (Hr : snd r = [] /\ same_clients (w_app w) (fst r)).
  { unfold r. destruct (negb _); split; try done; [apply same_clients_refl|]. by apply (same_clients_upd (add_sent (zlen d)) h (emit_ (h - 1) (ClientWrite d) (w_app w))). }
  destruct r as [o cs]. cbn [fst snd] in Hr. destruct Hr as [-> Hsame]. cbn [apply_calls fold_left]. intros Hw' [s' Hls'].
  split.
  - constructor; try done.
    + by apply (numbered_same w).
    + simpl. rewrite told_app, log_data_app, concat_app, Ht. f_equal. exact Htd.
    + by apply (sound_step w); auto.
    + apply (speech_hushed said w); [apply Hsame | | exact Hsp]. split; [done..|apply utters_refl].
  - exists s'. split_and!; try done. destruct Hls' as [Hs' _]. destruct Hsame as (_ & _ & Hsm).
    destruct (Hsm h s' Hs') as (s0 & Hs0 & ->). congruence.
Qed.

Lemma uplink_invariant n said : stream_invariant key_ok (uplink n said) client_of.
Proof.
  pose proof (inport_invariant n) as AI. constructor.
  - intros w w' [Hv Htx Hsl] [Hw Hl Hn Ht Hsd Hsp]. destruct (Hsl laws ex Hmb Hsd) as [Hsd' Hu].
    pose proof (sv_handed _ _ Hv) as Hh. constructor; try done.
    + by eapply inport_wf_same_view.
    + unfold loc_of. by rewrite (sv_cfg _ _ Hv).
    + unfold numbered. by rewrite (sv_app _ _ Hv).
    + by rewrite (told_same _ _ _ Hh), <- (log_data_handed k (w_log w')), Hh, log_data_handed.
    + apply (speech_quiet said w); [by rewrite (sv_app _ _ Hv) | | | exact Hsp].
      * unfold attached. by rewrite (sv_idents _ _ Hv).
      * split_and!; [apply (sv_cfg _ _ Hv) | apply Htx | apply Hu].
  - intros k' w Hk' Hall. pose proof Hall as [Hw Hl Hn Ht Hsd Hsp]. pose proof (ai_ensure _ _ AI k' w Hw) as Hw'.
    pose proof (sound_ensure k' w Hk' Hsd) as Hsd'. pose proof (log_ensure k' w) as Hlog.
    unfold ensure_session in *. destruct (find_session k' w) as [st|] eqn:Hf; [done|].
    replace (if unknown_cb_set (w_ds w) then _ else _) with (@None Z, w_app w) in * by (by destruct (unknown_cb_set _)).
    constructor; try done. destruct (decide (k' = k)) as [->|Hne].
    + split; [apply Hsp|]. unfold attached, idents. by rewrite find_put_eq.
    + apply (speech_hushed said w); [done | | exact Hsp]. split; [done | by rewrite find_put_ne | apply utters_refl].
  - intros k' st h w [Hw Hl _ _ _ _] Hf Hh. destruct (wf_known n k' st h w Hw Hf Hh) as [Hk (s & Hs & Hid)].
    pose proof (iw_ids _ _ _ _ (proj1 Hw) k' (ident st)) as Hi. cbn [fst ident] in Hi. rewrite Hi by (unfold idents; by rewrite Hf).
    exists s. split_and!; try done. by rewrite Hk.
  - intros k' h w [Hw Hl Hn Ht Hsd Hsp]. constructor; try done.
    + by apply (ai_open _ _ AI).
    + simpl. rewrite told_app, log_data_app, concat_app, Ht. done.
    + by apply (sound_step w); auto.
  - intros k' h d w. apply uplink_data.
  - intros k' st h w Hall Hf Hh. apply uplink_erase; [by apply (ai_close _ _ AI k' st h); [apply Hall|..]|].
    unfold call_close. cbn [onSessionClose inport_handler]. change (w_app (log ?u w)) with (w_app w).
    pose proof (uplink_close n said w (log (UpClose k' h) w) h Hall eq_refl eq_refl) as Hcl.
    destruct (close h (w_app w)) as [o cs]. apply Hcl; [intros b|]; simpl.
    + rewrite told_app. apply app_nil_r.
    + rewrite log_data_app. apply app_nil_r.
  - intros k' st w Hall Hf Hh. apply uplink_erase; [|done]. by apply (ai_forget _ _ AI k' st); [apply Hall|..].
Qed.

(** *** Steps *)
Lemma uplink_accept n said addr w : n + 2 < 2 ^ 32 -> uplink n said w -> uplink (n + 1) said (on_accept addr w).
Proof.
  intros Hlt [Hw Hl Hn Ht Hsd Hsp]. pose proof (wf_on_accept n w addr Hw Hlt) as Hw'.
  pose proof (iw_next _ _ _ _ (proj1 Hw)) as Hnx. destruct Hn as [Hn1 Hn2].
  assert (Hu : next_session_id_ (w_app w) +u32 1 = next_session_id_ (w_app w) + 1) by (apply u32_small; unfold is_u32; lia).
  revert Hw'. unfold on_accept. cbn [allocateSessionId is_heap is_sessions next_session_id_ is_tcps is_acceptor is_next is_out].
  set (n0 := next_session_id_ (w_app w)) in *. set (o := mkInport _ _ _ _ _ _ _). set (w2 := set_app o w). intros Hw'.
  assert (Hsd2 : sound w2) by (by apply (sound_step w); auto).
  destruct (speak_open Hmb n0 (Some (is_next (w_app w) + 1)) w2 Hsd2 ltac:(unfold is_u32; lia)) as (H1 & H2 & H3 & H4 & H5 & H6).
  set (w' := snd (openSession _ _ w2)) in *. change (local_ingress_id_ (cfg w2)) with (loc_of w) in *. rewrite Hl in *.
  constructor; try done.
  - unfold loc_of. by rewrite H2.
  - unfold numbered. rewrite H3. unfold w2, o. cbn. rewrite Hu. split; [lia|].
    intros h s. rewrite lookup_insert_Some. intros [[<- <-]|[_ Hs]]; [simpl; unfold n0; lia | by apply Hn2].
  - by rewrite H4.
  - assert (Hnx' : next_session_id_ (w_app w') = n0 + 1) by (rewrite H3; exact Hu).
    destruct (decide (n0 = sid)) as [Heq|Hne].
    + rewrite Heq in *. split; [lia|]. intros Ha. destruct Hsp as [Hsp _]. destruct (Hsp ltac:(lia)) as [-> Hut].
      change (find_session k w2) with (find_session k w) in H6. destruct (find_session k w) as [st|] eqn:Hf.
      * exfalso. rewrite H6 in Ha. unfold attached, idents in Ha. change (find_session k w2) with (find_session k w) in Ha.
        rewrite Hf in Ha. injection Ha as Ha. destruct (iw_stream _ _ _ _ (proj1 Hw) k (ident st) a) as [_ Hx]; [by unfold idents; rewrite Hf | done |].
        apply (iw_sids _ _ _ _ (proj1 Hw)) in Hx. simpl in Hx. lia.
      * destruct H6 as [Hf' Hu']. apply voiced_new; [by unfold tx; rewrite Hf'|].
        rewrite H2. by apply (uttered_more k ol [] _ (fun _ => True) _ (w_net w)).
    + assert (Hh : hushed k w w') by (transitivity w2; [split; [done..|apply utters_refl] | apply H5; congruence]).
      destruct Hsp as [Hsp1 Hsp2]. split.
      * intros Hle. destruct (Hsp1 ltac:(lia)) as [-> Hut]. split; [done|]. eapply uttered_quiet; [exact Hut | apply Hh | done].
      * intros Ha. eapply voiced_then; [by apply quietly_hushed | apply Hsp2]. eapply attached_find; [apply Hh | exact Ha].
Qed.

Lemma speech_over_more said x n w : uplink n said w -> sid < next_session_id_ (w_app w) -> ~ attached w ->
  uplink n (said ++ x) w.
Proof. intros [] Hn Ha. constructor; try done. by apply speech_over. Qed.
Lemma uplink_read n said t' buf w : uplink n said w ->
  uplink n (said ++ read_from t (InClient t' buf) w) (on_read_data t' buf w).
Proof.
  intros Hall. pose proof Hall as [Hw Hl Hn Ht Hsd Hsp]. pose proof (wf_on_read n w t' buf Hw) as Hw'.
  assert (Hskip : (t' = t -> forall b, is_tcps (w_app w) !! t = Some b -> ~ attached w) ->
    uplink n (said ++ read_from t (InClient t' buf) w) w).
  { intros Hna. simpl. destruct (Z.eqb_spec t' t) as [->|]; [|by rewrite app_nil_r].
    destruct (is_tcps (w_app w) !! t) as [b|] eqn:Hb; [|by rewrite app_nil_r].
    apply speech_over_more; [done | | by eapply Hna].
    destruct (iw_tcp _ _ _ _ (proj1 Hw) _ _ Hb) as [-> Hlt]. destruct Hn. lia. }
  unfold on_read_data, onClientBytes in *. destruct (is_tcps (w_app w) !! t') as [h|] eqn:Htc;
    [|by apply Hskip; intros -> b Hb; congruence].
  destruct (iw_tcp _ _ _ _ (proj1 Hw) _ _ Htc) as [-> _].
  assert (Hdead : (forall s, is_heap (w_app w) !! (t' + 1) = Some s -> closed_ s = true) ->
    uplink n (said ++ read_from t (InClient t' buf) w) w).
  { intros Hcl. apply Hskip. intros -> _ _ Ha. destruct (attached_known n said w Hall Ha) as (s & (Hs & Hc & _) & _).
    replace (2 * sid - 1 + 1) with a in Hcl by lia. rewrite (Hcl s Hs) in Hc. done. }
  destruct (is_heap (w_app w) !! (t' + 1)) as [s|] eqn:Hs; [|by apply Hdead].
  destruct (closed_ s) eqn:Hc; [by apply Hdead; intros s'; rewrite ?Hs; intros [= <-]|]. clear Hskip Hdead.
  set (o := upd_sess (t' + 1) (add_recv (zlen buf)) (w_app w)) in *. set (w1 := set_app o w) in *.
  pose proof (view_sendSessionData (fs_session_id s) buf kFgwWireIngressUseLocal w1) as Hv.
  assert (Hsd1 : sound w1) by (by apply (sound_step w); auto).
  destruct (speak_send Hmb (fs_session_id s) buf kFgwWireIngressUseLocal w1 Hsd1) as (Hsd' & _ & Hoth & _).
  assert (Hres : resolveIngressKey w1 kFgwWireIngressUseLocal = loc) by exact Hl. rewrite Hres in Hoth.
  cbn [apply_call] in Hw' |- *. set (w' := snd (sendSessionData _ _ _ w1)) in *.
  assert (Hsame : same_clients (w_app w) (w_app w')) by (rewrite (sv_app _ _ Hv); by apply same_clients_upd).
  assert (Hsp1 : speech said w1).
  { apply (speech_hushed said w); [done | split; [done..|apply utters_refl] | done]. }
  pose proof (sv_handed _ _ Hv) as Hh.
  constructor; try done.
  - unfold loc_of. by rewrite (sv_cfg _ _ Hv).
  - by apply (numbered_same w).
  - by rewrite (told_same _ _ _ Hh), <- (log_data_handed k (w_log w')), Hh, log_data_handed.
  - pose proof (proj2 Hn _ _ Hs) as Hnum. destruct (decide (fs_session_id s = sid)) as [Heq|Hne].
    + assert (Ht' : t' = t) by lia. simpl. subst t'. rewrite Z.eqb_refl, Htc. split.
      * rewrite (proj1 Hsame). destruct (iw_tcp _ _ _ _ (proj1 Hw) _ _ Htc) as [_ Hlt]. destruct Hn. lia.
      * intros Ha. assert (Ha1 : attached w1) by (unfold attached in *; by rewrite <- (sv_idents _ _ Hv)).
        unfold w'. rewrite Heq. apply voiced_send; [done | done | by rewrite Hres | by apply Hsp1].
    + replace (read_from t (InClient t' buf) w) with (@nil Z)
        by (simpl; destruct (Z.eqb_spec t' t); [lia | done]).
      rewrite app_nil_r. eapply speech_hushed; [by rewrite (sv_app _ _ Hv) | apply Hoth; congruence | exact Hsp1].
Qed.

Lemma uplink_close_at n said h w : uplink n said w -> uplink n said (close_at h w).
Proof.
  intros Hw. pose proof (uplink_close n said w w h Hw eq_refl eq_refl ltac:(done) eq_refl) as Hc.
  unfold close_at. by destruct (close h (w_app w)).
Qed.
(** The service's other fields do not matter. *)
Lemma uplink_app n said o w : inport_wf n (set_app o w) -> same_clients (w_app w) o -> uplink n said w ->
  uplink n said (set_app o w).
Proof.
  intros Hw' Hs [Hw Hl Hn Ht Hsd Hsp]. constructor; try done.
  - by apply (numbered_same w).
  - by apply (sound_step w); auto.
  - apply (speech_hushed said w); [apply Hs | | done]. split; [done..|apply utters_refl].
Qed.
Lemma uplink_on_close n said t' w : uplink n said w -> uplink n said (on_close t' w).
Proof.
  intros Hw. pose proof (wf_on_close n w t' (ul_wf _ _ _ Hw)) as Hw'. unfold on_close, onClientClose in *.
  destruct (is_tcps (w_app w) !! t') as [h|]; [|done]. apply uplink_app; [done | | by apply uplink_close_at].
  split_and!; simpl; eauto.
Qed.
Lemma uplink_stop n said w : uplink n said w -> uplink n said (stop w).
Proof.
  intros Hw. destruct (inport_stop_spec n w (ul_wf _ _ _ Hw)) as (Hw' & _).
  rewrite stop_close_all in *. apply uplink_app; [done | split_and!; simpl; eauto |]. clear Hw'.
  generalize (is_sessions (w_app w)) as l. intros l. revert w Hw. induction l as [|e l IH]; intros w Hw; [done|].
  by apply IH, uplink_close_at.
Qed.

Lemma uplink_step n said s w : hearing s -> n + 2 < 2 ^ 32 -> stream_wf w -> uplink n said w ->
  uplink (match s with InAccept _ => n + 1 | _ => n end) (said ++ read_from t s w) (inport_do s w).
Proof.
  intros Hs Hn Hwf Hw. destruct s as [ch buf| |addr|t' buf|t'|]; rewrite ?app_nil_r.
  - apply (si_onChannelBytes (uplink_invariant n said)); [|done]. apply split_keys. by apply scratch_app.
  - by apply (si_emitFeedback (uplink_invariant n said)).
  - simpl. destruct (is_acceptor (w_app w)); [by apply uplink_accept|]. destruct Hw as [[Hw Hp] ? ? ? ? ?]. constructor; try done.
    split; [|done]. eapply table_more; [exact Hw | lia].
  - by apply uplink_read.
  - by apply uplink_on_close.
  - by apply uplink_stop.
Qed.
Lemma uplink_run ss : forall n said w, Forall hearing ss -> n + accepts ss + 2 < 2 ^ 32 -> stream_wf w -> uplink n said w ->
  uplink (n + accepts ss) (said ++ from_client t ss w) (inport_run ss w).
Proof.
  induction ss as [|s ss IH]; intros n said w Hss Hn Hwf Hw; [by rewrite Z.add_0_r, app_nil_r|].
  inversion Hss as [|? ? Hs Hss']; subst. rewrite accepts_cons in *. pose proof (accepts_nonneg ss).
  cbn [from_client]. rewrite app_assoc. apply IH; [done | done | by apply heard_wf |].
  apply uplink_step; try done. destruct s; lia.
Qed.

Lemma new_uplink ss win v r lr net : wire_ net = ot_base ol -> sound (new_inport_service loc ss win v r lr net) ->
  uplink 0 [] (new_inport_service loc ss win v r lr net).
Proof.
  intros Hb Hsd. constructor; [apply wf_new_inport | done | | done | done |].
  - unfold numbered, new_inport_service. rewrite start_new. cbn. split; [done|]. by intros h s.
  - split; [intros _; split; [done | by apply uttered_start]|]. unfold attached, idents, find_session. simpl. by rewrite lookup_empty.
Qed.
End uplink.
