(* ===== verification/Stray.v ===== *)
(** * Stray: a stray segment can starve a client of the inport

    The inport gives the stream no unknown-session callback: a DATA segment for a
    session it does not have makes one without a handler.  If that is the session the
    next client is given, the client never hears anything. *)
From S2P Require Import Prelude Proto OMap Segment Pack ZdsInstance Channel Selector Links.
From S2P Require Import DataStream Testbed StreamFacts Framing StreamWf Reassembly Completeness.
From S2P Require Import AppInv Inport InportWf.

Section stray.
Context {rt : ZdsRuntime} {T : Transport} {sort : StdSort}.
Implicit Types (w : world InportService).

(** A DATA segment for a session the stream does not have. *)
Lemma on_data_stray k seq p w : find_session k w = None ->
  let w' := on_data k seq p w in
  w_app w' = w_app w /\ cfg w' = cfg w /\ exists st, find_session k w' = Some st /\ handler st = None.
Proof.
  intros Hf. cbv zeta. unfold on_data, ensure_session. rewrite Hf.
  replace (if unknown_cb_set (w_ds w) then _ else _) with (@None Z, w_app w) by (by destruct (unknown_cb_set _)).
  rewrite find_put_eq. set (st := if mb_acquire _ then _ else _).
  assert (Hst : handler st = None) by (unfold st; by destruct (mb_acquire _)).
  unfold deliverInOrder. rewrite Hst. split_and!; try done. exists st. split; [apply find_put_eq | done].
Qed.

(** It arrives on a link, inside the window that a new session has. *)
Lemma bytes_stray ch buf f rest k seq w :
  split_frames (default [] (scratch_ (w_ds w) !! ch) ++ buf) = ([f], Some rest) ->
  is_copy (verify_crc_ (cfg w)) k seq f -> dedup_key (f_hdr f) ∉ dedup_map_ (w_ds w) ->
  is_u32 seq -> seq < recv_window_ (cfg w) -> find_session k w = None ->
  let w' := inport_do (InBytes ch buf) w in
  w_app w' = w_app w /\ cfg w' = cfg w /\ exists st, find_session k w' = Some st /\ handler st = None.
Proof.
  intros Hsp Hcopy Hnew Hu Hwin Hf. cbn [inport_do]. rewrite onChannelBytes_split, Hsp. cbn [fst snd default].
  unfold on_frames. cbn [fold_left]. pose proof (copy_frame w k ch seq f Hcopy Hnew) as Hcf.
  replace (out_of_window k seq w) with false in Hcf
    by (unfold out_of_window; rewrite Hf, Z.sub_0_r, u32_small by done; lia).
  destruct Hcf as (w2 & -> & Hfi & Hc & Ha & _). rewrite <- Ha, <- Hc.
  apply (on_data_stray k seq (carried f) w2). by rewrite Hfi.
Qed.

Lemma told_called {H} a l (w w' : world H) : called l w w' -> told a (w_log w') = told a (w_log w) ++ told a l.
Proof.
  intros Hc. rewrite <- (told_handed a (w_log w')), (called_handed _ _ _ Hc), told_app. by rewrite told_handed.
Qed.

(** No session of the stream reaches the session object at [a]; [n] is the next
    address. *)
Definition unreached (a n : Z) w : Prop :=
  (forall k i, idents k w = Some i -> snd i <> Some a) /\ told a (w_log w) = [] /\ is_next (w_app w) = n.

Lemma unreached_sub a n w w' : (forall k i, idents k w' = Some i -> idents k w = Some i \/ snd i <> Some a) ->
  told a (w_log w') = told a (w_log w) -> is_next (w_app w') = is_next (w_app w) ->
  unreached a n w -> unreached a n w'.
Proof.
  intros Hi Ht Hn (H1 & H2 & H3). split_and!; [|congruence..].
  intros k i Hk. destruct (Hi k i Hk); eauto.
Qed.

Lemma close_next a o : is_next (fst (close a o)) = is_next o.
Proof.
  unfold close. destruct (is_heap o !! a) as [s|]; [|done]. destruct (closed_ s); [done|].
  by destruct (client_tcp_ s).
Qed.
Lemma apply_calls_app_state cs o w : w_app (apply_calls cs (set_app o w)) = o.
Proof. by destruct (apply_calls_only cs (set_app o w)) as (_ & -> & _). Qed.
Lemma call_next k h sid d w : is_next (w_app (call_data k h sid d w)) = is_next (w_app w) /\
  is_next (w_app (call_close k h sid w)) = is_next (w_app w).
Proof.
  unfold call_data, call_close. split.
  - destruct (onSessionData h sid d (w_app (log (UpData k h d) w))) as [o cs] eqn:He. rewrite apply_calls_app_state.
    simpl in He. destruct (is_heap (w_app w) !! h) as [s|]; [|by injection He as <- <-].
    destruct (client_tcp_ s); [|by injection He as <- <-]. destruct (closed_ s); [by injection He as <- <-|].
    by destruct (mb_acquire _); injection He as <- <-.
  - simpl. pose proof (close_next h (w_app w)). destruct (close h (w_app w)) as [o cs].
    by rewrite apply_calls_app_state.
Qed.

Lemma unreached_invariant a n : app_invariant (unreached a n) (fun _ h _ => h <> a).
Proof.
  constructor.
  - intros w w' Hv. pose proof (sv_handed _ _ Hv) as Hl. destruct Hv as [Hi _ _ Ha _]. apply unreached_sub; [|by apply told_same | by rewrite Ha].
    intros k i. rewrite Hi. auto.
  - intros k w Hw. unfold ensure_session. destruct (find_session k w) as [st|] eqn:Hf; [done|].
    replace (if unknown_cb_set (w_ds w) then _ else _) with (@None Z, w_app w) by (by destruct (unknown_cb_set _)).
    revert Hw. apply unreached_sub; [|done..]. intros k' i. unfold idents.
    destruct (decide (k' = k)) as [->|]; [|rewrite find_put_ne by done; auto].
    rewrite find_put_eq. intros [= <-]. by right.
  - intros k st h w (Hi & _) Hf Hh ->. apply (Hi k (ident st)); [by unfold idents; rewrite Hf | done].
  - intros k h w. apply unreached_sub; [auto | | done]. simpl. rewrite told_app. apply app_nil_r.
  - intros k h d w Hw Hne. split; [|done]. pose proof (call_data_called k h (snd k) d w) as Hc.
    revert Hw. apply unreached_sub.
    + intros k' i Hk. left. by eapply idents_called.
    + rewrite (told_called _ _ _ _ Hc). unfold told at 2. simpl.
      destruct (Z.eqb_spec h a); [done | apply app_nil_r].
    + by rewrite (proj1 (call_next k h (snd k) d w)).
  - intros k st h w Hw _ _. pose proof (call_close_called k h (snd k) w) as Hc. revert Hw. apply unreached_sub.
    + intros k' i. rewrite idents_erase. destruct (decide _); [done|]. left. by eapply idents_called.
    + change (w_log (erase_session k ?v)) with (w_log v). rewrite (told_called _ _ _ _ Hc). apply app_nil_r.
    + change (w_app (erase_session k ?v)) with (w_app v). by rewrite (proj2 (call_next k h (snd k) [] w)).
  - intros k st w Hw _ _. revert Hw. apply unreached_sub; [|done..]. intros k' i. rewrite idents_erase.
    by destruct (decide _); auto.
Qed.

Lemma unreached_close_at a n b w : unreached a n w -> unreached a n (close_at b w).
Proof.
  unfold close_at. pose proof (close_next b (w_app w)) as Hn. destruct (close b (w_app w)) as [o cs]. cbn [fst] in Hn.
  apply unreached_sub.
  - intros k i Hk. left. rewrite idents_rx in *.
    by destruct (called_rx_or _ k _ _ (proj1 (apply_calls_called cs (set_app o w)))) as [Hr|Hr]; rewrite Hr in Hk.
  - apply told_same. by destruct (apply_calls_only cs (set_app o w)) as (_ & _ & ->).
  - by rewrite apply_calls_app_state.
Qed.

Lemma unreached_accept a n addr w : unreached a n w -> a <> n + 1 -> unreached a (n + 2) (on_accept addr w).
Proof.
  intros (Hi & Ht & Hn) Hne. unfold on_accept. cbn [allocateSessionId fst snd].
  set (o := mkInport _ _ _ _ _ _ _). set (sid := next_session_id_ (w_app w)).
  assert (Ho : unreached a (n + 2) (set_app o w)) by (split_and!; [done | done | simpl; lia]).
  unfold openSession. destruct (find_session _ (set_app o w)); [done|]. set (w1 := put_session _ _ _).
  pose proof (view_sendSegment (local_ingress_id_ (cfg (set_app o w))) sid 0 FLAG_SYN None 0 w1) as Hv.
  destruct (sendSegment _ _ _ _ _ _ w1) as [r w2]. eapply (ai_view _ _ (unreached_invariant a (n + 2))); [exact Hv|].
  revert Ho. apply unreached_sub; [|done..]. intros k i. unfold idents, w1.
  destruct (decide (k = (local_ingress_id_ (cfg (set_app o w)), sid))) as [->|];
    [|rewrite find_put_ne by done; auto].
  rewrite find_put_eq. intros [= <-]. right. simpl. congruence.
Qed.
Lemma unreached_do a n s w : unreached a n w -> (forall addr, s = InAccept addr -> is_acceptor (w_app w) = true -> a <> n + 1) ->
  let n' := is_next (w_app (inport_do s w)) in n <= n' /\ unreached a n' (inport_do s w) .
Proof.
  intros Hw Hne. assert (Hok : forall n' w', n <= n' -> unreached a n' w' ->
    n <= is_next (w_app w') /\ unreached a (is_next (w_app w')) w') by (intros n' w' Hle (H1 & H2 & <-); done).
  cbv zeta. destruct s as [ch buf| |addr|t buf|t|]; simpl.
  - apply (Hok n); [lia|]. by apply (ai_onChannelBytes (unreached_invariant a n)).
  - apply (Hok n); [lia|]. by apply (ai_emitFeedback (unreached_invariant a n)).
  - destruct (is_acceptor (w_app w)) eqn:Hup; [|by apply (Hok n)].
    apply (Hok (n + 2)); [lia|]. apply unreached_accept; [done | by eapply Hne].
  - apply (Hok n); [lia|]. unfold on_read_data, onClientBytes. destruct (is_tcps (w_app w) !! t); [|done].
    destruct (is_heap (w_app w) !! z) as [x|]; [|done]. destruct (closed_ x); [done|].
    eapply (ai_view _ _ (unreached_invariant a n)); [apply view_sendSessionData|]. revert Hw. apply unreached_sub; [auto|done..].
  - apply (Hok n); [lia|]. unfold on_close, onClientClose. destruct (is_tcps (w_app w) !! t) as [b|]; [|done].
    pose proof (unreached_close_at a n b w Hw) as Hc. revert Hc. apply unreached_sub; [auto|done..].
  - apply (Hok n); [lia|]. rewrite stop_close_all. enough (Hc : unreached a n (close_all (is_sessions (w_app w)) w))
      by (revert Hc; apply unreached_sub; [auto|done..]).
    generalize (is_sessions (w_app w)) as l. intros l. clear Hne. revert w Hw.
    induction l as [|e l IH]; intros w Hw; [done|]. by apply IH, unreached_close_at.
Qed.

(** Once allocated and unreached, always unreached; what is not allocated is. *)
Lemma unreached_run a ss : forall n w, unreached a n w -> a < n -> exists n', unreached a n' (inport_run ss w).
Proof.
  induction ss as [|s ss IH]; intros n w Hw Ha; [by exists n|].
  destruct (unreached_do a n s w Hw) as [Hle H1]; [intros; lia|]. eapply IH; [exact H1 | lia].
Qed.
Lemma unreached_fresh ss : forall w, (forall a, is_next (w_app w) <= a -> unreached a (is_next (w_app w)) w) ->
  let w' := inport_run ss w in forall a, is_next (w_app w') <= a -> unreached a (is_next (w_app w')) w'.
Proof.
  induction ss as [|s ss IH]; intros w Hw; [done|]. apply IH. intros a Ha. set (n := is_next (w_app w)) in *.
  assert (Hn : n <= is_next (w_app (inport_do s w)) /\
    forall addr, s = InAccept addr -> is_acceptor (w_app w) = true -> is_next (w_app (inport_do s w)) = n + 2).
  { destruct (unreached_do (n + 5) n s w) as [Hle _]; [apply Hw; lia | intros; lia|]. split; [done|].
    intros addr -> Hup. simpl. rewrite Hup.
    by destruct (unreached_accept (n + 5) n addr w) as (_ & _ & ->); [apply Hw; lia | lia|]. }
  destruct Hn as [Hle Hacc]. apply (unreached_do a n s w); [apply Hw; lia|].
  intros addr Hs Hup. specialize (Hacc addr Hs Hup). lia.
Qed.
End stray.

(** ** Properties *)

(** C40. A stray segment starves a client.  In a reachable state of the inport, let bytes
    arrive on a link that complete a DATA segment, a first copy with a number inside the
    receive window, for the session id the next client will get, which the stream does not
    have.  The stream makes a session without a handler; the next client's [openSession] is
    refused and the refusal ignored; the client's session is in the table, open and with
    its socket, but whatever then arrives on the links and whatever the clients do, the
    stream hands it nothing and its socket is given nothing. *)
Theorem stray_segment_starves_client {rt : ZdsRuntime} {T : Transport} {sort : StdSort}
    (loc ss win : Z) (v : bool) (route lr : Z) (net : Links) (before after : list inport_step)
    (Hn : accepts before + 1 + accepts after + 2 < 2 ^ 32) (Hmb : forall len, mb_acquire len = true)
    (w := inport_run before (new_inport_service loc ss win v route lr net))
    (sid := next_session_id_ (w_app w)) (ch seq : Z) (buf rest addr : bytes) (f : frame_in)
    (Hup : is_acceptor (w_app w) = true) (Hnone : find_session (loc, sid) w = None)
    (Hframe : split_frames (default [] (scratch_ (w_ds w) !! ch) ++ buf) = ([f], Some rest))
    (Hdata : is_copy v (loc, sid) seq f) (Hnew : dedup_key (f_hdr f) ∉ dedup_map_ (w_ds w))
    (Hseq : is_u32 seq) (Hwin : seq < recv_window_ (cfg w)) :
  let w1 := inport_do (InBytes ch buf) w in
  let w2 := inport_do (InAccept addr) w1 in
  let a := is_next (w_app w) + 1 in
  let w3 := inport_run after w2 in
  (exists st, find_session (loc, sid) w2 = Some st /\ handler st = None) /\
  (om_find sid (is_sessions (w_app w2)) = Some a /\
   exists s, is_heap (w_app w2) !! a = Some s /\ closed_ s = false /\ client_tcp_ s = Some (a - 1)) /\
  told a (w_log w3) = [] /\ written (a - 1) (is_out (w_app w3)) = [].
Proof.
  intros w1 w2 a w3. pose proof (zlen_nonneg (List.filter (fun s => match s with InAccept _ => true | _ => false end) after)) as H0.
  fold (accepts after) in H0.
  pose proof (wf_inport_run before 0 _ (wf_new_inport loc ss win v route lr net)) as Hw.
  pose proof (cfg_inport_run before (new_inport_service loc ss win v route lr net)) as Hc.
  fold w in Hw, Hc. specialize (Hw ltac:(lia)). rewrite Z.add_0_l in Hw.
  assert (Hloc : loc_of w = loc) by (unfold loc_of; by rewrite Hc).
  assert (Hw1 : inport_wf (accepts before) w1) by (by apply (ai_onChannelBytes (inport_invariant _))).
  assert (Hfresh : unreached a (is_next (w_app w)) w).
  { apply unreached_fresh; [|fold w; unfold a; lia]. intros b _. split_and!; [|done|done].
    intros k i. unfold idents, new_inport_service, find_session. simpl. by rewrite lookup_empty. }
  assert (Hfresh1 : unreached a (is_next (w_app w)) w1) by (by apply (ai_onChannelBytes (unreached_invariant _ _))).
  (* the stray session, and what accepting makes of it *)
  destruct (bytes_stray ch buf f rest (loc, sid) seq w) as (Happ & Hcfg & st & Hf & Hh); try done; [by rewrite Hc|].
  fold w1 in Happ, Hcfg, Hf.
  assert (Hw2 : w2 = set_app (w_app w2) w1 /\ is_sessions (w_app w2) = om_insert sid a (is_sessions (w_app w)) /\
    is_heap (w_app w2) !! a = Some (bindClientTcp (a - 1) addr (new_fgw_session sid)) /\
    is_next (w_app w2) = is_next (w_app w) + 2).
  { unfold w2. cbn [inport_do]. rewrite Happ, Hup. unfold on_accept. cbn [allocateSessionId fst snd]. rewrite Happ.
    fold sid. fold a. set (o := mkInport _ _ _ _ _ _ _). unfold openSession.
    change (local_ingress_id_ (cfg (set_app o w1))) with (local_ingress_id_ (cfg w1)). rewrite Hcfg.
    change (local_ingress_id_ (cfg w)) with (loc_of w). rewrite Hloc.
    change (find_session (loc, sid) (set_app o w1)) with (find_session (loc, sid) w1). rewrite Hf. cbn [snd w_app set_app].
    split; [done|]. split; [done|]. split; [|simpl; unfold a; lia]. simpl. rewrite lookup_insert_eq.
    by replace (a - 1) with (is_next (w_app w)) by (unfold a; lia). }
  destruct Hw2 as (Hw2 & Hs2 & Hh2 & Hn2).
  assert (Hu2 : unreached a (is_next (w_app w) + 2) w2).
  { rewrite Hw2. destruct Hfresh1 as (H1 & H2 & _). by split_and!. }
  destruct (unreached_run a after _ w2 Hu2) as [n' (_ & Ht & _)]; [unfold a; lia|]. fold w3 in Ht.
  assert (Hwf2 : inport_wf (accepts before + 1) w2) by (apply (wf_inport_do (accepts before) (InAccept addr)); [done|lia]).
  destruct (wf_inport_run after _ w2 Hwf2) as [_ Hp]; [lia|]. fold w3 in Hp.
  split; [|split; [split|split]].
  - exists st. by rewrite Hw2.
  - rewrite Hs2. apply om_find_insert_eq.
  - eexists. split; [exact Hh2 | done].
  - done.
  - by rewrite (Hp Hmb).
Qed.

(** The inport 7 of two links; a stray segment for session 1 comes before any client. *)
Definition stray_world : world InportService := new_inport_service 7 4 0 true 0 0 (test_net 1).
Definition stray_frame : bytes := frame (mkHdr MAGIC FLAG_DATA 0 1 3 7 0 0) [66].
Lemma stray_segment_starves_client_witness :
  let w2 := inport_do (InAccept [49]) (inport_do (InBytes 5 stray_frame) stray_world) in
  let w3 := inport_run [InClient 1 [71; 69; 84]] w2 in
  (exists st, find_session (7, 1) w2 = Some st /\ handler st = None) /\
  is_heap (w_app w2) !! 2 <> None /\ written 1 (is_out (w_app w3)) = [].
Proof.
  destruct (stray_segment_starves_client 7 4 0 true 0 0 (test_net 1) [] [InClient 1 [71; 69; 84]] ltac:(by vm_compute)
    (fun _ => eq_refl) 5 3 stray_frame [] [49]
    (mkFrame 20 (frame_hdr (mkHdr MAGIC FLAG_DATA 0 1 3 7 0 0) [66]) stray_frame)) as (Hst & (_ & s & Hs & _) & _ & Hw).
  - reflexivity.
  - by vm_compute.
  - by vm_compute.
  - repeat split; by vm_compute.
  - by vm_compute.
  - by vm_compute.
  - by vm_compute.
  - cbv zeta. split; [exact Hst|]. split; [|exact Hw]. intros Hx.
    change (is_heap (w_app (inport_do (InAccept [49]) (inport_do (InBytes 5 stray_frame) stray_world))) !! 2 = Some s) in Hs.
    rewrite Hx in Hs. discriminate Hs.
Defined.
