(* ===== verification/NetInv.v ===== *)
(** * NetInv: invariants of the links under a data stream

    A stream touches the links in four ways only: it moves the selector, sends, counts
    a segment and learns a peer's identity.  What those preserve, the stream
    preserves. *)
From S2P Require Import Prelude Proto OMap Segment Pack Channel Selector Links DataStream.
From S2P Require Import StreamFacts Framing.

Record net_invariant {T : Transport} (R : Links -> Prop) : Prop := {
  ni_selector : forall s l, R l -> R (set_selector s l);
  ni_send : forall a b l, R l -> R (snd (send_on a b l));
  ni_recv : forall a l, R l -> R (upd_chan a noteSegmentRecv l);
  ni_peer : forall a pc pi po l, R l -> R (upd_chan a (setPeerIdentity pc pi po) l) }.

Section net.
Context {H : Type} {app : SessionHandler H}.
Context {rt : ZdsRuntime} {T : Transport} {sort : StdSort}.
Context {R : Links -> Prop} (NI : net_invariant R).
Implicit Types (w : world H).

Lemma ni_send_copies buf live first ids best l : R l -> R (snd (send_copies buf live first ids best l)).
Proof.
  revert first best l. induction ids as [|id ids IH]; intros first best l Hl; [done|]. cbn [send_copies].
  destruct (find_live id live l) as [a|]; [|by apply IH]. pose proof (ni_send _ NI a buf l Hl) as H1.
  destruct (send_on a buf l) as [ret l']. by apply IH.
Qed.
Lemma ni_send_all buf as_ l : R l -> R (send_all buf as_ l).
Proof. revert l. induction as_ as [|a as_ IH]; intros l Hl; [done|]. apply IH. by apply (ni_send _ NI). Qed.

Lemma ni_sendSegment ing sid seq fl p n w : R (w_net w) -> R (w_net (snd (sendSegment ing sid seq fl p n w))).
Proof.
  intros Hw. unfold sendSegment. destruct (negb (mb_acquire _)); [done|].
  destruct (fgwSegmentEncode _ _ _ _ _) as [wrote out]. destruct (wrote <? 0); [done|].
  unfold select_links. destruct (select _ _) as [ids s]. pose proof (ni_selector _ NI s _ Hw) as H1.
  destruct ids as [|i ids]; [done|]. cbn [w_net on_net]. set (data := take _ _). set (live := liveChannels _).
  pose proof (ni_send_copies data live true (i :: ids) 0 _ H1) as H2.
  by destruct (send_copies data live true (i :: ids) 0 (set_selector s (w_net w))) as [best net'].
Qed.
Lemma ni_send_chunks fuel key sid buf n w : R (w_net w) -> R (w_net (snd (send_chunks fuel key sid buf n w))).
Proof.
  revert buf n w. induction fuel as [|fuel IH]; intros buf n w Hw; [done|].
  cbn [send_chunks]. destruct buf as [|b buf]; [done|].
  destruct (find_session key w) as [st|]; [|done]. set (w1 := put_session _ _ _). set (chunk := Z.min _ _). set (p := Some _).
  pose proof (ni_sendSegment (wire_ingress_id st) sid (next_send_seq st) FLAG_DATA p chunk w1 Hw) as H2.
  destruct (sendSegment _ _ _ _ _ _ w1) as [r w2]. destruct (r <? 0); [done | by apply IH].
Qed.
Lemma ni_apply_call c w : R (w_net w) -> R (w_net (apply_call c w)).
Proof.
  intros Hw. destruct c as [sid d ing|sid ing]; simpl.
  - unfold sendSessionData. destruct (find_session _ w) as [st|]; [|done].
    destruct (closed st); [done | by apply ni_send_chunks].
  - unfold closeSession. destruct (find_session _ w) as [st|]; [|done].
    destruct (closed st); [done|]. by apply ni_sendSegment.
Qed.
Lemma ni_apply_calls cs w : R (w_net w) -> R (w_net (apply_calls cs w)).
Proof. revert w. induction cs as [|c cs IH]; intros w Hw; [done | by apply IH, ni_apply_call]. Qed.
Lemma ni_openSession sid h w : R (w_net w) -> R (w_net (snd (openSession sid h w))).
Proof.
  intros Hw. unfold openSession. destruct (find_session _ w); [done|]. set (w1 := put_session _ _ _).
  pose proof (ni_sendSegment (local_ingress_id_ (cfg w)) sid 0 FLAG_SYN None 0 w1 Hw) as H1.
  by destruct (sendSegment _ _ _ _ _ _ w1).
Qed.

Lemma ni_call_data k h sid d w : R (w_net w) -> R (w_net (call_data k h sid d w)).
Proof. intros Hw. unfold call_data. destruct (onSessionData _ _ _ _) as [a cs]. by apply ni_apply_calls. Qed.
Lemma ni_call_close k h sid w : R (w_net w) -> R (w_net (call_close k h sid w)).
Proof. intros Hw. unfold call_close. destruct (onSessionClose _ _ _) as [a cs]. by apply ni_apply_calls. Qed.
Lemma ni_deliver_all k h sid ready w : R (w_net w) -> R (w_net (deliver_all k h sid ready w)).
Proof.
  revert w. induction ready as [|b ready IH]; intros w Hw; [done|]. simpl. apply IH.
  destruct (0 <? zlen b); [by apply ni_call_data | done].
Qed.
Lemma ni_ensure k w : R (w_net w) -> R (w_net (ensure_session k w)).
Proof.
  unfold ensure_session. destruct (find_session k w); [done|].
  by destruct (if unknown_cb_set (w_ds w) then _ else _) as [h a].
Qed.
Lemma ni_dispatch k hdr p w : R (w_net w) -> R (w_net (dispatch k hdr p w)).
Proof.
  intros Hw. unfold dispatch. set (w2 := if isSyn hdr then _ else _).
  assert (H2 : R (w_net w2)).
  { unfold w2. destruct (isSyn hdr); [|done]. unfold on_syn. pose proof (ni_ensure k w Hw) as He.
    destruct (find_session k (ensure_session k w)) as [st|]; [|done]. by destruct (handler st). }
  clearbody w2. destruct (isFin hdr).
  { unfold on_fin. destruct (find_session k w2) as [st|]; [|done].
    destruct (handler st); [by apply ni_call_close | done]. }
  destruct (has_data hdr); [|done]. unfold on_data. pose proof (ni_ensure k w2 H2) as He.
  destruct (find_session k (ensure_session k w2)) as [st|]; [|done]. unfold deliverInOrder.
  set (st' := if mb_acquire _ then _ else _). destruct (handler st'); [|done].
  destruct (take_run _ _) as [[ready e] rest]. by apply ni_deliver_all.
Qed.
Lemma ni_on_frame ch hdr hr f w : R (w_net w) -> R (w_net (on_frame ch hdr hr f w)).
Proof.
  intros Hw. unfold on_frame. destruct (verify_crc_ (cfg w) && _); [done|]. set (w1 := on_net _ w).
  assert (H1 : R (w_net w1)) by (by apply (ni_recv _ NI)). clearbody w1. destruct (isHello hdr).
  { unfold on_hello. destruct (zds_unpack_FgwHello _ true) as [len hello]. destruct (len <? 0); [done|].
    destruct (negb _); [done|]. set (w2 := on_net _ w1).
    assert (H2 : R (w_net w2)) by (by apply (ni_peer _ NI)). by destruct (_ && _). }
  destruct (isHeartbeat hdr); [done|]. destruct (isAck hdr).
  { unfold on_ack. destruct (zds_unpack_FgwLinkFeedback _ true) as [len fb].
    destruct (_ && _); [|done]. destruct (negb _); [by apply (ni_selector _ NI) | done]. }
  unfold on_segment. destruct (decide _); [done|]. destruct (has_data hdr && _); [done|]. by apply ni_dispatch.
Qed.
Lemma ni_onChannelBytes ch buf w : R (w_net w) -> R (w_net (onChannelBytes ch buf w)).
Proof.
  intros Hw. rewrite onChannelBytes_split. set (b := default [] _ ++ buf). cbn [w_net on_ds].
  generalize (fst (split_frames b)) as fs. intros fs. clear b. revert w Hw.
  induction fs as [|f fs IH]; intros w Hw; [done | by apply IH, ni_on_frame].
Qed.
Lemma ni_emitFeedback w : R (w_net w) -> R (w_net (emitFeedback w)).
Proof.
  intros Hw. unfold emitFeedback. destruct (peer_part_count_ (w_ds w)); [done|]. destruct (_ =? 0); [done|].
  destruct (zds_pack_FgwLinkFeedback _ _ _) as [plen payload]. destruct (plen <? 0); [done|].
  destruct (fgwSegmentEncode _ _ _ _ _) as [wrote out]. destruct (wrote <? 0); [done|].
  by apply ni_send_all.
Qed.
End net.
