(* ===== verification/Manager.v ===== *)
(** * Manager: the links of a machine, [ChannelManager] of
    [src/zfgw_channel_manager.{h,cpp}]

    The manager makes, dials, watches and drops the channels; the part of its state the
    streams share, [Links], lives in the stream's world.  What arrives on a channel's
    socket reaches the manager through the channel's callbacks, delayed work through
    timers.  A channel object is freed when it leaves the manager's map; a new one may
    be given any address that is free, [alloc] says which. *)
From S2P Require Import Prelude Proto OMap Segment Pack Channel Selector Links DataStream.

(** ** State *)
Inductive timer_job :=
  | JobRemove (channel_id : Z)             (** [removeChannel(id)] *)
  | JobReconnect (cfg : FgwChannelConfig). (** [removeChannel(id); addChannel(cfg)] *)

Record ChannelManager := mkManager {
  config_ : FgwConfig;
  accepted_id_seq_ : Z;
  (** whether [heartbeat_timer_], [link_acceptor_] and [shared_utp_] are set *)
  heartbeat_timer_ : bool; link_acceptor_ : bool; shared_utp_ : bool;
  bytes_subscribers_ : list Z;
  (** the one-shot timers that have not fired, each with its delay in milliseconds *)
  cm_timers : list (Z * timer_job);
  (** the identity of the next socket handler *)
  cm_next_socket : Z }.
Definition new_manager : ChannelManager :=
  mkManager FgwConfig_empty 0x80000000 false false false [] [] 1.

Definition set_config (c : FgwConfig) (m : ChannelManager) : ChannelManager :=
  mkManager c (accepted_id_seq_ m) (heartbeat_timer_ m) (link_acceptor_ m) (shared_utp_ m)
    (bytes_subscribers_ m) (cm_timers m) (cm_next_socket m).
Definition bump_accepted (m : ChannelManager) : ChannelManager :=
  mkManager (config_ m) (accepted_id_seq_ m +u32 1) (heartbeat_timer_ m) (link_acceptor_ m)
    (shared_utp_ m) (bytes_subscribers_ m) (cm_timers m) (cm_next_socket m).
Definition set_flags (hb acc utp : bool) (m : ChannelManager) : ChannelManager :=
  mkManager (config_ m) (accepted_id_seq_ m) hb acc utp (bytes_subscribers_ m) (cm_timers m)
    (cm_next_socket m).
Definition set_subscribers (l : list Z) (m : ChannelManager) : ChannelManager :=
  mkManager (config_ m) (accepted_id_seq_ m) (heartbeat_timer_ m) (link_acceptor_ m)
    (shared_utp_ m) l (cm_timers m) (cm_next_socket m).
Definition set_timers (l : list (Z * timer_job)) (m : ChannelManager) : ChannelManager :=
  mkManager (config_ m) (accepted_id_seq_ m) (heartbeat_timer_ m) (link_acceptor_ m)
    (shared_utp_ m) (bytes_subscribers_ m) l (cm_next_socket m).
Definition bump_socket (m : ChannelManager) : ChannelManager :=
  mkManager (config_ m) (accepted_id_seq_ m) (heartbeat_timer_ m) (link_acceptor_ m)
    (shared_utp_ m) (bytes_subscribers_ m) (cm_timers m) (cm_next_socket m + 1).

(** The surroundings of a manager. *)
Class Host := {
  (** the allocator: a free address for a new channel *)
  alloc : gmap Z IFgwChannel -> Z;
  alloc_free : forall h, h !! alloc h = None;
  (** [fgwProcessGeneration()], drawn once per process *)
  generation : Z;
  generation_range : 0 < generation < 2 ^ 32;
  (** what the listen of the shared UDP socket returns *)
  udp_listen : Z }.

(** [addBytesSubscriber] and [removeBytesSubscriber]. *)
Definition addBytesSubscriber (ds : Z) (m : ChannelManager) : ChannelManager :=
  if decide (ds ∈ bytes_subscribers_ m) then m else set_subscribers (bytes_subscribers_ m ++ [ds]) m.
Definition removeBytesSubscriber (ds : Z) (m : ChannelManager) : ChannelManager :=
  set_subscribers (List.filter (fun d => negb (d =? ds)) (bytes_subscribers_ m)) m.

(** ** Channels *)
Section channels.
Context {T : Transport} {host : Host}.

(** The objects of the map are reached by address: close and free one, add one. *)
Definition free_chan (id a : Z) (l : Links) : Links :=
  let l := upd_chan a close l in
  set_channels (om_erase id (channels_ l)) (set_heap (delete a (heap_ l)) l).
Definition add_chan (id a : Z) (c : IFgwChannel) (l : Links) : Links :=
  set_channels (om_insert id a (channels_ l)) (set_heap (<[a := c]> (heap_ l)) l).

(** [sharedUtpContext()], which keeps a holder only if its UDP socket listens. *)
Definition sharedUtpContext (m : ChannelManager) : ChannelManager :=
  if shared_utp_ m then m
  else set_flags (heartbeat_timer_ m) (link_acceptor_ m) (negb (udp_listen <? 0)) m.

Definition connect_at (a : Z) (remote : FgwEndpoint) (ml : ChannelManager * Links)
    : Z * (ChannelManager * Links) :=
  let '(m, l) := ml in
  let '(c, ret) := connect (cm_next_socket m) remote (chan l a) in
  (ret, (bump_socket m, upd_chan a (fun _ => c) l)).

Definition addChannel (cfg : FgwChannelConfig) (ml : ChannelManager * Links)
    : Z * (ChannelManager * Links) :=
  let '(m, l) := ml in
  if om_mem (cc_channel_id cfg) (channels_ l) then (err ZFGW_ERRCODE_CHANNELEXISTS, (m, l))
  else
  if negb ((cc_kind cfg =? ZFGW_CHANNEL_TCP) || (cc_kind cfg =? ZFGW_CHANNEL_UTP))
  then (err ZFGW_ERRCODE_INVALIDCONFIG, (m, l))
  else
  let m := if cc_kind cfg =? ZFGW_CHANNEL_TCP then m else sharedUtpContext m in
  let a := alloc (heap_ l) in
  let c := new_channel (cc_kind cfg) (cc_channel_id cfg) (cc_priority cfg) in
  connect_at a (cc_remote cfg) (m, add_chan (cc_channel_id cfg) a c l).

Definition removeChannel (id : Z) (l : Links) : Z * Links :=
  match findChannel id l with
  | None => (err ZFGW_ERRCODE_CHANNELNOTFOUND, l)
  | Some a => (0, free_chan id a l)
  end.

(** [makeAcceptedChannel()] followed by [createAcceptedHandler()]. *)
Definition makeAcceptedChannel (ml : ChannelManager * Links) : Z * (ChannelManager * Links) :=
  let '(m, l) := ml in
  let id := accepted_id_seq_ m in
  let a := alloc (heap_ l) in
  let c := createAcceptedHandler (cm_next_socket m) (markAccepted (new_channel ZFGW_CHANNEL_TCP id 100)) in
  let l := match findChannel id l with Some old => set_heap (delete old (heap_ l)) l | None => l end in
  (a, (bump_socket (bump_accepted m), add_chan id a c l)).

Definition startLinkListener (listen_ret : Z) (m : ChannelManager) : Z * ChannelManager :=
  if link_acceptor_ m then (err ZFGW_ERRCODE_BUSY, m)
  else if listen_ret <? 0 then (err ZFGW_ERRCODE_LISTENFAIL, m)
  else (0, set_flags (heartbeat_timer_ m) true (shared_utp_ m) m).
Definition stopLinkListener (m : ChannelManager) : ChannelManager :=
  set_flags (heartbeat_timer_ m) false (shared_utp_ m) m.

Definition collectLinkQualities (l : Links) : list FgwLinkQuality :=
  map (fun ia =>
    let c := chan l (snd ia) in let q := quality_ c in
    mkFgwLinkQuality (channel_id_ c) (if connected_ c then 1 else 0) (q_rtt_ms q) (q_loss_rate q)
      (q_bytes_sent q) (q_bytes_recv q) (q_send_segments q) (q_recv_segments q) (q_rexmit_segments q))
    (channels_ l).

(** ** Hello and heartbeat *)
Definition hello_of (cfg : FgwConfig) (id : Z) : FgwHello :=
  mkFgwHello kFgwProtoVersion (cfg_role cfg) (cfg_ingress_id cfg) 0 id generation.
Definition sendHello {rt : ZdsRuntime} (cfg : FgwConfig) (a : Z) (l : Links) : Links :=
  let '(plen, payload) := zds_pack_FgwHello (Some 64) (hello_of cfg (channel_id_ (chan l a))) true in
  if plen <? 0 then l
  else
  let hdr := mkHdr MAGIC FLAG_HELLO (u16 plen) 0 0 (cfg_ingress_id cfg) 0 0 in
  let '(wrote, out) := fgwSegmentEncode (Some (repeat 0 128)) 128 hdr (Some payload) plen in
  if wrote <? 0 then l else snd (send_on a (take (Z.to_nat wrote) (default [] out)) l).

Definition heartbeat_frame (ingress : Z) : option bytes :=
  let hdr := mkHdr MAGIC FLAG_HEARTBEAT 0 0 0 ingress 0 0 in
  let '(wrote, out) := fgwSegmentEncode (Some (repeat 0 64)) 64 hdr None 0 in
  if wrote <? 0 then None else Some (take (Z.to_nat wrote) (default [] out)).
Definition sendHeartbeat (cfg : FgwConfig) (a : Z) (l : Links) : Links :=
  match heartbeat_frame (cfg_ingress_id cfg) with
  | Some frame => snd (send_on a frame l)
  | None => l
  end.

Definition heartbeat_ms (cfg : FgwConfig) : Z :=
  (if 0 <? cfg_heartbeat_interval cfg then cfg_heartbeat_interval cfg else 5) * 1000.
Definition link_timeout_ms (cfg : FgwConfig) : Z :=
  u32 ((if 0 <? cfg_link_timeout cfg then cfg_link_timeout cfg else 15) * 1000).
Definition reconnect_ms (cfg : FgwConfig) : Z :=
  (if 0 <? cfg_reconnect_max cfg then cfg_reconnect_max cfg else 30) * 1000.

(** The channel loop of [onHeartbeatTick]; [clock a] is the tick sampled for the
    channel at [a]. *)
Definition beat_one (cfg : FgwConfig) (clock : Z -> Z) (l : Links) (a : Z) : Links :=
  if negb (connected_ (chan l a)) then l
  else upd_chan a (evaluateStall (clock a) (link_timeout_ms cfg)) (sendHeartbeat cfg a l).
Definition beat_all (cfg : FgwConfig) (clock : Z -> Z) (l : Links) : Links :=
  fold_left (beat_one cfg clock) (map snd (channels_ l)) l.

(** ** Callbacks of a channel *)
Definition schedule (ms : Z) (j : timer_job) (m : ChannelManager) : ChannelManager :=
  set_timers (cm_timers m ++ [(ms, j)]) m.

(** [onChannelConnected(ch, errcode)]. *)
Definition onChannelConnected {rt : ZdsRuntime} (a errcode : Z) (ml : ChannelManager * Links)
    : ChannelManager * Links :=
  let '(m, l) := ml in
  if 0 <=? errcode then (m, sendHello (config_ m) a l) else (m, l).

(** What [onChannelClosed] finds of a channel in the configuration. *)
Definition find_config (id : Z) (cfg : FgwConfig) : option FgwChannelConfig :=
  List.find (fun c => cc_channel_id c =? id) (cfg_channels cfg).
Definition redial_config (id : Z) (cfg : FgwConfig) : FgwChannelConfig :=
  match find_config id cfg with
  | Some c => mkFgwChannelConfig id (cc_kind c) (cc_remote c) (cc_priority c)
  | None => mkFgwChannelConfig id ZFGW_CHANNEL_TCP FgwEndpoint_empty 100
  end.
Definition onChannelClosed (a : Z) (ml : ChannelManager * Links) : ChannelManager * Links :=
  let '(m, l) := ml in
  let c := chan l a in
  if accepted_ c then (schedule 1 (JobRemove (channel_id_ c)) m, l)
  else (schedule (reconnect_ms (config_ m)) (JobReconnect (redial_config (channel_id_ c) (config_ m))) m, l).

Definition run_job (j : timer_job) (ml : ChannelManager * Links) : ChannelManager * Links :=
  let '(m, l) := ml in
  match j with
  | JobRemove id => (m, snd (removeChannel id l))
  | JobReconnect cfg => snd (addChannel cfg (m, snd (removeChannel (cc_channel_id cfg) l)))
  end.
Definition fire (n : nat) (ml : ChannelManager * Links) : ChannelManager * Links :=
  let '(m, l) := ml in
  match cm_timers m !! n with
  | None => (m, l)
  | Some (_, j) => run_job j (set_timers (delete n (cm_timers m)) m, l)
  end.

(** ** Start and stop *)

(** The repeating timer of the heartbeat, which replaces one that runs already, and its
    period in milliseconds. *)
Definition heartbeat_period (cfg : FgwConfig) : Z :=
  let interval := if 0 <? cfg_heartbeat_interval cfg then cfg_heartbeat_interval cfg else 5 in
  i32 (i32 interval * 1000).
Definition startHeartbeat (m : ChannelManager) : ChannelManager := set_flags true (link_acceptor_ m) (shared_utp_ m) m.
Definition start (cfg : FgwConfig) (ml : ChannelManager * Links) : ChannelManager * Links :=
  let '(m, l) := ml in
  let m := set_config cfg m in
  let l := set_selector (setMode (cfg_multipath_mode cfg) (selector_ l)) l in
  let '(m, l) := fold_left (fun ml c => snd (addChannel c ml)) (cfg_channels cfg) (m, l) in
  (startHeartbeat m, l).

(** Every channel is closed, then freed; the timers are not cancelled. *)
Definition stop (ml : ChannelManager * Links) : ChannelManager * Links :=
  let '(m, l) := ml in
  let m := set_subscribers [] (set_flags false false false m) in
  let l := fold_left (fun l a => upd_chan a close l) (map snd (channels_ l)) l in
  (m, set_channels [] (set_heap (foldr delete (heap_ l) (map snd (channels_ l))) l)).
End channels.

(** ** The manager and a stream *)
Record machine_net (H : Type) := mkNet { mn_mgr : ChannelManager; mn_world : world H }.
Arguments mkNet {_} _ _.
Arguments mn_mgr {_} _.
Arguments mn_world {_} _.

Section net.
Context {H : Type} {app : SessionHandler H}.
Context {rt : ZdsRuntime} {T : Transport} {sort : StdSort} {host : Host}.
Implicit Types (n : machine_net H).

(** The one stream of a machine, as its manager knows it. *)
Definition the_stream : Z := 1.

(** An operation of the manager on its state and the links. *)
Definition on_links (f : ChannelManager * Links -> ChannelManager * Links) n : machine_net H :=
  let '(m, l) := f (mn_mgr n, w_net (mn_world n)) in
  mkNet m (on_net (fun _ => l) (mn_world n)).

(** [dispatchChannelBytes(ch, buf, len)]. *)
Definition dispatchChannelBytes (a : Z) (buf : bytes) n : machine_net H :=
  mkNet (mn_mgr n)
    (fold_left (fun w ds => if ds =? the_stream then onChannelBytes a buf w else w)
       (bytes_subscribers_ (mn_mgr n)) (mn_world n)).

(** The callbacks of the handler of the channel at [a], which come only while the
    channel owns it. *)
Definition owned (a : Z) n : bool :=
  match heap_ (w_net (mn_world n)) !! a with
  | Some c => match tcp_ptr_ c with Some _ => true | None => false end
  | None => false
  end.
Definition tcp_on_open (a now : Z) n : machine_net H :=
  if owned a n then
    let '(c, code) := markConnected true now (chan (w_net (mn_world n)) a) in
    on_links (onChannelConnected a code) (on_links (fun '(m, l) => (m, upd_chan a (fun _ => c) l)) n)
  else n.
Definition tcp_on_read_data (a now : Z) (buf : bytes) n : machine_net H :=
  if owned a n
  then dispatchChannelBytes a buf (on_links (fun '(m, l) => (m, upd_chan a (addRecvBytes (zlen buf) now) l)) n)
  else n.
Definition tcp_on_close (a : Z) n : machine_net H :=
  if owned a n
  then on_links (onChannelClosed a) (on_links (fun '(m, l) => (m, upd_chan a markClosed l)) n)
  else n.

Definition onHeartbeatTick (clock : Z -> Z) n : machine_net H :=
  let subs := bytes_subscribers_ (mn_mgr n) in
  let n := on_links (fun '(m, l) => (m, beat_all (config_ m) clock l)) n in
  mkNet (mn_mgr n) (fold_left (fun w ds => if ds =? the_stream then emitFeedback w else w) subs (mn_world n)).

(** ** What can happen *)
Inductive net_step :=
  | NetOpen (a now : Z) | NetBytes (a now : Z) (buf : bytes) | NetClose (a : Z)
  | NetTick (clock : Z -> Z) | NetTimer (i : nat) | NetAccept
  | NetAdd (cfg : FgwChannelConfig) | NetRemove (id : Z).
Definition net_do (s : net_step) n : machine_net H :=
  match s with
  | NetOpen a now => tcp_on_open a now n
  | NetBytes a now buf => tcp_on_read_data a now buf n
  | NetClose a => tcp_on_close a n
  | NetTick clock => if heartbeat_timer_ (mn_mgr n) then onHeartbeatTick clock n else n
  | NetTimer i => on_links (fire i) n
  | NetAccept => if link_acceptor_ (mn_mgr n) then on_links (fun ml => snd (makeAcceptedChannel ml)) n else n
  | NetAdd cfg => on_links (fun ml => snd (addChannel cfg ml)) n
  | NetRemove id => on_links (fun '(m, l) => (m, snd (removeChannel id l))) n
  end.
Definition net_run (ss : list net_step) n : machine_net H := fold_left (fun n s => net_do s n) ss n.
End net.
