(* ===== verification/ManagerWf.v ===== *)
(** * ManagerWf: the manager keeps its links

    The invariant of the manager's map and channels, and its preservation by all that
    can happen: connections, bytes, losses, heartbeats, timers, accepted links and
    requests to add or remove a channel. *)
From S2P Require Import Prelude Proto OMap Segment Pack Channel Selector Links DataStream.
From S2P Require Import StreamFacts Framing NetInv Manager.

(** ** The invariant *)

(** A connected channel has a socket, and only TCP channels do. *)
Definition chan_ok (c : IFgwChannel) : Prop :=
  (connected_ c = true -> tcp_ptr_ c <> None) /\ (tcp_ptr_ c <> None -> kind_ c = ZFGW_CHANNEL_TCP).

Record map_ok (l : Links) : Prop := {
  mo_sorted : om_ok (channels_ l);
  mo_ids : forall id a, om_find id (channels_ l) = Some a ->
    exists c, heap_ l !! a = Some c /\ channel_id_ c = id;
  mo_heap : forall a c, heap_ l !! a = Some c -> om_find (channel_id_ c) (channels_ l) = Some a /\ chan_ok c }.

Lemma map_ok_links l : map_ok l -> links_ok l.
Proof.
  intros [Hs Hi _]. constructor; [done|]. intros id a Hin. apply Hi. by apply om_find_ok_In.
Qed.
Lemma map_inj l id id' a : map_ok l -> om_find id (channels_ l) = Some a -> om_find id' (channels_ l) = Some a -> id = id'.
Proof. intros Hw H1 H2. destruct (mo_ids _ Hw _ _ H1) as (c & ? & ?), (mo_ids _ Hw _ _ H2) as (c' & ? & ?). congruence. Qed.

(** A change of a channel that keeps its identity. *)
Definition keeps_chan (f : IFgwChannel -> IFgwChannel) : Prop :=
  forall c, channel_id_ (f c) = channel_id_ c /\ (chan_ok c -> chan_ok (f c)).
Lemma map_upd l a f : map_ok l -> (forall c, heap_ l !! a = Some c -> channel_id_ (f c) = channel_id_ c /\ chan_ok (f c)) ->
  map_ok (upd_chan a f l).
Proof.
  intros [Hs Hi Hh] Hf. constructor; simpl; [done | |].
  - intros id b Hb. destruct (Hi id b Hb) as (c & Hc & Hid). destruct (decide (b = a)) as [->|].
    + exists (f c). rewrite lookup_alter_eq, Hc. split; [done|]. by rewrite (proj1 (Hf c Hc)).
    + exists c. by rewrite lookup_alter_ne.
  - intros b c. destruct (decide (b = a)) as [->|]; [|rewrite lookup_alter_ne by done; apply Hh].
    rewrite lookup_alter_eq. destruct (heap_ l !! a) as [c0|] eqn:Hc0; [|done]. intros [= <-].
    destruct (Hf c0 eq_refl) as [-> Hok]. split; [by apply Hh | done].
Qed.
Lemma map_keeps l a f : map_ok l -> keeps_chan f -> map_ok (upd_chan a f l).
Proof. intros Hw Hf. apply map_upd; [done|]. intros c Hc. destruct (Hf c) as [H1 H2]. split; [done|]. by apply H2, (mo_heap _ Hw a). Qed.
Lemma map_same l l' : heap_ l' = heap_ l -> channels_ l' = channels_ l -> map_ok l -> map_ok l'.
Proof. intros Hh Hc [H1 H2 H3]. constructor; rewrite ?Hh, ?Hc; done. Qed.

Section ops.
Context {T : Transport} {host : Host} {sort : StdSort}.

Lemma map_free l id a : map_ok l -> om_find id (channels_ l) = Some a -> map_ok (free_chan id a l).
Proof.
  intros Hw Ha. pose proof Hw as [Hs Hi Hh]. constructor; simpl.
  - by apply om_ok_erase.
  - intros id' b. destruct (decide (id' = id)) as [->|Hne]; [by rewrite om_find_erase_eq|].
    rewrite om_find_erase_ne by done. intros Hb. destruct (Hi id' b Hb) as (c & Hc & Hid). exists c.
    assert (b <> a) by (intros ->; apply Hne; by eapply map_inj).
    by rewrite lookup_delete_ne, lookup_alter_ne.
  - intros b c [Hne Hb]%lookup_delete_Some. rewrite lookup_alter_ne in Hb by done.
    destruct (Hh b c Hb) as [Hf Hok]. split; [|done]. rewrite om_find_erase_ne; [done|].
    intros Heq. rewrite Heq in Hf. congruence.
Qed.
Lemma map_add l id a c : map_ok l -> om_find id (channels_ l) = None -> heap_ l !! a = None ->
  channel_id_ c = id -> chan_ok c -> map_ok (add_chan id a c l).
Proof.
  intros [Hs Hi Hh] Hn Ha Hid Hok. constructor; simpl.
  - by apply om_ok_insert.
  - intros id' b. destruct (decide (id' = id)) as [->|Hne].
    + rewrite om_find_insert_eq. intros [= <-]. exists c. by rewrite lookup_insert_eq.
    + rewrite om_find_insert_ne by done. intros Hb. destruct (Hi id' b Hb) as (c' & Hc' & Hid').
      exists c'. rewrite lookup_insert_ne; [done | congruence].
  - intros b c' [[<- <-]|[Hne Hb]]%lookup_insert_Some; [by rewrite Hid, om_find_insert_eq|].
    destruct (Hh b c' Hb) as [Hf Hok']. split; [|done]. rewrite om_find_insert_ne; [done | congruence].
Qed.

(** The operations on channels. *)
Lemma connect_keeps fresh remote : keeps_chan (fun c => fst (connect fresh remote c)).
Proof.
  intros c. unfold connect, tcp_connect, utp_connect. destruct (is_tcp c) eqn:Ht; [|by split].
  split; [done|]. intros _. split; [done|]. intros _. by apply Z.eqb_eq in Ht.
Qed.
Lemma send_keeps buf sent : keeps_chan (fun c => snd (fst (sendBytes buf sent c))).
Proof. intros c. unfold sendBytes, tcp_sendBytes, utp_sendBytes. repeat case_match; simplify_eq; try done. Qed.

Lemma map_send a buf l : map_ok l -> map_ok (snd (send_on a buf l)).
Proof.
  intros Hw. unfold send_on. pose proof (send_keeps buf (wire_ l)) as Hk.
  destruct (sendBytes buf (wire_ l) (chan l a)) as [[ret c] wr] eqn:Hs. cbn [snd].
  apply (map_same (upd_chan a (fun _ => c) l)); [done..|]. apply map_upd; [done|]. intros c0 Hc0.
  assert (chan l a = c0) by (unfold chan; by rewrite Hc0). subst c0. destruct (Hk (chan l a)) as [H1 H2].
  rewrite Hs in H1, H2. split; [done|]. by apply H2, (mo_heap _ Hw a).
Qed.

Lemma map_connect a remote m l : map_ok l -> map_ok (snd (snd (connect_at a remote (m, l)))).
Proof.
  intros Hw. unfold connect_at. pose proof (connect_keeps (cm_next_socket m) remote) as Hk.
  destruct (connect (cm_next_socket m) remote (chan l a)) as [c ret] eqn:Hc. cbn [snd].
  apply map_upd; [done|]. intros c0 Hc0.
  assert (chan l a = c0) by (unfold chan; by rewrite Hc0). subst c0. destruct (Hk (chan l a)) as [H1 H2].
  rewrite Hc in H1, H2. split; [done|]. by apply H2, (mo_heap _ Hw a).
Qed.
Lemma map_addChannel cfg m l : map_ok l -> map_ok (snd (snd (addChannel cfg (m, l)))).
Proof.
  intros Hw. unfold addChannel. destruct (om_mem _ _) eqn:Hm; [done|]. destruct (negb _); [done|].
  apply map_connect. apply map_add; [done | | apply alloc_free | done | done].
  unfold om_mem in Hm. by destruct (om_find _ _).
Qed.
Lemma map_removeChannel id l : map_ok l -> map_ok (snd (removeChannel id l)).
Proof.
  intros Hw. unfold removeChannel, findChannel. destruct (om_find id (channels_ l)) as [a|] eqn:Ha; [|done].
  by apply map_free.
Qed.
Lemma map_accept m l : map_ok l -> map_ok (snd (snd (makeAcceptedChannel (m, l)))).
Proof.
  intros Hw. unfold makeAcceptedChannel, findChannel. cbn [snd]. set (id := accepted_id_seq_ m).
  destruct (om_find id (channels_ l)) as [old|] eqn:Ho; [|apply map_add; [done | done | apply alloc_free | done | done]].
  pose proof (map_free l id old Hw Ho) as Hw'. pose proof (alloc_free (heap_ l)) as Hfree.
  assert (Hne : alloc (heap_ l) <> old).
  { intros Heq. destruct (mo_ids _ Hw _ _ Ho) as (c & Hc & _). rewrite <- Heq in Hc. congruence. }
  set (c := createAcceptedHandler _ _). destruct Hw as [Hs Hi Hh]. constructor; simpl.
  - by apply om_ok_insert.
  - intros id' b. destruct (decide (id' = id)) as [->|Hn].
    + rewrite om_find_insert_eq. intros [= <-]. exists c. by rewrite lookup_insert_eq.
    + rewrite om_find_insert_ne by done. intros Hb. destruct (Hi id' b Hb) as (c' & Hc' & Hid'). exists c'.
      rewrite lookup_insert_ne by congruence. rewrite lookup_delete_ne; [done|].
      intros <-. destruct (Hi id old Ho) as (c2 & ? & ?). congruence.
  - intros b c' [[<- <-]|[Hn [Hn2 Hb]%lookup_delete_Some]]%lookup_insert_Some; [by rewrite om_find_insert_eq|].
    destruct (Hh b c' Hb) as [Hf Hok]. split; [|done]. rewrite om_find_insert_ne; [done|].
    intros Heq. rewrite Heq in Hf. congruence.
Qed.
End ops.

(** ** The links of a configuration *)

Definition cfg_links_ok (cfg : FgwConfig) : Prop :=
  Forall (fun c => (cc_kind c = ZFGW_CHANNEL_TCP \/ cc_kind c = ZFGW_CHANNEL_UTP) /\
    0 <= cc_channel_id c < 2 ^ 31) (cfg_channels cfg).
(** A channel that was accepted has its high bit set. *)
Definition accepted_high (l : Links) : Prop :=
  forall a c, heap_ l !! a = Some c -> accepted_ c = true -> 2 ^ 31 <= channel_id_ c.
Definition has_links (cfg : FgwConfig) (l : Links) : Prop :=
  forall c, In c (cfg_channels cfg) -> om_mem (cc_channel_id c) (channels_ l) = true.
Definition job_ok (cfg : FgwConfig) (j : timer_job) : Prop :=
  match j with
  | JobRemove id => 2 ^ 31 <= id
  | JobReconnect c => c = redial_config (cc_channel_id c) cfg
  end.
Record kept (cfg : FgwConfig) (n : Z) (ml : ChannelManager * Links) : Prop := {
  ke_config : config_ (fst ml) = cfg;
  ke_seq : 2 ^ 31 <= accepted_id_seq_ (fst ml) <= 2 ^ 31 + n;
  ke_jobs : forall ms j, In (ms, j) (cm_timers (fst ml)) -> job_ok cfg j;
  ke_map : map_ok (snd ml);
  ke_high : accepted_high (snd ml);
  ke_links : has_links cfg (snd ml) }.

Lemma om_mem_insert {V} k j (v : V) m : om_mem k (om_insert j v m) = (k =? j) || om_mem k m.
Proof.
  unfold om_mem. destruct (Z.eqb_spec k j) as [->|]; [by rewrite om_find_insert_eq | by rewrite om_find_insert_ne].
Qed.
Lemma om_mem_erase {V} k j (m : omap V) : k <> j -> om_mem k (om_erase j m) = om_mem k m.
Proof. intros Hne. unfold om_mem. by rewrite om_find_erase_ne. Qed.

Section kept.
Context {T : Transport} {host : Host} {sort : StdSort}.
Context (cfg : FgwConfig) (Hcfg : cfg_links_ok cfg).

Lemma redial_kind id : cc_channel_id (redial_config id cfg) = id /\
  (cc_kind (redial_config id cfg) = ZFGW_CHANNEL_TCP \/ cc_kind (redial_config id cfg) = ZFGW_CHANNEL_UTP).
Proof.
  unfold redial_config. destruct (find_config id cfg) as [c|] eqn:Hf; [|by auto]. split; [done|]. simpl.
  apply List.find_some in Hf as [Hin _]. unfold cfg_links_ok in Hcfg. rewrite List.Forall_forall in Hcfg. by apply Hcfg.
Qed.

(** What adding a channel does. *)
Lemma add_spec c m l : map_ok l -> accepted_high l -> let '(ret, (m', l')) := addChannel c (m, l) in
  config_ m' = config_ m /\ accepted_id_seq_ m' = accepted_id_seq_ m /\ cm_timers m' = cm_timers m /\
  map_ok l' /\ accepted_high l' /\
  (forall id, om_mem id (channels_ l) = true -> om_mem id (channels_ l') = true) /\
  (cc_kind c = ZFGW_CHANNEL_TCP \/ cc_kind c = ZFGW_CHANNEL_UTP -> om_mem (cc_channel_id c) (channels_ l') = true).
Proof.
  intros Hw Hh. pose proof (map_addChannel c m l Hw) as Hm. unfold addChannel in *.
  destruct (om_mem (cc_channel_id c) (channels_ l)) eqn:Hmem; [done|].
  destruct (negb _) eqn:Hk.
  { split_and!; try done. intros Hkk. exfalso. by destruct Hkk as [E|E]; rewrite E in Hk. }
  unfold connect_at in *. set (m1 := if _ =? _ then m else _) in *. set (l1 := add_chan _ _ _ l) in *.
  assert (Hm1 : config_ m1 = config_ m /\ accepted_id_seq_ m1 = accepted_id_seq_ m /\ cm_timers m1 = cm_timers m).
  { unfold m1, sharedUtpContext. by destruct (cc_kind c =? ZFGW_CHANNEL_TCP), (shared_utp_ m). }
  assert (Hch : chan l1 (alloc (heap_ l)) = new_channel (cc_kind c) (cc_channel_id c) (cc_priority c))
    by (unfold chan, l1; simpl; by rewrite lookup_insert_eq).
  rewrite Hch in *. set (c0 := new_channel _ _ _) in *.
  assert (Hacc : accepted_ (fst (connect (cm_next_socket m1) (cc_remote c) c0)) = false)
    by (unfold connect; by destruct (is_tcp c0)).
  destruct (connect _ _ c0) as [c1 ret]. cbn [fst snd] in *. destruct Hm1 as (H1 & H2 & H3). split_and!; try done.
  - intros b d. simpl. destruct (decide (b = alloc (heap_ l))) as [->|Hne].
    + rewrite lookup_alter_eq, lookup_insert_eq. intros [= <-]. by rewrite Hacc.
    + rewrite lookup_alter_ne, lookup_insert_ne by done. apply Hh.
  - intros id Hid. simpl. by rewrite om_mem_insert, Hid, orb_true_r.
  - intros _. simpl. by rewrite om_mem_insert, Z.eqb_refl.
Qed.

Lemma remove_spec id l : map_ok l -> accepted_high l -> let l' := snd (removeChannel id l) in
  map_ok l' /\ accepted_high l' /\ (forall id', id' <> id -> om_mem id' (channels_ l') = om_mem id' (channels_ l)).
Proof.
  intros Hw Hh. pose proof (map_removeChannel id l Hw) as Hm. cbv zeta. split; [done|]. revert Hm.
  unfold removeChannel. destruct (findChannel id l) as [a|]; [|done]. intros _. cbn [snd]. split.
  - intros b c. simpl. intros [Hne Hb]%lookup_delete_Some. rewrite lookup_alter_ne in Hb by done. by apply (Hh b).
  - intros id' Hne. simpl. by rewrite om_mem_erase.
Qed.

Lemma kept_add n c ml : kept cfg n ml -> kept cfg n (snd (addChannel c ml)).
Proof.
  intros [H1 H2 H3 H4 H5 H6]. destruct ml as [m l]. pose proof (add_spec c m l H4 H5) as Hs.
  destruct (addChannel c (m, l)) as [ret [m' l']]. destruct Hs as (Hc & Hq & Ht & Hm & Hh & Hmem & _).
  cbn [fst snd] in *. constructor; cbn [fst snd]; rewrite ?Hc, ?Hq, ?Ht; try done.
  intros c' Hin. by apply Hmem, H6.
Qed.
Lemma kept_remove n id m l : kept cfg n (m, l) -> (forall c, In c (cfg_channels cfg) -> cc_channel_id c <> id) ->
  kept cfg n (m, snd (removeChannel id l)).
Proof.
  intros [H1 H2 H3 H4 H5 H6] Hid. destruct (remove_spec id l H4 H5) as (Hm & Hh & Hmem).
  constructor; try done. intros c Hin. cbn [snd]. rewrite Hmem by (by apply Hid). by apply H6.
Qed.
Lemma low_id c : In c (cfg_channels cfg) -> 0 <= cc_channel_id c < 2 ^ 31.
Proof. intros Hin. unfold cfg_links_ok in Hcfg. rewrite List.Forall_forall in Hcfg. by apply Hcfg. Qed.

Lemma kept_job n j ml : kept cfg n ml -> job_ok cfg j -> kept cfg n (run_job j ml).
Proof.
  intros Hk Hj. destruct ml as [m l]. destruct j as [id|c]; simpl in Hj.
  - apply kept_remove; [done|]. intros c Hc%low_id. lia.
  - destruct Hk as [H1 H2 H3 H4 H5 H6]. cbn [fst snd run_job] in *.
    destruct (remove_spec (cc_channel_id c) l H4 H5) as (Hm & Hh & Hmem). set (l1 := snd (removeChannel _ l)) in *.
    pose proof (add_spec c m l1 Hm Hh) as Hs. destruct (addChannel c (m, l1)) as [ret [m' l']].
    destruct Hs as (Hc & Hq & Ht & Hm' & Hh' & Hin & Hadd).
    cbn [snd]. constructor; cbn [fst snd]; rewrite ?Hc, ?Hq, ?Ht; try done.
    intros c' Hc'. destruct (decide (cc_channel_id c' = cc_channel_id c)) as [->|Hne].
    + apply Hadd. rewrite Hj. apply redial_kind.
    + apply Hin. rewrite Hmem by done. by apply H6.
Qed.
Lemma kept_fire n i ml : kept cfg n ml -> kept cfg n (fire i ml).
Proof.
  intros Hk. destruct ml as [m l]. unfold fire. destruct (cm_timers m !! i) as [[ms j]|] eqn:Hj; [|done].
  apply kept_job.
  - destruct Hk as [H1 H2 H3 H4 H5 H6]. constructor; try done. cbn [fst cm_timers set_timers]. intros ms' j' Hin.
    apply (H3 ms'). apply list_elem_of_In. apply list_elem_of_In in Hin.
    eapply elem_of_submseteq; [exact Hin | apply sublist_submseteq, sublist_delete].
  - apply (ke_jobs _ _ _ Hk ms). by eapply list_elem_of_In, list_elem_of_lookup_2.
Qed.
Lemma kept_schedule n ms j m l : kept cfg n (m, l) -> job_ok cfg j -> kept cfg n (schedule ms j m, l).
Proof.
  intros [H1 H2 H3 H4 H5 H6] Hj. constructor; try done. cbn [fst cm_timers set_timers schedule].
  intros ms' j' [Hin|[[= <- <-]|[]]]%in_app_or; [by apply (H3 ms') | done].
Qed.
End kept.

(** ** What happens to the links *)
Definition links_kept (cfg : FgwConfig) (l : Links) : Prop := map_ok l /\ accepted_high l /\ has_links cfg l.

Section steps.
Context {T : Transport} {host : Host} {sort : StdSort}.
Context (cfg : FgwConfig) (Hcfg : cfg_links_ok cfg).

Lemma links_upd l a f : links_kept cfg l ->
  (forall c, heap_ l !! a = Some c -> channel_id_ (f c) = channel_id_ c /\ accepted_ (f c) = accepted_ c /\
     (chan_ok c -> chan_ok (f c))) -> links_kept cfg (upd_chan a f l).
Proof.
  intros (Hm & Hh & Hl) Hf. split; [|split; [|done]].
  - apply map_upd; [done|]. intros c Hc. destruct (Hf c Hc) as (H1 & _ & H2). split; [done|].
    by apply H2, (mo_heap _ Hm a).
  - intros b c. simpl. destruct (decide (b = a)) as [->|]; [|rewrite lookup_alter_ne by done; by apply Hh].
    rewrite lookup_alter_eq. destruct (heap_ l !! a) as [c0|] eqn:Hc0; [|done]. intros [= <-].
    destruct (Hf c0 eq_refl) as (-> & -> & _). by apply (Hh a).
Qed.
Lemma links_net : net_invariant (links_kept cfg).
Proof.
  constructor.
  - intros s l (Hm & Hh & Hl). split; [by eapply map_same; [| |exact Hm] | done].
  - intros a b l Hl. unfold send_on. destruct (sendBytes b (wire_ l) (chan l a)) as [[ret c] wr] eqn:Hs. cbn [snd].
    enough (Hu : links_kept cfg (upd_chan a (fun _ => c) l)).
    { destruct Hu as (Hm & Hh & Hl'). split; [by eapply map_same; [| |exact Hm] | done]. }
    apply links_upd; [done|]. intros c0 Hc0. assert (Heq : chan l a = c0) by (unfold chan; by rewrite Hc0).
    rewrite Heq in Hs. unfold sendBytes, tcp_sendBytes, utp_sendBytes in Hs. repeat case_match; by simplify_eq.
  - intros a l Hl. by apply links_upd.
  - intros a pc pi po l Hl. by apply links_upd.
Qed.

Definition nkept {H} (n : Z) (x : machine_net H) : Prop := kept cfg n (mn_mgr x, w_net (mn_world x)).
Lemma kept_links n m l l' : kept cfg n (m, l) -> links_kept cfg l' -> kept cfg n (m, l').
Proof. intros [H1 H2 H3 _ _ _] (? & ? & ?). by constructor. Qed.
Lemma links_of n m l : kept cfg n (m, l) -> links_kept cfg l.
Proof. by intros []. Qed.

Lemma kept_accept n ml : kept cfg n ml -> n < 2 ^ 31 - 1 -> kept cfg (n + 1) (snd (makeAcceptedChannel ml)).
Proof.
  intros [H1 H2 H3 H4 H5 H6] Hn. destruct ml as [m l]. cbn [fst snd] in *.
  pose proof (map_accept m l H4) as Hm. unfold makeAcceptedChannel in *. cbn [snd] in *. set (id := accepted_id_seq_ m) in *.
  constructor; cbn [fst snd config_ accepted_id_seq_ cm_timers bump_socket bump_accepted]; try done.
  - fold id. rewrite u32_small by (unfold is_u32; lia). lia.
  - set (c := createAcceptedHandler _ _) in *. intros b d. simpl. intros [[<- <-]|[_ Hb]]%lookup_insert_Some; [simpl; lia|].
    apply (H5 b). destruct (findChannel id l) as [old|]; [|done]. cbn in Hb. by apply lookup_delete_Some in Hb as [_ Hb].
  - intros c' Hin. simpl. rewrite om_mem_insert.
    replace (channels_ (match findChannel id l with Some old => _ | None => l end)) with (channels_ l)
      by (by destruct (findChannel id l)).
    by rewrite (H6 c' Hin), orb_true_r.
Qed.

Context {H : Type} {app : SessionHandler H} {rt : ZdsRuntime}.
Implicit Types (x : machine_net H).

Lemma nkept_config n x : nkept n x -> config_ (mn_mgr x) = cfg.
Proof. apply ke_config. Qed.
Lemma nkept_links n x l' : nkept n x -> (links_kept cfg (w_net (mn_world x)) -> links_kept cfg l') ->
  nkept n (mkNet (mn_mgr x) (on_net (fun _ => l') (mn_world x))).
Proof. intros Hk Hl. eapply kept_links; [exact Hk | by apply Hl, (links_of n (mn_mgr x))]. Qed.
Lemma nkept_world n x (w' : world H) : nkept n x -> (links_kept cfg (w_net (mn_world x)) -> links_kept cfg (w_net w')) ->
  nkept n (mkNet (mn_mgr x) w').
Proof. intros Hk Hl. eapply kept_links; [exact Hk | by apply Hl, (links_of n (mn_mgr x))]. Qed.

Lemma links_beat clock l : links_kept cfg l -> links_kept cfg (beat_all cfg clock l).
Proof.
  unfold beat_all. generalize (map snd (channels_ l)) as as_. intros as_. revert l.
  induction as_ as [|a as_ IH]; intros l Hl; [done|]. apply IH. unfold beat_one.
  destruct (negb _); [done|]. apply links_upd; [|by intros]. unfold sendHeartbeat.
  destruct (heartbeat_frame _); [by apply (ni_send _ links_net) | done].
Qed.
Lemma links_hello a l : links_kept cfg l -> links_kept cfg (sendHello cfg a l).
Proof.
  intros Hl. unfold sendHello. destruct (zds_pack_FgwHello _ _ _) as [plen payload]. destruct (plen <? 0); [done|].
  destruct (fgwSegmentEncode _ _ _ _ _) as [wrote out]. destruct (wrote <? 0); [done|]. by apply (ni_send _ links_net).
Qed.

Lemma accepted_chan l a : accepted_high l -> accepted_ (chan l a) = true -> 2 ^ 31 <= channel_id_ (chan l a).
Proof. intros Hh. unfold chan. destruct (heap_ l !! a) as [c|] eqn:Hc; [by apply (Hh a) | done]. Qed.

Definition step_kept (s : net_step) : Prop :=
  match s with NetRemove id => forall c, In c (cfg_channels cfg) -> cc_channel_id c <> id | _ => True end.
Lemma nkept_do n s x : nkept n x -> n < 2 ^ 31 - 1 -> step_kept s ->
  nkept (match s with NetAccept => n + 1 | _ => n end) (net_do s x).
Proof.
  intros Hk Hn Hs. destruct s as [a now|a now buf|a|clock|i| |c|id]; cbn [net_do].
  - unfold tcp_on_open. destruct (owned a x) eqn:Ho; [|done].
    destruct (markConnected true now (chan (w_net (mn_world x)) a)) as [c code] eqn:Hc.
    assert (H1 : nkept n (on_links (fun '(m, l) => (m, upd_chan a (fun _ => c) l)) x)).
    { apply nkept_links; [done|]. intros Hl. apply links_upd; [done|]. intros c0 Hc0. unfold owned in Ho. rewrite Hc0 in Ho.
      assert (Heq : chan (w_net (mn_world x)) a = c0) by (unfold chan; by rewrite Hc0). rewrite Heq in Hc.
      injection Hc as <- _. split_and!; try done. intros [_ Hok]. split; [|done].
      intros _ Hn0. cbn in Hn0. by rewrite Hn0 in Ho. }
    set (x1 := on_links _ x) in *. unfold onChannelConnected. destruct (0 <=? code) eqn:Hcode.
    + unfold on_links. apply (nkept_links n x1); [done|].
      rewrite (nkept_config _ _ H1). apply links_hello.
    + unfold on_links. by apply (nkept_links n x1).
  - unfold tcp_on_read_data. destruct (owned a x); [|done]. unfold dispatchChannelBytes.
    set (x1 := on_links _ x). assert (H1 : nkept n x1) by (apply nkept_links; [done|]; intros Hl; by apply links_upd).
    apply nkept_world; [done|]. generalize (bytes_subscribers_ (mn_mgr x1)) as subs. generalize (mn_world x1) as w.
    intros w subs. revert w. induction subs as [|d subs IH]; intros w Hl; [done|]. apply IH.
    destruct (d =? the_stream); [by apply (ni_onChannelBytes links_net) | done].
  - unfold tcp_on_close. destruct (owned a x); [|done]. set (x1 := on_links _ x).
    assert (H1 : nkept n x1) by (apply nkept_links; [done|]; intros Hl; apply links_upd; [done|]; intros c0 _; split_and!; [done..|]; intros [_ Hok]; by split).
    unfold on_links, onChannelClosed. rewrite (nkept_config _ _ H1).
    destruct (accepted_ (chan (w_net (mn_world x1)) a)) eqn:Hacc.
    + apply kept_schedule; [exact H1|]. by apply (accepted_chan _ _ (ke_high _ _ _ H1)).
    + apply kept_schedule; [exact H1|]. simpl. by rewrite (proj1 (redial_kind cfg Hcfg _)).
  - destruct (heartbeat_timer_ (mn_mgr x)); [|done]. unfold onHeartbeatTick. set (x1 := on_links _ x).
    assert (H1 : nkept n x1) by (apply nkept_links; [done|]; rewrite (nkept_config _ _ Hk); apply links_beat).
    apply nkept_world; [done|]. generalize (bytes_subscribers_ (mn_mgr x)) as subs. generalize (mn_world x1) as w.
    intros w subs. revert w. induction subs as [|d subs IH]; intros w Hl; [done|]. apply IH.
    destruct (d =? the_stream); [by apply (ni_emitFeedback links_net) | done].
  - unfold on_links. pose proof (kept_fire cfg Hcfg n i _ Hk) as Hf. by destruct (fire i _).
  - destruct (link_acceptor_ (mn_mgr x)).
    + unfold on_links. pose proof (kept_accept n _ Hk Hn) as Hf. by destruct (snd (makeAcceptedChannel _)).
    + destruct Hk as [H1 H2 H3 H4 H5 H6]. constructor; try done. lia.
  - unfold on_links. pose proof (kept_add cfg n c _ Hk) as Hf. by destruct (snd (addChannel c _)).
  - by apply (kept_remove cfg).
Qed.

Definition accepts (ss : list net_step) : Z :=
  zlen (List.filter (fun s => match s with NetAccept => true | _ => false end) ss).
Lemma nkept_run ss : forall n x, nkept n x -> n + accepts ss + 1 < 2 ^ 31 -> Forall step_kept ss ->
  nkept (n + accepts ss) (net_run ss x).
Proof.
  induction ss as [|s ss IH]; intros n x Hk Hn Hs; [by rewrite Z.add_0_r|]. inversion Hs; subst.
  assert (Ha : n + accepts (s :: ss) = match s with NetAccept => n + 1 | _ => n end + accepts ss).
  { unfold accepts. destruct s; cbn [List.filter]; rewrite ?zlen_cons; lia. }
  pose proof (zlen_nonneg (List.filter (fun s => match s with NetAccept => true | _ => false end) ss)) as H0.
  fold (accepts ss) in H0. rewrite Ha in *. unfold net_run. cbn [fold_left]. apply IH; [|done|done].
  apply nkept_do; [done | destruct s; lia | done].
Qed.

(** A manager that starts. *)
Definition no_net (sel : LinkSelector) : Links := mkLinks empty [] sel [].
Lemma kept_start sel : kept cfg 0 (start cfg (new_manager, no_net sel)).
Proof.
  unfold start. set (l0 := set_selector _ _). set (m0 := set_config cfg new_manager).
  assert (Hall : forall cs m l, config_ m = cfg -> accepted_id_seq_ m = 2 ^ 31 -> cm_timers m = [] -> map_ok l ->
    accepted_high l -> (forall c, In c cs -> In c (cfg_channels cfg)) ->
    let '(m', l') := fold_left (fun ml c => snd (addChannel c ml)) cs (m, l) in
    config_ m' = cfg /\ accepted_id_seq_ m' = 2 ^ 31 /\ cm_timers m' = [] /\ map_ok l' /\ accepted_high l' /\
    (forall id, om_mem id (channels_ l) = true -> om_mem id (channels_ l') = true) /\
    (forall c, In c cs -> om_mem (cc_channel_id c) (channels_ l') = true)).
  { induction cs as [|c cs IH]; intros m l Hc Hq Ht Hm Hh Hin; [done|]. cbn [fold_left].
    pose proof (add_spec c m l Hm Hh) as Hs. destruct (addChannel c (m, l)) as [ret [m1 l1]]. cbn [snd].
    destruct Hs as (Hc1 & Hq1 & Ht1 & Hm1 & Hh1 & Hmem & Hadd).
    specialize (IH m1 l1 ltac:(congruence) ltac:(congruence) ltac:(congruence) Hm1 Hh1 ltac:(intros; apply Hin; by right)).
    destruct (fold_left _ cs (m1, l1)) as [m2 l2]. destruct IH as (? & ? & ? & ? & ? & Hmem2 & Hin2).
    split_and!; try done; [intros id Hid; by apply Hmem2, Hmem|]. intros c' [<-|Hc']; [|by apply Hin2].
    apply Hmem2, Hadd. unfold cfg_links_ok in Hcfg. rewrite List.Forall_forall in Hcfg. apply (Hcfg c), Hin. by left. }
  specialize (Hall (cfg_channels cfg) m0 l0 eq_refl eq_refl eq_refl).
  destruct (fold_left _ _ (m0, l0)) as [m l]. destruct Hall as (Hc & Hq & Ht & Hm & Hh & _ & Hl).
  { constructor; simpl; [apply om_ok_nil | done | done]. }
  { done. }
  { done. }
  constructor; cbn [fst snd config_ accepted_id_seq_ cm_timers set_flags startHeartbeat]; rewrite ?Ht; try done. lia.
Qed.
End steps.
