(* ===== verification/ManagerProps.v ===== *)
(** * ManagerProps: what the manager's links can be relied on for *)
From S2P Require Import Prelude Proto OMap Segment Pack ZdsInstance Channel Selector Links.
From S2P Require Import DataStream.
From S2P Require Import Testbed StreamFacts Framing NetInv Manager ManagerWf.

(** ** A heartbeat *)
Section beat.
Context {T : Transport} {host : Host} {sort : StdSort}.
Context (Hmb : forall len, mb_acquire len = true).
Context (cfg : FgwConfig) (clock : Z -> Z) (fr : bytes) (Hfr : heartbeat_frame (cfg_ingress_id cfg) = Some fr).
Context (Hlen : 0 < zlen fr).

(** What a heartbeat puts on the wire for one channel. *)
Definition beat_wire (l : Links) (a : Z) : list (Z * bytes) :=
  if connected_ (chan l a) then match tcp_ptr_ (chan l a) with Some p => [(p, fr)] | None => [] end else [].
(** What it makes of the channel. *)
Definition beaten (a : Z) (c c' : IFgwChannel) : Prop :=
  channel_id_ c' = channel_id_ c /\ connected_ c' = connected_ c /\
  if connected_ c
  then stalled_ c' = fgwLinkStalled (u32 (clock a)) (lastRxTick c) (link_timeout_ms cfg)
  else c' = c.

Lemma beat_one_spec l a c : heap_ l !! a = Some c -> chan_ok c -> let l' := beat_one cfg clock l a in
  channels_ l' = channels_ l /\ wire_ l' = wire_ l ++ beat_wire l a /\
  (exists c', heap_ l' !! a = Some c' /\ beaten a c c') /\ (forall b, b <> a -> heap_ l' !! b = heap_ l !! b).
Proof.
  intros Hc [Hok Hk]. assert (Hch : chan l a = c) by (unfold chan; by rewrite Hc).
  unfold beat_one, beat_wire, beaten. rewrite Hch. destruct (connected_ c) eqn:Hcon; simpl.
  2: { rewrite app_nil_r. split_and!; try done. by exists c. }
  unfold sendHeartbeat, send_on. rewrite Hfr, Hch. unfold sendBytes, is_tcp. rewrite Hk by (by apply Hok).
  cbn [Z.eqb ZFGW_CHANNEL_TCP]. unfold tcp_sendBytes. rewrite Hcon.
  destruct (tcp_ptr_ c) as [p|] eqn:Hp; [|by destruct Hok]. cbn [negb].
  destruct (Z.eqb_spec (zlen fr) 0); [lia|]. rewrite Hmb. cbn [negb snd].
  set (c1 := if 0 <=? _ then _ else _). assert (H1 : channel_id_ c1 = channel_id_ c /\ connected_ c1 = connected_ c /\ lastRxTick c1 = lastRxTick c)
    by (unfold c1; by destruct (0 <=? _)). destruct H1 as (Hi1 & Hc1 & Hl1).
  cbn [heap_ channels_ wire_ upd_chan set_heap set_wire]. split_and!; try done.
  - exists (evaluateStall (clock a) (link_timeout_ms cfg) c1). rewrite !lookup_alter_eq, Hc. cbn [fmap option_fmap option_map].
    split; [done|]. cbn. rewrite Hi1, Hc1, Hcon. split_and!; try done. by rewrite <- Hl1.
  - intros b Hb. by rewrite !lookup_alter_ne.
Qed.

Lemma beat_fold as_ : forall l, NoDup as_ -> (forall a, a ∈ as_ -> exists c, heap_ l !! a = Some c /\ chan_ok c) ->
  let l' := fold_left (beat_one cfg clock) as_ l in
  channels_ l' = channels_ l /\ wire_ l' = wire_ l ++ concat (map (beat_wire l) as_) /\
  (forall a c, a ∈ as_ -> heap_ l !! a = Some c -> exists c', heap_ l' !! a = Some c' /\ beaten a c c') /\
  (forall b, b ∉ as_ -> heap_ l' !! b = heap_ l !! b).
Proof.
  induction as_ as [|a as_ IH]; intros l Hnd Hin.
  - cbn. rewrite app_nil_r. split_and!; try done. intros a c Ha. by apply elem_of_nil in Ha.
  - apply NoDup_cons in Hnd as [Hni Hnd]. destruct (Hin a) as (c & Hc & Hok); [by left|].
    destruct (beat_one_spec l a c Hc Hok) as (Hch & Hw & (c' & Hc' & Hb) & Hoth). cbn [fold_left].
    set (l1 := beat_one cfg clock l a) in *.
    assert (Hsame : forall b, b ∈ as_ -> heap_ l1 !! b = heap_ l !! b) by (intros b Hb'; apply Hoth; by intros ->).
    destruct (IH l1 Hnd) as (Hch2 & Hw2 & Hc2 & Hrest).
    { intros b Hb'. rewrite Hsame by done. apply Hin. by right. }
    split_and!; [congruence| | |].
    + rewrite Hw2, Hw, <- app_assoc. f_equal. cbn [map concat]. f_equal. f_equal. apply map_ext_in.
      intros b Hb'%list_elem_of_In. unfold beat_wire, chan. by rewrite Hsame.
    + intros b d [->|Hb']%elem_of_cons Hd.
      * rewrite Hc in Hd. injection Hd as <-. exists c'. by rewrite Hrest.
      * apply Hc2; [done|]. by rewrite Hsame.
    + intros b [Hne Hnb]%not_elem_of_cons. rewrite Hrest by done. by apply Hoth.
Qed.
End beat.

(** The frame of a heartbeat: a header and no payload. *)
Definition heartbeat_hdr (ingress : Z) : FgwSegmentHeader := mkHdr MAGIC FLAG_HEARTBEAT 0 0 0 ingress 0 0.
Lemma heartbeat_frame_eq ingress : heartbeat_frame ingress = Some (frame (heartbeat_hdr ingress) []).
Proof.
  unfold heartbeat_frame. fold (heartbeat_hdr ingress). set (o := repeat 0 64).
  pose proof (encode_frame (heartbeat_hdr ingress) [] o 64) as He.
  change (fgwSegmentEncode (Some o) 64 (heartbeat_hdr ingress) None 0)
    with (fgwSegmentEncode (Some o) 64 (heartbeat_hdr ingress) (Some []) (zlen (@nil Z))).
  rewrite He by (try done; unfold hdr_sz; destruct (isHdrRoute _); done).
  pose proof (zlen_nonneg (frame (heartbeat_hdr ingress) [])). destruct (Z.ltb_spec (zlen (frame (heartbeat_hdr ingress) [])) 0); [lia|].
  by f_equal.
Qed.
Lemma heartbeat_frame_len ingress : zlen (frame (heartbeat_hdr ingress) []) = 20.
Proof. by rewrite frame_len. Qed.

(** ** The addresses of a well-formed map *)
Lemma map_addresses l : map_ok l -> NoDup (map snd (channels_ l)).
Proof.
  intros Hw. apply NoDup_ListNoDup, NoDup_map_inj.
  - eapply NoDup_map_inv. by apply om_NoDup, (mo_sorted _ Hw).
  - intros [i a] [j b] Hi Hj Heq. cbn in Heq. subst b.
    apply om_find_ok_In in Hi, Hj; try apply (mo_sorted _ Hw). f_equal. by eapply map_inj.
Qed.
Lemma map_address_in l a : map_ok l -> a ∈ map snd (channels_ l) <-> is_Some (heap_ l !! a).
Proof.
  intros Hw. rewrite list_elem_of_In, in_map_iff. split.
  - intros ([id b] & [= <-] & Hin). apply om_find_ok_In in Hin; [|apply (mo_sorted _ Hw)].
    destruct (mo_ids _ Hw _ _ Hin) as (c & -> & _). by eexists.
  - intros [c Hc]. destruct (mo_heap _ Hw _ _ Hc) as [Hf _]. exists (channel_id_ c, a). split; [done|]. by apply om_find_In.
Qed.
Lemma map_chan_ok l a c : map_ok l -> heap_ l !! a = Some c -> chan_ok c.
Proof. intros Hw Hc. by apply (mo_heap _ Hw a). Qed.

(** ** Adding and removing *)
Lemma remove_gone id l : om_mem id (channels_ (snd (removeChannel id l))) = false.
Proof.
  unfold om_mem. unfold removeChannel, findChannel. destruct (om_find id (channels_ l)) as [b|] eqn:Hb; cbn [snd].
  - unfold free_chan. cbn [channels_ set_channels]. by rewrite om_find_erase_eq.
  - by rewrite Hb.
Qed.
Section channels.
Context {T : Transport} {host : Host}.

(** A new channel: its socket object and what the dial returned. *)
Definition dialed (fresh : Z) (c : FgwChannelConfig) : IFgwChannel * Z :=
  connect fresh (cc_remote c) (new_channel (cc_kind c) (cc_channel_id c) (cc_priority c)).
Lemma add_new c m l : om_mem (cc_channel_id c) (channels_ l) = false ->
  cc_kind c = ZFGW_CHANNEL_TCP \/ cc_kind c = ZFGW_CHANNEL_UTP ->
  exists m', addChannel c (m, l) =
    (snd (dialed (cm_next_socket m) c),
     (m', add_chan (cc_channel_id c) (alloc (heap_ l)) (fst (dialed (cm_next_socket m) c)) l)) /\
    cm_timers m' = cm_timers m /\ cm_next_socket m' = cm_next_socket m + 1.
Proof.
  intros Hm Hk. unfold addChannel. rewrite Hm.
  replace (negb _) with false by (destruct Hk as [E|E]; by rewrite E).
  set (m1 := if _ =? _ then m else _). assert (H1 : cm_timers m1 = cm_timers m /\ cm_next_socket m1 = cm_next_socket m)
    by (unfold m1, sharedUtpContext; by destruct (cc_kind c =? ZFGW_CHANNEL_TCP), (shared_utp_ m)).
  destruct H1 as [H1 H2]. unfold connect_at. rewrite H2.
  assert (Hch : forall c0, chan (add_chan (cc_channel_id c) (alloc (heap_ l)) c0 l) (alloc (heap_ l)) = c0)
    by (intros c0; unfold chan; simpl; by rewrite lookup_insert_eq).
  rewrite Hch. fold (dialed (cm_next_socket m) c). destruct (dialed (cm_next_socket m) c) as [c1 ret].
  exists (bump_socket m1). split_and!; [|done | by simpl; rewrite H2]. cbn [fst snd]. do 2 f_equal.
  unfold upd_chan, add_chan, set_heap, set_channels. cbn [heap_ channels_ selector_ wire_]. f_equal.
  by rewrite alter_insert_eq.
Qed.

Lemma remove_added id a c l : om_ok (channels_ l) -> om_mem id (channels_ l) = false -> heap_ l !! a = None ->
  removeChannel id (add_chan id a c l) = (0, l).
Proof.
  intros Hok Hm Ha. unfold removeChannel, findChannel. cbn [channels_ add_chan set_channels set_heap].
  rewrite om_find_insert_eq. f_equal. destruct l as [h cs s w]. unfold free_chan, upd_chan, add_chan, set_channels, set_heap.
  cbn [heap_ channels_ selector_ wire_] in *. f_equal.
  - by rewrite alter_insert_eq, delete_insert_id.
  - apply om_ext; [by apply om_ok_erase, om_ok_insert | done|]. intros k. destruct (decide (k = id)) as [->|Hne].
    + rewrite om_find_erase_eq. unfold om_mem in Hm. by destruct (om_find id cs).
    + by rewrite om_find_erase_ne, om_find_insert_ne.
Qed.
End channels.

(** The period of the heartbeat does not overflow. *)
Lemma heartbeat_period_bounds cfg : 0 <= cfg_heartbeat_interval cfg < 2 ^ 16 -> 1000 <= heartbeat_period cfg <= 65535000.
Proof.
  intros Hi. unfold heartbeat_period. destruct (Z.ltb_spec 0 (cfg_heartbeat_interval cfg));
    rewrite !i32_small; rewrite ?i32_small; lia.
Qed.

(** ** A machine whose manager has started *)
Section booted.
Context {H : Type} {app : SessionHandler H} {rt : ZdsRuntime} {T : Transport} {sort : StdSort} {host : Host}.
Implicit Types (x : machine_net H).

Definition booted (cfg : FgwConfig) (ds : DataStream) (h : H) : machine_net H :=
  let '(m, l) := start cfg (new_manager, no_net (mkSelector 0 0 0)) in
  mkNet (addBytesSubscriber the_stream m) (mkWorld ds l h []).

Lemma nkept_booted cfg ds h : cfg_links_ok cfg -> nkept cfg 0 (booted cfg ds h).
Proof.
  intros Hcfg. unfold booted, nkept. pose proof (kept_start cfg Hcfg (mkSelector 0 0 0)) as Hk.
  destruct (start cfg _) as [m l]. destruct Hk as [H1 H2 H3 H4 H5 H6].
  constructor; cbn [mn_mgr mn_world w_net fst snd] in *; try done; unfold addBytesSubscriber; by case_decide.
Qed.

(** A reachable state. *)
Definition reached (cfg : FgwConfig) (ss : list net_step) : Prop :=
  cfg_links_ok cfg /\ Forall (step_kept cfg) ss /\ accepts ss + 1 < 2 ^ 31.
Lemma reached_kept cfg ss ds h : reached cfg ss -> nkept cfg (accepts ss) (net_run ss (booted cfg ds h)).
Proof. intros (Hc & Hs & Ha). apply (nkept_run cfg Hc ss 0); [by apply nkept_booted | lia | done]. Qed.

(** Only a stop ends the heartbeat. *)
Lemma on_links_timer f x : (forall ml, heartbeat_timer_ (fst (f ml)) = heartbeat_timer_ (fst ml)) ->
  heartbeat_timer_ (mn_mgr (on_links f x)) = heartbeat_timer_ (mn_mgr x).
Proof. intros Hf. unfold on_links. specialize (Hf (mn_mgr x, w_net (mn_world x))). by destruct (f _). Qed.
Lemma timer_add c ml : heartbeat_timer_ (fst (snd (addChannel c ml))) = heartbeat_timer_ (fst ml).
Proof.
  destruct ml as [m l]. unfold addChannel, connect_at, sharedUtpContext.
  repeat case_match; simplify_eq; done.
Qed.
Lemma timer_fire i ml : heartbeat_timer_ (fst (fire i ml)) = heartbeat_timer_ (fst ml).
Proof.
  destruct ml as [m l]. unfold fire. destruct (cm_timers m !! i) as [[ms [id|c]]|]; [done | | done].
  unfold run_job. by rewrite timer_add.
Qed.
Lemma timer_do s x : heartbeat_timer_ (mn_mgr (net_do s x)) = heartbeat_timer_ (mn_mgr x).
Proof.
  destruct s as [a now|a now buf|a|clock|i| |c|id]; cbn [net_do].
  - unfold tcp_on_open. destruct (owned a x); [|done]. destruct (markConnected _ _ _) as [c code].
    rewrite !on_links_timer; [done | |]; intros [m l]; [done|]. unfold onChannelConnected. by destruct (0 <=? code).
  - unfold tcp_on_read_data. destruct (owned a x); [|done]. unfold dispatchChannelBytes. cbn [mn_mgr].
    rewrite on_links_timer; [done|]. by intros [m l].
  - unfold tcp_on_close. destruct (owned a x); [|done]. rewrite !on_links_timer; [done | |]; intros [m l]; [done|].
    unfold onChannelClosed. by destruct (accepted_ _).
  - destruct (heartbeat_timer_ (mn_mgr x)) eqn:Ht; [|done]. unfold onHeartbeatTick. cbn [mn_mgr].
    rewrite on_links_timer; [done|]. by intros [m l].
  - apply on_links_timer, timer_fire.
  - destruct (link_acceptor_ _); [|done]. apply on_links_timer. by intros [m l].
  - apply on_links_timer. intros ml. apply timer_add.
  - apply on_links_timer. by intros [m l].
Qed.
Lemma timer_booted cfg ss ds h : heartbeat_timer_ (mn_mgr (net_run ss (booted cfg ds h))) = true.
Proof.
  assert (Hr : forall x, heartbeat_timer_ (mn_mgr (net_run ss x)) = heartbeat_timer_ (mn_mgr x)).
  { induction ss as [|s ss IH]; intros x; [done|]. unfold net_run in *. cbn [fold_left]. by rewrite IH, timer_do. }
  rewrite Hr. unfold booted, start. destruct (fold_left _ _ _) as [m l]. cbn. unfold addBytesSubscriber. by case_decide.
Qed.
End booted.

(** ** What a stream leaves of the links *)

(** The flags the heartbeat sets stay as they are; the wire grows. *)
Definition same_flags (l l' : Links) : Prop :=
  channels_ l' = channels_ l /\ (exists k, wire_ l' = wire_ l ++ k) /\
  forall a, (fun c => (channel_id_ c, connected_ c, stalled_ c)) <$> heap_ l' !! a =
    (fun c => (channel_id_ c, connected_ c, stalled_ c)) <$> heap_ l !! a.
Lemma same_flags_refl l : same_flags l l.
Proof. split; [done|]. split; [|done]. exists []. by rewrite app_nil_r. Qed.
Lemma flags_invariant {T : Transport} l : net_invariant (same_flags l).
Proof.
  assert (Hupd : forall a f l', same_flags l l' ->
    (forall c, heap_ l' !! a = Some c -> (channel_id_ (f c), connected_ (f c), stalled_ (f c)) = (channel_id_ c, connected_ c, stalled_ c)) ->
    same_flags l (upd_chan a f l')).
  { intros a f l' (H1 & H2 & H3) Hf. split_and!; [done..|]. intros b. rewrite <- H3. simpl.
    destruct (decide (b = a)) as [->|]; [|by rewrite lookup_alter_ne]. rewrite lookup_alter_eq.
    destruct (heap_ l' !! a) as [c|]; [|done]. simpl. by rewrite Hf. }
  constructor.
  - by intros s l' (H1 & H2 & H3).
  - intros a b l' Hl. unfold send_on. destruct (sendBytes b (wire_ l') (chan l' a)) as [[ret c] wr] eqn:Hs. cbn [snd].
    destruct (sendBytes_frame _ _ _ _ _ _ Hs) as (Hid & _ & _ & _ & (k & Hk & _)).
    destruct (Hupd a (fun _ => c) l' Hl) as (H1 & (k0 & H2) & H3).
    + intros c0 Hc0. assert (Heq : chan l' a = c0) by (unfold chan; by rewrite Hc0). rewrite Heq in Hs.
      unfold sendBytes, tcp_sendBytes, utp_sendBytes in Hs. repeat case_match; by simplify_eq.
    + split_and!; [done | | done]. cbn in H2. exists (k0 ++ k). cbn. by rewrite Hk, H2, app_assoc.
  - intros a l' Hl. by apply Hupd.
  - intros a pc pi po l' Hl. by apply Hupd.
Qed.
Lemma feedback_flags {H : Type} {app : SessionHandler H} {rt : ZdsRuntime} {T : Transport} {sort : StdSort}
    (subs : list Z) (w : world H) : same_flags (w_net w)
  (w_net (fold_left (fun (w : world H) ds => if ds =? the_stream then emitFeedback w else w) subs w)).
Proof.
  assert (Hgo : forall w' : world H, same_flags (w_net w) (w_net w') -> same_flags (w_net w)
    (w_net (fold_left (fun (w : world H) ds => if ds =? the_stream then emitFeedback w else w) subs w'))).
  { induction subs as [|d subs IH]; intros w' Hl; [done|]. cbn [fold_left]. apply IH.
    destruct (d =? the_stream); [by apply (ni_emitFeedback (flags_invariant (w_net w))) | done]. }
  apply Hgo, same_flags_refl.
Qed.

(** ** A concrete machine *)
Definition test_alloc (h : gmap Z IFgwChannel) : Z := 1 + foldr Z.max 0 (map fst (map_to_list h)).
Lemma max_bound (l : list Z) k : In k l -> k <= foldr Z.max 0 l.
Proof. induction l as [|x l IH]; simpl; [done|]. intros [->|Hk]; [lia|]. specialize (IH Hk). lia. Qed.
Lemma test_alloc_free h : h !! test_alloc h = None.
Proof.
  destruct (h !! test_alloc h) as [c|] eqn:Hc; [|done]. apply elem_of_map_to_list, list_elem_of_In, (in_map fst), max_bound in Hc.
  cbn [fst] in Hc. unfold test_alloc in Hc. lia.
Qed.
Definition test_host : Host := {|
  alloc := test_alloc; alloc_free := test_alloc_free; generation := 4711;
  generation_range := conj eq_refl eq_refl; udp_listen := 0 |}.
#[local] Existing Instances test_host listener.
Definition test_remote : FgwEndpoint := mkFgwEndpoint [49; 48] 7000.
Definition test_config : FgwConfig := mkFgwConfig 0 0 1080 [] 0
  [mkFgwChannelConfig 1 ZFGW_CHANNEL_TCP test_remote 10; mkFgwChannelConfig 2 ZFGW_CHANNEL_TCP test_remote 20]
  1200 1024 5 15 60 2 1 0 0.
Definition test_events : list net_step :=
  [NetOpen 1 5; NetClose 1; NetTimer 0; NetAdd (mkFgwChannelConfig 9 ZFGW_CHANNEL_TCP test_remote 1); NetTick (fun _ => 100)].
Lemma test_reached : reached test_config test_events.
Proof. split_and!; [by repeat constructor; vm_compute; auto | by repeat constructor | done]. Qed.

(** ** Properties *)

(** C17. No link of the configuration is ever lost.  Whatever connects, arrives, closes,
    expires or is asked of the manager, as long as nobody removes a configured channel:
    each configured channel has an object under its id, which is not an accepted one;
    each channel object is in the map under its own id, and has a socket when it is
    connected; and each pending redial is the one the configuration describes. *)
Theorem configured_links_persist {H : Type} {app : SessionHandler H} {rt : ZdsRuntime} {T : Transport}
    {sort : StdSort} {host : Host} (cfg : FgwConfig) (ss : list net_step) (Hr : reached cfg ss)
    (ds : DataStream) (h : H) (x := net_run ss (booted cfg ds h)) (l := w_net (mn_world x)) :
  (forall c, In c (cfg_channels cfg) -> exists a ch, findChannel (cc_channel_id c) l = Some a /\
     heap_ l !! a = Some ch /\ channel_id_ ch = cc_channel_id c /\ accepted_ ch = false) /\
  (forall a ch, heap_ l !! a = Some ch -> findChannel (channel_id_ ch) l = Some a /\
     (connected_ ch = true -> tcp_ptr_ ch <> None)) /\
  (forall ms c, In (ms, JobReconnect c) (cm_timers (mn_mgr x)) -> c = redial_config (cc_channel_id c) cfg).
Proof.
  pose proof (reached_kept cfg ss ds h Hr) as [_ _ Hj Hm Hh Hl]. fold x in Hj, Hm, Hh, Hl. cbn [fst snd] in *. fold l in Hm, Hh, Hl.
  destruct Hr as (Hcfg & _ & _). split_and!.
  - intros c Hc. specialize (Hl c Hc). unfold om_mem in Hl. unfold findChannel.
    destruct (om_find (cc_channel_id c) (channels_ l)) as [a|] eqn:Ha; [|done].
    destruct (mo_ids _ Hm _ _ Ha) as (ch & Hch & Hid). exists a, ch. split_and!; try done.
    destruct (accepted_ ch) eqn:Hacc; [|done]. pose proof (Hh a ch Hch Hacc). pose proof (low_id cfg Hcfg c Hc). lia.
  - intros a ch Hch. destruct (mo_heap _ Hm a ch Hch) as [Hf [Hok _]]. done.
  - intros ms c Hin. exact (Hj ms _ Hin).
Qed.

(** Two links dialed, one of them connected, an accepted one, the first lost and dialed
    again. *)
Lemma configured_links_persist_witness : exists x : machine_net unit,
  x = net_run test_events (booted test_config (new_stream 7 4 0 true 0) tt) /\
  length (channels_ (w_net (mn_world x))) = 3%nat /\
  exists a ch, findChannel 1 (w_net (mn_world x)) = Some a /\ heap_ (w_net (mn_world x)) !! a = Some ch.
Proof.
  eexists. split; [reflexivity|]. split; [by vm_compute|].
  destruct (configured_links_persist (app := listener) test_config test_events test_reached (new_stream 7 4 0 true 0) tt)
    as (H1 & _). destruct (H1 (mkFgwChannelConfig 1 ZFGW_CHANNEL_TCP test_remote 10)) as (a & ch & Ha & Hc & _);
    [left; reflexivity | exact (ex_intro _ a (ex_intro _ ch (conj Ha Hc)))].
Defined.

(** C34. What adding a channel does, in every case.  An id already there and an unknown
    kind are refused and change nothing.  A TCP channel is registered, with a socket of
    its own and not yet connected, and the dial's return code is passed on; a UTP channel
    is registered and refused, in the build without libutp.  In both cases a failed dial
    leaves the channel registered and schedules no retry; and removing the channel again
    gives back exactly the links there were before. *)
Theorem add_channel_contract {T : Transport} {host : Host} (c : FgwChannelConfig) (m : ChannelManager)
    (l : Links) (Hl : map_ok l) (id := cc_channel_id c) :
  (om_mem id (channels_ l) = true -> addChannel c (m, l) = (err ZFGW_ERRCODE_CHANNELEXISTS, (m, l))) /\
  (om_mem id (channels_ l) = false -> cc_kind c <> ZFGW_CHANNEL_TCP -> cc_kind c <> ZFGW_CHANNEL_UTP ->
     addChannel c (m, l) = (err ZFGW_ERRCODE_INVALIDCONFIG, (m, l))) /\
  (om_mem id (channels_ l) = false -> cc_kind c = ZFGW_CHANNEL_TCP \/ cc_kind c = ZFGW_CHANNEL_UTP ->
     exists ret m' l' a ch, addChannel c (m, l) = (ret, (m', l')) /\
       ret = (if cc_kind c =? ZFGW_CHANNEL_TCP then start_connect (cc_remote c) else err ZFGW_ERRCODE_INVALIDCONFIG) /\
       cm_timers m' = cm_timers m /\
       findChannel id l' = Some a /\ heap_ l !! a = None /\ heap_ l' = <[a := ch]> (heap_ l) /\
       channel_id_ ch = id /\ kind_ ch = cc_kind c /\ priority_ ch = cc_priority c /\ remote_ ch = cc_remote c /\
       connected_ ch = false /\
       tcp_ptr_ ch = (if cc_kind c =? ZFGW_CHANNEL_TCP then Some (cm_next_socket m) else None) /\
       (forall id', id' <> id -> findChannel id' l' = findChannel id' l) /\
       removeChannel id l' = (0, l)).
Proof.
  unfold id. split; [|split].
  - intros Hm. unfold addChannel. by rewrite Hm.
  - intros Hm H1%Z.eqb_neq H2%Z.eqb_neq. unfold addChannel. by rewrite Hm, H1, H2.
  - intros Hm Hk. destruct (add_new c m l Hm Hk) as (m' & Hadd & Ht & _).
    pose proof (alloc_free (heap_ l)) as Ha. rewrite Hadd. do 5 eexists. split; [reflexivity|].
    split_and!; try done.
    + unfold dialed, connect, is_tcp. destruct Hk as [E|E]; by rewrite E.
    + unfold findChannel. cbn. by rewrite om_find_insert_eq.
    + unfold dialed, connect, is_tcp. destruct Hk as [E|E]; by rewrite E.
    + unfold dialed, connect, is_tcp. destruct Hk as [E|E]; by rewrite E.
    + unfold dialed, connect, is_tcp. destruct Hk as [E|E]; by rewrite E.
    + unfold dialed, connect, is_tcp. destruct Hk as [E|E]; by rewrite E.
    + unfold dialed, connect, is_tcp. destruct Hk as [E|E]; by rewrite E.
    + unfold dialed, connect, is_tcp. destruct Hk as [E|E]; by rewrite E.
    + intros id' Hne. unfold findChannel. cbn. by rewrite om_find_insert_ne.
    + by apply remove_added; [apply (mo_sorted _ Hl) | |].
Qed.

Lemma add_channel_contract_witness :
  removeChannel 5 (snd (snd (addChannel (mkFgwChannelConfig 5 ZFGW_CHANNEL_TCP test_remote 1) (new_manager, no_net (mkSelector 0 0 0)))))
  = (0, no_net (mkSelector 0 0 0)).
Proof.
  destruct (add_channel_contract (mkFgwChannelConfig 5 ZFGW_CHANNEL_TCP test_remote 1) new_manager (no_net (mkSelector 0 0 0)))
    as (_ & _ & H).
  - constructor; simpl; [apply om_ok_nil | done | done].
  - destruct (H eq_refl (or_introl eq_refl)) as (ret & m' & l' & a & ch & -> & _ & _ & _ & _ & _ & _ & _ & _ & _ & _ & _ & _ & Hr).
    exact Hr.
Defined.

(** C33. A link that drops is dialed again where the configuration says.  When a dialed
    link closes, one timer is added, of the configured delay, and the channel stays,
    disconnected.  Whenever that timer fires, whatever happened in between, the channel's
    old object is replaced by a new one that dials, on a fresh socket, the endpoint the
    configuration gives the id, even if the channel has been removed in between; an id
    that is not in the configuration the manager was
    started with, as of a channel added later, dials the empty endpoint. *)
Theorem lost_link_redialed {H : Type} {app : SessionHandler H} {rt : ZdsRuntime} {T : Transport}
    {sort : StdSort} {host : Host} (cfg : FgwConfig) (ss : list net_step) (Hr : reached cfg ss)
    (ds : DataStream) (h : H) (x := net_run ss (booted cfg ds h))
    (a : Z) (ch : IFgwChannel) (Hch : heap_ (w_net (mn_world x)) !! a = Some ch)
    (Hsock : tcp_ptr_ ch <> None) (Hdial : accepted_ ch = false)
    (x1 := net_do (NetClose a) x) (rc := redial_config (channel_id_ ch) cfg) :
  cm_timers (mn_mgr x1) = cm_timers (mn_mgr x) ++ [(reconnect_ms cfg, JobReconnect rc)] /\
  findChannel (channel_id_ ch) (w_net (mn_world x1)) = Some a /\
  heap_ (w_net (mn_world x1)) !! a = Some (markClosed ch) /\
  (forall c, find_config (channel_id_ ch) cfg = Some c -> rc = c) /\
  (find_config (channel_id_ ch) cfg = None -> cc_remote rc = FgwEndpoint_empty) /\
  (forall ss' (y := net_run ss' x1) i ms, cm_timers (mn_mgr y) !! i = Some (ms, JobReconnect rc) ->
     let z := net_do (NetTimer i) y in
     exists b c', findChannel (channel_id_ ch) (w_net (mn_world z)) = Some b /\
       heap_ (w_net (mn_world z)) !! b = Some c' /\ remote_ c' = cc_remote rc /\ kind_ c' = cc_kind rc /\
       connected_ c' = false /\
       tcp_ptr_ c' = if cc_kind rc =? ZFGW_CHANNEL_TCP then Some (cm_next_socket (mn_mgr y)) else None).
Proof.
  pose proof (reached_kept cfg ss ds h Hr) as [Hc _ _ Hm _ _]. fold x in Hc, Hm. cbn [fst snd] in *.
  destruct Hr as (Hcfg & _ & _). destruct (redial_kind cfg Hcfg (channel_id_ ch)) as [Hid Hk]. fold rc in Hid, Hk.
  assert (Hown : owned a x = true) by (unfold owned; rewrite Hch; by destruct (tcp_ptr_ ch)).
  assert (Hx1 : x1 = mkNet (schedule (reconnect_ms cfg) (JobReconnect rc) (mn_mgr x))
      (on_net (fun _ => upd_chan a markClosed (w_net (mn_world x))) (mn_world x))).
  { unfold x1. cbn [net_do]. unfold tcp_on_close. rewrite Hown. unfold on_links, onChannelClosed. cbn [mn_mgr mn_world w_net on_net].
    rewrite (chan_upd_eq _ _ _ _ Hch). change (accepted_ (markClosed ch)) with (accepted_ ch). rewrite Hdial, Hc. done. }
  split_and!.
  - by rewrite Hx1.
  - rewrite Hx1. by destruct (mo_heap _ Hm a ch Hch).
  - rewrite Hx1. cbn. by rewrite lookup_alter_eq, Hch.
  - intros c Hf. unfold rc, redial_config. rewrite Hf. apply List.find_some in Hf as [_ Hf%Z.eqb_eq]. rewrite <- Hf. by destruct c.
  - intros Hf. unfold rc, redial_config. by rewrite Hf.
  - intros ss' i ms. set (y := net_run ss' x1). intros Hi. cbn zeta. cbn [net_do]. unfold on_links, fire. rewrite Hi. cbn [run_job].
    set (m1 := set_timers _ _). set (l1 := snd (removeChannel _ _)).
    assert (Hmem : om_mem (cc_channel_id rc) (channels_ l1) = false).
    { apply remove_gone. }
    destruct (add_new rc m1 l1 Hmem Hk) as (m' & Hadd & _ & _). rewrite Hadd. cbn [snd mn_world w_net on_net].
    rewrite <- Hid. exists (alloc (heap_ l1)), (fst (dialed (cm_next_socket m1) rc)).
    split_and!; cbn; [unfold findChannel; cbn; by rewrite om_find_insert_eq | by rewrite lookup_insert_eq | ..];
      unfold dialed, connect, is_tcp; destruct Hk as [E|E]; by rewrite E.
Qed.

Lemma lost_link_redialed_witness :
  let x := net_run [NetOpen 1 5] (booted test_config (new_stream 7 4 0 true 0) tt) in
  cm_timers (mn_mgr (net_do (NetClose 1) x)) =
    [(60000, JobReconnect (mkFgwChannelConfig 1 ZFGW_CHANNEL_TCP test_remote 10))].
Proof.
  intros x. set (c1 := chan (w_net (mn_world x)) 1).
  destruct (lost_link_redialed (app := listener) test_config [NetOpen 1 5]) with
    (ds := new_stream 7 4 0 true 0) (h := tt) (a := 1) (ch := c1) as (H1 & _ & _ & H2 & _).
  - split_and!; [apply test_reached | by repeat constructor | done].
  - by vm_compute.
  - by vm_compute.
  - by vm_compute.
  - rewrite <- (H2 (mkFgwChannelConfig 1 ZFGW_CHANNEL_TCP test_remote 10)) by (by vm_compute). exact H1.
Defined.

(** C32. The heartbeat watches every link.  In a reachable state, with a buffer pool that
    serves, a tick of the heartbeat writes one frame on the socket of each connected
    channel, in the order of the ids, and then whatever the stream reports to its peer;
    it marks each connected channel stalled exactly when it has been silent for longer
    than the configured timeout, and touches neither the connection state of a link nor
    a link that is down. *)
Theorem heartbeat_watches_links {H : Type} {app : SessionHandler H} {rt : ZdsRuntime} {T : Transport}
    {sort : StdSort} {host : Host} (Hpool : forall len, mb_acquire len = true)
    (cfg : FgwConfig) (ss : list net_step) (Hr : reached cfg ss) (ds : DataStream) (h : H)
    (clock : Z -> Z) (x := net_run ss (booted cfg ds h)) (l := w_net (mn_world x))
    (l' := w_net (mn_world (net_do (NetTick clock) x))) :
  channels_ l' = channels_ l /\
  (exists feedback, wire_ l' = wire_ l ++
     concat (map (beat_wire (frame (heartbeat_hdr (cfg_ingress_id cfg)) []) l) (map snd (channels_ l))) ++ feedback) /\
  (forall a c, heap_ l !! a = Some c -> exists c', heap_ l' !! a = Some c' /\ channel_id_ c' = channel_id_ c /\
     connected_ c' = connected_ c /\
     stalled_ c' = if connected_ c then fgwLinkStalled (u32 (clock a)) (lastRxTick c) (link_timeout_ms cfg)
                   else stalled_ c).
Proof.
  pose proof (reached_kept cfg ss ds h Hr) as [Hc _ _ Hm _ _]. fold x in Hc, Hm. cbn [fst snd] in *. fold l in Hm.
  set (fr := frame (heartbeat_hdr (cfg_ingress_id cfg)) []).
  assert (Hl' : same_flags (beat_all cfg clock l) l').
  { unfold l'. cbn [net_do]. unfold x at 1. rewrite timer_booted. fold x. unfold onHeartbeatTick, on_links.
    cbn [mn_mgr mn_world]. rewrite Hc. fold l.
    apply (feedback_flags (bytes_subscribers_ (mn_mgr x)) (on_net (fun _ => beat_all cfg clock l) (mn_world x))). }
  destruct (beat_fold Hpool cfg clock fr (heartbeat_frame_eq _) ltac:(unfold fr; by rewrite heartbeat_frame_len)
    (map snd (channels_ l)) l (map_addresses l Hm)) as (H1 & H2 & H3 & _).
  { intros a [c Hac]%(map_address_in l a Hm). exists c. split; [done | by eapply map_chan_ok]. }
  fold (beat_all cfg clock l) in H1, H2, H3. destruct Hl' as (E1 & (k & E2) & E3). split_and!.
  - congruence.
  - exists k. by rewrite E2, H2, app_assoc.
  - intros a c Hac. destruct (H3 a c) as (c1 & Hc1 & Hid & Hcon & Hst); [apply (map_address_in l a Hm); by eexists | done |].
    specialize (E3 a). rewrite Hc1 in E3. destruct (heap_ l' !! a) as [c2|]; [|done]. injection E3 as E4 E5 E6.
    exists c2. rewrite E4, E5, E6. split_and!; [done..|]. destruct (connected_ c); [done | by rewrite Hst].
Qed.

Lemma heartbeat_watches_links_witness :
  let x := net_run [NetOpen 1 5] (booted test_config (new_stream 7 4 0 true 0) tt) in
  let x' := net_do (NetTick (fun _ => 15006)) x in
  isLive (chan (w_net (mn_world x)) 1) = true /\ stalled_ (chan (w_net (mn_world x')) 1) = true.
Proof.
  intros x x'. split; [by vm_compute|].
  destruct (heartbeat_watches_links (app := listener) (T := test_transport) (fun _ => eq_refl) test_config [NetOpen 1 5]) with
    (ds := new_stream 7 4 0 true 0) (h := tt) (clock := fun _ : Z => 15006) as (_ & _ & H).
  - split_and!; [apply test_reached | by repeat constructor | done].
  - destruct (H 1 (chan (w_net (mn_world x)) 1)) as (c' & Hc' & _ & _ & Hs); [by vm_compute|].
    fold x x' in Hc'. unfold chan at 1. rewrite Hc'. change (stalled_ c' = true). rewrite Hs. by vm_compute.
Defined.
