(* ===== verification/Node.v ===== *)
(** * Node: a service on the links of its manager

    A machine's service and the manager of its links act on one world in turn.  What the
    manager does is a change of the links, on which it writes only frames of its own, and
    then perhaps an operation of the stream; so a run of both is a run of the stream. *)
From S2P Require Import Prelude Proto OMap Segment Pack Channel Selector Links DataStream.
From S2P Require Import StreamFacts Framing StreamWf Reassembly Completeness Sending EndToEnd.
From S2P Require Import Traffic.
From S2P Require Import NetInv Manager ManagerWf ManagerProps.

(** ** The manager writes frames of no session *)
Lemma map_sane l : map_ok l -> links_sane l.
Proof.
  intros Hm. split; [by apply map_ok_links|]. intros a c Hc Hl. destruct (mo_heap _ Hm a c Hc) as [_ [H1 H2]].
  unfold isLive in Hl. apply andb_true_iff in Hl as [Hl _]. specialize (H1 Hl). split; [|done].
  unfold is_tcp. rewrite (H2 H1). done.
Qed.
Lemma drift_same l l' : wire_ l' = wire_ l -> drift l l'.
Proof. intros Hw. exists []. rewrite app_nil_r. split; [done | constructor]. Qed.
Lemma drift_trans l l1 l2 : drift l l1 -> drift l1 l2 -> drift l l2.
Proof.
  intros (g & Hw & Hg) (g' & Hw' & Hg'). exists (g ++ g'). rewrite spoken_app, map_app. split.
  - by rewrite Hw', Hw, app_assoc.
  - by apply Forall_app.
Qed.
Definition link_seg (hp : segment) : Prop := seg_ok hp /\ forall k, ~ of_session k hp.

Section drift.
Context {rt : ZdsRuntime} {laws : ZdsLaws rt} {ex : ZdsExact rt} {T : Transport}.
Lemma drift_send a hp l : link_seg hp -> drift l (snd (send_on a (seg_frame hp) l)).
Proof.
  intros Hok. assert (Hone : forall p, drift l (set_wire (wire_ l ++ [(p, seg_frame hp)]) l)).
  { intros p. exists [(p, hp)]. split; [done|]. by constructor. }
  unfold send_on, sendBytes, tcp_sendBytes, utp_sendBytes.
  destruct (is_tcp _); [|by apply drift_same]. destruct (tcp_ptr_ _) as [p|]; [|by apply drift_same].
  destruct (negb (connected_ _)); [by apply drift_same|]. destruct (_ =? 0); [by apply drift_same|].
  destruct (negb (mb_acquire _)); [by apply drift_same|]. exact (Hone p).
Qed.
Lemma keepalive_seg ing : is_u32 ing -> link_seg (heartbeat_hdr ing, []).
Proof.
  intros Hi. split; [split; [by constructor | done]|]. intros k. unfold of_session, isHeartbeat. by intros (_ & Hb & _).
Qed.
Lemma drift_hello {host : Host} cfg a l : is_u32 (cfg_ingress_id cfg) -> drift l (sendHello cfg a l).
Proof.
  intros Hi. unfold sendHello. destruct (zds_pack_FgwHello _ _ _) as [plen payload] eqn:Hp.
  destruct (Z.ltb_spec plen 0) as [|Hpl]; [by apply drift_same|]. apply exact_hello in Hp; [|done]. subst plen. set (hdr := mkHdr _ _ _ _ _ _ _ _).
  destruct (Z.lt_ge_cases MAX_PAYLOAD (zlen payload)) as [Hbig|Hmax].
  { unfold fgwSegmentEncode. replace (MAX_PAYLOAD <? zlen payload) with true by lia. rewrite orb_true_r. by apply drift_same. }
  destruct (Z.lt_ge_cases 128 (hdr_sz hdr + zlen payload)) as [Hbig|Hfit].
  { unfold fgwSegmentEncode. replace ((zlen payload <? 0) || (MAX_PAYLOAD <? zlen payload)) with false by lia.
    change (if negb (Z.land (h_flags hdr) FLAG_HDR_ROUTE =? 0) then ROUTED_HEADER_SIZE else HEADER_SIZE) with (hdr_sz hdr).
    replace (128 <? hdr_sz hdr + zlen payload) with true by lia. by apply drift_same. }
  rewrite encode_frame by (done || lia). pose proof (zlen_nonneg (frame hdr payload)).
  destruct (Z.ltb_spec (zlen (frame hdr payload)) 0); [lia|]. cbn [default].
  replace (take _ _) with (seg_frame (hdr, payload)) by (symmetry; apply take_zlen_app).
  apply drift_send. split; [split; [by constructor | done]|]. intros k. unfold of_session, isHello. by intros (Hh & _).
Qed.
Lemma drift_beat cfg clock l : is_u32 (cfg_ingress_id cfg) -> drift l (beat_all cfg clock l).
Proof.
  intros Hi. unfold beat_all. generalize (map snd (channels_ l)) as as_. intros as_. revert l.
  induction as_ as [|a as_ IH]; intros l; [by apply drift_same|]. cbn [fold_left]. eapply drift_trans; [|apply IH].
  unfold beat_one. destruct (negb _); [by apply drift_same|]. unfold sendHeartbeat. rewrite heartbeat_frame_eq.
  change (frame (heartbeat_hdr (cfg_ingress_id cfg)) []) with (seg_frame (heartbeat_hdr (cfg_ingress_id cfg), [])).
  eapply drift_trans; [by apply (drift_send a), keepalive_seg | by apply drift_same].
Qed.
Lemma wire_add {host : Host} c m l : wire_ (snd (snd (addChannel c (m, l)))) = wire_ l.
Proof.
  unfold addChannel, connect_at. destruct (om_mem _ _); [done|]. destruct (negb _); [done|]. by destruct (connect _ _ _).
Qed.
Lemma wire_remove id l : wire_ (snd (removeChannel id l)) = wire_ l.
Proof. unfold removeChannel. by destruct (findChannel id l). Qed.
Lemma wire_fire {host : Host} i m l : wire_ (snd (fire i (m, l))) = wire_ l.
Proof.
  unfold fire. destruct (cm_timers m !! i) as [[ms [id|c]]|]; [| |done]; cbn [run_job snd]; [apply wire_remove|].
  by rewrite wire_add, wire_remove.
Qed.
Lemma wire_accept {host : Host} m l : wire_ (snd (snd (makeAcceptedChannel (m, l)))) = wire_ l.
Proof. unfold makeAcceptedChannel. by destruct (findChannel _ l). Qed.
End drift.

(** ** A step of the manager *)
Section net.
Context {H : Type} {app : SessionHandler H}.
Context {rt : ZdsRuntime} {laws : ZdsLaws rt} {ex : ZdsExact rt} {T : Transport} {sort : StdSort} {host : Host}.
Context (conf : FgwConfig) (Hconf : cfg_links_ok conf) (Hing : is_u32 (cfg_ingress_id conf)).
Implicit Types (x : machine_net H) (w : world H).

Definition on_links_of (l : Links) w : world H := on_net (fun _ => l) w.
(** What the stream is called for. *)
Definition net_op (s : net_step) x : option (stream_step H) :=
  match s with
  | NetBytes a _ buf => if owned a x then Some (StBytes a buf) else None
  | NetTick _ => if heartbeat_timer_ (mn_mgr x) then Some StFeedback else None
  | _ => None
  end.
Definition do_op (t : option (stream_step H)) w : world H := match t with Some t => do_step t w | None => w end.
Record node_ok (n : Z) x : Prop := {
  no_kept : nkept conf n x;
  no_subs : bytes_subscribers_ (mn_mgr x) = [the_stream] }.

Lemma subs_schedule ms j m : bytes_subscribers_ (schedule ms j m) = bytes_subscribers_ m.
Proof. done. Qed.
Lemma subs_add c m l : bytes_subscribers_ (fst (snd (addChannel c (m, l)))) = bytes_subscribers_ m.
Proof.
  unfold addChannel, connect_at, sharedUtpContext. destruct (om_mem _ _); [done|]. destruct (negb _); [done|].
  destruct (_ =? _), (shared_utp_ m); by destruct (connect _ _ _).
Qed.
Lemma subs_fire i m l : bytes_subscribers_ (fst (fire i (m, l))) = bytes_subscribers_ m.
Proof.
  unfold fire. destruct (cm_timers m !! i) as [[ms [id|c]]|]; [done| |done]. unfold run_job. by rewrite subs_add.
Qed.
(** The links come to [l1] and the stream does the rest. *)
Definition shaped (s : net_step) x : Prop := exists l1, drift (w_net (mn_world x)) l1 /\ links_sane l1 /\
  mn_world (net_do s x) = do_op (net_op s x) (on_links_of l1 (mn_world x)) /\
  bytes_subscribers_ (mn_mgr (net_do s x)) = [the_stream].
Lemma world_net w : on_links_of (w_net w) w = w.
Proof. by destruct w. Qed.
(** Steps of the links alone. *)
Lemma shaped_links s n x l1 : node_ok n x -> n < 2 ^ 31 - 1 -> step_kept conf s -> net_op s x = None ->
  mn_world (net_do s x) = on_links_of l1 (mn_world x) -> drift (w_net (mn_world x)) l1 ->
  bytes_subscribers_ (mn_mgr (net_do s x)) = bytes_subscribers_ (mn_mgr x) -> shaped s x.
Proof.
  intros [Hk Hs] Hn Hst Hop Hw Hd Hsub. exists l1. split_and!; [done | | by rewrite Hop | congruence].
  pose proof (ke_map _ _ _ (nkept_do conf Hconf n s x Hk Hn Hst)) as Hm. rewrite Hw in Hm. by apply map_sane.
Qed.
Lemma net_do_shaped s n x : node_ok n x -> n < 2 ^ 31 - 1 -> step_kept conf s -> shaped s x.
Proof.
  intros Hok Hn Hs. pose proof Hok as [Hk Hsub]. pose proof (nkept_config conf n x Hk) as Hc.
  pose proof (links_of conf n _ _ Hk) as Hl. destruct x as [m w]. cbn [mn_mgr mn_world] in *.
  assert (Hidle : net_do s (mkNet m w) = mkNet m w -> net_op s (mkNet m w) = None -> shaped s (mkNet m w)).
  { intros Heq Hop. apply (shaped_links s n _ (w_net w)); rewrite ?Heq; try done; [by rewrite world_net | by apply drift_same]. }
  destruct s as [a now|a now buf|a|clock|i| |c|id]; cbn [net_do] in *.
  - unfold tcp_on_open in *. destruct (owned a (mkNet m w)) eqn:Ho; [|by apply Hidle].
    set (l0 := upd_chan a (fun _ => fst (markConnected true now (chan (w_net w) a))) (w_net w)).
    assert (Heq : net_do (NetOpen a now) (mkNet m w) = mkNet m (on_links_of (sendHello (config_ m) a l0) w))
      by (cbn [net_do]; unfold tcp_on_open; by rewrite Ho).
    apply (shaped_links _ n _ (sendHello (config_ m) a l0)); rewrite ?Heq; try done.
    cbn [mn_world mn_mgr] in *. rewrite Hc. eapply drift_trans; [by apply (drift_same _ l0) | by apply drift_hello].
  - destruct (owned a (mkNet m w)) eqn:Ho; [|apply Hidle; cbn [net_do net_op]; unfold tcp_on_read_data; by rewrite Ho].
    exists (upd_chan a (addRecvBytes (zlen buf) now) (w_net w)). split_and!.
    + by apply drift_same.
    + apply map_sane. by apply (links_upd conf).
    + cbn [net_do net_op]. unfold tcp_on_read_data. rewrite Ho. unfold dispatchChannelBytes, on_links. cbn [mn_mgr mn_world]. by rewrite Hsub.
    + cbn [net_do]. unfold tcp_on_read_data. by rewrite Ho.
  - unfold tcp_on_close in *. destruct (owned a (mkNet m w)) eqn:Ho; [|by apply Hidle].
    set (l1 := upd_chan a markClosed (w_net w)).
    assert (Heq : exists ms j, net_do (NetClose a) (mkNet m w) = mkNet (schedule ms j m) (on_links_of l1 w)).
    { cbn [net_do]. unfold tcp_on_close. rewrite Ho. unfold on_links, onChannelClosed. cbn [mn_mgr mn_world w_net on_net].
      destruct (accepted_ _); eauto. }
    destruct Heq as (ms & j & Heq). apply (shaped_links _ n _ l1); rewrite ?Heq; try done. by apply drift_same.
  - destruct (heartbeat_timer_ m) eqn:Hb; [|apply Hidle; cbn [net_do net_op mn_mgr]; by rewrite Hb].
    exists (beat_all (config_ m) clock (w_net w)). cbn [mn_mgr] in *. split_and!.
    + rewrite Hc. by apply drift_beat.
    + apply map_sane. rewrite Hc. by apply (links_beat conf).
    + cbn [net_do net_op mn_mgr]. rewrite Hb. unfold onHeartbeatTick, on_links. cbn [mn_mgr mn_world]. by rewrite Hsub.
    + cbn [net_do mn_mgr]. by rewrite Hb.
  - pose proof (wire_fire i m (w_net w)) as Hw. pose proof (subs_fire i m (w_net w)) as Hf.
    destruct (fire i (m, w_net w)) as [m' l'] eqn:He. assert (Heq : net_do (NetTimer i) (mkNet m w) = mkNet m' (on_links_of l' w))
      by (cbn [net_do]; unfold on_links; cbn [mn_mgr mn_world]; by rewrite He).
    apply (shaped_links _ n _ l'); rewrite ?Heq; try done. by apply drift_same.
  - destruct (link_acceptor_ m) eqn:Ha; [|apply Hidle; cbn [net_do net_op mn_mgr]; by rewrite ?Ha].
    pose proof (wire_accept m (w_net w)) as Hw. assert (Hf : bytes_subscribers_ (fst (snd (makeAcceptedChannel (m, w_net w)))) = bytes_subscribers_ m) by done.
    destruct (snd (makeAcceptedChannel (m, w_net w))) as [m' l'] eqn:He. assert (Heq : net_do NetAccept (mkNet m w) = mkNet m' (on_links_of l' w))
      by (cbn [net_do mn_mgr]; rewrite Ha; unfold on_links; cbn [mn_mgr mn_world]; by rewrite He).
    apply (shaped_links _ n _ l'); rewrite ?Heq; try done. by apply drift_same.
  - pose proof (wire_add c m (w_net w)) as Hw. pose proof (subs_add c m (w_net w)) as Hf.
    destruct (snd (addChannel c (m, w_net w))) as [m' l'] eqn:He. assert (Heq : net_do (NetAdd c) (mkNet m w) = mkNet m' (on_links_of l' w))
      by (cbn [net_do]; unfold on_links; cbn [mn_mgr mn_world]; by rewrite He).
    apply (shaped_links _ n _ l'); rewrite ?Heq; try done. by apply drift_same.
  - apply (shaped_links _ n _ (snd (removeChannel id (w_net w)))); try done. apply drift_same, wire_remove.
Qed.
End net.

(** ** A node: the manager and the service in turn *)
Inductive node_step (A : Type) := NodeLink (s : net_step) | NodeServe (a : A).
Arguments NodeLink {_} _.
Arguments NodeServe {_} _.

Section node.
Context {H : Type} {app : SessionHandler H}.
Context {rt : ZdsRuntime} {laws : ZdsLaws rt} {ex : ZdsExact rt} {T : Transport} {sort : StdSort} {host : Host}.
Context {A : Type} (serve : A -> world H -> world H).
Implicit Types (x : machine_net H) (w : world H) (ss : list (node_step A)).

Definition node_do (s : node_step A) x : machine_net H :=
  match s with
  | NodeLink s => net_do s x
  | NodeServe a => mkNet (mn_mgr x) (serve a (mn_world x))
  end.
Definition node_run ss x : machine_net H := fold_left (fun x s => node_do s x) ss x.
(** The bytes that channel [ch] hands to the stream. *)
Definition node_bytes (ch : Z) (s : node_step A) x : bytes :=
  match s with NodeLink (NetBytes a _ buf) => if owned a x && (a =? ch) then buf else [] | _ => [] end.
Fixpoint node_on (ch : Z) ss x : bytes :=
  match ss with
  | [] => []
  | s :: ss => node_bytes ch s x ++ node_on ch ss (node_do s x)
  end.
Definition dials_in (s : node_step A) : bool := match s with NodeLink NetAccept => true | _ => false end.
Definition link_accepts ss : Z := zlen (List.filter dials_in ss).

Context (conf : FgwConfig) (Hconf : cfg_links_ok conf) (Hing : is_u32 (cfg_ingress_id conf)).
(** What arrives are bytes; no configured channel is removed. *)
Definition link_fine (s : net_step) : Prop :=
  step_kept conf s /\ match s with NetBytes _ _ buf => Forall is_byte buf | _ => True end.
Definition node_fine (s : node_step A) : Prop := match s with NodeLink s => link_fine s | NodeServe _ => True end.
Context (Hstream : forall a w, exists ts, do_steps ts w = serve a w /\ (forall ch, bytes_on ch ts = []) /\ Forall step_bytes ts).
Context (Hlinks : forall a w, links_kept conf (w_net w) -> links_kept conf (w_net (serve a w))).

Lemma accepts_one s ss : link_accepts (s :: ss) = (if dials_in s then 1 else 0) + link_accepts ss.
Proof. unfold link_accepts. cbn [List.filter]. destruct (dials_in s); rewrite ?zlen_cons; lia. Qed.
Lemma link_accepts_nonneg ss : 0 <= link_accepts ss.
Proof. apply zlen_nonneg. Qed.
Lemma node_do_ok n s x : node_ok conf n x -> n < 2 ^ 31 - 1 -> node_fine s ->
  node_ok conf (n + if dials_in s then 1 else 0) (node_do s x).
Proof.
  intros Hok Hn Hs. destruct s as [s|a]; cbn [node_do].
  - destruct (net_do_shaped conf Hconf Hing s n x Hok Hn (proj1 Hs)) as (_ & _ & _ & _ & Hsub). split; [|done].
    pose proof (nkept_do conf Hconf n s x (no_kept _ _ _ Hok) Hn (proj1 Hs)) as Hk. destruct s; cbn [dials_in]; rewrite ?Z.add_0_r; exact Hk.
  - destruct Hok as [Hk Hsub]. split; [|done]. rewrite Z.add_0_r. apply (nkept_world conf); [done|]. by apply Hlinks.
Qed.
Lemma net_op_bytes s x : link_fine s -> match net_op s x with Some t => step_bytes t | None => True end.
Proof. intros [_ Hb]. destruct s; simpl; try done; [by destruct (owned _ _) | by destruct (heartbeat_timer_ _)]. Qed.
Lemma env_links l w : do_step (StEnv (fun o _ => (o, l, []))) w = on_links_of l w.
Proof. by destruct w. Qed.
Lemma links_wf l w : stream_wf w -> stream_wf (on_links_of l w).
Proof.
  intros Hw. rewrite <- env_links. change (stream_wf (do_steps [StEnv (fun o _ => (o, l, []))] w)).
  apply wf_steps; [done | by repeat constructor].
Qed.
Lemma node_as_stream ss : forall n x, node_ok conf n x -> n + link_accepts ss < 2 ^ 31 - 1 -> Forall node_fine ss ->
  exists ts, do_steps ts (mn_world x) = mn_world (node_run ss x) /\ (forall ch, bytes_on ch ts = node_on ch ss x) /\
    Forall step_bytes ts.
Proof.
  induction ss as [|s ss IH]; intros n x Hok Hn Hss; [by exists []|]. inversion Hss as [|? ? Hs Hss']; subst.
  rewrite accepts_one in Hn. pose proof (link_accepts_nonneg ss) as H0.
  assert (Hn1 : n < 2 ^ 31 - 1) by (destruct (dials_in s); lia).
  assert (H1 : exists ts, do_steps ts (mn_world x) = mn_world (node_do s x) /\ (forall ch, bytes_on ch ts = node_bytes ch s x) /\ Forall step_bytes ts).
  { destruct s as [s|a]; [|apply (Hstream a (mn_world x))]. destruct (net_do_shaped conf Hconf Hing s n x Hok Hn1 (proj1 Hs)) as (l1 & _ & _ & Hw & _).
    exists (StEnv (fun o _ => (o, l1, [])) :: match net_op s x with Some t => [t] | None => [] end). split_and!.
    - unfold do_steps. cbn [fold_left]. rewrite env_links. cbn [node_do]. rewrite Hw. by destruct (net_op s x).
    - intros ch. destruct s; cbn [net_op node_bytes]; try done; [|by destruct (heartbeat_timer_ _)].
      destruct (owned a x); simpl; [by rewrite app_nil_r | done].
    - constructor; [done|]. pose proof (net_op_bytes s x Hs) as Hb. destruct (net_op s x); [by repeat constructor | done]. }
  destruct H1 as (t1 & H1 & Hb1 & Hs1).
  destruct (IH _ (node_do s x) (node_do_ok n s x Hok Hn1 Hs)) as (t2 & H2 & Hb2 & Hs2); [lia | done|].
  exists (t1 ++ t2). split_and!.
  - unfold do_steps in *. by rewrite fold_left_app, H1.
  - intros ch. cbn [node_on]. rewrite <- Hb1, <- Hb2. clear. induction t1 as [|[] t1 IH]; simpl; rewrite ?IH, ?app_assoc; done.
  - by apply Forall_app.
Qed.
Lemma node_wf s n x : node_ok conf n x -> n + link_accepts [s] < 2 ^ 31 - 1 -> node_fine s -> stream_wf (mn_world x) ->
  stream_wf (mn_world (node_do s x)).
Proof.
  intros Hok Hn Hs Hw. destruct (node_as_stream [s] n x Hok Hn) as (ts & Hts & _ & Hb); [by constructor|].
  change (node_run [s] x) with (node_do s x) in Hts. rewrite <- Hts. by apply wf_steps.
Qed.

(** What the service's steps of a run give, and how many of a kind there are. *)
Fixpoint node_gather (f : A -> world H -> bytes) ss x : bytes :=
  match ss with
  | [] => []
  | s :: ss => match s with NodeServe a => f a (mn_world x) | NodeLink _ => [] end ++ node_gather f ss (node_do s x)
  end.
Fixpoint node_count (c : A -> Z) ss : Z :=
  match ss with
  | [] => 0
  | s :: ss => match s with NodeServe a => c a | NodeLink _ => 0 end + node_count c ss
  end.
(** In every state of a run. *)
Definition throughout (P : world H -> Prop) ss x : Prop := forall i, P (mn_world (node_run (take i ss) x)).
Lemma throughout_cons P s ss x : throughout P (s :: ss) x -> P (mn_world x) /\ throughout P ss (node_do s x).
Proof. intros Hp. split; [apply (Hp 0%nat) | intros i; apply (Hp (S i))]. Qed.

(** An invariant of the worlds of a run, that knows what has been gathered and counted:
    changes of the links in states with [att], operations of the stream and the service
    preserve it. *)
Section rule.
Context (f : A -> world H -> bytes) (c : A -> Z) (I : Z -> bytes -> world H -> Prop) (att : world H -> Prop).
Context (Hlink : forall m v l w, links_sane l -> drift (w_net w) l -> att w -> I m v w -> I m v (on_links_of l w)).
Context (Hbytes : forall m v a buf w, Forall is_byte buf -> stream_wf w -> I m v w -> I m v (onChannelBytes a buf w)).
Context (Hfeedback : forall m v w, stream_wf w -> I m v w -> I m v (emitFeedback w)).
Context (Hserve : forall m v a w, stream_wf w -> I m v w -> I (m + c a) (v ++ f a w) (serve a w)).
Lemma node_rule : forall ss n m v x, node_ok conf n x -> n + link_accepts ss < 2 ^ 31 - 1 -> Forall node_fine ss ->
  throughout att ss x -> stream_wf (mn_world x) -> I m v (mn_world x) ->
  I (m + node_count c ss) (v ++ node_gather f ss x) (mn_world (node_run ss x)).
Proof.
  induction ss as [|s ss IH]; intros n m v x Hok Hn Hss Hatt Hw HI; [by rewrite Z.add_0_r, app_nil_r|].
  inversion Hss as [|? ? Hs Hss']; subst. rewrite accepts_one in Hn. pose proof (link_accepts_nonneg ss) as H0.
  assert (Hn1 : n < 2 ^ 31 - 1) by (destruct (dials_in s); lia).
  assert (Hn2 : n + link_accepts [s] < 2 ^ 31 - 1) by (rewrite accepts_one; change (link_accepts []) with 0; lia).
  destruct (throughout_cons _ _ _ _ Hatt) as [Ha Hatt'].
  cbn [node_count node_gather]. rewrite Z.add_assoc, app_assoc.
  apply (IH _ _ _ (node_do s x) (node_do_ok n s x Hok Hn1 Hs)); [lia | done | done | by apply (node_wf s n) |].
  destruct s as [s|a]; [|by apply Hserve]. rewrite Z.add_0_r, app_nil_r.
  destruct (net_do_shaped conf Hconf Hing s n x Hok Hn1 (proj1 Hs)) as (l1 & Hd & Hsane & Hwd & _). cbn [node_do]. rewrite Hwd.
  assert (HI1 : I m v (on_links_of l1 (mn_world x))) by (by apply Hlink).
  assert (Hw1 : stream_wf (on_links_of l1 (mn_world x))) by (by apply links_wf).
  destruct Hs as [_ Hb]. destruct s; cbn [net_op do_op] in *; try done.
  - destruct (owned _ _); [by apply Hbytes | done].
  - destruct (heartbeat_timer_ _); [by apply Hfeedback | done].
Qed.
End rule.
Lemma node_run_ok ss : forall n x, node_ok conf n x -> n + link_accepts ss < 2 ^ 31 - 1 -> Forall node_fine ss ->
  node_ok conf (n + link_accepts ss) (node_run ss x).
Proof.
  induction ss as [|s ss IH]; intros n x Hok Hn Hss; [by rewrite Z.add_0_r|]. inversion Hss as [|? ? Hs Hss']; subst.
  rewrite accepts_one, Z.add_assoc in *. pose proof (link_accepts_nonneg ss).
  apply (IH _ (node_do s x)); [apply node_do_ok; [done | destruct (dials_in s); lia | done] | done | done].
Qed.
End node.
