(* ===== verification/Utp.v ===== *)
(** * Utp: the UTP transport, [FgwUtpContextHolder] and [FgwUtpChannel]

    The shared UDP socket with its libutp context
    ([src/zfgw_channel_manager.{h,cpp}]) and the channel over it
    ([src/zfgw_channel.{h,cpp}]), for both values of ZFGW_WITH_LIBUTP.  libutp is
    outside the repository: the holder's calls into it are recorded, in order. *)
From S2P Require Import Prelude Proto OMap Channel Selector Links DataStream Manager.

(** ** libutp *)
Class Libutp := {
  (** ZFGW_WITH_LIBUTP *)
  with_libutp : bool;
  (** whether [utp_init(2)] delivers a context, on its [n]-th call *)
  utp_init : Z -> bool;
  (** how many bytes [utp_write] takes *)
  utp_write : Z -> bytes -> Z }.

Inductive utp_call :=
  | CallInit (ctx : Z)
  | CallDestroy (ctx : Z)
  | CallProcess (ctx : Z) (buf : bytes)
  | CallTimeouts (ctx : Z).

(** ** The context holder *)
Record FgwUtpContextHolder := mkHolder {
  (** the identity of the UdpHandler, if any *)
  udp_ptr_ : option Z;
  utp_ctx_ : option Z;
  (** whether the 50 ms timer is scheduled *)
  tick_timer_ : bool }.
Definition new_holder : FgwUtpContextHolder := mkHolder None None false.

(** The manager's holder; the UDP handlers that listened, with whether their raw
    [owner_] is set; the calls into libutp; whether a freed owner was used. *)
Record utp_world := mkUtpWorld {
  shared_holder : option FgwUtpContextHolder;
  handlers_ : gmap Z bool;
  next_handler_ : Z;
  utp_calls : list utp_call;
  owner_dangled : bool }.
Definition new_utp_world : utp_world := mkUtpWorld None ∅ 1 [] false.

Section holder.
Context {host : Host} {lib : Libutp}.
Implicit Types (h : FgwUtpContextHolder) (w : utp_world).

Definition called (cs : list utp_call) w : utp_world :=
  mkUtpWorld (shared_holder w) (handlers_ w) (next_handler_ w) (utp_calls w ++ cs) (owner_dangled w).

(** [start()]: the return code, the holder and what it leaves around it.  The contexts are
    numbered by the handler they are made for. *)
Definition holder_start h w : Z * FgwUtpContextHolder * utp_world :=
  let n := next_handler_ w in
  let w := mkUtpWorld (shared_holder w) (handlers_ w) (n + 1) (utp_calls w) (owner_dangled w) in
  if udp_listen <? 0 then (err ZFGW_ERRCODE_LISTENFAIL, mkHolder None (utp_ctx_ h) (tick_timer_ h), w)
  else
    let w := mkUtpWorld (shared_holder w) (<[n := true]> (handlers_ w)) (next_handler_ w) (utp_calls w)
               (owner_dangled w) in
    if with_libutp then
      if utp_init n then (0, mkHolder (Some n) (Some n) true, called [CallInit n] w)
      else (err ZFGW_ERRCODE_MEMORY, mkHolder None None (tick_timer_ h), w)
    else (0, mkHolder (Some n) (utp_ctx_ h) true, w).

Definition holder_stop h w : FgwUtpContextHolder * utp_world :=
  let w := match utp_ctx_ h with Some c => if with_libutp then called [CallDestroy c] w else w | None => w end in
  let ctx := if with_libutp then None else utp_ctx_ h in
  let w := match udp_ptr_ h with
    | Some n => mkUtpWorld (shared_holder w) (<[n := false]> (handlers_ w)) (next_handler_ w) (utp_calls w)
                  (owner_dangled w)
    | None => w
    end in
  (mkHolder None ctx false, w).

Definition onTick h w : utp_world :=
  match utp_ctx_ h with Some c => if with_libutp then called [CallTimeouts c] w else w | None => w end.

(** [on_read_data()] of handler [n]: [owner_] is the holder that made the handler. *)
Definition udp_on_read_data (n : Z) (buf : bytes) (from : bool) w : utp_world :=
  if negb with_libutp then w
  else match handlers_ w !! n with
  | Some true =>
    match shared_holder w with
    | Some h =>
      if decide (udp_ptr_ h = Some n) then
        match utp_ctx_ h with Some c => if from then called [CallProcess c buf] w else w | None => w end
      else mkUtpWorld (shared_holder w) (handlers_ w) (next_handler_ w) (utp_calls w) true
    | None => mkUtpWorld (shared_holder w) (handlers_ w) (next_handler_ w) (utp_calls w) true
    end
  | _ => w
  end.

Definition set_holder (o : option FgwUtpContextHolder) w : utp_world :=
  mkUtpWorld o (handlers_ w) (next_handler_ w) (utp_calls w) (owner_dangled w).
(** The manager's [sharedUtpContext()], a failed holder freed with its destructor's [stop()],
    and the part of the manager's [stop()] that concerns the holder. *)
Definition shared_context w : utp_world :=
  match shared_holder w with
  | Some _ => w
  | None =>
    let '(ret, h, w) := holder_start new_holder w in
    if ret <? 0 then snd (holder_stop h w) else set_holder (Some h) w
  end.
Definition stop_shared w : utp_world :=
  match shared_holder w with
  | Some h => set_holder None (snd (holder_stop h w))
  | None => w
  end.

(** [connectChannel()] and [closeChannel()]. *)
Definition connectChannel (remote : FgwEndpoint) : Z := err ZFGW_ERRCODE_INVALIDCONFIG.

Inductive utp_step := UShared | UStop | UTick | UDatagram (n : Z) (buf : bytes) (from : bool).
Definition utp_do (s : utp_step) w : utp_world :=
  match s with
  | UShared => shared_context w
  | UStop => stop_shared w
  | UTick => match shared_holder w with Some h => if tick_timer_ h then onTick h w else w | None => w end
  | UDatagram n buf from => udp_on_read_data n buf from w
  end.
Definition utp_run (ss : list utp_step) w : utp_world := fold_left (fun w s => utp_do s w) ss w.
End holder.

(** ** The channel *)
Inductive utp_state := UTP_STATE_CONNECT | UTP_STATE_WRITABLE | UTP_STATE_EOF | UTP_STATE_DESTROYING.

(** A channel with its [utp_socket_] and whether [ctx_holder_] is set. *)
Record FgwUtpChannel := mkUtpChannel { utp_base : IFgwChannel; utp_socket_ : option Z; ctx_holder_ : bool }.
Definition new_utp_channel (ctx : bool) (id priority : Z) : FgwUtpChannel :=
  mkUtpChannel (new_channel ZFGW_CHANNEL_UTP id priority) None ctx.

Section channel.
Context {lib : Libutp}.
Implicit Types (c : FgwUtpChannel).

Definition on_base (f : IFgwChannel -> IFgwChannel) c : FgwUtpChannel :=
  mkUtpChannel (f (utp_base c)) (utp_socket_ c) (ctx_holder_ c).
Definition uc_connect (remote : FgwEndpoint) c : Z * FgwUtpChannel :=
  let c := on_base (set_remote remote) c in
  (if with_libutp then if ctx_holder_ c then connectChannel remote else err ZFGW_ERRCODE_INVALIDCONFIG
   else err ZFGW_ERRCODE_INVALIDCONFIG, c).
Definition uc_close c : FgwUtpChannel := mkUtpChannel (set_connected false (utp_base c)) None (ctx_holder_ c).
(** The return code, and what was handed to libutp. *)
Definition uc_sendBytes (buf : bytes) c : Z * FgwUtpChannel * list (Z * bytes) :=
  if with_libutp then
    match utp_socket_ c with
    | None => (err ZFGW_ERRCODE_NOCHANNEL, c, [])
    | Some s =>
      if zlen buf =? 0 then (0, c, [])
      else let sent := utp_write s buf in
        if sent =? 0 then (err ZFGW_ERRCODE_BUSY, c, [(s, buf)])
        else (i32 sent, on_base (addSentBytes (u32 sent)) c, [(s, buf)])
    end
  else (err ZFGW_ERRCODE_INVALIDCONFIG, c, []).
Definition deliverBytes (n now : Z) c : FgwUtpChannel := on_base (addRecvBytes n now) c.
Definition onUtpState (st : utp_state) (now : Z) c : FgwUtpChannel :=
  if with_libutp then
    match st with
    | UTP_STATE_CONNECT | UTP_STATE_WRITABLE => on_base (fun b => fst (markConnected true now b)) c
    | UTP_STATE_EOF | UTP_STATE_DESTROYING => on_base markClosed c
    end
  else c.
Definition onUtpError c : FgwUtpChannel := on_base markClosed c.

Inductive uc_step := UcConnect (remote : FgwEndpoint) | UcClose | UcSend (buf : bytes) | UcBytes (n now : Z)
  | UcState (st : utp_state) (now : Z) | UcError.
Definition uc_do (s : uc_step) c : FgwUtpChannel :=
  match s with
  | UcConnect r => snd (uc_connect r c)
  | UcClose => uc_close c
  | UcSend buf => snd (fst (uc_sendBytes buf c))
  | UcBytes n now => deliverBytes n now c
  | UcState st now => onUtpState st now c
  | UcError => onUtpError c
  end.
Definition uc_run (ss : list uc_step) c : FgwUtpChannel := fold_left (fun c s => uc_do s c) ss c.
End channel.

(** ** How libutp is used

    [usage live cs] checks the calls against the contexts that exist: a context is made
    once, used while it exists and destroyed once; the result is what is left. *)
Fixpoint usage (live : list Z) (cs : list utp_call) : option (list Z) :=
  match cs with
  | [] => Some live
  | CallInit c :: cs => if decide (c ∈ live) then None else usage (c :: live) cs
  | CallDestroy c :: cs => if decide (c ∈ live) then usage (List.filter (fun d => negb (d =? c)) live) cs else None
  | CallProcess c _ :: cs | CallTimeouts c :: cs => if decide (c ∈ live) then usage live cs else None
  end.
Lemma usage_app cs cs' live : usage live (cs ++ cs') = usage live cs ≫= fun l => usage l cs'.
Proof.
  revert live. induction cs as [|[] cs IH]; intros live; [done|..]; simpl; case_decide; auto.
Qed.

Section usage.
Context {host : Host} {lib : Libutp}.
Implicit Types (w : utp_world).

Definition held_ctx (o : option FgwUtpContextHolder) : list Z := option_list (o ≫= utp_ctx_).
(** Handlers whose owner is set are the holder's, except for those a failed [utp_init] left. *)
Record utp_wf w : Prop := {
  uw_usage : usage [] (utp_calls w) = Some (held_ctx (shared_holder w));
  uw_plain : with_libutp = false -> utp_calls w = [];
  uw_held : forall h n, shared_holder w = Some h -> udp_ptr_ h = Some n -> handlers_ w !! n = Some true;
  uw_fresh : forall n b, handlers_ w !! n = Some b -> n < next_handler_ w;
  uw_owned : (forall n, utp_init n = true) -> owner_dangled w = false /\
    forall n, handlers_ w !! n = Some true -> exists h, shared_holder w = Some h /\ udp_ptr_ h = Some n }.

Lemma utp_wf_called cs w : utp_wf w -> with_libutp = true ->
  usage (held_ctx (shared_holder w)) cs = Some (held_ctx (shared_holder w)) -> utp_wf (called cs w).
Proof.
  intros [Hu Hp Hh' Hf Ho] Hl Hcs. constructor; try done; [|by rewrite Hl].
  cbn. by rewrite usage_app, Hu.
Qed.

Lemma utp_wf_shared w : utp_wf w -> utp_wf (shared_context w).
Proof.
  intros [Hu Hp Hh' Hf Ho]. unfold shared_context. destruct (shared_holder w) eqn:Hw; [by constructor; rewrite ?Hw|].
  assert (Hn : forall b, handlers_ w !! next_handler_ w <> Some b) by (intros b Hb; specialize (Hf _ _ Hb); lia).
  assert (He : err ZFGW_ERRCODE_LISTENFAIL <? 0 = true /\ err ZFGW_ERRCODE_MEMORY <? 0 = true) by done.
  unfold holder_start. destruct (udp_listen <? 0).
  { rewrite (proj1 He). cbn. constructor; cbn; rewrite ?Hw; try done.
    intros n b Hb. specialize (Hf _ _ Hb). lia. }
  assert (Hf' : forall n b, <[next_handler_ w:=true]> (handlers_ w) !! n = Some b -> n < next_handler_ w + 1).
  { intros n b. rewrite lookup_insert_Some. intros [[? _]|[_ Hb]]; [lia|]. specialize (Hf _ _ Hb). lia. }
  destruct with_libutp eqn:Hl; [destruct (utp_init (next_handler_ w)) eqn:Hi|].
  - cbn. constructor; cbn; try done.
    + by rewrite usage_app, Hu.
    + congruence.
    + intros h n [= <-] [= <-]. apply lookup_insert_eq.
    + intros Hi'. destruct (Ho Hi') as [? Hh]. split; [done|]. intros n.
      rewrite lookup_insert_Some. intros [[<- _]|[_ Hb]]; [eauto|]. by destruct (Hh _ Hb) as (? & ? & _).
  - rewrite (proj2 He). cbn. constructor; cbn; rewrite ?Hw; try done; [congruence|]. intros Hi'. by rewrite Hi' in Hi.
  - cbn. constructor; cbn; try done; [by intros _; apply Hp | by intros h n [= <-] [= <-]; apply lookup_insert_eq|]. intros Hi'. destruct (Ho Hi') as [? Hh]. split; [done|].
    intros n. rewrite lookup_insert_Some. intros [[<- _]|[_ Hb]]; [eauto|]. by destruct (Hh _ Hb) as (? & ? & _).
Qed.

Lemma utp_wf_stop w : utp_wf w -> utp_wf (stop_shared w).
Proof.
  intros [Hu Hp Hh' Hf Ho]. unfold stop_shared. destruct (shared_holder w) as [h|] eqn:Hw; [|by constructor; rewrite ?Hw].
  unfold held_ctx in Hu. simpl in Hu.
  set (hs := match udp_ptr_ h with Some n => <[n := false]> (handlers_ w) | None => handlers_ w end).
  assert (Hs : exists cs, set_holder None (snd (holder_stop h w)) =
      mkUtpWorld None hs (next_handler_ w) (utp_calls w ++ cs) (owner_dangled w) /\
    usage (option_list (utp_ctx_ h)) cs = Some [] /\ (with_libutp = false -> cs = [])).
  { unfold holder_stop, hs. destruct (utp_ctx_ h) as [c|] eqn:Hc, with_libutp eqn:Hl, (udp_ptr_ h); simpl.
    1, 2: exists [CallDestroy c]; split_and!; try done; simpl; by rewrite decide_True, Z.eqb_refl by set_solver.
    1, 2: by rewrite (Hp eq_refl) in Hu.
    all: exists []; by rewrite app_nil_r. }
  destruct Hs as (cs & -> & Hcs & Hpl).
  assert (Hhs : forall n, hs !! n = Some true -> handlers_ w !! n = Some true /\ udp_ptr_ h <> Some n).
  { intros n. unfold hs. destruct (udp_ptr_ h) as [m|]; [|done]. rewrite lookup_insert_Some. intros [[_ ?]|[? ?]]; [done|].
    split; [done|]. congruence. }
  constructor; cbn; try done.
  - by rewrite usage_app, Hu.
  - intros Hl. by rewrite Hp, Hpl.
  - intros n b. unfold hs. destruct (udp_ptr_ h) as [m|] eqn:Hm; [|apply Hf]. rewrite lookup_insert_Some.
    intros [[<- _]|[_ Hb]]; [|by eapply Hf].
    eapply Hf, Hh'; eauto.
  - intros Hi. destruct (Ho Hi) as [Hd Hall]. split; [done|]. intros n [Hn Hne]%Hhs.
    destruct (Hall _ Hn) as (? & [= <-] & ?). congruence.
Qed.

Lemma utp_wf_do s w : utp_wf w -> utp_wf (utp_do s w).
Proof.
  intros Hw. destruct s as [| | |n buf from]; cbn [utp_do]; [by apply utp_wf_shared | by apply utp_wf_stop | |].
  - destruct (shared_holder w) as [h|] eqn:Hh; [|done]. destruct (tick_timer_ h); [|done].
    unfold onTick. destruct (utp_ctx_ h) as [c|] eqn:Hc; [|done]. destruct with_libutp eqn:Hl; [|done].
    apply utp_wf_called; [done..|]. unfold held_ctx. rewrite Hh. simpl. rewrite Hc. simpl. by rewrite decide_True by set_solver.
  - unfold udp_on_read_data. destruct with_libutp eqn:Hl; [|done]. simpl.
    destruct (handlers_ w !! n) as [[]|] eqn:Hn; [|done..].
    assert (Hbad : (forall h, shared_holder w = Some h -> udp_ptr_ h <> Some n) ->
      utp_wf (mkUtpWorld (shared_holder w) (handlers_ w) (next_handler_ w) (utp_calls w) true)).
    { intros Hno. destruct Hw as [Hu Hp Hh Hf Ho]. constructor; try done. intros Hi.
      destruct (Ho Hi) as [_ Hall]. destruct (Hall _ Hn) as (h & Hsh & Hp'). by destruct (Hno _ Hsh). }
    destruct (shared_holder w) as [h|] eqn:Hh; [|by apply Hbad]. case_decide as Hd; [|apply Hbad; congruence].
    destruct (utp_ctx_ h) as [c|] eqn:Hc; [|done]. destruct from; [|done].
    apply utp_wf_called; [done..|]. unfold held_ctx. rewrite Hh. simpl. rewrite Hc. simpl. by rewrite decide_True by set_solver.
Qed.

(** In every order of requests, datagrams, ticks and stops: libutp is called on contexts that
    exist only, the holder's is the only one, none is left without a holder, and a build
    without libutp makes no call.  No handler outlives its holder with its owner set,
    unless [utp_init] fails. *)
Lemma utp_contexts ss (w := utp_run ss new_utp_world) :
  usage [] (utp_calls w) = Some (held_ctx (shared_holder w)) /\
  (with_libutp = false -> utp_calls w = []) /\
  ((forall n, utp_init n = true) -> owner_dangled w = false).
Proof.
  assert (Hw : utp_wf w).
  { unfold w, utp_run. clear w. assert (H0 : utp_wf new_utp_world) by by constructor. revert H0. generalize new_utp_world.
    induction ss as [|s ss IH]; intros w Hw; [done|]. by apply IH, utp_wf_do. }
  destruct Hw as [Hu Hp _ _ Ho]. split_and!; [done..|]. intros Hi. by destruct (Ho Hi).
Qed.

(** A failed [utp_init] frees the holder and leaves the handler pointing at it: a datagram
    the reactor still delivers goes through the dangling [owner_]. *)
Lemma utp_init_failure : with_libutp = true -> 0 <= udp_listen -> utp_init 1 = false ->
  shared_holder (shared_context new_utp_world) = None /\
  owner_dangled (utp_run [UShared; UDatagram 1 [] true] new_utp_world) = true.
Proof.
  intros Hl Hu Hi. apply Z.ltb_ge in Hu. unfold utp_run. cbn [fold_left utp_do]. unfold udp_on_read_data.
  unfold shared_context, holder_start. cbn. by rewrite Hu, Hl, Hi.
Qed.

(** The manager's flag [shared_utp_] is the holder, when built without libutp. *)
Lemma shared_flag m w : with_libutp = false -> shared_utp_ m = bool_decide (is_Some (shared_holder w)) ->
  shared_utp_ (sharedUtpContext m) = bool_decide (is_Some (shared_holder (shared_context w))).
Proof.
  intros Hl Hm. unfold sharedUtpContext, shared_context, holder_start. rewrite Hm, Hl.
  destruct (shared_holder w) as [h|] eqn:Hw; cbn; [by rewrite Hw|]. destruct (udp_listen <? 0) eqn:Hu; cbn; by rewrite ?Hw.
Qed.
End usage.

(** ** A UTP channel carries nothing

    No socket is ever made for a UTP channel, with libutp or without: it does not connect,
    and it refuses everything it is given to send. *)
Section channel_facts.
Context {lib : Libutp}.
Lemma utp_channel_mute ctx id prio ss (c := uc_run ss (new_utp_channel ctx id prio)) :
  utp_socket_ c = None /\ q_bytes_sent (quality_ (utp_base c)) = 0 /\
  (forall buf, exists e, uc_sendBytes buf c = (e, c, []) /\ e < 0) /\
  (forall r, fst (uc_connect r c) < 0).
Proof.
  assert (Hinv : utp_socket_ c = None /\ q_bytes_sent (quality_ (utp_base c)) = 0).
  { unfold c, uc_run. clear c. assert (H0 : utp_socket_ (new_utp_channel ctx id prio) = None /\
      q_bytes_sent (quality_ (utp_base (new_utp_channel ctx id prio))) = 0) by done.
    revert H0. generalize (new_utp_channel ctx id prio). induction ss as [|s ss IH]; intros c [Hs Hq]; [done|].
    apply IH. destruct s as [r| |buf|n now|st now|]; try done; cbn [uc_do].
    - unfold uc_sendBytes. rewrite Hs. by destruct with_libutp.
    - unfold onUtpState. destruct with_libutp; [|done]. by destruct st. }
  destruct Hinv as [Hs Hq]. split_and!; try done.
  - intros buf. unfold uc_sendBytes. rewrite Hs. destruct with_libutp; eexists; split; try reflexivity; done.
  - intros r. unfold uc_connect. by destruct with_libutp, (ctx_holder_ (on_base (set_remote r) c)).
Qed.

(** Without libutp the operations are those of [Channel]. *)
Lemma utp_channel_stub r buf sent c : with_libutp = false ->
  uc_connect r c = (snd (utp_connect r (utp_base c)), on_base (fun b => fst (utp_connect r b)) c) /\
  utp_base (uc_close c) = utp_close (utp_base c) /\
  fst (fst (uc_sendBytes buf c)) = fst (fst (utp_sendBytes sent (utp_base c))) /\
  snd (fst (uc_sendBytes buf c)) = c.
Proof. intros Hl. unfold uc_connect, uc_sendBytes. by rewrite Hl. Qed.
End channel_facts.
