(* ===== verification/Transit.v ===== *)
(** * Transit: the middle hop, [TransitService] of [src/zfgw_transit.{h,cpp}]

    A transit cuts the bytes of its links into segments and passes each one on,
    unchanged: what comes from an inport goes to the outport the header names, what
    comes from an outport goes to the inport the header names.  It dials its outports
    again when their links drop.

    The link table keeps every channel object alive that the two routing tables refer
    to, so an object is where its address is in the link table and is freed when it
    leaves it. *)
From S2P Require Import Prelude Proto OMap Segment Pack Channel Selector Links Manager.

(** ** State *)
Record Link := mkLink { L_chan : IFgwChannel; L_outbound : bool; L_buffer : bytes }.
Definition set_chan (c : IFgwChannel) (L : Link) : Link := mkLink c (L_outbound L) (L_buffer L).
Definition set_buffer (b : bytes) (L : Link) : Link := mkLink (L_chan L) (L_outbound L) b.

Inductive transit_job :=
  | JobDrop (a : Z)            (** the deferred half of [onLinkClosed] *)
  | JobRedial (outport_id : Z).

Record TransitService := mkTransit {
  tr_config : FgwConfig;
  tr_accepted_seq : Z;
  (** whether [acceptor_] and [heartbeat_timer_] are set *)
  tr_acceptor : bool; tr_heartbeat : bool;
  (** [links_], by the address of the channel *)
  links_ : omap Link;
  outbound_by_outport_ : omap Z;
  inbound_by_ingress_ : omap Z;
  (** the one-shot timers that have not fired, each with its delay in milliseconds *)
  tr_timers : list (Z * transit_job);
  (** the identity of the next socket handler *)
  tr_next_socket : Z;
  (** what has been written to the sockets, in order *)
  tr_wire : list (Z * bytes) }.
Definition new_transit (cfg : FgwConfig) : TransitService :=
  mkTransit cfg 0x80000000 false false [] [] [] [] 1 [].

Implicit Types (t : TransitService).
Definition set_up (acc hb : bool) t : TransitService :=
  mkTransit (tr_config t) (tr_accepted_seq t) acc hb (links_ t) (outbound_by_outport_ t)
    (inbound_by_ingress_ t) (tr_timers t) (tr_next_socket t) (tr_wire t).
Definition set_links (m : omap Link) t : TransitService :=
  mkTransit (tr_config t) (tr_accepted_seq t) (tr_acceptor t) (tr_heartbeat t) m
    (outbound_by_outport_ t) (inbound_by_ingress_ t) (tr_timers t) (tr_next_socket t) (tr_wire t).
Definition set_outbound (m : omap Z) t : TransitService :=
  mkTransit (tr_config t) (tr_accepted_seq t) (tr_acceptor t) (tr_heartbeat t) (links_ t) m
    (inbound_by_ingress_ t) (tr_timers t) (tr_next_socket t) (tr_wire t).
Definition set_inbound (m : omap Z) t : TransitService :=
  mkTransit (tr_config t) (tr_accepted_seq t) (tr_acceptor t) (tr_heartbeat t) (links_ t)
    (outbound_by_outport_ t) m (tr_timers t) (tr_next_socket t) (tr_wire t).
Definition set_tr_timers (l : list (Z * transit_job)) t : TransitService :=
  mkTransit (tr_config t) (tr_accepted_seq t) (tr_acceptor t) (tr_heartbeat t) (links_ t)
    (outbound_by_outport_ t) (inbound_by_ingress_ t) l (tr_next_socket t) (tr_wire t).
Definition set_ids (seq sock : Z) t : TransitService :=
  mkTransit (tr_config t) seq (tr_acceptor t) (tr_heartbeat t) (links_ t)
    (outbound_by_outport_ t) (inbound_by_ingress_ t) (tr_timers t) sock (tr_wire t).
Definition set_tr_wire (w : list (Z * bytes)) t : TransitService :=
  mkTransit (tr_config t) (tr_accepted_seq t) (tr_acceptor t) (tr_heartbeat t) (links_ t)
    (outbound_by_outport_ t) (inbound_by_ingress_ t) (tr_timers t) (tr_next_socket t) w.

(** The channel objects, as the allocator sees them. *)
Definition objects t : gmap Z IFgwChannel := list_to_map (map (fun e => (fst e, L_chan (snd e))) (links_ t)).

(** A change of the link at [a], if it is there. *)
Definition upd_link (a : Z) (f : Link -> Link) t : TransitService :=
  match om_find a (links_ t) with
  | Some L => set_links (om_insert a (f L) (links_ t)) t
  | None => t
  end.

Definition findOutbound (outport_id : Z) t : option Z := om_find outport_id (outbound_by_outport_ t).
Definition findInbound (ingress_id : Z) t : option Z := om_find ingress_id (inbound_by_ingress_ t).

Definition schedule_job (ms : Z) (j : transit_job) t : TransitService :=
  set_tr_timers (tr_timers t ++ [(ms, j)]) t.
Definition scheduleOutportRedial (outport_id : Z) t : TransitService :=
  let reconnect_max := cfg_reconnect_max (tr_config t) in
  schedule_job ((if 0 <? reconnect_max then reconnect_max else 30) * 1000) (JobRedial outport_id) t.

Section transit.
Context {rt : ZdsRuntime} {T : Transport} {host : Host}.

(** ** Links *)

(** [ch->sendBytes(buf, len)] for the channel at [a]; the return code is not used. *)
Definition send_link (a : Z) (buf : bytes) t : TransitService :=
  match om_find a (links_ t) with
  | Some L =>
    let '(_, c, w) := sendBytes buf (tr_wire t) (L_chan L) in
    set_tr_wire w (set_links (om_insert a (set_chan c L) (links_ t)) t)
  | None => t
  end.

Definition dialOneOutport (ccfg : FgwChannelConfig) t : TransitService :=
  let id := cc_channel_id ccfg in
  let a := alloc (objects t) in
  let chan := new_channel ZFGW_CHANNEL_TCP id (cc_priority ccfg) in
  let t := match findOutbound id t with Some old => set_links (om_erase old (links_ t)) t | None => t end in
  let t := set_links (om_insert a (mkLink chan true []) (links_ t)) t in
  let t := set_outbound (om_insert id a (outbound_by_outport_ t)) t in
  let '(c, ret) := connect (tr_next_socket t) (cc_remote ccfg) chan in
  let t := set_ids (tr_accepted_seq t) (tr_next_socket t + 1) (upd_link a (set_chan c) t) in
  if ret <? 0 then scheduleOutportRedial id t else t.
Definition dialOutports t : TransitService :=
  fold_left (fun t ccfg => dialOneOutport ccfg t) (cfg_channels (tr_config t)) t.

(** [makeInboundChannel()] followed by [createAcceptedHandler()]. *)
Definition makeInboundChannel t : TransitService :=
  let a := alloc (objects t) in
  let c := createAcceptedHandler (tr_next_socket t) (markAccepted (new_channel ZFGW_CHANNEL_TCP (tr_accepted_seq t) 100)) in
  set_ids (tr_accepted_seq t +u32 1) (tr_next_socket t + 1)
    (set_links (om_insert a (mkLink c false []) (links_ t)) t).

(** ** Forwarding *)

(** One whole segment of the link at [a]: header, header length, bytes. *)
Definition route (a : Z) (outbound : bool) (hdr : FgwSegmentHeader) (hr : Z) (frame : bytes) t : TransitService :=
  if isHello hdr then
    if negb outbound then
      let '(len, hello) := zds_unpack_FgwHello (take (Z.to_nat (h_payload_len hdr)) (drop (Z.to_nat hr) frame)) true in
      if (0 <=? len) && (hello_proto_version hello =? kFgwProtoVersion)
      then set_inbound (om_insert (hello_ingress_id hello) a (inbound_by_ingress_ t)) t
      else t
    else t
  else if isHeartbeat hdr || isAck hdr then t
  else if negb outbound then
    let t := set_inbound (om_insert (h_ingress_id hdr) a (inbound_by_ingress_ t)) t in
    match findOutbound (h_outport_id hdr) t with Some out => send_link out frame t | None => t end
  else
    match findInbound (h_ingress_id hdr) t with Some inb => send_link inb frame t | None => t end.

(** The loop of [onLinkBytes] on the bytes from [pos] on; the result is what stays in
    the link's buffer. *)
Fixpoint link_loop (fuel : nat) (a : Z) (outbound : bool) (buf : bytes) t : option (bytes * TransitService) :=
  match fuel with
  | O => None
  | S fuel =>
    let remaining := zlen buf in
    if remaining <? LEGACY_HEADER_SIZE then Some (buf, t)
    else
    let '(hr, hdr) := fgwSegmentPeekHeader buf remaining FgwSegmentHeader_default in
    if is_err hr ZFGW_ERRCODE_BADSEGMENT then Some ([], t)
    else if hr =? 0 then Some (buf, t)
    else
    let total := hr + h_payload_len hdr in
    if remaining <? total then Some (buf, t)
    else
    let frame := take (Z.to_nat total) buf in
    link_loop fuel a outbound (drop (Z.to_nat total) buf) (route a outbound hdr hr frame t)
  end.
Definition onLinkBytes (a : Z) (buf : bytes) t : TransitService :=
  match om_find a (links_ t) with
  | None => t
  | Some L =>
    let b := L_buffer L ++ buf in
    match link_loop (S (length b)) a (L_outbound L) b t with
    | Some (rest, t) => upd_link a (set_buffer rest) t
    | None => t
    end
  end.

(** ** Losing a link *)
Definition onLinkClosed (a : Z) t : TransitService := schedule_job 1 (JobDrop a) t.

(** The entries of a routing table that name the link at [a], and the table without. *)
Definition naming (a : Z) (m : omap Z) : omap Z := List.filter (fun e => snd e =? a) m.
Definition not_naming (a : Z) (m : omap Z) : omap Z := List.filter (fun e => negb (snd e =? a)) m.
Definition drop_link (a : Z) t : TransitService :=
  match om_find a (links_ t) with
  | None => t
  | Some L =>
    let outport_id := last (om_keys (naming a (outbound_by_outport_ t))) in
    let t := set_outbound (not_naming a (outbound_by_outport_ t)) t in
    let t := set_inbound (not_naming a (inbound_by_ingress_ t)) t in
    let t := set_links (om_erase a (links_ t)) t in
    match outport_id with
    | Some id => if L_outbound L then scheduleOutportRedial id t else t
    | None => t
    end
  end.

Definition run_transit_job (j : transit_job) t : TransitService :=
  match j with
  | JobDrop a => drop_link a t
  | JobRedial id =>
    match find_config id (tr_config t) with Some cfg => dialOneOutport cfg t | None => t end
  end.
Definition fire_transit (i : nat) t : TransitService :=
  match tr_timers t !! i with
  | None => t
  | Some (_, j) => run_transit_job j (set_tr_timers (delete i (tr_timers t)) t)
  end.

(** ** Heartbeat *)
Definition transit_heartbeat (a : Z) t : TransitService :=
  match heartbeat_frame (cfg_ingress_id (tr_config t)) with
  | Some frame => send_link a frame t
  | None => t
  end.
Definition tick_one t (a : Z) : TransitService :=
  match om_find a (links_ t) with
  | Some L => if connected_ (L_chan L) then transit_heartbeat a t else t
  | None => t
  end.
Definition transit_tick t : TransitService := fold_left tick_one (om_keys (links_ t)) t.

(** ** Start and stop; [listen_ret] is what [Acceptor::listen] returns *)
Definition startHeartbeat t : TransitService := set_up (tr_acceptor t) true t.
Definition transit_start (listen_ret : Z) t : Z * TransitService :=
  let t := dialOutports t in
  if negb (cfg_outport_listen_port (tr_config t) =? 0) && (listen_ret <? 0)
  then (err ZFGW_ERRCODE_LISTENFAIL, t)
  else (0, startHeartbeat (set_up (tr_acceptor t || negb (cfg_outport_listen_port (tr_config t) =? 0)) (tr_heartbeat t) t)).

(** Every channel is closed and freed; the timers are not cancelled. *)
Definition transit_stop t : TransitService :=
  set_up false false (set_links [] (set_outbound [] (set_inbound [] t))).

(** ** What can happen; a callback of a socket comes only while its channel owns it *)
Definition link_owned (a : Z) t : bool :=
  match om_find a (links_ t) with
  | Some L => match tcp_ptr_ (L_chan L) with Some _ => true | None => false end
  | None => false
  end.
Definition on_chan (f : IFgwChannel -> IFgwChannel) (L : Link) : Link := set_chan (f (L_chan L)) L.
Inductive transit_step :=
  | TrOpen (a now : Z) | TrBytes (a now : Z) (buf : bytes) | TrClose (a : Z)
  | TrTick | TrTimer (i : nat) | TrAccept.
Definition transit_do (s : transit_step) t : TransitService :=
  match s with
  | TrOpen a now => if link_owned a t then upd_link a (on_chan (fun c => fst (markConnected true now c))) t else t
  | TrBytes a now buf =>
    if link_owned a t then onLinkBytes a buf (upd_link a (on_chan (addRecvBytes (zlen buf) now)) t) else t
  | TrClose a => if link_owned a t then onLinkClosed a (upd_link a (on_chan markClosed) t) else t
  | TrTick => if tr_heartbeat t then transit_tick t else t
  | TrTimer i => fire_transit i t
  | TrAccept => if tr_acceptor t then makeInboundChannel t else t
  end.
Definition transit_run (ss : list transit_step) t : TransitService := fold_left (fun t s => transit_do s t) ss t.
End transit.
