(* ===== verification/TransitWf.v ===== *)
(** * TransitWf: the routing tables of a transit are sound

    The invariant of the link table and the two routing tables, its preservation by all
    that can happen, and that no configured outport is ever forgotten. *)
From S2P Require Import Prelude Proto OMap Segment Pack Channel Selector Links Framing Manager.
From S2P Require Import ManagerWf Transit.

(** ** Filtering an ordered map *)
Lemma om_keys_filter {V} (p : Z * V -> bool) m k : In k (om_keys (List.filter p m)) -> In k (om_keys m).
Proof. unfold om_keys. rewrite !in_map_iff. intros (e & <- & [Hin _]%filter_In). by exists e. Qed.
Lemma om_ok_filter {V} (p : Z * V -> bool) (m : omap V) : om_ok m -> om_ok (List.filter p m).
Proof.
  induction m as [|[j w] m IH]; intros Hok; simpl; [done|].
  apply om_ok_cons in Hok as [Hm Hall]. destruct (p (j, w)); [|auto].
  apply om_ok_cons. split; [auto|]. apply List.Forall_forall. intros i Hi%om_keys_filter.
  rewrite List.Forall_forall in Hall. by apply Hall.
Qed.
Lemma om_find_filter {V} (p : Z * V -> bool) (m : omap V) k v : om_ok m ->
  om_find k (List.filter p m) = Some v <-> om_find k m = Some v /\ p (k, v) = true.
Proof.
  intros Hok. split.
  - intros [Hin Hp]%om_find_In%filter_In. split; [by apply om_find_ok_In | done].
  - intros [Hf Hp]. apply om_find_ok_In; [by apply om_ok_filter|]. apply filter_In. split; [by apply om_find_In | done].
Qed.
Lemma om_find_not_naming (m : omap Z) a k b : om_ok m ->
  om_find k (not_naming a m) = Some b <-> om_find k m = Some b /\ b <> a.
Proof.
  intros Hok. unfold not_naming. rewrite om_find_filter by done. cbn [snd].
  destruct (Z.eqb_spec b a); simpl; naive_solver.
Qed.

(** ** The invariant *)
Record link_wf (L : Link) : Prop := {
  lw_kind : kind_ (L_chan L) = ZFGW_CHANNEL_TCP;
  lw_chan : chan_ok (L_chan L);
  lw_buffer : zlen (L_buffer L) < 24 + MAX_PAYLOAD }.
Record transit_wf (t : TransitService) : Prop := {
  tw_links : om_ok (links_ t);
  tw_out_ok : om_ok (outbound_by_outport_ t);
  tw_in_ok : om_ok (inbound_by_ingress_ t);
  tw_link : forall a L, om_find a (links_ t) = Some L -> link_wf L;
  tw_out : forall id a, om_find id (outbound_by_outport_ t) = Some a ->
    exists L, om_find a (links_ t) = Some L /\ L_outbound L = true /\ channel_id_ (L_chan L) = id;
  tw_reg : forall a L, om_find a (links_ t) = Some L -> L_outbound L = true ->
    om_find (channel_id_ (L_chan L)) (outbound_by_outport_ t) = Some a;
  tw_in : forall ing a, om_find ing (inbound_by_ingress_ t) = Some a ->
    exists L, om_find a (links_ t) = Some L /\ L_outbound L = false }.

(** The rest of the state as far as the tables are concerned. *)
Lemma wf_same t t' : links_ t' = links_ t -> outbound_by_outport_ t' = outbound_by_outport_ t ->
  inbound_by_ingress_ t' = inbound_by_ingress_ t -> transit_wf t -> transit_wf t'.
Proof. intros H1 H2 H3 []. constructor; rewrite ?H1, ?H2, ?H3; done. Qed.

(** A change of a link that keeps its side and identity. *)
Lemma wf_upd_link a f t : transit_wf t ->
  (forall L, om_find a (links_ t) = Some L -> link_wf L -> L_outbound (f L) = L_outbound L /\
     channel_id_ (L_chan (f L)) = channel_id_ (L_chan L) /\ link_wf (f L)) ->
  transit_wf (upd_link a f t).
Proof.
  intros Hw Hf. unfold upd_link. destruct (om_find a (links_ t)) as [L|] eqn:HL; [|done].
  pose proof Hw as [H1 H2 H3 H4 H5 H6 H7]. destruct (Hf L eq_refl (H4 a L HL)) as (Hs & Hid & Hwf).
  assert (Hget : forall b, om_find b (links_ (set_links (om_insert a (f L) (links_ t)) t)) =
    if decide (b = a) then Some (f L) else om_find b (links_ t)).
  { intros b. simpl. case_decide as Hb; [rewrite Hb; apply om_find_insert_eq | by apply om_find_insert_ne]. }
  constructor.
  - by apply om_ok_insert.
  - done.
  - done.
  - intros b L'. rewrite Hget. case_decide; [by intros [= <-] | by apply H4].
  - intros id b Hb. rewrite Hget. destruct (H5 id b Hb) as (L' & HL' & ? & ?). case_decide; [|by exists L'].
    subst b. rewrite HL in HL'. injection HL' as <-. exists (f L). by rewrite Hs, Hid.
  - intros b L'. rewrite Hget. case_decide as Hb; [|by apply H6]. subst b. intros [= <-]. rewrite Hs, Hid. by apply H6.
  - intros ing b Hb. rewrite Hget. destruct (H7 ing b Hb) as (L' & HL' & ?). case_decide; [|by exists L'].
    subst b. rewrite HL in HL'. injection HL' as <-. exists (f L). by rewrite Hs.
Qed.
Lemma upd_link_tables a f t : outbound_by_outport_ (upd_link a f t) = outbound_by_outport_ t /\
  inbound_by_ingress_ (upd_link a f t) = inbound_by_ingress_ t /\ tr_timers (upd_link a f t) = tr_timers t /\
  tr_config (upd_link a f t) = tr_config t /\ tr_wire (upd_link a f t) = tr_wire t.
Proof. unfold upd_link. by destruct (om_find a (links_ t)). Qed.
Lemma upd_link_find a f t b : om_find b (links_ (upd_link a f t)) =
  if decide (b = a) then f <$> om_find a (links_ t) else om_find b (links_ t).
Proof.
  unfold upd_link. destruct (om_find a (links_ t)) as [L|] eqn:HL; case_decide as Hb; try subst b; simpl; try done.
  - apply om_find_insert_eq.
  - by apply om_find_insert_ne.
Qed.

(** A send is a change of a channel and a write. *)
Section transit.
Context {rt : ZdsRuntime} {T : Transport} {host : Host}.

Lemma send_link_eq a buf t : send_link a buf t =
  match om_find a (links_ t) with
  | Some L => let '(_, c, w) := sendBytes buf (tr_wire t) (L_chan L) in set_tr_wire w (upd_link a (set_chan c) t)
  | None => t
  end.
Proof. unfold send_link, upd_link. destruct (om_find a (links_ t)) as [L|]; [|done]. by destruct (sendBytes _ _ _) as [[??]?]. Qed.

Lemma send_keeps_chan buf sent c : let c' := snd (fst (sendBytes buf sent c)) in
  channel_id_ c' = channel_id_ c /\ kind_ c' = kind_ c /\ connected_ c' = connected_ c /\ tcp_ptr_ c' = tcp_ptr_ c.
Proof. unfold sendBytes, tcp_sendBytes, utp_sendBytes. repeat case_match; by simplify_eq. Qed.

Lemma wf_send_link a buf t : transit_wf t -> transit_wf (send_link a buf t).
Proof.
  intros Hw. rewrite send_link_eq. destruct (om_find a (links_ t)) as [L|] eqn:HL; [|done].
  pose proof (send_keeps_chan buf (tr_wire t) (L_chan L)) as Hk.
  destruct (sendBytes buf (tr_wire t) (L_chan L)) as [[r c] w]. cbn [fst snd] in Hk. destruct Hk as (H1 & H2 & H3 & H4).
  apply (wf_same (upd_link a (set_chan c) t)); try done. apply wf_upd_link; [done|].
  intros L' HL' [? [? ?] ?]. rewrite HL in HL'. injection HL' as <-. split; [done|]. split; [done|].
  constructor; simpl; [by rewrite H2 | split; by rewrite ?H2, ?H3, ?H4 | done].
Qed.
Lemma send_link_tables a buf t : outbound_by_outport_ (send_link a buf t) = outbound_by_outport_ t /\
  inbound_by_ingress_ (send_link a buf t) = inbound_by_ingress_ t /\ tr_timers (send_link a buf t) = tr_timers t /\
  tr_config (send_link a buf t) = tr_config t.
Proof. unfold send_link. destruct (om_find a (links_ t)) as [L|]; [|done]. by destruct (sendBytes _ _ _) as [[??]?]. Qed.

Lemma wf_set_inbound ing a L t : transit_wf t -> om_find a (links_ t) = Some L -> L_outbound L = false ->
  transit_wf (set_inbound (om_insert ing a (inbound_by_ingress_ t)) t).
Proof.
  intros [H1 H2 H3 H4 H5 H6 H7] HL Ho. constructor; try done; [by apply om_ok_insert|]. simpl. intros i b.
  destruct (decide (i = ing)) as [->|]; [rewrite om_find_insert_eq; intros [= <-]; by exists L|].
  rewrite om_find_insert_ne by done. apply H7.
Qed.

(** ** Forwarding *)
Definition sides_kept t t' : Prop :=
  (forall b, (fun L => (L_outbound L, L_buffer L)) <$> om_find b (links_ t') = (fun L => (L_outbound L, L_buffer L)) <$> om_find b (links_ t)) /\
  outbound_by_outport_ t' = outbound_by_outport_ t /\ tr_timers t' = tr_timers t /\ tr_config t' = tr_config t.
Lemma sides_refl t : sides_kept t t. Proof. done. Qed.
Lemma sides_trans t t' t'' : sides_kept t t' -> sides_kept t' t'' -> sides_kept t t''.
Proof.
  intros (A1 & A2 & A3 & A4) (B1 & B2 & B3 & B4).
  split_and!; [intros b; by rewrite B1, A1 | by rewrite B2, A2 | by rewrite B3, A3 | by rewrite B4, A4].
Qed.
Lemma sides_send a buf t : sides_kept t (send_link a buf t).
Proof.
  destruct (send_link_tables a buf t) as (H1 & _ & H3 & H4). split_and!; try done. intros b. rewrite send_link_eq.
  destruct (om_find a (links_ t)) as [L|] eqn:HL; [|done]. destruct (sendBytes _ _ _) as [[r c] w].
  change (links_ (set_tr_wire w (upd_link a (set_chan c) t))) with (links_ (upd_link a (set_chan c) t)).
  rewrite upd_link_find. case_decide; [subst b; by rewrite HL | done].
Qed.
Lemma sides_find t t' a L : sides_kept t t' -> om_find a (links_ t) = Some L ->
  exists L', om_find a (links_ t') = Some L' /\ L_outbound L' = L_outbound L /\ L_buffer L' = L_buffer L.
Proof.
  intros (Hb & _) HL. specialize (Hb a). rewrite HL in Hb. destruct (om_find a (links_ t')) as [L'|]; [|done].
  injection Hb as ? ?. by exists L'.
Qed.

Lemma route_spec a ob hdr hr fr t L : transit_wf t -> om_find a (links_ t) = Some L -> L_outbound L = ob ->
  transit_wf (route a ob hdr hr fr t) /\ sides_kept t (route a ob hdr hr fr t).
Proof.
  intros Hw HL Ho. unfold route. destruct (isHello hdr).
  { destruct ob; simpl; [done|]. destruct (zds_unpack_FgwHello _ _) as [len h].
    destruct (_ && _); [|done]. split; [by eapply wf_set_inbound | done]. }
  destruct (isHeartbeat hdr || isAck hdr); [done|]. destruct ob; simpl.
  { destruct (findInbound _ t) as [d|]; [|done]. split; [by apply wf_send_link | by apply sides_send]. }
  set (t1 := set_inbound _ t). assert (Hw1 : transit_wf t1) by (by eapply wf_set_inbound).
  destruct (findOutbound _ t1) as [d|]; [|done].
  split; [by apply wf_send_link | apply (sides_trans t t1); [done | by apply sides_send]].
Qed.

(** The loop is the fold over the cut. *)
Definition route_in (a : Z) (ob : bool) t (f : frame_in) : TransitService := route a ob (f_hdr f) (f_hr f) (f_bytes f) t.
Definition route_all (a : Z) (ob : bool) (fs : list frame_in) t : TransitService := fold_left (route_in a ob) fs t.
Lemma link_loop_split fuel : forall a ob buf t, (length buf < fuel)%nat ->
  link_loop fuel a ob buf t = Some (default [] (snd (split_frames buf)), route_all a ob (fst (split_frames buf)) t).
Proof.
  induction fuel as [|fuel IH]; intros a ob buf t Hf; [lia|].
  rewrite split_frames_eq. cbn [link_loop]. unfold next_frame.
  pose proof (next_Got buf) as Hgot. unfold next_frame in Hgot.
  destruct (zlen buf <? LEGACY_HEADER_SIZE); [done|].
  destruct (fgwSegmentPeekHeader buf (zlen buf) FgwSegmentHeader_default) as [hr hdr].
  destruct (is_err hr ZFGW_ERRCODE_BADSEGMENT); [done|].
  destruct (hr =? 0); [done|].
  destruct (zlen buf <? hr + h_payload_len hdr); [done|].
  specialize (Hgot _ _ eq_refl). pose proof (got_shrinks _ _ _ Hgot). cbv zeta. rewrite IH by lia.
  by destruct (split_frames (drop (Z.to_nat (hr + h_payload_len hdr)) buf)) as [fs r].
Qed.
Lemma onLinkBytes_split a buf t L : om_find a (links_ t) = Some L ->
  let b := L_buffer L ++ buf in
  onLinkBytes a buf t = upd_link a (set_buffer (default [] (snd (split_frames b))))
    (route_all a (L_outbound L) (fst (split_frames b)) t).
Proof. intros HL. cbv zeta. unfold onLinkBytes. rewrite HL. by rewrite link_loop_split by lia. Qed.

Lemma route_all_spec a ob fs : forall t L, transit_wf t -> om_find a (links_ t) = Some L -> L_outbound L = ob ->
  transit_wf (route_all a ob fs t) /\ sides_kept t (route_all a ob fs t).
Proof.
  induction fs as [|f fs IH]; intros t L Hw HL Ho; [done|]. unfold route_all in *. cbn [fold_left].
  destruct (route_spec a ob (f_hdr f) (f_hr f) (f_bytes f) t L Hw HL Ho) as [Hw1 Hs1]. fold (route_in a ob t f) in Hw1, Hs1.
  destruct (sides_find _ _ _ _ Hs1 HL) as (L1 & HL1 & Ho1 & _).
  destruct (IH (route_in a ob t f) L1 Hw1 HL1) as [Hw2 Hs2]; [congruence|]. split; [done | by eapply sides_trans].
Qed.

Lemma onLinkBytes_spec a buf t : transit_wf t -> transit_wf (onLinkBytes a buf t) /\
  outbound_by_outport_ (onLinkBytes a buf t) = outbound_by_outport_ t /\ tr_timers (onLinkBytes a buf t) = tr_timers t /\
  tr_config (onLinkBytes a buf t) = tr_config t.
Proof.
  intros Hw. destruct (om_find a (links_ t)) as [L|] eqn:HL; [|unfold onLinkBytes; by rewrite HL].
  rewrite (onLinkBytes_split a buf t L HL). set (b := L_buffer L ++ buf).
  destruct (route_all_spec a (L_outbound L) (fst (split_frames b)) t L Hw HL eq_refl) as [Hw1 (_ & Ho & Ht & Hc)].
  set (t1 := route_all a (L_outbound L) (fst (split_frames b)) t) in *.
  destruct (upd_link_tables a (set_buffer (default [] (snd (split_frames b)))) t1) as (E1 & _ & E2 & E3 & _).
  split_and!; try congruence. apply wf_upd_link; [done|]. intros L' _ [? ? ?]. split; [done|]. split; [done|].
  constructor; try done. simpl. destruct (split_frames b) as [fs [r|]] eqn:Hs; simpl; [by eapply split_rest_bound | done].
Qed.
End transit.

(** ** Links that come and go *)
Section tables.
Context {rt : ZdsRuntime} {T : Transport} {host : Host}.

Lemma objects_find t a : om_find a (links_ t) <> None -> objects t !! a <> None.
Proof.
  unfold objects. induction (links_ t) as [|[b L] m IH]; simpl; [done|]. destruct (Z.eqb_spec a b) as [->|Hne].
  - intros _. by rewrite lookup_insert_eq.
  - intros Hf. rewrite lookup_insert_ne by done. by apply IH.
Qed.
Lemma alloc_new t : om_find (alloc (objects t)) (links_ t) = None.
Proof.
  destruct (om_find (alloc (objects t)) (links_ t)) as [L|] eqn:HL; [|done]. exfalso.
  apply (objects_find t (alloc (objects t))); [by rewrite HL | apply alloc_free].
Qed.

(** A link that leaves takes its routes with it. *)
Lemma wf_erase_link old t : transit_wf t ->
  transit_wf (set_links (om_erase old (links_ t))
    (set_inbound (not_naming old (inbound_by_ingress_ t)) (set_outbound (not_naming old (outbound_by_outport_ t)) t))).
Proof.
  intros [H1 H2 H3 H4 H5 H6 H7].
  assert (Hget : forall b L, om_find b (om_erase old (links_ t)) = Some L <-> om_find b (links_ t) = Some L /\ b <> old).
  { intros b L. destruct (decide (b = old)) as [->|Hne]; [rewrite om_find_erase_eq; naive_solver|].
    rewrite om_find_erase_ne by done. naive_solver. }
  constructor; cbn [links_ outbound_by_outport_ inbound_by_ingress_ set_links set_inbound set_outbound].
  - by apply om_ok_erase.
  - by apply om_ok_filter.
  - by apply om_ok_filter.
  - intros a L [HL _]%Hget. by apply (H4 a).
  - intros id a [Ha Hne]%om_find_not_naming; [|done]. destruct (H5 id a Ha) as (L & HL & ?). exists L. by rewrite Hget.
  - intros a L [HL Hne]%Hget Ho. apply om_find_not_naming; [done|]. split; [by apply H6 | done].
  - intros ing a [Ha Hne]%om_find_not_naming; [|done]. destruct (H7 ing a Ha) as (L & HL & ?). exists L. by rewrite Hget.
Qed.

(** A new link, dialed for an outport that has none, or accepted. *)
Lemma wf_add a L t : transit_wf t -> om_find a (links_ t) = None -> link_wf L ->
  (L_outbound L = true -> om_find (channel_id_ (L_chan L)) (outbound_by_outport_ t) = None) ->
  transit_wf (set_outbound (if L_outbound L then om_insert (channel_id_ (L_chan L)) a (outbound_by_outport_ t) else outbound_by_outport_ t)
    (set_links (om_insert a L (links_ t)) t)).
Proof.
  intros [H1 H2 H3 H4 H5 H6 H7] Ha HL Hnew.
  assert (Hget : forall b, om_find b (om_insert a L (links_ t)) = if decide (b = a) then Some L else om_find b (links_ t)).
  { intros b. case_decide as Hb; [rewrite Hb; apply om_find_insert_eq | by apply om_find_insert_ne]. }
  constructor; cbn [links_ outbound_by_outport_ inbound_by_ingress_ set_links set_inbound set_outbound].
  - by apply om_ok_insert.
  - destruct (L_outbound L); [by apply om_ok_insert | done].
  - done.
  - intros b L'. rewrite Hget. case_decide; [by intros [= <-] | by apply H4].
  - intros id b Hb. rewrite Hget. assert (Hold : om_find id (outbound_by_outport_ t) = Some b -> b <> a /\
      exists L', om_find b (links_ t) = Some L' /\ L_outbound L' = true /\ channel_id_ (L_chan L') = id).
    { intros Hf. destruct (H5 id b Hf) as (L' & HL' & ?). split; [intros ->; congruence | by exists L']. }
    destruct (L_outbound L) eqn:Ho.
    + destruct (decide (id = channel_id_ (L_chan L))) as [->|Hne].
      * rewrite om_find_insert_eq in Hb. injection Hb as <-. exists L. by rewrite decide_True.
      * rewrite om_find_insert_ne in Hb by done. destruct (Hold Hb). by rewrite decide_False.
    + destruct (Hold Hb). by rewrite decide_False.
  - intros b L'. rewrite Hget. case_decide as Hb.
    + intros [= <-] Ho. subst b. rewrite Ho. apply om_find_insert_eq.
    + intros HL' Ho'. destruct (L_outbound L) eqn:Ho; [|by apply H6].
      rewrite om_find_insert_ne; [by apply H6|]. intros Heq. specialize (Hnew eq_refl). rewrite <- Heq in Hnew.
      specialize (H6 b L' HL' Ho'). congruence.
  - intros ing b Hb. destruct (H7 ing b Hb) as (L' & HL' & ?). exists L'.
    rewrite Hget, decide_False; [done | intros ->; congruence].
Qed.

Lemma link_wf_new c ob : kind_ c = ZFGW_CHANNEL_TCP -> chan_ok c -> link_wf (mkLink c ob []).
Proof. intros H1 H2. constructor; [done | done | by vm_compute]. Qed.

Lemma not_naming_out old id t : transit_wf t -> om_find id (outbound_by_outport_ t) = Some old ->
  not_naming old (outbound_by_outport_ t) = om_erase id (outbound_by_outport_ t).
Proof.
  intros [H1 H2 H3 H4 H5 H6 H7] Hf. apply om_ext; [by apply om_ok_filter | by apply om_ok_erase|]. intros k.
  destruct (decide (k = id)) as [->|Hne].
  - rewrite om_find_erase_eq. destruct (om_find id (not_naming old _)) as [b|] eqn:Hb; [|done].
    apply om_find_not_naming in Hb as [? ?]; [congruence | done].
  - rewrite om_find_erase_ne by done. destruct (om_find k (outbound_by_outport_ t)) as [b|] eqn:Hb.
    + apply om_find_not_naming; [done|]. split; [done|]. intros ->. destruct (H5 _ _ Hb) as (L & HL & _ & <-).
      destruct (H5 _ _ Hf) as (L' & HL' & _ & <-). congruence.
    + destruct (om_find k (not_naming old _)) as [b|] eqn:Hb'; [|done].
      apply om_find_not_naming in Hb' as [? _]; [congruence | done].
Qed.
Lemma not_naming_in old L t : transit_wf t -> om_find old (links_ t) = Some L -> L_outbound L = true ->
  not_naming old (inbound_by_ingress_ t) = inbound_by_ingress_ t.
Proof.
  intros [H1 H2 H3 H4 H5 H6 H7] HL Ho. apply om_ext; [by apply om_ok_filter | done|]. intros k.
  destruct (om_find k (inbound_by_ingress_ t)) as [b|] eqn:Hb.
  - apply om_find_not_naming; [done|]. split; [done|]. intros ->. destruct (H7 _ _ Hb) as (L' & HL' & Ho'). congruence.
  - destruct (om_find k (not_naming old _)) as [b|] eqn:Hb'; [|done]. apply om_find_not_naming in Hb' as [? _]; [congruence | done].
Qed.

(** The dial replaces the link of its outport. *)
Lemma om_insert_erase (m : omap Z) k v : om_ok m -> om_insert k v (om_erase k m) = om_insert k v m.
Proof.
  intros Hm. apply om_ext; [by apply om_ok_insert, om_ok_erase | by apply om_ok_insert|]. intros j.
  destruct (decide (j = k)) as [->|]; [by rewrite !om_find_insert_eq|].
  by rewrite !om_find_insert_ne, om_find_erase_ne.
Qed.
Definition without_outport (id : Z) t : TransitService :=
  match findOutbound id t with
  | Some old => set_links (om_erase old (links_ t)) (set_inbound (not_naming old (inbound_by_ingress_ t))
      (set_outbound (not_naming old (outbound_by_outport_ t)) t))
  | None => t
  end.
Lemma without_spec id t : transit_wf t -> transit_wf (without_outport id t) /\
  om_find id (outbound_by_outport_ (without_outport id t)) = None /\
  (forall k, k <> id -> om_find k (outbound_by_outport_ (without_outport id t)) = om_find k (outbound_by_outport_ t)) /\
  tr_timers (without_outport id t) = tr_timers t /\ tr_config (without_outport id t) = tr_config t.
Proof.
  intros Hw. unfold without_outport, findOutbound. destruct (om_find id (outbound_by_outport_ t)) as [old|] eqn:Hf; [|done].
  split; [by apply wf_erase_link|]. cbn [outbound_by_outport_ set_links set_inbound set_outbound].
  rewrite (not_naming_out old id t Hw Hf). split_and!; [apply om_find_erase_eq | intros k Hk; by apply om_find_erase_ne | done..].
Qed.

(** The dial in one piece: the outport's new link, then perhaps a retry. *)
Definition dialed_link (ccfg : FgwChannelConfig) t : Link * Z :=
  let '(c, ret) := connect (tr_next_socket t) (cc_remote ccfg) (new_channel ZFGW_CHANNEL_TCP (cc_channel_id ccfg) (cc_priority ccfg)) in
  (mkLink c true [], ret).
Lemma dial_eq ccfg t : transit_wf t -> let id := cc_channel_id ccfg in let t0 := without_outport id t in
  let '(L, ret) := dialed_link ccfg t in
  let t' := set_ids (tr_accepted_seq t) (tr_next_socket t + 1)
    (set_outbound (om_insert id (alloc (objects t)) (outbound_by_outport_ t0)) (set_links (om_insert (alloc (objects t)) L (links_ t0)) t0)) in
  dialOneOutport ccfg t = (if ret <? 0 then scheduleOutportRedial id t' else t') /\
  om_find (alloc (objects t)) (links_ t0) = None.
Proof.
  intros Hw. cbv zeta. pose proof (alloc_new t) as Hnew. unfold dialed_link, dialOneOutport, without_outport.
  set (a := alloc (objects t)) in *. set (id := cc_channel_id ccfg). destruct (findOutbound id t) as [old|] eqn:Hf; unfold findOutbound in Hf.
  - destruct (tw_out _ Hw id old Hf) as (L0 & HL0 & Ho & _).
    cbn [tr_next_socket set_links set_outbound]. destruct (connect _ _ _) as [c ret].
    assert (Hne : a <> old) by (intros ->; congruence).
    split; [|cbn; by rewrite om_find_erase_ne].
    unfold upd_link. cbn [links_ set_links set_outbound set_inbound tr_accepted_seq tr_next_socket].
    rewrite om_find_insert_eq. cbn [outbound_by_outport_ set_links set_inbound set_outbound].
    rewrite (not_naming_out old id t Hw Hf), om_insert_erase by apply (tw_out_ok _ Hw). rewrite (not_naming_in old L0 t Hw HL0 Ho).
    assert (Hdup : forall x y, om_insert a x (om_insert a y (om_erase old (links_ t))) = om_insert a x (om_erase old (links_ t))).
    { intros x y. apply om_ext; [by apply om_ok_insert, om_ok_insert, om_ok_erase, (tw_links _ Hw) | by apply om_ok_insert, om_ok_erase, (tw_links _ Hw)|].
      intros k. destruct (decide (k = a)) as [->|]; [by rewrite !om_find_insert_eq | by rewrite !om_find_insert_ne]. }
    unfold set_chan. cbn [L_outbound L_buffer]. destruct t; cbn in *. by rewrite Hdup.
  - cbn [tr_next_socket set_links set_outbound]. destruct (connect _ _ _) as [c ret]. split; [|done].
    unfold upd_link. cbn [links_ set_links set_outbound set_inbound tr_accepted_seq tr_next_socket].
    rewrite om_find_insert_eq.
    assert (Hdup : forall x y, om_insert a x (om_insert a y (links_ t)) = om_insert a x (links_ t)).
    { intros x y. apply om_ext; [by apply om_ok_insert, om_ok_insert, (tw_links _ Hw) | by apply om_ok_insert, (tw_links _ Hw)|].
      intros k. destruct (decide (k = a)) as [->|]; [by rewrite !om_find_insert_eq | by rewrite !om_find_insert_ne]. }
    unfold set_chan. cbn [L_outbound L_buffer]. destruct t; cbn in *. by rewrite Hdup.
Qed.
End tables.

(** ** No outport is forgotten *)
Section healing.
Context {rt : ZdsRuntime} {T : Transport} {host : Host}.

(** Each configured outport has a link in the table or a redial pending. *)
Definition healing t : Prop := forall c, In c (cfg_channels (tr_config t)) ->
  om_mem (cc_channel_id c) (outbound_by_outport_ t) = true \/ exists ms, In (ms, JobRedial (cc_channel_id c)) (tr_timers t).
Definition transit_ok t : Prop := transit_wf t /\ healing t.

Lemma wf_redial id t : transit_wf t -> transit_wf (scheduleOutportRedial id t).
Proof. by apply wf_same. Qed.
Lemma connect_tcp_ok fresh remote id prio : let c := fst (connect fresh remote (new_channel ZFGW_CHANNEL_TCP id prio)) in
  channel_id_ c = id /\ kind_ c = ZFGW_CHANNEL_TCP /\ chan_ok c.
Proof. done. Qed.
Lemma dialed_link_ok ccfg t : let L := fst (dialed_link ccfg t) in
  link_wf L /\ L_outbound L = true /\ channel_id_ (L_chan L) = cc_channel_id ccfg.
Proof.
  unfold dialed_link. pose proof (connect_tcp_ok (tr_next_socket t) (cc_remote ccfg) (cc_channel_id ccfg) (cc_priority ccfg)) as (H1 & H2 & H3).
  destruct (connect _ _ _) as [c ret]. cbn [fst] in *. split; [by apply link_wf_new | done].
Qed.

Lemma dial_spec ccfg t (t' := dialOneOutport ccfg t) : transit_wf t -> transit_wf t' /\ tr_config t' = tr_config t /\
  om_mem (cc_channel_id ccfg) (outbound_by_outport_ t') = true /\
  (forall k, om_mem k (outbound_by_outport_ t) = true -> om_mem k (outbound_by_outport_ t') = true) /\
  (forall e, In e (tr_timers t) -> In e (tr_timers t')).
Proof.
  intros Hw. pose proof (dial_eq ccfg t Hw) as Heq. pose proof (dialed_link_ok ccfg t) as (HL & Ho & Hid). cbv zeta in Heq.
  destruct (dialed_link ccfg t) as [L ret]. cbn [fst] in *. destruct Heq as [Heq Hnew]. unfold t'. rewrite Heq. clear t'.
  destruct (without_spec (cc_channel_id ccfg) t Hw) as (Hw0 & Hn & Hoth & Ht & Hc). set (t0 := without_outport _ t) in *.
  set (t1 := set_ids _ _ _).
  assert (Hw1 : transit_wf t1).
  { eapply wf_same; [| | |apply (wf_add (alloc (objects t)) L t0 Hw0 Hnew HL)]; rewrite ?Ho, ?Hid; done. }
  assert (Hm : forall k, om_mem k (outbound_by_outport_ t1) = (k =? cc_channel_id ccfg) || om_mem k (outbound_by_outport_ t0)).
  { intros k. apply om_mem_insert. }
  assert (Hall : transit_wf t1 /\ tr_config t1 = tr_config t /\ om_mem (cc_channel_id ccfg) (outbound_by_outport_ t1) = true /\
    (forall k, om_mem k (outbound_by_outport_ t) = true -> om_mem k (outbound_by_outport_ t1) = true) /\ tr_timers t1 = tr_timers t).
  { split_and!; [done | done | by rewrite Hm, Z.eqb_refl | | done]. intros k Hk. rewrite Hm.
    destruct (Z.eqb_spec k (cc_channel_id ccfg)) as [|Hne]; [done|]. unfold om_mem. by rewrite Hoth. }
  destruct Hall as (A1 & A2 & A3 & A4 & A5). destruct (ret <? 0).
  - split_and!; [by apply wf_redial | done..|]. intros e He. cbn. apply in_or_app. left. by rewrite Ht.
  - split_and!; [done..|]. intros e He. by rewrite A5.
Qed.

Lemma ok_dial ccfg t : transit_ok t -> transit_ok (dialOneOutport ccfg t).
Proof.
  intros [Hw Hh]. destruct (dial_spec ccfg t Hw) as (Hw' & Hc & _ & Hm & Ht). split; [done|].
  intros c Hin. rewrite Hc in Hin. destruct (Hh c Hin) as [?|[ms ?]]; [left; by apply Hm | right; exists ms; by apply Ht].
Qed.

Lemma wf_accept t : transit_wf t -> transit_wf (makeInboundChannel t).
Proof.
  intros Hw. unfold makeInboundChannel. set (L := mkLink _ false []).
  assert (HL : link_wf L) by (by apply link_wf_new).
  eapply wf_same; [| | |apply (wf_add (alloc (objects t)) L t Hw (alloc_new t) HL)]; done.
Qed.

Lemma naming_key a k L t : transit_wf t -> om_find a (links_ t) = Some L -> In k (om_keys (naming a (outbound_by_outport_ t))) ->
  L_outbound L = true /\ k = channel_id_ (L_chan L).
Proof.
  intros Hw HL. unfold om_keys. rewrite in_map_iff. intros ([k' b] & <- & [Hin Hb%Z.eqb_eq]%filter_In). cbn in *. subst b.
  apply om_find_ok_In in Hin; [|apply (tw_out_ok _ Hw)]. destruct (tw_out _ Hw _ _ Hin) as (L' & HL' & ? & ?). naive_solver congruence.
Qed.
Lemma last_in {A} (l : list A) x : In x l -> exists y, last l = Some y /\ In y l.
Proof.
  destruct l as [|z l] using rev_ind; [done|]. intros _. exists z. rewrite last_snoc. split; [done|]. apply in_or_app. by right; left.
Qed.

Lemma ok_drop a t : transit_ok t -> transit_ok (drop_link a t).
Proof.
  intros [Hw Hh]. unfold drop_link. destruct (om_find a (links_ t)) as [L|] eqn:HL; [|done].
  pose proof (wf_erase_link a t Hw) as Hw'. set (oid := last _).
  set (t1 := set_links _ _). assert (Hw1 : transit_wf t1) by (by eapply wf_same; [| | |exact Hw']).
  assert (Hgo : transit_wf (match oid with Some id => if L_outbound L then scheduleOutportRedial id t1 else t1 | None => t1 end) /\
    tr_config (match oid with Some id => if L_outbound L then scheduleOutportRedial id t1 else t1 | None => t1 end) = tr_config t).
  { destruct oid; [|done]. destruct (L_outbound L); [split; [by apply wf_redial | done] | done]. }
  destruct Hgo as [Hg Hc]. split; [done|]. intros c Hin. rewrite Hc in Hin.
  destruct (Hh c Hin) as [Hm|[ms Hms]].
  - unfold om_mem in Hm. destruct (om_find (cc_channel_id c) (outbound_by_outport_ t)) as [b|] eqn:Hb; [|done].
    destruct (decide (b = a)) as [->|Hne].
    + right. assert (Hk : In (cc_channel_id c) (om_keys (naming a (outbound_by_outport_ t)))).
      { apply in_map_iff. exists (cc_channel_id c, a). split; [done|]. apply filter_In. split; [by apply om_find_In | apply Z.eqb_refl]. }
      destruct (naming_key a _ L t Hw HL Hk) as [Ho Hid]. destruct (last_in _ _ Hk) as (y & Hy & Hiny).
      destruct (naming_key a y L t Hw HL Hiny) as [_ Hy2]. unfold oid. rewrite Hy, Ho. eexists. cbn. apply in_or_app. right. left.
      by rewrite Hy2, Hid.
    + left. assert (Hf : om_find (cc_channel_id c) (outbound_by_outport_ t1) = Some b) by (by apply om_find_not_naming; [apply (tw_out_ok _ Hw)|]).
      unfold om_mem. destruct oid as [id|]; [destruct (L_outbound L)|]; cbn in *; by rewrite Hf.
  - right. exists ms. destruct oid as [id|]; [destruct (L_outbound L)|]; try done. cbn. apply in_or_app. by left.
Qed.

Lemma find_config_in c cfg : In c (cfg_channels cfg) -> exists c', find_config (cc_channel_id c) cfg = Some c' /\ cc_channel_id c' = cc_channel_id c.
Proof.
  intros Hin. unfold find_config. destruct (List.find _ (cfg_channels cfg)) as [c'|] eqn:Hf.
  - apply List.find_some in Hf as [_ Hf%Z.eqb_eq]. by exists c'.
  - pose proof (List.find_none _ _ Hf c Hin) as Hn. cbn in Hn. by rewrite Z.eqb_refl in Hn.
Qed.

Lemma ok_fire i t : transit_ok t -> transit_ok (fire_transit i t).
Proof.
  intros [Hw Hh]. unfold fire_transit. destruct (tr_timers t !! i) as [[ms j]|] eqn:Hi; [|done].
  set (t0 := set_tr_timers _ t). assert (Hw0 : transit_wf t0) by (by apply (wf_same t)).
  assert (Hrest : forall e, In e (tr_timers t) -> e = (ms, j) \/ In e (tr_timers t0)).
  { intros e He. apply list_elem_of_In, list_elem_of_lookup in He as [k Hk]. destruct (decide (k = i)) as [->|Hne].
    - left. congruence.
    - right. apply list_elem_of_In, list_elem_of_lookup. cbn. destruct (decide (k < i)%nat).
      + exists k. by rewrite list_lookup_delete_lt.
      + exists (k - 1)%nat. rewrite list_lookup_delete_ge by lia. by replace (S (k - 1)) with k by lia. }
  destruct j as [a|id].
  - apply ok_drop. split; [done|]. intros c Hin. destruct (Hh c Hin) as [?|[ms' Hms]]; [by left|].
    right. exists ms'. by destruct (Hrest _ Hms) as [[=]|].
  - simpl. destruct (find_config id (tr_config t)) as [cfg'|] eqn:Hf.
    + destruct (dial_spec cfg' t0 Hw0) as (Hw' & Hc & Hme & Hm & Ht). split; [done|]. intros c Hin. rewrite Hc in Hin.
      destruct (Hh c Hin) as [?|[ms' Hms]]; [left; by apply Hm|].
      destruct (Hrest _ Hms) as [[= _ Hid]|?]; [|right; exists ms'; by apply Ht].
      left. apply List.find_some in Hf as [_ Hf%Z.eqb_eq]. rewrite Hid, <- Hf. exact Hme.
    + split; [done|]. intros c Hin. destruct (Hh c Hin) as [?|[ms' Hms]]; [by left|].
      destruct (Hrest _ Hms) as [[= _ Hid]|?]; [|right; by exists ms'].
      destruct (find_config_in c (tr_config t) Hin) as (c' & Hc' & _). congruence.
Qed.

Lemma ok_same t t' : transit_wf t' -> outbound_by_outport_ t' = outbound_by_outport_ t -> tr_config t' = tr_config t ->
  (forall e, In e (tr_timers t) -> In e (tr_timers t')) -> transit_ok t -> transit_ok t'.
Proof.
  intros Hw Ho Hc Ht [_ Hh]. split; [done|]. intros c Hin. rewrite Hc in Hin. rewrite Ho.
  destruct (Hh c Hin) as [?|[ms ?]]; [by left | right; exists ms; by apply Ht].
Qed.
Lemma ok_upd_link a f t : transit_ok t ->
  (forall L, om_find a (links_ t) = Some L -> link_wf L -> L_outbound (f L) = L_outbound L /\
     channel_id_ (L_chan (f L)) = channel_id_ (L_chan L) /\ link_wf (f L)) -> transit_ok (upd_link a f t).
Proof.
  intros Hok Hf. destruct (upd_link_tables a f t) as (H1 & _ & H3 & H4 & _).
  apply (ok_same t); [by apply wf_upd_link; [apply Hok|] | done | done | by rewrite H3 | done].
Qed.
Lemma ok_tick t : transit_ok t -> transit_ok (transit_tick t).
Proof.
  unfold transit_tick. generalize (om_keys (links_ t)) as as_. intros as_. revert t.
  induction as_ as [|a as_ IH]; intros t Hok; [done|]. cbn [fold_left]. apply IH. unfold tick_one.
  destruct (om_find a (links_ t)); [|done]. destruct (connected_ _); [|done]. unfold transit_heartbeat.
  destruct (heartbeat_frame _) as [fr|]; [|done]. destruct (send_link_tables a fr t) as (H1 & _ & H3 & H4).
  apply (ok_same t); [by apply wf_send_link, Hok | done | done | by rewrite H3 | done].
Qed.

Lemma ok_do s t : transit_ok t -> transit_ok (transit_do s t).
Proof.
  intros Hok. destruct s as [a now|a now buf|a| |i|]; cbn [transit_do].
  - destruct (link_owned a t) eqn:Ho; [|done]. apply ok_upd_link; [done|]. intros L HL [Hk [H1 H2] Hb].
    split; [done|]. split; [done|]. constructor; [done | | done]. unfold link_owned in Ho. rewrite HL in Ho.
    split; [|done]. intros _ Hn. cbn in Hn. by rewrite Hn in Ho.
  - destruct (link_owned a t); [|done]. set (t1 := upd_link _ _ t).
    assert (Hok1 : transit_ok t1) by (apply ok_upd_link; [done|]; intros L _ [? ? ?]; done).
    destruct (onLinkBytes_spec a buf t1 (proj1 Hok1)) as (Hw & H1 & H2 & H3).
    apply (ok_same t1); [done | done | done | by rewrite H2 | done].
  - destruct (link_owned a t); [|done]. set (t1 := upd_link _ _ t).
    assert (Hok1 : transit_ok t1).
    { apply ok_upd_link; [done|]. intros L _ [? [? ?] ?]. split; [done|]. split; [done|]. constructor; [done | by split | done]. }
    apply (ok_same t1); [by eapply wf_same; [| | |apply Hok1] | done | done | | done].
    intros e He. cbn. apply in_or_app. by left.
  - destruct (tr_heartbeat t); [by apply ok_tick | done].
  - by apply ok_fire.
  - destruct (tr_acceptor t); [|done].
    apply (ok_same t); [by apply wf_accept, Hok | done | done | done | done].
Qed.
Lemma ok_run ss t : transit_ok t -> transit_ok (transit_run ss t).
Proof. revert t. induction ss as [|s ss IH]; intros t Hok; [done | by apply IH, ok_do]. Qed.

(** A transit that has started, whether or not it could listen. *)
Lemma ok_start ret cfg : transit_ok (snd (transit_start ret (new_transit cfg))).
Proof.
  assert (Hall : forall cs t, transit_wf t -> tr_config t = cfg ->
    (forall c, In c (cfg_channels cfg) -> In c cs \/ om_mem (cc_channel_id c) (outbound_by_outport_ t) = true) ->
    transit_ok (fold_left (fun t c => dialOneOutport c t) cs t)).
  { induction cs as [|c cs IH]; intros t Hw Hc Hin.
    - split; [done|]. intros c Hcin. cbn [fold_left] in *. rewrite Hc in Hcin. left. by destruct (Hin c Hcin).
    - destruct (dial_spec c t Hw) as (Hw' & Hc' & Hme & Hm & _). cbn [fold_left]. apply IH; [done | congruence|].
      intros c' Hc0. destruct (Hin c' Hc0) as [[<-|?]|?]; [by right | by left | right; by apply Hm]. }
  unfold transit_start. assert (Hd : transit_ok (dialOutports (new_transit cfg))).
  { apply Hall; [|done|by left]. constructor; simpl; done || apply om_ok_nil. }
  set (t := dialOutports _) in *. destruct (_ && _); [done|].
  apply (ok_same t); [by eapply wf_same; [| | |apply Hd] | done..].
Qed.
End healing.
