(* ===== verification/TransitProps.v ===== *)
(** * TransitProps: what a transit does to the traffic it carries *)
From S2P Require Import Prelude Proto OMap Segment Pack ZdsInstance Channel Selector Links.
From S2P Require Import DataStream.
From S2P Require Import Framing Testbed Sending EndToEnd Manager ManagerWf Transit TransitWf.

(** ** What is written for a segment *)
Section forward.
Context {rt : ZdsRuntime} {T : Transport} {host : Host}.

(** Hop-local segments go nowhere; the others go where the tables say. *)
Definition hop_local (h : FgwSegmentHeader) : bool := isHello h || isHeartbeat h || isAck h.
Definition next_hop t (ob : bool) (h : FgwSegmentHeader) : option Z :=
  if hop_local h then None else if ob then findInbound (h_ingress_id h) t else findOutbound (h_outport_id h) t.
(** A write on the socket of the link at [d], if it is connected. *)
Definition link_write t (d : Z) (buf : bytes) : list (Z * bytes) :=
  match om_find d (links_ t) with
  | Some L =>
    match tcp_ptr_ (L_chan L) with
    | Some p => if connected_ (L_chan L) && mb_acquire (zlen buf) then [(p, buf)] else []
    | None => []
    end
  | None => []
  end.
Definition passed t (ob : bool) (f : frame_in) : list (Z * bytes) :=
  match next_hop t ob (f_hdr f) with Some d => link_write t d (f_bytes f) | None => [] end.

(** What a forwarding step leaves of the sockets and, for a link on the side [ob], of
    the table it is routed by. *)
Definition socket_view (L : Link) : bool * option Z * Z := (connected_ (L_chan L), tcp_ptr_ (L_chan L), kind_ (L_chan L)).
Definition hops_kept (ob : bool) t t' : Prop :=
  (forall d, socket_view <$> om_find d (links_ t') = socket_view <$> om_find d (links_ t)) /\
  outbound_by_outport_ t' = outbound_by_outport_ t /\
  (ob = true -> inbound_by_ingress_ t' = inbound_by_ingress_ t).
Lemma hops_trans ob t t' t'' : hops_kept ob t t' -> hops_kept ob t' t'' -> hops_kept ob t t''.
Proof. intros (A1 & A2 & A3) (B1 & B2 & B3). split_and!; [intros d; by rewrite B1, A1 | congruence | intros Ho; by rewrite B3, A3]. Qed.

Lemma passed_kept ob t t' f : hops_kept ob t t' -> passed t' ob f = passed t ob f.
Proof.
  intros (H1 & H2 & H3). unfold passed. assert (Hn : next_hop t' ob (f_hdr f) = next_hop t ob (f_hdr f)).
  { unfold next_hop, findInbound, findOutbound. destruct (hop_local _); [done|]. destruct ob; [by rewrite H3 | by rewrite H2]. }
  rewrite Hn. destruct (next_hop t ob (f_hdr f)) as [d|]; [|done]. unfold link_write. specialize (H1 d).
  destruct (om_find d (links_ t')) as [L'|], (om_find d (links_ t)) as [L|]; try done.
  injection H1 as E1 E2 _. by rewrite E1, E2.
Qed.

Lemma send_link_writes d buf t : transit_wf t -> 0 < zlen buf ->
  tr_wire (send_link d buf t) = tr_wire t ++ link_write t d buf /\ (forall ob, hops_kept ob t (send_link d buf t)).
Proof.
  intros Hw Hl. destruct (send_link_tables d buf t) as (Ho & Hi & _ & _).
  assert (Hside : forall b, socket_view <$> om_find b (links_ (send_link d buf t)) = socket_view <$> om_find b (links_ t)).
  { intros b. rewrite send_link_eq. destruct (om_find d (links_ t)) as [L|] eqn:HL; [|done].
    destruct (send_keeps_chan buf (tr_wire t) (L_chan L)) as (_ & H2 & H3 & H4). destruct (sendBytes _ _ _) as [[r c] w]. cbn [fst snd] in *.
    change (links_ (set_tr_wire w (upd_link d (set_chan c) t))) with (links_ (upd_link d (set_chan c) t)).
    rewrite upd_link_find. case_decide; [|done]. subst b. rewrite HL. unfold socket_view. simpl. congruence. }
  split; [|by split].
  unfold send_link, link_write. destruct (om_find d (links_ t)) as [L|] eqn:HL; [|by rewrite app_nil_r].
  destruct (tw_link _ Hw d L HL) as [Hk [Hc _] _].
  unfold sendBytes, is_tcp. rewrite Hk. cbn [Z.eqb ZFGW_CHANNEL_TCP]. unfold tcp_sendBytes.
  destruct (tcp_ptr_ (L_chan L)) as [p|]; [|by rewrite app_nil_r]. destruct (connected_ (L_chan L)); simpl; [|by rewrite app_nil_r].
  destruct (Z.eqb_spec (zlen buf) 0); [lia|]. by destruct (mb_acquire (zlen buf)); simpl; [|rewrite app_nil_r].
Qed.

Lemma route_writes a ob f t L : transit_wf t -> om_find a (links_ t) = Some L -> L_outbound L = ob -> frame_shape f ->
  tr_wire (route_in a ob t f) = tr_wire t ++ passed t ob f /\ hops_kept ob t (route_in a ob t f).
Proof.
  intros Hw HL Ho [Hhr Hpl Htot _]. assert (Hlen : 0 < zlen (f_bytes f)) by lia.
  unfold route_in, route, passed, next_hop, hop_local. destruct (isHello (f_hdr f)); cbn [orb].
  { rewrite app_nil_r. destruct ob; [done|]. cbn [negb]. destruct (zds_unpack_FgwHello _ _) as [len h]. by destruct (_ && _). }
  destruct (isHeartbeat (f_hdr f) || isAck (f_hdr f)); [by rewrite app_nil_r|].
  destruct ob; cbn [negb].
  - destruct (findInbound (h_ingress_id (f_hdr f)) t) as [d|]; [|by rewrite app_nil_r].
    destruct (send_link_writes d (f_bytes f) t Hw Hlen) as [H1 H2]. split; [done | apply H2].
  - set (t1 := set_inbound _ t). assert (Hw1 : transit_wf t1) by (by eapply wf_set_inbound).
    change (findOutbound (h_outport_id (f_hdr f)) t1) with (findOutbound (h_outport_id (f_hdr f)) t).
    destruct (findOutbound (h_outport_id (f_hdr f)) t) as [d|]; [|by rewrite app_nil_r].
    destruct (send_link_writes d (f_bytes f) t1 Hw1 Hlen) as [H1 H2]. split; [done|].
    apply (hops_trans false t t1); [done | apply H2].
Qed.

Lemma route_all_writes a ob fs : forall t L, transit_wf t -> om_find a (links_ t) = Some L -> L_outbound L = ob ->
  Forall frame_shape fs ->
  tr_wire (route_all a ob fs t) = tr_wire t ++ concat (map (passed t ob) fs) /\ hops_kept ob t (route_all a ob fs t).
Proof.
  induction fs as [|f fs IH]; intros t L Hw HL Ho Hfs; [by rewrite app_nil_r|]. inversion Hfs as [|? ? Hf Hfs']; subst.
  destruct (route_writes a _ f t L Hw HL eq_refl Hf) as [H1 H2].
  destruct (route_spec a _ (f_hdr f) (f_hr f) (f_bytes f) t L Hw HL eq_refl) as [Hw1 Hs].
  fold (route_in a (L_outbound L) t f) in Hw1, Hs. set (t1 := route_in _ _ t f) in *.
  destruct (sides_find _ _ _ _ Hs HL) as (L1 & HL1 & Ho1 & _).
  destruct (IH t1 L1 Hw1 HL1 Ho1 Hfs') as [H3 H4]. unfold route_all in *. cbn [fold_left map concat]. fold t1.
  split; [|by eapply hops_trans]. rewrite H3, H1, <- app_assoc. f_equal. f_equal. f_equal. apply map_ext. intros g.
  by apply passed_kept.
Qed.

(** The way back: the inport a segment came from is where replies to it go. *)
Lemma inbound_route a f t ing : findInbound ing t = Some a \/ (hop_local (f_hdr f) = false /\ h_ingress_id (f_hdr f) = ing) ->
  findInbound ing (route_in a false t f) = Some a.
Proof.
  unfold route_in, route, hop_local. destruct (isHello (f_hdr f)); cbn [orb negb].
  { intros [Hi|[? _]]; [|done]. destruct (zds_unpack_FgwHello _ _) as [len h]. destruct (_ && _); [|done].
    unfold findInbound in *. cbn. destruct (decide (ing = hello_ingress_id h)) as [->|]; [apply om_find_insert_eq | by rewrite om_find_insert_ne]. }
  destruct (isHeartbeat (f_hdr f) || isAck (f_hdr f)); [by intros [Hi|[? _]]|]. intros Hi.
  set (t1 := set_inbound _ t). assert (H1 : findInbound ing t1 = Some a).
  { unfold findInbound in *. cbn. destruct (decide (ing = h_ingress_id (f_hdr f))) as [->|Hne]; [apply om_find_insert_eq|].
    rewrite om_find_insert_ne by done. destruct Hi as [Hi|[_ ?]]; congruence. }
  destruct (findOutbound _ t1) as [d|]; [|done]. unfold findInbound in *.
  by rewrite (proj1 (proj2 (send_link_tables d (f_bytes f) t1))).
Qed.
Lemma inbound_routes a fs : forall t ing, findInbound ing t = Some a \/
    Exists (fun f => hop_local (f_hdr f) = false /\ h_ingress_id (f_hdr f) = ing) fs ->
  findInbound ing (route_all a false fs t) = Some a.
Proof.
  induction fs as [|f fs IH]; intros t ing Hi; [by destruct Hi as [|Hi%Exists_nil]|].
  unfold route_all in *. cbn [fold_left]. apply IH. destruct Hi as [Hi|[Hf|Hfs]%Exists_cons].
  - left. apply inbound_route. by left.
  - left. apply inbound_route. by right.
  - by right.
Qed.

(** The frames and the rest are the bytes that came in. *)
Lemma split_concat buf : forall fs r, split_frames buf = (fs, Some r) -> concat (map f_bytes fs) ++ r = buf.
Proof.
  induction buf as [buf IH] using split_ind. intros fs r. rewrite split_frames_eq.
  destruct (next_frame buf) as [| |hr hdr] eqn:Hn; [by intros [= <- <-] | done|]. cbv zeta.
  specialize (IH _ _ eq_refl). destruct (split_frames (drop _ buf)) as [fs' r'] eqn:Hs. intros [= <- ->].
  simpl. by rewrite <- app_assoc, (IH _ _ eq_refl), take_drop.
Qed.

(** ** Chunking *)
Lemma upd_link_upd a f g t : om_ok (links_ t) -> upd_link a f (upd_link a g t) = upd_link a (fun L => f (g L)) t.
Proof.
  intros Hok. unfold upd_link. destruct (om_find a (links_ t)) as [L|] eqn:HL; [|by rewrite HL]. cbn [links_ set_links].
  rewrite om_find_insert_eq. unfold set_links. cbn. f_equal. apply om_ext; [by apply om_ok_insert, om_ok_insert | by apply om_ok_insert|].
  intros k. destruct (decide (k = a)) as [->|]; [by rewrite !om_find_insert_eq | by rewrite !om_find_insert_ne].
Qed.
Lemma send_buffer a r d buf t : om_ok (links_ t) ->
  send_link d buf (upd_link a (set_buffer r) t) = upd_link a (set_buffer r) (send_link d buf t).
Proof.
  intros Hok. unfold upd_link at 1. destruct (om_find a (links_ t)) as [L|] eqn:HL.
  2: { unfold upd_link. replace (om_find a (links_ (send_link d buf t))) with (@None Link); [done|].
       pose proof (sides_send d buf t) as (Hs & _). specialize (Hs a). rewrite HL in Hs. by destruct (om_find a (links_ (send_link d buf t))). }
  unfold send_link. cbn [links_ set_links]. destruct (decide (d = a)) as [->|Hne].
  - rewrite om_find_insert_eq, HL. cbn [L_chan set_buffer tr_wire set_links]. destruct (sendBytes _ _ _) as [[r0 c] w].
    unfold upd_link. cbn [links_ set_tr_wire set_links]. rewrite om_find_insert_eq. unfold set_links, set_tr_wire. cbn. f_equal.
    apply om_ext; [by apply om_ok_insert, om_ok_insert | by apply om_ok_insert, om_ok_insert|].
    intros k. destruct (decide (k = a)) as [->|]; [by rewrite !om_find_insert_eq | by rewrite !om_find_insert_ne].
  - rewrite om_find_insert_ne by done. destruct (om_find d (links_ t)) as [Ld|] eqn:Hd.
    + cbn [tr_wire set_links]. destruct (sendBytes _ _ _) as [[r0 c] w]. unfold upd_link. cbn [links_ set_tr_wire set_links].
      rewrite om_find_insert_ne, HL by done. unfold set_links, set_tr_wire. cbn. f_equal.
      apply om_ext; [by apply om_ok_insert, om_ok_insert | by apply om_ok_insert, om_ok_insert|].
      intros k. destruct (decide (k = a)) as [->|]; [by rewrite om_find_insert_ne, !om_find_insert_eq by done|].
      destruct (decide (k = d)) as [->|]; [by rewrite om_find_insert_eq, om_find_insert_ne, om_find_insert_eq by done|].
      by rewrite !om_find_insert_ne.
    + unfold upd_link. by rewrite HL.
Qed.
Lemma route_buffer a r ob f t : om_ok (links_ t) ->
  route_in a ob (upd_link a (set_buffer r) t) f = upd_link a (set_buffer r) (route_in a ob t f).
Proof.
  intros Hok. unfold route_in, route.
  assert (Hset : forall k, set_inbound (om_insert k a (inbound_by_ingress_ (upd_link a (set_buffer r) t))) (upd_link a (set_buffer r) t) =
    upd_link a (set_buffer r) (set_inbound (om_insert k a (inbound_by_ingress_ t)) t)).
  { intros k. unfold upd_link. cbn. by destruct (om_find a (links_ t)). }
  destruct (isHello (f_hdr f)).
  { destruct (negb ob); [|done]. destruct (zds_unpack_FgwHello _ _) as [len h]. by destruct (_ && _). }
  destruct (isHeartbeat (f_hdr f) || isAck (f_hdr f)); [done|]. destruct (negb ob).
  - rewrite Hset. set (t1 := set_inbound _ t).
    assert (Ho : findOutbound (h_outport_id (f_hdr f)) (upd_link a (set_buffer r) t1) = findOutbound (h_outport_id (f_hdr f)) t1)
      by (unfold findOutbound; by rewrite (proj1 (upd_link_tables _ _ _))).
    rewrite Ho. destruct (findOutbound _ t1) as [d|]; [|done]. by apply send_buffer.
  - assert (Hi : findInbound (h_ingress_id (f_hdr f)) (upd_link a (set_buffer r) t) = findInbound (h_ingress_id (f_hdr f)) t)
      by (unfold findInbound; by rewrite (proj1 (proj2 (upd_link_tables _ _ _)))).
    rewrite Hi. destruct (findInbound _ t) as [d|]; [|done]. by apply send_buffer.
Qed.
Lemma route_all_buffer a r ob fs : forall t L, transit_wf t -> om_find a (links_ t) = Some L -> L_outbound L = ob ->
  route_all a ob fs (upd_link a (set_buffer r) t) = upd_link a (set_buffer r) (route_all a ob fs t).
Proof.
  induction fs as [|f fs IH]; intros t L Hw HL Ho; [done|]. unfold route_all in *. cbn [fold_left].
  rewrite route_buffer by apply (tw_links _ Hw).
  destruct (route_spec a ob (f_hdr f) (f_hr f) (f_bytes f) t L Hw HL Ho) as [Hw1 Hs]. fold (route_in a ob t f) in Hw1, Hs.
  destruct (sides_find _ _ _ _ Hs HL) as (L1 & HL1 & Ho1 & _). apply (IH _ L1); [done | done | congruence].
Qed.
Lemma bytes_twice a b1 b2 t L fs r : transit_wf t -> om_find a (links_ t) = Some L ->
  split_frames (L_buffer L ++ b1) = (fs, Some r) ->
  onLinkBytes a b2 (onLinkBytes a b1 t) = onLinkBytes a (b1 ++ b2) t.
Proof.
  intros Hw HL Hs. rewrite (onLinkBytes_split a b1 t L HL), Hs. cbn [fst snd default].
  destruct (route_all_spec a (L_outbound L) fs t L Hw HL eq_refl) as [Hw1 Hs1]. set (t1 := route_all _ _ fs t) in *.
  destruct (sides_find _ _ _ _ Hs1 HL) as (L1 & HL1 & Ho1 & _).
  assert (HL2 : om_find a (links_ (upd_link a (set_buffer r) t1)) = Some (set_buffer r L1)) by (by rewrite upd_link_find, decide_True, HL1).
  rewrite (onLinkBytes_split a b2 _ _ HL2). cbn [L_buffer L_outbound set_buffer]. rewrite Ho1.
  rewrite (route_all_buffer a r (L_outbound L) _ t1 L1 Hw1 HL1 Ho1).
  destruct (route_all_spec a (L_outbound L) (fst (split_frames (r ++ b2))) t1 L1 Hw1 HL1 Ho1) as [Hw2 _].
  rewrite upd_link_upd by apply (tw_links _ Hw2). rewrite (onLinkBytes_split a (b1 ++ b2) t L HL), app_assoc.
  rewrite (split_app _ b2 _ _ Hs). cbn [fst snd]. unfold route_all at 2. rewrite fold_left_app. fold (route_all a (L_outbound L) fs t). fold t1. done.
Qed.
Lemma bytes_pieces a pieces : forall L t, om_find a (links_ t) = Some L -> transit_wf t -> forall b fs r,
  split_frames (L_buffer L ++ b ++ concat pieces) = (fs, Some r) ->
  fold_left (fun t piece => onLinkBytes a piece t) pieces (onLinkBytes a b t) = onLinkBytes a (b ++ concat pieces) t.
Proof.
  induction pieces as [|p ps IH]; intros L t HL Hw b fs r Hcut; cbn [fold_left concat] in *; [by rewrite app_nil_r|].
  rewrite app_assoc in Hcut. destruct (split_prefix _ _ _ _ Hcut) as (fs1 & r1 & Hs1 & _ & Hr1).
  set (t1 := onLinkBytes a b t). destruct (onLinkBytes_spec a b t Hw) as (Hw1 & _). fold t1 in Hw1.
  destruct (route_all_spec a (L_outbound L) fs1 t L Hw HL eq_refl) as [_ Hs].
  destruct (sides_find _ _ _ _ Hs HL) as (L1 & HL1 & _ & _).
  assert (HLt : om_find a (links_ t1) = Some (set_buffer r1 L1)).
  { unfold t1. rewrite (onLinkBytes_split a b t L HL), Hs1. cbn [fst snd default]. by rewrite upd_link_find, decide_True, HL1. }
  rewrite (IH (set_buffer r1 L1) t1 HLt Hw1 p (fst (split_frames (r1 ++ p ++ concat ps))) r).
  - unfold t1. rewrite (bytes_twice a b (p ++ concat ps) t L fs1 r1 Hw HL Hs1). done.
  - cbn [L_buffer set_buffer]. destruct (split_frames (r1 ++ p ++ concat ps)); cbn [fst snd] in *. by subst.
Qed.
End forward.

(** ** Reachable states *)
Section reach.
Context {rt : ZdsRuntime} {T : Transport} {host : Host}.

(** A transit after [ss], started with configuration [cfg] when its listener's return
    code was [ret]. *)
Definition transit_at (cfg : FgwConfig) (ret : Z) (ss : list transit_step) : TransitService :=
  transit_run ss (snd (transit_start ret (new_transit cfg))).
Lemma at_ok cfg ret ss : transit_ok (transit_at cfg ret ss).
Proof. apply ok_run, ok_start. Qed.

Lemma config_do s t : transit_wf t -> tr_config (transit_do s t) = tr_config t.
Proof.
  intros Hw. destruct s as [a now|a now buf|a| |i|]; cbn [transit_do].
  - destruct (link_owned a t); [apply upd_link_tables | done].
  - destruct (link_owned a t); [|done]. set (t1 := upd_link _ _ t).
    assert (Hw1 : transit_wf t1) by (apply wf_upd_link; [done|]; intros L _ [? ? ?]; done).
    destruct (onLinkBytes_spec a buf t1 Hw1) as (_ & _ & _ & ->). apply upd_link_tables.
  - destruct (link_owned a t); [|done]. apply upd_link_tables.
  - destruct (tr_heartbeat t); [|done]. unfold transit_tick. generalize (om_keys (links_ t)) as as_. intros as_.
    clear Hw. revert t. induction as_ as [|a as_ IH]; intros t; [done|]. cbn [fold_left]. rewrite IH. unfold tick_one.
    destruct (om_find a (links_ t)); [|done]. destruct (connected_ _); [|done]. unfold transit_heartbeat.
    destruct (heartbeat_frame _); [apply send_link_tables | done].
  - unfold fire_transit. destruct (tr_timers t !! i) as [[ms [a|id]]|]; [| |done]; cbn [run_transit_job].
    + unfold drop_link. cbn [links_ set_tr_timers]. destruct (om_find a _) as [L|]; [|done].
      destruct (last _); [|done]. by destruct (L_outbound L).
    + cbn [tr_config set_tr_timers]. destruct (find_config _ _) as [c|]; [|done].
      by destruct (dial_spec c (set_tr_timers (delete i (tr_timers t)) t)) as (_ & -> & _); [by apply (wf_same t)|].
  - by destruct (tr_acceptor t).
Qed.
Lemma config_at cfg ret ss : tr_config (transit_at cfg ret ss) = cfg.
Proof.
  unfold transit_at. assert (Hr : forall t, transit_ok t -> tr_config (transit_run ss t) = tr_config t).
  { induction ss as [|s ss' IH]; intros t Ht; [done|]. unfold transit_run in *. cbn [fold_left].
    rewrite IH by (by apply ok_do). apply config_do, Ht. }
  rewrite Hr by apply ok_start. unfold transit_start, dialOutports. set (t0 := new_transit cfg).
  assert (Hd : forall cs t, transit_wf t -> tr_config (fold_left (fun t c => dialOneOutport c t) cs t) = tr_config t).
  { induction cs as [|c cs IH]; intros t Hw; [done|]. cbn [fold_left].
    destruct (dial_spec c t Hw) as (Hw1 & Hc & _). by rewrite IH. }
  assert (Hc : tr_config (fold_left (fun t c => dialOneOutport c t) (cfg_channels (tr_config t0)) t0) = cfg).
  { rewrite Hd; [done|]. constructor; simpl; done || apply om_ok_nil. }
  set (t1 := fold_left _ _ t0) in *. by destruct (_ && _).
Qed.
End reach.

(** ** A concrete transit: two outports, one inport *)
Definition transit_alloc (h : gmap Z IFgwChannel) : Z := 1 + foldr Z.max 0 (map fst (map_to_list h)).
Lemma transit_alloc_free h : h !! transit_alloc h = None.
Proof.
  destruct (h !! transit_alloc h) as [c|] eqn:Hc; [|done]. apply elem_of_map_to_list, list_elem_of_In, (in_map fst) in Hc.
  assert (Hb : forall l k, In k l -> k <= foldr Z.max 0 l).
  { induction l as [|x l IH]; simpl; [done|]. intros k [->|Hk]; [lia|]. specialize (IH _ Hk). lia. }
  apply Hb in Hc. cbn [fst] in Hc. unfold transit_alloc in Hc. lia.
Qed.
Definition transit_host : Host := {|
  alloc := transit_alloc; alloc_free := transit_alloc_free; generation := 4711;
  generation_range := conj eq_refl eq_refl; udp_listen := 0 |}.
#[local] Existing Instance transit_host.
Definition outports : FgwConfig := mkFgwConfig 2 0 1080 [] 9000
  [mkFgwChannelConfig 5 ZFGW_CHANNEL_TCP (mkFgwEndpoint [49] 7000) 10;
   mkFgwChannelConfig 6 ZFGW_CHANNEL_TCP (mkFgwEndpoint [50] 7000) 10] 1200 1024 5 15 60 2 1 0 0.
Definition routed_seg (outport : Z) (data : bytes) : FgwSegmentHeader * bytes :=
  (mkHdr MAGIC (Z.lor FLAG_DATA FLAG_HDR_ROUTE) (zlen data) 1 0 77 outport 0, data).
Definition transit_up : list transit_step := [TrAccept; TrOpen 1 1; TrOpen 2 2; TrOpen 3 3].

(** ** Properties *)

(** C20. A transit's routes are sound and heal.  Whatever connects, arrives, closes or
    expires: an outport id leads to a link that was dialed for it, and every dialed link
    can be reached so; an ingress id leads to an accepted link; a connected link has a
    socket; no link holds more than a frame's worth of bytes back; and each configured
    outport has a link or a redial pending. *)
Theorem transit_routes {rt : ZdsRuntime} {T : Transport} {host : Host} (cfg : FgwConfig) (ret : Z)
    (ss : list transit_step) (t := transit_at cfg ret ss) :
  (forall id a, findOutbound id t = Some a <->
     exists L, om_find a (links_ t) = Some L /\ L_outbound L = true /\ channel_id_ (L_chan L) = id) /\
  (forall ing a, findInbound ing t = Some a -> exists L, om_find a (links_ t) = Some L /\ L_outbound L = false) /\
  (forall a L, om_find a (links_ t) = Some L ->
     (connected_ (L_chan L) = true -> tcp_ptr_ (L_chan L) <> None) /\ zlen (L_buffer L) < 24 + MAX_PAYLOAD) /\
  (forall c, In c (cfg_channels cfg) ->
     findOutbound (cc_channel_id c) t <> None \/ exists ms, In (ms, JobRedial (cc_channel_id c)) (tr_timers t)).
Proof.
  pose proof (at_ok cfg ret ss) as [[H1 H2 H3 H4 H5 H6 H7] Hh]. pose proof (config_at cfg ret ss) as Hc. fold t in Hc, Hh, H4, H5, H6, H7. split_and!.
  - intros id a. split; [apply H5|]. intros (L & HL & Ho & <-). by apply H6.
  - exact H7.
  - intros a L HL. by destruct (H4 a L HL) as [_ [? _] ?].
  - intros c Hin. rewrite <- Hc in Hin. destruct (Hh c Hin) as [Hm|?]; [left | by right].
    unfold om_mem in Hm. unfold findOutbound. by destruct (om_find _ _).
Qed.

(** C11. A transit forwards every segment unchanged to where its header says.  When bytes
    arrive on a link of a transit, the segments they complete are written whole and in
    order: one from an inport to the outport its header names, one from an outport to the
    inport of its ingress id, if that link is connected, and handshakes, keepalives and
    feedback to nobody; nothing else is written.  The segments and what is kept for later
    are the bytes that came in, cut up.  And a reply to any inport a segment came from
    takes the way back over the link it came by. *)
Theorem transit_forwards {rt : ZdsRuntime} {T : Transport} {host : Host} (cfg : FgwConfig) (ret : Z)
    (ss : list transit_step) (t := transit_at cfg ret ss) (a : Z) (L : Link) (Hlink : om_find a (links_ t) = Some L)
    (buf : bytes) (fs : list frame_in) (rest : option bytes)
    (Hcut : split_frames (L_buffer L ++ buf) = (fs, rest)) (t' := onLinkBytes a buf t) :
  tr_wire t' = tr_wire t ++ concat (map (passed t (L_outbound L)) fs) /\
  (forall r, rest = Some r -> L_buffer L ++ buf = concat (map f_bytes fs) ++ r) /\
  L_buffer <$> om_find a (links_ t') = Some (default [] rest) /\
  outbound_by_outport_ t' = outbound_by_outport_ t /\
  (L_outbound L = false -> forall f, In f fs -> hop_local (f_hdr f) = false ->
     findInbound (h_ingress_id (f_hdr f)) t' = Some a).
Proof.
  destruct (at_ok cfg ret ss) as [Hw _]. fold t in Hw. unfold t'. rewrite (onLinkBytes_split a buf t L Hlink), Hcut. cbn [fst snd].
  pose proof (split_shape (L_buffer L ++ buf)) as Hsh. rewrite Hcut in Hsh. cbn [fst] in Hsh.
  destruct (route_all_writes a (L_outbound L) fs t L Hw Hlink eq_refl Hsh) as [H1 (_ & H2 & _)].
  destruct (route_all_spec a (L_outbound L) fs t L Hw Hlink eq_refl) as [_ Hs].
  destruct (sides_find _ _ _ _ Hs Hlink) as (L1 & HL1 & _ & _). set (t1 := route_all _ _ fs t) in *.
  destruct (upd_link_tables a (set_buffer (default [] rest)) t1) as (E1 & E2 & _ & _ & E5). split_and!.
  - by rewrite E5.
  - intros r ->. symmetry. by apply split_concat.
  - by rewrite upd_link_find, decide_True, HL1.
  - by rewrite E1.
  - intros Ho f Hf Hl. unfold findInbound. rewrite E2. unfold t1. rewrite Ho. apply inbound_routes. right.
    apply Exists_exists. exists f. split; [by apply list_elem_of_In | done].
Qed.

Lemma transit_forwards_witness :
  let f5 := seg_frame (routed_seg 5 [1; 2; 3]) in let f6 := seg_frame (routed_seg 6 [4]) in
  let t := transit_at outports 0 transit_up in
  tr_wire (onLinkBytes 3 (f5 ++ f6 ++ take 7 f5) t) = [(1, f5); (2, f6)] /\
  findInbound 77 (onLinkBytes 3 (f5 ++ f6 ++ take 7 f5) t) = Some 3.
Proof.
  intros f5 f6 t. set (L := mkLink (default (new_channel 0 0 0) (L_chan <$> om_find 3 (links_ t))) false []).
  assert (HL : om_find 3 (links_ t) = Some L) by (by vm_compute).
  set (fs := [mkFrame 24 (f_hdr (seg_in (routed_seg 5 [1; 2; 3]))) f5; mkFrame 24 (f_hdr (seg_in (routed_seg 6 [4]))) f6]).
  assert (Hc : split_frames (L_buffer L ++ f5 ++ f6 ++ take 7 f5) = (fs, Some (take 7 f5))) by (by vm_compute).
  pose proof (transit_forwards outports 0 transit_up 3 L HL _ fs _ Hc) as (H1 & _ & _ & _ & H5).
  split; [etrans; [exact H1 | by vm_compute]|].
  apply (H5 eq_refl (mkFrame 24 (f_hdr (seg_in (routed_seg 6 [4]))) f6)); [right; by left | by vm_compute].
Defined.

(** C35. How the bytes are cut up on the way makes no difference to a transit: as long as
    the stream of a link is well formed, bytes that arrive in pieces leave it in exactly
    the state they leave it in when they arrive at once, whatever the pieces. *)
Theorem transit_chunking {rt : ZdsRuntime} {T : Transport} {host : Host} (cfg : FgwConfig) (ret : Z)
    (ss : list transit_step) (t := transit_at cfg ret ss) (a : Z) (L : Link) (Hlink : om_find a (links_ t) = Some L)
    (b : bytes) (pieces : list bytes) (fs : list frame_in) (r : bytes)
    (Hcut : split_frames (L_buffer L ++ b ++ concat pieces) = (fs, Some r)) :
  fold_left (fun t piece => onLinkBytes a piece t) pieces (onLinkBytes a b t) = onLinkBytes a (b ++ concat pieces) t.
Proof.
  destruct (at_ok cfg ret ss) as [Hw _]. by apply (bytes_pieces a pieces L t Hlink Hw b fs r).
Qed.

Lemma transit_chunking_witness :
  let f5 := seg_frame (routed_seg 5 [1; 2; 3]) in let t := transit_at outports 0 transit_up in
  fold_left (fun t piece => onLinkBytes 3 piece t) [drop 9 f5; take 5 f5] (onLinkBytes 3 (take 9 f5) t)
  = onLinkBytes 3 (f5 ++ take 5 f5) t.
Proof.
  intros f5 t. set (L := mkLink (default (new_channel 0 0 0) (L_chan <$> om_find 3 (links_ t))) false []).
  assert (HL : om_find 3 (links_ t) = Some L) by (by vm_compute).
  assert (Hc : split_frames (L_buffer L ++ take 9 f5 ++ concat [drop 9 f5; take 5 f5]) = ([seg_in (routed_seg 5 [1; 2; 3])], Some (take 5 f5)))
    by (by vm_compute).
  exact (transit_chunking outports 0 transit_up 3 L HL (take 9 f5) [drop 9 f5; take 5 f5] _ _ Hc).
Defined.
