(* ===== verification/ThroughTransit.v ===== *)
(** * ThroughTransit: a sender and a receiver with a transit between them

    The segments one stream writes to its links, a transit takes from any of those
    links and passes on over its link to the outport, and the stream there hands to its
    session. *)
From S2P Require Import Prelude Proto OMap Segment Pack ZdsInstance Channel Selector Links.
From S2P Require Import DataStream.
From S2P Require Import StreamFacts Framing StreamWf Reassembly Completeness Sending EndToEnd.
From S2P Require Import Traffic.
From S2P Require Import Testbed.
From S2P Require Import Manager Transit TransitWf TransitProps.

(** ** A transit fed on its links *)
Section carried.
Context {rt : ZdsRuntime} {T : Transport} {host : Host}.
Context (Hmb : forall len, mb_acquire len = true).
(** The side the bytes come from, and the id that the routing of that side goes by. *)
Context (ob : bool) (rid : Z).

(** Bytes arrive on links, piece by piece. *)
Definition feed_all (feeds : list (Z * bytes)) t : TransitService :=
  fold_left (fun t e => onLinkBytes (fst e) (snd e) t) feeds t.
(** The link that the id leads to, and its socket if it is connected. *)
Definition way t : option Z := if ob then findInbound rid t else findOutbound rid t.
Definition out_socket t : option Z :=
  match way t with
  | Some d =>
    match om_find d (links_ t) with
    | Some L => if connected_ (L_chan L) then tcp_ptr_ (L_chan L) else None
    | None => None
    end
  | None => None
  end.
(** A frame of a session with that id. *)
Definition routed (f : frame_in) : bool :=
  negb (hop_local (f_hdr f)) && ((if ob then h_ingress_id (f_hdr f) else h_outport_id (f_hdr f)) =? rid).

Lemma passed_frame t f : Forall (fun w => snd w = f_bytes f) (passed t ob f).
Proof.
  unfold passed, link_write. destruct (next_hop _ _ _) as [d|]; [|constructor].
  destruct (om_find d (links_ t)) as [L|]; [|constructor].
  destruct (tcp_ptr_ (L_chan L)) as [p|]; [|constructor]. destruct (_ && _); by repeat constructor.
Qed.
Lemma passed_routed t f : routed f = true ->
  passed t ob f = match out_socket t with Some p => [(p, f_bytes f)] | None => [] end.
Proof.
  intros [Hl%negb_true_iff Ho%Z.eqb_eq]%andb_true_iff. unfold passed, next_hop, out_socket. rewrite Hl.
  replace (if ob then findInbound (h_ingress_id _) t else _) with (way t) by (unfold way; rewrite <- Ho; by destruct ob).
  destruct (way t) as [d|]; [|done]. unfold link_write. destruct (om_find d (links_ t)) as [L|]; [|done].
  rewrite Hmb. by destruct (tcp_ptr_ (L_chan L)), (connected_ (L_chan L)).
Qed.
(** What is written for frames: frames of theirs, the routed ones to the outport's socket. *)
Definition written_for t (fs : list frame_in) (out : list (Z * bytes)) : Prop :=
  Forall (fun w => exists f, In f fs /\ snd w = f_bytes f /\ (routed f = true -> out_socket t = Some (fst w))) out.
Lemma passed_written t fs : written_for t fs (concat (map (passed t ob) fs)).
Proof.
  apply Forall_concat, List.Forall_forall. intros l (f & <- & Hf)%in_map_iff. apply List.Forall_forall. intros w Hw.
  exists f. split_and!; [done | |].
  - pose proof (passed_frame t f) as Hp. rewrite List.Forall_forall in Hp. by apply Hp.
  - intros Hr. rewrite (passed_routed t f Hr) in Hw. destruct (out_socket t); [|done]. by destruct Hw as [<-|[]].
Qed.
Lemma passed_to t fs p : out_socket t = Some p ->
  map f_bytes (List.filter routed fs) `sublist_of` writes_to p (concat (map (passed t ob) fs)).
Proof.
  intros Hp. induction fs as [|f fs IH]; [constructor|]. cbn [map concat List.filter]. rewrite writes_to_app.
  destruct (routed f) eqn:Hr; [|by apply sublist_inserts_l].
  rewrite (passed_routed t f Hr), Hp. unfold writes_to at 1. cbn [List.filter fst map]. rewrite Z.eqb_refl.
  by apply sublist_skip.
Qed.

Lemma onLinkBytes_step a b t L fs r : transit_wf t -> om_find a (links_ t) = Some L -> L_outbound L = ob ->
  split_frames (L_buffer L ++ b) = (fs, Some r) ->
  let t' := onLinkBytes a b t in
  transit_wf t' /\ out_socket t' = out_socket t /\
  tr_wire t' = tr_wire t ++ concat (map (passed t ob) fs) /\
  (exists L', om_find a (links_ t') = Some L' /\ L_outbound L' = ob /\ L_buffer L' = r) /\
  (forall a2 L2, a2 <> a -> om_find a2 (links_ t) = Some L2 ->
     exists L', om_find a2 (links_ t') = Some L' /\ L_outbound L' = L_outbound L2 /\ L_buffer L' = L_buffer L2).
Proof.
  intros Hw HL Ho Hs. cbv zeta. destruct (onLinkBytes_spec a b t Hw) as (Hw' & _).
  revert Hw'. rewrite (onLinkBytes_split a b t L HL), Ho, Hs. cbn [fst snd]. change (default [] (Some r)) with r. intros Hw'.
  pose proof (split_shape (L_buffer L ++ b)) as Hsh. rewrite Hs in Hsh. cbn [fst] in Hsh.
  destruct (route_all_writes a ob fs t L Hw HL Ho Hsh) as [H1 (Hv & H2 & H3)].
  destruct (route_all_spec a ob fs t L Hw HL Ho) as [_ Hsd]. set (t1 := route_all a ob fs t) in *.
  destruct (upd_link_tables a (set_buffer r) t1) as (E1 & E2 & _ & _ & E5). split_and!.
  - done.
  - unfold out_socket. replace (way (upd_link _ _ _)) with (way t).
    2: { unfold way, findInbound, findOutbound. rewrite E1, E2, H2. destruct ob; [by rewrite H3 | done]. }
    destruct (way t) as [d|]; [|done].
    rewrite upd_link_find. specialize (Hv d). destruct (decide (d = a)) as [->|].
    + destruct (om_find a (links_ t1)) as [L1|], (om_find a (links_ t)) as [L0|]; try done. injection Hv as V1 V2 _. simpl. by rewrite V1, V2.
    + destruct (om_find d (links_ t1)) as [L1|], (om_find d (links_ t)) as [L0|]; try done. injection Hv as V1 V2 _. by rewrite V1, V2.
  - by rewrite E5, H1.
  - destruct (sides_find _ _ _ _ Hsd HL) as (L1 & HL1 & Ho1 & _). exists (set_buffer r L1).
    rewrite upd_link_find, decide_True, HL1 by done. split_and!; [done | by rewrite <- Ho | done].
  - intros a2 L2 Hne HL2. destruct (sides_find _ _ _ _ Hsd HL2) as (L1 & HL1 & Ho1 & Hb1). exists L1.
    by rewrite upd_link_find, decide_False.
Qed.

(** Each link fed is an inport's, and its stream, from what the link holds, is made of
    whole frames [fs a] and a rest. *)
Definition fed_well (feeds : list (Z * bytes)) (fs : Z -> list frame_in) t : Prop := forall a, In a (map fst feeds) -> exists L r,
  om_find a (links_ t) = Some L /\ L_outbound L = ob /\
  split_frames (L_buffer L ++ on_socket a feeds) = (fs a, Some r).

Lemma on_socket_cons a a' b feeds : on_socket a' ((a, b) :: feeds) = (if a =? a' then b else []) ++ on_socket a' feeds.
Proof. unfold on_socket, writes_to. cbn [List.filter fst]. by destruct (a =? a'). Qed.
Lemma on_socket_none a feeds : ~ In a (map fst feeds) -> on_socket a feeds = [].
Proof.
  unfold on_socket, writes_to. induction feeds as [|[a' b'] feeds IH]; intros Hnin; [done|]. simpl in *.
  destruct (Z.eqb_spec a' a); [tauto|]. apply IH. tauto.
Qed.

Lemma carried feeds : forall fs t, transit_wf t -> fed_well feeds fs t -> exists out,
  tr_wire (feed_all feeds t) = tr_wire t ++ out /\
  Forall (fun w => exists a f, In a (map fst feeds) /\ In f (fs a) /\ snd w = f_bytes f /\
    (routed f = true -> out_socket t = Some (fst w))) out /\
  (forall a p, In a (map fst feeds) -> out_socket t = Some p ->
     map f_bytes (List.filter routed (fs a)) `sublist_of` writes_to p out).
Proof.
  induction feeds as [|[a b] feeds IH]; intros fs t Hw Hf; [exists []; by rewrite app_nil_r|].
  destruct (Hf a) as (L & r & HL & Ho & Hs); [by left|].
  rewrite on_socket_cons, Z.eqb_refl, app_assoc in Hs.
  destruct (split_prefix _ _ _ _ Hs) as (fs1 & r1 & Hs1 & Hfs1 & Hr1).
  destruct (onLinkBytes_step a b t L fs1 r1 Hw HL Ho Hs1) as (Hw1 & Hout & Hwire & (La & HLa & Hoa & Hba) & Hoth).
  unfold feed_all. cbn [fold_left fst snd]. set (t1 := onLinkBytes a b t) in *. fold (feed_all feeds t1).
  set (fs2 := fst (split_frames (r1 ++ on_socket a feeds))) in *.
  destruct (IH (fun a' => if a' =? a then fs2 else fs a') t1 Hw1) as (out & Hw2 & Hall & Hsub).
  { intros a2 Hin. destruct (Z.eqb_spec a2 a) as [->|Hne].
    - exists La, r. rewrite Hba. split_and!; [done..|]. unfold fs2.
      destruct (split_frames (r1 ++ on_socket a feeds)); cbn [fst snd] in *. by subst.
    - destruct (Hf a2) as (L2 & r2 & HL2 & Ho2 & Hs2); [by right|].
      destruct (Hoth a2 L2 Hne HL2) as (L2' & HL2' & Ho2' & Hb2'). exists L2', r2. rewrite Ho2', Hb2'.
      rewrite on_socket_cons in Hs2. destruct (Z.eqb_spec a a2); [congruence|]. done. }
  exists (concat (map (passed t ob) fs1) ++ out). split_and!.
  - by rewrite Hw2, Hwire, app_assoc.
  - apply Forall_app. split.
    + eapply Forall_impl; [apply passed_written|]. intros w (f & Hfin & Hrest). exists a, f.
      split_and!; [by left | rewrite Hfs1; apply in_or_app; by left | apply Hrest..].
    + eapply Forall_impl; [exact Hall|]. intros w (a2 & f & Hin & Hfin & Hb2 & Hr2). exists a2, f. rewrite <- Hout.
      split_and!; [by right | | done..]. destruct (Z.eqb_spec a2 a) as [->|]; [|done]. rewrite Hfs1. apply in_or_app; by right.
  - intros a2 p Hin Hp. rewrite writes_to_app. destruct (Z.eqb_spec a2 a) as [->|Hne].
    + rewrite Hfs1, List.filter_app, map_app. apply sublist_app; [by apply passed_to|].
      destruct (in_dec Z.eq_dec a (map fst feeds)) as [Hin'|Hnin].
      * specialize (Hsub a p Hin'). rewrite Z.eqb_refl in Hsub. apply Hsub. by rewrite Hout.
      * unfold fs2. rewrite (on_socket_none a feeds Hnin), app_nil_r, (split_rest_done _ _ _ Hs1). apply sublist_nil_l.
    + apply sublist_inserts_l. destruct Hin as [Heq|Hin]; [by destruct Hne|]. specialize (Hsub a2 p Hin).
      destruct (Z.eqb_spec a2 a); [done|]. apply Hsub. by rewrite Hout.
Qed.

(** *** Fed with segments *)
Definition fed_links (feeds : list (Z * bytes)) t : Prop := forall a, In a (map fst feeds) ->
  exists L, om_find a (links_ t) = Some L /\ L_outbound L = ob /\ L_buffer L = [].
Abbreviation cut b := (fst (split_frames b)).

Section segments.
Context (all : list segment) (Hok : Forall seg_ok all).
Lemma pieces_cut b : pieces all b ->
  (exists r, snd (split_frames b) = Some r) /\ forall f, In f (cut b) -> exists hp, In hp all /\ f = seg_in hp.
Proof.
  intros (fs & Hfs & Hp). destruct (split_socket all fs _ Hok Hfs Hp) as (r & Hr & Hall). split; [by exists r|].
  by apply List.Forall_forall.
Qed.
Lemma feeds_well feeds t : fed_links feeds t -> (forall a, pieces all (on_socket a feeds)) ->
  fed_well feeds (fun a => cut (on_socket a feeds)) t.
Proof.
  intros Hl Hp a Ha. destruct (Hl a Ha) as (L & HL & Ho & Hb). destruct (pieces_cut _ (Hp a)) as ((r & Hr) & _).
  exists L, r. rewrite Hb. split_and!; [done..|]. cbn [app]. destruct (split_frames (on_socket a feeds)). simpl in *. by subst.
Qed.

(** A link that has brought all of a session's segments. *)
Lemma cut_routed b segs : Forall seg_ok segs -> Forall (fun hp => routed (seg_in hp) = true) segs ->
  whole all segs b -> map seg_frame segs `sublist_of` map f_bytes (List.filter routed (cut b)).
Proof.
  intros Hoks Hr (fs & Hfs & Heq & Hsub). destruct (frames_of_segs all fs Hfs) as (hps & -> & Hin).
  assert (Hokh : Forall seg_ok hps) by (rewrite List.Forall_forall in Hok, Hin |- *; auto).
  rewrite Heq, split_segs by done. cbn [fst]. apply seg_in_sublist in Hsub; [|done..].
  replace (map seg_frame segs) with (map f_bytes (List.filter routed (map seg_in segs))).
  - apply (fmap_sublist f_bytes). clear -Hsub. induction Hsub as [|x l l' _ IH|x l l' _ IH]; simpl; [constructor | |].
    + destruct (routed x); [by apply sublist_skip | exact IH].
    + destruct (routed x); [by apply sublist_cons | exact IH].
  - clear -Hr. induction Hr as [|hp segs Hhp _ IH]; [done|]. cbn [map List.filter]. rewrite Hhp. cbn [map]. by rewrite IH.
Qed.
Lemma transit_bears (full : Prop) segs feeds t out : transit_wf t -> fed_links feeds t ->
  Forall seg_ok segs -> Forall (fun hp => routed (seg_in hp) = true) segs ->
  supplied full all segs (fun a => on_socket a feeds) -> tr_wire (feed_all feeds t) = tr_wire t ++ out ->
  bears full all segs out (fun _ => True) (fun q => out_socket t = Some q).
Proof.
  intros Hw Hl Hoks Hr [Hp Hwhole] Hout.
  destruct (carried feeds _ t Hw (feeds_well feeds t Hl Hp)) as (out' & Hw' & Hall & Hsub).
  rewrite Hw' in Hout. apply app_inv_head in Hout. subst out'. split.
  - intros q _. apply List.Forall_forall. intros fr (w & <- & [Hin _]%filter_In)%in_map_iff.
    rewrite List.Forall_forall in Hall. destruct (Hall w Hin) as (a' & f & _ & Hf & -> & _).
    destruct (pieces_cut _ (Hp a')) as (_ & Hc). destruct (Hc f Hf) as (hp & Hhp & ->). by apply (in_map seg_frame).
  - intros Hy q _ Hq. destruct (Hwhole Hy) as (a & Ha). pose proof (cut_routed _ segs Hoks Hr Ha) as Hcut.
    destruct (in_dec Z.eq_dec a (map fst feeds)) as [Hin|Hnin]; [etrans; [exact Hcut | by apply Hsub]|].
    rewrite (on_socket_none a feeds Hnin) in Hcut. simpl in Hcut. apply sublist_nil_r in Hcut. rewrite Hcut. apply sublist_nil_l.
Qed.
End segments.
End carried.

(** The segments of a session all go to the outport of the stream's configuration. *)
Lemma seg_routed c ing sid seq fl p : In fl [FLAG_SYN; FLAG_DATA] ->
  routed false (route_outport_id_ c) (seg_in (seg_hdr c ing sid seq fl (zlen p), p)) = true /\
  routed true ing (seg_in (seg_hdr c ing sid seq fl (zlen p), p)) = true.
Proof.
  intros Hfl. unfold routed, seg_in, seg_hdr, frame_hdr, hop_local, isHello, isHeartbeat, isAck, isHdrRoute.
  cbn [f_hdr fst snd h_flags h_outport_id h_ingress_id]. rewrite !andb_true_iff, !Z.eqb_eq, !negb_true_iff.
  destruct (Z.eqb_spec (route_outport_id_ c) 0) as [->|]; cbn [negb]; by destruct Hfl as [<-|[<-|[]]].
Qed.
Lemma data_routed c ing sid cs : forall seq (ob : bool),
  Forall (fun hp => routed ob (if ob then ing else route_outport_id_ c) (seg_in hp) = true) (data_segs c ing sid seq cs).
Proof.
  induction cs as [|p cs IH]; intros seq ob; constructor; [|apply IH].
  destruct ob; apply seg_routed; right; by left.
Qed.
Lemma session_routed c ing sid cs :
  Forall (fun hp => routed false (route_outport_id_ c) (seg_in hp) = true) (session_segs c ing sid cs).
Proof. constructor; [apply (seg_routed c ing sid 0 FLAG_SYN []); by left | apply (data_routed c ing sid cs 0 false)]. Qed.

(** ** Properties *)

(** C6. A session survives a middle hop.  A stream sends a session's data over any of its
    links; a transit, in any state it can be in, is fed prefixes of what those links carry,
    cut up and interleaved in any way; the stream behind the outport is fed prefixes of what
    the transit then writes.  Then the transit writes nothing but unchanged segments of the
    session, all to the outport the sender is configured for, and the far end hands over a
    prefix of the chunks that were sent.  And if the sender duplicates on all its links, one
    link reached the transit whole and the transit's link to the outport is up and brings
    everything, the session gets all the data, in order and each byte once. *)
Theorem session_through_transit {Hs Hr : Type} {apps : SessionHandler Hs} {appr : SessionHandler Hr}
    {rt : ZdsRuntime} {T : Transport} {sort : StdSort} {host : Host}
    (Hmb : forall len, mb_acquire len = true)
    (* the sender *)
    (sid : Z) (h : option Z) (bufs : list bytes) (ws : world Hs) (ing := local_ingress_id_ (cfg ws))
    (cs := all_chunks ws bufs) (new : list (Z * bytes))
    (Hready : sender_ready sid ws) (Hn : zlen cs <= 2 ^ 32 - 2 ^ 16)
    (Hnew : wire_ (w_net (sender_run sid h bufs ws)) = wire_ (w_net ws) ++ new)
    (* the transit *)
    (tcfg : FgwConfig) (ret : Z) (past : list transit_step) (t := transit_at tcfg ret past)
    (feeds : list (Z * bytes)) (conn : Z -> Z) (out : list (Z * bytes)) (oid := route_outport_id_ (cfg ws))
    (Hin : forall a, In a (map fst feeds) ->
       exists L, om_find a (links_ t) = Some L /\ L_outbound L = false /\ L_buffer L = [])
    (Hfeed : forall a, on_socket a feeds `prefix_of` on_socket (conn a) new)
    (Hout : tr_wire (feed_all feeds t) = tr_wire t ++ out)
    (* the receiver *)
    (loc ss win : Z) (v : bool) (r : Z) (net : Links) (x : Hr) (conn2 : Z -> Z) (steps : list (stream_step Hr))
    (wr := do_steps steps (mkWorld (setUnknownSessionCallback (new_stream loc ss win v r)) net x []))
    (Hss : 0 <= ss < 2 ^ 16) (Hwin : 0 <= win < 2 ^ 16)
    (Hbytes : Forall step_bytes steps)
    (Hfed : forall ch, bytes_on ch steps `prefix_of` on_socket (conn2 ch) out) :
  Forall (fun w => out_socket false oid t = Some (fst w) /\ In (snd w) (map seg_frame (session_segs (cfg ws) ing sid cs))) out /\
  (exists m, heard (ing, sid) (w_log wr) = take m cs) /\
  (forall a id ch p, mode_ (selector_ (w_net ws)) = ZFGW_MULTIPATH_ALL -> In id (live_ids (pool (w_net ws))) ->
     conn a = sock (w_net ws) id -> In a (map fst feeds) -> on_socket a feeds = on_socket (conn a) new ->
     out_socket false oid t = Some p -> conn2 ch = p -> bytes_on ch steps = on_socket p out ->
     kept (ing, sid) wr -> concat (heard (ing, sid) (w_log wr)) = concat bufs).
Proof.
  pose proof Hready as [_ Hseg (Hsid & Hing & Hroute) _ _]. pose proof (zlen_nonneg cs).
  pose proof (all_chunks_sizes ws bufs Hseg) as Hsizes. fold cs in Hsizes.
  set (segs := session_segs (cfg ws) ing sid cs).
  pose proof (session_segs_ok (cfg ws) ing sid Hing Hsid Hroute cs Hsizes Hn) as Hok. fold segs in Hok.
  destruct (joined_groups Hmb sid h bufs ws Hready new Hnew) as (groups & Hg & Hl & Heq). fold ing cs segs in Hl, Heq.
  assert (Hwr : forall q, Forall (fun f => In f (map seg_frame segs)) (writes_to q new)) by (intros q; rewrite Heq; apply writes_to_groups).
  assert (Hp : forall a, pieces segs (on_socket a feeds)) by (intros a; by exists (writes_to (conn a) new)).
  destruct (carried Hmb false oid feeds _ t ltac:(apply at_ok) (feeds_well false segs Hok feeds t Hin Hp)) as (out' & Hw & Hall & _).
  pose proof Hout as Hout'. rewrite Hw in Hout'. apply app_inv_head in Hout'. subst out'.
  assert (Hsent : Forall (fun w => out_socket false oid t = Some (fst w) /\ In (snd w) (map seg_frame segs)) out).
  { eapply Forall_impl; [exact Hall|]. intros w (a & f & _ & Hf & -> & Hrt).
    destruct (pieces_cut segs Hok _ (Hp a)) as (_ & Hc). destruct (Hc f Hf) as (hp & Hhp & ->).
    split; [|by apply (in_map seg_frame)]. apply Hrt. pose proof (session_routed (cfg ws) ing sid cs) as Hrs.
    rewrite List.Forall_forall in Hrs. by apply Hrs. }
  assert (Hgood : good_links (ing, sid) (payload_of cs) (zlen cs) v steps /\ Forall (full_frame v (ing, sid)) (frame_trace empty steps)).
  { apply (fed_good (cfg ws)) with (all := segs); try done. intros ch. exists (writes_to (conn2 ch) out).
    split; [|apply Hfed]. apply List.Forall_forall. intros f (w & <- & [Hin' _]%filter_In)%in_map_iff.
    rewrite List.Forall_forall in Hsent. by apply Hsent. }
  destruct Hgood as [Hgl Hfull]. split; [exact Hsent|]. split.
  - destruct (in_order_run_from (ing, sid) (payload_of cs) (zlen cs) (setUnknownSessionCallback (new_stream loc ss win v r)) v net x steps)
      as (m & Hm & Hlog); try done; [by apply wf_new_cb|]. exists (Z.to_nat m). unfold wr. rewrite Hlog. by apply sent_take.
  - intros a id ch p Hmode Hid Hconn Ha Hwhole Hp' Hch Hsame Hkept.
    rewrite <- (all_chunks_concat ws bufs) by lia. fold cs. f_equal.
    transitivity (sent (payload_of cs) (zlen cs)); [|by apply sent_all]. apply (arrival_run) with (b := true); try done.
    apply (session_arrival (cfg ws)); try done; [simpl; destruct (Z.eqb_spec win 0); lia|].
    enough (Hsegs : map seg_in segs `sublist_of` frame_trace empty steps)
      by (etrans; [|exact Hsegs]; by apply sublist_cons).
    assert (Hsup : supplied True segs segs (fun a => on_socket a feeds)).
    { split; [exact Hp|]. intros _. exists a, (writes_to (conn a) new). split_and!; [done | exact Hwhole |].
      rewrite Heq, Hconn. apply writes_to_sublist; [by rewrite length_map|].
      eapply Forall_impl; [exact Hg|]. intros g [_ _ Hga _ _]. by rewrite (Hga Hmode). }
    destruct (transit_bears Hmb false oid segs Hok True segs feeds t out ltac:(apply at_ok) Hin Hok (session_routed _ _ _ _) Hsup Hout) as [Hbs Hbears].
    apply (fed_complete segs Hok steps ch (writes_to p out)); [| |done|by apply Hbears].
    + by apply Hbs.
    + by rewrite Hsame.
Qed.

(** A sender on two links, of which the second breaks; both end at the transit. *)
#[local] Existing Instance transit_host.
Definition routed_sender : world unit :=
  mkWorld (new_stream 7 4 0 true 5) (test_net ZFGW_MULTIPATH_ALL) tt [].
Definition routed_new : list (Z * bytes) :=
  wire_ (w_net (sender_run 9 (Some 1) test_bufs routed_sender)).
Definition hop_up : list transit_step := [TrAccept; TrAccept; TrOpen 1 1; TrOpen 2 2; TrOpen 3 3; TrOpen 4 4].
Definition hop_feeds : list (Z * bytes) :=
  [(3, take 13 (on_socket 101 routed_new)); (4, take 30 (on_socket 102 routed_new)); (3, drop 13 (on_socket 101 routed_new))].
Definition hop_conn (a : Z) : Z := if a =? 3 then 101 else if a =? 4 then 102 else 0.
Definition hop_out : list (Z * bytes) := tr_wire (feed_all hop_feeds (transit_at outports 0 hop_up)).
Definition hop_steps : list (stream_step unit) := [StBytes 21 (on_socket 1 hop_out)].

Lemma routed_ready : sender_ready (H := unit) 9 routed_sender.
Proof. constructor; [done | by vm_compute | by vm_compute | apply test_sane | by vm_compute]. Qed.
Lemma hop_feeds_fed a : on_socket a hop_feeds `prefix_of` on_socket (hop_conn a) routed_new.
Proof.
  destruct (decide (a = 3)) as [->|H3]; [by exists []; vm_compute|].
  destruct (decide (a = 4)) as [->|H4]; [exists (drop 30 (on_socket 102 routed_new)); by vm_compute|].
  unfold hop_feeds. rewrite !on_socket_cons.
  destruct (Z.eqb_spec 3 a), (Z.eqb_spec 4 a); try lia. apply prefix_nil.
Qed.

Lemma hop_size : zlen (all_chunks routed_sender test_bufs) <= 2 ^ 32 - 2 ^ 16.
Proof. by vm_compute. Qed.
Lemma hop_sent : wire_ (w_net (sender_run (H := unit) 9 (Some 1) test_bufs routed_sender)) = wire_ (w_net routed_sender) ++ routed_new.
Proof. by vm_compute. Qed.
Lemma hop_wrote : tr_wire (feed_all hop_feeds (transit_at outports 0 hop_up)) = tr_wire (transit_at outports 0 hop_up) ++ hop_out.
Proof. by vm_compute. Qed.

Lemma session_through_transit_witness :
  concat (heard (7, 9) (w_log (do_steps (app := listener) hop_steps
    (mkWorld (setUnknownSessionCallback (new_stream 3 0 0 true 0)) (test_net ZFGW_MULTIPATH_BEST) tt [])))) =
  [72; 101; 108; 108; 111; 44; 32; 119; 111; 114; 108; 100].
Proof.
  assert (Hfed : forall ch, bytes_on ch hop_steps `prefix_of` on_socket (if ch =? 21 then 1 else 0) hop_out).
  { intros ch. cbn [bytes_on hop_steps]. rewrite app_nil_r, (Z.eqb_sym 21 ch). destruct (ch =? 21); [done | apply prefix_nil]. }
  assert (Hin : forall a, In a (map fst hop_feeds) -> exists L, om_find a (links_ (transit_at outports 0 hop_up)) = Some L /\
    L_outbound L = false /\ L_buffer L = []).
  { intros a [<-|[<-|[<-|[]]]]; (eexists; split; [vm_compute; reflexivity | by vm_compute]). }
  destruct (session_through_transit (apps := listener) (appr := listener) (T := test_transport) (fun _ => eq_refl)
    9 (Some 1) test_bufs routed_sender routed_new routed_ready hop_size hop_sent
    outports 0 hop_up hop_feeds hop_conn hop_out Hin hop_feeds_fed hop_wrote
    3 0 0 true 0 (test_net ZFGW_MULTIPATH_BEST) tt (fun ch => if ch =? 21 then 1 else 0) hop_steps) as (_ & _ & Hall).
  - done.
  - done.
  - apply test_step_bytes. by vm_compute.
  - exact Hfed.
  - apply (Hall 3 1 21 1); [reflexivity | vm_compute; by left | reflexivity | by left | by vm_compute | by vm_compute | reflexivity | |].
    2: { refine (bool_decide_unpack _ _). by vm_compute. }
    cbn [bytes_on hop_steps]. by rewrite app_nil_r.
Defined.
