(* ===== verification/Passage.v ===== *)
(** * Passage: what a transit passes on in a whole run

    A run of a transit, from its start, with everything in it: links that come and go,
    ticks, timers, traffic both ways and of any sessions.  Here it is told what arrives on
    each socket, which segments are cut from it and where the routes led when they were
    passed on; what is written to the sockets on the other side are those segments, and
    keepalives. *)
From S2P Require Import Prelude Proto OMap Segment Pack Channel Selector Links DataStream.
From S2P Require Import StreamFacts Framing StreamWf Reassembly Completeness Sending EndToEnd.
From S2P Require Import Traffic.
From S2P Require Import Manager ManagerWf ManagerProps Transit TransitWf TransitProps.
From S2P Require Import ThroughTransit.

(** ** Sockets *)
Implicit Types (t : TransitService).

(** Link [L] is at [a] and owns socket [p]. *)
Definition owns (a p : Z) (L : Link) t : Prop :=
  om_find a (links_ t) = Some L /\ tcp_ptr_ (L_chan L) = Some p.
(** What of a link matters here: its socket, its side and what it holds back. *)
Definition end_view (L : Link) : option Z * bool * bytes := (tcp_ptr_ (L_chan L), L_outbound L, L_buffer L).
Definition idle (b : bytes) : Prop := split_frames b = ([], Some b).
(** Sockets are numbered and each has one owner; what a link holds back is no whole frame. *)
Record sockets t : Prop := {
  sk_fresh : forall a p L, owns a p L t -> p < tr_next_socket t;
  sk_one : forall a a' p L L', owns a p L t -> owns a' p L' t -> a = a';
  sk_idle : forall a L, om_find a (links_ t) = Some L -> idle (L_buffer L) }.

Lemma idle_nil : idle [].
Proof. done. Qed.
Lemma idle_rest buf fs o : split_frames buf = (fs, o) -> idle (default [] o).
Proof.
  destruct o as [r|]; [|done]. intros Hs. pose proof (split_rest_done _ _ _ Hs) as Hd. unfold idle. simpl.
  pose proof (split_app buf [] fs r Hs) as Ha. rewrite !app_nil_r, Hs in Ha. injection Ha as _ Ha.
  destruct (split_frames r) as [fs' o']. cbn [fst snd] in *. congruence.
Qed.

(** *** Steps that bring no bytes: links go, and perhaps one comes *)
Record grown t t' : Prop := {
  gr_next : tr_next_socket t <= tr_next_socket t';
  gr_links : exists a0, forall a L', om_find a (links_ t') = Some L' ->
    (exists L, om_find a (links_ t) = Some L /\ end_view L' = end_view L) \/
    (a = a0 /\ tcp_ptr_ (L_chan L') = Some (tr_next_socket t) /\ L_buffer L' = [] /\
     tr_next_socket t < tr_next_socket t') }.
(** The links and the counter stay. *)
Definition level t t' : Prop := tr_next_socket t' = tr_next_socket t /\
  forall a, end_view <$> om_find a (links_ t') = end_view <$> om_find a (links_ t).
#[export] Instance level_preorder : PreOrder level.
Proof. split; [done|]. intros t1 t2 t3 [A1 A2] [B1 B2]. split; [congruence|]. intros a. by rewrite B2, A2. Qed.
Lemma grown_subset t t' : tr_next_socket t' = tr_next_socket t ->
  (forall a L', om_find a (links_ t') = Some L' -> exists L, om_find a (links_ t) = Some L /\ end_view L' = end_view L) -> grown t t'.
Proof. intros Hn Hl. split; [lia|]. exists 0. intros a L' HL. left. by apply Hl. Qed.
Lemma level_grown t t' : level t t' -> grown t t'.
Proof.
  intros [Hn Hv]. apply grown_subset; [done|]. intros a L' HL. specialize (Hv a). rewrite HL in Hv.
  destruct (om_find a (links_ t)) as [L|]; [|done]. exists L. split; [done|]. revert Hv. cbn. congruence.
Qed.
Lemma grown_trans_level t t1 t' : grown t t1 -> level t1 t' -> grown t t'.
Proof.
  intros [Hn (a0 & Hl)] [Hn' Hv]. split; [lia|]. exists a0. intros a L' HL. specialize (Hv a). rewrite HL in Hv.
  destruct (om_find a (links_ t1)) as [L1|] eqn:H1; [|done]. injection Hv as E1 E2 E3. rewrite Hn'.
  destruct (Hl a L1 H1) as [(L & HLf & Hview)|(Ha & Hp & Hb & Hlt)].
  - left. exists L. split; [done|]. rewrite <- Hview. unfold end_view. congruence.
  - right. split_and!; [done | congruence | congruence | lia].
Qed.
Lemma grown_sockets t t' : grown t t' -> sockets t -> sockets t'.
Proof.
  intros [Hn (a0 & Hl)] [Hf Ho Hi]. constructor.
  - intros a p L' [HL Hp]. destruct (Hl a L' HL) as [(L & HL0 & Hv)|(_ & Hp' & _ & Hlt)]; [|assert (p = tr_next_socket t) by congruence; lia].
    injection Hv as Hv _ _. assert (p < tr_next_socket t); [|lia]. apply (Hf a p L). split; [done | congruence].
  - intros a a' p L1 L2 [H1 P1] [H2 P2].
    destruct (Hl a L1 H1) as [(M1 & G1 & V1)|(-> & Q1 & _)], (Hl a' L2 H2) as [(M2 & G2 & V2)|(-> & Q2 & _)]; [| | |done].
    + injection V1 as V1 _ _. injection V2 as V2 _ _. apply (Ho a a' p M1 M2); split; congruence.
    + injection V1 as V1 _ _. assert (p < tr_next_socket t) by (apply (Hf a p M1); split; congruence). assert (p = tr_next_socket t) by congruence. lia.
    + injection V2 as V2 _ _. assert (p < tr_next_socket t) by (apply (Hf a' p M2); split; congruence). assert (p = tr_next_socket t) by congruence. lia.
  - intros a L' HL. destruct (Hl a L' HL) as [(L & HL0 & Hv)|(_ & _ & -> & _)]; [|done].
    injection Hv as _ _ ->. by apply (Hi a).
Qed.

(** ** One step *)
Section step.
Context {rt : ZdsRuntime} {T : Transport} {host : Host}.

(** The link, its socket and the bytes, if the step brings some. *)
Definition delivered (s : transit_step) t : option (Link * Z * bytes) :=
  match s with
  | TrBytes a _ buf =>
    match om_find a (links_ t) with
    | Some L => match tcp_ptr_ (L_chan L) with Some p => Some (L, p, buf) | None => None end
    | None => None
    end
  | _ => None
  end.
Abbreviation cut L buf := (fst (split_frames (L_buffer L ++ buf))).

Lemma level_upd a f t : (forall L, om_find a (links_ t) = Some L -> end_view (f L) = end_view L) -> level t (upd_link a f t).
Proof.
  intros Hf. split; [unfold upd_link; by destruct (om_find a (links_ t))|]. intros b. rewrite upd_link_find.
  case_decide; [|done]. subst b. destruct (om_find a (links_ t)) as [L|] eqn:HL; [|done]. simpl. by rewrite Hf.
Qed.
Lemma level_same t t' : links_ t' = links_ t -> tr_next_socket t' = tr_next_socket t -> level t t'.
Proof. intros Hl Hn. split; [done|]. intros a. by rewrite Hl. Qed.
Lemma level_send a buf t : level t (send_link a buf t).
Proof.
  rewrite send_link_eq. destruct (om_find a (links_ t)) as [L|] eqn:HL; [|done].
  destruct (send_keeps_chan buf (tr_wire t) (L_chan L)) as (_ & _ & _ & H4). destruct (sendBytes _ _ _) as [[r c] w]. cbn [fst snd] in H4.
  transitivity (upd_link a (set_chan c) t); [|by apply level_same]. apply level_upd. intros L' HL'.
  unfold end_view. simpl. congruence.
Qed.
Lemma level_route a ob t f : level t (route_in a ob t f).
Proof.
  unfold route_in, route. destruct (isHello _).
  { destruct (negb ob); [|done]. destruct (zds_unpack_FgwHello _ _) as [len h]. destruct (_ && _); [by apply level_same | done]. }
  destruct (_ || _); [done|]. destruct (negb ob).
  - set (t1 := set_inbound _ t). transitivity t1; [by apply level_same|]. destruct (findOutbound _ t1); [apply level_send | done].
  - destruct (findInbound _ t); [apply level_send | done].
Qed.
Lemma level_routes a ob fs : forall t, level t (route_all a ob fs t).
Proof.
  unfold route_all. induction fs as [|f fs IH]; intros t; [done|]. cbn [fold_left]. etrans; [apply (level_route a ob t f) | apply IH].
Qed.

(** A keepalive on a link that is there. *)
Definition beat t : bytes := frame (heartbeat_hdr (cfg_ingress_id (tr_config t))) [].
Definition beats t (w : list (Z * bytes)) : Prop :=
  Forall (fun x => snd x = beat t /\ exists a L, owns a (fst x) L t) w.
Lemma link_write_owned t d buf : Forall (fun x => snd x = buf /\ exists L, owns d (fst x) L t) (link_write t d buf).
Proof.
  unfold link_write, owns. destruct (om_find d (links_ t)) as [L|]; [|constructor]. destruct (tcp_ptr_ (L_chan L)) as [p|] eqn:Hp; [|constructor].
  destruct (_ && _); repeat constructor. by exists L.
Qed.
Lemma owns_level a p L t t' : level t t' -> owns a p L t' -> exists L0, owns a p L0 t /\ L_outbound L0 = L_outbound L.
Proof.
  intros [_ Hv] [HL Hp]. specialize (Hv a). rewrite HL in Hv. destruct (om_find a (links_ t)) as [L0|] eqn:H0; [|done].
  injection Hv as E1 E2 _. exists L0. unfold owns. split; [split; [done | congruence] | congruence].
Qed.
Lemma tick_beats t : transit_wf t -> exists w, tr_wire (transit_tick t) = tr_wire t ++ w /\ beats t w /\ level t (transit_tick t).
Proof.
  unfold transit_tick. generalize (om_keys (links_ t)) as as_. intros as_. revert t.
  induction as_ as [|a as_ IH]; intros t Hw; [exists []; rewrite app_nil_r; by split_and!; [|constructor|]|]. cbn [fold_left].
  assert (H1 : exists w, tr_wire (tick_one t a) = tr_wire t ++ w /\ beats t w /\ level t (tick_one t a) /\ transit_wf (tick_one t a) /\ tr_config (tick_one t a) = tr_config t).
  { unfold tick_one. assert (Hsame : exists w, tr_wire t = tr_wire t ++ w /\ beats t w /\ level t t /\ transit_wf t /\ tr_config t = tr_config t)
      by (exists []; rewrite app_nil_r; by split_and!; [|constructor|..]).
    destruct (om_find a (links_ t)) as [L|]; [|done]. destruct (connected_ _); [|done].
    unfold transit_heartbeat. rewrite heartbeat_frame_eq. fold (beat t).
    destruct (send_link_writes a (beat t) t Hw) as [Hwr _]; [unfold beat; by rewrite heartbeat_frame_len|].
    exists (link_write t a (beat t)). split_and!; [done | | apply level_send | by apply wf_send_link | apply send_link_tables].
    eapply Forall_impl; [apply link_write_owned|]. intros x (Hx & L' & Ho). eauto. }
  destruct H1 as (w1 & Hw1 & Hb1 & Hl1 & Hwf1 & Hc1). destruct (IH _ Hwf1) as (w2 & Hw2 & Hb2 & Hl2).
  exists (w1 ++ w2). split_and!; [by rewrite Hw2, Hw1, app_assoc | | by etrans]. apply Forall_app. split; [done|].
  eapply Forall_impl; [exact Hb2|]. intros x [Hx (b & L & Ho)]. split; [rewrite Hx; unfold beat; by rewrite Hc1|].
  destruct (owns_level _ _ _ _ _ Hl1 Ho) as (L0 & Ho0 & _). eauto.
Qed.

Lemma owned_view a t : link_owned a t = true -> exists L p, owns a p L t.
Proof.
  unfold link_owned, owns. destruct (om_find a (links_ t)) as [L|]; [|done]. destruct (tcp_ptr_ (L_chan L)) as [p|] eqn:Hp; [|done].
  by exists L, p.
Qed.
Lemma grown_add t t0 t' a L : links_ t' = om_insert a L (links_ t0) -> tcp_ptr_ (L_chan L) = Some (tr_next_socket t) ->
  L_buffer L = [] -> tr_next_socket t' = tr_next_socket t + 1 ->
  (forall b M, om_find b (links_ t0) = Some M -> om_find b (links_ t) = Some M) -> grown t t'.
Proof.
  intros Hl Hp Hb Hn Hsub. split; [lia|]. exists a. intros b M. rewrite Hl. destruct (decide (b = a)) as [->|Hne].
  - rewrite om_find_insert_eq. intros [= <-]. right. split_and!; try done. lia.
  - rewrite om_find_insert_ne by done. intros HM. left. exists M. split; [by apply Hsub | done].
Qed.
Lemma erase_subset {V} a (m : omap V) b M : om_find b (om_erase a m) = Some M -> om_find b m = Some M.
Proof. destruct (decide (b = a)) as [->|Hne]; [by rewrite om_find_erase_eq | by rewrite om_find_erase_ne]. Qed.
Lemma grown_dial ccfg t : transit_wf t -> grown t (dialOneOutport ccfg t) /\ tr_wire (dialOneOutport ccfg t) = tr_wire t.
Proof.
  intros Hw. pose proof (dial_eq ccfg t Hw) as Hd. cbv zeta in Hd.
  assert (HL : let L := fst (dialed_link ccfg t) in tcp_ptr_ (L_chan L) = Some (tr_next_socket t) /\ L_buffer L = []).
  { by split. }
  destruct (dialed_link ccfg t) as [L ret]. cbn [fst] in HL. destruct HL as [Hp Hb]. destruct Hd as [-> _].
  set (t0 := without_outport _ t). assert (Hsub : forall b M, om_find b (links_ t0) = Some M -> om_find b (links_ t) = Some M).
  { intros b M. unfold t0, without_outport. destruct (findOutbound _ t); [apply erase_subset | done]. }
  assert (Hwire : tr_wire t0 = tr_wire t) by (unfold t0, without_outport; by destruct (findOutbound _ t)).
  set (t1 := set_ids _ _ _). assert (grown t t1) by (by apply (grown_add t t0 t1 (alloc (objects t)) L)).
  destruct (ret <? 0); [|done]. split; [|done]. eapply grown_trans_level; [done | by apply level_same].
Qed.
Lemma quiet_step s t : transit_wf t -> delivered s t = None ->
  grown t (transit_do s t) /\ exists w, tr_wire (transit_do s t) = tr_wire t ++ w /\ beats t w.
Proof.
  intros Hw Hd. assert (Hsame : forall t', grown t t' -> tr_wire t' = tr_wire t ->
    grown t t' /\ exists w, tr_wire t' = tr_wire t ++ w /\ beats t w).
  { intros t' Hg Hwr. split; [done|]. exists []. rewrite app_nil_r. split; [done | constructor]. }
  pose proof (Hsame t (level_grown t t (reflexivity t)) eq_refl) as Hid.
  destruct s as [a now|a now buf|a| |i|]; cbn [transit_do].
  - destruct (link_owned a t); [|exact Hid]. apply Hsame; [|apply upd_link_tables]. by apply level_grown, level_upd.
  - destruct (link_owned a t) eqn:Ho; [|exact Hid]. destruct (owned_view a t Ho) as (L & p & HL & Hp). simpl in Hd. by rewrite HL, Hp in Hd.
  - destruct (link_owned a t); [|exact Hid]. apply Hsame; [|apply upd_link_tables].
    apply level_grown. transitivity (upd_link a (on_chan markClosed) t); [by apply level_upd | by apply level_same].
  - destruct (tr_heartbeat t); [|exact Hid]. destruct (tick_beats t Hw) as (w & Hwr & Hb & Hl).
    split; [by apply level_grown | by exists w].
  - unfold fire_transit. destruct (tr_timers t !! i) as [[ms [a|id]]|]; cbn [run_transit_job]; [| |exact Hid].
    + unfold drop_link. cbn [links_ set_tr_timers]. destruct (om_find a (links_ t)) as [L|]; [|apply Hsame; [by apply level_grown, level_same | done]].
      assert (Hg : forall t', links_ t' = om_erase a (links_ t) -> tr_next_socket t' = tr_next_socket t -> grown t t').
      { intros t' Hl Hn. apply grown_subset; [done|]. intros b M. rewrite Hl. intros HM%erase_subset. by exists M. }
      destruct (last _); [destruct (L_outbound L)|]; apply Hsame; try done; by apply Hg.
    + cbn [tr_config set_tr_timers]. set (t0 := set_tr_timers _ t).
      destruct (find_config _ _) as [c|]; [|apply Hsame; [by apply level_grown, level_same | done]].
      destruct (grown_dial c t0) as [Hg Hwr]; [by apply (wf_same t)|]. apply Hsame; [|exact Hwr]. by destruct Hg.
  - destruct (tr_acceptor t); [|exact Hid]. apply Hsame; [|done].
    by eapply (grown_add t t _ (alloc (objects t))).
Qed.

(** Bytes: the segments they complete are passed on; the link keeps the rest. *)
Definition held_after (L : Link) (buf : bytes) : bytes := default [] (snd (split_frames (L_buffer L ++ buf))).
Lemma bytes_step s t L p buf : transit_wf t -> delivered s t = Some (L, p, buf) -> exists a, owns a p L t /\
  tr_wire (transit_do s t) = tr_wire t ++ concat (map (passed t (L_outbound L)) (cut L buf)) /\
  tr_next_socket (transit_do s t) = tr_next_socket t /\
  forall b, end_view <$> om_find b (links_ (transit_do s t)) =
    if decide (b = a) then Some (Some p, L_outbound L, held_after L buf) else end_view <$> om_find b (links_ t).
Proof.
  intros Hw. destruct s as [|a now buf'| | | |]; cbn [delivered]; try done. destruct (om_find a (links_ t)) as [M|] eqn:HM; [|done].
  destruct (tcp_ptr_ (L_chan M)) as [q|] eqn:Hq; [|done]. intros [= -> -> ->]. exists a. split; [done|].
  cbn [transit_do]. unfold link_owned. rewrite HM, Hq. set (t1 := upd_link _ _ t).
  assert (Hlv : level t t1) by (by apply level_upd).
  assert (Hw1 : transit_wf t1) by (apply wf_upd_link; [done|]; by intros N _ [? ? ?]).
  assert (HL1 : om_find a (links_ t1) = Some (on_chan (addRecvBytes (zlen buf) now) L)) by (unfold t1; by rewrite upd_link_find, decide_True, HM).
  set (L1 := on_chan _ L) in *. rewrite (onLinkBytes_split a buf t1 L1 HL1). cbv zeta.
  change (L_buffer L1) with (L_buffer L). change (L_outbound L1) with (L_outbound L).
  pose proof (split_shape (L_buffer L ++ buf)) as Hsh.
  destruct (route_all_writes a (L_outbound L) (cut L buf) t1 L1 Hw1 HL1 eq_refl Hsh) as [Hwr _].
  pose proof (level_routes a (L_outbound L) (cut L buf) t1) as Hlr. set (t2 := route_all _ _ _ t1) in *.
  assert (Hk : hops_kept (L_outbound L) t t1).
  { destruct (upd_link_tables a (on_chan (addRecvBytes (zlen buf) now)) t) as (E1 & E2 & _). split_and!; [|done|done].
    intros d. unfold t1. rewrite upd_link_find. case_decide; [subst d; by rewrite HM | done]. }
  pose proof (transitivity Hlv Hlr) as [Hn Hv]. split_and!.
  - rewrite (proj2 (proj2 (proj2 (proj2 (upd_link_tables _ _ _))))), Hwr.
    replace (tr_wire t1) with (tr_wire t) by (symmetry; apply upd_link_tables). f_equal. f_equal. apply map_ext.
    intros f. by apply passed_kept.
  - rewrite <- Hn. unfold upd_link. by destruct (om_find a (links_ t2)).
  - intros b. rewrite upd_link_find. case_decide as Hb; [|by rewrite Hv]. specialize (Hv a). rewrite HM in Hv.
    destruct (om_find a (links_ t2)) as [L2|]; [|done]. injection Hv as V1 V2 _. simpl. unfold end_view, held_after. simpl. by rewrite V1, V2, Hq.
Qed.

(** A segment is passed to the other side. *)
Lemma passed_side t ob f q b : transit_wf t -> In (q, b) (passed t ob f) ->
  b = f_bytes f /\ exists d L, owns d q L t /\ L_outbound L = negb ob.
Proof.
  intros Hw. unfold passed. destruct (next_hop t ob (f_hdr f)) as [d|] eqn:Hd; [|done]. intros Hin.
  pose proof (link_write_owned t d (f_bytes f)) as Ho. rewrite List.Forall_forall in Ho. destruct (Ho _ Hin) as (Hb & L & HL & Hp).
  split; [exact Hb|]. exists d, L. split; [done|]. unfold next_hop in Hd. destruct (hop_local _); [done|].
  destruct ob.
  - destruct (tw_in _ Hw _ _ Hd) as (L' & HL' & Ho'). simpl. congruence.
  - destruct (tw_out _ Hw _ _ Hd) as (L' & HL' & Ho' & _). simpl. congruence.
Qed.
End step.

(** ** A run *)
Section run.
Context {rt : ZdsRuntime} {T : Transport} {host : Host}.

Definition fine t : Prop := transit_ok t /\ sockets t.
Lemma back_step s t a p L' : transit_wf t -> owns a p L' (transit_do s t) -> p < tr_next_socket t ->
  exists L, owns a p L t /\ L_outbound L = L_outbound L'.
Proof.
  intros Hw [HL Hp] Hlt. destruct (delivered s t) as [[[M q] buf]|] eqn:Hd.
  - destruct (bytes_step s t M q buf Hw Hd) as (b & [HM Hq] & _ & _ & Hv). specialize (Hv a). rewrite HL in Hv. case_decide as Hab.
    + subst b. injection Hv as V1 V2 _. exists M. unfold owns. repeat split; congruence.
    + destruct (om_find a (links_ t)) as [L|] eqn:H0; [|done]. injection Hv as V1 V2 _. exists L. unfold owns. repeat split; congruence.
  - destruct (quiet_step s t Hw Hd) as [[_ (a0 & Hl)] _]. destruct (Hl a L' HL) as [(L & H0 & Hv)|(_ & Hn & _)].
    + injection Hv as V1 V2 _. exists L. unfold owns. repeat split; congruence.
    + assert (p = tr_next_socket t) by congruence. lia.
Qed.
Lemma next_step s t : transit_wf t -> tr_next_socket t <= tr_next_socket (transit_do s t).
Proof.
  intros Hw. destruct (delivered s t) as [[[M q] buf]|] eqn:Hd.
  - destruct (bytes_step s t M q buf Hw Hd) as (_ & _ & _ & -> & _). lia.
  - by destruct (quiet_step s t Hw Hd) as [[? _] _].
Qed.
Lemma fine_do s t : fine t -> fine (transit_do s t).
Proof.
  intros [Hok Hs]. split; [by apply ok_do|]. pose proof (proj1 Hok) as Hw.
  destruct (delivered s t) as [[[M q] buf]|] eqn:Hd; [|by eapply grown_sockets; [apply quiet_step|]].
  destruct (bytes_step s t M q buf Hw Hd) as (b & [HM Hq] & _ & Hn & Hv).
  assert (Hown : forall a p L', owns a p L' (transit_do s t) -> exists L, owns a p L t).
  { intros a p L' [HL Hp]. specialize (Hv a). rewrite HL in Hv. case_decide as Hab.
    - subst b. injection Hv as V1 _ _. exists M. unfold owns. split; congruence.
    - destruct (om_find a (links_ t)) as [L|] eqn:H0; [|done]. injection Hv as V1 _ _. exists L. unfold owns. split; congruence. }
  constructor.
  - intros a p L' Ho. rewrite Hn. destruct (Hown a p L' Ho) as (L & HL). by apply (sk_fresh _ Hs a p L).
  - intros a a' p L1 L2 H1 H2. destruct (Hown _ _ _ H1) as (M1 & ?), (Hown _ _ _ H2) as (M2 & ?). by apply (sk_one _ Hs a a' p M1 M2).
  - intros a L' HL. specialize (Hv a). rewrite HL in Hv. case_decide as Hab.
    + injection Hv as _ _ ->. unfold held_after. destruct (split_frames _) as [fs o] eqn:Hsp. by apply (idle_rest (L_buffer M ++ buf) fs).
    + destruct (om_find a (links_ t)) as [L|] eqn:H0; [|done]. injection Hv as _ _ ->. by apply (sk_idle _ Hs a).
Qed.

(** A side has had a link with socket [q]. *)
Definition seen (side : bool) (q : Z) (ss : list transit_step) t : Prop :=
  exists i a L, owns a q L (transit_run (take i ss) t) /\ L_outbound L = side.
Lemma seen_cons side q s ss t : seen side q (s :: ss) t <->
  (exists a L, owns a q L t /\ L_outbound L = side) \/ seen side q ss (transit_do s t).
Proof.
  split.
  - intros ([|i] & a & L & Ho & Hs); [left; by exists a, L | right; by exists i, a, L].
  - intros [(a & L & Ho & Hs)|(i & a & L & Ho & Hs)]; [by exists 0%nat, a, L | by exists (S i), a, L].
Qed.
Lemma seen_nil side q t : seen side q [] t -> exists a L, owns a q L t /\ L_outbound L = side.
Proof. intros (i & a & L & Ho & Hs). rewrite take_nil in Ho. by exists a, L. Qed.
Lemma seen_back side q ss : forall t, fine t -> seen side q ss t -> q < tr_next_socket t ->
  exists a L, owns a q L t /\ L_outbound L = side.
Proof.
  induction ss as [|s ss IH]; intros t Hf Hs Hlt; [by apply seen_nil|]. apply seen_cons in Hs as [?|Hs]; [done|].
  pose proof (proj1 (proj1 Hf)) as Hw. destruct (IH (transit_do s t)) as (a & L & Ho & Hsd); [by apply fine_do | done | pose proof (next_step s t Hw); lia|].
  destruct (back_step s t a q L Hw Ho Hlt) as (L0 & ? & ?). exists a, L0. split; [done | congruence].
Qed.
(** A socket is only ever on one side. *)
Lemma seen_side q ss : forall t side side', fine t -> seen side q ss t -> seen side' q ss t -> side = side'.
Proof.
  assert (Hhere : forall t side side', fine t -> (exists a L, owns a q L t /\ L_outbound L = side) ->
    (exists a L, owns a q L t /\ L_outbound L = side') -> side = side').
  { intros t sd sd' [_ Hs] (a & L & Ho & <-) (a' & L' & Ho' & <-). pose proof (sk_one _ Hs _ _ _ _ _ Ho Ho') as <-.
    destruct Ho as [H1 _], Ho' as [H2 _]. congruence. }
  induction ss as [|s ss IH]; intros t sd sd' Hf H1 H2; [apply (Hhere t); [done | by apply seen_nil..]|].
  pose proof (H1) as H1'. pose proof (H2) as H2'. apply seen_cons in H1 as [H1|H1]; [|apply seen_cons in H2 as [H2|H2]].
  - apply (Hhere t); [done..|]. destruct H1 as (a & L & Ho & _). eapply seen_back; [done..|]. by eapply (sk_fresh _ (proj2 Hf)).
  - apply (Hhere t); [done| |done]. destruct H2 as (a & L & Ho & _). eapply seen_back; [done..|]. by eapply (sk_fresh _ (proj2 Hf)).
  - apply (IH (transit_do s t)); [by apply fine_do | done..].
Qed.

(** *** The run with notes: what came, what was passed on and where the way led *)
Context (ob : bool) (rid : Z).
Record passing := Passing { pg_from : Z; pg_way : option Z; pg_frame : frame_in }.
Definition came_now (p : Z) (s : transit_step) t : bytes :=
  match delivered s t with
  | Some (L, q, buf) => if Bool.eqb (L_outbound L) ob && (q =? p) then buf else []
  | None => []
  end.
Fixpoint came (p : Z) (ss : list transit_step) t : bytes :=
  match ss with
  | [] => []
  | s :: ss => came_now p s t ++ came p ss (transit_do s t)
  end.
Definition passed_now (s : transit_step) t : list passing :=
  match delivered s t with
  | Some (L, q, buf) =>
    if Bool.eqb (L_outbound L) ob
    then map (Passing q (out_socket ob rid t)) (fst (split_frames (L_buffer L ++ buf)))
    else []
  | None => []
  end.
Fixpoint passings (ss : list transit_step) t : list passing :=
  match ss with
  | [] => []
  | s :: ss => passed_now s t ++ passings ss (transit_do s t)
  end.
Definition frames_from (p : Z) (ps : list passing) : list frame_in :=
  map pg_frame (List.filter (fun x => pg_from x =? p) ps).
Lemma frames_from_app p ps ps' : frames_from p (ps ++ ps') = frames_from p ps ++ frames_from p ps'.
Proof. unfold frames_from. by rewrite List.filter_app, map_app. Qed.
Lemma frames_from_note p q o fs : frames_from p (map (Passing q o) fs) = if q =? p then fs else [].
Proof. unfold frames_from. induction fs as [|f fs IH]; simpl; destruct (q =? p); try done. simpl. by rewrite IH. Qed.

(** A socket that nothing can come from any more. *)
Definition dead (p : Z) t : Prop := p < tr_next_socket t /\ forall a L, owns a p L t -> L_outbound L <> ob.
Lemma elsewhere p s t : (forall M buf, delivered s t = Some (M, p, buf) -> L_outbound M <> ob) ->
  came_now p s t = [] /\ frames_from p (passed_now s t) = [].
Proof.
  intros Hne. unfold came_now, passed_now. destruct (delivered s t) as [[[M q] buf]|] eqn:Hd; [|done].
  destruct (Bool.eqb_spec (L_outbound M) ob) as [Ho|Ho]; simpl; [|done]. rewrite frames_from_note.
  destruct (Z.eqb_spec q p) as [->|]; [|done]. by destruct (Hne M buf).
Qed.
Lemma delivered_owns s t M q buf : delivered s t = Some (M, q, buf) -> exists a, owns a q M t.
Proof.
  destruct s as [|a now buf'| | | |]; cbn [delivered]; try done. unfold owns.
  destruct (om_find a (links_ t)) as [L|] eqn:HL; [|done]. destruct (tcp_ptr_ (L_chan L)) as [p|] eqn:Hp; [|done].
  intros [= -> -> _]. by exists a.
Qed.
Lemma dead_run p ss : forall t, fine t -> dead p t -> came p ss t = [] /\ frames_from p (passings ss t) = [].
Proof.
  induction ss as [|s ss IH]; intros t Hf [Hlt Hno]; [done|]. cbn [came passings]. rewrite frames_from_app.
  destruct (elsewhere p s t) as [-> ->].
  { intros M buf (a & Ho)%delivered_owns. by apply (Hno a). }
  apply IH; [by apply fine_do|]. pose proof (next_step s t (proj1 (proj1 Hf))). split; [lia|].
  intros a L' Ho. destruct (back_step s t a p L' (proj1 (proj1 Hf)) Ho Hlt) as (L & Ho' & <-). by apply (Hno a).
Qed.
(** The link stays as it is, or its socket is gone. *)
Lemma other_step s t a p L : fine t -> owns a p L t -> (forall M buf, delivered s t <> Some (M, p, buf)) ->
  (exists L', owns a p L' (transit_do s t) /\ L_outbound L' = L_outbound L /\ L_buffer L' = L_buffer L) \/
  dead p (transit_do s t).
Proof.
  intros [Hok Hs] Ho Hne. pose proof (proj1 Hok) as Hw. pose proof (sk_fresh _ Hs _ _ _ Ho) as Hlt. pose proof Ho as [HL Hp].
  assert (Hsame : forall L', om_find a (links_ (transit_do s t)) = Some L' -> end_view L' = end_view L ->
    exists L', owns a p L' (transit_do s t) /\ L_outbound L' = L_outbound L /\ L_buffer L' = L_buffer L).
  { intros L' HL' Hv. injection Hv as V1 V2 V3. exists L'. unfold owns. repeat split; congruence. }
  destruct (delivered s t) as [[[M q] buf]|] eqn:Hd.
  - destruct (bytes_step s t M q buf Hw Hd) as (b & [HM Hq] & _ & _ & Hv). specialize (Hv a). case_decide as Hab.
    + subst b. rewrite HL in HM. injection HM as ->. destruct (Hne M buf). congruence.
    + rewrite HL in Hv. destruct (om_find a (links_ (transit_do s t))) as [L'|] eqn:HL'; [|done]. left. apply (Hsame L'); [done|].
      revert Hv. cbn. congruence.
  - destruct (quiet_step s t Hw Hd) as [[Hn (a0 & Hl)] _].
    destruct (om_find a (links_ (transit_do s t))) as [L'|] eqn:HL'.
    + destruct (Hl a L' HL') as [(L0 & H0 & Hv)|(_ & Hn' & _ & _)].
      * left. apply (Hsame L'); [done | congruence].
      * right. split; [lia|]. intros b L1 Hb. destruct (back_step s t b p L1 Hw Hb Hlt) as (L2 & Hb2 & _).
        pose proof (sk_one _ Hs _ _ _ _ _ Ho Hb2) as <-. destruct Hb as [Hb1 Hb3]. assert (p = tr_next_socket t) by congruence. lia.
    + right. split; [lia|]. intros b L1 Hb. destruct (back_step s t b p L1 Hw Hb Hlt) as (L2 & Hb2 & _).
      pose proof (sk_one _ Hs _ _ _ _ _ Ho Hb2) as <-. destruct Hb as [Hb1 _]. congruence.
Qed.

(** The segments passed on for a socket are those its bytes are made of. *)
Lemma owned_cut p ss : forall t a L fs r, fine t -> owns a p L t -> L_outbound L = ob ->
  split_frames (L_buffer L ++ came p ss t) = (fs, Some r) -> frames_from p (passings ss t) = fs.
Proof.
  induction ss as [|s ss IH]; intros t a L fs r Hf Ho Hob Hs.
  { cbn [came] in Hs. rewrite app_nil_r, (sk_idle _ (proj2 Hf) a L (proj1 Ho)) in Hs. by injection Hs as <- _. }
  pose proof (proj1 (proj1 Hf)) as Hw. cbn [came passings] in *. rewrite frames_from_app.
  assert (Hother : (forall M buf, delivered s t <> Some (M, p, buf)) ->
    frames_from p (passed_now s t) ++ frames_from p (passings ss (transit_do s t)) = fs).
  { intros Hne. destruct (elsewhere p s t) as [Hc ->]; [intros M b Hd; by destruct (Hne M b)|]. rewrite Hc in Hs.
    destruct (other_step s t a p L Hf Ho Hne) as [(L' & Ho' & Ho1 & Hb1)|Hdead].
    - apply (IH (transit_do s t) a L' fs r); [by apply fine_do | done | congruence | by rewrite Hb1].
    - destruct (dead_run p ss (transit_do s t)) as [Hc' ->]; [by apply fine_do | done|].
      rewrite Hc', app_nil_r, (sk_idle _ (proj2 Hf) a L (proj1 Ho)) in Hs. by injection Hs as <- _. }
  destruct (delivered s t) as [[[M q] buf]|] eqn:Hd; [destruct (decide (q = p)) as [->|Hqp]|].
  - clear Hother. destruct (bytes_step s t M p buf Hw Hd) as (b & HM & _ & _ & Hv). pose proof (sk_one _ (proj2 Hf) _ _ _ _ _ Ho HM) as <-.
    assert (M = L) as -> by (destruct Ho as [? _], HM as [? _]; congruence).
    unfold came_now, passed_now in *. rewrite Hd in *. rewrite Hob, Bool.eqb_reflx, Z.eqb_refl in Hs. rewrite Hob, Bool.eqb_reflx, frames_from_note, Z.eqb_refl.
    simpl in Hs. rewrite app_assoc in Hs. destruct (split_prefix _ _ _ _ Hs) as (fs1 & r1 & Hs1 & Hfs & Hr).
    specialize (Hv a). rewrite decide_True in Hv by done. destruct (om_find a (links_ (transit_do s t))) as [L'|] eqn:HL'; [|done].
    injection Hv as V1 V2 V3. unfold held_after in V3. rewrite Hs1 in *. cbn [fst snd default] in *. rewrite Hfs. f_equal.
    apply (IH (transit_do s t) a L' _ r); [by apply fine_do | done | congruence |]. rewrite V3.
    simpl. destruct (split_frames (r1 ++ _)). cbn [fst snd] in *. by subst.
  - apply Hother. intros M' b'. congruence.
  - by apply Hother.
Qed.
Lemma dead_cut p ss t fs r : fine t -> dead p t -> split_frames (came p ss t) = (fs, Some r) -> frames_from p (passings ss t) = fs.
Proof. intros Hf Hd. destruct (dead_run p ss t Hf Hd) as [-> ->]. rewrite idle_nil. by intros [= <- _]. Qed.
Lemma unborn_cut p ss : forall t fs r, fine t -> tr_next_socket t <= p -> split_frames (came p ss t) = (fs, Some r) ->
  frames_from p (passings ss t) = fs.
Proof.
  induction ss as [|s ss IH]; intros t fs r Hf Hle Hs; [by injection Hs as <- _|].
  pose proof (proj1 (proj1 Hf)) as Hw. pose proof (fine_do s t Hf) as Hf'. cbn [came passings] in *. rewrite frames_from_app.
  assert (Hno : forall M b L, ~ (owns b p M t /\ L = M)) by (intros M b L [Ho _]; pose proof (sk_fresh _ (proj2 Hf) _ _ _ Ho); lia).
  destruct (elsewhere p s t) as [Hc ->]; [intros M buf (b & Ho)%delivered_owns; by destruct (Hno M b M)|]. rewrite Hc in Hs.
  destruct (Z.le_gt_cases (tr_next_socket (transit_do s t)) p) as [Hle'|Hlt]; [by eapply IH|].
  assert (Hd : delivered s t = None).
  { destruct (delivered s t) as [[[M q] buf]|] eqn:Hd; [|done]. destruct (bytes_step s t M q buf Hw Hd) as (_ & _ & _ & Hn & _). lia. }
  destruct (quiet_step s t Hw Hd) as [[_ (a0 & Hl)] _].
  assert (Hnew : forall b M, owns b p M (transit_do s t) -> b = a0 /\ L_buffer M = []).
  { intros b M [HM Hp]. destruct (Hl b M HM) as [(L & HL & Hv)|(-> & _ & Hb & _)]; [|done].
    destruct (Hno L b L). injection Hv as V1 _ _. split; [|done]. split; congruence. }
  destruct (om_find a0 (links_ (transit_do s t))) as [L|] eqn:HL; [destruct (decide (tcp_ptr_ (L_chan L) = Some p)) as [Hp|Hp]|].
  - assert (Ho : owns a0 p L (transit_do s t)) by done. destruct (Hnew _ _ Ho) as [_ Hb].
    destruct (Bool.bool_dec (L_outbound L) ob) as [Hob|Hob].
    + apply (owned_cut p ss (transit_do s t) a0 L fs r); [done..|]. by rewrite Hb.
    + apply (dead_cut p ss _ fs r); [done | | done]. split; [done|]. intros b M Ho'.
      pose proof (sk_one _ (proj2 Hf') _ _ _ _ _ Ho Ho') as <-. destruct Ho' as [HM _]. congruence.
  - apply (dead_cut p ss _ fs r); [done | | done]. split; [done|]. intros b M Ho'. destruct (Hnew _ _ Ho') as [-> _], Ho'. congruence.
  - apply (dead_cut p ss _ fs r); [done | | done]. split; [done|]. intros b M Ho'. destruct (Hnew _ _ Ho') as [-> _], Ho'. congruence.
Qed.

(** What is written to a socket of the other side: segments passed on, and keepalives; all
    those that are routed by the id, if it always led there. *)
Lemma writes_to_none q (w : list (Z * bytes)) : (forall b, ~ In (q, b) w) -> writes_to q w = [].
Proof.
  induction w as [|[q' b] w IH]; intros Hn; [done|]. unfold writes_to in *. cbn [List.filter fst].
  destruct (Z.eqb_spec q' q) as [->|_]; [by destruct (Hn b); left|]. apply IH. intros b' Hb. apply (Hn b'). by right.
Qed.
Context (Hmb : forall len, mb_acquire len = true).
Definition leads (q : Z) (ps : list passing) : Prop :=
  Forall (fun x => routed ob rid (pg_frame x) = true -> pg_way x = Some q) ps.
Definition written_from (q : Z) (ps : list passing) (w : list (Z * bytes)) t : Prop :=
  Forall (fun f => f = beat t \/ exists x, In x ps /\ f = f_bytes (pg_frame x)) (writes_to q w) /\
  (leads q ps -> map f_bytes (List.filter (routed ob rid) (map pg_frame ps)) `sublist_of` writes_to q w).
Lemma step_writes q s t : fine t -> (forall a L, owns a q L t -> L_outbound L <> ob) ->
  exists w, tr_wire (transit_do s t) = tr_wire t ++ w /\ written_from q (passed_now s t) w t.
Proof.
  intros [Hok Hs] Hno. pose proof (proj1 Hok) as Hw. unfold passed_now. destruct (delivered s t) as [[[L p] buf]|] eqn:Hd.
  - destruct (bytes_step s t L p buf Hw Hd) as (a & _ & Hwr & _). set (fs := fst (split_frames _)) in *.
    eexists. split; [exact Hwr|]. destruct (Bool.eqb_spec (L_outbound L) ob) as [->|Hne].
    + split.
      * apply List.Forall_forall. intros f (x & <- & [Hin _]%filter_In)%in_map_iff. right.
        apply in_concat in Hin as (l & (g & <- & Hg)%in_map_iff & Hx). exists (Passing p (out_socket ob rid t) g).
        split; [by apply in_map|]. pose proof (passed_frame ob t g) as Hp. rewrite List.Forall_forall in Hp. by apply Hp.
      * intros Hl. rewrite map_map. change (map (fun x => pg_frame (Passing p (out_socket ob rid t) x)) fs) with (map (fun x : frame_in => x) fs). rewrite map_id.
        destruct (decide (out_socket ob rid t = Some q)) as [Hq|Hq]; [by apply passed_to|].
        replace (List.filter (routed ob rid) fs) with (@nil frame_in); [apply sublist_nil_l|].
        clear -Hl Hq. clearbody fs. induction fs as [|f fs IH]; [done|]. inversion Hl as [|? ? Hf Hfs]; subst. cbn [List.filter].
        destruct (routed ob rid f) eqn:Hr; [by specialize (Hf Hr) | by apply IH].
    + unfold written_from. rewrite (writes_to_none q); [split; [constructor | intros _; apply sublist_nil_l]|].
      intros b Hin. apply in_concat in Hin as (l & (g & <- & Hg)%in_map_iff & Hx).
      destruct (passed_side t (L_outbound L) g q b Hw Hx) as (_ & d & M & Ho & Hsd). apply (Hno d M Ho).
      rewrite Hsd. by destruct (L_outbound L), ob.
  - destruct (quiet_step s t Hw Hd) as [_ (w & Hwr & Hb)]. exists w. split; [done|]. split; [|intros _; apply sublist_nil_l].
    apply List.Forall_forall. intros f (x & <- & [Hin _]%filter_In)%in_map_iff. left. unfold beats in Hb.
    rewrite List.Forall_forall in Hb. by apply Hb.
Qed.
Lemma run_writes q ss : forall t, fine t -> ~ seen ob q ss t ->
  exists w, tr_wire (transit_run ss t) = tr_wire t ++ w /\ written_from q (passings ss t) w t.
Proof.
  induction ss as [|s ss IH]; intros t Hf Hno.
  { exists []. rewrite app_nil_r. split; [done|]. split; [constructor | intros _; apply sublist_nil_l]. }
  destruct (step_writes q s t Hf) as (w1 & Hw1 & Hall1 & Hsub1).
  { intros a L Ho Hob. apply Hno, seen_cons. left. by exists a, L. }
  destruct (IH (transit_do s t)) as (w2 & Hw2 & Hall2 & Hsub2); [by apply fine_do | intros Hs; by apply Hno, seen_cons; right|].
  assert (Hbeat : beat (transit_do s t) = beat t) by (unfold beat; by rewrite (config_do s t (proj1 (proj1 Hf)))).
  exists (w1 ++ w2). split; [unfold transit_run in *; cbn [fold_left]; by rewrite Hw2, Hw1, app_assoc|]. unfold written_from. rewrite writes_to_app. split.
  - apply Forall_app. cbn [passings]. split.
    + eapply Forall_impl; [exact Hall1|]. intros f [?|(x & Hx & ?)]; [by left | right; exists x; split; [apply in_app_iff; by left | done]].
    + eapply Forall_impl; [exact Hall2|]. intros f [?|(x & Hx & ?)]; [left; congruence | right; exists x; split; [apply in_app_iff; by right | done]].
  - cbn [passings]. intros [Hl1 Hl2]%Forall_app. rewrite map_app, List.filter_app, map_app.
    apply sublist_app; [by apply Hsub1 | by apply Hsub2].
Qed.

(** Nothing comes from a socket that is never delivered anything. *)
Fixpoint delivering (ss : list transit_step) t : list Z :=
  match ss with
  | [] => []
  | s :: ss => match delivered s t with Some (_, q, _) => q :: delivering ss (transit_do s t) | None => delivering ss (transit_do s t) end
  end.
Lemma came_none p ss : forall t, ~ In p (delivering ss t) -> came p ss t = [].
Proof.
  induction ss as [|s ss IH]; intros t Hn; [done|]. cbn [came delivering] in *. unfold came_now.
  destruct (delivered s t) as [[[L q] buf]|]; [|by apply IH]. rewrite IH by (intros ?; apply Hn; by right).
  destruct (Z.eqb_spec q p) as [->|]; [by destruct Hn; left|]. by rewrite andb_false_r.
Qed.
Lemma leads_test q ps : forallb (fun x => negb (routed ob rid (pg_frame x)) || bool_decide (pg_way x = Some q)) ps = true -> leads q ps.
Proof.
  rewrite forallb_forall. intros Hx. apply List.Forall_forall. intros x Hin Hr. specialize (Hx x Hin). rewrite Hr in Hx.
  by apply bool_decide_eq_true in Hx.
Qed.
Lemma seen_test side q ss t : existsb (fun e => bool_decide (tcp_ptr_ (L_chan (snd e)) = Some q) && Bool.eqb (L_outbound (snd e)) side)
  (links_ (transit_run ss t)) = true -> fine t -> seen side q ss t.
Proof.
  intros ([a L] & Hin & [Hq%bool_decide_eq_true Ho%Bool.eqb_prop]%andb_true_iff)%existsb_exists [Hok _]. exists (length ss), a, L.
  rewrite take_ge by done. split; [split; [|done] | done]. apply om_find_ok_In; [|done]. by apply (tw_links _ (proj1 (ok_run ss t Hok))).
Qed.

(** *** From the start *)
Definition started (cfg : FgwConfig) (ret : Z) : TransitService := snd (transit_start ret (new_transit cfg)).
(** No link holds anything back, nothing has been written. *)
Definition fresh t : Prop := sockets t /\ tr_wire t = [] /\ forall a L, om_find a (links_ t) = Some L -> L_buffer L = [].
Lemma fresh_dials cs : forall t, transit_wf t -> fresh t -> fresh (fold_left (fun t c => dialOneOutport c t) cs t).
Proof.
  induction cs as [|c cs IH]; intros t Hw (Hs & Hwr & Hb); [done|]. cbn [fold_left].
  destruct (grown_dial c t Hw) as [Hg Hwr']. destruct (dial_spec c t Hw) as (Hw' & _). apply IH; [done|].
  split_and!; [by apply (grown_sockets t) | congruence |]. destruct Hg as [_ (a0 & Hl)]. intros a L HL.
  destruct (Hl a L HL) as [(L0 & H0 & Hv)|(_ & _ & ? & _)]; [|done]. injection Hv as _ _ ->. by apply (Hb a).
Qed.
Lemma started_fine cfg ret : fine (started cfg ret) /\ fresh (started cfg ret).
Proof.
  assert (Hf : fresh (started cfg ret)).
  { assert (Hd : fresh (dialOutports (new_transit cfg))).
    { apply fresh_dials; [constructor; simpl; done || apply om_ok_nil|]. split_and!; [|done..]. split; [intros a p L [HL _] | intros a a' p L L' [HL _] | intros a L HL]; done. }
    unfold started, transit_start. destruct (_ && _); [done|]. destruct Hd as ([H1 H2 H3] & H4 & H5). by split_and!. }
  split; [|done]. split; [apply ok_start | apply Hf].
Qed.
Lemma socket_cut p ss cfg ret fs r : split_frames (came p ss (started cfg ret)) = (fs, Some r) ->
  frames_from p (passings ss (started cfg ret)) = fs.
Proof.
  destruct (started_fine cfg ret) as [Hf (_ & _ & Hb)]. set (t := started cfg ret) in *. intros Hs.
  destruct (Z.le_gt_cases (tr_next_socket t) p) as [Hle|Hlt]; [by eapply unborn_cut|].
  destruct (decide (Exists (fun e => tcp_ptr_ (L_chan (snd e)) = Some p /\ L_outbound (snd e) = ob) (links_ t))) as [He|Hn].
  - apply Exists_exists in He as ([a L] & Hin & Hp & Hob). simpl in *.
    assert (HL : om_find a (links_ t) = Some L) by (apply om_find_ok_In; [apply (tw_links _ (proj1 (proj1 Hf))) | by apply list_elem_of_In]).
    eapply (owned_cut p ss t a L); [done..|]. by rewrite (Hb a L HL).
  - apply (dead_cut p ss t fs r); [done | | done]. split; [done|]. intros a L [HL Hp] Hob. apply Hn, Exists_exists.
    exists (a, L). split; [|done]. by apply list_elem_of_In, om_find_In.
Qed.

(** The transit of a run as a stretch of the way. *)
Definition keepalive (cfg : FgwConfig) : segment := (heartbeat_hdr (cfg_ingress_id cfg), []).
Lemma keepalive_ok cfg : is_u32 (cfg_ingress_id cfg) -> seg_ok (keepalive cfg).
Proof. intros Hi. split; [|done]. by constructor. Qed.
Lemma keepalive_apart k cfg : ~ of_session k (keepalive cfg).
Proof. unfold of_session, isHeartbeat. by intros (_ & Hb & _). Qed.
Lemma passage_bears (full : Prop) all segs cfg ret ss (t := started cfg ret) : is_u32 (cfg_ingress_id cfg) -> Forall seg_ok all ->
  Forall seg_ok segs -> Forall (fun hp => routed ob rid (seg_in hp) = true) segs -> supplied full all segs (fun p => came p ss t) ->
  bears full (all ++ [keepalive cfg]) segs (tr_wire (transit_at cfg ret ss)) (fun q => seen (negb ob) q ss t) (fun q => leads q (passings ss t)).
Proof.
  intros Hing Hok Hoks Hr [Hp Hwhole]. destruct (started_fine cfg ret) as [Hf (_ & Hwr & _)]. fold t in Hf, Hwr.
  assert (Hrun : forall q, seen (negb ob) q ss t -> written_from q (passings ss t) (tr_wire (transit_at cfg ret ss)) t).
  { intros q Hq. destruct (run_writes q ss t Hf) as (w & Hw & Hall).
    - intros Hs. pose proof (seen_side q ss t _ _ Hf Hq Hs). by destruct ob.
    - unfold transit_at. fold (started cfg ret). fold t. by rewrite Hw, Hwr. }
  assert (Hcut : forall p, exists r, split_frames (came p ss t) = (frames_from p (passings ss t), Some r)).
  { intros p. destruct (pieces_cut all Hok _ (Hp p)) as ((r & Hr') & _). exists r.
    destruct (split_frames (came p ss t)) as [fs o] eqn:Hs. simpl in Hr'. subst o. by rewrite <- (socket_cut p ss cfg ret fs r Hs). }
  split.
  - intros q Hq. destruct (Hrun q Hq) as [Hall _]. eapply Forall_impl; [exact Hall|]. intros f [->|([p o fr] & Hx & ->)]; rewrite map_app; apply in_app_iff.
    + right. left. unfold beat, keepalive, seg_frame. cbn [fst snd]. by rewrite <- (config_at cfg ret []) at 1.
    + left. destruct (pieces_cut all Hok _ (Hp p)) as (_ & Hc). destruct (Hcut p) as (r & Hs). rewrite Hs in Hc.
      destruct (Hc fr) as (hp & Hhp & ->); [|by apply (in_map seg_frame)]. apply in_map_iff. exists (Passing p o fr). split; [done|].
      apply filter_In. split; [done | apply Z.eqb_refl].
  - intros Hy q Hq Hl. destruct (Hrun q Hq) as [_ Hsub]. etrans; [|by apply Hsub]. destruct (Hwhole Hy) as (p & Hw).
    pose proof (cut_routed ob rid all Hok _ segs Hoks Hr Hw) as Hc. destruct (Hcut p) as (r & Hs). rewrite Hs in Hc. cbn [fst] in Hc.
    etrans; [exact Hc|]. apply (fmap_sublist f_bytes). unfold frames_from. generalize (passings ss t). clear. intros ps.
    induction ps as [|x ps IH]; [constructor|]. cbn [List.filter map]. destruct (pg_from x =? p); cbn [List.filter map]; destruct (routed ob rid (pg_frame x));
      first [by apply sublist_skip | by apply sublist_cons | done].
Qed.
End run.
