(* ===== verification/Hops.v ===== *)
(** * Hops: from a stream's links to another stream, through any number of transits

    The way of a session's segments: links bring beginnings of what is written to their
    sockets, one of them all of it; what they bring may be fed to a transit, whose sockets
    towards the other end are then the next source, and so on.  A transit's whole run is
    arbitrary: other links, other sessions and the way back go on meanwhile. *)
From S2P Require Import Prelude Proto OMap Segment Pack Channel Selector Links DataStream.
From S2P Require Import StreamFacts Framing StreamWf Reassembly Completeness Sending EndToEnd.
From S2P Require Import Traffic.
From S2P Require Import Manager Transit TransitWf TransitProps ThroughTransit Passage.

Section hops.
Context {rt : ZdsRuntime} {T : Transport} {host : Host}.
Context (Hmb : forall len, mb_acquire len = true).
Context (full : Prop) (ob : bool) (rid : Z) (k : SessionKey).

(** Segments of other sessions, and those that are no session's. *)
Definition strangers (others : list segment) : Prop := Forall (fun hp => seg_ok hp /\ ~ of_session k hp) others.

(** [path src onward good fed]: of [src], what is written, channel [ch] has brought [fed ch]
    at the far end; what it brings was written to a socket that leads [onward], or comes
    from strangers.  A [full] path brings all that is written to some [good] socket.  On the
    way out the transits route by outport, on the way back ([ob]) by ingress; a socket of
    theirs is good if it is where the route led whenever there was something to pass on. *)
Inductive path : list (Z * bytes) -> (Z -> Prop) -> (Z -> Prop) -> (Z -> bytes) -> Prop :=
  | by_links src onward good conn others fed : strangers others ->
      (forall ch, (onward (conn ch) /\ fed ch `prefix_of` on_socket (conn ch) src) \/ pieces others (fed ch)) ->
      (full -> exists ch, onward (conn ch) /\ good (conn ch) /\ fed ch = on_socket (conn ch) src) ->
      path src onward good fed
  | by_transit src onward good cfg ret ss (t := started cfg ret) fed :
      is_u32 (cfg_ingress_id cfg) ->
      path src onward good (fun p => came ob p ss t) ->
      path (tr_wire (transit_at cfg ret ss)) (fun q => seen (negb ob) q ss t) (fun q => leads ob rid q (passings ob rid ss t)) fed ->
      path src onward good fed.

(** One channel, of one socket. *)
Lemma pieces_nil all : pieces all [].
Proof. by exists []. Qed.
Lemma path_one src (onward good : Z -> Prop) ch0 q (fed : Z -> bytes) : onward q -> fed ch0 `prefix_of` on_socket q src ->
  (full -> good q /\ fed ch0 = on_socket q src) -> (forall ch, ch <> ch0 -> fed ch = []) -> path src onward good fed.
Proof.
  intros Ho Hp Hall Hno. apply (by_links _ _ _ (fun _ => q) []); [constructor | |].
  - intros ch. destruct (decide (ch = ch0)) as [->|Hne]; [by left | right; rewrite Hno by done; apply pieces_nil].
  - intros Hy. destruct (Hall Hy). by exists ch0.
Qed.
Lemma strangers_app a b : strangers a -> strangers b -> strangers (a ++ b).
Proof. intros. by apply Forall_app. Qed.
Lemma strangers_ok others : strangers others -> Forall seg_ok others.
Proof. intros Hs. eapply Forall_impl; [exact Hs|]. by intros hp []. Qed.
Lemma path_supplied segs src onward good fed : path src onward good fed -> forall all, Forall seg_ok all -> Forall seg_ok segs ->
  Forall (fun hp => routed ob rid (seg_in hp) = true) segs ->
  bears full all segs src onward good -> exists others, strangers others /\ supplied full (all ++ others) segs fed.
Proof.
  intros Hp. induction Hp as [src onward good conn others fed Hoth Hfed Hall|src onward good cfg ret ss t fed Hing _ IH1 _ IH2];
    intros all Hok Hoks Hr Hb.
  - exists others. split; [done|]. by eapply bears_links.
  - destruct (IH1 all Hok Hoks Hr Hb) as (o1 & Ho1 & Hs1).
    assert (Hok1 : Forall seg_ok (all ++ o1)) by (apply Forall_app; split; [done | by apply strangers_ok]).
    pose proof (passage_bears ob rid Hmb full (all ++ o1) segs cfg ret ss Hing Hok1 Hoks Hr Hs1) as Hb2.
    destruct (IH2 ((all ++ o1) ++ [keepalive cfg])) as (o2 & Ho2 & Hs2); [|done..|].
    { apply Forall_app. split; [done|]. constructor; [by apply keepalive_ok | constructor]. }
    exists (o1 ++ [keepalive cfg] ++ o2). rewrite !app_assoc in *. split; [|done].
    apply strangers_app; [|done]. apply strangers_app; [done|]. constructor; [split; [by apply keepalive_ok | by apply keepalive_apart] | constructor].
Qed.
End hops.

Lemma path_ext {rt : ZdsRuntime} {T : Transport} {host : Host} full ob rid k src onward good (fed fed' : Z -> bytes) :
  (forall ch, fed' ch = fed ch) -> path full ob rid k src onward good fed -> path full ob rid k src onward good fed'.
Proof.
  intros He Hp. revert fed' He.
  induction Hp as [src onward good conn others fed Hoth Hfed Hall|src onward good cfg ret ss t fed Hing Hp _ _ IH]; intros fed' He.
  - apply (by_links full ob rid k src onward good conn others); [done | intros c; by rewrite He |]. intros Hy. destruct (Hall Hy) as (ch & Hc).
    exists ch. by rewrite He.
  - by apply (by_transit full ob rid k src onward good cfg ret ss); [..|apply IH].
Qed.

(** What is not full has no need of a good socket. *)
Lemma path_any {rt : ZdsRuntime} {T : Transport} {host : Host} ob rid k src onward (good good' : Z -> Prop) fed :
  path False ob rid k src onward good fed -> path False ob rid k src onward good' fed.
Proof.
  intros Hp. revert good'. induction Hp as [src onward good conn others fed Hoth Hfed Hall|src onward good cfg ret ss t fed Hing _ IH Hp _]; intros good'.
  - by apply (by_links False ob rid k src onward good' conn others).
  - by apply (by_transit False ob rid k src onward good' cfg ret ss); [done | apply IH | exact Hp].
Qed.

(** What a session says is heard at the far end. *)
Lemma path_heard {Hs Hr : Type} {appr : SessionHandler Hr} {rt : ZdsRuntime} {T : Transport} {host : Host} {sort : StdSort}
    (Hmb : forall len, mb_acquire len = true) (ob : bool) k syn o (ws : world Hs) said steps loc ss win v (cb : bool) r net a
    (d0 := if cb then setUnknownSessionCallback (new_stream loc ss win v r) else new_stream loc ss win v r)
    (wr := do_steps (H := Hr) steps (mkWorld d0 net a [])) :
  sound ws -> key_ok k -> zlen said <= 2 ^ 32 - 2 ^ 16 -> voiced k syn o said ws -> (ot_full o -> steady o (w_net ws)) -> ot_base o = [] ->
  path (ot_full o) ob (if ob then fst k else route_outport_id_ (cfg ws)) k (wire_ (w_net ws)) (fun _ => True) (eq (ot_socket o))
    (fun ch => bytes_on ch steps) ->
  0 <= ss < 2 ^ 16 -> 0 <= win < 2 ^ 16 -> Forall step_bytes steps ->
  concat (heard k (w_log wr)) `prefix_of` said /\ (ot_full o -> kept k wr -> concat (heard k (w_log wr)) = said).
Proof.
  intros Hsd Hk Hn Hv Hst Hbase Hway Hss Hwin Hbytes.
  apply (voiced_heard Hmb k Hk syn o ws said Hsd (wire_ (w_net ws)) ltac:(by rewrite Hbase) Hn steps Hbytes loc ss win v cb r net a Hss Hwin Hv Hst).
  intros all cs segs Hok Hoks Hb. eapply path_supplied; [exact Hmb | exact Hway | done | done | apply data_routed | exact Hb].
Qed.
