(* ===== verification/Config.v ===== *)
(** * Config: the stored configuration, [src/zfgw.cpp]

    The path of a machine's configuration file, and its writer and loader.  The file
    system is the contents of its files by path; whether a file can be opened, how much of
    a write is taken and how large a block the buffer pool delivers is the class [Disk]. *)
From S2P Require Import Prelude Proto Pack ZdsInstance.

(** ** The file system *)
Abbreviation files := (gmap bytes bytes).
Class Disk := {
  (** [fopen(path, "wb")] and [fopen(path, "rb")] of a file that is there *)
  can_write : bytes -> bool;
  can_read : bytes -> bool;
  (** how many of the bytes [fwrite] and [fread] take *)
  write_count : bytes -> nat;
  read_count : bytes -> nat;
  (** the space of the block ZCE_MBACQUIRE delivers for a request *)
  block_space : Z -> Z }.

(** ** The path *)
Definition slash : Z := 47.
Definition is_separator (c : Z) : bool := (c =? 47) || (c =? 92).
Definition ends_in_separator (dir : bytes) : bool :=
  match last dir with Some c => is_separator c | None => false end.
Definition config_file : bytes := [47; 99; 111; 110; 102; 105; 103; 46; 122; 100; 115].
Definition fgwConfigFilePath (host_dir vmname vmpath : bytes) : bytes :=
  let dir := host_dir in
  let dir := match dir with [] => dir | _ => if ends_in_separator dir then dir else dir ++ [slash] end in
  let dir :=
    match vmpath with
    | [] => dir
    | _ => let dir := dir ++ vmpath in if ends_in_separator dir then dir else dir ++ [slash]
    end in
  dir ++ vmname ++ config_file.

Section config.
Context {rt : ZdsRuntime} {disk : Disk}.

(** ** Writer and loader *)
Definition zfgw_save_config (config : FgwConfig) (host_dir vmname vmpath : bytes) (f : files) : Z * files :=
  let path := fgwConfigFilePath host_dir vmname vmpath in
  let stamped := cfg_set_version kFgwConfigVersion config in
  let need := fst (zds_pack_FgwConfig None stamped true) in
  if need <? 0 then (need, f)
  else if block_space need <? need then (err ZFGW_ERRCODE_MEMORY, f)
  else
  let '(wrote, out) := zds_pack_FgwConfig (Some (block_space need)) stamped true in
  if wrote <? 0 then (wrote, f)
  else if negb (can_write path) then (err ZFGW_ERRCODE_PATHFILEWRITE, f)
  else
  let data := take (Z.to_nat wrote) out in
  let n := write_count data in
  ((if Z.of_nat n =? wrote then 0 else err ZFGW_ERRCODE_PATHFILEWRITE), <[path := take n data]> f).

(** The configuration is the out-parameter [config]. *)
Definition zfgw_load_config (config : FgwConfig) (host_dir vmname vmpath : bytes) (f : files) : Z * FgwConfig :=
  let path := fgwConfigFilePath host_dir vmname vmpath in
  match f !! path with
  | None => (err ZFGW_ERRCODE_PATHFILEREAD, config)
  | Some content =>
    if negb (can_read path) then (err ZFGW_ERRCODE_PATHFILEREAD, config)
    else
    let len := zlen content in
    if len <=? 0 then (err ZFGW_ERRCODE_PATHFILEREAD, config)
    else if block_space (i32 len) <? i32 len then (err ZFGW_ERRCODE_MEMORY, config)
    else if negb (Z.of_nat (read_count content) =? len) then (err ZFGW_ERRCODE_PATHFILEREAD, config)
    else
    let '(consumed, decoded) := zds_unpack_FgwConfig content true in
    if consumed <? 0 then (consumed, config)
    else if negb (fgwConfigVersionOk (cfg_config_version decoded)) then (err ZFGW_ERRCODE_INVALIDCONFIG, config)
    else (0, decoded)
  end.

(** ** Facts *)
Lemma path_inj host_dir vmpath a b :
  fgwConfigFilePath host_dir a vmpath = fgwConfigFilePath host_dir b vmpath -> a = b.
Proof. unfold fgwConfigFilePath. intros H. apply app_inv_head in H. by apply app_inv_tail in H. Qed.
Lemma save_other config host_dir vmname vmpath f path : path <> fgwConfigFilePath host_dir vmname vmpath ->
  snd (zfgw_save_config config host_dir vmname vmpath f) !! path = f !! path.
Proof.
  intros Hne. unfold zfgw_save_config. destruct (_ <? 0); [done|]. destruct (_ <? _); [done|].
  destruct (zds_pack_FgwConfig _ _ _) as [wrote out]. destruct (wrote <? 0); [done|]. destruct (negb _); [done|].
  simpl. by rewrite lookup_insert_ne.
Qed.
Lemma stamped_wf config : wf_FgwConfig config -> wf_FgwConfig (cfg_set_version kFgwConfigVersion config).
Proof. unfold wf_FgwConfig. intros Hwf. decompose [and] Hwf. split_and!; simpl; done || by vm_compute. Qed.

(** What a save that returns 0 has put on disk. *)
Lemma save_ok {laws : ZdsLaws rt} config host_dir vmname vmpath f : wf_FgwConfig config ->
  fst (zfgw_save_config config host_dir vmname vmpath f) = 0 -> exists content,
  snd (zfgw_save_config config host_dir vmname vmpath f) !! fgwConfigFilePath host_dir vmname vmpath = Some content /\
  zds_unpack_FgwConfig content true = (zlen content, cfg_set_version kFgwConfigVersion config).
Proof.
  intros Hwf. unfold zfgw_save_config. set (stamped := cfg_set_version _ config).
  set (need := fst (zds_pack_FgwConfig None stamped true)).
  destruct (Z.ltb_spec need 0); [simpl; lia|]. destruct (block_space need <? need); [done|].
  destruct (zds_pack_FgwConfig (Some (block_space need)) stamped true) as [wrote out] eqn:Hp.
  destruct (Z.ltb_spec wrote 0); [simpl; lia|]. destruct (negb _); [done|]. cbn [fst snd].
  destruct (codec_FgwConfig stamped (stamped_wf _ Hwf) _ _ _ Hp) as [Hlen Hun]; [done|].
  assert (Hout : take (Z.to_nat wrote) out = out) by (rewrite Hlen, to_nat_zlen; apply firstn_all). rewrite Hout.
  destruct (Z.eqb_spec (Z.of_nat (write_count out)) wrote) as [Hn|]; [|done]. intros _. exists out.
  rewrite lookup_insert_eq. rewrite Hlen in Hn. unfold zlen in Hn. apply Nat2Z.inj in Hn. rewrite Hn, firstn_all.
  split; [done|]. specialize (Hun []). rewrite app_nil_r in Hun. by rewrite Hun, Hlen.
Qed.
End config.

(** ** Properties *)

(** C21. A stored configuration comes back.  If storing a machine's configuration reports
    success, then whatever configurations of other machines are stored afterwards, loading
    it gives the same configuration, stamped with the version of this layout, given that the
    file can be read and fits the pool.  And whatever a file holds, loading either replaces
    the configuration by what the file decodes to, which carries the right version, or
    reports an error and leaves the configuration alone. *)
Theorem config_persistence {rt : ZdsRuntime} {laws : ZdsLaws rt} {disk : Disk}
    (config : FgwConfig) (host_dir vmname vmpath : bytes) (f : files)
    (path := fgwConfigFilePath host_dir vmname vmpath) :
  (forall others f', wf_FgwConfig config -> fst (zfgw_save_config config host_dir vmname vmpath f) = 0 ->
     f' = fold_left (fun f o => snd (zfgw_save_config (snd o) host_dir (fst o) vmpath f)) others
            (snd (zfgw_save_config config host_dir vmname vmpath f)) ->
     Forall (fun o => fst o <> vmname) others -> can_read path = true ->
     (forall content, f' !! path = Some content -> 0 < zlen content < 2 ^ 31 /\
        read_count content = length content /\ zlen content <= block_space (zlen content)) ->
     forall old, zfgw_load_config old host_dir vmname vmpath f' = (0, cfg_set_version kFgwConfigVersion config)) /\
  (let '(ret, config') := zfgw_load_config config host_dir vmname vmpath f in
   (ret = 0 -> cfg_config_version config' = kFgwConfigVersion /\
      exists content consumed, f !! path = Some content /\ zds_unpack_FgwConfig content true = (consumed, config') /\ 0 <= consumed) /\
   (ret <> 0 -> ret < 0 /\ config' = config)).
Proof.
  split.
  - intros others f' Hwf H0 -> Hoth Hrd. destruct (save_ok config host_dir vmname vmpath f Hwf H0) as (content & Hc & Hun). fold path in Hc.
    set (f1 := snd (zfgw_save_config config host_dir vmname vmpath f)) in *. clearbody f1.
    assert (Hlast : fold_left (fun f o => snd (zfgw_save_config (snd o) host_dir (fst o) vmpath f)) others f1 !! path = Some content).
    { clear Hun H0 Hwf. revert f1 Hc. induction Hoth as [|[vm c] others Hne _ IH]; intros f1 Hc; [done|]. cbn [fold_left fst snd]. apply IH.
      rewrite save_other; [done|]. intros Heq. apply Hne. symmetry. by eapply path_inj. }
    intros Hsz old. destruct (Hsz content Hlast) as (Hl & Hn & Hb). unfold zfgw_load_config. fold path. rewrite Hlast, Hrd. cbn [negb].
    destruct (Z.leb_spec (zlen content) 0); [lia|]. rewrite i32_small by lia.
    destruct (Z.ltb_spec (block_space (zlen content)) (zlen content)); [lia|]. rewrite Hn.
    change (Z.of_nat (length content)) with (zlen content). rewrite Z.eqb_refl, Hun. cbn [negb].
    by destruct (Z.ltb_spec (zlen content) 0); [lia|].
  - unfold zfgw_load_config. fold path.
    assert (He : forall e, e <> ZFGW_ERRCODE_OK -> err e <> 0 /\ err e < 0) by (intros e Hne; pose proof (err_neg e Hne); lia).
    assert (Hfail : forall e, e <> ZFGW_ERRCODE_OK -> (err e = 0 -> cfg_config_version config = kFgwConfigVersion /\
        exists content consumed, f !! path = Some content /\ zds_unpack_FgwConfig content true = (consumed, config) /\ 0 <= consumed) /\
      (err e <> 0 -> err e < 0 /\ config = config)) by (intros e Hne; destruct (He e Hne); done).
    destruct (f !! path) as [content|]; [|by apply Hfail]. destruct (negb (can_read path)); [by apply Hfail|].
    destruct (_ <=? 0); [by apply Hfail|]. destruct (_ <? _); [by apply Hfail|]. destruct (negb _); [by apply Hfail|].
    destruct (zds_unpack_FgwConfig content true) as [consumed decoded] eqn:Hun. destruct (Z.ltb_spec consumed 0); [split; [lia | done]|].
    unfold fgwConfigVersionOk. destruct (Z.eqb_spec (cfg_config_version decoded) kFgwConfigVersion) as [Hv|]; [|by apply Hfail].
    cbn [negb]. split; [|done]. intros _. split; [done|]. by exists content, consumed.
Qed.

(** *** Two machines on one disk *)
Definition test_disk : Disk := {|
  can_write _ := true; can_read _ := true; write_count := @length Z; read_count := @length Z; block_space n := n |}.
#[local] Existing Instance test_disk.
Lemma config_persistence_witness :
  let f1 := snd (zfgw_save_config example_config [47; 118] [97] [] empty) in
  let f2 := snd (zfgw_save_config FgwConfig_empty [47; 118] [98] [] f1) in
  zfgw_load_config FgwConfig_empty [47; 118] [97] [] f2 = (0, cfg_set_version kFgwConfigVersion example_config).
Proof.
  intros f1 f2. destruct (config_persistence example_config [47; 118] [97] [] empty) as [H _].
  apply (H [([98], FgwConfig_empty)] f2).
  - apply example_config_wf.
  - vm_compute. reflexivity.
  - vm_compute. reflexivity.
  - by constructor.
  - vm_compute. reflexivity.
  - intros content Hc.
    assert (Hc' : f2 !! fgwConfigFilePath [47; 118] [97] [] = f1 !! fgwConfigFilePath [47; 118] [97] []) by (by apply save_other).
    rewrite Hc' in Hc. vm_compute in Hc. injection Hc as <-.
    split; [split; vm_compute; reflexivity|]. split; vm_compute; [reflexivity | discriminate].
Defined.
