(* ===== verification/Machine.v ===== *)
(** * Machine: the virtual machine that hosts the gateway, [src/zfgw_vm.{h,cpp}]

    A machine loads its configuration, brings up what its role needs - an inport or an
    outport with a stream and a manager of links, or a transit - and answers remote calls.
    The reactor's timers hold a manager or transit they belong to, so one that has been
    stopped lives on as long as a timer of it has not fired. *)
From Stdlib Require Import String Ascii.
From S2P Require Import Prelude Proto OMap Segment Pack Channel Selector Links DataStream Relay.
From S2P Require Import Outport Inport Manager Transit Config.

(** ** State *)
Record ZfgwMachine := mkMachine {
  (** the directory of the host's stub, if there is a stub *)
  mc_host_dir : option bytes;
  vm_name_ : bytes;
  mc_config : FgwConfig;
  running_ : bool;
  (** [manager_] and [stream_], with [inport_] or [outport_]; or [transit_] *)
  mc_inport : option (machine_net InportService);
  mc_outport : option (machine_net OutportService);
  mc_transit : option TransitService;
  (** the stopped managers with their links, and the stopped transits *)
  mc_stopped : list (ChannelManager * Links);
  mc_stopped_transits : list TransitService;
  (** the host's files *)
  mc_files : files }.
(** The constructor leaves [config_.role], a member without initialiser, indeterminate:
    [role] is the byte that happens to be there. *)
Definition fresh_config (role : Z) : FgwConfig :=
  let d := FgwConfig_empty in
  mkFgwConfig role (cfg_ingress_id d) (cfg_inport_listen_port d) (cfg_outport_listen_host d)
    (cfg_outport_listen_port d) (cfg_channels d) (cfg_segment_size d) (cfg_recv_window d)
    (cfg_heartbeat_interval d) (cfg_link_timeout d) (cfg_reconnect_max d) (cfg_multipath_mode d)
    (cfg_enable_crc d) (cfg_route_outport_id d) (cfg_config_version d).
Definition new_machine (role : Z) (host_dir : option bytes) (name : bytes) (f : files) : ZfgwMachine :=
  mkMachine host_dir name (fresh_config role) false None None None [] [] f.

Implicit Types (c : ZfgwMachine).
Definition set_mc_config (cfg : FgwConfig) c : ZfgwMachine :=
  mkMachine (mc_host_dir c) (vm_name_ c) cfg (running_ c) (mc_inport c) (mc_outport c) (mc_transit c)
    (mc_stopped c) (mc_stopped_transits c) (mc_files c).
Definition set_files (f : files) c : ZfgwMachine :=
  mkMachine (mc_host_dir c) (vm_name_ c) (mc_config c) (running_ c) (mc_inport c) (mc_outport c) (mc_transit c)
    (mc_stopped c) (mc_stopped_transits c) f.
Definition set_services (r : bool) (i : option (machine_net InportService))
    (o : option (machine_net OutportService)) (t : option TransitService) c : ZfgwMachine :=
  mkMachine (mc_host_dir c) (vm_name_ c) (mc_config c) r i o t (mc_stopped c) (mc_stopped_transits c) (mc_files c).
Definition set_stopped (ms : list (ChannelManager * Links)) (ts : list TransitService) c : ZfgwMachine :=
  mkMachine (mc_host_dir c) (vm_name_ c) (mc_config c) (running_ c) (mc_inport c) (mc_outport c) (mc_transit c)
    ms ts (mc_files c).

(** What the listens of the machine's acceptors return. *)
Record listens := mkListens { listen_clients : Z; listen_links : Z }.

(** What a caller of the machine is answered: an error, or a status or result. *)
Inductive reply := ReplyError (ret : Z) | ReplyStatus (st : FgwStatus) | ReplyResult (r : FgwStartResult).

Definition text (s : string) : bytes := map (fun a => Z.of_nat (nat_of_ascii a)) (list_ascii_of_string s).

Section machine.
Context {rt : ZdsRuntime} {T : Transport} {sort : StdSort} {host : Host} {disk : Disk}.

(** ** Bringing up and tearing down *)
Definition retire (m : ChannelManager) (l : Links) c : ZfgwMachine :=
  set_stopped (mc_stopped c ++ [Manager.stop (m, l)]) (mc_stopped_transits c) c.
Definition doTeardown c : ZfgwMachine :=
  let c :=
    match mc_inport c with
    | Some n => let w := Inport.stop (mn_world n) in retire (mn_mgr n) (w_net w) c
    | None => c
    end in
  let c :=
    match mc_outport c with
    | Some n => let w := Outport.stop (mn_world n) in retire (mn_mgr n) (w_net w) c
    | None => c
    end in
  let c :=
    match mc_transit c with
    | Some t => set_stopped (mc_stopped c) (mc_stopped_transits c ++ [transit_stop t]) c
    | None => c
    end in
  set_services false None None None c.

(** [manager_->start(config_)], which always succeeds, and the stream's constructor. *)
Definition new_net {H} (cfg : FgwConfig) (h : H) : machine_net H :=
  let '(m, l) := Manager.start cfg (new_manager, mkLinks empty [] LinkSelector_init []) in
  let ds := new_stream (cfg_ingress_id cfg) (cfg_segment_size cfg) (cfg_recv_window cfg)
              (negb (cfg_enable_crc cfg =? 0)) (cfg_route_outport_id cfg) in
  mkNet (addBytesSubscriber the_stream m) (mkWorld ds l h []).

Definition doBringup (ls : listens) c : Z * ZfgwMachine :=
  if running_ c then (0, c)
  else
  let cfg := mc_config c in
  if cfg_role cfg =? ZFGW_ROLE_TRANSIT then
    let '(tret, t) := transit_start (listen_links ls) (new_transit cfg) in
    let c := set_services false (mc_inport c) (mc_outport c) (Some t) c in
    if tret <? 0 then (tret, doTeardown c)
    else (0, set_services true (mc_inport c) (mc_outport c) (Some t) c)
  else if cfg_role cfg =? ZFGW_ROLE_INPORT then
    let n := new_net cfg new_inport in
    let '(ret, o) := Inport.start (listen_clients ls) (w_app (mn_world n)) in
    let n := mkNet (mn_mgr n) (set_app o (mn_world n)) in
    let c := set_services false (Some n) (mc_outport c) (mc_transit c) c in
    if ret <? 0 then (ret, doTeardown c)
    else (0, set_services true (Some n) (mc_outport c) (mc_transit c) c)
  else if cfg_role cfg =? ZFGW_ROLE_OUTPORT then
    let n := new_net cfg new_outport in
    let n := mkNet (mn_mgr n) (Outport.start (mn_world n)) in
    let '(lret, m) :=
      if negb (cfg_outport_listen_port cfg =? 0) then startLinkListener (listen_links ls) (mn_mgr n) else (0, mn_mgr n) in
    let n := mkNet m (mn_world n) in
    let c := set_services false (mc_inport c) (Some n) (mc_transit c) c in
    if lret <? 0 then (lret, doTeardown c)
    else (0, set_services true (mc_inport c) (Some n) (mc_transit c) c)
  else
    (* the manager has been started, and is the only thing to tear down *)
    let '(m, l) := Manager.start cfg (new_manager, mkLinks empty [] LinkSelector_init []) in
    (err ZFGW_ERRCODE_INVALIDROLE, doTeardown (retire m l c)).

(** [ZfgwMachine::start()] and [stop()]. *)
Definition machine_start (ls : listens) c : Z * ZfgwMachine :=
  match mc_host_dir c with
  | Some dir =>
    let '(ret, cfg) := zfgw_load_config (mc_config c) dir (vm_name_ c) [] (mc_files c) in
    let c := set_mc_config cfg c in
    if ret <? 0 then (0, c) else doBringup ls c
  | None => doBringup ls c
  end.
Definition machine_stop c : ZfgwMachine := doTeardown c.

(** ** Remote calls *)
(** [open_timestamp_] of a session, the second it was made in, by ingress id and session id *)
Context (open_timestamp : Z -> Z -> Z).

Definition mlfGetStatus c : reply :=
  let cfg := mc_config c in
  let links :=
    match mc_inport c, mc_outport c with
    | Some n, _ => collectLinkQualities (w_net (mn_world n))
    | None, Some n => collectLinkQualities (w_net (mn_world n))
    | None, None => []
    end in
  let sessions :=
    match mc_inport c with
    | Some n =>
      map (fun s => mkFgwSessionStat (fs_session_id s) (cfg_ingress_id cfg) (client_addr_ s) []
             (fs_bytes_sent_ s) (fs_bytes_recv_ s) (open_timestamp (cfg_ingress_id cfg) (fs_session_id s)))
        (Inport.snapshotSessions (w_app (mn_world n)))
    | None =>
      match mc_outport c with
      | Some n =>
        map (fun s => mkFgwSessionStat (rs_session_id s) (rs_peer_ingress s) [] (target_addr_ s)
               (bytes_sent_ s) (bytes_recv_ s) (open_timestamp (rs_peer_ingress s) (rs_session_id s)))
          (Outport.snapshotSessions (w_app (mn_world n)))
      | None => []
      end
    end in
  ReplyStatus (mkFgwStatus (if running_ c then 1 else 0) (cfg_role cfg) (u32 (zlen sessions)) links sessions).

Definition result (ret : Z) (message : string) : reply := ReplyResult (mkFgwStartResult ret (text message)).
Definition mlfStart (ls : listens) (req : FgwStartRequest) c : reply * ZfgwMachine :=
  let force := negb (sr_force_restart req =? 0) in
  if running_ c && negb force then (result (err ZFGW_ERRCODE_BUSY) "already running", c)
  else
  let c := if running_ c && force then doTeardown c else c in
  let '(ret, c) := doBringup ls c in
  (result ret (if ret <? 0 then "failed" else "ok"), c).
Definition mlfStop c : reply * ZfgwMachine := (result 0 "stopped", doTeardown c).
Definition mlfSetConfig (req : FgwSetConfigRequest) c : reply * ZfgwMachine :=
  if negb (fgwConfigVersionOk (cfg_config_version (sc_config req)))
  then (result (err ZFGW_ERRCODE_INVALIDCONFIG) "incompatible config_version", c)
  else
  let c := set_mc_config (sc_config req) c in
  let c :=
    match mc_host_dir c with
    | Some dir => set_files (snd (zfgw_save_config (mc_config c) dir (vm_name_ c) [] (mc_files c))) c
    | None => c
    end in
  (result 0 "config updated", c).

(** An operation of [manager_], if there is one. *)
Definition on_manager (f : ChannelManager * Links -> Z * (ChannelManager * Links)) c : Z * ZfgwMachine :=
  let run {H} (n : machine_net H) : Z * machine_net H :=
    let '(ret, (m, l)) := f (mn_mgr n, w_net (mn_world n)) in (ret, mkNet m (on_net (fun _ => l) (mn_world n))) in
  match mc_inport c, mc_outport c with
  | Some n, _ => let '(ret, n) := run n in (ret, set_services (running_ c) (Some n) (mc_outport c) (mc_transit c) c)
  | None, Some n => let '(ret, n) := run n in (ret, set_services (running_ c) None (Some n) (mc_transit c) c)
  | None, None => (err ZFGW_ERRCODE_NOTRUNNING, c)
  end.
Definition mlfAddChannel (req : FgwAddChannelRequest) c : reply * ZfgwMachine :=
  let '(ret, c) := on_manager (addChannel (ac_channel req)) c in
  let c :=
    if 0 <=? ret
    then set_mc_config (cfg_set_channels (cfg_channels (mc_config c) ++ [ac_channel req]) (mc_config c)) c
    else c in
  (result ret (if ret <? 0 then "failed" else "ok"), c).
Definition mlfRemoveChannel (req : FgwRemoveChannelRequest) c : reply * ZfgwMachine :=
  let '(ret, c) := on_manager (fun '(m, l) => let '(ret, l) := removeChannel (rc_channel_id req) l in (ret, (m, l))) c in
  let c :=
    if 0 <=? ret
    then set_mc_config (cfg_set_channels
           (List.filter (fun ch => negb (cc_channel_id ch =? rc_channel_id req)) (cfg_channels (mc_config c))) (mc_config c)) c
    else c in
  (result ret (if ret <? 0 then "failed" else "ok"), c).

(** FGW_UNPACK_ARG and the handler, for an argument read as a [Req]. *)
Definition rpc_call {Req} (up : bytes -> bool -> Z * Req) (dblock : bytes)
    (handler : Req -> ZfgwMachine -> reply * ZfgwMachine) c : reply * ZfgwMachine :=
  let '(unpack_ret, arg) := up dblock true in
  if unpack_ret <? 0 then (ReplyError unpack_ret, c) else handler arg c.
Definition call_dblock (ls : listens) (method : string) (dblock : bytes) c : reply * ZfgwMachine :=
  if (method =? "mlfGetStatus")%string then rpc_call zds_unpack_FgwEmpty dblock (fun _ c => (mlfGetStatus c, c)) c
  else if (method =? "mlfStart")%string then rpc_call zds_unpack_FgwStartRequest dblock (mlfStart ls) c
  else if (method =? "mlfStop")%string then rpc_call zds_unpack_FgwEmpty dblock (fun _ => mlfStop) c
  else if (method =? "mlfSetConfig")%string then rpc_call zds_unpack_FgwSetConfigRequest dblock mlfSetConfig c
  else if (method =? "mlfAddChannel")%string then rpc_call zds_unpack_FgwAddChannelRequest dblock mlfAddChannel c
  else if (method =? "mlfRemoveChannel")%string then rpc_call zds_unpack_FgwRemoveChannelRequest dblock mlfRemoveChannel c
  else (ReplyError (err ZFGW_ERRCODE_INVALIDCONFIG), c).

(** ** What can happen to a machine *)
Inductive machine_event :=
  | MStart (ls : listens) | MStop
  | MCall (ls : listens) (method : string) (dblock : bytes)
  | MLink (s : net_step)                    (** the links of its manager *)
  | MClient (s : inport_step)               (** the clients of its inport *)
  | MRemote (a : Z) (e : socket_event)      (** the sockets of its outport *)
  | MTransit (s : transit_step)
  | MStale (k : nat) (i : nat)              (** a timer of a stopped manager *)
  | MStaleTransit (k : nat) (i : nat).
Definition of_client (s : inport_step) : bool :=
  match s with InAccept _ | InClient _ _ | InClose _ => true | _ => false end.
Definition machine_do (e : machine_event) c : ZfgwMachine :=
  match e with
  | MStart ls => snd (machine_start ls c)
  | MStop => machine_stop c
  | MCall ls method dblock => snd (call_dblock ls method dblock c)
  | MLink s =>
    set_services (running_ c) (net_do s <$> mc_inport c) (net_do s <$> mc_outport c) (mc_transit c) c
  | MClient s =>
    if of_client s
    then set_services (running_ c) ((fun n => mkNet (mn_mgr n) (inport_do s (mn_world n))) <$> mc_inport c)
           (mc_outport c) (mc_transit c) c
    else c
  | MRemote a e =>
    set_services (running_ c) (mc_inport c)
      ((fun n => mkNet (mn_mgr n) (on_remote a e (mn_world n))) <$> mc_outport c) (mc_transit c) c
  | MTransit s => set_services (running_ c) (mc_inport c) (mc_outport c) (transit_do s <$> mc_transit c) c
  | MStale k i => set_stopped (alter (fire i) k (mc_stopped c)) (mc_stopped_transits c) c
  | MStaleTransit k i => set_stopped (mc_stopped c) (alter (fire_transit i) k (mc_stopped_transits c)) c
  end.
Definition machine_run (es : list machine_event) c : ZfgwMachine := fold_left (fun c e => machine_do e c) es c.
End machine.
