(* ===== verification/Gateway.v ===== *)
(** * Gateway: the nodes of an inport and of an outport

    What [Uplink] and [Tunnel] say of a service between its links holds when the links are
    those of its manager: they come and go, are dialled again, greet and are watched, while
    the service is served.  A machine that has been brought up is such a node, and stays
    one until it is stopped. *)
From S2P Require Import Prelude Proto OMap Segment Pack Channel Selector Links DataStream.
From S2P Require Import StreamFacts Framing StreamWf Reassembly Completeness Sending EndToEnd.
From S2P Require Import Traffic.
From S2P Require Import AppInv Relay Outport OutportWf Serve Tunnel Inport InportWf Uplink.
From S2P Require Import NetInv Manager ManagerWf ManagerProps Node.
From S2P Require Import Config Machine.

(** ** What happens to the services *)
Section serve.
Context {rt : ZdsRuntime} {T : Transport} {sort : StdSort}.
Definition serve_client (s : inport_step) (w : world InportService) : world InportService :=
  if of_client s then inport_do s w else w.
Definition serve_remote (s : Z * socket_event) (w : world OutportService) : world OutportService :=
  on_remote (fst s) (snd s) w.
Definition client_accepted (s : inport_step) : Z := match s with InAccept _ => 1 | _ => 0 end.

Lemma client_stream s w : exists ts, do_steps ts w = serve_client s w /\
  (forall ch, bytes_on ch ts = []) /\ Forall step_bytes ts.
Proof.
  unfold serve_client. destruct (of_client s) eqn:Hs; [|by exists []].
  destruct (inport_step_stream s w) as (ts & Hts & Hb & Hst); [by destruct s|].
  exists ts. split_and!; [done | | done]. intros ch. rewrite Hb. by destruct s.
Qed.
Lemma remote_stream s w : exists ts, do_steps ts w = serve_remote s w /\
  (forall ch, bytes_on ch ts = []) /\ Forall step_bytes ts.
Proof.
  destruct (outport_as_stream [OsRemote (fst s) (snd s)] w) as (ts & Hts & Hb & Hst & _); [by repeat constructor|].
  by exists ts.
Qed.
(** They touch the links in the stream's ways. *)
Context (R : Links -> Prop) (NI : net_invariant R).
Lemma client_links s w : R (w_net w) -> R (w_net (serve_client s w)).
Proof.
  intros Hw. unfold serve_client. destruct s as [| |addr|t buf|t|]; cbn [of_client inport_do]; try done.
  - destruct (is_acceptor (w_app w)); [|done]. unfold on_accept. cbn [allocateSessionId].
    by apply (ni_openSession NI).
  - unfold on_read_data, onClientBytes. destruct (is_tcps _ !! t) as [a|]; [|done]. destruct (is_heap _ !! a) as [x|]; [|done].
    destruct (closed_ x); [done|]. by apply (ni_apply_call NI (CallSend _ _ _)).
  - unfold on_close, onClientClose, close_at. destruct (is_tcps _ !! t) as [a|]; [|done].
    destruct (close a (w_app w)) as [o cs]. cbn [w_net set_app]. by apply (ni_apply_calls NI).
Qed.
Lemma remote_links s w : R (w_net w) -> R (w_net (serve_remote s w)).
Proof.
  intros Hw. unfold serve_remote, on_remote. destruct (os_heap _ !! _) as [r|]; [|done].
  destruct (relay_step _ r) as [[r' acts]|]; [|done]. by apply (ni_apply_calls NI).
Qed.
End serve.

(** ** Their invariants, when the links change *)
Section change.
Context {T : Transport}.
Lemma links_view {H} l (w : world H) : same_view w (on_links_of l w).
Proof. constructor; try done. exists []. by rewrite app_nil_r. Qed.
Lemma sound_links {H} l (w : world H) : links_sane l -> sound w -> sound (on_links_of l w).
Proof. intros Hl [_ Hs Hi Hk]. by constructor. Qed.

Lemma uplink_links loc sid ol n said l w : links_sane l -> drift (w_net w) l ->
  (ot_full ol -> attached loc sid w -> steady ol (w_net w)) ->
  uplink loc sid ol n said w -> uplink loc sid ol n said (on_links_of l w).
Proof.
  intros Hl Hd Hst [Hw Hloc Hn Ht Hsd [Hs1 Hs2]]. constructor; try done.
  - by apply sound_links.
  - split.
    + intros Hle. destruct (Hs1 Hle) as [? Hu]. split; [done | by eapply uttered_drift; [exact Hd | exact Hu |]].
    + intros Ha. apply voiced_drift; [done | intros Ho; by apply Hst | by apply Hs2].
Qed.
Lemma tunnel_links k ol (spk : Prop) D l w : links_sane l -> drift (w_net w) l ->
  (spk -> ot_full ol -> is_Some (os_sessions (w_app w) !! k) -> steady ol (w_net w)) ->
  tunnel_inv k ol spk D w -> tunnel_inv k ol spk D (on_links_of l w).
Proof.
  intros Hl Hd Hst [Hw Hn Hp Hsd Ht]. constructor; try done.
  - intros Hy. by apply sound_links; auto.
  - destruct Ht as [Hg|[(H1 & H2 & H3 & H4 & H5)|(evs & acts & r & a & H1 & H2 & H3 & H4 & H5 & H6 & H7)]]; [by left | right; left | right; right].
    + split_and!; try done. intros Hy. by eapply uttered_drift; [exact Hd | by apply H5 |].
    + exists evs, acts, r, a. split_and!; try done. intros Hy. apply voiced_drift; [done | | by apply H7].
      intros Ho. apply Hst; [done | done | by exists a].
Qed.
End change.

(** ** A node that has been started *)
Section start.
Context {rt : ZdsRuntime} {laws : ZdsLaws rt} {T : Transport} {sort : StdSort} {host : Host}.
Context (cfg : FgwConfig) (Hcfg : cfg_links_ok cfg).

(** As [doBringup] does. *)
Definition inport_node (listen_ret : Z) : machine_net InportService :=
  let n := new_net cfg new_inport in
  mkNet (mn_mgr n) (set_app (snd (Inport.start listen_ret (w_app (mn_world n)))) (mn_world n)).
Definition outport_node (listen_ret : Z) : machine_net OutportService :=
  let n := new_net cfg new_outport in
  mkNet (if negb (cfg_outport_listen_port cfg =? 0) then snd (startLinkListener listen_ret (mn_mgr n)) else mn_mgr n)
    (Outport.start (mn_world n)).
Definition start_links : Links := snd (Manager.start cfg (new_manager, no_net LinkSelector_init)).

Lemma inport_node_world lr : mn_world (inport_node lr) =
  new_inport_service (cfg_ingress_id cfg) (cfg_segment_size cfg) (cfg_recv_window cfg) (negb (cfg_enable_crc cfg =? 0))
    (cfg_route_outport_id cfg) lr start_links.
Proof.
  unfold inport_node, new_net, start_links. change (mkLinks empty [] LinkSelector_init []) with (no_net LinkSelector_init).
  by destruct (Manager.start cfg _) as [m l].
Qed.
Lemma outport_node_world lr : mn_world (outport_node lr) =
  new_service (cfg_ingress_id cfg) (cfg_segment_size cfg) (cfg_recv_window cfg) (negb (cfg_enable_crc cfg =? 0))
    (cfg_route_outport_id cfg) start_links.
Proof.
  unfold outport_node, new_net, start_links. change (mkLinks empty [] LinkSelector_init []) with (no_net LinkSelector_init).
  by destruct (Manager.start cfg _) as [m l].
Qed.
Lemma start_wire : wire_ start_links = [].
Proof.
  unfold start_links, Manager.start. set (l0 := set_selector _ _).
  assert (Hall : forall cs m l, wire_ (snd (fold_left (fun ml c => snd (addChannel c ml)) cs (m, l))) = wire_ l).
  { induction cs as [|c cs IH]; intros m l; [done|]. cbn [fold_left]. pose proof (wire_add c m l) as Hw.
    destruct (snd (addChannel c (m, l))) as [m' l']. by rewrite IH. }
  specialize (Hall (cfg_channels cfg) (set_config cfg new_manager) l0). by destruct (fold_left _ _ _).
Qed.
Lemma start_sane : links_sane start_links.
Proof. apply map_sane. apply (ke_map cfg 0 _ (kept_start cfg Hcfg LinkSelector_init)). Qed.
Lemma segment_bounds loc ss win v r : 0 <= ss -> 0 < segment_size_ (cfg_ (new_stream loc ss win v r)) <= MAX_PAYLOAD.
Proof.
  intros Hs. cbn [cfg_ new_stream segment_size_]. destruct (Z.eqb_spec ss 0), (Z.ltb_spec MAX_PAYLOAD ss); simpl; unfold MAX_PAYLOAD in *; lia.
Qed.
Lemma new_net_ok {H} (h : H) : node_ok cfg 0 (new_net cfg h).
Proof.
  unfold new_net. pose proof (kept_start cfg Hcfg LinkSelector_init) as Hk.
  change (mkLinks empty [] LinkSelector_init []) with (no_net LinkSelector_init).
  assert (Hsub : bytes_subscribers_ (fst (Manager.start cfg (new_manager, no_net LinkSelector_init))) = []).
  { unfold Manager.start. generalize (set_selector (setMode (cfg_multipath_mode cfg) (selector_ (no_net LinkSelector_init))) (no_net LinkSelector_init)) as l.
    assert (Hn : bytes_subscribers_ (set_config cfg new_manager) = []) by done. revert Hn.
    generalize (set_config cfg new_manager) as m. induction (cfg_channels cfg) as [|c cs IH]; intros m Hm l; [done|]. cbn [fold_left].
    pose proof (subs_add c m l) as Hw. destruct (snd (addChannel c (m, l))) as [m' l']. apply IH. by rewrite <- Hm. }
  destruct (Manager.start cfg _) as [m l]. cbn [fst] in Hsub. split.
  - destruct Hk as [H1 H2 H3 H4 H5 H6]. constructor; cbn [mn_mgr mn_world w_net fst snd] in *; try done; unfold addBytesSubscriber; by case_decide.
  - cbn [mn_mgr]. unfold addBytesSubscriber. rewrite Hsub. case_decide as Hd; [by apply elem_of_nil in Hd | done].
Qed.
(** The manager knows its links and its subscriber only. *)
Lemma node_ok_same {H} (x y : machine_net H) : w_net (mn_world y) = w_net (mn_world x) ->
  config_ (mn_mgr y) = config_ (mn_mgr x) -> accepted_id_seq_ (mn_mgr y) = accepted_id_seq_ (mn_mgr x) ->
  cm_timers (mn_mgr y) = cm_timers (mn_mgr x) -> bytes_subscribers_ (mn_mgr y) = bytes_subscribers_ (mn_mgr x) ->
  node_ok cfg 0 x -> node_ok cfg 0 y.
Proof.
  intros Hn Hc Ha Ht Hs [[H1 H2 H3 H4 H5 H6] H7]. split; [|congruence].
  constructor; cbn [fst snd] in *; rewrite ?Hn, ?Hc, ?Ha, ?Ht; done.
Qed.
Lemma inport_node_ok lr : node_ok cfg 0 (inport_node lr).
Proof. by apply (node_ok_same (new_net cfg new_inport)); [..|apply new_net_ok]. Qed.
Lemma outport_node_ok lr : node_ok cfg 0 (outport_node lr).
Proof.
  apply (node_ok_same (new_net cfg new_outport)); [..|apply new_net_ok]; unfold outport_node, startLinkListener; cbn [mn_mgr];
    by repeat case_match.
Qed.
End start.

(** What a configuration has to be like. *)
Record config_ok (cfg : FgwConfig) : Prop := {
  co_links : cfg_links_ok cfg;
  co_ingress : is_u32 (cfg_ingress_id cfg);
  co_route : is_u32 (cfg_route_outport_id cfg);
  co_segment : 0 <= cfg_segment_size cfg < 2 ^ 16;
  co_window : 0 <= cfg_recv_window cfg < 2 ^ 16 }.

(** ** Runs *)
Section runs.
Context {rt : ZdsRuntime} {laws : ZdsLaws rt} {ex : ZdsExact rt} {T : Transport} {sort : StdSort} {host : Host}.
Context (Hmb : forall len, mb_acquire len = true).
Context (cfg : FgwConfig) (Hcfg : config_ok cfg).

Section inport.
Implicit Types (ss : list (node_step inport_step)).
Context (lr : Z).
Abbreviation x0 := (inport_node cfg lr).
Definition client_run ss : machine_net InportService := node_run serve_client ss x0.
(** What the socket [t] of a client reads. *)
Definition client_said (t : Z) ss : bytes := node_gather serve_client (read_from t) ss x0.
Definition clients ss : Z := node_count client_accepted ss.

Lemma inport_sound : sound (mn_world x0).
Proof.
  rewrite inport_node_world. destruct Hcfg. split; [by apply start_sane | apply segment_bounds; lia | done |].
  intros k st. unfold find_session. simpl. by rewrite lookup_empty.
Qed.
Lemma client_uplink sid ol ss : let loc := cfg_ingress_id cfg in ot_base ol = [] -> Forall (node_fine cfg) ss ->
  link_accepts ss < 2 ^ 31 - 1 -> clients ss + 2 < 2 ^ 32 ->
  throughout serve_client (fun w => ot_full ol -> attached loc sid w -> steady ol (w_net w)) ss x0 ->
  uplink loc sid ol (clients ss) (client_said (2 * sid - 1) ss) (mn_world (client_run ss)).
Proof.
  intros loc Hbase Hss Hn Hc Hst.
  refine (node_rule serve_client cfg (co_links _ Hcfg) (co_ingress _ Hcfg) client_stream (client_links _ (links_net cfg))
    (read_from (2 * sid - 1)) client_accepted (fun n said w => n + 2 < 2 ^ 32 -> uplink loc sid ol n said w)
    (fun w => ot_full ol -> attached loc sid w -> steady ol (w_net w)) _ _ _ _ ss 0 0 [] x0
    (inport_node_ok cfg (co_links _ Hcfg) lr) Hn Hss Hst _ _ Hc).
  - intros m v l w Hl Hd Ha Hw Hm. by apply uplink_links; [..|by apply Hw].
  - intros m v a buf w Hb Hwf Hw Hm. pose proof (uplink_step Hmb loc sid ol m v (InBytes a buf) w Hb Hm Hwf (Hw Hm)) as H1.
    cbn [read_from] in H1. by rewrite app_nil_r in H1.
  - intros m v w Hwf Hw Hm. pose proof (uplink_step Hmb loc sid ol m v InFeedback w I Hm Hwf (Hw Hm)) as H1.
    cbn [read_from] in H1. by rewrite app_nil_r in H1.
  - intros m v s w Hwf Hw. unfold serve_client.
    destruct s as [ch b| |addr|t b|t|]; cbn [of_client client_accepted read_from]; rewrite ?app_nil_r, ?Z.add_0_r; try done.
    + intros Hm. pose proof (uplink_step Hmb loc sid ol m v (InAccept addr) w I ltac:(lia) Hwf (Hw ltac:(lia))) as H1.
      cbn [read_from] in H1. by rewrite app_nil_r in H1.
    + intros Hm. apply (uplink_step Hmb loc sid ol m v (InClient t b) w I Hm Hwf (Hw Hm)).
    + intros Hm. pose proof (uplink_step Hmb loc sid ol m v (InClose t) w I Hm Hwf (Hw Hm)) as H1.
      cbn [read_from] in H1. by rewrite app_nil_r in H1.
  - rewrite inport_node_world. apply wf_new; apply Hcfg.
  - intros _. pose proof inport_sound as Hsd. rewrite inport_node_world in Hsd |- *. apply new_uplink; [|done].
    rewrite Hbase. apply start_wire.
Qed.
Lemma client_as_stream ss : Forall (node_fine cfg) ss -> link_accepts ss < 2 ^ 31 - 1 ->
  exists ts, do_steps ts (mn_world x0) = mn_world (client_run ss) /\
    (forall ch, bytes_on ch ts = node_on serve_client ch ss x0) /\ Forall step_bytes ts.
Proof.
  intros Hss Hn. apply (node_as_stream serve_client cfg (co_links _ Hcfg) (co_ingress _ Hcfg) client_stream
    (client_links _ (links_net cfg)) ss 0); [by apply inport_node_ok, Hcfg | done | done].
Qed.
Lemma client_cfg ss : Forall (node_fine cfg) ss -> link_accepts ss < 2 ^ 31 - 1 ->
  DataStream.cfg (mn_world (client_run ss)) = DataStream.cfg (mn_world x0).
Proof.
  intros Hss Hn.
  refine (node_rule serve_client cfg (co_links _ Hcfg) (co_ingress _ Hcfg) client_stream (client_links _ (links_net cfg))
    (fun _ _ => []) (fun _ => 0) (fun _ _ w => DataStream.cfg w = DataStream.cfg (mn_world x0)) (fun _ => True) _ _ _ _ ss 0 0 [] x0
    (inport_node_ok cfg (co_links _ Hcfg) lr) Hn Hss _ _ _); try done.
  - intros m v a buf w _ _ <-. apply (cfg_inport_do (InBytes a buf)).
  - intros m v w _ <-. apply (cfg_inport_do InFeedback).
  - intros m v s w _ <-. unfold serve_client. destruct (of_client s); [apply cfg_inport_do | done].
  - rewrite inport_node_world. apply wf_new; apply Hcfg.
Qed.
End inport.

Section outport.
Implicit Types (ss : list (node_step (Z * socket_event))).
Context (lr : Z).
Abbreviation x0 := (outport_node cfg lr).
Definition remote_run ss : machine_net OutportService := node_run serve_remote ss x0.
(** What the destination of session [k] delivers. *)
Definition remote_said (k : SessionKey) ss : bytes :=
  node_gather serve_remote (fun s => delivered_by k (OsRemote (fst s) (snd s))) ss x0.

Lemma outport_sound : sound (mn_world x0).
Proof.
  rewrite outport_node_world. destruct Hcfg. split; [by apply start_sane | apply segment_bounds; lia | done |].
  intros k st. unfold find_session. simpl. by rewrite lookup_empty.
Qed.
Lemma remote_tunnel k ol spk ss : peer_key (cfg_ingress_id cfg) k -> ot_base ol = [] -> Forall (node_fine cfg) ss ->
  link_accepts ss < 2 ^ 31 - 1 ->
  throughout serve_remote (fun w => spk -> ot_full ol -> is_Some (os_sessions (w_app w) !! k) -> steady ol (w_net w)) ss x0 ->
  tunnel_inv k ol spk (remote_said k ss) (mn_world (remote_run ss)).
Proof.
  intros Hp Hbase Hss Hn Hst. assert (Hspk : spk -> ZdsLaws rt /\ ZdsExact rt /\ (forall len, mb_acquire len = true)) by done.
  refine (node_rule serve_remote cfg (co_links _ Hcfg) (co_ingress _ Hcfg) remote_stream (remote_links _ (links_net cfg))
    (fun s => delivered_by k (OsRemote (fst s) (snd s))) (fun _ => 0) (fun _ D w => tunnel_inv k ol spk D w)
    (fun w => spk -> ot_full ol -> is_Some (os_sessions (w_app w) !! k) -> steady ol (w_net w)) _ _ _ _ ss 0 0 [] x0
    (outport_node_ok cfg (co_links _ Hcfg) lr) Hn Hss Hst _ _).
  - intros m v l w. apply tunnel_links.
  - intros m v a buf w Hb Hwf Hw. pose proof (tunnel_step k ol spk Hspk v (OsBytes a buf) w Hb Hwf Hw) as H1.
    cbn [delivered_by] in H1. by rewrite app_nil_r in H1.
  - intros m v w Hwf Hw. pose proof (tunnel_step k ol spk Hspk v OsFeedback w I Hwf Hw) as H1.
    cbn [delivered_by] in H1. by rewrite app_nil_r in H1.
  - intros m v s w Hwf Hw. apply (tunnel_step k ol spk Hspk v (OsRemote (fst s) (snd s)) w I Hwf Hw).
  - rewrite outport_node_world. apply wf_new_cb; apply Hcfg.
  - pose proof outport_sound as Hsd. rewrite outport_node_world in Hsd |- *. apply new_service_tunnel; [done | done |].
    rewrite Hbase. apply start_wire.
Qed.
Lemma remote_as_stream ss : Forall (node_fine cfg) ss -> link_accepts ss < 2 ^ 31 - 1 ->
  exists ts, do_steps ts (mn_world x0) = mn_world (remote_run ss) /\
    (forall ch, bytes_on ch ts = node_on serve_remote ch ss x0) /\ Forall step_bytes ts.
Proof.
  intros Hss Hn. apply (node_as_stream serve_remote cfg (co_links _ Hcfg) (co_ingress _ Hcfg) remote_stream
    (remote_links _ (links_net cfg)) ss 0); [by apply outport_node_ok, Hcfg | done | done].
Qed.
End outport.
End runs.

(** ** Tests of a run *)
Section tests.
Context {H : Type} {app : SessionHandler H}.
Context {rt : ZdsRuntime} {T : Transport} {sort : StdSort} {host : Host}.
Context {A : Type} (serve : A -> world H -> world H).
Implicit Types (ss : list (node_step A)).
Fixpoint holds_throughout (p : world H -> bool) ss (x : machine_net H) : bool :=
  p (mn_world x) && match ss with [] => true | s :: ss => holds_throughout p ss (node_do serve s x) end.
Lemma throughout_test (P : world H -> Prop) p ss : (forall w, p w = true -> P w) ->
  forall x, holds_throughout p ss x = true -> throughout serve P ss x.
Proof.
  intros Hp. induction ss as [|s ss IH]; intros x; simpl; intros [Hx Hss]%andb_true_iff i.
  - rewrite take_nil. by apply Hp.
  - destruct i as [|i]; [by apply Hp|]. by apply (IH (node_do serve s x)).
Qed.
Definition fine_test (s : node_step A) : bool :=
  match s with
  | NodeLink (NetBytes _ _ buf) => forallb (fun x => (0 <=? x) && (x <? 256)) buf
  | NodeLink (NetRemove _) => false
  | _ => true
  end.
Lemma bytes_test (b : bytes) : forallb (fun x => (0 <=? x) && (x <? 256)) b = true -> Forall is_byte b.
Proof.
  rewrite forallb_forall. intros Hx. apply List.Forall_forall. intros x Hin. specialize (Hx x Hin). unfold is_byte. lia.
Qed.
Lemma node_fine_test conf ss : forallb fine_test ss = true -> Forall (node_fine conf) ss.
Proof.
  rewrite forallb_forall. intros Hs. apply List.Forall_forall. intros s Hin. specialize (Hs s Hin).
  destruct s as [[]|]; try done. split; [done | by apply bytes_test].
Qed.
(** The channels that bytes arrive on. *)
Fixpoint arriving ss : list Z :=
  match ss with
  | [] => []
  | NodeLink (NetBytes a _ _) :: ss => a :: arriving ss
  | _ :: ss => arriving ss
  end.
Lemma node_on_none ch ss : forall x, ~ In ch (arriving ss) -> node_on serve ch ss x = [].
Proof.
  induction ss as [|s ss IH]; intros x Hn; [done|]. cbn [node_on node_bytes arriving] in *.
  destruct s as [[]|]; try (by apply IH). rewrite IH by (intros ?; apply Hn; by right).
  unfold node_bytes. destruct (Z.eqb_spec a ch) as [->|]; [by destruct Hn; left | by destruct (owned a x)].
Qed.
End tests.
