(* ===== verification/MachineProps.v ===== *)
(** * MachineProps: the life of a machine *)
From Stdlib Require Import String.
From S2P Require Import Prelude Proto OMap Segment Pack ZdsInstance Channel Selector Links.
From S2P Require Import DataStream Relay.
From S2P Require Import Testbed Outport Inport Manager ManagerProps Transit Config Machine.

Section life.
Context {rt : ZdsRuntime} {T : Transport} {sort : StdSort} {host : Host} {disk : Disk}.
Context (open_timestamp : Z -> Z -> Z).

(** ** What is up *)
Definition nothing_up (c : ZfgwMachine) : Prop := mc_inport c = None /\ mc_outport c = None /\ mc_transit c = None.
(** The one service of role [role]. *)
Definition up_as (role : Z) (c : ZfgwMachine) : Prop :=
  (role = ZFGW_ROLE_INPORT /\ is_Some (mc_inport c) /\ mc_outport c = None /\ mc_transit c = None) \/
  (role = ZFGW_ROLE_OUTPORT /\ mc_inport c = None /\ is_Some (mc_outport c) /\ mc_transit c = None) \/
  (role = ZFGW_ROLE_TRANSIT /\ mc_inport c = None /\ mc_outport c = None /\ is_Some (mc_transit c)).
Definition machine_wf (c : ZfgwMachine) : Prop :=
  if running_ c then exists role, up_as role c else nothing_up c.

Lemma teardown_down c : nothing_up (doTeardown c) /\ running_ (doTeardown c) = false /\ mc_config (doTeardown c) = mc_config c.
Proof.
  unfold doTeardown. destruct (mc_inport c) as [n|]; cbn [mc_outport retire set_stopped].
  - destruct (mc_outport c) as [n2|]; cbn; by destruct (mc_transit c).
  - destruct (mc_outport c) as [n2|]; cbn; by destruct (mc_transit c).
Qed.
Lemma teardown_wf c : machine_wf (doTeardown c).
Proof. unfold machine_wf. destruct (teardown_down c) as (H & -> & _). done. Qed.

Lemma inport_start_ret ret o : fst (Inport.start ret o) <= 0.
Proof. unfold Inport.start. destruct (is_acceptor o); [done|]. by destruct (ret <? 0). Qed.
Lemma listener_ret ret m : fst (startLinkListener ret m) <= 0.
Proof. unfold startLinkListener. destruct (link_acceptor_ m); [done|]. by destruct (ret <? 0). Qed.
Lemma transit_ret ret t : fst (transit_start ret t) <= 0.
Proof. unfold transit_start. by destruct (_ && _). Qed.

(** Bringing up either leaves nothing or the service of the configured role. *)
Lemma bringup_spec ls c : running_ c = false -> machine_wf c -> let '(ret, c') := doBringup ls c in
  mc_config c' = mc_config c /\
  ((ret = 0 /\ running_ c' = true /\ up_as (cfg_role (mc_config c)) c') \/
   (ret < 0 /\ running_ c' = false /\ nothing_up c')).
Proof.
  intros Hr Hw. unfold machine_wf in Hw. rewrite Hr in Hw. destruct Hw as (Hi & Ho & Ht). unfold doBringup. rewrite Hr.
  assert (Hdown : forall ret c', ret < 0 -> mc_config c' = mc_config c -> mc_config (doTeardown c') = mc_config c /\
    ((ret = 0 /\ running_ (doTeardown c') = true /\ up_as (cfg_role (mc_config c)) (doTeardown c')) \/
     (ret < 0 /\ running_ (doTeardown c') = false /\ nothing_up (doTeardown c')))).
  { intros ret c' Hret Hc'. destruct (teardown_down c') as (H1 & H2 & H3). split; [by rewrite H3 | right]. done. }
  destruct (Z.eqb_spec (cfg_role (mc_config c)) ZFGW_ROLE_TRANSIT) as [Hrole|_].
  { pose proof (transit_ret (listen_links ls) (new_transit (mc_config c))) as Hle. destruct (transit_start _ _) as [tret t]. cbn [fst] in Hle.
    destruct (Z.ltb_spec tret 0); [by apply Hdown|]. split; [done|]. left. split; [lia|]. split; [done|]. do 2 right.
    cbn. rewrite Hi, Ho. by split_and!. }
  destruct (Z.eqb_spec (cfg_role (mc_config c)) ZFGW_ROLE_INPORT) as [Hrole|_].
  { pose proof (inport_start_ret (listen_clients ls) (w_app (mn_world (new_net (mc_config c) new_inport)))) as Hle.
    destruct (Inport.start _ _) as [ret o]. cbn [fst] in Hle.
    destruct (Z.ltb_spec ret 0); [by apply Hdown|]. split; [done|]. left. split; [lia|]. split; [done|]. left.
    cbn. rewrite Ho, Ht. split_and!; try done. }
  destruct (Z.eqb_spec (cfg_role (mc_config c)) ZFGW_ROLE_OUTPORT) as [Hrole|_].
  { set (n := mkNet _ _). assert (Hle : fst (if negb (cfg_outport_listen_port (mc_config c) =? 0)
        then startLinkListener (listen_links ls) (mn_mgr n) else (0, mn_mgr n)) <= 0)
      by (destruct (negb _); [apply listener_ret | done]).
    destruct (if negb _ then _ else _) as [lret m]. cbn [fst] in Hle.
    destruct (Z.ltb_spec lret 0); [by apply Hdown|]. split; [done|]. left. split; [lia|]. split; [done|]. right. left.
    cbn. rewrite Hi, Ht. split_and!; try done. }
  destruct (Manager.start _ _) as [m l]. by apply Hdown.
Qed.

Lemma wf_bringup ls c : machine_wf c -> machine_wf (snd (doBringup ls c)).
Proof.
  intros Hw. destruct (running_ c) eqn:Hr; [unfold doBringup; by rewrite Hr|].
  pose proof (bringup_spec ls c Hr Hw) as Hb. destruct (doBringup ls c) as [ret c']. unfold machine_wf. cbn [snd].
  destruct Hb as (_ & [(_ & -> & ?)|(_ & -> & ?)]); [by eexists | done].
Qed.

(** A change that keeps what is up keeps the machine well formed. *)
Lemma wf_same_up c c' : running_ c' = running_ c ->
  (is_Some (mc_inport c') <-> is_Some (mc_inport c)) -> (is_Some (mc_outport c') <-> is_Some (mc_outport c)) ->
  (is_Some (mc_transit c') <-> is_Some (mc_transit c)) -> machine_wf c -> machine_wf c'.
Proof.
  assert (Hn : forall {A} (x y : option A), (is_Some x <-> is_Some y) -> y = None -> x = None)
    by (intros A x y Hxy ->; apply eq_None_not_Some; rewrite Hxy; by intros [? [=]]).
  intros Hr H1 H2 H3. unfold machine_wf, up_as, nothing_up. rewrite Hr.
  pose proof (Hn _ _ _ H1) as N1. pose proof (Hn _ _ _ H2) as N2. pose proof (Hn _ _ _ H3) as N3.
  destruct (running_ c); [|tauto]. intros [role Hup]. exists role. tauto.
Qed.
Lemma wf_on_manager f c : machine_wf c -> machine_wf (snd (on_manager f c)).
Proof.
  intros Hw. unfold on_manager. destruct (mc_inport c) as [n|] eqn:Hi.
  - destruct (f _) as [ret [m l]]. cbn [snd]. apply (wf_same_up c); cbn; rewrite ?Hi; done.
  - destruct (mc_outport c) as [n|] eqn:Ho; [|done]. destruct (f _) as [ret [m l]]. cbn [snd].
    apply (wf_same_up c); cbn; rewrite ?Hi, ?Ho; done.
Qed.

Lemma wf_rpc {Req} (up : bytes -> bool -> Z * Req) d (h : Req -> ZfgwMachine -> reply * ZfgwMachine) c :
  machine_wf c -> (forall a, machine_wf (snd (h a c))) -> machine_wf (snd (rpc_call up d h c)).
Proof. intros Hw Hh. unfold rpc_call. destruct (up d true) as [r a]. destruct (r <? 0); [done | apply Hh]. Qed.
Lemma wf_call ls method d c : machine_wf c -> machine_wf (snd (call_dblock open_timestamp ls method d c)).
Proof.
  intros Hw. unfold call_dblock. destruct (_ =? _)%string; [by apply wf_rpc|].
  destruct (_ =? _)%string.
  { apply wf_rpc; [done|]. intros req. unfold mlfStart. destruct (_ && _); [done|].
    set (c1 := if _ && _ then _ else c). assert (Hw1 : machine_wf c1) by (unfold c1; destruct (_ && _); [apply teardown_wf | done]).
    pose proof (wf_bringup ls c1 Hw1). by destruct (doBringup ls c1). }
  destruct (_ =? _)%string; [apply wf_rpc; [done|]; intros _; apply teardown_wf|].
  destruct (_ =? _)%string.
  { apply wf_rpc; [done|]. intros req. unfold mlfSetConfig. destruct (negb _); [done|]. cbn [snd].
    by destruct (mc_host_dir _). }
  destruct (_ =? _)%string.
  { apply wf_rpc; [done|]. intros req. unfold mlfAddChannel. pose proof (wf_on_manager (addChannel (ac_channel req)) c Hw) as H1.
    destruct (on_manager _ c) as [ret c']. cbn [snd] in *. by destruct (0 <=? ret). }
  destruct (_ =? _)%string; [|done].
  apply wf_rpc; [done|]. intros req. unfold mlfRemoveChannel. set (f := fun ml : ChannelManager * Links => _).
  pose proof (wf_on_manager f c Hw) as H1.
  destruct (on_manager f c) as [ret c']. cbn [snd] in *. by destruct (0 <=? ret).
Qed.
Lemma wf_machine_do e c : machine_wf c -> machine_wf (machine_do open_timestamp e c).
Proof.
  intros Hw. destruct e as [ls| |ls method d|s|s|a e|s|k i|k i]; cbn [machine_do].
  - unfold machine_start. destruct (mc_host_dir c) as [dir|]; [|by apply wf_bringup].
    destruct (zfgw_load_config _ _ _ _ _) as [ret cfg']. destruct (ret <? 0); [done|]. by apply wf_bringup.
  - apply teardown_wf.
  - by apply wf_call.
  - apply (wf_same_up c); cbn; rewrite ?fmap_is_Some; done.
  - destruct (of_client s); [|done]. apply (wf_same_up c); cbn; rewrite ?fmap_is_Some; done.
  - apply (wf_same_up c); cbn; rewrite ?fmap_is_Some; done.
  - apply (wf_same_up c); cbn; rewrite ?fmap_is_Some; done.
  - by apply (wf_same_up c).
  - by apply (wf_same_up c).
Qed.
Lemma wf_machine_run es c : machine_wf c -> machine_wf (machine_run open_timestamp es c).
Proof. revert c. induction es as [|e es IH]; intros c Hw; [done | by apply IH, wf_machine_do]. Qed.
End life.

(** ** A concrete machine *)
#[local] Existing Instances test_host test_disk.
Definition noted (_ _ : Z) : Z := 0.
Definition dialing_config : FgwConfig := mkFgwConfig ZFGW_ROLE_INPORT 7 1080 [] 0
  [mkFgwChannelConfig 1 ZFGW_CHANNEL_TCP test_remote 10] 1200 1024 5 15 60 2 1 0 kFgwConfigVersion.
Definition all_listen : listens := mkListens 0 0.
(** Configured and started by remote calls; then its link comes up and drops. *)
Definition link_lost : list machine_event :=
  [MCall all_listen "mlfSetConfig" (snd (zds_pack_FgwSetConfigRequest None (mkFgwSetConfigRequest dialing_config) true));
   MCall all_listen "mlfStart" (snd (zds_pack_FgwStartRequest None (mkFgwStartRequest 0) true));
   MLink (NetOpen 1 5); MLink (NetClose 1)].
Definition lost_machine : ZfgwMachine := machine_run noted link_lost (new_machine 0 (Some [47]) [97] empty).
Definition lost_net : machine_net InportService :=
  default (mkNet new_manager (mkWorld (new_stream 0 0 0 true 0) (mkLinks empty [] LinkSelector_init []) new_inport [])) (mc_inport lost_machine).

(** ** Properties *)

(** C18. A machine runs exactly what its role asks for, or nothing.  After any starts, stops,
    remote calls, traffic and timers, a running machine has exactly one of the three
    services and an idle one has none.  Bringing up an idle machine either succeeds with the
    service of the configured role or fails and leaves nothing up, and a role that does not
    exist always fails; a running machine is left as it is, a start without force reports
    that it is busy; and a stop leaves nothing up, whatever was. *)
Theorem machine_lifecycle {rt : ZdsRuntime} {T : Transport} {sort : StdSort} {host : Host} {disk : Disk}
    (open_timestamp : Z -> Z -> Z) (role0 : Z) (host_dir : option bytes) (name : bytes) (f : files) (es : list machine_event)
    (c := machine_run open_timestamp es (new_machine role0 host_dir name f)) (ls : listens) :
  (if running_ c then exists role, up_as role c else nothing_up c) /\
  (running_ c = false -> let '(ret, c') := doBringup ls c in mc_config c' = mc_config c /\
     ((ret = 0 /\ running_ c' = true /\ up_as (cfg_role (mc_config c)) c') \/
      (ret < 0 /\ running_ c' = false /\ nothing_up c')) /\
     (~ In (cfg_role (mc_config c)) [ZFGW_ROLE_INPORT; ZFGW_ROLE_OUTPORT; ZFGW_ROLE_TRANSIT] ->
        ret = err ZFGW_ERRCODE_INVALIDROLE)) /\
  (running_ c = true -> doBringup ls c = (0, c) /\
     mlfStart ls (mkFgwStartRequest 0) c = (result (err ZFGW_ERRCODE_BUSY) "already running", c)) /\
  (let '(r, c') := mlfStop c in r = result 0 "stopped" /\ running_ c' = false /\ nothing_up c').
Proof.
  assert (Hw : machine_wf c) by (by apply wf_machine_run). split; [exact Hw|]. split; [|split].
  - intros Hr. pose proof (bringup_spec ls c Hr Hw) as Hb.
    assert (Hrole : ~ In (cfg_role (mc_config c)) [ZFGW_ROLE_INPORT; ZFGW_ROLE_OUTPORT; ZFGW_ROLE_TRANSIT] ->
      fst (doBringup ls c) = err ZFGW_ERRCODE_INVALIDROLE).
    { intros Hin. unfold doBringup. rewrite Hr. simpl in Hin.
      destruct (Z.eqb_spec (cfg_role (mc_config c)) ZFGW_ROLE_TRANSIT); [exfalso; apply Hin; auto|].
      destruct (Z.eqb_spec (cfg_role (mc_config c)) ZFGW_ROLE_INPORT); [exfalso; apply Hin; auto|].
      destruct (Z.eqb_spec (cfg_role (mc_config c)) ZFGW_ROLE_OUTPORT); [exfalso; apply Hin; auto|].
      by destruct (Manager.start _ _). }
    destruct (doBringup ls c) as [ret c']. destruct Hb as [H1 H2]. split; [done|]. split; [done|]. exact Hrole.
  - intros Hr. unfold doBringup, mlfStart. by rewrite Hr.
  - unfold mlfStop. destruct (teardown_down c) as (? & ? & _). done.
Qed.

Lemma machine_lifecycle_witness :
  running_ lost_machine = true /\ doBringup all_listen lost_machine = (0, lost_machine).
Proof.
  assert (Hr : running_ lost_machine = true) by (by vm_compute). split; [exact Hr|].
  destruct (machine_lifecycle noted 0 (Some [47]) [97] empty link_lost all_listen) as (_ & _ & H & _).
  exact (proj1 (H Hr)).
Defined.

(** A stop does not stop the redialing.  The timer that is to redial a lost link holds
    the manager and is not cancelled: when an inport is stopped while one is pending, the
    machine is idle and its manager has no channels, and when the timer then fires the
    stopped manager makes a channel again and dials the endpoint, with a socket nothing
    will ever close. *)
Theorem stopped_link_comes_back {rt : ZdsRuntime} {T : Transport} {sort : StdSort} {host : Host} {disk : Disk}
    (open_timestamp : Z -> Z -> Z) (role0 : Z) (host_dir : option bytes) (name : bytes) (f : files) (es : list machine_event)
    (c := machine_run open_timestamp es (new_machine role0 host_dir name f)) (n : machine_net InportService)
    (Hn : mc_inport c = Some n) (i : nat) (ms : Z) (rc : FgwChannelConfig)
    (Hpending : cm_timers (mn_mgr n) !! i = Some (ms, JobReconnect rc)) (Hkind : cc_kind rc = ZFGW_CHANNEL_TCP)
    (c1 := snd (mlfStop c)) (k := length (mc_stopped c)) (c2 := machine_do open_timestamp (MStale k i) c1) :
  running_ c1 = false /\ nothing_up c1 /\
  (exists m l, mc_stopped c1 !! k = Some (m, l) /\ channels_ l = []) /\
  running_ c2 = false /\ nothing_up c2 /\
  exists m l a ch, mc_stopped c2 !! k = Some (m, l) /\ findChannel (cc_channel_id rc) l = Some a /\
    heap_ l !! a = Some ch /\ remote_ ch = cc_remote rc /\ tcp_ptr_ ch <> None.
Proof.
  assert (Hw : machine_wf c) by (by apply wf_machine_run). unfold machine_wf in Hw.
  assert (Hothers : mc_outport c = None /\ mc_transit c = None).
  { destruct (running_ c); [|by destruct Hw as (Hi & _); rewrite Hn in Hi].
    destruct Hw as [role [(_ & _ & ? & ?)|[(_ & Hi & _)|(_ & Hi & _)]]]; [done | by rewrite Hn in Hi..]. }
  destruct Hothers as [Ho Ht]. destruct (teardown_down c) as (Hdown & Hrun & _).
  set (w := Inport.stop (mn_world n)). set (ml := Manager.stop (mn_mgr n, w_net w)).
  assert (Hst : mc_stopped c1 = mc_stopped c ++ [ml]).
  { unfold c1, mlfStop, doTeardown. rewrite Hn. cbn [snd mc_outport mc_transit retire set_stopped]. by rewrite Ho; cbn; rewrite Ht. }
  assert (Hk : mc_stopped c1 !! k = Some ml) by (rewrite Hst; by apply list_lookup_middle).
  assert (Hml : cm_timers (fst ml) = cm_timers (mn_mgr n) /\ channels_ (snd ml) = []) by done.
  destruct ml as [m l]. cbn [fst snd] in Hml. destruct Hml as [Htm Hch].
  split; [exact Hrun|]. split; [exact Hdown|]. split; [by exists m, l|]. split; [exact Hrun|]. split; [exact Hdown|].
  set (m0 := set_timers (delete i (cm_timers m)) m).
  assert (Hmem : om_mem (cc_channel_id rc) (channels_ l) = false) by (by rewrite Hch).
  destruct (add_new rc m0 l Hmem (or_introl Hkind)) as (m' & Hadd & _ & _).
  set (a := alloc (heap_ l)) in *. set (ch := fst (dialed (cm_next_socket m0) rc)) in *.
  exists m', (add_chan (cc_channel_id rc) a ch l), a, ch.
  assert (Hdial : remote_ ch = cc_remote rc /\ tcp_ptr_ ch = Some (cm_next_socket m0)).
  { unfold ch, dialed, connect, is_tcp. cbn [kind_ new_channel]. by rewrite Hkind. }
  destruct Hdial as [Hd1 Hd2]. split_and!; [|unfold findChannel; cbn; apply om_find_insert_eq | cbn; by rewrite lookup_insert_eq | done | by rewrite Hd2].
  unfold c2. cbn [machine_do mc_stopped set_stopped]. rewrite list_lookup_alter, Hk. cbn [fmap option_fmap option_map].
  unfold fire. rewrite Htm, Hpending. cbn [run_job]. rewrite <- Htm. fold m0.
  unfold removeChannel, findChannel. rewrite Hch. cbn [om_find snd]. rewrite Hadd. by rewrite decide_True.
Qed.

Lemma stopped_link_comes_back_witness :
  let c1 := snd (mlfStop lost_machine) in
  running_ c1 = false /\ exists m l a ch, mc_stopped (machine_do noted (MStale 0 0) c1) !! 0%nat = Some (m, l) /\
    findChannel 1 l = Some a /\ heap_ l !! a = Some ch /\ remote_ ch = test_remote.
Proof.
  assert (Hn : mc_inport lost_machine = Some lost_net) by (vm_compute; reflexivity).
  assert (Hp : cm_timers (mn_mgr lost_net) !! 0%nat = Some (60000, JobReconnect (mkFgwChannelConfig 1 ZFGW_CHANNEL_TCP test_remote 10)))
    by (vm_compute; reflexivity).
  assert (Hk : length (mc_stopped lost_machine) = 0%nat) by (vm_compute; reflexivity).
  destruct (stopped_link_comes_back noted 0 (Some [47]) [97] empty link_lost lost_net Hn 0%nat 60000 _ Hp eq_refl)
    as (H1 & _ & _ & _ & _ & m & l & a & ch & Hs & Hf & Hh & Hr & _).
  split; [exact H1|]. exists m, l, a, ch. split; [|split; [exact Hf | split; [exact Hh | exact Hr]]].
  change (machine_run noted link_lost (new_machine 0 (Some [47]) [97] empty)) with lost_machine in Hs. rewrite Hk in Hs. exact Hs.
Defined.
