(* ===== verification/Hosting.v ===== *)
(** * Hosting: a running machine is its node

    A machine that has been brought up as an inport or an outport does to its manager,
    stream and service what the node of its configuration does ([Gateway]): the events of
    the machine, remote calls included, are read as the steps of the node, until something
    tears the machine down. *)
From Stdlib Require Import String.
From S2P Require Import Prelude Proto OMap Segment Pack ZdsInstance Channel Selector Links.
From S2P Require Import DataStream Testbed Relay Outport Inport Manager ManagerProps Node.
From S2P Require Import Transit.
From S2P Require Import Config Machine Gateway MachineProps.

Section hosting.
Context {rt : ZdsRuntime} {T : Transport} {sort : StdSort} {host : Host} {disk : Disk}.
Context (open_timestamp : Z -> Z -> Z).
Implicit Types (c : ZfgwMachine) (e : machine_event) (es : list machine_event).

(** ** The events of a machine as the steps of its node *)
Definition argument {Req} (up : bytes -> bool -> Z * Req) (dblock : bytes) : option Req :=
  let '(ret, arg) := up dblock true in if ret <? 0 then None else Some arg.
Definition link_events e : list net_step :=
  match e with
  | MLink s => [s]
  | MCall _ method dblock =>
    if (method =? "mlfAddChannel")%string then
      match argument zds_unpack_FgwAddChannelRequest dblock with Some req => [NetAdd (ac_channel req)] | None => [] end
    else if (method =? "mlfRemoveChannel")%string then
      match argument zds_unpack_FgwRemoveChannelRequest dblock with Some req => [NetRemove (rc_channel_id req)] | None => [] end
    else []
  | _ => []
  end.
Definition client_events e : list (node_step inport_step) :=
  map NodeLink (link_events e) ++ match e with MClient s => [NodeServe s] | _ => [] end.
Definition remote_events e : list (node_step (Z * socket_event)) :=
  map NodeLink (link_events e) ++ match e with MRemote a s => [NodeServe (a, s)] | _ => [] end.
(** Nothing stops the machine or forces a restart. *)
Definition undisturbed e : Prop :=
  match e with
  | MStop => False
  | MCall _ method dblock => method <> "mlfStop"%string /\
      (method = "mlfStart"%string -> forall req, argument zds_unpack_FgwStartRequest dblock = Some req -> sr_force_restart req = 0)
  | _ => True
  end.

(** ** A step *)

(** What the node is in the machine: its [n], put back by [put]. *)
Definition hosts_inport (n : machine_net InportService) c : Prop :=
  running_ c = true /\ mc_inport c = Some n /\ mc_outport c = None.
Definition hosts_outport (n : machine_net OutportService) c : Prop :=
  running_ c = true /\ mc_inport c = None /\ mc_outport c = Some n.

Lemma call_argument {Req} (up : bytes -> bool -> Z * Req) dblock (h : Req -> ZfgwMachine -> reply * ZfgwMachine) c :
  snd (rpc_call up dblock h c) = match argument up dblock with Some req => snd (h req c) | None => c end.
Proof. unfold rpc_call, argument. destruct (up dblock true) as [ret arg]. by destruct (ret <? 0). Qed.
(** The calls that leave the services alone. *)
Definition same_services c c' : Prop := running_ c' = running_ c /\ mc_inport c' = mc_inport c /\ mc_outport c' = mc_outport c.
Lemma same_services_refl c : same_services c c.
Proof. done. Qed.
Lemma start_running ls c : running_ c = true -> same_services c (snd (machine_start ls c)).
Proof.
  intros Hr. assert (Hb : forall c', same_services c c' -> same_services c (snd (doBringup ls c'))).
  { intros c' (H1 & H2 & H3). unfold doBringup. by rewrite H1, Hr. }
  unfold machine_start. destruct (mc_host_dir c) as [dir|]; [|by apply Hb].
  destruct (zfgw_load_config _ _ _ _ _) as [ret cfg]. destruct (ret <? 0); [done | by apply Hb].
Qed.
Lemma call_services ls method dblock c : running_ c = true -> undisturbed (MCall ls method dblock) ->
  method <> "mlfAddChannel"%string -> method <> "mlfRemoveChannel"%string ->
  same_services c (snd (call_dblock open_timestamp ls method dblock c)).
Proof.
  intros Hr [Hstop Hstart] Ha Hrm. unfold call_dblock. destruct (String.eqb_spec method "mlfGetStatus") as [_|_].
  { rewrite call_argument. destruct (argument zds_unpack_FgwEmpty dblock); apply same_services_refl. }
  destruct (String.eqb_spec method "mlfStart") as [Hm|_].
  { rewrite call_argument. destruct (argument zds_unpack_FgwStartRequest dblock) as [req|] eqn:Hreq; [|done].
    specialize (Hstart Hm req eq_refl). unfold mlfStart. by rewrite Hr, Hstart. }
  destruct (String.eqb_spec method "mlfStop"); [done|]. destruct (String.eqb_spec method "mlfSetConfig") as [_|_].
  { rewrite call_argument. destruct (argument zds_unpack_FgwSetConfigRequest dblock) as [req|]; [|done]. unfold mlfSetConfig. destruct (negb _); [done|].
    cbn [mc_host_dir set_mc_config]. by destruct (mc_host_dir c). }
  destruct (String.eqb_spec method "mlfAddChannel"); [done|]. by destruct (String.eqb_spec method "mlfRemoveChannel").
Qed.

(** What an event does to the node, whichever it is. *)
Record hosted (e : machine_event) c c' : Prop := {
  ho_inport : forall n, hosts_inport n c -> hosts_inport (node_run serve_client (client_events e) n) c';
  ho_outport : forall n, hosts_outport n c -> hosts_outport (node_run serve_remote (remote_events e) n) c' }.
Lemma hosted_same e c c' : client_events e = [] -> remote_events e = [] -> same_services c c' -> hosted e c c'.
Proof.
  intros Hi Ho (H1 & H2 & H3). split; intros n; rewrite ?Hi, ?Ho; unfold hosts_inport, hosts_outport; by rewrite H1, H2, H3.
Qed.
(** An operation of the manager. *)
Lemma hosted_manager e s f c :
  (forall (H : Type) (app : SessionHandler H) (n : machine_net H), net_do s n = on_links (fun ml => snd (f ml)) n) ->
  client_events e = [NodeLink s] -> remote_events e = [NodeLink s] -> hosted e c (snd (on_manager f c)).
Proof.
  intros Hs Hi Ho. split; intros n (Hr & H1 & H2); rewrite ?Hi, ?Ho; unfold on_manager; rewrite ?H1, ?H2;
    unfold node_run; cbn [fold_left node_do]; rewrite Hs; unfold on_links; by destruct (f _) as [ret [m l]].
Qed.
Lemma hosted_after e c c1 c2 : hosted e c c1 -> same_services c1 c2 -> hosted e c c2.
Proof.
  intros [Hi Ho] (H1 & H2 & H3). split; intros n Hn; [destruct (Hi n Hn) as (? & ? & ?) | destruct (Ho n Hn) as (? & ? & ?)];
    split_and!; congruence.
Qed.
Lemma hosted_call ls method dblock c : running_ c = true -> undisturbed (MCall ls method dblock) ->
  hosted (MCall ls method dblock) c (snd (call_dblock open_timestamp ls method dblock c)).
Proof.
  intros Hr Hu. destruct (String.eqb_spec method "mlfAddChannel") as [->|Ha].
  { unfold call_dblock. cbn [String.eqb Ascii.eqb Bool.eqb]. rewrite call_argument.
    destruct (argument zds_unpack_FgwAddChannelRequest dblock) as [req|] eqn:Hreq.
    - unfold mlfAddChannel. eapply hosted_after.
      + apply (hosted_manager _ (NetAdd (ac_channel req)) (addChannel (ac_channel req)));
          unfold client_events, remote_events, link_events; simpl; by rewrite ?Hreq.
      + destruct (on_manager _ c) as [ret c']. cbn [snd]. by destruct (0 <=? ret).
    - apply hosted_same; unfold client_events, remote_events, link_events; simpl; by rewrite ?Hreq. }
  destruct (String.eqb_spec method "mlfRemoveChannel") as [->|Hrm].
  { unfold call_dblock. cbn [String.eqb Ascii.eqb Bool.eqb]. rewrite call_argument.
    destruct (argument zds_unpack_FgwRemoveChannelRequest dblock) as [req|] eqn:Hreq.
    - unfold mlfRemoveChannel. set (f := fun ml : ChannelManager * Links => _). eapply hosted_after.
      + apply (hosted_manager _ (NetRemove (rc_channel_id req)) f); [|unfold client_events, remote_events, link_events; simpl; by rewrite ?Hreq..].
        intros H app n. cbn [net_do]. unfold on_links, f. cbn. by destruct (removeChannel _ _).
      + destruct (on_manager _ c) as [ret c']. cbn [snd]. by destruct (0 <=? ret).
    - apply hosted_same; unfold client_events, remote_events, link_events; simpl; by rewrite ?Hreq. }
  apply hosted_same; [..|by apply call_services]; unfold client_events, remote_events, link_events;
    apply String.eqb_neq in Ha, Hrm; by rewrite Ha, Hrm.
Qed.
Lemma hosted_do e c : running_ c = true -> undisturbed e -> hosted e c (machine_do open_timestamp e c).
Proof.
  intros Hr Hu. destruct e as [ls| |ls method d|s|s|a s|s|k i|k i]; try done; try by apply hosted_same.
  - apply hosted_same; [done..|]. by apply start_running.
  - by apply hosted_call.
  - split; intros n (_ & H1 & H2); cbn [machine_do]; unfold hosts_inport, hosts_outport; cbn; by rewrite H1, H2, Hr.
  - split; intros n (_ & H1 & H2); cbn [machine_do]; unfold hosts_inport, hosts_outport, client_events, remote_events; cbn;
      unfold serve_client; destruct (of_client s); cbn; rewrite ?H1, ?H2, ?Hr; by destruct n.
  - split; intros n (_ & H1 & H2); cbn [machine_do]; unfold hosts_inport, hosts_outport, client_events, remote_events; cbn; by rewrite ?H1, ?H2, ?Hr.
Qed.

(** ** A run *)
Lemma node_run_app {A H} {app : SessionHandler H} (serve : A -> world H -> world H) ss ss' n :
  node_run serve (ss ++ ss') n = node_run serve ss' (node_run serve ss n).
Proof. apply fold_left_app. Qed.
Lemma hosted_run es : Forall undisturbed es -> forall c c', c' = machine_run open_timestamp es c ->
  (forall n, hosts_inport n c -> hosts_inport (node_run serve_client (concat (map client_events es)) n) c') /\
  (forall n, hosts_outport n c -> hosts_outport (node_run serve_remote (concat (map remote_events es)) n) c').
Proof.
  induction 1 as [|e es He Hes IH]; intros c c' ->; [done|]. cbn [map concat].
  destruct (IH (machine_do open_timestamp e c) _ eq_refl) as [Hi Ho].
  split; intros n Hn; rewrite node_run_app; [apply Hi | apply Ho]; apply hosted_do; try done; apply Hn.
Qed.
Lemma bringup_inport ls c : running_ c = false -> nothing_up c -> cfg_role (mc_config c) = ZFGW_ROLE_INPORT ->
  0 <= listen_clients ls -> hosts_inport (inport_node (mc_config c) (listen_clients ls)) (snd (doBringup ls c)).
Proof.
  intros Hr (_ & Ho & _) Hrole Hl. unfold doBringup. rewrite Hr, Hrole. cbn [Z.eqb ZFGW_ROLE_TRANSIT ZFGW_ROLE_INPORT Pos.eqb].
  unfold inport_node. set (n := new_net _ _).
  assert (Hs : Inport.start (listen_clients ls) (w_app (mn_world n)) = (0, snd (Inport.start (listen_clients ls) (w_app (mn_world n))))).
  { unfold n, new_net. destruct (Manager.start _ _) as [m l]. cbn [mn_world w_app]. unfold Inport.start. cbn [is_acceptor new_inport].
    by destruct (Z.ltb_spec (listen_clients ls) 0); [lia|]. }
  rewrite Hs. cbn [snd]. by rewrite Ho.
Qed.
Lemma acceptor_add ch m l : link_acceptor_ (fst (snd (addChannel ch (m, l)))) = link_acceptor_ m.
Proof.
  unfold addChannel, connect_at, sharedUtpContext. destruct (om_mem _ _); [done|]. destruct (negb _); [done|].
  destruct (_ =? _), (shared_utp_ m); by destruct (connect _ _ _).
Qed.
Lemma new_net_acceptor {H} cfg (h : H) : link_acceptor_ (mn_mgr (new_net cfg h)) = false.
Proof.
  unfold new_net, Manager.start. generalize (set_selector (setMode (cfg_multipath_mode cfg) (selector_ (mkLinks empty [] LinkSelector_init []))) (mkLinks empty [] LinkSelector_init [])) as l.
  assert (Hn : link_acceptor_ (set_config cfg new_manager) = false) by done. revert Hn.
  generalize (set_config cfg new_manager) as m. induction (cfg_channels cfg) as [|ch cs IH]; intros m Hm l.
  - cbn. unfold addBytesSubscriber. by case_decide.
  - cbn [fold_left]. pose proof (acceptor_add ch m l) as Hw. destruct (snd (addChannel ch (m, l))) as [m' l']. apply IH. by rewrite <- Hm.
Qed.
Lemma bringup_outport ls c : running_ c = false -> nothing_up c -> cfg_role (mc_config c) = ZFGW_ROLE_OUTPORT ->
  0 <= listen_links ls -> hosts_outport (outport_node (mc_config c) (listen_links ls)) (snd (doBringup ls c)).
Proof.
  intros Hr (Hi & _ & _) Hrole Hl. unfold doBringup. rewrite Hr, Hrole. cbn [Z.eqb ZFGW_ROLE_TRANSIT ZFGW_ROLE_INPORT ZFGW_ROLE_OUTPORT Pos.eqb].
  unfold outport_node. set (n := new_net _ _). cbn [mn_mgr mn_world].
  assert (Hs : startLinkListener (listen_links ls) (mn_mgr n) = (0, snd (startLinkListener (listen_links ls) (mn_mgr n)))).
  { assert (Hacc : link_acceptor_ (mn_mgr n) = false) by (apply new_net_acceptor). unfold startLinkListener. rewrite Hacc.
    by destruct (Z.ltb_spec (listen_links ls) 0); [lia|]. }
  destruct (negb (cfg_outport_listen_port (mc_config c) =? 0)); [rewrite Hs|]; cbn [snd]; by rewrite Hi.
Qed.
End hosting.

(** ** A concrete machine *)
#[local] Existing Instances test_host test_disk.
Definition hosted_es : list machine_event :=
  [MLink (NetOpen 1 5); MClient (InAccept [49]);
   MCall all_listen "mlfAddChannel" (snd (zds_pack_FgwAddChannelRequest None (mkFgwAddChannelRequest
     (mkFgwChannelConfig 9 ZFGW_CHANNEL_TCP test_remote 1)) true));
   MStart all_listen; MClient (InClient 1 [5; 1; 0]); MLink (NetClose 1)].
Definition hosted_before : list machine_event :=
  [MCall all_listen "mlfSetConfig" (snd (zds_pack_FgwSetConfigRequest None (mkFgwSetConfigRequest dialing_config) true))].

(** ** Properties *)

(** C19. A running machine is the node of its configuration.  An idle machine, whatever it
    has been through, is brought up as an inport or an outport, with listens that succeed;
    then whatever happens to it - links that connect, bring bytes, close, expire or are
    accepted, clients and destinations, remote calls, starts - but a stop or a forced
    restart, it keeps running and its manager, links, stream and service are in exactly
    the state that the node of the configuration it was brought up with comes to by the
    steps these events are, channels that are added and removed by remote calls included. *)
Theorem running_machine_is_node {rt : ZdsRuntime} {T : Transport} {sort : StdSort} {host : Host} {disk : Disk}
    (open_timestamp : Z -> Z -> Z) (role0 : Z) (host_dir : option bytes) (name : bytes) (f : files)
    (before : list machine_event) (c := machine_run open_timestamp before (new_machine role0 host_dir name f))
    (Hidle : running_ c = false) (cfg := mc_config c) (ls : listens)
    (Hclients : 0 <= listen_clients ls) (Hlinks : 0 <= listen_links ls)
    (es : list machine_event) (Hes : Forall undisturbed es)
    (c' := machine_run open_timestamp es (snd (doBringup ls c))) :
  (cfg_role cfg = ZFGW_ROLE_INPORT -> running_ c' = true /\ mc_outport c' = None /\
     mc_inport c' = Some (client_run cfg (listen_clients ls) (concat (map client_events es)))) /\
  (cfg_role cfg = ZFGW_ROLE_OUTPORT -> running_ c' = true /\ mc_inport c' = None /\
     mc_outport c' = Some (remote_run cfg (listen_links ls) (concat (map remote_events es)))).
Proof.
  assert (Hw : machine_wf c) by (by apply wf_machine_run). unfold machine_wf in Hw. rewrite Hidle in Hw.
  destruct (hosted_run open_timestamp es Hes _ c' eq_refl) as [Hi Ho]. split; intros Hrole.
  - destruct (Hi _ (bringup_inport ls c Hidle Hw Hrole Hclients)) as (? & ? & ?). done.
  - destruct (Ho _ (bringup_outport ls c Hidle Hw Hrole Hlinks)) as (? & ? & ?). done.
Qed.

Lemma running_machine_is_node_witness :
  let c := machine_run noted hosted_before (new_machine 0 (Some [47]) [97] empty) in
  mc_inport (machine_run noted hosted_es (snd (doBringup all_listen c))) =
    Some (client_run dialing_config 0
      [NodeLink (NetOpen 1 5); NodeServe (InAccept [49]); NodeLink (NetAdd (mkFgwChannelConfig 9 ZFGW_CHANNEL_TCP test_remote 1));
       NodeServe (InClient 1 [5; 1; 0]); NodeLink (NetClose 1)]).
Proof.
  intros c. assert (Hcfg : mc_config c = dialing_config) by (by vm_compute).
  assert (Hidle : running_ c = false) by (by vm_compute).
  assert (Hes : Forall undisturbed hosted_es) by (repeat constructor; discriminate).
  destruct (running_machine_is_node noted 0 (Some [47]) [97] empty hosted_before Hidle all_listen ltac:(done) ltac:(done) hosted_es Hes)
    as [Hi _]. fold c in Hi. rewrite Hcfg in Hi. destruct (Hi eq_refl) as (_ & _ & Hn).
  assert (Hev : concat (map client_events hosted_es) =
    [NodeLink (NetOpen 1 5); NodeServe (InAccept [49]); NodeLink (NetAdd (mkFgwChannelConfig 9 ZFGW_CHANNEL_TCP test_remote 1));
     NodeServe (InClient 1 [5; 1; 0]); NodeLink (NetClose 1)]) by (by vm_compute).
  rewrite <- Hev. exact Hn.
Defined.
