(* ===== verification/Duplex.v ===== *)
(** * Duplex: a client of the inport and its destination, both ways

    The nodes of [Gateway], whose links come and go, joined by [Hops]: what a client of the
    inport writes is what its destination is written, what the destination writes is what
    the client is written. *)
From S2P Require Import Prelude Proto OMap Segment Pack ZdsInstance Channel Selector Links.
From S2P Require Import DataStream.
From S2P Require Import StreamFacts Framing StreamWf Reassembly Completeness Sending EndToEnd.
From S2P Require Import Traffic.
From S2P Require Import Testbed.
From S2P Require Import Manager Transit TransitWf TransitProps ThroughTransit Passage Hops.
From S2P Require Import AppInv Relay Socks RelayLife Outport OutportWf Serve Tunnel.
From S2P Require Import Inport InportWf Uplink.
From S2P Require Import ManagerWf Node Config Machine Gateway.

#[export] Instance tlv_exact : ZdsExact tlv_runtime.
Proof.
  assert (He : forall s l len bs, emit s l = (len, bs) -> 0 <= len -> len = zlen bs)
    by (intros s l len bs H Hl; by destruct (emit_ok s l len bs H Hl) as [-> ->]).
  split.
  - intros pf hp s len bs. apply He.
  - intros b v s len bs. apply He.
Qed.

(** A link that lives, in ALL mode. *)
Definition lasting (q : Z) (l : Links) : Prop := mode_ (selector_ l) = ZFGW_MULTIPATH_ALL /\ live_socket l q.
(** The stream's session [k] is that of the object at [a]. *)
Definition serves {H} (k : SessionKey) (a : Z) (w : world H) : Prop := snd <$> idents k w = Some (Some a).

#[export] Instance serves_dec {H} k a (w : world H) : Decision (serves k a w).
Proof. unfold serves. apply _. Defined.
Definition lasting_test (q : Z) (l : Links) : bool :=
  (mode_ (selector_ l) =? ZFGW_MULTIPATH_ALL) && existsb (fun id => sock l id =? q) (live_ids (pool l)).
Lemma lasting_tested q l : lasting_test q l = true -> lasting q l.
Proof.
  unfold lasting_test. intros [Hm%Z.eqb_eq (id & Hid & Hq%Z.eqb_eq)%existsb_exists]%andb_true_iff. split; [done|]. by exists id.
Qed.

Section duplex.
Context {rt : ZdsRuntime} {laws : ZdsLaws rt} {ex : ZdsExact rt} {T : Transport} {sort : StdSort} {host : Host}.
Context (Hmb : forall len, mb_acquire len = true).
(** The inport's node, and what happens to it. *)
Context (cfg_i : FgwConfig) (Hcfg_i : config_ok cfg_i) (lr_i : Z) (ss_i : list (node_step inport_step)).
Context (Hfine_i : Forall (node_fine cfg_i) ss_i) (Haccepts_i : link_accepts ss_i < 2 ^ 31 - 1) (Hclients : clients ss_i + 2 < 2 ^ 32).
Abbreviation wi := (mn_world (client_run cfg_i lr_i ss_i)).
(** The outport's, and what happens to it. *)
Context (cfg_o : FgwConfig) (Hcfg_o : config_ok cfg_o) (lr_o : Z) (ss_o : list (node_step (Z * socket_event))).
Context (Hfine_o : Forall (node_fine cfg_o) ss_o) (Haccepts_o : link_accepts ss_o < 2 ^ 31 - 1).
Abbreviation wo := (mn_world (remote_run cfg_o lr_o ss_o)).
(** The client's session, with its object at [a]: the client's socket is the one before it. *)
Context (sid a : Z) (Hpeer : peer_key (cfg_ingress_id cfg_o) (cfg_ingress_id cfg_i, sid)).
Abbreviation k := (cfg_ingress_id cfg_i, sid).
Abbreviation said := (client_said cfg_i lr_i (a - 1) ss_i).
Abbreviation answered := (remote_said cfg_o lr_o k ss_o).
Context (Hopen : serves k a wi).

(** What is true of the nodes in every state. *)
Definition always_i (P : Links -> Prop) : Prop :=
  throughout serve_client (fun w => serves k a w -> P (w_net w)) ss_i (inport_node cfg_i lr_i).
Definition always_o (P : Links -> Prop) : Prop :=
  throughout serve_remote (fun w => is_Some (os_sessions (w_app w) !! k) -> P (w_net w)) ss_o (outport_node cfg_o lr_o).

Lemma up_number : a = 2 * sid /\ key_ok k /\ ~ mute k wi.
Proof.
  pose proof (client_uplink Hmb cfg_i Hcfg_i lr_i sid (Outlet False 0 []) ss_i eq_refl Hfine_i Haccepts_i Hclients ltac:(done)) as Hup.
  destruct Hup as [[Hw _] Hloc Hnum _ Hsd _]. unfold serves in Hopen. destruct (idents k wi) as [i|] eqn:Hi; [|done]. injection Hopen as Ha.
  destruct (iw_stream _ _ _ _ Hw k i a) as [_ Hf]; [done..|]. cbn [snd] in Hf.
  destruct (iw_entry _ _ _ _ Hw _ _ Hf) as [(s & (Hs & _ & _) & Hid) _]. pose proof (proj2 Hnum a s Hs) as Hnum'.
  split; [lia|]. unfold idents in Hi. destruct (find_session k wi) as [st|] eqn:Hst; [|done]. injection Hi as <-.
  split; [by eapply so_sess|]. unfold mute, rx_of. rewrite Hst. simpl in *. congruence.
Qed.
Lemma up_uplink full q : (full -> always_i (lasting q)) ->
  uplink (cfg_ingress_id cfg_i) sid (Outlet full q []) (clients ss_i) said wi.
Proof.
  intros Hst. destruct up_number as [Ha _]. replace (a - 1) with (2 * sid - 1) by lia. apply client_uplink; try done.
  intros i Hy Hat. apply (Hst Hy i). unfold serves. by rewrite Ha.
Qed.
Lemma last_state {A H} (serve : A -> world H -> world H) {app : SessionHandler H} P ss x :
  throughout serve P ss x -> P (mn_world (node_run serve ss x)).
Proof. intros Hp. rewrite <- (firstn_all ss) at 1. apply Hp. Qed.

(** *** What the ends hear *)
Lemma up_tunnel : tunnel_inv k (Outlet False 0 []) False answered wo.
Proof. by apply remote_tunnel. Qed.
Lemma up_heard full q : (full -> always_i (lasting q)) ->
  path full false (cfg_route_outport_id cfg_i) k (wire_ (w_net wi)) (fun _ => True) (eq q)
    (fun ch => node_on serve_remote ch ss_o (outport_node cfg_o lr_o)) ->
  zlen said <= 2 ^ 32 - 2 ^ 16 ->
  concat (heard k (w_log wo)) `prefix_of` said /\ (full -> ~ gone k wo -> concat (heard k (w_log wo)) = said).
Proof.
  intros Hst Hup Hn. destruct up_number as (Heq & Hko & _). pose proof (up_uplink full q Hst) as Hinv.
  destruct (remote_as_stream cfg_o Hcfg_o lr_o ss_o Hfine_o Haccepts_o) as (ts & Hts & Hon & Hbytes). rewrite outport_node_world in Hts.
  assert (Hcfg : route_outport_id_ (cfg wi) = cfg_route_outport_id cfg_i).
  { by rewrite (client_cfg cfg_i Hcfg_i), inport_node_world. }
  destruct (path_heard Hmb false k true (Outlet full q []) wi said ts (cfg_ingress_id cfg_o) (cfg_segment_size cfg_o) (cfg_recv_window cfg_o)
    (negb (cfg_enable_crc cfg_o =? 0)) true (cfg_route_outport_id cfg_o) (start_links cfg_o) new_outport) as [Hpre Hall]; try done.
  - apply Hinv.
  - apply Hinv. unfold attached. by rewrite <- Heq.
  - intros Hy. by apply (last_state _ _ _ _ (Hst Hy)).
  - rewrite Hcfg. by apply (path_ext _ _ _ _ _ _ _ _ _ Hon).
  - apply Hcfg_o.
  - apply Hcfg_o.
  - change (do_steps ts _) with (do_steps ts (new_service (cfg_ingress_id cfg_o) (cfg_segment_size cfg_o) (cfg_recv_window cfg_o)
      (negb (cfg_enable_crc cfg_o =? 0)) (cfg_route_outport_id cfg_o) (start_links cfg_o))) in Hpre, Hall.
    rewrite Hts in Hpre, Hall. split; [exact Hpre|]. intros Hy Hkept. apply Hall; [done|].
    split; [done|]. eapply tunnel_mute, up_tunnel.
Qed.

Lemma down_heard full q x r (answer := greeted (state_ r) ++ answered) :
  (full -> always_o (lasting q)) ->
  os_sessions (w_app wo) !! k = Some x -> os_heap (w_app wo) !! x = Some r -> ~ gone k wo ->
  path full true (cfg_ingress_id cfg_i) k (wire_ (w_net wo)) (fun _ => True) (eq q)
    (fun ch => node_on serve_client ch ss_i (inport_node cfg_i lr_i)) ->
  ~ gone k wi -> zlen answer <= 2 ^ 32 - 2 ^ 16 ->
  written (a - 1) (is_out (w_app wi)) `prefix_of` answer /\ (full -> written (a - 1) (is_out (w_app wi)) = answer).
Proof.
  intros Hst Hx Hr Hkept Hdown Hkept_i Hn.
  assert (Ht : tunnel_inv k (Outlet full q []) True answered wo) by (apply remote_tunnel; try done; by intros i _ Hy; apply (Hst Hy i)).
  destruct (ti_tracked _ _ _ _ _ Ht) as [?|[(Hno & _)|(evs & acts & r' & x' & H1 & H2 & H3 & _ & _ & H4 & H5)]];
    [done | congruence |].
  rewrite Hx in H1. injection H1 as <-. rewrite Hr in H2. injection H2 as <-.
  pose proof (table_live _ _ _ _ _ (proj2 (ti_wf _ _ _ _ _ Ht)) Hr) as [Hstate _].
  destruct (run_tells _ _ _ _ _ H3 Hstate) as [Htell _]. rewrite H4 in Htell. change (peer_bytes acts = answer) in Htell.
  specialize (H5 I). rewrite Htell in H5. destruct up_number as (Heq & Hko & Hmute).
  pose proof (client_uplink Hmb cfg_i Hcfg_i lr_i sid (Outlet False 0 []) ss_i eq_refl Hfine_i Haccepts_i Hclients ltac:(done)) as Hinv.
  destruct (client_as_stream cfg_i Hcfg_i lr_i ss_i Hfine_i Haccepts_i) as (ts & Hts & Hon & Hbytes). rewrite inport_node_world in Hts.
  destruct (path_heard Hmb true k false (Outlet full q []) wo answer ts (cfg_ingress_id cfg_i) (cfg_segment_size cfg_i) (cfg_recv_window cfg_i)
    (negb (cfg_enable_crc cfg_i =? 0)) false (cfg_route_outport_id cfg_i) (start_links cfg_i) (snd (Inport.start lr_i new_inport))) as [Hpre Hall]; try done.
  - by apply (ti_sound _ _ _ _ _ Ht).
  - intros Hy. pose proof (last_state _ _ _ _ (Hst Hy)) as Hl. cbv beta in Hl. apply Hl. by exists x.
  - by apply (path_ext _ _ _ _ _ _ _ _ _ Hon).
  - apply Hcfg_i.
  - apply Hcfg_i.
  - change (do_steps ts _) with (do_steps ts (new_inport_service (cfg_ingress_id cfg_i) (cfg_segment_size cfg_i) (cfg_recv_window cfg_i)
      (negb (cfg_enable_crc cfg_i =? 0)) (cfg_route_outport_id cfg_i) lr_i (start_links cfg_i))) in Hpre, Hall.
    rewrite Hts in Hpre, Hall. rewrite heard_kept in Hpre, Hall by done. destruct Hinv as [[_ Hpiped] _ _ Htold _ _].
    rewrite (Hpiped Hmb a), Heq, Htold. split; [exact Hpre|]. intros Hy. by apply Hall.
Qed.

(** *** Properties *)
Section negotiated.
(** What the client says: a greeting, a CONNECT request, payload. *)
Context (methods payload : bytes) (rsv port : Z) (addr : socks_addr).
Context (Hm : zlen methods < 256) (Ha : addr_ok addr) (Hp : 0 <= port < 2 ^ 16).
Context (Hsays : said = client_hello methods ++ client_request 1 rsv addr port ++ payload).
Context (Hbytes : Forall is_byte said) (Hn : zlen said <= 2 ^ 32 - 2 ^ 16).
Context (Hdial : 0 <= start_connect (mkFgwEndpoint (host_text addr) port)).

(** C1. A client reaches its destination.  The inport and the outport are started from any
    configurations, and their managers' links come and go: they are dialled, greet, are
    watched, break and are dialled again, or are accepted.  A client of the inport says a
    SOCKS5 greeting, a CONNECT request and payload, in any pieces, among any other clients;
    as long as the inport has the client's session, one link, with socket [q], lives, in ALL
    mode.  The links carry what the inport writes, that one all of it, the others any
    prefixes or traffic of strangers, in any interleaving, through any number of transits,
    which carry anything else at the same time, to the outport, which serves any other
    sessions meanwhile, with any callbacks of its outbound sockets.  Then, unless the
    outport has closed the session, it has a relay for it that has dialled exactly the
    requested host and port, once; what it has written to that socket is nothing while the
    socket is not open, the payload being kept, and exactly the payload once it is. *)
Theorem client_to_destination (q : Z) (Hlasting : always_i (lasting q))
    (Hup : path True false (cfg_route_outport_id cfg_i) k (wire_ (w_net wi)) (fun _ => True) (eq q)
      (fun ch => node_on serve_remote ch ss_o (outport_node cfg_o lr_o))) (Hkept : ~ gone k wo) :
  exists x r written, os_sessions (w_app wo) !! k = Some x /\ os_heap (w_app wo) !! x = Some r /\
    out_of k (os_out (w_app wo)) = Dial (host_text addr) port :: map ToRemote written /\
    ((state_ r = ST_CONNECTING /\ concat written = [] /\ rx_buffer_ r = payload) \/
     (state_ r = ST_RELAYING /\ concat written = payload)).
Proof.
  destruct (up_heard True q) as [_ Hheard]; [done..|].
  specialize (Hheard I Hkept).
  destruct (tunnel_serves Hmb k _ False _ wo _ methods rsv port addr payload up_tunnel eq_refl Hkept)
    as (evs & acts & r & written & (x & H1 & H2 & _) & _ & _ & Hw & Hst); rewrite ?Hheard; try done.
  by exists x, r, written.
Qed.

(** C3. Nothing is made up on the way.  In any selection mode, with any links that come and
    go, also when there is none left and what is said is lost, whatever prefixes they deliver,
    however they are interleaved and through however many transits, whatever strangers send
    besides, and whoever else is served: what the outport does to the outside for a session
    it has not closed is nothing, or one dial of exactly the requested host and port and
    then a beginning of the payload; and what the client's socket is written is a beginning
    of the relay's replies and the bytes that the destination's socket has delivered. *)
Theorem tunnel_integrity
    (Hup : path False false (cfg_route_outport_id cfg_i) k (wire_ (w_net wi)) (fun _ => True) (fun _ => True)
      (fun ch => node_on serve_remote ch ss_o (outport_node cfg_o lr_o))) (Hkept : ~ gone k wo)
    (Hdown : path False true (cfg_ingress_id cfg_i) k (wire_ (w_net wo)) (fun _ => True) (fun _ => True)
      (fun ch => node_on serve_client ch ss_i (inport_node cfg_i lr_i))) (Hkept_i : ~ gone k wi) :
  (out_of k (os_out (w_app wo)) = [] \/
   exists written, out_of k (os_out (w_app wo)) = Dial (host_text addr) port :: map ToRemote written /\
     concat written `prefix_of` payload) /\
  (forall x r (answer := greeted (state_ r) ++ answered),
     os_sessions (w_app wo) !! k = Some x -> os_heap (w_app wo) !! x = Some r -> zlen answer <= 2 ^ 32 - 2 ^ 16 ->
     written (a - 1) (is_out (w_app wi)) `prefix_of` answer).
Proof.
  split.
  - destruct (up_heard False 0) as [Hpre _]; [done | by eapply path_any | done |].
    rewrite heard_kept in Hpre by done.
    destruct (ti_tracked _ _ _ _ _ up_tunnel) as [?|[(_ & _ & Hno & _)|(evs & acts & r & x & _ & Hr & Hrun & Hd & <- & _)]];
      [done | by left |].
    pose proof (table_live _ _ _ _ _ (proj2 (ti_wf _ _ _ _ _ up_tunnel)) Hr) as [Hstate _].
    rewrite Hsays, app_assoc in Hbytes. rewrite <- Hd, Hsays, app_assoc in Hpre.
    by apply (run_begins _ _ _ _ _ _ _ _ _ _ Hmb Hrun Hstate Hbytes).
  - intros x r answer Hx Hr Hsize. apply (down_heard False 0 x r); try done.
    by eapply path_any.
Qed.
End negotiated.

(** C2. The destination reaches the client.  The outport has a relay for a session it has
    not closed, and as long as it has had one, one link, with socket [q], has lived, in ALL
    mode, whatever its manager's other links do.  The links carry what the outport writes,
    that one all of it, the others any prefixes or traffic of strangers, in any
    interleaving, through any number of transits, whose way back to the inport stays the
    same while there is something for it, to the inport, which serves any other clients
    meanwhile.  Then, while the inport has the session and has not closed it, the client's
    socket has been written exactly the replies of the negotiation, as far as it is,
    followed by exactly the bytes that the destination's socket has delivered to the
    relay. *)
Theorem destination_to_client (x : Z) (r : FgwRelaySession)
    (Hx : os_sessions (w_app wo) !! k = Some x) (Hr : os_heap (w_app wo) !! x = Some r) (Hkept : ~ gone k wo)
    (q : Z) (Hlasting : always_o (lasting q))
    (Hdown : path True true (cfg_ingress_id cfg_i) k (wire_ (w_net wo)) (fun _ => True) (eq q)
      (fun ch => node_on serve_client ch ss_i (inport_node cfg_i lr_i))) (Hkept_i : ~ gone k wi)
    (answer := greeted (state_ r) ++ answered) (Hsize : zlen answer <= 2 ^ 32 - 2 ^ 16) :
  written (a - 1) (is_out (w_app wi)) = answer.
Proof. by apply (down_heard True q x r). Qed.
End duplex.

(** ** Two clients, a transit and an outport

    The first asks for a.io:443 and is answered, in a conversation that goes to and fro.
    The inport dials two links to the transit, of which the second breaks and is dialled
    again; another inport has a link there too.  The outport listens; it has accepted the
    transit's link and another that closes.  All of them send their heartbeats. *)
Definition talk_host : Host := {|
  alloc := transit_alloc; alloc_free := transit_alloc_free; generation := 47;
  generation_range := conj eq_refl eq_refl; udp_listen := 0 |}.
#[local] Existing Instance talk_host.
Definition one_link (id : Z) : FgwChannelConfig := mkFgwChannelConfig id ZFGW_CHANNEL_TCP (mkFgwEndpoint [49] 9000) 10.
Definition inport_conf (mode route : Z) : FgwConfig :=
  mkFgwConfig ZFGW_ROLE_INPORT 7 1080 [] 0 [one_link 1; one_link 2] 4 0 5 15 60 mode 1 route 0.
Definition outport_conf (mode : Z) : FgwConfig :=
  mkFgwConfig ZFGW_ROLE_OUTPORT 3 0 [] 7000 [] 0 0 5 15 60 mode 1 0 0.
Lemma inport_conf_ok mode route : is_u32 route -> config_ok (inport_conf mode route).
Proof. intros Hr. split; [by repeat constructor; vm_compute; auto | done | exact Hr | done | done]. Qed.
Lemma outport_conf_ok mode : config_ok (outport_conf mode).
Proof. split; [repeat constructor|done|done|done|done]. Qed.
Abbreviation conf_i := (inport_conf ZFGW_MULTIPATH_ALL 5).
Abbreviation conf_o := (outport_conf ZFGW_MULTIPATH_ALL).
Abbreviation hop_new := (started outports 0).
Abbreviation wire_i ss := (wire_ (w_net (mn_world (client_run conf_i 0 ss)))).
Abbreviation wire_o ss := (wire_ (w_net (mn_world (remote_run conf_o 0 ss)))).
Abbreviation wire_t ss := (tr_wire (transit_at outports 0 ss)).
(** What is on socket [q] after the bytes [before]. *)
Definition since (before after : list (Z * bytes)) (q : Z) : bytes := drop (length (on_socket q before)) (on_socket q after).

(** The greeting, up to the outport. *)
Definition talk1 : list (node_step inport_step) :=
  [NodeLink (NetOpen 1 5); NodeLink (NetOpen 2 6); NodeServe (InAccept [49]); NodeServe (InAccept [50]);
   NodeServe (InClient 1 [5; 1; 0]); NodeServe (InClient 3 [5])].
Definition stranger : segment := routed_seg 5 [9; 9].
Definition hop1 : list transit_step :=
  [TrAccept; TrAccept; TrAccept; TrOpen 1 1; TrOpen 2 2; TrOpen 3 3; TrOpen 4 4; TrOpen 5 5;
   TrBytes 3 6 (take 13 (on_socket 1 (wire_i talk1))); TrBytes 4 7 (take 30 (on_socket 2 (wire_i talk1)));
   TrBytes 5 8 (seg_frame stranger); TrBytes 3 9 (drop 13 (on_socket 1 (wire_i talk1)))].
Definition serve1 : list (node_step (Z * socket_event)) :=
  [NodeLink NetAccept; NodeLink NetAccept; NodeLink (NetOpen 1 5); NodeLink (NetOpen 2 5);
   NodeLink (NetBytes 1 6 (on_socket 1 (wire_t hop1))); NodeLink (NetTick (fun _ => 7)); NodeLink (NetClose 2); NodeLink (NetTimer 0)].
(** Its reply, down to the client, who then asks. *)
Definition hop2 : list transit_step :=
  hop1 ++ [TrTick; TrBytes 1 10 (take 40 (on_socket 1 (wire_o serve1))); TrBytes 1 11 (drop 40 (on_socket 1 (wire_o serve1)))].
Definition talk2 : list (node_step inport_step) :=
  talk1 ++ [NodeLink (NetBytes 1 12 (on_socket 3 (wire_t hop2))); NodeLink (NetClose 2); NodeLink (NetTick (fun _ => 13));
            NodeServe (InClient 1 [5; 1; 0; 3; 4; 97; 46; 105; 111; 1; 187]); NodeLink (NetTimer 0); NodeLink (NetOpen 2 14);
            NodeServe (InClient 1 [22; 3; 1])].
(** The request and what follows, up again; the destination answers. *)
Definition hop3 : list transit_step :=
  hop2 ++ [TrAccept; TrOpen 6 15; TrBytes 3 16 (since (wire_i talk1) (wire_i talk2) 1); TrBytes 6 17 (take 20 (on_socket 3 (wire_i talk2)))].
Definition serve_talk : list (node_step (Z * socket_event)) :=
  serve1 ++ [NodeLink (NetBytes 1 18 (since (wire_t hop1) (wire_t hop3) 1));
             NodeServe (2, SkOpen); NodeServe (2, SkBytes [79; 75])].
Definition hop_steps : list transit_step := hop3 ++ [TrBytes 1 19 (since (wire_o serve1) (wire_o serve_talk) 1)].
Definition whole_talk : list (node_step inport_step) :=
  talk2 ++ [NodeLink (NetBytes 1 20 (since (wire_t hop2) (wire_t hop_steps) 3))].

Lemma hop_fine : fine hop_new.
Proof. apply started_fine. Qed.
Lemma hop_delivering : forall p, In p (delivering hop_steps hop_new) -> p = 1 \/ p = 3 \/ p = 4 \/ p = 5 \/ p = 6.
Proof.
  intros p Hp. assert (Hall : forallb (fun p => bool_decide (p = 1) || bool_decide (p = 3) || bool_decide (p = 4) || bool_decide (p = 5) || bool_decide (p = 6))
    (delivering hop_steps hop_new) = true) by (by vm_compute).
  rewrite forallb_forall in Hall. specialize (Hall p Hp). rewrite !orb_true_iff, !bool_decide_eq_true in Hall. tauto.
Qed.
Lemma stranger_ok : strangers (7, 1) [stranger].
Proof. repeat constructor; cbn; try done. intros (_ & _ & _ & Hk). discriminate Hk. Qed.
Lemma up_first_hop full : path full false 5 (7, 1) (wire_i whole_talk) (fun _ => True) (eq 1) (fun p => came false p hop_steps hop_new).
Proof.
  apply (by_links _ _ _ _ _ _ _ (fun a => if a =? 3 then 1 else if a =? 4 then 2 else 3) [stranger] _ stranger_ok).
  - intros p. destruct (in_dec Z.eq_dec p (delivering hop_steps hop_new)) as [Hp|Hn]; [|right; rewrite came_none by done; apply pieces_nil].
    destruct (hop_delivering p Hp) as [-> | [-> | [-> | [-> | ->]]]].
    + right. replace (came false 1 hop_steps hop_new) with (@nil Z) by (by vm_compute). apply pieces_nil.
    + left. split; [done|]. replace (came false 3 hop_steps hop_new) with (on_socket 1 (wire_i whole_talk)); [done | by vm_compute].
    + left. split; [done|]. exists (drop 30 (on_socket 2 (wire_i whole_talk))). by vm_compute.
    + right. exists [seg_frame stranger]. split; [repeat constructor|]. exists []. by vm_compute.
    + left. split; [done|]. exists (drop 20 (on_socket 3 (wire_i whole_talk))). by vm_compute.
  - intros _. exists 3. split; [done|]. split; [done | by vm_compute].
Qed.
Lemma up_second_hop full : path full false 5 (7, 1) (wire_t hop_steps) (fun q => seen (negb false) q hop_steps hop_new)
  (fun q => leads false 5 q (passings false 5 hop_steps hop_new)) (fun ch => node_on serve_remote ch serve_talk (outport_node conf_o 0)).
Proof.
  apply (path_one _ _ _ _ _ _ _ 1 1).
  - apply seen_test; [by vm_compute | apply hop_fine].
  - exists []. by vm_compute.
  - intros _. split; [|by vm_compute]. apply leads_test. by vm_compute.
  - intros ch Hne. apply node_on_none. unfold serve_talk, serve1. cbn [arriving app]. intros [|[|[]]]; congruence.
Qed.
Lemma up_way full : path full false 5 (7, 1) (wire_i whole_talk) (fun _ => True) (eq 1)
  (fun ch => node_on serve_remote ch serve_talk (outport_node conf_o 0)).
Proof. apply (by_transit _ _ _ _ _ _ _ outports 0 hop_steps _ ltac:(done) (up_first_hop full)), up_second_hop. Qed.

Lemma down_first_hop full : path full true 7 (7, 1) (wire_o serve_talk) (fun _ => True) (eq 1) (fun p => came true p hop_steps hop_new).
Proof.
  apply (path_one _ _ _ _ _ _ _ 1 1).
  - done.
  - exists []. by vm_compute.
  - intros _. split; [done | by vm_compute].
  - intros p Hne. destruct (in_dec Z.eq_dec p (delivering hop_steps hop_new)) as [Hp|Hn]; [|by apply came_none].
    destruct (hop_delivering p Hp) as [-> | [-> | [-> | [-> | ->]]]]; [by destruct Hne | by vm_compute..].
Qed.
Lemma down_second_hop full : path full true 7 (7, 1) (wire_t hop_steps) (fun q => seen (negb true) q hop_steps hop_new)
  (fun q => leads true 7 q (passings true 7 hop_steps hop_new)) (fun ch => node_on serve_client ch whole_talk (inport_node conf_i 0)).
Proof.
  apply (path_one _ _ _ _ _ _ _ 1 3).
  - apply seen_test; [by vm_compute | apply hop_fine].
  - exists []. by vm_compute.
  - intros _. split; [|by vm_compute]. apply leads_test. by vm_compute.
  - intros ch Hne. apply node_on_none. unfold whole_talk, talk2, talk1. cbn [arriving app]. intros [|[|[]]]; congruence.
Qed.
Lemma down_way full : path full true 7 (7, 1) (wire_o serve_talk) (fun _ => True) (eq 1)
  (fun ch => node_on serve_client ch whole_talk (inport_node conf_i 0)).
Proof. apply (by_transit _ _ _ _ _ _ _ outports 0 hop_steps _ ltac:(done) (down_first_hop full)), down_second_hop. Qed.

Lemma talk_fine : Forall (node_fine conf_i) whole_talk /\ Forall (node_fine conf_o) serve_talk.
Proof. split; apply node_fine_test; by vm_compute. Qed.
Lemma talk_kept : ~ gone (7, 1) (mn_world (remote_run conf_o 0 serve_talk)) /\ ~ gone (7, 1) (mn_world (client_run conf_i 0 whole_talk)).
Proof. split; (refine (bool_decide_unpack _ _); by vm_compute). Qed.
Lemma talk_lasting : always_i conf_i 0 whole_talk 1 2 (lasting 1) /\ always_o conf_i conf_o 0 serve_talk 1 (lasting 1).
Proof.
  split.
  - apply (throughout_test _ _ (fun w => negb (bool_decide (serves (7, 1) 2 w)) || lasting_test 1 (w_net w))); [|by vm_compute].
    intros w [Hn%negb_true_iff%bool_decide_eq_false|Hl]%orb_true_iff Hs; [done | by apply lasting_tested].
  - apply (throughout_test _ _ (fun w => negb (bool_decide (is_Some (os_sessions (w_app w) !! (7, 1)))) || lasting_test 1 (w_net w))); [|by vm_compute].
    intros w [Hn%negb_true_iff%bool_decide_eq_false|Hl]%orb_true_iff Hs; [done | by apply lasting_tested].
Qed.

Lemma client_to_destination_witness : exists x r written,
  os_sessions (w_app (mn_world (remote_run conf_o 0 serve_talk))) !! (7, 1) = Some x /\
  os_heap (w_app (mn_world (remote_run conf_o 0 serve_talk))) !! x = Some r /\
  out_of (7, 1) (os_out (w_app (mn_world (remote_run conf_o 0 serve_talk)))) =
    Dial (host_text client_addr) 443 :: map ToRemote written /\
  ((state_ r = ST_CONNECTING /\ concat written = [] /\ rx_buffer_ r = [22; 3; 1]) \/
   (state_ r = ST_RELAYING /\ concat written = [22; 3; 1])).
Proof.
  refine (client_to_destination (fun _ => eq_refl) conf_i (inport_conf_ok _ 5 _) 0 whole_talk (proj1 talk_fine) _ _
    conf_o (outport_conf_ok _) 0 serve_talk (proj2 talk_fine) _ 1 2 _ _
    [0] [22; 3; 1] 0 443 client_addr eq_refl _ _ _ _ _ _ 1 (proj1 talk_lasting) (up_way True) (proj1 talk_kept)).
  all: try (by split; [repeat constructor|]). all: try by vm_compute. apply bytes_test. by vm_compute.
Defined.

Definition talk_relay : FgwRelaySession :=
  default (new_relay 7 1) (os_heap (w_app (mn_world (remote_run conf_o 0 serve_talk))) !! 2).
Lemma talk_relay_at : os_heap (w_app (mn_world (remote_run conf_o 0 serve_talk))) !! 2 = Some talk_relay.
Proof. by vm_compute. Qed.
Lemma destination_to_client_witness :
  written (2 - 1) (is_out (w_app (mn_world (client_run conf_i 0 whole_talk)))) =
    greeted (state_ talk_relay) ++ remote_said conf_o 0 (7, 1) serve_talk /\
  greeted (state_ talk_relay) ++ remote_said conf_o 0 (7, 1) serve_talk =
    [5; 0; 5; 0; 0; 1; 0; 0; 0; 0; 0; 0; 79; 75].
Proof.
  split; [|by vm_compute].
  refine (destination_to_client (fun _ => eq_refl) conf_i (inport_conf_ok _ 5 _) 0 whole_talk (proj1 talk_fine) _ _
    conf_o (outport_conf_ok _) 0 serve_talk (proj2 talk_fine) _ 1 2 _ _ 2 talk_relay _
    talk_relay_at (proj1 talk_kept) 1 (proj2 talk_lasting) (down_way True) (proj2 talk_kept) _); by vm_compute.
Defined.

(** *** In BEST mode, on links that break inside a frame, both ways

    The inport's links both close and are dialled again; what the client says in between is
    lost. *)
Abbreviation best_i := (inport_conf ZFGW_MULTIPATH_BEST 5).
Abbreviation best_o := (outport_conf ZFGW_MULTIPATH_BEST).
Definition talk_long : list (node_step inport_step) :=
  talk1 ++ [NodeServe (InClient 1 [5; 1; 0; 3; 4; 97; 46; 105; 111; 1; 187]); NodeServe (InClient 1 [22; 3; 1]);
            NodeServe (InClient 1 [9; 9; 9; 9; 8; 8]); NodeLink (NetClose 1); NodeLink (NetClose 2);
            NodeServe (InClient 1 [7; 7]); NodeLink (NetTimer 0); NodeLink (NetTimer 0);
            NodeLink (NetOpen 3 8); NodeServe (InClient 1 [6])].
Abbreviation best_up := (wire_ (w_net (mn_world (client_run best_i 0 talk_long)))).
Definition best_hop1 : list transit_step := [TrAccept; TrOpen 1 1; TrOpen 3 3; TrBytes 3 6 (on_socket 1 best_up);
   TrAccept; TrOpen 4 8; TrBytes 4 9 (on_socket 3 best_up)].
Definition serve_cut : list (node_step (Z * socket_event)) :=
  [NodeLink NetAccept; NodeLink (NetOpen 1 5); NodeLink (NetBytes 1 6 (on_socket 1 (wire_t best_hop1)));
   NodeServe (1, SkOpen); NodeServe (1, SkBytes [79; 75])].
Abbreviation best_down := (wire_ (w_net (mn_world (remote_run best_o 0 serve_cut)))).
Definition best_hop : list transit_step := best_hop1 ++ [TrBytes 1 7 (on_socket 1 best_down)].
Definition talk_cut : list (node_step inport_step) :=
  talk_long ++ [NodeLink (NetBytes 3 9 (take 60 (on_socket 4 (wire_t best_hop)))); NodeLink (NetClose 3)].
Lemma best_delivering : forall p, In p (delivering best_hop hop_new) -> p = 1 \/ p = 3 \/ p = 4.
Proof.
  intros p Hp. assert (Hall : forallb (fun p => bool_decide (p = 1) || bool_decide (p = 3) || bool_decide (p = 4)) (delivering best_hop hop_new) = true) by (by vm_compute).
  rewrite forallb_forall in Hall. specialize (Hall p Hp). rewrite !orb_true_iff, !bool_decide_eq_true in Hall. tauto.
Qed.
Lemma cut_first_hop (ob : bool) rid src (conn : Z -> Z) :
  (forall p, p = 1 \/ p = 3 \/ p = 4 -> came ob p best_hop hop_new `prefix_of` on_socket (conn p) src) ->
  path False ob rid (7, 1) src (fun _ => True) (fun _ => True) (fun p => came ob p best_hop hop_new).
Proof.
  intros Hp. apply (by_links _ _ _ _ _ _ _ conn []); [constructor | |done]. intros p. left. split; [done|].
  destruct (in_dec Z.eq_dec p (delivering best_hop hop_new)) as [Hin|Hn]; [by apply Hp, best_delivering|].
  rewrite came_none by done. apply prefix_nil.
Qed.
Lemma cut_up : path False false 5 (7, 1) (wire_ (w_net (mn_world (client_run best_i 0 talk_cut)))) (fun _ => True) (fun _ => True)
  (fun ch => node_on serve_remote ch serve_cut (outport_node best_o 0)).
Proof.
  apply (by_transit _ _ _ _ _ _ _ outports 0 best_hop); [done | |].
  - apply (cut_first_hop _ _ _ (fun p => if p =? 3 then 1 else 3)). intros p [-> | [-> | ->]]; eexists; by vm_compute.
  - apply (path_one _ _ _ _ _ _ _ 1 1).
    + apply seen_test; [by vm_compute | apply hop_fine].
    + exists []. by vm_compute.
    + done.
    + intros ch Hne. apply node_on_none. unfold serve_cut. cbn [arriving app]. intros [|[]]; congruence.
Qed.
Lemma cut_down : path False true 7 (7, 1) best_down (fun _ => True) (fun _ => True)
  (fun ch => node_on serve_client ch talk_cut (inport_node best_i 0)).
Proof.
  apply (by_transit _ _ _ _ _ _ _ outports 0 best_hop); [done | |].
  - apply (cut_first_hop _ _ _ (fun _ => 1)). intros p [-> | [-> | ->]]; eexists; by vm_compute.
  - apply (path_one _ _ _ _ _ _ _ 3 4).
    + apply seen_test; [by vm_compute | apply hop_fine].
    + exists (drop 60 (on_socket 4 (wire_t best_hop))). by vm_compute.
    + done.
    + intros ch Hne. apply node_on_none. unfold talk_cut, talk_long, talk1. cbn [arriving app]. intros [|[]]; congruence.
Qed.
Lemma cut_fine : Forall (node_fine best_i) talk_cut /\ Forall (node_fine best_o) serve_cut.
Proof. split; apply node_fine_test; by vm_compute. Qed.
Lemma cut_kept : ~ gone (7, 1) (mn_world (remote_run best_o 0 serve_cut)) /\ ~ gone (7, 1) (mn_world (client_run best_i 0 talk_cut)).
Proof. split; (refine (bool_decide_unpack _ _); by vm_compute). Qed.
Lemma tunnel_integrity_witness :
  (out_of (7, 1) (os_out (w_app (mn_world (remote_run best_o 0 serve_cut)))) = [] \/
   exists written, out_of (7, 1) (os_out (w_app (mn_world (remote_run best_o 0 serve_cut)))) =
     Dial (host_text client_addr) 443 :: map ToRemote written /\ concat written `prefix_of` [22; 3; 1; 9; 9; 9; 9; 8; 8; 7; 7; 6]) /\
  out_of (7, 1) (os_out (w_app (mn_world (remote_run best_o 0 serve_cut)))) =
    [Dial (host_text client_addr) 443; ToRemote [22; 3; 1; 9; 9; 9; 9; 8; 8]].
Proof.
  split; [|by vm_compute].
  refine (proj1 (tunnel_integrity (fun _ => eq_refl) best_i (inport_conf_ok _ 5 _) 0 talk_cut (proj1 cut_fine) _ _
    best_o (outport_conf_ok _) 0 serve_cut (proj2 cut_fine) _ 1 2 _ _
    [0] [22; 3; 1; 9; 9; 9; 9; 8; 8; 7; 7; 6] 0 443 client_addr eq_refl _ _ _ _ _ _ cut_up (proj1 cut_kept) cut_down (proj2 cut_kept))).
  all: try (by split; [repeat constructor|]). all: try by vm_compute. apply bytes_test. by vm_compute.
Defined.
