(* ===== verification/Termination.v ===== *)
(** * Termination: the loops of the program end, and the fuel of the model is enough

    The loops over bytes and buffers are written with fuel; here they are shown to need no
    more than the model gives them, on every input. *)
From S2P Require Import Prelude Proto OMap Segment Pack ZdsInstance Channel Selector Links.
From S2P Require Import DataStream.
From S2P Require Import StreamFacts Framing Testbed Sending Relay Socks Manager Transit.
From S2P Require Import TransitWf TransitProps.

Section sending.
Context {H : Type} {app : SessionHandler H} {rt : ZdsRuntime} {T : Transport} {sort : StdSort}.

(** Each round of a send takes at least a byte off the buffer. *)
Lemma send_chunks_fuel n : forall m key sid buf k (w : world H), 0 < segment_size_ (cfg w) ->
  (length buf < n)%nat -> (length buf < m)%nat ->
  send_chunks n key sid buf k w = send_chunks m key sid buf k w.
Proof.
  induction n as [|n IH]; intros [|m] key sid buf k w Hs Hn Hm; [lia..|].
  destruct buf as [|b buf]; [done|]. cbn [send_chunks].
  destruct (find_session key w) as [st|]; [|done].
  set (chunk := Z.min _ _). set (w1 := put_session _ _ w).
  pose proof (sendSegment_only (wire_ingress_id st) sid (next_send_seq st) FLAG_DATA (Some (take (Z.to_nat chunk) (b :: buf))) chunk w1) as Ho.
  destruct (sendSegment _ _ _ _ _ _ w1) as [ret w2]. cbn [snd] in Ho. destruct (ret <? 0); [done|].
  apply IH.
  - by rewrite (ds_sess_cfg _ _ (sess_only_ds _ _ Ho)).
  - unfold chunk. rewrite length_drop, zlen_cons. pose proof (zlen_nonneg buf). cbn [length] in *. lia.
  - unfold chunk. rewrite length_drop, zlen_cons. pose proof (zlen_nonneg buf). cbn [length] in *. lia.
Qed.
End sending.

(** ** Properties *)

(** C25. The loops over bytes end.  On any input, more fuel than there are bytes changes
    nothing: the loop of the stream and that of the transit return, with the frames cut out
    in order and the incomplete rest kept, and the loop of a send puts all of the buffer
    into segments, whenever segments have a size; and the parser of a relay, in any state,
    returns within its four rounds. *)
Theorem loops_terminate {H : Type} {app : SessionHandler H} {rt : ZdsRuntime} {T : Transport}
    {sort : StdSort} {host : Host} (buf : bytes) (fuel : nat) (Hfuel : (length buf < fuel)%nat) :
  (forall ch (w : world H), parse_loop fuel ch buf w =
     Some (default [] (snd (split_frames buf)), on_frames ch (fst (split_frames buf)) w)) /\
  (forall a outbound t, link_loop fuel a outbound buf t =
     Some (default [] (snd (split_frames buf)), route_all a outbound (fst (split_frames buf)) t)) /\
  (forall key sid n (w : world H), 0 < segment_size_ (cfg w) ->
     send_chunks fuel key sid buf n w = send_chunks (S (length buf)) key sid buf n w) /\
  (forall s, Forall is_byte (rx_buffer_ s) -> Forall is_byte buf -> forall more, exists r,
     feed_loop (4 + more) (state_ s) (set_rx_buffer (rx_buffer_ s ++ buf) s) = Some r /\ feedRx buf s = r).
Proof.
  split_and!.
  - intros ch w. by apply parse_loop_split.
  - intros a ob t. by apply link_loop_split.
  - intros key sid n w Hs. apply send_chunks_fuel; [done | done | lia].
  - intros s Hb Hbuf more. destruct (feed_fuel (4 + more) 4 (set_rx_buffer (rx_buffer_ s ++ buf) s)) as (r & H1 & H2).
    + by apply Forall_app.
    + pose proof (rank_lt (state_ s)). cbn. lia.
    + apply rank_lt.
    + exists r. split; [exact H1|]. unfold feedRx. cbn [state_ set_rx_buffer] in *. by rewrite H2.
Qed.

Lemma loops_terminate_witness :
  parse_loop (app := listener) 30 11 [246; 1; 0] (test_sender ZFGW_MULTIPATH_ALL) = Some ([246; 1; 0], test_sender ZFGW_MULTIPATH_ALL).
Proof.
  assert (Hf : (length ([246; 1; 0]%Z : bytes) < 30)%nat) by (simpl; lia).
  exact (proj1 (loops_terminate (app := listener) (host := transit_host) [246; 1; 0] 30 Hf) 11 (test_sender ZFGW_MULTIPATH_ALL)).
Defined.
